(* ===== verification/_CoqProject ===== *)
-Q . S2P
Prelude.v
CArith.v
Layout.v
Interfaces.v
Frames.v
Mmu.v
Paging.v
PagingFacts.v
PageMap.v
DemoMachine.v
PdtMap.v
PageFind.v
PdtCreate.v
PageUnmap.v
PageServices.v
PagingServices.v
ProcessPages.v
Ring.v
Kmalloc.v
HeapLayout.v
KmallocFacts.v
KmallocSpec.v
KmallocTrace.v
FramesInit.v
BitmapFacts.v
FramesBoot.v
StringLib.v
MemoryMap.v
FramesInitSpec.v
Tty.v
TtyFacts.v
TtySpec.v
Printk.v
TtySafe.v
Gdt.v
Machine.v
StackView.v
Calls.v
Interrupts.v
Tasks.v
Scheduler.v
ProcessServices.v
SchedulerSpec.v
Process.v
TaskBlocks.v
ProcessCreate.v
Messages.v
SchedulerDemo.v
ProcessSpec.v
ProcessDemo.v
Devices.v
InterruptsSpec.v
Stubs.v
InterruptRun.v
UserMode.v
Segments.v
Routines.v
Exceptions.v
Kernel.v
KernelSpec.v
KernelBoot.v
BootAsm.v
Multitask.v
MultitaskSpec.v
TaskRoutines.v
