(* ===== verification/Prelude.v ===== *)
(** * newbos: a verification library for the newbos kernel

    newbos is a small kernel for the i386. GRUB loads it, boot.s enters paging with
    the first 4 MB mapped on themselves and at 3 GB, and [kernel_main]
    (src/kernel/kernel.c) then loads the segment and interrupt tables, clears the
    console, hands the free physical memory to a frame allocator, and from there
    on everything stands on what is below it: page tables on frames, the heap on
    page tables, processes and the scheduler on the heap and on page tables.
    This library models the C code of the kernel, and the assembler it is entered,
    interrupted and left through, component by component, and proves what each
    promises.

    ** How the code is modelled

    A C function that touches memory or statics is a computation of the monad
    [M St] of this file, on a record [St] of the statics of its translation
    unit and the memory it reaches. It ends in [Ok], in [Fault] when it makes an
    access it has no right to make (an unmapped or unaligned address, an index
    outside of an array, an argument [va_arg] does not find, a division by zero), or in
    [OutOfFuel]. A function whose call does not come back to its caller, because of a
    routine in assembler that takes the processor elsewhere, answers a [control]:
    [Back] with its value, or [Away] with the address that matters where the run of the
    C code ends, and [⟫=] goes on after such a call only from [Back]. Unsigned integers are [Z] with the wrap-around of their type
    written out ([u8], [u16], [u32]); pointers are the numbers they are. A
    counted loop is [for_each] over its indices; any other loop takes fuel, and
    where the code always ends a theorem says that it does, with the bound: 1025
    turns in a page table, one turn a page for a mapping, the length of the free
    list or of the process list plus one for the heap and the scheduler, eleven
    for the digits of a number. Loops that do not always end ([pdt_unmap_memory])
    take the caller's fuel, and that they do not end is proved for every fuel.

    The levels meet at interfaces, each a class of operations and a class of
    laws, which the level below has an instance of and the theorems above are
    proved against: [FrameOps]/[FrameLaws] (Interfaces, instance in Frames),
    [PageOps]/[PageLaws] (PageServices, instance in PagingServices),
    [ProcessPageOps]/[ProcessPageLaws] (Tasks, instance in ProcessServices).

    The routines in assembler are lists of instructions, run on a machine with
    registers, segments, control registers, memory by words, and paging (Machine); the
    state of the C code rides along as the [world] of the machine, and a C function
    that is called is any code that keeps to the calling convention ([compiled] of
    Stubs). The structures of the C code are declared as they stand in the source, and
    the offsets all files use are computed from the declarations (Layout).

    ** The parts

    - Prelude: machine integers, bits, the monad, lists. CArith: [align_up],
      [align_down], [div_ceil] of paging.c. Layout: every [struct] of the C code,
      and the rules of the i386 for sizes and offsets.
    - Frames: the frame allocator of kernel/arch/i386/paging.c ([pfa_allocate],
      [pfa_free], the bitmap and its conversions) and its invariant [frames_wf].
      FramesInit, MemoryMap, BitmapFacts, FramesBoot, FramesInitSpec: [frames_init],
      from the memory map of GRUB to the first state of the allocator.
    - Mmu: 32-bit words of memory, entries of tables, and the translation [walk]
      of the processor. Paging: every function of paging.c on page tables, through
      the temporary window as in the code. PagingFacts, PageMap, PdtMap (mapping),
      PageFind (free addresses), PdtCreate (directories of processes), PageUnmap
      (unmapping), DemoMachine (the machine of the witnesses).
    - PageServices, PagingServices: what paging.c promises to the heap. ProcessPages:
      the pages of a process, one after the other, when frames and entries are free.
    - Kmalloc: kernel/kmalloc.c over any [PageOps]. Ring (the circular free
      list), HeapLayout (blocks do not overlap), KmallocFacts ([kfree]),
      KmallocSpec ([kmalloc]), KmallocTrace (any sequence of calls).
    - StringLib: lib/string.c over a memory of bytes.
    - Tty: kernel/arch/i386/tty.c. TtyFacts (each operation on the frame
      buffer), TtySpec (the abstract console and the refinement), TtySafe (before
      the screen is cleared). Printk: kernel/printk.c and the reference it agrees with.
    - Gdt: kernel/arch/i386/gdt.c and the decoding of descriptors.
    - Interrupts: kernel/arch/i386/interrupts.c, interrupts.h and [abort] of
      lib/stdlib.c. Devices: keyboard.c and timer.c. InterruptsSpec: their theorems.
      Exceptions: what is shown on an exception of the processor.
    - Machine: the part of the i386 the assembler uses. StackView: routines that work
      on a stack, computed on a list of words. Stubs: interrupts_assembler.s between
      the processor and the handlers in C. InterruptRun: sequences of interrupts while
      other code runs. UserMode: scheduler_assembler.s. Calls: routines C calls with an
      argument. Segments: gdt_assembler.s, and the table as bytes in memory. Routines:
      paging_assembler.s, io.s and task.s. BootAsm: boot.s and linker.ld, from GRUB to
      the call of [kernel_main].
    - Tasks: the layout of [struct process], the task state segment. Scheduler:
      kernel/scheduler.c; SchedulerSpec: it implements a queue. Process:
      kernel/process.c; TaskBlocks (the blocks it allocates and their contents while
      it runs), ProcessCreate (its parts, one step each, and what it makes),
      ProcessSpec. ProcessServices: the instance. SchedulerDemo, ProcessDemo: a
      concrete queue and a concrete machine.
    - Messages: the types of what these components log for [printk], over all of
      their operations.
    - Kernel: [kernel_main] of kernel/kernel.c over the joined state of the
      components ([kernel_boot] is what comes before its endless loop); KernelSpec,
      KernelBoot (the components one after the other, up to the first process, and
      the machine from there on).
    - Multitask: the tasks of kernel/arch/i386/task.c, which is not built any
      more, over the page functions it was written for; MultitaskSpec; TaskRoutines:
      task.s on the machine does what Multitask says of it.

    ** The theorems

    - C1 to C3: no frame is handed out twice or lost over any sequence of calls,
      first fit, blocks inside one region, and when none may be refused.
    - C4 to C11: mapping maps what was asked, keeps every translation in use, and
      succeeds when frames are left; the search is first fit and always ends; a
      new directory is fresh, or the first page of memory when no frame is left;
      loading it keeps the kernel; unmapping is right inside one table, and where it
      never ends.
    - C12 to C14: the heap over any sequence of calls: exclusive blocks,
      contents kept, reuse of what is freed.
    - C15: [memmove]; the other string functions are lemmas.
    - C16: boot.s hands over to [kernel_main] in the state C18 and C36 start from.
    - C17 to C19: the memory map kept at boot, and that [frames_init] establishes
      the invariants C1 to C14 start from; every bit of the bitmap made, and the frames
      it loses.
    - C20 to C23: the console refines a screen of characters, its numbers read
      back, [printk] agrees with a reference on every format and argument.
    - C24 to C28: the segments of the kernel get loaded; an interrupt is invisible to
      the code it interrupts, and so is any sequence of them; the timer; the report of
      an exception.
    - C29 to C31: the scheduler is a queue, up to the call that is to run a process;
      numbers of processes are fresh.
    - C32: [run_process_in_user_mode] does not enter user mode.
    - C33, C34: [process_create] succeeds on any machine with room, and what it
      makes; the first turn of a process, which hides its code.
    - C35, C36: [kernel_main] refuses a wrong magic number, for any state of the
      rest; with the right one, a boot from GRUB's memory map to the call of
      [run_process_in_user_mode], on any machine with room for the bitmap and 64 frames
      more in one region, and that the machine is stuck after it (C32).
    - C37: every message logged has as many integers as its format reads, but one.
    - C38, C40: the tasks of task.c: the stack that is moved, [fork], and that neither
      comes back to its caller.
    - C39: the routines of paging_assembler.s, io.s and task.s that do come back do what
      the model of the C code takes them to do.

    ** Choices

    The bitmap's cells are a list of their own, not words of the memory that
    holds the page tables: [frames_init] puts them in frames it keeps. The heap
    likewise has its own memory, indexed by virtual address; that an address
    is mapped is asked of the paging code. There is no translation cache: the
    pages the code invalidates are recorded. Calls of [printk] from paging.c, kmalloc.c,
    scheduler.c and process.c are logged as format and arguments ([kmsg]), with the
    escape sequences of the source's literals left as they stand there; console,
    keyboard and timer use the interpreter of Printk itself. [struct process]
    and the stack task.c moves are cleared and copied by words, where the code uses bytes.

    ** Not modelled

    Interrupts are taken between the steps of the assembler's machine (C25, C26);
    a computation of the C model is not interrupted inside: by C26 an interrupt
    leaves the code it interrupts as it is until a key is pressed. The C model calls the
    routines in assembler that come back by what they do (their effect or their argument is
    recorded), and that they do this is proved apart, in Segments and Routines; [idt_flush],
    which loads the table the processor finds the gates in, is only recorded. At the calls of
    [run_process_in_user_mode], [set_esp] and [get_eip], which do not come back to C code
    that can go on, the run of the C code ends (UserMode, TaskRoutines); what a compiled
    function would do with the stack and the segments they leave is not modelled.
    Changes of privilege: an interrupt of user mode cannot happen, as user mode is never
    entered (C32). Of the machine: other flags than those [jle] reads and the interrupt
    flag, unaligned and partial words, the fetch of instructions.
    The page functions task.c calls and its [kmalloc] are parameters of Multitask, where
    the stack pointer is the one inside of the routines of task.s, and what the C code
    pushes itself is left out. *)

From stdpp Require Export base tactics option list list_numbers numbers gmap strings.
From Stdlib Require Export ZArith Lia.


Open Scope Z_scope.

(** ** Machine integers

    A C unsigned integer is the [Z] of its value; every operation that can
    wrap is followed by the conversion of its type, as C defines it. *)

Declare Scope c_scope.
Delimit Scope c_scope with C.

Definition u8 (z : Z) : Z := z mod 256.
Definition u16 (z : Z) : Z := z mod 65536.
Definition u32 (z : Z) : Z := z mod 4294967296.

(** The conversion to [int16_t] of the i386 ABI (two's complement). *)
Definition i16 (z : Z) : Z := (z + 32768) mod 65536 - 32768.

Notation "a +ᵤ b" := (u32 (a + b)) (at level 50, left associativity) : c_scope.
Notation "a -ᵤ b" := (u32 (a - b)) (at level 50, left associativity) : c_scope.
Notation "a *ᵤ b" := (u32 (a * b)) (at level 40, left associativity) : c_scope.
Notation "a <<ᵤ b" := (u32 (Z.shiftl a b)) (at level 45, left associativity) : c_scope.

Open Scope c_scope.

Abbreviation is_u8 z := (0 <= z < 256).
Abbreviation is_u16 z := (0 <= z < 65536).
Abbreviation is_u32 z := (0 <= z < 4294967296).

Lemma u32_range z : is_u32 (u32 z).
Proof. apply Z.mod_pos_bound. lia. Qed.

Lemma u16_range z : is_u16 (u16 z).
Proof. apply Z.mod_pos_bound. lia. Qed.

Lemma u8_range z : is_u8 (u8 z).
Proof. apply Z.mod_pos_bound. lia. Qed.

Lemma u32_small z : is_u32 z → u32 z = z.
Proof. apply Z.mod_small. Qed.

Lemma u16_small z : is_u16 z → u16 z = z.
Proof. apply Z.mod_small. Qed.

Lemma u8_small z : is_u8 z → u8 z = z.
Proof. apply Z.mod_small. Qed.

Lemma u32_idem z : u32 (u32 z) = u32 z.
Proof. apply u32_small, u32_range. Qed.

Create HintDb cint discriminated.
Create Rewrite HintDb cint.
#[export] Hint Resolve u32_range u16_range u8_range : cint.
#[export] Hint Rewrite u32_idem : cint.
#[export] Hint Rewrite u32_small u16_small u8_small using lia : cint.

(** [clia]: linear arithmetic over C integers, wrap-around included. *)
Ltac clia :=
  unfold u32, u16, u8 in *; Z.to_euclidean_division_equations; lia.

(** Drop every conversion whose argument is provably in range. *)
Ltac csimp := repeat
  match goal with
  | |- context [u32 ?z] => rewrite (u32_small z) by lia
  | |- context [u16 ?z] => rewrite (u16_small z) by lia
  | |- context [u8 ?z] => rewrite (u8_small z) by lia
  end.

(** ** Bits *)

Lemma testbit_true_shiftr a i :
  0 <= i → (Z.land (Z.shiftr a i) 1 =? 1) = Z.testbit a i.
Proof.
  intros Hi. rewrite <- (Z.add_0_l i) at 2. rewrite <- Z.shiftr_spec by lia.
  change 1 with (Z.ones 1) at 1. rewrite Z.land_ones by lia. change (2 ^ 1) with 2.
  rewrite Z.bit0_odd, <- Z.bit0_mod, Z.bit0_odd. by destruct (Z.odd _).
Qed.

Lemma lxor_u32 a b : is_u32 a → is_u32 b → is_u32 (Z.lxor a b).
Proof.
  intros Ha Hb. change 4294967296 with (2 ^ 32) in *.
  assert (0 <= Z.lxor a b) by (apply Z.lxor_nonneg; lia).
  destruct (decide (Z.lxor a b = 0)) as [->|]; [lia|].
  split; [lia|]. apply Z.log2_lt_pow2; [lia|].
  pose proof (Z.log2_lxor a b ltac:(lia) ltac:(lia)).
  destruct (decide (a = 0)) as [->|], (decide (b = 0)) as [->|]; simpl in *;
    repeat match goal with
    | H : 0 <= ?x < 2 ^ 32, Hn : ?x ≠ 0 |- _ =>
      assert (Z.log2 x < 32) by (apply Z.log2_lt_pow2; lia); clear Hn
    end; lia.
Qed.

(** Decide a property of bytes by trying them all. *)
Lemma forall_u8 (P : Z → bool) :
  forallb P (seqZ 0 256) = true → ∀ z, is_u8 z → P z = true.
Proof.
  intros H z Hz. rewrite forallb_forall in H. apply H.
  apply list_elem_of_In, elem_of_seqZ. lia.
Qed.

(** A disjunction with bits below the shift is a sum. *)
Lemma lor_shiftl_add a n b :
  0 <= n → 0 <= b < 2 ^ n → Z.lor (Z.shiftl a n) b = a * 2 ^ n + b.
Proof.
  intros Hn Hb. rewrite <- Z.shiftl_mul_pow2 by done. symmetry. apply Z.add_nocarry_lor.
  apply Z.bits_inj'. intros i Hi. rewrite Z.land_spec, Z.testbit_0_l, Z.shiftl_spec by done.
  destruct (decide (i < n)).
  - by rewrite Z.testbit_neg_r by lia.
  - rewrite <- (Z.mod_small b (2 ^ n)), Z.mod_pow2_bits_high by lia. by rewrite andb_false_r.
Qed.

(** Masks made of ones are remainders. *)
Lemma land_0x3FF a : Z.land a 0x3FF = a mod 1024.
Proof. change 0x3FF with (Z.ones 10). by rewrite Z.land_ones. Qed.

Lemma land_0xFFFF a : Z.land a 0xFFFF = a mod 65536.
Proof. change 0xFFFF with (Z.ones 16). by rewrite Z.land_ones. Qed.

Lemma land_0xFF a : Z.land a 0xFF = a mod 256.
Proof. change 0xFF with (Z.ones 8). by rewrite Z.land_ones. Qed.

Lemma land_0xF a : Z.land a 0xF = a mod 16.
Proof. change 0xF with (Z.ones 4). by rewrite Z.land_ones. Qed.

Lemma land_1 a : Z.land a 1 = a mod 2.
Proof. change 1 with (Z.ones 1) at 1. by rewrite Z.land_ones. Qed.

(** ** Effects

    A C function that reads or writes its translation unit's state is a
    computation of [M St]: it ends normally, it stops on an access the C
    program has no right to make ([Fault]), or, for loops that need not end,
    it uses up the fuel it was given ([OutOfFuel]). *)

Inductive outcome (A : Type) : Type :=
| Ok (a : A)
| Fault
| OutOfFuel.
Arguments Ok {A} a.
Arguments Fault {A}.
Arguments OutOfFuel {A}.

Definition M (St A : Type) : Type := St → outcome (A * St).

#[global] Instance M_ret St : MRet (M St) := λ A a s, Ok (a, s).
#[global] Instance M_bind St : MBind (M St) := λ A B f m s,
  match m s with
  | Ok (a, s') => f a s'
  | Fault => Fault
  | OutOfFuel => OutOfFuel
  end.

Definition fault {St A} : M St A := λ _, Fault.
Definition out_of_fuel {St A} : M St A := λ _, OutOfFuel.
Definition gets {St A} (f : St → A) : M St A := λ s, Ok (f s, s).
Definition modify {St} (f : St → St) : M St unit := λ s, Ok (tt, f s).
Definition of_option {St A} (o : option A) : M St A := λ s,
  match o with Some a => Ok (a, s) | None => Fault end.

(** A counted loop whose bounds do not change: its body over the indices. *)
Fixpoint for_each {St A} (l : list A) (body : A → M St unit) : M St unit :=
  match l with
  | [] => mret tt
  | x :: l' => body x ≫= λ _, for_each l' body
  end.

(** Run a computation on a part of a larger state. *)
Definition zoom {Big St A} (get : Big → St) (set : St → Big → Big) (m : M St A)
    : M Big A := λ b,
  match m (get b) with
  | Ok (a, s') => Ok (a, set s' b)
  | Fault => Fault
  | OutOfFuel => OutOfFuel
  end.

(** The value returned and the final state of a run that ended normally. *)
Definition result {St A} (o : outcome (A * St)) : option A :=
  match o with Ok (a, _) => Some a | _ => None end.
Definition final {St A} (o : outcome (A * St)) : option St :=
  match o with Ok (_, s) => Some s | _ => None end.

Lemma result_ok {St A} (o : outcome (A * St)) a s a' :
  o = Ok (a, s) → result o = Some a' → a = a'.
Proof. intros ->. simpl. congruence. Qed.

Lemma bind_ok {St A B} (m : M St A) (f : A → M St B) s a s' :
  m s = Ok (a, s') → (m ≫= f) s = f a s'.
Proof. intros H. unfold mbind, M_bind. by rewrite H. Qed.

Lemma bind_ok_inv {St A B} (m : M St A) (f : A → M St B) s r :
  (m ≫= f) s = Ok r → ∃ a s', m s = Ok (a, s') ∧ f a s' = Ok r.
Proof.
  unfold mbind, M_bind. destruct (m s) as [[a s']| |]; try done. eauto.
Qed.

Lemma bind_assoc {St A B C} (m : M St A) (f : A → M St B) (g : B → M St C) s :
  ((m ≫= f) ≫= g) s = (m ≫= λ a, f a ≫= g) s.
Proof. unfold mbind, M_bind. by destruct (m s) as [[]| |]. Qed.

(** A routine in assembler that is called need not leave the machine in a state its
    caller in C can go on from. A function on whose way there is such a call answers
    [Back x] when it returns [x], and [Away a] when that is where the run of the C
    code ends; what [a] is depends on the routine. *)
Inductive control (A : Type) : Type :=
| Back (x : A)
| Away (a : Z).
Arguments Back {A} x.
Arguments Away {A} a.

Definition go_on {St A B} (m : M St (control A)) (f : A → M St (control B)) : M St (control B) :=
  m ≫= λ c, match c with Back x => f x | Away a => mret (Away a) end.

Notation "m ⟫= f" := (go_on m f) (at level 60, right associativity) : stdpp_scope.

Lemma go_on_back {St A B} (m : M St (control A)) (f : A → M St (control B)) s x s' :
  m s = Ok (Back x, s') → (m ⟫= f) s = f x s'.
Proof. intros E. unfold go_on. by rewrite (bind_ok _ _ _ _ _ E). Qed.

Lemma go_on_away {St A B} (m : M St (control A)) (f : A → M St (control B)) s a s' :
  m s = Ok (Away a, s') → (m ⟫= f) s = Ok (Away a, s').
Proof. intros E. unfold go_on. by rewrite (bind_ok _ _ _ _ _ E). Qed.

(** Step through a computation that is known to have ended normally. *)
Ltac minv :=
  repeat match goal with
  | H : (_ ≫= _) _ = Ok _ |- _ =>
    apply bind_ok_inv in H as (?&?&?&H)
  | H : mret _ _ = Ok _ |- _ => unfold mret, M_ret in H
  | H : gets _ _ = Ok _ |- _ => unfold gets in H
  | H : modify _ _ = Ok _ |- _ => unfold modify in H
  | H : Ok _ = Ok _ |- _ => injection H as H; subst
  | H : of_option ?o _ = Ok _ |- _ =>
    unfold of_option in H; destruct o eqn:?; [|discriminate H]
  | H : fault _ = Ok _ |- _ => discriminate H
  | H : out_of_fuel _ = Ok _ |- _ => discriminate H
  | H : Fault = Ok _ |- _ => discriminate H
  | H : OutOfFuel = Ok _ |- _ => discriminate H
  | H : (_, _) = (_, _) |- _ => injection H as ? ?; subst
  end.

(** ** Messages

    A call of [printk] outside of the console driver is recorded as its format
    string and its numeric arguments, the latest first; [Printk] gives what the
    console shows for one. *)

Definition kmsg : Type := string * list Z.

(** ** Lists *)

Lemma seqZ_step m n : 0 < n → seqZ m n = m :: seqZ (m + 1) (n - 1).
Proof. intros. by rewrite seqZ_cons by lia. Qed.
