(* ===== verification/CArith.v ===== *)
(** * CArith: the arithmetic helpers of kernel/arch/i386/paging.c

    [align_up], [align_down] and [div_ceil] on [uint32_t] (the last is repeated
    in kmalloc.c and process.c). *)

From S2P Require Import Prelude.

Definition FOUR_KB : Z := 0x1000.

Definition align_up (n a : Z) : Z :=
  let m := n mod a in
  if m =? 0 then n else n +ᵤ (a - m).

Definition align_down (n a : Z) : Z := n - n mod a.

Definition div_ceil (num den : Z) : Z := (num -ᵤ 1) / den +ᵤ 1.

(** [align_up] is the least multiple that is not below, unless that one does
    not fit in 32 bits, where it wraps to 0. *)
Lemma align_up_eq n a :
  is_u32 n → 0 < a → align_up n a = u32 ((n + a - 1) / a * a).
Proof.
  intros Hn Ha. unfold align_up. pose proof (Z.mod_pos_bound n a Ha).
  pose proof (Z.div_mod n a ltac:(lia)) as Hdm.
  destruct (Z.eqb_spec (n mod a) 0) as [E|E].
  - rewrite <- (Z.div_unique_pos (n + a - 1) a (n / a) (a - 1)) by lia. rewrite u32_small; lia.
  - rewrite <- (Z.div_unique_pos (n + a - 1) a (n / a + 1) (n mod a - 1)) by lia. f_equal. lia.
Qed.

Lemma align_up_page n :
  0 <= n <= 4294963200 → align_up n 4096 = (n + 4095) / 4096 * 4096.
Proof.
  intros. rewrite align_up_eq by lia. rewrite u32_small.
  - f_equal. f_equal. lia.
  - Z.to_euclidean_division_equations; lia.
Qed.

Lemma align_up_id n a : n mod a = 0 → align_up n a = n.
Proof. unfold align_up. by intros ->. Qed.

Lemma align_down_spec n a :
  0 < a → align_down n a mod a = 0 ∧ align_down n a <= n < align_down n a + a.
Proof. intros. unfold align_down.
  pose proof (Z.mod_pos_bound n a ltac:(lia)). pose proof (Z.div_mod n a ltac:(lia)).
  split; [|lia]. replace (n - n mod a) with (n / a * a) by lia. apply Z.mod_mul. lia. Qed.

(** [div_ceil] is the ceiling of the quotient, except for a numerator of 0. *)
Lemma div_ceil_eq n d : 0 < n < 4294967296 → 0 < d → div_ceil n d = (n + d - 1) / d.
Proof.
  intros Hn Hd. unfold div_ceil. csimp.
  replace ((n + d - 1) / d) with ((n - 1) / d + 1).
  - rewrite u32_small; [done|]. assert ((n - 1) / d <= n - 1) by (apply Z.div_le_upper_bound; nia).
    assert (0 <= (n - 1) / d) by (apply Z.div_pos; lia). lia.
  - replace (n + d - 1) with (n - 1 + 1 * d) by lia. rewrite Z.div_add by lia. done.
Qed.

Lemma div_ceil_zero d : 0 < d → div_ceil 0 d = 4294967295 / d +ᵤ 1.
Proof. done. Qed.
