(* ===== verification/Layout.v ===== *)
(** * Layout: the structures of the C code in memory

    Each [struct] of the kernel as it is declared, and the sizes and offsets the
    compiler gives its fields by the rules of the i386 ABI. The offsets the other
    files read and write at are computed from these declarations. *)

From S2P Require Import Prelude.

(** ** Types

    The integer types have their width in their name; an [enum] or a bit field does
    not occur. A pointer names what it points to, which its layout does not depend on. *)

Unset Elimination Schemes.
Inductive ctype :=
| U8
| U16
| U32
| U64
| I32
| Pointer (target : string)
| Struct (packed : bool) (fields : list (string * ctype))
| Union (members : list (string * ctype)).
Set Elimination Schemes.

(** Induction with the hypothesis for every field. *)
Lemma ctype_fields_ind (P : ctype → Prop) :
  P U8 → P U16 → P U32 → P U64 → P I32 → (∀ x, P (Pointer x)) →
  (∀ packed fs, Forall (λ f, P f.2) fs → P (Struct packed fs)) →
  (∀ fs, Forall (λ f, P f.2) fs → P (Union fs)) →
  ∀ t, P t.
Proof.
  intros H1 H2 H3 H4 H5 H6 HS HU. fix IH 1.
  intros [| | | | |x|packed fs|fs]; [exact H1|exact H2|exact H3|exact H4|exact H5|apply H6|apply HS|apply HU];
    (induction fs; constructor; [apply IH|done]).
Qed.

(** The least multiple of [a] from [off] on. *)
Definition round_up (off a : Z) : Z := (off + a - 1) / a * a.

(** A type of eight bytes is aligned to four on the i386. *)
Fixpoint alignof (t : ctype) : Z :=
  match t with
  | U8 => 1
  | U16 => 2
  | U32 | U64 | I32 | Pointer _ => 4
  | Struct true _ => 1
  | Struct false fs | Union fs => foldr (λ '(_, t) n, Z.max (alignof t) n) 1 fs
  end.

(** How a field of type [t] is aligned in a structure. *)
Definition falign (packed : bool) (t : ctype) : Z := if packed then 1 else alignof t.

Fixpoint sizeof (t : ctype) : Z :=
  match t with
  | U8 => 1
  | U16 => 2
  | U32 | I32 | Pointer _ => 4
  | U64 => 8
  | Struct packed fs =>
    round_up (foldl (λ off '(_, t), round_up off (falign packed t) + sizeof t) 0 fs) (alignof t)
  | Union fs => round_up (foldr (λ '(_, t) n, Z.max (sizeof t) n) 0 fs) (alignof t)
  end.

(** The fields from the offset [off] on, each at the next place that suits it. *)
Fixpoint place (packed : bool) (off : Z) (fs : list (string * ctype)) : list (string * Z * ctype) :=
  match fs with
  | [] => []
  | (x, t) :: fs =>
    let o := round_up off (falign packed t) in (x, o, t) :: place packed (o + sizeof t) fs
  end.

Definition fields (t : ctype) : list (string * Z * ctype) :=
  match t with
  | Struct packed fs => place packed 0 fs
  | Union fs => (λ '(x, t), (x, 0, t)) <$> fs
  | _ => []
  end.

(** The member a path of names leads to, with its offset. *)
Fixpoint member (t : ctype) (path : list string) : option (Z * ctype) :=
  match path with
  | [] => Some (0, t)
  | x :: path =>
    '(_, o, u) ← head (filter (λ f, f.1.1 = x) (fields t));
    '(o', u') ← member u path; Some (o + o', u')
  end.

(** C's [offsetof]; a name that is not there does not compile, here it gives -1. *)
Definition offsetof (t : ctype) (path : list string) : Z := default (-1) (fst <$> member t path).

(** ** The structures

    multiboot.h: what GRUB writes and reads. *)

Definition multiboot_header : ctype :=
  Struct false [("magic", U32); ("flags", U32); ("checksum", U32);
    ("header_addr", U32); ("load_addr", U32); ("load_end_addr", U32); ("bss_end_addr", U32);
    ("entry_addr", U32);
    ("mode_type", U32); ("width", U32); ("height", U32); ("depth", U32)].

Definition multiboot_aout_symbol_table : ctype :=
  Struct false [("tabsize", U32); ("strsize", U32); ("addr", U32); ("reserved", U32)].

Definition multiboot_elf_section_header_table : ctype :=
  Struct false [("num", U32); ("size", U32); ("addr", U32); ("shndx", U32)].

Definition multiboot_info : ctype :=
  Struct false [("flags", U32);
    ("mem_lower", U32); ("mem_upper", U32);
    ("boot_device", U32);
    ("cmdline", U32);
    ("mods_count", U32); ("mods_addr", U32);
    ("u", Union [("aout_sym", multiboot_aout_symbol_table);
                 ("elf_sec", multiboot_elf_section_header_table)]);
    ("mmap_length", U32); ("mmap_addr", U32);
    ("drives_length", U32); ("drives_addr", U32);
    ("config_table", U32);
    ("boot_loader_name", U32);
    ("apm_table", U32);
    ("vbe_control_info", U32); ("vbe_mode_info", U32);
    ("vbe_mode", U16); ("vbe_interface_seg", U16); ("vbe_interface_off", U16);
    ("vbe_interface_len", U16)].

Definition multiboot_mmap_entry : ctype :=
  Struct true [("size", U32); ("addr", U64); ("len", U64); ("type", U32)].

Definition multiboot_mod_list : ctype :=
  Struct false [("mod_start", U32); ("mod_end", U32); ("cmdline", U32); ("pad", U32)].

(** interrupts.h and gdt.c: what the processor reads; [struct_registers] is what the
    stubs of interrupts_assembler.s push. *)

Definition idt_entry_struct : ctype :=
  Struct true [("base_lo", U16); ("selector", U16); ("always0", U8); ("flags", U8); ("base_hi", U16)].

Definition idt_ptr_struct : ctype := Struct true [("limit", U16); ("base", U32)].

Definition struct_registers : ctype :=
  Struct false [("gs", U32); ("fs", U32); ("es", U32); ("ds", U32);
    ("edi", U32); ("esi", U32); ("ebp", U32); ("esp", U32); ("ebx", U32); ("edx", U32); ("ecx", U32); ("eax", U32);
    ("interrupt_number", U32); ("error_code", U32);
    ("eip", U32); ("cs", U32); ("eflags", U32); ("useresp", U32); ("ss", U32)].

Definition struct_gdt_entry : ctype :=
  Struct true [("limit_low", U16); ("base_low", U16); ("base_mid", U8); ("access", U8);
    ("granularity", U8); ("base_high", U8)].

Definition struct_gdt_ptr : ctype := Struct true [("limit", U16); ("base", U32)].

(** paging.h and paging.c. *)

Definition struct_pde : ctype := Struct true [("config", U8); ("low_addr", U8); ("high_addr", U16)].

Definition struct_pte : ctype := Struct true [("config", U8); ("middle", U8); ("high_addr", U16)].

Definition struct_memory_map : ctype := Struct false [("addr", U32); ("len", U32)].

Definition struct_page_frame_bitmap : ctype := Struct false [("start", Pointer "uint32_t"); ("len", U32)].

(** kmalloc.c; [size_t] is 32 bits wide. *)

Definition struct_header : ctype := Struct false [("next", Pointer "struct header"); ("size", U32)].

(** process.h and scheduler.c. *)

Definition struct__registers : ctype :=
  Struct true [("eax", U32); ("ebx", U32); ("ecx", U32); ("edx", U32); ("ebp", U32); ("esi", U32);
    ("edi", U32); ("ss", U32); ("esp", U32); ("eflags", U32); ("cs", U32); ("eip", U32)].

Definition struct_tss : ctype :=
  Struct true [("prev_task_link", U16); ("reserved", U16);
    ("esp0", U32); ("ss0", U16); ("reserved0", U16);
    ("esp1", U32); ("ss1", U16); ("reserved1", U16);
    ("esp2", U32); ("ss2", U16); ("reserved2", U16);
    ("cr3", U32); ("eip", U32); ("eflags", U32); ("eax", U32); ("ecx", U32); ("edx", U32);
    ("ebx", U32); ("esp", U32); ("ebp", U32); ("esi", U32); ("edi", U32);
    ("es", U16); ("reserved3", U16); ("cs", U16); ("reserved4", U16); ("ss", U16); ("reserved5", U16);
    ("ds", U16); ("reserved6", U16); ("fs", U16); ("reserved7", U16); ("gs", U16); ("reserved8", U16);
    ("ldt_ss", U16); ("reserved9", U16);
    ("debug_and_reserved", U16); ("io_map_base", U16)].

Definition struct_paddr_ele : ctype :=
  Struct false [("paddr", U32); ("count", U32); ("next", Pointer "struct paddr_ele")].

Definition struct_paddr_list : ctype :=
  Struct false [("start", Pointer "struct paddr_ele"); ("end", Pointer "struct paddr_ele")].

Definition struct_process : ctype :=
  Struct false [("id", U32); ("parent_id", U32);
    ("pdt", Pointer "struct pde"); ("pdt_paddr", U32);
    ("current", struct__registers); ("user_mode", struct__registers);
    ("kernel_stack_start_vaddr", U32); ("stack_start_vaddr", U32); ("code_start_vaddr", U32);
    ("code_paddrs", struct_paddr_list); ("stack_paddrs", struct_paddr_list);
    ("kernel_stack_paddrs", struct_paddr_list)].

Definition struct_process_list_element : ctype :=
  Struct false [("next", Pointer "struct process_list_element"); ("ps", Pointer "struct process")].

Definition struct_process_list : ctype :=
  Struct false [("start", Pointer "struct process_list_element"); ("end", Pointer "struct process_list_element")].

(** task.h; [page_directory_t] is a type of a paging.h that is gone. *)

Definition struct_task : ctype :=
  Struct false [("id", I32); ("esp", U32); ("ebp", U32); ("eip", U32);
    ("page_directory", Pointer "page_directory_t"); ("next", Pointer "struct task")].

Definition structures : list ctype :=
  [multiboot_header; multiboot_aout_symbol_table; multiboot_elf_section_header_table; multiboot_info;
   multiboot_mmap_entry; multiboot_mod_list; idt_entry_struct; idt_ptr_struct; struct_registers;
   struct_gdt_entry; struct_gdt_ptr; struct_pde; struct_pte; struct_memory_map; struct_page_frame_bitmap;
   struct_header; struct__registers; struct_tss; struct_paddr_ele; struct_paddr_list; struct_process;
   struct_process_list_element; struct_process_list; struct_task].

(** ** Memory

    Bytes at their addresses; a field of [n] bytes is little-endian. *)

Definition bytes : Type := Z → Z.

Fixpoint get (m : bytes) (a : Z) (n : nat) : Z :=
  match n with O => 0 | S n => m a + 256 * get m (a + 1) n end.

Definition put (m : bytes) (a : Z) (n : nat) (v : Z) : bytes := λ b,
  if (a <=? b) && (b <? a + Z.of_nat n) then v / 256 ^ (b - a) mod 256 else m b.

(** The scalars a structure is made of, with their offsets and sizes; a union is one. *)
Fixpoint scalars (t : ctype) : list (Z * nat) :=
  match t with
  | Struct packed fs =>
    (fix go (off : Z) (fs : list (string * ctype)) : list (Z * nat) :=
      match fs with
      | [] => []
      | (_, t) :: fs =>
        let o := round_up off (falign packed t) in
        ((λ s, (o + s.1, s.2)) <$> scalars t) ++ go (o + sizeof t) fs
      end) 0 fs
  | _ => [(0, Z.to_nat (sizeof t))]
  end.

(** Write the scalars of a structure at [a], one after the other. *)
Fixpoint store (a : Z) (l : list (Z * nat)) (vs : list Z) (m : bytes) : bytes :=
  match l, vs with
  | (o, n) :: l, v :: vs => store a l vs (put m (a + o) n v)
  | _, _ => m
  end.

(** ** Places: in order, apart, inside *)

Lemma round_up_spec off a :
  0 < a → off <= round_up off a < off + a ∧ round_up off a mod a = 0.
Proof. intros Ha. unfold round_up. split; [|by apply Z.mod_mul; lia]. Z.to_euclidean_division_equations; nia. Qed.

Lemma round_up_1 off : round_up off 1 = off.
Proof. unfold round_up. rewrite Z.div_1_r. lia. Qed.

Lemma alignof_pos t : 0 < alignof t.
Proof.
  assert (H : ∀ (f : string * ctype → Z → Z) fs, (∀ x n, n <= f x n) → 0 < foldr f 1 fs).
  { intros f fs Hf. induction fs as [|x fs IH]; simpl; [lia|]. specialize (Hf x (foldr f 1 fs)). lia. }
  destruct t as [| | | | | |[] fs|fs]; simpl; try lia; apply H; intros [x t] n; lia.
Qed.

Lemma falign_pos packed t : 0 < falign packed t.
Proof. destruct packed; simpl; [done|apply alignof_pos]. Qed.

(** The place of a field: after the one before it, by less than its alignment. *)
Lemma falign_spec packed t off :
  off <= round_up off (falign packed t) ∧ round_up off (falign packed t) < off + falign packed t ∧
  round_up off (falign packed t) mod falign packed t = 0.
Proof. destruct (round_up_spec off (falign packed t) (falign_pos packed t)) as [[]]. done. Qed.

Definition end_of (packed : bool) (off : Z) (fs : list (string * ctype)) : Z :=
  foldl (λ off '(_, t), round_up off (falign packed t) + sizeof t) off fs.

Lemma sizeof_struct packed fs : sizeof (Struct packed fs) = round_up (end_of packed 0 fs) (alignof (Struct packed fs)).
Proof. reflexivity. Qed.

Lemma sizeof_nonneg t : 0 <= sizeof t.
Proof.
  induction t as [| | | | |x|packed fs H|fs H] using ctype_fields_ind; simpl; try lia.
  - assert (He : ∀ off, 0 <= off → 0 <= end_of packed off fs).
    { induction H as [|[x t] fs Ht _ IH]; intros off Ho; [done|]. apply IH.
      destruct (falign_spec packed t off). simpl in Ht. lia. }
    pose proof (round_up_spec (end_of packed 0 fs) (alignof (Struct packed fs)) (alignof_pos _)).
    specialize (He 0 ltac:(lia)). fold (end_of packed 0 fs). simpl in *. lia.
  - assert (0 <= foldr (λ '(_, t) n, Z.max (sizeof t) n) 0 fs).
    { clear H. induction fs as [|[x t] fs IH]; simpl; lia. }
    pose proof (round_up_spec (foldr (λ '(_, t) n, Z.max (sizeof t) n) 0 fs) (alignof (Union fs)) (alignof_pos _)).
    simpl in *. lia.
Qed.

(** The ranges of a list follow each other between [lo] and [hi]. *)
Fixpoint laid (lo : Z) (l : list (Z * Z)) (hi : Z) : Prop :=
  match l with
  | [] => lo <= hi
  | (o, n) :: l => lo <= o ∧ 0 <= n ∧ laid (o + n) l hi
  end.

Lemma laid_le lo l hi : laid lo l hi → lo <= hi.
Proof. revert lo. induction l as [|[o n] l IH]; intros lo H; [done|]. destruct H as (? & ? & H). apply IH in H. lia. Qed.

Lemma laid_weaken lo lo' l hi hi' : laid lo l hi → lo' <= lo → hi <= hi' → laid lo' l hi'.
Proof.
  revert lo lo'. induction l as [|[o n] l IH]; intros lo lo' H Hl Hh; simpl in *; [lia|].
  destruct H as (? & ? & H). split_and!; [lia|done|]. apply (IH (o + n)); [done|lia|done].
Qed.

Lemma laid_app lo l1 mid l2 hi : laid lo l1 mid → laid mid l2 hi → laid lo (l1 ++ l2) hi.
Proof.
  revert lo. induction l1 as [|[o n] l1 IH]; intros lo H1 H2; simpl in *.
  - by apply (laid_weaken mid lo l2 hi hi H2).
  - destruct H1 as (? & ? & H1). split_and!; auto.
Qed.

Lemma laid_shift d lo l hi : laid lo l hi → laid (d + lo) ((λ s, (d + s.1, s.2)) <$> l) (d + hi).
Proof.
  revert lo. induction l as [|[o n] l IH]; intros lo H; simpl in *; [lia|].
  destruct H as (? & ? & H). split_and!; [lia|done|]. rewrite <- Z.add_assoc. by apply IH.
Qed.

Lemma laid_lookup lo l hi i o n :
  laid lo l hi → l !! i = Some (o, n) →
  lo <= o ∧ 0 <= n ∧ o + n <= hi ∧ ∀ j o' n', (i < j)%nat → l !! j = Some (o', n') → o + n <= o'.
Proof.
  revert lo i o n. induction l as [|[o1 n1] l IH]; intros lo i o n Hl Hi; [done|]. destruct Hl as (H1 & H2 & H3).
  destruct i as [|i]; simpl in Hi.
  - injection Hi as -> ->. pose proof (laid_le _ _ _ H3). split_and!; try done. intros j o' n' Hj Ej.
    destruct j as [|j]; [lia|]. by destruct (IH _ _ _ _ H3 Ej) as [? _].
  - destruct (IH _ _ _ _ H3 Hi) as (? & ? & ? & Hnext). split_and!; [lia|done|done|].
    intros [|j] o' n' Hj Ej; [lia|]. apply (Hnext j o' n'); [lia|done].
Qed.

(** The fields of a structure, and its scalars, follow each other. *)
Lemma place_laid packed fs : ∀ off,
  laid off ((λ f, (f.1.2, sizeof f.2)) <$> place packed off fs) (end_of packed off fs).
Proof.
  induction fs as [|[x t] fs IH]; intros off; simpl; [lia|]. destruct (falign_spec packed t off) as [? _].
  split_and!; [done|apply sizeof_nonneg|apply IH].
Qed.

Definition ranges (l : list (Z * nat)) : list (Z * Z) := (λ s, (s.1, Z.of_nat s.2)) <$> l.

Lemma scalars_laid t : laid 0 (ranges (scalars t)) (sizeof t).
Proof.
  induction t as [| | | | |x|packed fs H|fs H] using ctype_fields_ind; try (simpl; lia).
  2: { change (scalars (Union fs)) with [(0, Z.to_nat (sizeof (Union fs)))]. pose proof (sizeof_nonneg (Union fs)).
       unfold ranges. cbn [fmap list_fmap fst snd laid]. lia. }
  rewrite sizeof_struct. simpl.
  pose proof (round_up_spec (end_of packed 0 fs) (alignof (Struct packed fs)) (alignof_pos _)) as [[Hr _] _].
  refine (laid_weaken 0 0 _ (end_of packed 0 fs) _ _ ltac:(lia) Hr). clear Hr. generalize 0 as off.
  induction H as [|[x t] fs Ht _ IH]; intros off; simpl; [lia|]. simpl in Ht.
  destruct (falign_spec packed t off) as [Ho _]. set (o := round_up off (falign packed t)) in *.
  unfold ranges in *. rewrite fmap_app. apply (laid_app off _ (o + sizeof t)); [|apply IH].
  rewrite <- list_fmap_compose. apply (laid_shift o) in Ht. rewrite <- list_fmap_compose in Ht.
  apply (laid_weaken (o + 0) off _ (o + sizeof t) (o + sizeof t)); [exact Ht|lia|lia].
Qed.

(** ** Reading back *)

Lemma get_ext m m' n : ∀ a, (∀ b, a <= b < a + Z.of_nat n → m' b = m b) → get m' a n = get m a n.
Proof.
  induction n as [|n IH]; intros a H; [done|]. simpl. rewrite (H a), (IH (a + 1)); [done| |lia].
  intros b Hb. apply H. lia.
Qed.

Lemma get_digits m n : ∀ a v,
  (∀ i, 0 <= i < Z.of_nat n → m (a + i) = v / 256 ^ i mod 256) → get m a n = v mod 256 ^ Z.of_nat n.
Proof.
  induction n as [|n IH]; intros a v H; [by rewrite Z.mod_1_r|]. simpl get.
  assert (H0 : m a = v mod 256).
  { rewrite <- (Z.add_0_r a), (H 0) by lia. by rewrite Z.pow_0_r, Z.div_1_r. }
  rewrite H0, (IH (a + 1) (v / 256)).
  - rewrite Nat2Z.inj_succ, Z.pow_succ_r by lia.
    pose proof (Z.pow_pos_nonneg 256 (Z.of_nat n) ltac:(lia) ltac:(lia)). by rewrite Z.rem_mul_r by lia.
  - intros i Hi. replace (a + 1 + i) with (a + (i + 1)) by lia. rewrite H by lia.
    rewrite Z.pow_add_r, Z.mul_comm, Z.pow_1_r by lia. by rewrite Z.div_div by lia.
Qed.

Lemma get_put m a n v : get (put m a n v) a n = v mod 256 ^ Z.of_nat n.
Proof.
  apply get_digits. intros i Hi. unfold put.
  rewrite (proj2 (Z.leb_le _ _)), (proj2 (Z.ltb_lt _ _)) by lia. simpl. by replace (a + i - a) with i by lia.
Qed.

Lemma put_outside m a n v b : b < a ∨ a + Z.of_nat n <= b → put m a n v b = m b.
Proof. intros H. unfold put. destruct (Z.leb_spec a b), (Z.ltb_spec b (a + Z.of_nat n)); simpl; done || lia. Qed.

Lemma store_outside a l : ∀ vs m lo hi b,
  laid lo (ranges l) hi → b < a + lo ∨ a + hi <= b → store a l vs m b = m b.
Proof.
  induction l as [|[o n] l IH]; intros vs m lo hi b Hl Hb; [done|]. destruct vs as [|v vs]; [done|].
  destruct Hl as (H1 & H2 & H3). simpl in *. pose proof (laid_le _ _ _ H3).
  rewrite (IH vs _ (o + Z.of_nat n) hi b H3) by lia. apply put_outside. lia.
Qed.

Lemma store_get a l : ∀ vs m lo hi i o n v,
  laid lo (ranges l) hi → l !! i = Some (o, n) → vs !! i = Some v →
  get (store a l vs m) (a + o) n = v mod 256 ^ Z.of_nat n.
Proof.
  induction l as [|[o1 n1] l IH]; intros vs m lo hi i o n v Hl Hi Hv; [done|].
  destruct vs as [|v1 vs]; [done|]. destruct Hl as (H1 & H2 & H3). destruct i as [|i]; simpl in *.
  - injection Hi as -> ->. injection Hv as ->. rewrite <- (get_put m (a + o) n v). apply get_ext. intros b Hb.
    apply (store_outside a l vs _ (o + Z.of_nat n) hi); [done|lia].
  - by apply (IH vs _ (o1 + Z.of_nat n1) hi i).
Qed.

(** ** The formats of others

    What the multiboot specification and the processor's manual lay down: the
    size, and the offsets of the fields that have a meaning. *)
Definition formats : list (ctype * Z * list (string * Z)) :=
  [(multiboot_header, 48, [("magic", 0); ("flags", 4); ("checksum", 8); ("header_addr", 12); ("load_addr", 16);
      ("load_end_addr", 20); ("bss_end_addr", 24); ("entry_addr", 28); ("mode_type", 32); ("width", 36);
      ("height", 40); ("depth", 44)]);
   (multiboot_info, 88, [("flags", 0); ("mem_lower", 4); ("mem_upper", 8); ("boot_device", 12); ("cmdline", 16);
      ("mods_count", 20); ("mods_addr", 24); ("u", 28); ("mmap_length", 44); ("mmap_addr", 48);
      ("drives_length", 52); ("drives_addr", 56); ("config_table", 60); ("boot_loader_name", 64);
      ("apm_table", 68); ("vbe_control_info", 72); ("vbe_mode_info", 76); ("vbe_mode", 80);
      ("vbe_interface_seg", 82); ("vbe_interface_off", 84); ("vbe_interface_len", 86)]);
   (multiboot_mmap_entry, 24, [("size", 0); ("addr", 4); ("len", 12); ("type", 20)]);
   (multiboot_mod_list, 16, [("mod_start", 0); ("mod_end", 4); ("cmdline", 8); ("pad", 12)]);
   (struct_gdt_entry, 8, [("limit_low", 0); ("base_low", 2); ("base_mid", 4); ("access", 5); ("granularity", 6);
      ("base_high", 7)]);
   (struct_gdt_ptr, 6, [("limit", 0); ("base", 2)]);
   (idt_entry_struct, 8, [("base_lo", 0); ("selector", 2); ("always0", 4); ("flags", 5); ("base_hi", 6)]);
   (idt_ptr_struct, 6, [("limit", 0); ("base", 2)]);
   (struct_pde, 4, [("config", 0); ("low_addr", 1); ("high_addr", 2)]);
   (struct_pte, 4, [("config", 0); ("middle", 1); ("high_addr", 2)]);
   (struct_tss, 104, [("prev_task_link", 0); ("esp0", 4); ("ss0", 8); ("esp1", 12); ("ss1", 16); ("esp2", 20);
      ("ss2", 24); ("cr3", 28); ("eip", 32); ("eflags", 36); ("eax", 40); ("ecx", 44); ("edx", 48); ("ebx", 52);
      ("esp", 56); ("ebp", 60); ("esi", 64); ("edi", 68); ("es", 72); ("cs", 76); ("ss", 80); ("ds", 84);
      ("fs", 88); ("gs", 92); ("ldt_ss", 96); ("debug_and_reserved", 100); ("io_map_base", 102)])].

Definition agrees (f : ctype * Z * list (string * Z)) : bool :=
  let '(t, size, offsets) := f in
  (sizeof t =? size) && forallb (λ '(x, o), offsetof t [x] =? o) offsets.

(** When all scalars of a structure at [a] are written in turn, each reads back as the
    low bytes of its own value, and no byte around the structure changes. *)
Lemma structure_reads_back t a m vs :
  let m' := store a (scalars t) vs m in
  (∀ i o n v, scalars t !! i = Some (o, n) → vs !! i = Some v → get m' (a + o) n = v mod 256 ^ Z.of_nat n) ∧
  ∀ b, b < a ∨ a + sizeof t <= b → m' b = m b.
Proof.
  intros m'. pose proof (scalars_laid t) as Hl. split.
  - intros i o n v. by apply (store_get a (scalars t) vs m 0 (sizeof t) i).
  - intros b Hb. apply (store_outside a (scalars t) vs m 0 (sizeof t)); [done|lia].
Qed.

(** What GRUB or the processor reads or writes has the sizes and the offsets these lay down. *)
Lemma formats_agree : forallb agrees formats = true.
Proof. by vm_compute. Qed.
