(* ===== verification/Interfaces.v ===== *)
(** * Interfaces: what the components promise to one another

    The allocator of physical frames ([FrameOps], [FrameLaws]) is used by the
    page tables, which see its state only as a set of free frames. *)

From S2P Require Import Prelude.

(** The page frames [p, p + 4 kB, ...]. *)
Definition pages (p n : Z) : gset Z := list_to_set ((λ i, p + i * 4096) <$> seqZ 0 n).

Lemma elem_of_pages p n q : q ∈ pages p n ↔ ∃ i, 0 <= i < n ∧ q = p + i * 4096.
Proof.
  unfold pages. rewrite elem_of_list_to_set, list_elem_of_fmap.
  setoid_rewrite elem_of_seqZ. setoid_rewrite Z.add_0_l. naive_solver.
Qed.

Lemma pages_one p : pages p 1 = {[p]}.
Proof.
  apply set_eq. intros q. rewrite elem_of_pages, elem_of_singleton. split.
  - intros (i & ? & ->). lia.
  - intros ->. exists 0. lia.
Qed.

(** An allocation of [n] consecutive frames out of the set [F]: either nothing
    changes and the answer is 0, which for one frame means that none is free,
    or the frames were free and are so no more. *)
Definition pool_alloc (n : Z) (F : gset Z) (p : Z) (F' : gset Z) : Prop :=
  (p = 0 ∧ F' = F ∧ (n = 1 → F = ∅)) ∨
  (0 < n ∧ pages p n ⊆ F ∧ F' = F ∖ pages p n).

Class FrameOps (St : Type) := {
  fr_allocate : Z → M St Z;
  fr_free : Z → M St unit;
  fr_printk : string → list Z → M St unit;
  fr_free_set : St → gset Z;
  fr_managed : St → gset Z;
  fr_wf : St → Prop
}.

Class FrameLaws (St : Type) `{!FrameOps St} := {
  fr_managed_ok s p :
    fr_wf s → p ∈ fr_managed s → p mod 4096 = 0 ∧ 0x100000 <= p ∧ p + 4096 < 4294967296;
  fr_free_managed s : fr_wf s → fr_free_set s ⊆ fr_managed s;
  fr_allocate_spec s n :
    fr_wf s → is_u32 n →
    ∃ p s', fr_allocate n s = Ok (p, s') ∧ fr_wf s' ∧ fr_managed s' = fr_managed s ∧
      pool_alloc n (fr_free_set s) p (fr_free_set s');
  fr_free_spec s p :
    fr_wf s → p ∈ fr_managed s → p ∉ fr_free_set s →
    ∃ s', fr_free p s = Ok (tt, s') ∧ fr_wf s' ∧ fr_managed s' = fr_managed s ∧
      fr_free_set s' = {[p]} ∪ fr_free_set s;
  fr_printk_spec s fmt args :
    fr_wf s →
    ∃ s', fr_printk fmt args s = Ok (tt, s') ∧ fr_wf s' ∧
      fr_managed s' = fr_managed s ∧ fr_free_set s' = fr_free_set s
}.
