(* ===== verification/Frames.v ===== *)
(** * Frames: the page frame allocator of kernel/arch/i386/paging.c

    The statics [page_frames], [mmap] and [mmap_len], and the functions that
    read and write them: the bitmap of free frames ([toggle_bit],
    [toggle_bits]), the conversions between a bit index and a physical address
    ([idx_for_paddr], [paddr_for_idx], [fits_in_one_mmap_entry]) and the two
    entry points [pfa_allocate] and [pfa_free]. *)

From S2P Require Import Prelude CArith Interfaces.

(** ** State *)

Record memory_map := MemoryMap { addr : Z; len : Z }.

#[global] Instance memory_map_eq_dec : EqDecision memory_map.
Proof. solve_decision. Defined.

(** [struct page_frame_bitmap]: [start] is the array of 32-bit cells the pointer
    leads to, [nbits] the field [len]. *)
Record page_frame_bitmap := PageFrameBitmap { start : list Z; nbits : Z }.

(** The statics of the allocator. [mmap] holds the entries in use, that is the
    first [mmap_len] of the C array; [klog] the messages printed so far. *)
Record frames := Frames {
  page_frames : page_frame_bitmap;
  mmap : list memory_map;
  klog : list kmsg
}.

Definition set_start (cells : list Z) (s : frames) : frames :=
  Frames (PageFrameBitmap cells (nbits (page_frames s))) (mmap s) (klog s).

Definition printk (fmt : string) (args : list Z) : M frames unit :=
  modify (λ s, Frames (page_frames s) (mmap s) ((fmt, args) :: klog s)).

(** [bits[i]], a fault outside of the array. *)
Definition cell_at (i : Z) : M frames Z :=
  gets (λ s, start (page_frames s)) ≫= λ cells,
  if i <? 0 then fault else of_option (cells !! Z.to_nat i).

(** ** Bits *)

Definition toggle_bit (bit_idx : Z) : M frames unit :=
  c ← cell_at (bit_idx / 32);
  let c' := Z.lxor c (Z.shiftl 1 (31 - bit_idx mod 32)) in
  modify (λ s, set_start (<[Z.to_nat (bit_idx / 32) := c']> (start (page_frames s))) s).

Definition toggle_bits (bit_idx num_bits : Z) : M frames unit :=
  for_each (seqZ bit_idx ((bit_idx +ᵤ num_bits) - bit_idx)) toggle_bit.

(** ** Bit indices and physical addresses *)

Fixpoint idx_for_paddr_loop (ms : list memory_map) (paddr byte_offset dflt : Z) : Z :=
  match ms with
  | [] => dflt
  | m :: ms' =>
    if paddr <? addr m +ᵤ len m then (byte_offset +ᵤ (paddr -ᵤ addr m)) / FOUR_KB
    else idx_for_paddr_loop ms' paddr (byte_offset +ᵤ len m) dflt
  end.

Definition idx_for_paddr (s : frames) (paddr : Z) : Z :=
  idx_for_paddr_loop (mmap s) paddr 0 (nbits (page_frames s)).

Fixpoint fits_loop (ms : list memory_map) (current_offset offset pfs : Z) : bool :=
  match ms with
  | [] => false
  | m :: ms' =>
    if current_offset +ᵤ len m <=? offset
    then fits_loop ms' (current_offset +ᵤ len m) offset pfs
    else (offset -ᵤ current_offset) +ᵤ pfs *ᵤ FOUR_KB <=? len m
  end.

Definition fits_in_one_mmap_entry (s : frames) (bit_idx pfs : Z) : bool :=
  fits_loop (mmap s) 0 (bit_idx *ᵤ FOUR_KB) pfs.

Fixpoint paddr_loop (ms : list memory_map) (current_offset offset : Z) : Z :=
  match ms with
  | [] => 0
  | m :: ms' =>
    if current_offset +ᵤ len m <=? offset
    then paddr_loop ms' (current_offset +ᵤ len m) offset
    else addr m +ᵤ (offset -ᵤ current_offset)
  end.

Definition paddr_for_idx (s : frames) (bit_idx : Z) : Z :=
  paddr_loop (mmap s) 0 (bit_idx *ᵤ FOUR_KB).

(** ** Entry points *)

(** The locals [frames_found] and [bit_idx] of [pfa_allocate]. *)
Definition scan_state : Type := Z * Z.

(** The loop over the bits [js] of one cell: [inl b] when a run of [num] free
    frames that fits starts at bit [b] (the loop is left), [inr] otherwise. *)
Fixpoint scan_cell (s : frames) (num cell i : Z) (js : list Z) (st : scan_state)
    : Z + scan_state :=
  match js with
  | [] => inr st
  | j :: js' =>
    let '(frames_found, bit_idx) := st in
    if Z.land (Z.shiftr cell (31 - j)) 1 =? 1 then
      let bit_idx := if frames_found =? 0 then i *ᵤ 32 +ᵤ j else bit_idx in
      let frames_found := frames_found +ᵤ 1 in
      if frames_found =? num then
        if fits_in_one_mmap_entry s bit_idx num then inl bit_idx
        else scan_cell s num cell i js' (0, bit_idx)
      else scan_cell s num cell i js' (frames_found, bit_idx)
    else scan_cell s num cell i js' (0, bit_idx)
  end.

(** The loop over the cells [idx] of the bitmap. *)
Fixpoint scan_cells (num : Z) (idx : list Z) (st : scan_state)
    : M frames (Z + scan_state) :=
  match idx with
  | [] => mret (inr st)
  | i :: idx' =>
    cell ← cell_at i;
    s ← gets id;
    if cell =? 0 then scan_cells num idx' (0, st.2)
    else
      match scan_cell s num cell i (seqZ 0 32) st with
      | inl bit_idx => mret (inl bit_idx)
      | inr st' => scan_cells num idx' st'
      end
  end.

Definition pfa_allocate (num_page_frames : Z) : M frames Z :=
  s ← gets id;
  r ← scan_cells num_page_frames (seqZ 0 (div_ceil (nbits (page_frames s)) 32)) (0, 0);
  match r with
  | inl bit_idx =>
    toggle_bits bit_idx num_page_frames ≫= λ _,
    gets (λ s, paddr_for_idx s bit_idx)
  | inr _ => mret 0
  end.

Definition pfa_free (paddr : Z) : M frames unit :=
  s ← gets id;
  let bit_idx := idx_for_paddr s paddr in
  if bit_idx =? nbits (page_frames s)
  then printk "pfa_free: invalid paddr %X\n" [paddr]
  else toggle_bit bit_idx.

(** ** Specification vocabulary *)

(** Bit [k] of the bitmap: the frame is free. *)
Definition bit (s : frames) (k : Z) : bool :=
  Z.testbit (default 0 (start (page_frames s) !! Z.to_nat (k / 32))) (31 - k mod 32).

Definition total (ms : list memory_map) : Z := foldr (λ m acc, len m + acc) 0 ms.

(** The entry a byte offset into the concatenated regions falls in. *)
Fixpoint locate (ms : list memory_map) (off : Z) : option (memory_map * Z) :=
  match ms with
  | [] => None
  | m :: ms' => if off <? len m then Some (m, off) else locate ms' (off - len m)
  end.

(** The regions are page aligned, in increasing order from [lo], disjoint and
    below 4 GB. *)
Fixpoint mmap_ok (lo : Z) (ms : list memory_map) : Prop :=
  match ms with
  | [] => True
  | m :: ms' =>
    lo <= addr m ∧ addr m mod 4096 = 0 ∧ len m mod 4096 = 0 ∧ 0 <= len m ∧
    addr m + len m < 4294967296 ∧ mmap_ok (addr m + len m) ms'
  end.

(** [c] free frames in a row from the frame [x], all in one region. *)
Definition free_run (s : frames) (x c : Z) : Prop :=
  0 <= x ∧ (∀ y, x <= y < x + c → bit s y = true) ∧
  ∃ m o, locate (mmap s) (4096 * x) = Some (m, o) ∧ o + 4096 * c <= len m.

Record frames_wf (s : frames) : Prop := FramesWf {
  wf_cells : Forall (λ c, is_u32 c) (start (page_frames s));
  wf_room : nbits (page_frames s) <= 32 * Z.of_nat (length (start (page_frames s)));
  wf_nbits : 4096 * nbits (page_frames s) = total (mmap s);
  wf_pos : 0 < nbits (page_frames s);
  wf_mmap : mmap_ok 0x100000 (mmap s)
}.

(** ** Arithmetic of the regions *)

Lemma total_nonneg ms l : mmap_ok l ms → 0 <= total ms.
Proof. revert l. induction ms as [|m ms IH]; simpl; intros l H; [lia|].
  destruct H as (?&?&?&?&?&H). specialize (IH _ H). lia.
Qed.

Lemma total_bound ms l : mmap_ok l ms → ms = [] ∨ l + total ms < 4294967296.
Proof.
  revert l. induction ms as [|m ms IH]; simpl; intros l H; [by left|right].
  destruct H as (?&?&?&?&?&H). destruct (IH _ H) as [->|]; simpl; lia.
Qed.

Lemma total_aligned ms l : mmap_ok l ms → total ms mod 4096 = 0.
Proof.
  revert l. induction ms as [|m ms IH]; simpl; intros l H; [done|].
  destruct H as (?&?&?&?&?&H). specialize (IH _ H). clia.
Qed.

Lemma locate_spec ms l off m o :
  mmap_ok l ms → 0 <= off → locate ms off = Some (m, o) →
  l <= addr m ∧ 0 <= o < len m ∧ addr m mod 4096 = 0 ∧ len m mod 4096 = 0 ∧
  addr m + len m < 4294967296 ∧ off mod 4096 = o mod 4096 ∧
  off - o + len m <= total ms ∧ o <= off.
Proof.
  revert l off. induction ms as [|m' ms IH]; simpl; [done|].
  intros l off (?&?&?&?&?&H) ? Hl. pose proof (total_nonneg _ _ H).
  destruct (Z.ltb_spec off (len m')).
  - simplify_eq. repeat split; lia.
  - apply (IH (addr m' + len m')) in Hl; [|done|lia].
    destruct Hl as (?&?&?&?&?&?&?&?). repeat split; try lia. clia.
Qed.

Lemma locate_elem ms off m o : locate ms off = Some (m, o) → m ∈ ms.
Proof.
  revert off. induction ms as [|m' ms IH]; simpl; [done|]. intros off.
  case_match; intros Hl; [simplify_eq; by left|right; eauto].
Qed.

Lemma locate_is_Some ms l off :
  mmap_ok l ms → 0 <= off < total ms → is_Some (locate ms off).
Proof.
  revert l off. induction ms as [|m' ms IH]; simpl; intros l off H ?; [lia|].
  destruct H as (?&?&?&?&?&H). destruct (Z.ltb_spec off (len m')); [eauto|].
  apply (IH _ _ H). lia.
Qed.

Lemma locate_None ms l off : mmap_ok l ms → total ms <= off → locate ms off = None.
Proof.
  revert l off. induction ms as [|m' ms IH]; simpl; intros l off H ?; [done|].
  destruct H as (?&?&?&?&?&H). pose proof (total_nonneg _ _ H).
  destruct (Z.ltb_spec off (len m')); [lia|]. apply (IH _ _ H). lia.
Qed.

(** Offsets further into the same region. *)
Lemma locate_add ms l off m o d :
  mmap_ok l ms → 0 <= off → locate ms off = Some (m, o) → 0 <= d → o + d < len m →
  locate ms (off + d) = Some (m, o + d).
Proof.
  revert l off. induction ms as [|m' ms IH]; simpl; [done|].
  intros l off (?&?&?&?&?&H) ? Hl ? ?.
  destruct (Z.ltb_spec off (len m')).
  - simplify_eq. by destruct (Z.ltb_spec (o + d) (len m)); [|lia].
  - destruct (Z.ltb_spec (off + d) (len m')); [lia|].
    replace (off + d - len m') with (off - len m' + d) by lia.
    eapply IH; try done; lia.
Qed.

Lemma paddr_loop_locate ms l cur off :
  0 <= l → mmap_ok l ms → 0 <= cur → cur + total ms < 4294967296 →
  cur <= off < 4294967296 →
  paddr_loop ms cur off =
  match locate ms (off - cur) with Some (m, o) => addr m + o | None => 0 end.
Proof.
  revert l cur. induction ms as [|m' ms IH]; simpl; [done|].
  intros l cur ? (?&?&?&?&?&H) ? ? ?. pose proof (total_nonneg _ _ H).
  csimp. destruct (Z.leb_spec (cur + len m') off), (Z.ltb_spec (off - cur) (len m'));
    try lia.
  - rewrite (IH (addr m' + len m')) by (done || lia). by replace (off - cur - len m') with (off - (cur + len m')) by lia.
  - by csimp.
Qed.

Lemma fits_loop_locate ms l cur off n :
  mmap_ok l ms → 0 <= cur → cur + total ms < 4294967296 → cur <= off → 0 <= n →
  off + n * 4096 < 4294967296 →
  fits_loop ms cur off n =
  match locate ms (off - cur) with Some (m, o) => o + n * 4096 <=? len m | None => false end.
Proof.
  revert l cur. induction ms as [|m' ms IH]; simpl; [done|].
  intros l cur (?&?&?&?&?&H) ? ? ? ? ?. pose proof (total_nonneg _ _ H).
  csimp. destruct (Z.leb_spec (cur + len m') off), (Z.ltb_spec (off - cur) (len m'));
    try lia.
  - rewrite (IH _ _ H) by lia. by replace (off - cur - len m') with (off - (cur + len m')) by lia.
  - unfold FOUR_KB. change 0x1000 with 4096. by csimp.
Qed.

Lemma idx_loop_locate ms l bo off m o d :
  mmap_ok l ms → 0 <= bo → bo + total ms < 4294967296 → 0 <= off → 0 <= l →
  locate ms off = Some (m, o) →
  idx_for_paddr_loop ms (addr m + o) bo d = (bo + off) / 4096.
Proof.
  revert l bo off. induction ms as [|m' ms IH]; simpl; [done|].
  intros l bo off (?&?&?&?&?&H) ? ? ? ? Hl. pose proof (total_nonneg _ _ H).
  csimp. destruct (Z.ltb_spec off (len m')).
  - simplify_eq. destruct (Z.ltb_spec (addr m + o) (addr m + len m)); [|lia].
    unfold FOUR_KB. csimp. f_equal. lia.
  - destruct (locate_spec ms _ (off - len m') _ _ H ltac:(lia) Hl) as (?&?&?).
    destruct (Z.ltb_spec (addr m + o) (addr m' + len m')); [lia|].
    rewrite (IH _ (bo + len m') (off - len m') H) by (done || lia). f_equal. lia.
Qed.

(** ** Bits of the bitmap *)

Section bits.
Implicit Types (s : frames) (k j : Z).

(** The state after [toggle_bit k], when [k] is in the array. *)
Definition flip k s : frames :=
  set_start (alter (λ c, Z.lxor c (Z.shiftl 1 (31 - k mod 32)))
               (Z.to_nat (k / 32)) (start (page_frames s))) s.

Definition in_array s k : Prop := 0 <= k < 32 * Z.of_nat (length (start (page_frames s))).

Lemma cell_at_ok s i :
  0 <= i < Z.of_nat (length (start (page_frames s))) →
  cell_at i s = Ok (default 0 (start (page_frames s) !! Z.to_nat i), s).
Proof.
  intros Hi. unfold cell_at. rewrite (bind_ok _ _ s (start (page_frames s)) s) by done.
  destruct (Z.ltb_spec i 0); [lia|].
  destruct (lookup_lt_is_Some_2 (start (page_frames s)) (Z.to_nat i)) as [c ->]; [lia|done].
Qed.

Lemma toggle_bit_ok s k : in_array s k → toggle_bit k s = Ok (tt, flip k s).
Proof.
  intros Hk. unfold toggle_bit, in_array in *.
  assert (Hi : 0 <= k / 32 < Z.of_nat (length (start (page_frames s))))
    by (Z.to_euclidean_division_equations; lia).
  rewrite (bind_ok _ _ _ _ _ (cell_at_ok s (k / 32) Hi)). unfold modify, flip.
  do 3 f_equal. apply list_eq. intros n.
  destruct (lookup_lt_is_Some_2 (start (page_frames s)) (Z.to_nat (k / 32))) as [c Hc]; [lia|].
  rewrite Hc; simpl. rewrite list_lookup_insert, list_lookup_alter.
  case_decide as E; [destruct E as [<- ?]|]; case_decide; subst; rewrite ?Hc; simpl; try done.
  destruct E. split; [done|by eapply lookup_lt_Some].
Qed.

Lemma flip_length k s :
  length (start (page_frames (flip k s))) = length (start (page_frames s)).
Proof. apply length_alter. Qed.

Lemma testbit_pow2 i j : 0 <= i → 0 <= j → Z.testbit (Z.shiftl 1 i) j = bool_decide (i = j).
Proof.
  intros. rewrite Z.shiftl_1_l. case_bool_decide as E; subst.
  - by apply Z.pow2_bits_true.
  - by apply Z.pow2_bits_false.
Qed.

(** [toggle_bit] changes its bit and no other. *)
Lemma bit_flip s k j :
  in_array s k → 0 <= j →
  bit (flip k s) j = xorb (bit s j) (bool_decide (j = k)).
Proof.
  intros Hk Hj. unfold bit, flip, in_array in *; simpl. rewrite list_lookup_alter.
  pose proof (Z.mod_pos_bound k 32). pose proof (Z.mod_pos_bound j 32).
  case_decide as E.
  - apply Z2Nat.inj in E; [|Z.to_euclidean_division_equations; lia..]. rewrite E.
    destruct (lookup_lt_is_Some_2 (start (page_frames s)) (Z.to_nat (j / 32))) as [c ->].
    { Z.to_euclidean_division_equations; lia. }
    simpl. rewrite Z.lxor_spec, testbit_pow2 by lia. f_equal.
    apply bool_decide_ext. Z.to_euclidean_division_equations; lia.
  - rewrite bool_decide_false by (intros ->; done). by rewrite xorb_false_r.
Qed.

Lemma flip_flip s k : in_array s k → flip k (flip k s) = s.
Proof.
  intros Hk. unfold flip, set_start; simpl. destruct s as [[st nb] ms kl]; simpl. do 2 f_equal.
  apply list_eq. intros i. rewrite !list_lookup_alter.
  repeat case_decide; simplify_eq; try done.
  match goal with |- context [st !! ?i] => destruct (st !! i) as [c|] end; simpl; [|done].
  by rewrite Z.lxor_assoc, Z.lxor_nilpotent, Z.lxor_0_r.
Qed.

Lemma flip_wf s k : in_array s k → frames_wf s → frames_wf (flip k s).
Proof.
  intros Hk [Hc ????]. split; simpl; rewrite ?length_alter; try done.
  apply Forall_alter; [done|]. intros c _ ?. apply lxor_u32; [done|].
  rewrite Z.shiftl_1_l. pose proof (Z.mod_pos_bound k 32).
  split; [lia|]. change 4294967296 with (2 ^ 32). apply Z.pow_lt_mono_r; lia.
Qed.

(** All that a state keeps when only bits are changed. *)
Definition same_but_bits s s' : Prop :=
  mmap s' = mmap s ∧ nbits (page_frames s') = nbits (page_frames s) ∧
  length (start (page_frames s')) = length (start (page_frames s)) ∧ klog s' = klog s.

#[global] Instance same_but_bits_preorder : PreOrder same_but_bits.
Proof. split; [done|]. unfold same_but_bits. intros ??? (?&?&?&?) (?&?&?&?). split_and!; congruence. Qed.

Lemma flip_same s k : same_but_bits s (flip k s).
Proof. repeat split; simpl. apply length_alter. Qed.

Lemma toggle_loop_ok n s k :
  frames_wf s → 0 <= k → k + Z.of_nat n <= 32 * Z.of_nat (length (start (page_frames s))) →
  ∃ s', for_each (seqZ k (Z.of_nat n)) toggle_bit s = Ok (tt, s') ∧ frames_wf s' ∧
    same_but_bits s s' ∧
    ∀ j, 0 <= j → bit s' j = xorb (bit s j) (bool_decide (k <= j < k + Z.of_nat n)).
Proof.
  revert s k. induction n as [|n IH]; intros s k Hwf Hk Hn.
  - exists s. split_and!; try done. intros j ?.
    by rewrite bool_decide_false, xorb_false_r by lia.
  - assert (Hin : in_array s k) by (unfold in_array; lia).
    rewrite seqZ_step by lia. simpl for_each.
    rewrite (bind_ok _ _ _ _ _ (toggle_bit_ok _ _ Hin)).
    replace (Z.of_nat (S n) - 1) with (Z.of_nat n) by lia.
    destruct (IH (flip k s) (k + 1)) as (s' & -> & ? & Hs & Hb);
      [by apply flip_wf|lia|rewrite flip_length; lia|].
    exists s'. split_and!; [done..|by etransitivity; [apply flip_same|]|].
    intros j ?. rewrite Hb, bit_flip, xorb_assoc by done. f_equal.
    repeat case_bool_decide; simpl; lia.
Qed.

Lemma toggle_bits_ok s k n :
  frames_wf s → 0 <= k → 0 <= n → k + n < 4294967296 →
  k + n <= 32 * Z.of_nat (length (start (page_frames s))) →
  ∃ s', toggle_bits k n s = Ok (tt, s') ∧ frames_wf s' ∧ same_but_bits s s' ∧
    ∀ j, 0 <= j → bit s' j = xorb (bit s j) (bool_decide (k <= j < k + n)).
Proof.
  intros. unfold toggle_bits. csimp. replace (k + n - k) with (Z.of_nat (Z.to_nat n)) by lia.
  destruct (toggle_loop_ok (Z.to_nat n) s k) as (s' & ? & ? & ? & Hb); [done|lia..|].
  exists s'. split_and!; try done. intros. rewrite Hb by done. do 2 f_equal. apply bool_decide_ext; lia.
Qed.

Lemma toggle_bits_one s k :
  in_array s k → k < 4294967295 → toggle_bits k 1 s = Ok (tt, flip k s).
Proof.
  intros Hk ?. unfold toggle_bits, in_array in *. csimp. replace (k + 1 - k) with 1 by lia.
  rewrite seqZ_step by lia. simpl for_each. by rewrite (bind_ok _ _ _ _ _ (toggle_bit_ok _ _ Hk)).
Qed.
End bits.

(** ** The search of [pfa_allocate] *)

Section scan.
Context (s : frames) (num : Z) (Hnum : 0 <= num).

(** A bit the search can return for one frame. *)
Definition candidate (x : Z) : Prop := bit s x = true ∧ fits_in_one_mmap_entry s x 1 = true.

(** Before bit [k]: [frames_found] counts the free run that ends there; a
    search for one frame has passed no candidate since [from]. *)
Definition run_inv (from k : Z) (st : scan_state) : Prop :=
  0 <= st.1 ∧ (st.1 = 0 ∨ (0 <= st.2 ∧ st.2 + st.1 = k)) ∧
  (∀ x, k - st.1 <= x < k → bit s x = true) ∧
  (num = 1 → st.1 = 0 ∧ ∀ x, from <= x < k → ¬ candidate x).

(** The run found: it is free, it fits, and for one frame it is the first. *)
Definition run_found (from hi b : Z) : Prop :=
  0 <= b ∧ b + num <= hi ∧ 0 < num ∧ (∀ x, b <= x < b + num → bit s x = true) ∧
  fits_in_one_mmap_entry s b num = true ∧
  (num = 1 → ∀ x, from <= x < b → ¬ candidate x).

Lemma scan_cell_spec from cell i n j st :
  0 <= i → 0 <= j → j + Z.of_nat n = 32 → 32 * i + 32 < 4294967296 →
  (∀ j, 0 <= j < 32 → Z.testbit cell (31 - j) = bit s (32 * i + j)) →
  run_inv from (32 * i + j) st →
  match scan_cell s num cell i (seqZ j (Z.of_nat n)) st with
  | inl b => run_found from (32 * i + 32) b
  | inr st' => run_inv from (32 * i + 32) st'
  end.
Proof.
  intros Hi Hj Hn Hov Hcell. revert j Hj Hn st.
  induction n as [|n IH]; intros j Hj Hn [found b] Hinv.
  { by replace (32 * i + 32) with (32 * i + j) by lia. }
  rewrite seqZ_step by lia. replace (Z.of_nat (S n) - 1) with (Z.of_nat n) by lia.
  cbn [scan_cell]. rewrite testbit_true_shiftr, Hcell by lia.
  destruct Hinv as (H0 & Hb & Hrun & Hone); simpl in *.
  destruct (bit s (32 * i + j)) eqn:Hbit.
  - set (b' := if found =? 0 then _ else b).
    assert (Hb' : b' = 32 * i + j - found).
    { unfold b'. csimp. destruct (Z.eqb_spec found 0); lia. }
    clearbody b'. csimp. assert (Hrun' : ∀ x, b' <= x < b' + (found + 1) → bit s x = true).
    { intros x ?. destruct (decide (x = 32 * i + j)) as [->|]; [done|]. apply Hrun. lia. }
    destruct (Z.eqb_spec (found + 1) num) as [Hfound|Hne].
    + rewrite Hfound in Hrun'. destruct (fits_in_one_mmap_entry s b' num) eqn:Hfit.
      * split_and!; try done; try lia. intros E x ?. apply Hone; lia.
      * apply IH; [lia..|]. replace (32 * i + (j + 1)) with (32 * i + j + 1) by lia.
        split_and!; simpl; [lia|lia|lia|]. intros E. split; [done|]. intros x ? [Hx Hf].
        destruct (decide (x = 32 * i + j)) as [->|].
        -- replace (32 * i + j) with b' in Hf by lia. rewrite E in Hfit. congruence.
        -- by apply (proj2 (Hone E) x); [lia|].
    + apply IH; [lia..|]. replace (32 * i + (j + 1)) with (32 * i + j + 1) by lia.
      split_and!; simpl; [lia|lia| |lia]. intros x ?. apply Hrun'. lia.
  - apply IH; [lia..|]. replace (32 * i + (j + 1)) with (32 * i + j + 1) by lia.
    split_and!; simpl; [lia|lia|lia|]. intros E. split; [done|]. intros x ? [Hx Hf].
    destruct (decide (x = 32 * i + j)) as [->|]; [congruence|].
    by apply (proj2 (Hone E) x); [lia|].
Qed.

(** A run of [2 * num - 1] free frames in which each block of [num] frames fits. *)
Definition long_run (x : Z) : Prop :=
  0 <= x ∧ (∀ y, x <= y < x + (2 * num - 1) → bit s y = true) ∧
  (∀ y, x <= y < x + num → fits_in_one_mmap_entry s y num = true).

(** Before bit [k] no such run is behind the search: the run being counted starts
    early enough in it. *)
Definition not_missed (k : Z) (st : scan_state) : Prop :=
  0 <= st.1 < num ∧ (st.1 = 0 ∨ st.2 + st.1 = k) ∧ ∀ x, long_run x → k - st.1 < x + num.

(** A frame in use, or a block that does not fit, is not inside of one. *)
Lemma not_missed_used k n st b :
  not_missed k st → 0 <= n → (∀ y, k <= y <= k + n → bit s y = false) → not_missed (k + n + 1) (0, b).
Proof.
  intros (Hf & _ & Hx) Hn Hb. split; [simpl; lia|]. split; [by left|]. intros x Hr. simpl. specialize (Hx x Hr).
  destruct Hr as (H0 & Hfree & _). destruct (Z.le_gt_cases (k + n + 1) x); [lia|].
  assert (E : bit s (Z.max k x) = true) by (apply Hfree; lia). rewrite Hb in E by lia. done.
Qed.

Lemma not_missed_unfit k st b :
  not_missed k st → st.1 + 1 = num → fits_in_one_mmap_entry s (k - st.1) num = false → not_missed (k + 1) (0, b).
Proof.
  intros (Hf & _ & Hx) Hn Hfit. split; [simpl; lia|]. split; [by left|]. intros x Hr. simpl. specialize (Hx x Hr).
  destruct (Z.le_gt_cases x (k - st.1)); [|lia]. destruct Hr as (_ & _ & Hall).
  rewrite Hall in Hfit by lia. done.
Qed.

Lemma scan_cell_complete cell i n j st st' :
  num < 4294967296 → 0 <= i → 0 <= j → j + Z.of_nat n = 32 → 32 * i + 32 < 4294967296 →
  (∀ j, 0 <= j < 32 → Z.testbit cell (31 - j) = bit s (32 * i + j)) →
  not_missed (32 * i + j) st → scan_cell s num cell i (seqZ j (Z.of_nat n)) st = inr st' →
  not_missed (32 * i + 32) st'.
Proof.
  intros Hnum' Hi Hj Hn Hov Hcell. revert j Hj Hn st.
  induction n as [|n IH]; intros j Hj Hn [found b] Hinv.
  { intros [= <-]. by replace (32 * i + 32) with (32 * i + j) by lia. }
  rewrite seqZ_step by lia. replace (Z.of_nat (S n) - 1) with (Z.of_nat n) by lia.
  cbn [scan_cell]. rewrite testbit_true_shiftr, Hcell by lia.
  assert (Ej : 32 * i + (j + 1) = 32 * i + j + 1) by lia.
  destruct (bit s (32 * i + j)) eqn:Hbit.
  - pose proof Hinv as (H0 & Hb & Hx). cbn [fst snd] in *.
    set (b' := if found =? 0 then _ else b).
    assert (Hb' : b' = 32 * i + j - found).
    { unfold b'. csimp. destruct (Z.eqb_spec found 0); lia. }
    clearbody b'. csimp. destruct (Z.eqb_spec (found + 1) num) as [Hfound|Hne].
    + destruct (fits_in_one_mmap_entry s b' num) eqn:Hfit; [done|]. apply IH; [lia..|]. rewrite Ej.
      apply (not_missed_unfit _ (found, b)); [done..|]. simpl. by rewrite <- Hb'.
    + apply IH; [lia..|]. rewrite Ej. split; [simpl; lia|]. split; [right; simpl; lia|].
      intros x Hr. specialize (Hx x Hr). simpl. lia.
  - apply IH; [lia..|]. rewrite Ej. replace (32 * i + j + 1) with (32 * i + j + 0 + 1) by lia.
    apply (not_missed_used _ 0 (found, b)); [done..|]. intros y Hy. by replace y with (32 * i + j) by lia.
Qed.

(** A cell with no free frame ends every run. *)
Lemma run_inv_skip from i st :
  (∀ j, 0 <= j < 32 → bit s (32 * i + j) = false) →
  run_inv from (32 * i) st → run_inv from (32 * i + 32) (0, st.2).
Proof.
  intros Hz (?&?&?&Hone). split_and!; simpl; [lia|lia|lia|]. intros E. split; [done|].
  intros x ? [Hx Hf]. destruct (decide (x < 32 * i)).
  - by apply (proj2 (Hone E) x); [lia|].
  - specialize (Hz (x - 32 * i) ltac:(lia)). replace (32 * i + (x - 32 * i)) with x in Hz by lia.
    congruence.
Qed.

Lemma cell_bit i j :
  0 <= i → 0 <= j < 32 →
  Z.testbit (default 0 (start (page_frames s) !! Z.to_nat i)) (31 - j) = bit s (32 * i + j).
Proof.
  intros. unfold bit. replace ((32 * i + j) / 32) with i by (Z.to_euclidean_division_equations; lia).
  by replace ((32 * i + j) mod 32) with j by (Z.to_euclidean_division_equations; lia).
Qed.

Lemma scan_cells_spec n i st :
  0 <= i → i + Z.of_nat n <= Z.of_nat (length (start (page_frames s))) →
  32 * (i + Z.of_nat n) < 4294967296 →
  run_inv 0 (32 * i) st →
  ∃ r, scan_cells num (seqZ i (Z.of_nat n)) st s = Ok (r, s) ∧
  match r with
  | inl b => run_found 0 (32 * (i + Z.of_nat n)) b
  | inr st' => run_inv 0 (32 * (i + Z.of_nat n)) st'
  end.
Proof.
  revert i st. induction n as [|n IH]; intros i st Hi Hn Hov Hinv.
  { exists (inr st). split; [done|]. by rewrite Z.add_0_r. }
  rewrite seqZ_step by lia. replace (Z.of_nat (S n) - 1) with (Z.of_nat n) by lia.
  cbn [scan_cells]. rewrite (bind_ok _ _ _ _ _ (cell_at_ok s i ltac:(lia))).
  rewrite (bind_ok _ _ s s s) by done.
  pose proof (cell_bit i) as Hcell. set (cell := default 0 _) in *.
  assert (Hi' : i + 1 + Z.of_nat n = i + Z.of_nat (S n)) by lia.
  destruct (Z.eqb_spec cell 0) as [Hz|_].
  { rewrite <- Hi'. apply IH; [lia..|]. replace (32 * (i + 1)) with (32 * i + 32) by lia.
    apply run_inv_skip; [|done]. intros j ?. rewrite <- Hcell, Hz by lia. apply Z.testbit_0_l. }
  pose proof (scan_cell_spec 0 cell i 32 0 st) as Hscan.
  change (Z.of_nat 32) with 32 in Hscan.
  specialize (Hscan ltac:(lia) ltac:(lia) ltac:(lia) ltac:(lia)).
  specialize (Hscan ltac:(intros; apply Hcell; lia)). rewrite Z.add_0_r in Hscan.
  specialize (Hscan Hinv). destruct (scan_cell _ _ _ _ _ _) as [b|st'].
  - exists (inl b). split; [done|]. destruct Hscan as (?&?&?&?&?&?). repeat split; try done. lia.
  - rewrite <- Hi'. apply IH; [lia..|]. by replace (32 * (i + 1)) with (32 * i + 32) by lia.
Qed.

Lemma scan_cells_complete n i st st' :
  num < 4294967296 → 0 <= i → i + Z.of_nat n <= Z.of_nat (length (start (page_frames s))) →
  32 * (i + Z.of_nat n) < 4294967296 → not_missed (32 * i) st →
  scan_cells num (seqZ i (Z.of_nat n)) st s = Ok (inr st', s) → not_missed (32 * (i + Z.of_nat n)) st'.
Proof.
  intros Hnum'. revert i st. induction n as [|n IH]; intros i st Hi Hn Hov Hinv.
  { intros [= <-]. by rewrite Z.add_0_r. }
  rewrite seqZ_step by lia. replace (Z.of_nat (S n) - 1) with (Z.of_nat n) by lia.
  cbn [scan_cells]. rewrite (bind_ok _ _ _ _ _ (cell_at_ok s i ltac:(lia))).
  rewrite (bind_ok _ _ s s s) by done.
  pose proof (cell_bit i) as Hcell. set (cell := default 0 _) in *.
  replace (i + Z.of_nat (S n)) with (i + 1 + Z.of_nat n) by lia.
  destruct (Z.eqb_spec cell 0) as [Hz|_].
  - apply IH; [lia..|]. replace (32 * (i + 1)) with (32 * i + 31 + 1) by lia.
    apply (not_missed_used _ 31 st); [done..|]. intros y Hy.
    replace y with (32 * i + (y - 32 * i)) by lia. rewrite <- Hcell, Hz by lia. apply Z.testbit_0_l.
  - destruct (scan_cell _ _ _ _ _ _) as [b|st1] eqn:E1; [done|]. apply IH; [lia..|].
    replace (32 * (i + 1)) with (32 * i + 32) by lia.
    apply (scan_cell_complete cell i 32 0 st); try done; try lia.
    + intros j Hj. apply Hcell; lia.
    + by rewrite Z.add_0_r.
Qed.
End scan.

(** ** The allocator as a set of free frames *)

(** The physical addresses of the free frames. *)
Definition free_set (s : frames) : gset Z :=
  list_to_set (paddr_for_idx s <$> filter (λ k, bit s k = true) (seqZ 0 (nbits (page_frames s)))).

(** The physical addresses of all the frames the allocator manages. *)
Definition managed_set (s : frames) : gset Z :=
  list_to_set (paddr_for_idx s <$> seqZ 0 (nbits (page_frames s))).

Section frames_facts.
Context (s : frames) (Hwf : frames_wf s).

Lemma nbits_bound : 0 < nbits (page_frames s) <= 1048320.
Proof.
  destruct Hwf as [_ _ Hn Hp Hm]. destruct (total_bound _ _ Hm) as [E|]; [|lia].
  rewrite E in Hn. simpl in Hn. lia.
Qed.

Lemma div_ceil_nbits :
  32 * div_ceil (nbits (page_frames s)) 32 < nbits (page_frames s) + 32 ∧
  nbits (page_frames s) <= 32 * div_ceil (nbits (page_frames s)) 32 ∧
  0 < div_ceil (nbits (page_frames s)) 32 <= Z.of_nat (length (start (page_frames s))).
Proof.
  pose proof nbits_bound. pose proof (wf_room _ Hwf). unfold div_ceil.
  csimp. rewrite u32_small by (Z.to_euclidean_division_equations; lia).
  Z.to_euclidean_division_equations; lia.
Qed.

Lemma paddr_locate k :
  0 <= k < 1048576 →
  paddr_for_idx s k =
  match locate (mmap s) (4096 * k) with Some (m, o) => addr m + o | None => 0 end.
Proof.
  intros Hk. pose proof nbits_bound. pose proof (wf_nbits _ Hwf).
  unfold paddr_for_idx, FOUR_KB. csimp.
  rewrite (paddr_loop_locate _ 0x100000) by (lia || apply Hwf).
  by rewrite Z.sub_0_r, Z.mul_comm.
Qed.

(** A managed frame is page aligned, above the first megabyte, and inside one
    region of the memory map. *)
Lemma paddr_for_idx_in k :
  0 <= k < nbits (page_frames s) →
  ∃ m o, locate (mmap s) (4096 * k) = Some (m, o) ∧ paddr_for_idx s k = addr m + o ∧
    0x100000 <= addr m ∧ 0 <= o ∧ o + 4096 <= len m ∧ addr m + len m < 4294967296 ∧
    paddr_for_idx s k mod 4096 = 0.
Proof.
  intros Hk. pose proof nbits_bound. pose proof (wf_nbits _ Hwf).
  rewrite paddr_locate by lia.
  destruct (locate_is_Some (mmap s) 0x100000 (4096 * k)) as [[m o] E];
    [apply Hwf|lia|]. rewrite E. exists m, o.
  pose proof (locate_spec (mmap s) _ (4096 * k) _ _ (wf_mmap _ Hwf) ltac:(lia) E) as
    (?&?&?&?&?&?&?&?).
  split_and!; try done; Z.to_euclidean_division_equations; lia.
Qed.

(** [idx_for_paddr] is the inverse of [paddr_for_idx]. *)
Lemma idx_paddr k : 0 <= k < nbits (page_frames s) → idx_for_paddr s (paddr_for_idx s k) = k.
Proof.
  intros Hk. pose proof nbits_bound. pose proof (wf_nbits _ Hwf).
  destruct (paddr_for_idx_in k Hk) as (m & o & Hl & -> & _). unfold idx_for_paddr.
  rewrite (idx_loop_locate _ 0x100000 _ (4096 * k)) by (done || lia || apply Hwf).
  rewrite Z.add_0_l, Z.mul_comm. by apply Z.div_mul.
Qed.

Lemma paddr_inj k j :
  0 <= k < nbits (page_frames s) → 0 <= j < nbits (page_frames s) →
  paddr_for_idx s k = paddr_for_idx s j → k = j.
Proof. intros Hk Hj E. by rewrite <- (idx_paddr k), <- (idx_paddr j), E. Qed.

(** A run that fits is a run of consecutive managed frames of one region. *)
Lemma fits_run k n :
  0 <= k → 0 < n → k + n < 1048576 → fits_in_one_mmap_entry s k n = true →
  k + n <= nbits (page_frames s) ∧
  (∀ i, 0 <= i < n → paddr_for_idx s (k + i) = paddr_for_idx s k + i * 4096) ∧
  ∃ m, m ∈ mmap s ∧ addr m <= paddr_for_idx s k ∧
    paddr_for_idx s k + n * 4096 <= addr m + len m.
Proof.
  intros Hk Hn Hkn. pose proof nbits_bound. pose proof (wf_nbits _ Hwf).
  unfold fits_in_one_mmap_entry, FOUR_KB. csimp.
  rewrite (fits_loop_locate _ 0x100000) by (lia || apply Hwf).
  rewrite Z.sub_0_r, (Z.mul_comm k 0x1000). change 0x1000 with 4096.
  destruct (locate _ _) as [[m o]|] eqn:E; [|done]. intros Hfit%Z.leb_le.
  pose proof (locate_spec (mmap s) _ (4096 * k) _ _ (wf_mmap _ Hwf) ltac:(lia) E) as (?&?&?&?&?&?&?&?).
  split; [lia|]. rewrite (paddr_locate k), E by lia. split.
  2: { exists m. split; [by eapply locate_elem|lia]. }
  intros i Hi. rewrite paddr_locate by lia.
  replace (4096 * (k + i)) with (4096 * k + i * 4096) by lia.
  rewrite (locate_add _ 0x100000 _ m o) by (done || lia || apply Hwf). lia.
Qed.

Lemma fits_one k : 0 <= k < nbits (page_frames s) → fits_in_one_mmap_entry s k 1 = true.
Proof.
  intros Hk. pose proof nbits_bound. pose proof (wf_nbits _ Hwf).
  destruct (paddr_for_idx_in k Hk) as (m & o & Hl & _ & _ & _ & Ho & _).
  unfold fits_in_one_mmap_entry, FOUR_KB. csimp.
  rewrite (fits_loop_locate _ 0x100000) by (lia || apply Hwf).
  rewrite Z.sub_0_r, (Z.mul_comm k 0x1000). change 0x1000 with 4096. rewrite Hl.
  apply Z.leb_le. lia.
Qed.

(** A run of free frames in one region is managed, and each block of it fits. *)
Lemma free_run_fits x c y n :
  free_run s x c → x <= y → 0 < n → y + n <= x + c →
  x + c <= nbits (page_frames s) ∧ fits_in_one_mmap_entry s y n = true.
Proof.
  intros (H0 & _ & m & o & E & Ho) Hy Hn Hc. pose proof nbits_bound. pose proof (wf_nbits _ Hwf).
  pose proof (locate_spec (mmap s) _ (4096 * x) _ _ (wf_mmap _ Hwf) ltac:(lia) E) as (?&?&?&?&?&?&?&?).
  assert (x + c <= nbits (page_frames s)) by lia. split; [done|].
  unfold fits_in_one_mmap_entry, FOUR_KB. csimp. change 0x1000 with 4096.
  rewrite (fits_loop_locate _ 0x100000) by (lia || apply Hwf).
  replace (y * 4096 - 0) with (4096 * x + 4096 * (y - x)) by lia.
  rewrite (locate_add _ 0x100000 _ m o) by (done || lia || apply Hwf). apply Z.leb_le. lia.
Qed.

Lemma free_run_long x n : 0 < n → free_run s x (2 * n - 1) → long_run s n x.
Proof.
  intros Hn Hr. pose proof Hr as (H0 & Hb & _). split; [done|]. split; [done|].
  intros y Hy. by apply (free_run_fits x (2 * n - 1)); lia || done.
Qed.

Lemma elem_of_free_set p :
  p ∈ free_set s ↔ ∃ k, 0 <= k < nbits (page_frames s) ∧ p = paddr_for_idx s k ∧ bit s k = true.
Proof.
  unfold free_set. rewrite elem_of_list_to_set, list_elem_of_fmap.
  setoid_rewrite list_elem_of_filter. setoid_rewrite elem_of_seqZ. setoid_rewrite Z.add_0_l. naive_solver.
Qed.

Lemma elem_of_managed_set p :
  p ∈ managed_set s ↔ ∃ k, 0 <= k < nbits (page_frames s) ∧ p = paddr_for_idx s k.
Proof.
  unfold managed_set. rewrite elem_of_list_to_set, list_elem_of_fmap.
  setoid_rewrite elem_of_seqZ. setoid_rewrite Z.add_0_l. naive_solver.
Qed.

Lemma free_set_managed : free_set s ⊆ managed_set s.
Proof. intros p. rewrite elem_of_free_set, elem_of_managed_set. naive_solver. Qed.

Lemma free_set_idx k :
  0 <= k < nbits (page_frames s) → paddr_for_idx s k ∈ free_set s ↔ bit s k = true.
Proof.
  intros Hk. rewrite elem_of_free_set. split; [|eauto].
  intros (j & Hj & E & ?). by rewrite (paddr_inj k j).
Qed.
End frames_facts.

Lemma managed_set_same s s' : same_but_bits s s' → managed_set s' = managed_set s.
Proof.
  intros (E1&E2&_). unfold managed_set, paddr_for_idx. by rewrite E1, E2.
Qed.

Lemma paddr_same s s' k : same_but_bits s s' → paddr_for_idx s' k = paddr_for_idx s k.
Proof. intros (E&_). unfold paddr_for_idx. by rewrite E. Qed.

(** ** [pfa_allocate] and [pfa_free] *)

Section operations.
Context (s : frames) (Hwf : frames_wf s).

Lemma pfa_search n :
  0 <= n →
  ∃ r, scan_cells n (seqZ 0 (div_ceil (nbits (page_frames s)) 32)) (0, 0) s = Ok (r, s) ∧
  match r with
  | inl b => run_found s n 0 (32 * div_ceil (nbits (page_frames s)) 32) b
  | inr st => run_inv s n 0 (32 * div_ceil (nbits (page_frames s)) 32) st ∧
      (0 < n < 4294967296 → not_missed s n (32 * div_ceil (nbits (page_frames s)) 32) st)
  end.
Proof.
  intros Hn. pose proof (div_ceil_nbits s Hwf). pose proof (nbits_bound s Hwf).
  destruct (scan_cells_spec s n (Z.to_nat (div_ceil (nbits (page_frames s)) 32)) 0 (0, 0))
    as (r & Hr & Hpost); [lia..| |].
  { split_and!; simpl; [lia|lia|lia|]. intros _. split; [done|]. lia. }
  rewrite Z.add_0_l, Z2Nat.id in * by lia. exists r. split; [done|]. destruct r as [b|st]; [done|].
  split; [done|]. intros Hn'.
  pose proof (scan_cells_complete s n (Z.to_nat (div_ceil (nbits (page_frames s)) 32)) 0 (0, 0) st) as Hc.
  rewrite Z.add_0_l, Z2Nat.id in Hc by lia. apply Hc; try lia; [|done].
  split; [simpl; lia|]. split; [by left|]. intros x (? & _). simpl. lia.
Qed.

(** The whole of [pfa_allocate], at the level of the bits. *)
Lemma pfa_allocate_bits n :
  is_u32 n →
  (∃ k s', pfa_allocate n s = Ok (paddr_for_idx s k, s') ∧ frames_wf s' ∧
     same_but_bits s s' ∧ 0 < n ∧ 0 <= k ∧ k + n <= nbits (page_frames s) ∧
     (∀ i, 0 <= i < n → paddr_for_idx s (k + i) = paddr_for_idx s k + i * 4096) ∧
     (∃ m, m ∈ mmap s ∧ addr m <= paddr_for_idx s k ∧
        paddr_for_idx s k + n * 4096 <= addr m + len m) ∧
     (∀ j, k <= j < k + n → bit s j = true) ∧
     (∀ j, 0 <= j → bit s' j = bit s j && negb (bool_decide (k <= j < k + n))) ∧
     (n = 1 → (∀ j, 0 <= j < k → bit s j = false) ∧ s' = flip k s)) ∨
  (pfa_allocate n s = Ok (0, s) ∧
     (n = 1 → ∀ j, 0 <= j < nbits (page_frames s) → bit s j = false) ∧
     (0 < n → ∀ x, ¬ free_run s x (2 * n - 1))).
Proof.
  intros Hn. pose proof (div_ceil_nbits s Hwf). pose proof (nbits_bound s Hwf).
  assert (Hnc : ∀ j, 0 <= j < nbits (page_frames s) → ¬ candidate s j → bit s j = false).
  { intros j Hj Hc. destruct (bit s j) eqn:E; [|done]. destruct Hc. by split; [|apply fits_one]. }
  unfold pfa_allocate. rewrite (bind_ok _ _ s s s) by done.
  destruct (pfa_search n) as (r & Hr & Hpost); [lia|]. rewrite (bind_ok _ _ _ _ _ Hr).
  destruct r as [k|st].
  - left. destruct Hpost as (Hk & Hkn & Hn0 & Hset & Hfit & Hone).
    destruct (fits_run s Hwf k n) as (Hin & Hcons & Hreg); [lia..|done|].
    destruct (toggle_bits_ok s k n) as (s' & Ht & Hwf' & Hsame & Hb); [done|lia..|].
    rewrite (bind_ok _ _ _ _ _ Ht). exists k, s'. unfold gets.
    rewrite (paddr_same _ _ _ Hsame). split_and!; try done.
    + intros j Hj. rewrite Hb by done. case_bool_decide; [rewrite Hset by done|]; by destruct (bit s j).
    + intros ->. split; [|rewrite toggle_bits_one in Ht by (unfold in_array; lia); congruence].
      intros j ?. apply Hnc; [lia|]. apply Hone; [done|lia].
  - right. split; [done|]. destruct Hpost as [(_&_&_&Hone) Hmiss]. split.
    + intros -> j Hj. apply Hnc; [done|]. apply Hone; [done|lia].
    + intros Hn0 x Hrun. destruct (Hmiss ltac:(lia)) as (Hf & _ & Hx). specialize (Hx x (free_run_long s Hwf x n Hn0 Hrun)).
      destruct (free_run_fits s Hwf x (2 * n - 1) x n Hrun) as [? _]; lia.
Qed.

(** [pfa_allocate] refines the allocation from a set. *)
Lemma pfa_allocate_pool n :
  is_u32 n →
  ∃ p s', pfa_allocate n s = Ok (p, s') ∧ frames_wf s' ∧
    managed_set s' = managed_set s ∧ pool_alloc n (free_set s) p (free_set s').
Proof.
  intros Hn. destruct (pfa_allocate_bits n Hn) as
    [(k & s' & Ha & Hwf' & Hsame & H0 & Hk & Hkn & Hcons & _ & Hset & Hclear & _)|(Ha & Hnone & _)].
  - exists (paddr_for_idx s k), s'. split_and!; [done..|by apply managed_set_same|].
    right. assert (Hpg : ∀ q, q ∈ pages (paddr_for_idx s k) n ↔
      ∃ j, k <= j < k + n ∧ q = paddr_for_idx s j).
    { intros q. rewrite elem_of_pages. split.
      - intros (i & ? & ->). exists (k + i). rewrite Hcons by lia. split; [lia|done].
      - intros (j & ? & ->). exists (j - k). rewrite <- Hcons by lia. split; [lia|f_equal; lia]. }
    pose proof (proj1 (proj2 Hsame)) as Hnb. split_and!; [done| |].
    + intros q (j & ? & ->)%Hpg. apply elem_of_free_set. exists j. split_and!; [lia..|done|auto].
    + apply set_eq. intros q. rewrite elem_of_difference, !elem_of_free_set, Hpg, Hnb.
      setoid_rewrite (paddr_same _ _ _ Hsame). split.
      * intros (j & Hj & -> & Hb). rewrite Hclear in Hb by lia. apply andb_prop in Hb as [Hb Hnd].
        split; [eauto|]. intros (i & ? & E). apply (paddr_inj s Hwf) in E; [|lia..]. subst i.
        by rewrite bool_decide_true in Hnd.
      * intros [(j & Hj & -> & Hb) Hout]. exists j. split_and!; [lia..|done|].
        rewrite Hclear, Hb by lia. rewrite bool_decide_false; [done|]. eauto.
  - exists 0, s. split_and!; try done. left. split_and!; try done. intros ->.
    apply set_eq. intros q. rewrite elem_of_free_set. split; [|set_solver].
    intros (j & Hj & _ & Hb). rewrite Hnone in Hb; done.
Qed.

Lemma in_array_bit k : 0 <= k < nbits (page_frames s) → in_array s k.
Proof. intros Hk. pose proof (wf_room _ Hwf). unfold in_array. lia. Qed.

(** [pfa_free] of a managed frame toggles its bit. *)
Lemma pfa_free_flip k :
  0 <= k < nbits (page_frames s) → pfa_free (paddr_for_idx s k) s = Ok (tt, flip k s).
Proof.
  intros Hk. unfold pfa_free. rewrite (bind_ok _ _ s s s) by done.
  rewrite (idx_paddr s Hwf) by done. destruct (Z.eqb_spec k (nbits (page_frames s))); [lia|].
  by apply toggle_bit_ok, in_array_bit.
Qed.

Lemma pfa_free_pool p :
  p ∈ managed_set s → p ∉ free_set s →
  ∃ s', pfa_free p s = Ok (tt, s') ∧ frames_wf s' ∧ managed_set s' = managed_set s ∧
    free_set s' = {[p]} ∪ free_set s.
Proof.
  intros (k & Hk & ->)%elem_of_managed_set Hp. rewrite (free_set_idx s Hwf) in Hp by done.
  pose proof (in_array_bit k Hk) as Hin. exists (flip k s).
  split_and!; [by apply pfa_free_flip|by apply flip_wf|by apply managed_set_same, flip_same|].
  apply set_eq. intros q. rewrite elem_of_union, elem_of_singleton, !elem_of_free_set.
  change (nbits (page_frames (flip k s))) with (nbits (page_frames s)).
  setoid_rewrite (paddr_same _ _ _ (flip_same s k)). split.
  - intros (j & Hj & -> & Hb). rewrite bit_flip in Hb by (done || lia).
    destruct (decide (j = k)) as [->|]; [by left|right].
    rewrite bool_decide_false, xorb_false_r in Hb by done. eauto.
  - intros [->|(j & Hj & -> & Hb)].
    + exists k. split_and!; [lia..|done|]. rewrite bit_flip, bool_decide_true by (done || lia).
      by destruct (bit s k).
    + exists j. split_and!; [lia..|done|]. rewrite bit_flip, Hb by (done || lia).
      rewrite bool_decide_false; [done|]. by intros ->.
Qed.
End operations.

(** The bitmap allocator implements the interface of the page tables. *)
#[export] Instance frames_ops : FrameOps frames := {|
  fr_allocate := pfa_allocate;
  fr_free := pfa_free;
  fr_printk := printk;
  fr_free_set := free_set;
  fr_managed := managed_set;
  fr_wf := frames_wf
|}.

Lemma managed_frame_ok s p :
  frames_wf s → p ∈ managed_set s → p mod 4096 = 0 ∧ 0x100000 <= p ∧ p + 4096 < 4294967296.
Proof.
  intros Hwf (k & Hk & ->)%elem_of_managed_set.
  destruct (paddr_for_idx_in s Hwf k Hk) as (m & o & ? & ? & ? & ? & ? & ? & ?). lia.
Qed.

#[export] Instance frames_laws : FrameLaws frames.
Proof.
  split; simpl.
  - apply managed_frame_ok.
  - intros s _. apply free_set_managed.
  - intros s n Hwf. by apply pfa_allocate_pool.
  - intros s p Hwf. by apply pfa_free_pool.
  - intros s fmt args Hwf. eexists. split; [done|]. split_and!; [|done..].
    destruct Hwf; by split.
Qed.

(** ** Traces

    A caller owns a set [L] of frames: it allocates more, and frees some of
    those it owns, one at a time. *)
Inductive frame_step : frames * gset Z → frames * gset Z → Prop :=
| step_alloc s L n p s' :
    is_u32 n → pfa_allocate n s = Ok (p, s') → p ≠ 0 → frame_step (s, L) (s', pages p n ∪ L)
| step_alloc_fail s L n s' :
    is_u32 n → pfa_allocate n s = Ok (0, s') → frame_step (s, L) (s', L)
| step_free s L p s' :
    p ∈ L → pfa_free p s = Ok (tt, s') → frame_step (s, L) (s', L ∖ {[p]}).

(** Nothing is lost and nothing is handed out twice. *)
Definition accounted (s0 : frames) (c : frames * gset Z) : Prop :=
  frames_wf c.1 ∧ managed_set c.1 = managed_set s0 ∧
  c.2 ⊆ free_set s0 ∧ free_set c.1 = free_set s0 ∖ c.2.

Lemma pool_alloc_zero s n s' :
  frames_wf s → pool_alloc n (free_set s) 0 (free_set s') → free_set s' = free_set s.
Proof.
  intros Hwf [(_&E&_)|(Hn&Hsub&_)]; [done|]. exfalso.
  assert (H0 : 0 ∈ pages 0 n) by (apply elem_of_pages; exists 0; lia).
  apply Hsub, free_set_managed, managed_frame_ok in H0; [lia|done].
Qed.

Lemma frame_step_accounted s0 c c' :
  frame_step c c' → accounted s0 c → accounted s0 c'.
Proof.
  intros Hstep (Hwf & Hm & HL & HF). destruct Hstep as [s L n p s' Hn Ha Hp|s L n s' Hn Ha|s L p s' Hp Hf];
    simpl in *.
  - destruct (pfa_allocate_pool s Hwf n Hn) as (p' & s'' & Ha' & ? & ? & Hpool).
    rewrite Ha in Ha'. injection Ha' as <- <-.
    destruct Hpool as [(?&_)|(?&Hsub&Hdiff)]; [done|]. rewrite HF in Hsub.
    split_and!; simpl; [done|congruence|set_solver|]. rewrite Hdiff, HF. apply set_eq. set_solver.
  - destruct (pfa_allocate_pool s Hwf n Hn) as (p' & s'' & Ha' & ? & ? & Hpool).
    rewrite Ha in Ha'. injection Ha' as <- <-. apply pool_alloc_zero in Hpool; [|done].
    split_and!; simpl; [done|congruence|done|congruence].
  - destruct (pfa_free_pool s Hwf p) as (s'' & Hf' & ? & ? & HF').
    { rewrite Hm. by apply free_set_managed, HL. }
    { rewrite HF. set_solver. }
    rewrite Hf in Hf'. injection Hf' as <-.
    split_and!; simpl; [done|congruence|set_solver|]. rewrite HF', HF. apply set_eq. intros q.
    destruct (decide (q = p)); set_solver.
Qed.

Lemma frame_steps_accounted s0 c c' :
  rtc frame_step c c' → accounted s0 c → accounted s0 c'.
Proof. induction 1; eauto using frame_step_accounted. Qed.

Lemma accounted_init s : frames_wf s → accounted s (s, ∅).
Proof. intros. split_and!; simpl; [done..|set_solver|]. by rewrite difference_empty_L. Qed.

(** ** A concrete memory map for the witnesses: two regions, six frames *)

Definition demo_frames : frames := Frames
  (PageFrameBitmap [0xFC000000] 6)
  [MemoryMap 0x200000 0x4000; MemoryMap 0x300000 0x2000] [].

Lemma demo_frames_wf : frames_wf demo_frames.
Proof.
  split; simpl; try (done || lia).
  repeat constructor; lia.
Qed.

(** ** Properties *)

(** C1: after any sequence of allocations and frees of owned frames, no call of
    the allocator faults, the frames it hands out are owned by nobody and were
    available at the start, and the frames available are exactly those not
    owned: no frame is handed out twice and none is lost. *)
Theorem frames_exclusive s0 s L :
  frames_wf s0 → rtc frame_step (s0, ∅) (s, L) →
  (∀ n, is_u32 n → ∃ p s', pfa_allocate n s = Ok (p, s') ∧
     (p ≠ 0 → pages p n ## L ∧ pages p n ⊆ free_set s0)) ∧
  (∀ p, p ∈ L → ∃ s', pfa_free p s = Ok (tt, s')) ∧
  free_set s = free_set s0 ∖ L.
Proof.
  intros Hwf0 Hsteps.
  destruct (frame_steps_accounted s0 _ _ Hsteps (accounted_init _ Hwf0)) as (Hwf & Hm & HL & HF);
    simpl in *. split_and!; [| |done].
  - intros n Hn. destruct (pfa_allocate_pool s Hwf n Hn) as (p & s' & Ha & _ & _ & Hpool).
    exists p, s'. split; [done|]. intros Hp.
    destruct Hpool as [(?&_)|(_&Hsub&_)]; [done|]. rewrite HF in Hsub. set_solver.
  - intros p Hp. destruct (pfa_free_pool s Hwf p) as (s' & ? & _); [| |eauto].
    + rewrite Hm. apply free_set_managed, HL, Hp.
    + rewrite HF. set_solver.
Qed.

Lemma frames_exclusive_witness :
  ∃ s L, rtc frame_step (demo_frames, ∅) (s, L) ∧ size L = 2%nat ∧
  (∀ p, p ∈ L → ∃ s', pfa_free p s = Ok (tt, s')).
Proof.
  assert (H : rtc frame_step (demo_frames, ∅)
    (flip 1 (flip 0 demo_frames), pages 0x200000 2 ∪ ∅)).
  { eapply rtc_once, step_alloc; [lia|vm_compute; reflexivity|done]. }
  eexists _, _. split; [exact H|]. split; [vm_compute; reflexivity|].
  exact (proj1 (proj2 (frames_exclusive _ _ _ demo_frames_wf H))).
Defined.

(** C2: a request for one frame takes the free frame of the lowest index,
    clearing its bit and no other, and fails only when no frame is free. *)
Theorem pfa_allocate_one_first_fit s :
  frames_wf s →
  (∃ k, 0 <= k < nbits (page_frames s) ∧ bit s k = true ∧
     (∀ j, 0 <= j < k → bit s j = false) ∧
     pfa_allocate 1 s = Ok (paddr_for_idx s k, flip k s)) ∨
  ((∀ j, 0 <= j < nbits (page_frames s) → bit s j = false) ∧
     pfa_allocate 1 s = Ok (0, s)).
Proof.
  intros Hwf. pose proof (nbits_bound s Hwf).
  destruct (pfa_allocate_bits s Hwf 1) as
    [(k & s' & Ha & _ & _ & _ & Hk & Hkn & _ & _ & Hset & _ & Hone)|(Ha & Hnone & _)];
    [lia| |right; auto].
  destruct Hone as [Hfirst Hflip]; [done|].
  left. exists k. rewrite <- Hflip by done. split_and!; [lia..|apply Hset; lia|auto|done].
Qed.

Lemma pfa_allocate_one_first_fit_witness :
  bit demo_frames 0 = true ∧
  pfa_allocate 1 demo_frames = Ok (0x200000, flip 0 demo_frames).
Proof.
  destruct (pfa_allocate_one_first_fit demo_frames demo_frames_wf)
    as [(k & Hk & Hb & Hfirst & ->)|[Hnone _]].
  - destruct (decide (k = 0)) as [->|]; [done|]. by specialize (Hfirst 0 ltac:(lia)).
  - by specialize (Hnone 0 ltac:(simpl; lia)).
Defined.

(** C3: a block of [n] frames lies inside one region of the memory map, starts
    on a page boundary above the first megabyte, and was free in every page; and
    no block is refused while a region has [2 * n - 1] free frames in a row. *)
Theorem pfa_allocate_in_one_region s n p s' :
  frames_wf s → 0 < n < 4294967296 → pfa_allocate n s = Ok (p, s') →
  (p ≠ 0 → p mod 4096 = 0 ∧ pages p n ⊆ free_set s ∧ free_set s' = free_set s ∖ pages p n ∧
     ∃ m, m ∈ mmap s ∧ addr m <= p ∧ p + n * 4096 <= addr m + len m) ∧
  (p = 0 → s' = s ∧ ∀ x, ¬ free_run s x (2 * n - 1)).
Proof.
  intros Hwf Hn Ha.
  destruct (pfa_allocate_pool s Hwf n ltac:(lia)) as (p' & s'' & Ha' & _ & _ & Hpool).
  rewrite Ha in Ha'. injection Ha' as <- <-.
  destruct (pfa_allocate_bits s Hwf n ltac:(lia)) as
    [(k & s'' & Ha' & _ & _ & _ & Hk & Hkn & _ & Hreg & _)|(Ha' & _ & Hno)];
    rewrite Ha in Ha'; injection Ha' as -> ->; [|split; [done|]; intros _; split; [done|]; apply Hno; lia].
  destruct (paddr_for_idx_in s Hwf k ltac:(lia)) as (m & o & _ & E & H1 & H2 & _ & _ & Hmod).
  split; [intros Hp|lia]. destruct Hpool as [(?&_)|(_&Hsub&Hdiff)]; [done|]. by split_and!.
Qed.

(** A shorter run can be missed: the search drops a run that does not fit in its
    region together with the free frames at its end. *)
Lemma pfa_allocate_misses :
  let s := Frames (PageFrameBitmap [0xE0000000] 3) [MemoryMap 0x200000 0x1000; MemoryMap 0x300000 0x2000] [] in
  frames_wf s ∧ free_run s 1 2 ∧ pfa_allocate 2 s = Ok (0, s).
Proof.
  cbv zeta. split; [|split; [|by vm_compute]].
  - split; simpl; try (done || lia). repeat constructor; lia.
  - split; [done|]. split; [|exists (MemoryMap 0x300000 0x2000), 0; by vm_compute].
    intros y Hy. assert (y = 1 ∨ y = 2) as [->| ->] by lia; by vm_compute.
Qed.

Lemma pfa_allocate_in_one_region_witness :
  ∃ s', pfa_allocate 2 (flip 3 demo_frames) = Ok (0x200000, s') ∧ pages 0x200000 2 ## free_set s'.
Proof.
  eexists. split; [vm_compute; reflexivity|].
  destruct (pfa_allocate_in_one_region (flip 3 demo_frames) 2 0x200000 _
    (flip_wf demo_frames 3 ltac:(unfold in_array; simpl; lia) demo_frames_wf) ltac:(lia)
    ltac:(vm_compute; reflexivity)) as [H _].
  destruct H as (_ & _ & E & _); [done|]. rewrite E. set_solver.
Defined.

(** Bit indices and frame addresses are in bijection: the index of the
    address of frame [k] is [k], and distinct frames have distinct addresses. *)
Lemma idx_for_paddr_roundtrip s k :
  frames_wf s → 0 <= k < nbits (page_frames s) →
  idx_for_paddr s (paddr_for_idx s k) = k ∧
  ∀ j, 0 <= j < nbits (page_frames s) → paddr_for_idx s j = paddr_for_idx s k → j = k.
Proof.
  intros Hwf Hk. split; [by apply idx_paddr|]. intros j Hj. by apply (paddr_inj s Hwf).
Qed.
