(* ===== verification/Mmu.v ===== *)
(** * Mmu: physical memory and the address translation the kernel runs under

    The page tables of paging.c live in physical memory and the code reads and
    writes them through virtual addresses. This file models both: physical
    memory as 32-bit words, an entry ([struct pde], [struct pte]) as the word
    its packed fields make up, and the two-level walk of an i386 without PAE,
    whose entry format the comments of [create_pdt_entry] and [create_pt_entry]
    record. *)

From S2P Require Import Prelude.

(** ** Entries

    [struct pde] and [struct pte] have the same packed layout: [config] in the
    low byte, [low_addr] / [middle] in the next, [high_addr] in the high half. *)

Definition entry (config middle high_addr : Z) : Z := config + 256 * middle + 65536 * high_addr.
Definition config (w : Z) : Z := w mod 256.
Definition middle (w : Z) : Z := w / 256 mod 256.
Definition high_addr (w : Z) : Z := w / 65536.

Definition set_config (c w : Z) : Z := entry c (middle w) (high_addr w).
Definition set_middle (m w : Z) : Z := entry (config w) m (high_addr w).
Definition set_high_addr (h w : Z) : Z := entry (config w) (middle w) h.

(** What the processor reads in an entry. *)
Definition hw_present (w : Z) : bool := Z.testbit w 0.
Definition hw_large (w : Z) : bool := Z.testbit w 7.
Definition hw_writable (w : Z) : bool := Z.testbit w 1.
Definition hw_user (w : Z) : bool := Z.testbit w 2.
Definition hw_base (w : Z) : Z := w / 4096 * 4096.
Definition hw_large_base (w : Z) : Z := w / 4194304 * 4194304.

(** ** Physical memory and the walk *)

Definition ld (m : gmap Z Z) (a : Z) : Z := default 0 (m !! a).

Definition pde_of (m : gmap Z Z) (pdt v : Z) : Z := ld m (pdt + 4 * (v / 4194304)).
Definition pte_addr (e v : Z) : Z := hw_base e + 4 * (v / 4096 mod 1024).

(** The physical address [v] stands for under the page directory at [pdt];
    [None] is a page fault. *)
Definition walk (m : gmap Z Z) (pdt v : Z) : option Z :=
  let e := pde_of m pdt v in
  if negb (hw_present e) then None
  else if hw_large e then Some (hw_large_base e + v mod 4194304)
  else
    let t := ld m (pte_addr e v) in
    if negb (hw_present t) then None else Some (hw_base t + v mod 4096).

(** What may be done at [v], an address in a page of 4 kB: whether it may be written, and
    whether user mode may access it. Both entries have to allow it. *)
Definition rights (m : gmap Z Z) (pdt v : Z) : bool * bool :=
  let e := pde_of m pdt v in
  let t := ld m (pte_addr e v) in
  (hw_writable e && hw_writable t, hw_user e && hw_user t).

(** ** Lemmas on entries *)

Lemma entry_config c m h : is_u8 c → is_u8 m → config (entry c m h) = c.
Proof. unfold config, entry. intros. Z.to_euclidean_division_equations; lia. Qed.

Lemma entry_middle c m h : is_u8 c → is_u8 m → middle (entry c m h) = m.
Proof. unfold middle, entry. intros. Z.to_euclidean_division_equations; lia. Qed.

Lemma entry_high_addr c m h : is_u8 c → is_u8 m → high_addr (entry c m h) = h.
Proof. unfold high_addr, entry. intros. Z.to_euclidean_division_equations; lia. Qed.

Lemma config_range w : is_u8 (config w).
Proof. unfold config. apply Z.mod_pos_bound. lia. Qed.

Lemma middle_range w : is_u8 (middle w).
Proof. unfold middle. apply Z.mod_pos_bound. lia. Qed.

(** An entry the processor finds present is one the code finds present. *)
Lemma hw_present_config w : hw_present w = true → config w ≠ 0.
Proof.
  unfold hw_present, config. rewrite Z.bit0_odd. intros Hodd E.
  rewrite Z.odd_spec in Hodd. destruct Hodd as [k ->]. Z.to_euclidean_division_equations; lia.
Qed.

Create HintDb mmu discriminated.
#[export] Hint Resolve config_range middle_range : mmu.

Lemma testbit_div w i : 0 <= i → Z.testbit w i = Z.odd (w / 2 ^ i).
Proof. intros. by rewrite Z.testbit_odd, Z.shiftr_div_pow2. Qed.

Lemma odd_mod a b : a mod 2 = b mod 2 → Z.odd a = Z.odd b.
Proof. intros H. by rewrite (Zmod_odd a), (Zmod_odd b) in H; destruct (Z.odd a), (Z.odd b). Qed.

(** The rights of an entry, beside the bits [c] of its low byte. *)
Lemma entry_rights c rw pl m h :
  c mod 8 = 1 →
  hw_writable (entry (c + 4 * (pl mod 2) + 2 * (rw mod 2)) m h) = Z.odd rw ∧
  hw_user (entry (c + 4 * (pl mod 2) + 2 * (rw mod 2)) m h) = Z.odd pl.
Proof.
  intros Hc. unfold hw_writable, hw_user, entry. rewrite !testbit_div by done. change (2 ^ 1) with 2. change (2 ^ 2) with 4.
  split; apply odd_mod; Z.to_euclidean_division_equations; lia.
Qed.

(** ** Lemmas on memory *)

Lemma ld_insert m a w b : ld (<[a:=w]> m) b = if decide (a = b) then w else ld m b.
Proof. unfold ld. rewrite lookup_insert. by case_decide. Qed.

Lemma ld_insert_eq m a w : ld (<[a:=w]> m) a = w.
Proof. rewrite ld_insert. by rewrite decide_True. Qed.

Lemma ld_insert_ne m a w b : a ≠ b → ld (<[a:=w]> m) b = ld m b.
Proof. intros. rewrite ld_insert. by rewrite decide_False. Qed.

(** The walk depends on two words only. *)
Lemma walk_ext m m' pdt v :
  pde_of m' pdt v = pde_of m pdt v →
  (hw_present (pde_of m pdt v) = true → hw_large (pde_of m pdt v) = false →
   ld m' (pte_addr (pde_of m pdt v) v) = ld m (pte_addr (pde_of m pdt v) v)) →
  walk m' pdt v = walk m pdt v.
Proof.
  unfold walk. intros -> Hpt. destruct (hw_present _); simpl; [|done].
  destruct (hw_large _); [done|]. by rewrite Hpt.
Qed.

(** The words in the same page of a directory resolve alike. *)
Lemma pde_of_page m pdt v i :
  v mod 4096 = 0 → 0 <= i < 4096 → pde_of m pdt (v + i) = pde_of m pdt v.
Proof.
  intros. unfold pde_of. do 3 f_equal. Z.to_euclidean_division_equations; lia.
Qed.

Lemma pte_addr_page e v i :
  v mod 4096 = 0 → 0 <= i < 4096 → pte_addr e (v + i) = pte_addr e v.
Proof.
  intros. unfold pte_addr. do 3 f_equal. Z.to_euclidean_division_equations; lia.
Qed.

Lemma walk_page m pdt v i :
  v mod 4096 = 0 → 0 <= i < 4096 → walk m pdt (v + i) = (λ p, p + i) <$> walk m pdt v.
Proof.
  intros Hv Hi. unfold walk. rewrite pde_of_page, pte_addr_page by done.
  destruct (hw_present _); simpl; [|done]. destruct (hw_large _); simpl.
  - f_equal. rewrite <- Z.add_assoc. f_equal. Z.to_euclidean_division_equations; lia.
  - destruct (hw_present _); simpl; [|done]. f_equal. rewrite <- Z.add_assoc. f_equal.
    Z.to_euclidean_division_equations; lia.
Qed.
