(* ===== verification/Paging.v ===== *)
(** * Paging: the page tables of kernel/arch/i386/paging.c

    The functions that build, search and tear down page tables, over any
    allocator of physical frames ([FrameOps]). Every access to a table goes
    through the address translation in force: a table is reached through the
    kernel's last page table entry, the temporary window. *)

From S2P Require Import Prelude CArith Interfaces Mmu.

Definition NUM_ENTRIES : Z := 1024.
Definition PDT_SIZE : Z := NUM_ENTRIES * 4.
Definition PAGING_PL0 : Z := 0.
Definition PAGING_PL3 : Z := 1.
Definition PAGING_READ_WRITE : Z := 1.
Definition PS_4KB : Z := 0x00.
Definition PT_ENTRY_SIZE : Z := 0x1000.
Definition PDT_ENTRY_SIZE : Z := 0x400000.
Definition KERNEL_START_VADDR : Z := 0xC0000000.
Definition KERNEL_TMP_PT_IDX : Z := 1023.
Definition KERNEL_TMP_VADDR : Z := KERNEL_START_VADDR + KERNEL_TMP_PT_IDX * PT_ENTRY_SIZE.

Definition VIRTUAL_TO_PDT_IDX (a : Z) : Z := Z.land (Z.shiftr a 22) 0x3FF.
Definition VIRTUAL_TO_PT_IDX (a : Z) : Z := Z.land (Z.shiftr a 12) 0x3FF.
Definition PDT_IDX_TO_VIRTUAL (a : Z) : Z := a <<ᵤ 22.
Definition PT_IDX_TO_VIRTUAL (a : Z) : Z := a <<ᵤ 12.
Definition KERNEL_PT_PDT_IDX : Z := VIRTUAL_TO_PDT_IDX KERNEL_START_VADDR.

(** [IS_ENTRY_PRESENT(e)] is [(e)->config && 0x01], a logical conjunction. *)
Definition IS_ENTRY_PRESENT (w : Z) : bool := negb (config w =? 0) && negb (0x01 =? 0).

(** ** State

    [phys] is physical memory, [cr3] the register; [kernel_pdt] and [kernel_pt]
    are the static pointers of the file; [invalidated] lists the pages
    [invalidate_page_table_entry] was called for, the latest first; [pfa] is the
    state of the frame allocator. *)
Record paging {St : Type} : Type := Paging {
  phys : gmap Z Z;
  cr3 : Z;
  kernel_pdt : Z;
  kernel_pt : Z;
  invalidated : list Z;
  pfa : St
}.
Arguments paging : clear implicits.

Section operations.
Context {St : Type} `{!FrameOps St}.
Implicit Types s : paging St.

Definition set_phys (m : gmap Z Z) s : paging St :=
  Paging _ m (cr3 s) (kernel_pdt s) (kernel_pt s) (invalidated s) (pfa s).
Definition set_cr3 (c : Z) s : paging St :=
  Paging _ (phys s) c (kernel_pdt s) (kernel_pt s) (invalidated s) (pfa s).
Definition set_invalidated (l : list Z) s : paging St :=
  Paging _ (phys s) (cr3 s) (kernel_pdt s) (kernel_pt s) l (pfa s).
Definition set_pfa (p : St) s : paging St :=
  Paging _ (phys s) (cr3 s) (kernel_pdt s) (kernel_pt s) (invalidated s) p.

(** The directory the processor walks. *)
Definition active s : Z := hw_base (cr3 s).

Definition pfa_allocate (n : Z) : M (paging St) Z := zoom pfa set_pfa (fr_allocate n).
Definition pfa_free (p : Z) : M (paging St) unit := zoom pfa set_pfa (fr_free p).
Definition printk (fmt : string) (args : list Z) : M (paging St) unit :=
  zoom pfa set_pfa (fr_printk fmt args).

(** ** Accesses to virtual memory: aligned words *)

Definition resolve (v : Z) : M (paging St) Z :=
  gets id ≫= λ s,
  if v mod 4 =? 0 then of_option (walk (phys s) (active s) v) else fault.

Definition load (v : Z) : M (paging St) Z :=
  resolve v ≫= λ p, gets (λ s, ld (phys s) p).

(** Store to a field of the word at [v]. *)
Definition update (v : Z) (f : Z → Z) : M (paging St) unit :=
  resolve v ≫= λ p, modify (λ s, set_phys (<[p := f (ld (phys s) p)]> (phys s)) s).

Definition store (v w : Z) : M (paging St) unit := update v (λ _, w).

(** [invalidate_page_table_entry] of paging_assembler.s: the walk has no cache,
    so the call is only recorded. *)
Definition invalidate_page_table_entry (v : Z) : M (paging St) unit :=
  modify (λ s, set_invalidated (v :: invalidated s) s).

(** [pdt_set] of paging_assembler.s. *)
Definition pdt_set (paddr : Z) : M (paging St) unit :=
  modify (set_cr3 (Z.lor (Z.land paddr 0xFFFFF000) 0x08)).

(** ** Entries *)

Definition create_pdt_entry (pdt n addr ps rw pl : Z) : M (paging St) unit :=
  let e := pdt +ᵤ 4 * n in
  update e (set_middle (u8 (Z.shiftl (Z.land (Z.shiftr addr 12) 0xF) 4))) ≫= λ _,
  update e (set_high_addr (Z.land (Z.shiftr addr 16) 0xFFFF)) ≫= λ _,
  update e (set_config (u8
    (Z.lor (Z.lor (Z.lor (Z.lor (Z.shiftl (Z.land ps 0x01) 7) (Z.shiftl 0x01 3))
       (Z.shiftl (Z.land pl 0x01) 2)) (Z.shiftl (Z.land rw 0x01) 1)) 0x01))).

Definition create_pt_entry (pt n addr rw pl : Z) : M (paging St) unit :=
  let e := pt +ᵤ 4 * n in
  update e (set_middle (u8 (Z.shiftl (Z.land (Z.shiftr addr 12) 0xF) 4))) ≫= λ _,
  update e (set_high_addr (Z.land (Z.shiftr addr 16) 0xFFFF)) ≫= λ _,
  update e (set_config (u8
    (Z.lor (Z.lor (Z.lor (Z.shiftl 0x01 3) (Z.shiftl (Z.land 0x01 pl) 2))
       (Z.shiftl (Z.land 0x01 rw) 1)) 0x01))).

(** [e->high_addr] and [e->low_addr] of the entry [pde + pde_idx]. *)
Definition get_pt_paddr (pde pde_idx : Z) : M (paging St) Z :=
  e ← load (pde +ᵤ 4 * pde_idx);
  mret (Z.lor (high_addr e <<ᵤ 16) (Z.land (middle e) 0xF0 <<ᵤ 8)).

Definition is_entry_present (table i : Z) : M (paging St) bool :=
  e ← load (table +ᵤ 4 * i); mret (IS_ENTRY_PRESENT e).

(** ** The temporary window *)

Definition kernel_map_temporary_memory (paddr : Z) : M (paging St) Z :=
  pt ← gets kernel_pt;
  create_pt_entry pt KERNEL_TMP_PT_IDX paddr PAGING_READ_WRITE PAGING_PL0 ≫= λ _,
  invalidate_page_table_entry KERNEL_TMP_VADDR ≫= λ _,
  mret KERNEL_TMP_VADDR.

Definition kernel_set_temporary_entry (e : Z) : M (paging St) unit :=
  pt ← gets kernel_pt;
  store (pt +ᵤ 4 * KERNEL_TMP_PT_IDX) e ≫= λ _,
  invalidate_page_table_entry KERNEL_TMP_VADDR.

Definition kernel_get_temporary_entry : M (paging St) Z :=
  pt ← gets kernel_pt;
  load (pt +ᵤ 4 * KERNEL_TMP_PT_IDX).

(** [memset(p, 0, 4 * n)] of a table's entries. *)
Definition clear_entries (p n : Z) : M (paging St) unit :=
  for_each (seqZ 0 n) (λ i, store (p +ᵤ 4 * i) 0).

(** ** Free virtual addresses *)

(** The loop of [pt_kernel_find_next_vaddr] over the indices [idx], with its
    locals [num_found] and [org_i]. *)
Fixpoint find_in_pt (pdt_idx pt num_to_find : Z) (idx : list Z) (num_found org_i : Z)
    : M (paging St) Z :=
  match idx with
  | [] => mret 0
  | i :: idx' =>
    present ← is_entry_present pt i;
    if present || ((pdt_idx =? KERNEL_PT_PDT_IDX) && (i =? KERNEL_TMP_PT_IDX))
    then find_in_pt pdt_idx pt num_to_find idx' 0 org_i
    else
      let org_i := if num_found =? 0 then i else org_i in
      let num_found := num_found +ᵤ 1 in
      if num_found =? num_to_find
      then mret (Z.lor (PDT_IDX_TO_VIRTUAL pdt_idx) (PT_IDX_TO_VIRTUAL org_i))
      else find_in_pt pdt_idx pt num_to_find idx' num_found org_i
  end.

Definition pt_kernel_find_next_vaddr (pdt_idx pt size : Z) : M (paging St) Z :=
  let num_to_find := align_up size PT_ENTRY_SIZE / PT_ENTRY_SIZE in
  find_in_pt pdt_idx pt num_to_find (seqZ 0 NUM_ENTRIES) 0 0.

Fixpoint find_in_pdt (size : Z) (idx : list Z) : M (paging St) Z :=
  match idx with
  | [] => mret 0
  | pdt_idx :: idx' =>
    pdt ← gets kernel_pdt;
    present ← is_entry_present pdt pdt_idx;
    vaddr ← (if present : bool then
       tmp_entry ← kernel_get_temporary_entry;
       pt_paddr ← get_pt_paddr pdt pdt_idx;
       pt_vaddr ← kernel_map_temporary_memory pt_paddr;
       vaddr ← pt_kernel_find_next_vaddr pdt_idx pt_vaddr size;
       kernel_set_temporary_entry tmp_entry ≫= λ _, mret vaddr
     else mret (PDT_IDX_TO_VIRTUAL pdt_idx));
    if vaddr =? 0 then find_in_pdt size idx' else mret vaddr
  end.

Definition pdt_kernel_find_next_vaddr (size : Z) : M (paging St) Z :=
  let first := VIRTUAL_TO_PDT_IDX KERNEL_START_VADDR in
  find_in_pdt size (seqZ first (NUM_ENTRIES - first)).

(** ** Mapping *)

Fixpoint pt_map_loop (fuel : nat) (pt pdt_idx paddr pt_idx mapped_size size rw pl : Z)
    : M (paging St) Z :=
  match fuel with
  | O => out_of_fuel
  | S fuel =>
    if (mapped_size <? size) && (pt_idx <? NUM_ENTRIES) then
      present ← is_entry_present pt pt_idx;
      if present : bool then mret mapped_size
      else if (pdt_idx =? KERNEL_PT_PDT_IDX) && (pt_idx =? KERNEL_TMP_PT_IDX)
      then mret mapped_size
      else
        create_pt_entry pt pt_idx paddr rw pl ≫= λ _,
        pt_map_loop fuel pt pdt_idx (paddr +ᵤ PT_ENTRY_SIZE) (pt_idx + 1)
          (mapped_size +ᵤ PT_ENTRY_SIZE) size rw pl
    else mret mapped_size
  end.

(** The loop ends before [pt_idx] passes 1024. *)
Definition pt_map_memory (pt pdt_idx paddr vaddr size rw pl : Z) : M (paging St) Z :=
  pt_map_loop 1025 pt pdt_idx paddr (VIRTUAL_TO_PT_IDX vaddr) 0 size rw pl.

(** The end of the body of the loop of [pdt_map_memory], the window open on the
    table at [pt_paddr]: the size it mapped, [None] when the function returns 0. *)
Definition pdt_map_table (pdt pdt_idx pt_paddr pt_vaddr tmp_entry paddr vaddr size rw pl : Z)
    : M (paging St) (option Z) :=
  mapped_size ← pt_map_memory pt_vaddr pdt_idx paddr vaddr size rw pl;
  if mapped_size =? 0 then
    printk "Could not map memory in page table. pt: %X, paddr: %X, vaddr: %X, size: %u\n"
      [pt_vaddr; paddr; vaddr; size] ≫= λ _,
    kernel_set_temporary_entry tmp_entry ≫= λ _, mret None
  else
    present ← is_entry_present pdt pdt_idx;
    (if present : bool then mret tt
     else create_pdt_entry pdt pdt_idx pt_paddr PS_4KB rw pl) ≫= λ _,
    kernel_set_temporary_entry tmp_entry ≫= λ _,
    mret (Some mapped_size).

(** The body of the loop of [pdt_map_memory]. *)
Definition pdt_map_body (pdt paddr vaddr size rw pl : Z) : M (paging St) (option Z) :=
  let pdt_idx := VIRTUAL_TO_PDT_IDX vaddr in
  tmp_entry ← kernel_get_temporary_entry;
  present ← is_entry_present pdt pdt_idx;
  if present : bool then
    pt_paddr ← get_pt_paddr pdt pdt_idx;
    pt_vaddr ← kernel_map_temporary_memory pt_paddr;
    pdt_map_table pdt pdt_idx pt_paddr pt_vaddr tmp_entry paddr vaddr size rw pl
  else
    pt_paddr ← pfa_allocate 1;
    if pt_paddr =? 0 then
      printk "Couldn't allocate page frame for new page table.pdt_idx: %u, data vaddr: %X, data paddr: %X, data size: %u\n"
        [pdt_idx; vaddr; paddr; size] ≫= λ _, mret None
    else
      pt_vaddr ← kernel_map_temporary_memory pt_paddr;
      clear_entries pt_vaddr NUM_ENTRIES ≫= λ _,
      pdt_map_table pdt pdt_idx pt_paddr pt_vaddr tmp_entry paddr vaddr size rw pl.

Fixpoint pdt_map_loop (fuel : nat) (pdt paddr vaddr size rw pl total_mapped_size : Z)
    : M (paging St) Z :=
  match fuel with
  | O => out_of_fuel
  | S fuel =>
    if size =? 0 then mret total_mapped_size
    else
      r ← pdt_map_body pdt paddr vaddr size rw pl;
      match r with
      | None => mret 0
      | Some mapped_size =>
        pdt_map_loop fuel pdt (paddr +ᵤ mapped_size) (vaddr +ᵤ mapped_size)
          (size -ᵤ mapped_size) rw pl (total_mapped_size +ᵤ mapped_size)
      end
  end.

(** Every turn of the loop maps at least one page. *)
Definition pdt_map_memory (pdt paddr vaddr size rw pl : Z) : M (paging St) Z :=
  let size := align_up size PT_ENTRY_SIZE in
  pdt_map_loop (S (Z.to_nat (size / PT_ENTRY_SIZE))) pdt paddr vaddr size rw pl 0.

Definition pdt_map_kernel_memory (paddr vaddr size rw pl : Z) : M (paging St) Z :=
  pdt ← gets kernel_pdt;
  pdt_map_memory pdt paddr vaddr size rw pl.

(** ** Unmapping *)

Fixpoint pt_unmap_loop (fuel : nat) (pt pdt_idx vaddr pt_idx freed_size size : Z)
    : M (paging St) Z :=
  match fuel with
  | O => out_of_fuel
  | S fuel =>
    if (freed_size <? size) && (pt_idx <? NUM_ENTRIES) then
      if (pdt_idx =? KERNEL_PT_PDT_IDX) && (pt_idx =? KERNEL_TMP_PT_IDX)
      then mret freed_size
      else
        present ← is_entry_present pt pt_idx;
        (if present : bool then
           clear_entries (pt +ᵤ 4 * pt_idx) 1 ≫= λ _,
           invalidate_page_table_entry vaddr
         else mret tt) ≫= λ _,
        pt_unmap_loop fuel pt pdt_idx (vaddr +ᵤ PT_ENTRY_SIZE) (pt_idx + 1)
          (freed_size +ᵤ PT_ENTRY_SIZE) size
    else mret freed_size
  end.

Definition pt_unmap_memory (pt pdt_idx vaddr size : Z) : M (paging St) Z :=
  pt_unmap_loop 1025 pt pdt_idx vaddr (VIRTUAL_TO_PT_IDX vaddr) 0 size.

(** The loop need not end, so the caller gives the fuel. *)
Fixpoint pdt_unmap_loop (fuel : nat) (pdt vaddr end_vaddr size freed_size : Z)
    : M (paging St) Z :=
  match fuel with
  | O => out_of_fuel
  | S fuel =>
    if vaddr <? end_vaddr then
      let pdt_idx := VIRTUAL_TO_PDT_IDX vaddr in
      present ← is_entry_present pdt pdt_idx;
      if negb present then
        pdt_unmap_loop fuel pdt (align_up vaddr PDT_ENTRY_SIZE) end_vaddr size freed_size
      else
        pt_paddr ← get_pt_paddr pdt pdt_idx;
        tmp_entry ← kernel_get_temporary_entry;
        pt_vaddr ← kernel_map_temporary_memory pt_paddr;
        freed_size ← pt_unmap_memory pt_vaddr pdt_idx vaddr size;
        kernel_set_temporary_entry tmp_entry ≫= λ _,
        (if (freed_size =? PDT_ENTRY_SIZE) && negb (pdt_idx =? KERNEL_PT_PDT_IDX)
         then pfa_free pt_paddr ≫= λ _, clear_entries (pdt +ᵤ 4 * pdt_idx) 1
         else mret tt) ≫= λ _,
        pdt_unmap_loop fuel pdt (vaddr +ᵤ freed_size) end_vaddr size freed_size
    else mret freed_size
  end.

Definition pdt_unmap_memory (fuel : nat) (pdt vaddr size : Z) : M (paging St) Z :=
  let size := align_up size PT_ENTRY_SIZE in
  pdt_unmap_loop fuel pdt vaddr (vaddr +ᵤ size) size 0.

Definition pdt_unmap_kernel_memory (fuel : nat) (virtual_addr size : Z) : M (paging St) Z :=
  pdt ← gets kernel_pdt;
  pdt_unmap_memory fuel pdt virtual_addr size.

(** ** Page directories *)

(** The pointer returned and [*out_paddr]. *)
Definition pdt_create : M (paging St) (Z * Z) :=
  pdt_paddr ← pfa_allocate 1;
  pdt_vaddr ← pdt_kernel_find_next_vaddr PDT_SIZE;
  size ← pdt_map_kernel_memory pdt_paddr pdt_vaddr PDT_SIZE PAGING_READ_WRITE PAGING_PL0;
  if size <? PDT_SIZE then pfa_free pdt_paddr ≫= λ _, mret (0, 0)
  else
    clear_entries pdt_vaddr NUM_ENTRIES ≫= λ _,
    mret (pdt_vaddr, pdt_paddr).

Definition copy_entry (dst src i : Z) : M (paging St) unit :=
  e ← load (src +ᵤ 4 * i); store (dst +ᵤ 4 * i) e.

Definition KERNEL_PDT_IDX : Z := Z.shiftr KERNEL_START_VADDR 22.

Definition pdt_load_process_pdt (pdt pdt_paddr : Z) : M (paging St) unit :=
  kpdt ← gets kernel_pdt;
  copy_entry pdt kpdt 0 ≫= λ _,
  for_each (seqZ KERNEL_PDT_IDX (NUM_ENTRIES - KERNEL_PDT_IDX))
    (λ i, present ← is_entry_present kpdt i;
          if present : bool then copy_entry pdt kpdt i else mret tt) ≫= λ _,
  pdt_set pdt_paddr.
End operations.
