(* ===== verification/PagingFacts.v ===== *)
(** * PagingFacts: how the accesses of [Paging] act on physical memory

    The words the entry constructors build, the invariant [kernel_wf] under
    which the kernel's own pointers and the temporary window resolve, and the
    effect of each access as an update of physical memory. *)

From S2P Require Import Prelude CArith Interfaces Mmu Paging.

(** ** Indices *)

Lemma VIRTUAL_TO_PDT_IDX_eq a : is_u32 a → VIRTUAL_TO_PDT_IDX a = a / 4194304.
Proof.
  intros. unfold VIRTUAL_TO_PDT_IDX. rewrite land_0x3FF, Z.shiftr_div_pow2 by done.
  change (2 ^ 22) with 4194304. apply Z.mod_small. Z.to_euclidean_division_equations; lia.
Qed.

Lemma VIRTUAL_TO_PT_IDX_eq a : VIRTUAL_TO_PT_IDX a = a / 4096 mod 1024.
Proof. unfold VIRTUAL_TO_PT_IDX. by rewrite land_0x3FF, Z.shiftr_div_pow2. Qed.

(** ** The words of the entries *)

Definition pt_entry (addr rw pl : Z) : Z :=
  entry (9 + 4 * (pl mod 2) + 2 * (rw mod 2)) (addr / 4096 mod 16 * 16) (addr / 65536 mod 65536).

Definition pd_entry (addr ps rw pl : Z) : Z :=
  entry (9 + 128 * (ps mod 2) + 4 * (pl mod 2) + 2 * (rw mod 2))
    (addr / 4096 mod 16 * 16) (addr / 65536 mod 65536).

Lemma entry_middle_bits addr :
  u8 (Z.shiftl (Z.land (Z.shiftr addr 12) 0xF) 4) = addr / 4096 mod 16 * 16.
Proof.
  rewrite land_0xF, Z.shiftr_div_pow2, Z.shiftl_mul_pow2 by done.
  change (2 ^ 12) with 4096. change (2 ^ 4) with 16. apply u8_small.
  pose proof (Z.mod_pos_bound (addr / 4096) 16). lia.
Qed.

Lemma entry_high_bits addr : Z.land (Z.shiftr addr 16) 0xFFFF = addr / 65536 mod 65536.
Proof. by rewrite land_0xFFFF, Z.shiftr_div_pow2. Qed.

Lemma mod2_cases a : a mod 2 = 0 ∨ a mod 2 = 1.
Proof. pose proof (Z.mod_pos_bound a 2). lia. Qed.

Lemma pt_config_bits rw pl :
  u8 (Z.lor (Z.lor (Z.lor (Z.shiftl 0x01 3) (Z.shiftl (Z.land 0x01 pl) 2))
    (Z.shiftl (Z.land 0x01 rw) 1)) 0x01) = 9 + 4 * (pl mod 2) + 2 * (rw mod 2).
Proof.
  rewrite (Z.land_comm 1 pl), (Z.land_comm 1 rw), !land_1.
  by destruct (mod2_cases pl) as [-> | ->], (mod2_cases rw) as [-> | ->].
Qed.

Lemma pd_config_bits ps rw pl :
  u8 (Z.lor (Z.lor (Z.lor (Z.lor (Z.shiftl (Z.land ps 0x01) 7) (Z.shiftl 0x01 3))
    (Z.shiftl (Z.land pl 0x01) 2)) (Z.shiftl (Z.land rw 0x01) 1)) 0x01)
  = 9 + 128 * (ps mod 2) + 4 * (pl mod 2) + 2 * (rw mod 2).
Proof.
  rewrite !land_1.
  by destruct (mod2_cases ps) as [-> | ->], (mod2_cases pl) as [-> | ->],
    (mod2_cases rw) as [-> | ->].
Qed.

(** The processor and the code agree on an entry the code built. *)
Record entry_ok (w base : Z) : Prop := EntryOk {
  eo_u32 : is_u32 w;
  eo_present : hw_present w = true;
  eo_config : IS_ENTRY_PRESENT w = true;
  eo_small : hw_large w = false;
  eo_base : hw_base w = base
}.

Lemma IS_ENTRY_PRESENT_spec w : IS_ENTRY_PRESENT w = true ↔ config w ≠ 0.
Proof. unfold IS_ENTRY_PRESENT. destruct (Z.eqb_spec (config w) 0); naive_solver. Qed.

Lemma hw_present_code w : hw_present w = true → IS_ENTRY_PRESENT w = true.
Proof. intros ?%hw_present_config. by apply IS_ENTRY_PRESENT_spec. Qed.

Lemma entry_bits c m h :
  is_u8 c → is_u8 m → hw_present (entry c m h) = Z.testbit c 0 ∧
  hw_large (entry c m h) = Z.testbit c 7.
Proof.
  intros Hc Hm. unfold hw_present, hw_large, entry.
  rewrite <- (Z.mod_pow2_bits_low _ 8 0), <- (Z.mod_pow2_bits_low _ 8 7) by lia.
  change (2 ^ 8) with 256. replace ((c + 256 * m + 65536 * h) mod 256) with c; [done|].
  Z.to_euclidean_division_equations; lia.
Qed.

Lemma entry_ok_entry c addr :
  is_u8 c → Z.testbit c 0 = true → Z.testbit c 7 = false →
  is_u32 addr → addr mod 4096 = 0 →
  entry_ok (entry c (addr / 4096 mod 16 * 16) (addr / 65536 mod 65536)) addr.
Proof.
  intros Hc H0 H7 Ha Hal.
  assert (Hm : is_u8 (addr / 4096 mod 16 * 16)) by (Z.to_euclidean_division_equations; lia).
  pose proof (entry_bits c _ (addr / 65536 mod 65536) Hc Hm) as [Hp Hl].
  split; [| |by apply hw_present_code; rewrite Hp| |].
  - unfold entry. Z.to_euclidean_division_equations; lia.
  - by rewrite Hp.
  - by rewrite Hl.
  - unfold hw_base, entry. Z.to_euclidean_division_equations; lia.
Qed.

Lemma pt_entry_ok addr rw pl :
  is_u32 addr → addr mod 4096 = 0 → entry_ok (pt_entry addr rw pl) addr.
Proof.
  intros. apply entry_ok_entry; try done;
    destruct (mod2_cases pl) as [-> | ->], (mod2_cases rw) as [-> | ->]; done.
Qed.

Lemma pd_entry_ok addr rw pl :
  is_u32 addr → addr mod 4096 = 0 → entry_ok (pd_entry addr PS_4KB rw pl) addr.
Proof.
  intros. apply entry_ok_entry; try done;
    destruct (mod2_cases pl) as [-> | ->], (mod2_cases rw) as [-> | ->]; done.
Qed.

(** [get_pt_paddr] computes the base the processor uses. *)
Lemma pt_paddr_bits w :
  is_u32 w → Z.lor (high_addr w <<ᵤ 16) (Z.land (middle w) 0xF0 <<ᵤ 8) = hw_base w.
Proof.
  intros Hw. pose proof (middle_range w) as Hm.
  assert (Hmask : Z.land (middle w) 0xF0 = middle w / 16 * 16).
  { apply Z.eqb_eq. revert Hm. generalize (middle w).
    by apply (forall_u8 (λ z, Z.land z 0xF0 =? z / 16 * 16)). }
  rewrite Hmask. assert (is_u16 (high_addr w)) by (unfold high_addr; Z.to_euclidean_division_equations; lia).
  rewrite (u32_small (Z.shiftl (high_addr w) 16))
    by (rewrite Z.shiftl_mul_pow2 by done; change (2 ^ 16) with 65536; lia).
  rewrite Z.shiftl_mul_pow2 with (n := 8) by done. change (2 ^ 8) with 256.
  rewrite u32_small by (Z.to_euclidean_division_equations; lia).
  rewrite lor_shiftl_add.
  - change (2 ^ 16) with 65536. unfold high_addr, middle, hw_base.
    Z.to_euclidean_division_equations; lia.
  - done.
  - change (2 ^ 16) with 65536. Z.to_euclidean_division_equations; lia.
Qed.

Lemma hw_base_aligned w : hw_base w mod 4096 = 0.
Proof. unfold hw_base. apply Z.mod_mul. lia. Qed.

Lemma hw_base_word a i : a mod 4096 = 0 → 0 <= i < 4096 → hw_base (a + i) = a.
Proof. unfold hw_base. intros. Z.to_euclidean_division_equations; lia. Qed.

Lemma hw_base_id a : a mod 4096 = 0 → hw_base a = a.
Proof. unfold hw_base. intros. Z.to_euclidean_division_equations; lia. Qed.

(** ** The kernel's own mappings *)

Section facts.
Context {St : Type} `{!FrameOps St, !FrameLaws St}.
Implicit Types s : paging St.

Definition put (q w : Z) s : paging St := set_phys (<[q:=w]> (phys s)) s.

(** The word of the temporary window. *)
Definition tmp_word s : Z := kernel_pt s + 4 * 1023.

(** A word outside of the free frames. *)
Definition live s (a : Z) : Prop := hw_base a ∉ fr_free_set (pfa s).

(** What boot.s sets up and every function below relies on: the directory in
    force maps the first 4 MB on themselves, where the kernel's directory and
    first page table are, and maps the last 4 kB of the kernel's first 4 MB
    through that table's last entry. *)
Record kernel_wf s : Prop := KernelWf {
  kw_frames : fr_wf (pfa s);
  kw_words a : is_u32 (ld (phys s) a);
  kw_pdt : kernel_pdt s mod 4096 = 0 ∧ 0 <= kernel_pdt s ∧ kernel_pdt s + 4096 <= 4194304;
  kw_pt : kernel_pt s mod 4096 = 0 ∧ 0 <= kernel_pt s ∧ kernel_pt s + 4096 <= 4194304;
  kw_low : hw_present (ld (phys s) (active s)) = true ∧
           hw_large (ld (phys s) (active s)) = true ∧
           hw_large_base (ld (phys s) (active s)) = 0;
  kw_window : entry_ok (ld (phys s) (active s + 3072)) (kernel_pt s);
  kw_distinct : kernel_pt s ≠ active s;
  kw_live_active : live s (active s);
  kw_live_pt : live s (kernel_pt s);
  kw_live_pdt : live s (kernel_pdt s)
}.

(** The window shows the frame [F]. *)
Definition window s (F : Z) : Prop :=
  hw_present (ld (phys s) (tmp_word s)) = true ∧ hw_base (ld (phys s) (tmp_word s)) = F.

Lemma active_aligned s : active s mod 4096 = 0.
Proof. apply hw_base_aligned. Qed.

Lemma walk_low s a : kernel_wf s → 0 <= a < 4194304 → walk (phys s) (active s) a = Some a.
Proof.
  intros Hwf Ha. destruct (kw_low _ Hwf) as (Hp & Hl & Hb). unfold walk, pde_of.
  replace (a / 4194304) with 0 by (Z.to_euclidean_division_equations; lia).
  rewrite Z.mul_0_r, Z.add_0_r, Hp, Hl, Hb. simpl. f_equal. rewrite Z.mod_small by lia. done.
Qed.

Lemma walk_window s F i :
  kernel_wf s → window s F → 0 <= i < 4096 →
  walk (phys s) (active s) (KERNEL_TMP_VADDR + i) = Some (F + i).
Proof.
  intros Hwf [Hwp Hwb] Hi. destruct (kw_window _ Hwf) as [_ Hp _ Hl Hb].
  rewrite walk_page by done. unfold walk, pde_of, pte_addr.
  change (4 * (KERNEL_TMP_VADDR / 4194304)) with 3072. rewrite Hp, Hl, Hb.
  change (KERNEL_TMP_VADDR / 4096 mod 1024) with 1023.
  fold (tmp_word s). rewrite Hwp, Hwb. simpl. f_equal.
  change (KERNEL_TMP_VADDR mod 4096) with 0. lia.
Qed.

(** Stores that spare the two words of the directory keep the invariant. *)
Lemma kernel_wf_put s q w :
  kernel_wf s → is_u32 w → q ≠ active s → q ≠ active s + 3072 → kernel_wf (put q w s).
Proof.
  intros [] Hw Hq Hq'. split; simpl in *; try done.
  - intros a. rewrite ld_insert. by case_decide.
  - change (active (put q w s)) with (active s). by rewrite ld_insert_ne.
  - change (active (put q w s)) with (active s). by rewrite ld_insert_ne.
Qed.

(** The invariant reads the memory only through [ld]. *)
Lemma kernel_wf_mem s s' :
  kernel_wf s → fr_wf (pfa s') → fr_free_set (pfa s') ⊆ fr_free_set (pfa s) →
  cr3 s' = cr3 s → kernel_pdt s' = kernel_pdt s → kernel_pt s' = kernel_pt s →
  (∀ a, is_u32 (ld (phys s') a)) →
  ld (phys s') (active s) = ld (phys s) (active s) →
  ld (phys s') (active s + 3072) = ld (phys s) (active s + 3072) → kernel_wf s'.
Proof.
  intros [] Hfr Hsub Ec Ed Ep Hw E0 E768.
  assert (Ea : active s' = active s) by (unfold active; by rewrite Ec).
  split; unfold live in *; rewrite ?Ea, ?Ed, ?Ep, ?E0, ?E768; try done; set_solver.
Qed.

Lemma kernel_wf_invalidated s l : kernel_wf s → kernel_wf (set_invalidated l s).
Proof. by intros []. Qed.

(** *** Accesses *)

(** [e] resolves to [q], whatever is stored there. *)
Definition stable s (e q : Z) : Prop :=
  e mod 4 = 0 ∧ walk (phys s) (active s) e = Some q ∧
  ∀ w, walk (<[q:=w]> (phys s)) (active s) e = Some q.

Lemma load_ok s e q :
  e mod 4 = 0 → walk (phys s) (active s) e = Some q → load e s = Ok (ld (phys s) q, s).
Proof.
  intros He Hq. unfold load, resolve. rewrite (bind_ok _ _ s q s); [done|].
  rewrite (bind_ok _ _ s s s) by done. unfold of_option. by rewrite (proj2 (Z.eqb_eq _ _) He), Hq.
Qed.

Lemma update_ok s e q f :
  e mod 4 = 0 → walk (phys s) (active s) e = Some q →
  update e f s = Ok (tt, put q (f (ld (phys s) q)) s).
Proof.
  intros He Hq. unfold update, resolve. rewrite (bind_ok _ _ s q s); [done|].
  rewrite (bind_ok _ _ s s s) by done. unfold of_option. by rewrite (proj2 (Z.eqb_eq _ _) He), Hq.
Qed.

Lemma put_put s q w w' : put q w' (put q w s) = put q w' s.
Proof. unfold put, set_phys; simpl. by rewrite insert_insert_eq. Qed.

Lemma stable_put s e q w : stable s e q → stable (put q w s) e q.
Proof.
  intros (He & Hq & Hw). split_and!; [done|apply Hw|]. intros w'. simpl.
  rewrite insert_insert_eq. apply Hw.
Qed.

Lemma update_stable s e q f :
  stable s e q → update e f s = Ok (tt, put q (f (ld (phys s) q)) s).
Proof. intros (?&?&?). by apply update_ok. Qed.

Lemma entry_fields c m h w :
  is_u8 m → set_config c (set_high_addr h (set_middle m w)) = entry c m h.
Proof.
  intros Hm. pose proof (config_range w). pose proof (middle_range w).
  unfold set_config, set_high_addr, set_middle.
  by rewrite (entry_config (config w)), !entry_middle, entry_high_addr
    by (done || apply middle_range).
Qed.

Lemma create_pt_entry_ok s pt n addr rw pl q :
  stable s (pt +ᵤ 4 * n) q →
  create_pt_entry pt n addr rw pl s = Ok (tt, put q (pt_entry addr rw pl) s).
Proof.
  intros Hst. unfold create_pt_entry.
  rewrite (bind_ok _ _ _ _ _ (update_stable _ _ _ _ Hst)).
  rewrite (bind_ok _ _ _ _ _ (update_stable _ _ _ _ (stable_put _ _ _ _ Hst))), put_put.
  rewrite (update_stable _ _ _ _ (stable_put _ _ _ _ Hst)), put_put.
  simpl. rewrite !ld_insert_eq, entry_middle_bits, entry_high_bits, pt_config_bits, entry_fields.
  - done.
  - Z.to_euclidean_division_equations; lia.
Qed.

Lemma create_pdt_entry_ok s pdt n addr ps rw pl q :
  stable s (pdt +ᵤ 4 * n) q →
  create_pdt_entry pdt n addr ps rw pl s = Ok (tt, put q (pd_entry addr ps rw pl) s).
Proof.
  intros Hst. unfold create_pdt_entry.
  rewrite (bind_ok _ _ _ _ _ (update_stable _ _ _ _ Hst)).
  rewrite (bind_ok _ _ _ _ _ (update_stable _ _ _ _ (stable_put _ _ _ _ Hst))), put_put.
  rewrite (update_stable _ _ _ _ (stable_put _ _ _ _ Hst)), put_put.
  simpl. rewrite !ld_insert_eq, entry_middle_bits, entry_high_bits, pd_config_bits, entry_fields.
  - done.
  - Z.to_euclidean_division_equations; lia.
Qed.

Lemma is_entry_present_ok s table i q :
  (table +ᵤ 4 * i) mod 4 = 0 → walk (phys s) (active s) (table +ᵤ 4 * i) = Some q →
  is_entry_present table i s = Ok (IS_ENTRY_PRESENT (ld (phys s) q), s).
Proof. intros He Hq. unfold is_entry_present. by rewrite (bind_ok _ _ _ _ _ (load_ok _ _ _ He Hq)). Qed.

Lemma get_pt_paddr_ok s table i q :
  kernel_wf s →
  (table +ᵤ 4 * i) mod 4 = 0 → walk (phys s) (active s) (table +ᵤ 4 * i) = Some q →
  get_pt_paddr table i s = Ok (hw_base (ld (phys s) q), s).
Proof.
  intros Hwf He Hq. unfold get_pt_paddr. rewrite (bind_ok _ _ _ _ _ (load_ok _ _ _ He Hq)).
  unfold mret, M_ret. by rewrite pt_paddr_bits by apply Hwf.
Qed.

(** *** The window *)

Lemma low_stable s e q :
  kernel_wf s → 0 <= e < 4194304 → e mod 4 = 0 → q = e → q ≠ active s → stable s e q.
Proof.
  intros Hwf He Hal -> Hne. split_and!; [done|by apply walk_low|]. intros w.
  destruct (kw_low _ Hwf) as (Hp & Hl & Hb). unfold walk, pde_of.
  replace (e / 4194304) with 0 by (Z.to_euclidean_division_equations; lia).
  rewrite Z.mul_0_r, Z.add_0_r, ld_insert_ne, Hp, Hl, Hb by done. simpl. f_equal.
  rewrite Z.mod_small by lia. done.
Qed.

Lemma window_put s F q w : window s F → q ≠ tmp_word s → window (put q w s) F.
Proof.
  intros [Hp Hb] Hq. unfold window. change (tmp_word (put q w s)) with (tmp_word s).
  simpl. by rewrite ld_insert_ne by done.
Qed.

Lemma window_stable s F i :
  kernel_wf s → window s F → 0 <= i < 1024 → F mod 4096 = 0 →
  F ≠ active s → F + 4 * i ≠ tmp_word s →
  stable s (KERNEL_TMP_VADDR +ᵤ 4 * i) (F + 4 * i).
Proof.
  intros Hwf Hwin Hi HF HFD Htmp. rewrite u32_small by (change KERNEL_TMP_VADDR with 3225415680; lia).
  split_and!.
  - change KERNEL_TMP_VADDR with 3225415680. Z.to_euclidean_division_equations; lia.
  - apply walk_window; [done..|lia].
  - intros w. destruct (kw_window _ Hwf) as [_ Hp _ Hl Hb]. destruct Hwin as [Hwp Hwb].
    rewrite walk_page by (done || lia). unfold walk, pde_of, pte_addr.
    change (4 * (KERNEL_TMP_VADDR / 4194304)) with 3072.
    change (KERNEL_TMP_VADDR / 4096 mod 1024) with 1023.
    rewrite ld_insert_ne, Hp, Hl, Hb.
    2: { pose proof (active_aligned s). intros E. apply HFD.
         Z.to_euclidean_division_equations; lia. }
    fold (tmp_word s). rewrite ld_insert_ne, Hwp, Hwb by done. simpl. f_equal.
    change (KERNEL_TMP_VADDR mod 4096) with 0. lia.
Qed.

Lemma tmp_word_facts s :
  kernel_wf s → kernel_pt s +ᵤ 4 * KERNEL_TMP_PT_IDX = tmp_word s ∧
  0 <= tmp_word s < 4194304 ∧ tmp_word s mod 4 = 0 ∧ hw_base (tmp_word s) = kernel_pt s ∧
  tmp_word s ≠ active s ∧ tmp_word s ≠ active s + 3072.
Proof.
  intros Hwf. destruct (kw_pt _ Hwf) as (Hal & H0 & H4). pose proof (active_aligned s).
  pose proof (kw_distinct _ Hwf). unfold tmp_word, KERNEL_TMP_PT_IDX, hw_base in *. csimp.
  split_and!; try done; Z.to_euclidean_division_equations; lia.
Qed.

Definition tmp_entry s : Z := ld (phys s) (tmp_word s).

Lemma get_temporary_ok s : kernel_wf s → kernel_get_temporary_entry s = Ok (tmp_entry s, s).
Proof.
  intros Hwf. destruct (tmp_word_facts s Hwf) as (E & Hr & Hal & _).
  unfold kernel_get_temporary_entry. rewrite (bind_ok _ _ s (kernel_pt s) s) by done.
  rewrite E. apply load_ok; [done|by apply walk_low].
Qed.

(** The state with [w] in the window's entry, after the call of invlpg. *)
Definition set_window (w : Z) s : paging St :=
  set_invalidated (KERNEL_TMP_VADDR :: invalidated s) (put (tmp_word s) w s).

Lemma set_temporary_ok s w :
  kernel_wf s → kernel_set_temporary_entry w s = Ok (tt, set_window w s).
Proof.
  intros Hwf. destruct (tmp_word_facts s Hwf) as (E & Hr & Hal & _).
  unfold kernel_set_temporary_entry. rewrite (bind_ok _ _ s (kernel_pt s) s) by done.
  rewrite E. unfold store. by erewrite (bind_ok _ _ s) by (apply update_ok, walk_low; done).
Qed.

Lemma map_temporary_ok s F :
  kernel_wf s →
  kernel_map_temporary_memory F s = Ok (KERNEL_TMP_VADDR, set_window (pt_entry F 1 0) s).
Proof.
  intros Hwf. destruct (tmp_word_facts s Hwf) as (E & Hr & Hal & _ & Hne & _).
  unfold kernel_map_temporary_memory. rewrite (bind_ok _ _ s (kernel_pt s) s) by done.
  rewrite (bind_ok _ _ _ _ _ (create_pt_entry_ok _ _ _ F _ _ (tmp_word s)
    ltac:(rewrite E; by apply low_stable))). done.
Qed.

Lemma kernel_wf_set_window s w : kernel_wf s → is_u32 w → kernel_wf (set_window w s).
Proof.
  intros Hwf Hw. destruct (tmp_word_facts s Hwf) as (_&_&_&_&?&?).
  by apply kernel_wf_invalidated, kernel_wf_put.
Qed.

Lemma window_set_window s F :
  kernel_wf s → is_u32 F → F mod 4096 = 0 → window (set_window (pt_entry F 1 0) s) F.
Proof.
  intros Hwf HF Hal. destruct (pt_entry_ok F 1 0 HF Hal) as [_ Hp _ _ Hb].
  unfold window. change (tmp_word (set_window _ s)) with (tmp_word s). simpl.
  by rewrite ld_insert_eq.
Qed.

(** *** Directories *)

(** The pointer [pdt] leads to the page directory in the frame [P], and the
    words that make it do so are neither free nor the window's. *)
Record directory s (pdt P : Z) : Prop := Directory {
  dir_vaddr : pdt mod 4096 = 0 ∧ 0 <= pdt ∧ pdt + 4096 <= 4294967296;
  dir_walk : walk (phys s) (active s) pdt = Some P;
  dir_path : hw_large (pde_of (phys s) (active s) pdt) = false →
    live s (hw_base (pde_of (phys s) (active s) pdt)) ∧
    pte_addr (pde_of (phys s) (active s) pdt) pdt ≠ tmp_word s;
  dir_aligned : P mod 4096 = 0;
  dir_live : live s P;
  dir_not_pt : P ≠ kernel_pt s
}.

(** The two words that make [v] resolve. *)
Definition on_path s v a : Prop :=
  a = active s + 4 * (v / 4194304) ∨
  (hw_large (pde_of (phys s) (active s) v) = false ∧
   a = pte_addr (pde_of (phys s) (active s) v) v).

Lemma walk_path_eq s m v :
  (∀ a, on_path s v a → ld m a = ld (phys s) a) →
  walk m (active s) v = walk (phys s) (active s) v.
Proof.
  intros Hm. apply walk_ext.
  - unfold pde_of. apply Hm. by left.
  - intros _ Hl. apply Hm. by right.
Qed.

Lemma on_path_present s v p a :
  walk (phys s) (active s) v = Some p → on_path s v a → hw_present (ld (phys s) a) = true.
Proof.
  unfold walk, on_path. intros Hw [->|[Hl ->]]; fold (pde_of (phys s) (active s) v) in *;
    destruct (hw_present (pde_of _ _ _)) eqn:Hp; simpl in *; try done.
  rewrite Hl in Hw. by destruct (hw_present (ld _ _)).
Qed.

Lemma hw_base_pte e v : hw_base (pte_addr e v) = hw_base e.
Proof.
  unfold pte_addr. pose proof (hw_base_aligned e). pose proof (Z.mod_pos_bound (v / 4096) 1024).
  apply hw_base_word; lia.
Qed.

Lemma live_word s F i : live s F → F mod 4096 = 0 → 0 <= i < 4096 → live s (F + i).
Proof. intros HF Hal Hi. unfold live in *. by rewrite hw_base_word, <- (hw_base_id F). Qed.

Lemma live_pte s e v : live s (hw_base e) → live s (pte_addr e v).
Proof.
  unfold live. rewrite hw_base_pte. by rewrite (hw_base_id (hw_base e)) by apply hw_base_aligned.
Qed.

(** A directory stays where it is when no word of its path is changed. *)
Lemma dir_word s m pdt P i :
  directory s pdt P → (∀ a, on_path s pdt a → ld m a = ld (phys s) a) → 0 <= i < 1024 →
  (pdt +ᵤ 4 * i) mod 4 = 0 ∧ walk m (active s) (pdt +ᵤ 4 * i) = Some (P + 4 * i).
Proof.
  intros [(Hal & H0 & H4) Hw _ HP _ _] Hm Hi. rewrite u32_small by lia. split.
  - Z.to_euclidean_division_equations; lia.
  - rewrite walk_page by (done || lia). by rewrite (walk_path_eq s m pdt Hm), Hw.
Qed.

Lemma on_path_live s pdt P a :
  kernel_wf s → directory s pdt P → on_path s pdt a → live s a ∧ a ≠ tmp_word s.
Proof.
  intros Hwf Hdir. destruct (dir_vaddr _ _ _ Hdir) as (Hal & H0 & H4).
  pose proof (active_aligned s) as HD. pose proof (kw_distinct _ Hwf) as Hne.
  destruct (kw_pt _ Hwf) as (Hpt & _ & _). intros [->|[Hl ->]].
  - assert (Hr : 0 <= 4 * (pdt / 4194304) < 4096) by (Z.to_euclidean_division_equations; lia).
    split; [|unfold tmp_word; Z.to_euclidean_division_equations; lia].
    apply live_word; [apply kw_live_active|..]; done.
  - destruct (dir_path _ _ _ Hdir Hl) as [Hlive Htmp]. split; [|done].
    by apply live_pte.
Qed.

(** *** Growth: what a step of mapping may change *)

Record grows s s' : Prop := Grows {
  gr_active : cr3 s' = cr3 s;
  gr_pdt : kernel_pdt s' = kernel_pdt s;
  gr_pt : kernel_pt s' = kernel_pt s;
  gr_free : fr_free_set (pfa s') ⊆ fr_free_set (pfa s);
  gr_managed : fr_managed (pfa s') = fr_managed (pfa s);
  gr_window : tmp_entry s' = tmp_entry s;
  gr_keep a : live s a → IS_ENTRY_PRESENT (ld (phys s) a) = true →
    ld (phys s') a = ld (phys s) a
}.

#[global] Instance grows_preorder : PreOrder grows.
Proof.
  split; [by split|]. intros s1 s2 s3 [A1 B1 C1 D1 E1 W1 K1] [A2 B2 C2 D2 E2 W2 K2].
  split; try congruence; [set_solver|]. intros a Hl Hp. rewrite <- (K1 a Hl Hp). apply K2.
  - unfold live in *. set_solver.
  - by rewrite K1.
Qed.

(** The words that make [v] resolve under the directory in the frame [P] are
    not in free frames. *)
Definition walk_live s P v : Prop :=
  live s P ∧ P mod 4096 = 0 ∧ (hw_present (pde_of (phys s) P v) = true →
    hw_large (pde_of (phys s) P v) = false → live s (hw_base (pde_of (phys s) P v))).

(** Growth keeps every translation. *)
Lemma grows_walk s s' P v p :
  grows s s' → is_u32 v → walk_live s P v → walk (phys s) P v = Some p →
  walk (phys s') P v = Some p.
Proof.
  intros Hg Hv (HP & Hal & Hpt) Hw. rewrite <- Hw. apply walk_ext.
  - unfold pde_of. apply Hg.
    + apply live_word; [done..|]. Z.to_euclidean_division_equations; lia.
    + apply hw_present_code. revert Hw. unfold walk. fold (pde_of (phys s) P v).
      by destruct (hw_present _).
  - intros Hp Hl. apply Hg.
    + apply live_pte. auto.
    + apply hw_present_code. revert Hw. unfold walk. rewrite Hp, Hl. simpl.
      by destruct (hw_present (ld _ _)).
Qed.

Lemma grows_live s s' a : grows s s' → live s a → live s' a.
Proof. intros Hg. pose proof (gr_free _ _ Hg). unfold live. set_solver. Qed.

Lemma grows_walk_live s s' P v :
  grows s s' → is_u32 v → walk_live s P v → hw_present (pde_of (phys s) P v) = true →
  walk_live s' P v.
Proof.
  intros Hg Hv (HP & Hal & Hpt) Hp. assert (E : pde_of (phys s') P v = pde_of (phys s) P v).
  { apply Hg; [|by apply hw_present_code]. apply live_word; [done..|].
    Z.to_euclidean_division_equations; lia. }
  split_and!; [by eapply grows_live|done|]. rewrite E. intros ? ?.
  apply (grows_live s); auto.
Qed.
End facts.
