(* ===== verification/PageMap.v ===== *)
(** * PageMap: what [pdt_map_memory] does to an address space

    The loop of [pt_map_memory] writes a run of consecutive entries of one
    table, [pdt_map_memory] goes from table to table and creates those that are
    missing; after a successful call the range is mapped as asked and every
    translation that existed, in whatever directory, is unchanged. *)

From S2P Require Import Prelude CArith Interfaces Mmu Paging PagingFacts.

(** ** One table *)

(** [n] entries from index [i] of the table at [F]. *)
Fixpoint pt_write (n : nat) (F i paddr rw pl : Z) (m : gmap Z Z) : gmap Z Z :=
  match n with
  | O => m
  | S n =>
    pt_write n F (i + 1) (paddr +ᵤ PT_ENTRY_SIZE) rw pl
      (<[F + 4 * i := pt_entry paddr rw pl]> m)
  end.

Lemma pt_write_out n F i paddr rw pl m a :
  (∀ k, i <= k < i + Z.of_nat n → a ≠ F + 4 * k) →
  ld (pt_write n F i paddr rw pl m) a = ld m a.
Proof.
  revert i paddr m. induction n as [|n IH]; simpl; intros i paddr m Ha; [done|].
  rewrite IH by (intros; apply Ha; lia). rewrite ld_insert_ne; [done|].
  apply not_eq_sym, Ha. lia.
Qed.

Lemma pt_write_in n F i paddr rw pl m k :
  is_u32 paddr → 0 <= k < Z.of_nat n →
  ld (pt_write n F i paddr rw pl m) (F + 4 * (i + k)) = pt_entry (u32 (paddr + 4096 * k)) rw pl.
Proof.
  revert i paddr m k. induction n as [|n IH]; simpl; intros i paddr m k Hp Hk; [lia|].
  destruct (decide (k = 0)) as [->|Hk0].
  - rewrite pt_write_out by (intros; lia).
    rewrite Z.add_0_r, ld_insert_eq, Z.mul_0_r, Z.add_0_r. by rewrite u32_small.
  - replace (i + k) with (i + 1 + (k - 1)) by lia. rewrite IH by (apply u32_range || lia).
    f_equal. unfold u32, PT_ENTRY_SIZE. Z.to_euclidean_division_equations; lia.
Qed.

Section one_table.
Context {St : Type} `{!FrameOps St, !FrameLaws St}.
Implicit Types s : paging St.

(** The table [F], seen through the window for directory index [pdt_idx]. *)
Record table_frame s (pdt_idx F : Z) : Prop := TableFrame {
  tf_aligned : F mod 4096 = 0;
  tf_u32 : is_u32 F;
  tf_active : F ≠ active s;
  tf_kernel : F = kernel_pt s → pdt_idx = 768
}.

Lemma frame_word_ne (F D i j : Z) :
  F mod 4096 = 0 → D mod 4096 = 0 → F ≠ D → 0 <= i < 4096 → 0 <= j < 4096 → F + i ≠ D + j.
Proof. intros. Z.to_euclidean_division_equations; lia. Qed.

Lemma tmp_word_ne s pdt_idx F i :
  kernel_wf s → table_frame s pdt_idx F → 0 <= i < 1024 → (pdt_idx = 768 → i ≠ 1023) →
  F + 4 * i ≠ tmp_word s.
Proof.
  intros Hwf [HF _ _ Hk] Hi Hne. destruct (kw_pt _ Hwf) as (Hal & _). unfold tmp_word.
  destruct (decide (F = kernel_pt s)) as [->|]; [specialize (Hne (Hk eq_refl)); lia|].
  apply frame_word_ne; done || lia.
Qed.

Lemma table_word_kernel_wf s pdt_idx F i w :
  kernel_wf s → table_frame s pdt_idx F → 0 <= i < 1024 → is_u32 w →
  kernel_wf (put (F + 4 * i) w s).
Proof.
  intros Hwf [HF _ HD _] Hi Hw. pose proof (active_aligned s).
  apply kernel_wf_put; [done..| |]; [rewrite <- (Z.add_0_r (active s))|];
    apply frame_word_ne; done || lia.
Qed.

Lemma window_entry_present s F i :
  kernel_wf s → window s F → 0 <= i < 1024 →
  is_entry_present KERNEL_TMP_VADDR i s = Ok (IS_ENTRY_PRESENT (ld (phys s) (F + 4 * i)), s).
Proof.
  intros Hwf Hwin Hi. change KERNEL_TMP_VADDR with 3225415680.
  apply is_entry_present_ok; rewrite u32_small by lia.
  - Z.to_euclidean_division_equations; lia.
  - apply (walk_window s F); [done..|lia].
Qed.

Lemma pt_entry_u32 addr rw pl : is_u32 (pt_entry addr rw pl).
Proof.
  unfold pt_entry, entry.
  destruct (mod2_cases pl) as [-> | ->], (mod2_cases rw) as [-> | ->];
    Z.to_euclidean_division_equations; lia.
Qed.

Lemma pt_map_loop_ok fuel s pdt_idx F paddr i mapped size rw pl :
  kernel_wf s → window s F → table_frame s pdt_idx F →
  0 <= i <= 1024 → 1025 - i <= Z.of_nat fuel →
  is_u32 size → size mod 4096 = 0 → 0 <= mapped <= size → mapped mod 4096 = 0 →
  ∃ n, pt_map_loop fuel KERNEL_TMP_VADDR pdt_idx paddr i mapped size rw pl s
       = Ok (mapped + 4096 * Z.of_nat n, set_phys (pt_write n F i paddr rw pl (phys s)) s) ∧
    mapped + 4096 * Z.of_nat n <= size ∧ i + Z.of_nat n <= 1024 ∧
    (∀ j, i <= j < i + Z.of_nat n →
       IS_ENTRY_PRESENT (ld (phys s) (F + 4 * j)) = false ∧ (pdt_idx = 768 → j ≠ 1023)) ∧
    (mapped + 4096 * Z.of_nat n = size ∨ i + Z.of_nat n = 1024 ∨
     IS_ENTRY_PRESENT (ld (phys s) (F + 4 * (i + Z.of_nat n))) = true ∨
     (pdt_idx = 768 ∧ i + Z.of_nat n = 1023)).
Proof.
  revert s paddr i mapped. induction fuel as [|fuel IH];
    intros s paddr i mapped Hwf Hwin HF Hi Hfuel Hsz Hsza Hm Hma; [lia|].
  assert (Hstop : set_phys (phys s) s = s) by by destruct s. simpl pt_map_loop.
  destruct (Z.ltb_spec mapped size) as [Hlt|]; simpl; cycle 1.
  { exists 0%nat. unfold mret, M_ret. simpl. rewrite Hstop, Z.add_0_r. split_and!; [done|lia..]. }
  destruct (Z.ltb_spec i NUM_ENTRIES) as [Hi'|Hi']; unfold NUM_ENTRIES in Hi'; simpl; cycle 1.
  { exists 0%nat. unfold mret, M_ret. simpl. rewrite Hstop, Z.add_0_r. split_and!; [done|lia..]. }
  rewrite (bind_ok _ _ _ _ _ (window_entry_present s F i Hwf Hwin ltac:(lia))).
  destruct (IS_ENTRY_PRESENT _) eqn:Hpres.
  { exists 0%nat. unfold mret, M_ret. simpl. rewrite Hstop, !Z.add_0_r. split_and!; [done|lia..|auto]. }
  change KERNEL_PT_PDT_IDX with 768. change KERNEL_TMP_PT_IDX with 1023.
  destruct ((pdt_idx =? 768) && (i =? 1023)) eqn:Htmp.
  { exists 0%nat. unfold mret, M_ret. simpl. rewrite Hstop, !Z.add_0_r.
    apply andb_prop in Htmp as [?%Z.eqb_eq ?%Z.eqb_eq]. split_and!; [done|lia..]. }
  assert (Hne : pdt_idx = 768 → i ≠ 1023) by (intros; lia).
  pose proof (tmp_word_ne s pdt_idx F i Hwf HF ltac:(lia) Hne) as Htw.
  pose proof HF as [HFa HFu HFD HFk].
  rewrite (bind_ok _ _ _ _ _ (create_pt_entry_ok s _ i paddr rw pl _
    (window_stable s F i Hwf Hwin ltac:(lia) HFa HFD Htw))).
  rewrite (u32_small (mapped + PT_ENTRY_SIZE)) by (unfold PT_ENTRY_SIZE; Z.to_euclidean_division_equations; lia).
  destruct (IH (put (F + 4 * i) (pt_entry paddr rw pl) s) (paddr +ᵤ PT_ENTRY_SIZE) (i + 1)
    (mapped + PT_ENTRY_SIZE)) as (n & -> & Hn & Hin & Hfree & Hend).
  { apply table_word_kernel_wf with pdt_idx; [done..|lia|apply pt_entry_u32]. }
  { by apply window_put. }
  { done. }
  { lia. } { lia. } { done. } { done. }
  { unfold PT_ENTRY_SIZE. Z.to_euclidean_division_equations; lia. }
  { unfold PT_ENTRY_SIZE. Z.to_euclidean_division_equations; lia. }
  unfold PT_ENTRY_SIZE in *. simpl phys in *.
  exists (S n). split_and!.
  - do 2 f_equal. lia.
  - lia.
  - lia.
  - intros j Hj. destruct (decide (j = i)) as [->|]; [done|].
    specialize (Hfree j ltac:(lia)). rewrite ld_insert_ne in Hfree by lia. done.
  - replace (i + Z.of_nat (S n)) with (i + 1 + Z.of_nat n) by lia.
    replace (mapped + 4096 * Z.of_nat (S n)) with (mapped + 0x1000 + 4096 * Z.of_nat n) by lia.
    rewrite ld_insert_ne in Hend by lia. done.
Qed.

Lemma pt_map_memory_ok s pdt_idx F paddr vaddr size rw pl :
  kernel_wf s → window s F → table_frame s pdt_idx F → is_u32 size → size mod 4096 = 0 →
  let i := vaddr / 4096 mod 1024 in
  ∃ n, pt_map_memory KERNEL_TMP_VADDR pdt_idx paddr vaddr size rw pl s
       = Ok (4096 * Z.of_nat n, set_phys (pt_write n F i paddr rw pl (phys s)) s) ∧
    4096 * Z.of_nat n <= size ∧ i + Z.of_nat n <= 1024 ∧
    (∀ j, i <= j < i + Z.of_nat n →
       IS_ENTRY_PRESENT (ld (phys s) (F + 4 * j)) = false ∧ (pdt_idx = 768 → j ≠ 1023)) ∧
    (4096 * Z.of_nat n = size ∨ i + Z.of_nat n = 1024 ∨
     IS_ENTRY_PRESENT (ld (phys s) (F + 4 * (i + Z.of_nat n))) = true ∨
     (pdt_idx = 768 ∧ i + Z.of_nat n = 1023)).
Proof.
  intros Hwf Hwin HF Hsz Hsza i. unfold pt_map_memory. rewrite VIRTUAL_TO_PT_IDX_eq.
  assert (Hi : 0 <= i < 1024) by (apply Z.mod_pos_bound; lia).
  apply (pt_map_loop_ok 1025 s pdt_idx F paddr i 0 size rw pl); try done; lia.
Qed.
End one_table.

(** ** Clearing words *)

Fixpoint zero_words (n : nat) (q i : Z) (m : gmap Z Z) : gmap Z Z :=
  match n with
  | O => m
  | S n => zero_words n q (i + 1) (<[q + 4 * i := 0]> m)
  end.

Lemma zero_words_out n q i m a :
  (∀ k, i <= k < i + Z.of_nat n → a ≠ q + 4 * k) → ld (zero_words n q i m) a = ld m a.
Proof.
  revert i m. induction n as [|n IH]; simpl; intros i m Ha; [done|].
  rewrite IH by (intros; apply Ha; lia). rewrite ld_insert_ne; [done|]. apply not_eq_sym, Ha. lia.
Qed.

Lemma zero_words_in n q i m k :
  i <= k < i + Z.of_nat n → ld (zero_words n q i m) (q + 4 * k) = 0.
Proof.
  revert i m. induction n as [|n IH]; simpl; intros i m Hk; [lia|].
  destruct (decide (k = i)) as [->|]; [|apply IH; lia].
  rewrite zero_words_out by (intros; lia). apply ld_insert_eq.
Qed.

Lemma zero_words_u32 n q i m a :
  (∀ a, is_u32 (ld m a)) → is_u32 (ld (zero_words n q i m) a).
Proof.
  revert i m. induction n as [|n IH]; simpl; intros i m Hm; [done|].
  apply IH. intros b. rewrite ld_insert. case_decide; [lia|done].
Qed.

Lemma pt_write_u32 n F i paddr rw pl m a :
  (∀ a, is_u32 (ld m a)) → is_u32 (ld (pt_write n F i paddr rw pl m) a).
Proof.
  revert i paddr m. induction n as [|n IH]; simpl; intros i paddr m Hm; [done|].
  apply IH. intros b. rewrite ld_insert. case_decide; [apply pt_entry_u32|done].
Qed.

#[global] Arguments zero_words : simpl never.
#[global] Arguments pt_write : simpl never.
#[global] Arguments pt_entry : simpl never.
#[global] Arguments pd_entry : simpl never.

Section clearing.
Context {St : Type} `{!FrameOps St, !FrameLaws St}.
Implicit Types s : paging St.

(** Clearing [n] words whose resolution does not depend on them. *)
Lemma clear_loop_ok n s p q i :
  (∀ m k, (∀ a, (∀ k, i <= k < i + Z.of_nat n → a ≠ q + 4 * k) → ld m a = ld (phys s) a) →
     i <= k < i + Z.of_nat n →
     (p +ᵤ 4 * k) mod 4 = 0 ∧ walk m (active s) (p +ᵤ 4 * k) = Some (q + 4 * k)) →
  for_each (seqZ i (Z.of_nat n)) (λ i, store (p +ᵤ 4 * i) 0) s
  = Ok (tt, set_phys (zero_words n q i (phys s)) s).
Proof.
  revert s i. induction n as [|n IH]; intros s i Hres.
  { simpl. by destruct s. }
  rewrite seqZ_step by lia. simpl for_each. destruct (Hres (phys s) i) as [Hal Hw]; [done|lia|].
  erewrite bind_ok by exact (update_ok s _ _ (λ _, 0) Hal Hw).
  replace (Z.of_nat (S n) - 1) with (Z.of_nat n) by lia.
  rewrite IH; [done|]. intros m k Hm Hk. apply Hres; [|lia]. intros a Ha. rewrite Hm.
  - simpl. rewrite ld_insert_ne; [done|]. apply not_eq_sym, Ha. lia.
  - intros j Hj. apply Ha. lia.
Qed.

(** The window resolves through two words. *)
Lemma on_path_window s a :
  kernel_wf s → on_path s KERNEL_TMP_VADDR a → a = active s + 3072 ∨ a = tmp_word s.
Proof.
  intros Hwf [->|[_ ->]]; [by left|right].
  unfold pde_of. change (4 * (KERNEL_TMP_VADDR / 4194304)) with 3072.
  unfold pte_addr. rewrite (eo_base _ _ (kw_window _ Hwf)). done.
Qed.

Lemma clear_window_ok s pdt_idx F :
  kernel_wf s → window s F → table_frame s pdt_idx F → F ≠ kernel_pt s →
  clear_entries KERNEL_TMP_VADDR NUM_ENTRIES s
  = Ok (tt, set_phys (zero_words 1024 F 0 (phys s)) s).
Proof.
  intros Hwf Hwin [HF _ HD _] Hk. apply (clear_loop_ok 1024). intros m k Hm Hr.
  change KERNEL_TMP_VADDR with 3225415680. rewrite u32_small by lia.
  split; [Z.to_euclidean_division_equations; lia|].
  change 3225415680 with KERNEL_TMP_VADDR.
  assert (Hpath : ∀ a, on_path s KERNEL_TMP_VADDR a → ld m a = ld (phys s) a).
  { intros a Ha. apply Hm. intros j Hj. pose proof (active_aligned s) as HDa.
    destruct (kw_pt _ Hwf) as (Hpt & _).
    destruct (on_path_window s a Hwf Ha) as [->| ->]; apply not_eq_sym, frame_word_ne; done || lia. }
  rewrite walk_page by (done || lia). rewrite (walk_path_eq s m _ Hpath).
  pose proof (walk_window s F 0 Hwf Hwin ltac:(lia)) as E. rewrite !Z.add_0_r in E. by rewrite E.
Qed.
End clearing.

(** ** The body of [pdt_map_memory] *)

Section body.
Context {St : Type} `{!FrameOps St, !FrameLaws St}.
Implicit Types s : paging St.

(** Entry [idx] of the directory in the frame [P] is absent, or names a page
    table the function may write. *)
Definition good_pde s P idx : Prop :=
  let e := ld (phys s) (P + 4 * idx) in
  IS_ENTRY_PRESENT e = true →
  hw_present e = true ∧ hw_large e = false ∧ hw_base e ≠ P ∧
  table_frame s idx (hw_base e) ∧ live s (hw_base e).

(** The state after a turn of the loop that wrote [n] entries from [i]. *)
Record mapped s s' (P idx F i : Z) (n : nat) (paddr rw pl : Z) : Prop := Mapped {
  mp_wf : kernel_wf s';
  mp_grows : grows s s';
  mp_good : good_pde s' P idx;
  mp_pde : hw_present (ld (phys s') (P + 4 * idx)) = true ∧
           hw_large (ld (phys s') (P + 4 * idx)) = false ∧
           hw_base (ld (phys s') (P + 4 * idx)) = F;
  mp_in k : 0 <= k < Z.of_nat n →
    ld (phys s') (F + 4 * (i + k)) = pt_entry (u32 (paddr + 4096 * k)) rw pl;
  mp_free : fr_free_set (pfa s) ⊆ {[F]} ∪ fr_free_set (pfa s');
  mp_fresh : IS_ENTRY_PRESENT (ld (phys s) (P + 4 * idx)) = false → ¬ live s F;
  mp_others a : live s a → a ≠ P + 4 * idx → hw_base a ≠ F → ld (phys s') a = ld (phys s) a;
  mp_table : IS_ENTRY_PRESENT (ld (phys s) (P + 4 * idx)) = false →
    ld (phys s') (P + 4 * idx) = pd_entry F PS_4KB rw pl
}.

(** Writing the window's entry and putting it back. *)
Lemma ld_restore (m m2 : gmap Z Z) tw w a :
  (a ≠ tw → ld m2 a = ld (<[tw:=w]> m) a) → ld (<[tw := ld m tw]> m2) a = ld m a.
Proof.
  intros H. rewrite ld_insert. case_decide as E; [by subst|].
  rewrite H by done. by apply ld_insert_ne.
Qed.

Lemma active_frame_out s idx F k :
  table_frame s idx F → 0 <= k < 1024 → active s ≠ F + 4 * k ∧ active s + 3072 ≠ F + 4 * k.
Proof.
  intros [HF _ HD _] Hk. pose proof (active_aligned s).
  rewrite <- (Z.add_0_r (active s)) at 1.
  split; apply frame_word_ne; done || lia.
Qed.

Lemma kernel_wf_pt_write s idx F n i paddr rw pl :
  kernel_wf s → table_frame s idx F → 0 <= i → i + Z.of_nat n <= 1024 →
  kernel_wf (set_phys (pt_write n F i paddr rw pl (phys s)) s).
Proof.
  intros Hwf HF Hi Hn. apply (kernel_wf_mem s); simpl; try done; try apply Hwf.
  - intros a. apply pt_write_u32, Hwf.
  - apply pt_write_out. intros. apply (active_frame_out s idx); [done|lia].
  - apply pt_write_out. intros. apply (active_frame_out s idx); [done|lia].
Qed.

Lemma kernel_wf_zero s idx F n :
  kernel_wf s → table_frame s idx F → Z.of_nat n <= 1024 →
  kernel_wf (set_phys (zero_words n F 0 (phys s)) s).
Proof.
  intros Hwf HF Hn. apply (kernel_wf_mem s); simpl; try done; try apply Hwf.
  - intros a. apply zero_words_u32, Hwf.
  - apply zero_words_out. intros. apply (active_frame_out s idx); [done|lia].
  - apply zero_words_out. intros. apply (active_frame_out s idx); [done|lia].
Qed.

Lemma ld_zero_frame F m a :
  F mod 4096 = 0 → hw_base a ≠ F → ld (zero_words 1024 F 0 m) a = ld m a.
Proof.
  intros HF Ha. apply zero_words_out. intros k Hk ->. apply Ha. apply hw_base_word; [done|lia].
Qed.

Lemma ld_pt_write_frame F n i paddr rw pl m a :
  F mod 4096 = 0 → 0 <= i → i + Z.of_nat n <= 1024 → hw_base a ≠ F →
  ld (pt_write n F i paddr rw pl m) a = ld m a.
Proof.
  intros HF Hi Hn Ha. apply pt_write_out. intros k Hk ->. apply Ha. apply hw_base_word; [done|lia].
Qed.

(** Why a turn maps nothing. *)
Definition refused s P idx i : Prop :=
  let e := ld (phys s) (P + 4 * idx) in
  (IS_ENTRY_PRESENT e = false ∧ fr_free_set (pfa s) = ∅) ∨ (idx = 768 ∧ i = 1023) ∨
  (IS_ENTRY_PRESENT e = true ∧ IS_ENTRY_PRESENT (ld (phys s) (hw_base e + 4 * i)) = true).

(** The result of a turn: [None], and nothing that existed is changed, or the
    size mapped. *)
Definition body_post s s' (r : option Z) P idx i paddr size rw pl : Prop :=
  (r = None ∧ kernel_wf s' ∧ grows s s' ∧ refused s P idx i ∧
   ∀ a, live s a → ld (phys s') a = ld (phys s) a) ∨
  ∃ F n, r = Some (4096 * Z.of_nat n) ∧ 0 < Z.of_nat n ∧ 4096 * Z.of_nat n <= size ∧
    i + Z.of_nat n <= 1024 ∧ mapped s s' P idx F i n paddr rw pl ∧
    (4096 * Z.of_nat n = size ∨ i + Z.of_nat n = 1024 ∨ (idx = 768 ∧ i + Z.of_nat n = 1023) ∨
     (live s F ∧ F = hw_base (ld (phys s) (P + 4 * idx)) ∧
      IS_ENTRY_PRESENT (ld (phys s) (F + 4 * (i + Z.of_nat n))) = true)).

Lemma dir_word_ne s pdt P idx :
  kernel_wf s → directory s pdt P → 0 <= idx < 1024 → P + 4 * idx ≠ tmp_word s.
Proof.
  intros Hwf Hdir Hidx. destruct (kw_pt _ Hwf) as (Hpt & _).
  apply frame_word_ne; [apply Hdir|done|apply Hdir|lia|lia].
Qed.

(** *** The end of a turn: the window is open on [F] in the state [t] *)

Section table.
Context (s t : paging St) (pdt P idx F i paddr vaddr size rw pl : Z).
Context (Hs : kernel_wf s) (Hdir : directory s pdt P) (Hidx : 0 <= idx < 1024).
Context (Hwf : kernel_wf t) (Hwin : window t F) (Htf : table_frame t idx F) (HFP : F ≠ P).
Context (Ec : cr3 t = cr3 s) (Ed : kernel_pdt t = kernel_pdt s) (Ep : kernel_pt t = kernel_pt s).
Context (Hfree : fr_free_set (pfa t) ⊆ fr_free_set (pfa s)).
Context (Hfree2 : fr_free_set (pfa s) ⊆ {[F]} ∪ fr_free_set (pfa t)).
Context (Hman : fr_managed (pfa t) = fr_managed (pfa s)).
Context (HFlive : live t F).
Context (Hkeep : ∀ a, live s a → a ≠ tmp_word s → ld (phys t) a = ld (phys s) a).
Context (Hpaddr : is_u32 paddr) (Hsize : is_u32 size) (Hsza : size mod 4096 = 0) (Hsz0 : size ≠ 0).
Context (Hi : i = vaddr / 4096 mod 1024).

(** The directory's entry leads to [F], or is absent and [F] is a fresh table. *)
Context (Hpde : (hw_present (ld (phys s) (P + 4 * idx)) = true ∧
                 hw_large (ld (phys s) (P + 4 * idx)) = false ∧
                 hw_base (ld (phys s) (P + 4 * idx)) = F ∧ live s F) ∨
                (IS_ENTRY_PRESENT (ld (phys s) (P + 4 * idx)) = false ∧ ¬ live s F ∧
                 ∀ k, 0 <= k < 1024 → ld (phys t) (F + 4 * k) = 0)).

Let tw := tmp_word s.

Lemma tw_t : tmp_word t = tw.
Proof using Ep. unfold tw, tmp_word. by rewrite Ep. Qed.

Lemma active_t : active t = active s.
Proof using Ec. unfold active. by rewrite Ec. Qed.

(** A word of the range [pt_map_memory] wrote is not one that was in use. *)
Lemma range_not_kept n k :
  (∀ j, i <= j < i + Z.of_nat n →
     IS_ENTRY_PRESENT (ld (phys t) (F + 4 * j)) = false ∧ (idx = 768 → j ≠ 1023)) →
  0 <= i → i + Z.of_nat n <= 1024 → i <= k < i + Z.of_nat n →
  F + 4 * k ≠ tw ∧ (live s (F + 4 * k) → IS_ENTRY_PRESENT (ld (phys s) (F + 4 * k)) = false).
Proof using All.
  intros Habs H0 Hn Hk. destruct (Habs k Hk) as [Ha Hne].
  assert (Ht : F + 4 * k ≠ tw) by (rewrite <- tw_t; apply (tmp_word_ne t idx); try done; lia).
  split; [done|]. intros Hl. by rewrite <- Hkeep by done.
Qed.

Lemma restore_ok u :
  kernel_wf u → cr3 u = cr3 s → kernel_pdt u = kernel_pdt s → kernel_pt u = kernel_pt s →
  fr_free_set (pfa u) ⊆ fr_free_set (pfa s) → fr_managed (pfa u) = fr_managed (pfa s) →
  (∀ a, live s a → a ≠ tw → IS_ENTRY_PRESENT (ld (phys s) a) = true →
     ld (phys u) a = ld (phys s) a) →
  let u' := set_window (tmp_entry s) u in
  kernel_set_temporary_entry (tmp_entry s) u = Ok (tt, u') ∧ kernel_wf u' ∧ grows s u' ∧
  ld (phys u') tw = ld (phys s) tw ∧
  ∀ a b, a ≠ tw → ld (phys u) a = b → ld (phys u') a = b.
Proof using Hs.
  intros Hu Euc Eud Eup Huf Hum Hk u'.
  assert (Etw : tmp_word u = tw) by (unfold tw, tmp_word; by rewrite Eup).
  assert (Hne : ∀ a, a ≠ tw → ld (phys u') a = ld (phys u) a).
  { intros a Ha. unfold u'. simpl. rewrite Etw. by rewrite ld_insert_ne by done. }
  assert (Htw : ld (phys u') tw = ld (phys s) tw).
  { unfold u'. simpl. by rewrite Etw, ld_insert_eq. }
  split_and!; [by apply set_temporary_ok|by apply kernel_wf_set_window, Hs| |done|].
  - split; try done; [unfold tmp_entry; change (tmp_word u') with (tmp_word u); by rewrite Etw|].
    intros a Ha Hp. destruct (decide (a = tw)) as [->|E].
    + done.
    + rewrite Hne by done. by apply Hk.
  - intros a b Ha <-. by apply Hne.
Qed.

Let t2 n := set_phys (pt_write n F i paddr rw pl (phys t)) t.

(** The directory's word, while the window is open. *)
Lemma dir_frame_word : live s (P + 4 * idx) ∧ P + 4 * idx ≠ tw ∧ hw_base (P + 4 * idx) ≠ F.
Proof using All.
  destruct Hdir as [_ _ _ HPa HPl _]. split_and!.
  - apply live_word; [done..|lia].
  - by apply (dir_word_ne s pdt).
  - rewrite hw_base_word by (done || lia). by apply not_eq_sym.
Qed.

(** Why the run stopped, in terms of the state before. *)
Lemma stop_reason j :
  0 <= j < 1024 → IS_ENTRY_PRESENT (ld (phys t) (F + 4 * j)) = true →
  (idx = 768 ∧ j = 1023) ∨
  (live s F ∧ F = hw_base (ld (phys s) (P + 4 * idx)) ∧
   IS_ENTRY_PRESENT (ld (phys s) (F + 4 * j)) = true).
Proof using All.
  intros Hj Hp. destruct Hpde as [(_ & _ & Hb & HF)|(_ & _ & Hz)]; [|by rewrite Hz in Hp].
  destruct (decide (F + 4 * j = tw)) as [E|E].
  - left. destruct Htf as [HFa _ _ HFk]. rewrite Ep in HFk. destruct (kw_pt _ Hs) as (Hpt & _).
    unfold tw, tmp_word in E. assert (F = kernel_pt s ∧ j = 1023) as [HF' ->].
    { Z.to_euclidean_division_equations; lia. }
    auto.
  - right. split_and!; [done..|]. rewrite <- Hkeep; [done| |done].
    apply live_word; [done|apply Htf|lia].
Qed.

Lemma printk_ok u fmt args :
  kernel_wf u →
  ∃ p', printk fmt args u = Ok (tt, set_pfa p' u) ∧ kernel_wf (set_pfa p' u) ∧
    fr_free_set p' = fr_free_set (pfa u) ∧ fr_managed p' = fr_managed (pfa u).
Proof using FrameLaws0.
  intros Hu. destruct (fr_printk_spec (pfa u) fmt args (kw_frames _ Hu)) as (p' & E & Hp' & Hm & Hf).
  exists p'. split_and!; [|apply (kernel_wf_mem u); simpl; try done; [by rewrite Hf|apply Hu]|done..].
  unfold printk, zoom. by rewrite E.
Qed.

Section written.
Context (n : nat) (H0 : 0 <= i) (Hn : i + Z.of_nat n <= 1024).
Context (Habs : ∀ j, i <= j < i + Z.of_nat n →
   IS_ENTRY_PRESENT (ld (phys t) (F + 4 * j)) = false ∧ (idx = 768 → j ≠ 1023)).

Lemma t2_keep a :
  live s a → a ≠ tw → IS_ENTRY_PRESENT (ld (phys s) a) = true → ld (phys (t2 n)) a = ld (phys s) a.
Proof using All.
  intros Ha Hne Hp. simpl. rewrite pt_write_out; [by apply Hkeep|].
  intros k Hk ->. destruct (range_not_kept n k) as [_ Hr]; [done..|]. by rewrite Hr in Hp.
Qed.

Lemma t2_others a :
  live s a → a ≠ tw → hw_base a ≠ F → ld (phys (t2 n)) a = ld (phys s) a.
Proof using All.
  intros Ha Hne HF. simpl. rewrite ld_pt_write_frame; [by apply Hkeep|apply Htf|done..].
Qed.

Lemma t2_wf : kernel_wf (t2 n).
Proof using All. by apply (kernel_wf_pt_write t idx). Qed.

Lemma t2_path a : on_path s pdt a → ld (phys (t2 n)) a = ld (phys s) a.
Proof using All.
  intros Ha. destruct (on_path_live s pdt P a Hs Hdir Ha) as [Hl Hne].
  apply t2_keep; [done..|]. apply hw_present_code.
  by apply (on_path_present s pdt P); [apply Hdir|].
Qed.

Lemma t2_pde : ld (phys (t2 n)) (P + 4 * idx) = ld (phys s) (P + 4 * idx).
Proof using All. destruct dir_frame_word as (?&?&?). by apply t2_others. Qed.

Lemma t2_entry_present :
  is_entry_present pdt idx (t2 n) = Ok (IS_ENTRY_PRESENT (ld (phys s) (P + 4 * idx)), t2 n).
Proof using All.
  destruct (dir_word s (phys (t2 n)) pdt P idx Hdir t2_path Hidx) as [Hal Hw].
  rewrite <- active_t in Hw. rewrite <- t2_pde. by apply is_entry_present_ok.
Qed.

(** The entry of the new table can be written: its word is on no path. *)
Lemma t2_stable :
  IS_ENTRY_PRESENT (ld (phys s) (P + 4 * idx)) = false →
  stable (t2 n) (pdt +ᵤ 4 * idx) (P + 4 * idx).
Proof using All.
  intros Hno. split_and!.
  - by apply (dir_word s (phys (t2 n)) pdt P idx Hdir t2_path).
  - change (active (t2 n)) with (active t). rewrite active_t.
    by apply (dir_word s (phys (t2 n)) pdt P idx Hdir t2_path).
  - intros w. change (active (t2 n)) with (active t). rewrite active_t.
    apply (dir_word s _ pdt P idx Hdir); [|done]. intros a Ha. rewrite ld_insert_ne; [by apply t2_path|].
    intros <-. apply (on_path_present s pdt P) in Ha; [|apply Hdir].
    apply hw_present_code in Ha. congruence.
Qed.

(** The entries written. *)
Lemma t2_in k :
  0 <= k < Z.of_nat n →
  F + 4 * (i + k) ≠ tw ∧ ld (phys (t2 n)) (F + 4 * (i + k)) = pt_entry (u32 (paddr + 4096 * k)) rw pl.
Proof using All.
  intros Hk. split; [by apply (range_not_kept n (i + k)); [..|lia|lia|lia]|].
  by apply pt_write_in.
Qed.

(** Whatever way the directory's entry came to lead to [F], the turn ends in a
    state as [mapped] says. *)
Lemma mapped_final u :
  kernel_wf u → cr3 u = cr3 t → kernel_pdt u = kernel_pdt t → kernel_pt u = kernel_pt t →
  pfa u = pfa t →
  (∀ a, a ≠ P + 4 * idx → ld (phys u) a = ld (phys (t2 n)) a) →
  hw_present (ld (phys u) (P + 4 * idx)) = true →
  hw_large (ld (phys u) (P + 4 * idx)) = false →
  hw_base (ld (phys u) (P + 4 * idx)) = F →
  (IS_ENTRY_PRESENT (ld (phys s) (P + 4 * idx)) = true →
     ld (phys u) (P + 4 * idx) = ld (phys s) (P + 4 * idx)) →
  (IS_ENTRY_PRESENT (ld (phys s) (P + 4 * idx)) = false →
     ld (phys u) (P + 4 * idx) = pd_entry F PS_4KB rw pl) →
  kernel_set_temporary_entry (tmp_entry s) u = Ok (tt, set_window (tmp_entry s) u) ∧
  mapped s (set_window (tmp_entry s) u) P idx F i n paddr rw pl.
Proof using All.
  intros Hu Euc Eud Eup Euf Hmem Hp Hl Hb Hold Hnew. destruct dir_frame_word as (HPl & HPne & HPF).
  destruct (restore_ok u) as (Hset & Hwf' & Hgr & Htwk & Hfin); rewrite ?Euf; try first [done|congruence].
  { intros a Ha Hne Hpa. destruct (decide (a = P + 4 * idx)) as [->|]; [by apply Hold|].
    rewrite Hmem by done. by apply t2_keep. }
  split; [done|]. pose proof (Hfin (P + 4 * idx) _ HPne eq_refl) as Epde.
  split; [done|done| |by rewrite Epde| | | | |by rewrite Epde].
  - unfold good_pde. rewrite Epde, Hb. intros _. split_and!; try done.
    + destruct Htf as [A B C D]. split; try done.
      * unfold active in *. simpl. by rewrite Euc.
      * simpl. by rewrite Eup.
    + unfold live. simpl. by rewrite Euf.
  - intros k Hk. destruct (t2_in k Hk) as [Hne E]. apply Hfin; [done|]. rewrite Hmem; [done|].
    intros E'. apply HPF. rewrite <- E'. apply hw_base_word; [apply Htf|lia].
  - simpl. by rewrite Euf.
  - intros Hno. destruct Hpde as [(?%hw_present_code & _)|(_ & ? & _)]; [congruence|done].
  - intros a Ha HneP HneF. destruct (decide (a = tw)) as [->|Hne].
    + done.
    + apply Hfin; [done|]. rewrite Hmem by done. by apply t2_others.
Qed.
(** The directory's entry, there already or made now, and the window put back. *)
Lemma table_entered (v : Z) :
  ∃ s', (present ← is_entry_present pdt idx;
         (if present : bool then mret tt else create_pdt_entry pdt idx F PS_4KB rw pl) ≫= λ _,
         kernel_set_temporary_entry (tmp_entry s) ≫= λ _, mret (Some v)) (t2 n) = Ok (Some v, s') ∧
    mapped s s' P idx F i n paddr rw pl.
Proof using All.
  rewrite (bind_ok _ _ _ _ _ t2_entry_present).
  destruct Hpde as [(Hp & Hl & Hb & HFl)|(Hno & HFf & Hz)].
  - rewrite (hw_present_code _ Hp). rewrite (bind_ok _ _ (t2 n) tt (t2 n)) by done.
    destruct (mapped_final (t2 n)) as [Hset Hm]; try done.
    { by apply t2_wf. } { by rewrite t2_pde. } { by rewrite t2_pde. } { by rewrite t2_pde. }
    { intros _. by apply t2_pde. } { rewrite (hw_present_code _ Hp). done. }
    rewrite (bind_ok _ _ _ _ _ Hset). by eexists.
  - rewrite Hno.
    rewrite (bind_ok _ _ _ _ _ (create_pdt_entry_ok _ _ _ F PS_4KB rw pl _
      (t2_stable Hno))).
    pose proof (pd_entry_ok F rw pl (tf_u32 _ _ _ Htf) (tf_aligned _ _ _ Htf)) as [Eu Ep' _ El Eb].
    pose proof dir_frame_word as (HPl & HPne & HPF).
    destruct (mapped_final (put (P + 4 * idx) (pd_entry F PS_4KB rw pl) (t2 n)))
      as [Hset Hm]; try done; simpl.
    { apply kernel_wf_put; [by apply t2_wf|done|..]; change (active (t2 n)) with (active t); rewrite active_t; intros Ew.
      - destruct (kw_low _ Hs) as (Hlp & _). apply hw_present_code in Hlp. congruence.
      - pose proof (eo_config _ _ (kw_window _ Hs)). congruence. }
    { intros a Ha. by rewrite ld_insert_ne. }
    { by rewrite ld_insert_eq. } { by rewrite ld_insert_eq. } { by rewrite ld_insert_eq. }
    { congruence. } { by rewrite ld_insert_eq. }
    rewrite (bind_ok _ _ _ _ _ Hset). by eexists.
Qed.

End written.

Lemma pdt_map_table_ok :
  ∃ r s', pdt_map_table pdt idx F KERNEL_TMP_VADDR (tmp_entry s) paddr vaddr size rw pl t
    = Ok (r, s') ∧ body_post s s' r P idx i paddr size rw pl.
Proof using All.
  assert (Hi0 : 0 <= i < 1024) by (rewrite Hi; apply Z.mod_pos_bound; lia).
  assert (H0 : 0 <= i) by lia.
  destruct (pt_map_memory_ok t idx F paddr vaddr size rw pl Hwf Hwin Htf Hsize Hsza)
    as (n & Hmap & Hle & Hin & Habs & Hend). rewrite <- Hi in *.
  unfold pdt_map_table. rewrite (bind_ok _ _ _ _ _ Hmap). fold (t2 n).
  pose proof dir_frame_word as (HPl & HPne & HPF).
  destruct (Z.eqb_spec (4096 * Z.of_nat n) 0) as [E|E].
  - pose proof (t2_wf n H0 Hin Habs) as Hwf2.
    destruct (printk_ok (t2 n) "Could not map memory in page table. pt: %X, paddr: %X, vaddr: %X, size: %u\n"
      [KERNEL_TMP_VADDR; paddr; vaddr; size] Hwf2) as (p' & Hpr & Hwfp & Hfp & Hmp).
    rewrite (bind_ok _ _ _ _ _ Hpr).
    destruct (restore_ok (set_pfa p' (t2 n))) as (Hset & Hwf' & Hgr & Htwr & Hfin); try done; simpl in *.
    { by rewrite Hfp. } { by rewrite Hmp. }
    { intros a Ha Hne Hp. by apply (t2_keep n H0 Hin Habs). }
    rewrite (bind_ok _ _ _ _ _ Hset). eexists _, _. split; [done|]. left.
    assert (Z.of_nat n = 0) as En by lia. rewrite En, Z.add_0_r in Hend.
    split_and!; try done; [|intros a Ha; destruct (decide (a = tw)) as [->|Hne]; [done|];
      apply (Hfin a _ Hne); replace n with 0%nat by lia; by apply Hkeep].
    destruct Hend as [?|[?|[Hp|?]]]; [lia|lia| |by right; left].
    destruct (stop_reason i Hi0 Hp) as [?|(HFl & Eb & Hps)]; [by right; left|right; right].
    rewrite <- Eb. split; [|done]. destruct Hpde as [(Hpp & _)|(_ & Hnl & _)].
    + by apply hw_present_code.
    + done.
  - assert (Hreason : 4096 * Z.of_nat n = size ∨ i + Z.of_nat n = 1024 ∨
      (idx = 768 ∧ i + Z.of_nat n = 1023) ∨
      (live s F ∧ F = hw_base (ld (phys s) (P + 4 * idx)) ∧
      IS_ENTRY_PRESENT (ld (phys s) (F + 4 * (i + Z.of_nat n))) = true)).
    { destruct Hend as [?|[?|[Hp|?]]]; [by left|by right; left| |by right; right; left].
      destruct (decide (i + Z.of_nat n = 1024)); [by right; left|right; right].
      apply (stop_reason (i + Z.of_nat n)); [lia|done]. }
    destruct (table_entered n H0 Hin Habs (4096 * Z.of_nat n)) as (s' & E' & Hm). exists (Some (4096 * Z.of_nat n)), s'.
    split; [exact E'|]. right. exists F, n. split_and!; try done; lia.
Qed.
End table.

(** *** A whole turn *)

Lemma body_present s pdt P paddr vaddr size rw pl :
  let idx := vaddr / 4194304 in let i := vaddr / 4096 mod 1024 in
  kernel_wf s → directory s pdt P → good_pde s P idx →
  IS_ENTRY_PRESENT (ld (phys s) (P + 4 * idx)) = true →
  is_u32 vaddr → is_u32 paddr → is_u32 size → size mod 4096 = 0 → size ≠ 0 →
  ∃ r s', pdt_map_body pdt paddr vaddr size rw pl s = Ok (r, s') ∧
    body_post s s' r P idx i paddr size rw pl.
Proof.
  intros idx i Hwf Hdir Hgood Hpres Hv Hp Hsz Hsza Hsz0.
  destruct (Hgood Hpres) as (Hhp & Hhl & HFP & Htf & Hlive).
  set (F := hw_base (ld (phys s) (P + 4 * idx))) in *. pose proof Htf as [HFa HFu HFD HFk].
  assert (Hidx : 0 <= idx < 1024) by (unfold idx; Z.to_euclidean_division_equations; lia).
  destruct (dir_word s (phys s) pdt P idx Hdir) as [Hal Hw]; [done..|].
  unfold pdt_map_body. rewrite VIRTUAL_TO_PDT_IDX_eq by done. fold idx.
  rewrite (bind_ok _ _ _ _ _ (get_temporary_ok s Hwf)).
  rewrite (bind_ok _ _ _ _ _ (is_entry_present_ok s _ _ _ Hal Hw)), Hpres.
  rewrite (bind_ok _ _ _ _ _ (get_pt_paddr_ok s _ _ _ Hwf Hal Hw)). fold F.
  rewrite (bind_ok _ _ _ _ _ (map_temporary_ok s F Hwf)).
  set (s1 := set_window (pt_entry F 1 0) s).
  apply (pdt_map_table_ok s s1 pdt P idx F i paddr vaddr size rw pl); try done.
  - apply kernel_wf_set_window; [done|apply pt_entry_u32].
  - by apply window_set_window.
  - set_solver.
  - intros a _ Ha. simpl. by rewrite ld_insert_ne.
  - left. by split_and!.
Qed.

Lemma pfa_one s :
  kernel_wf s →
  (fr_free_set (pfa s) = ∅ ∧ ∃ p', pfa_allocate 1 s = Ok (0, set_pfa p' s) ∧
     kernel_wf (set_pfa p' s) ∧ fr_free_set p' = ∅ ∧ fr_managed p' = fr_managed (pfa s)) ∨
  (∃ F p', pfa_allocate 1 s = Ok (F, set_pfa p' s) ∧ kernel_wf (set_pfa p' s) ∧
     F ∈ fr_free_set (pfa s) ∧ fr_free_set p' = fr_free_set (pfa s) ∖ {[F]} ∧
     fr_managed p' = fr_managed (pfa s) ∧
     F mod 4096 = 0 ∧ 0x100000 <= F ∧ F + 4096 < 4294967296).
Proof.
  intros Hwf. destruct (fr_allocate_spec (pfa s) 1 (kw_frames _ Hwf) ltac:(lia))
    as (F & p' & Ha & Hp' & Hm & Hpool).
  assert (E : pfa_allocate 1 s = Ok (F, set_pfa p' s)) by (unfold pfa_allocate, zoom; by rewrite Ha).
  assert (Hwf' : kernel_wf (set_pfa p' s)).
  { apply (kernel_wf_mem s); simpl; try done; [|apply Hwf].
    destruct Hpool as [(_&->&_)|(_&_&->)]; set_solver. }
  unfold pool_alloc in Hpool. rewrite pages_one in Hpool. destruct Hpool as [(->&EF&Hnone)|(_&Hsub&EF)].
  - left. specialize (Hnone eq_refl). split; [done|]. exists p'. by rewrite EF.
  - right. exists F, p'. assert (HF : F ∈ fr_free_set (pfa s)) by set_solver.
    split_and!; try done; apply (fr_managed_ok (pfa s) F); try apply Hwf;
      by apply fr_free_managed; [apply Hwf|].
Qed.

Lemma body_fresh s pdt P paddr vaddr size rw pl :
  let idx := vaddr / 4194304 in let i := vaddr / 4096 mod 1024 in
  kernel_wf s → directory s pdt P →
  IS_ENTRY_PRESENT (ld (phys s) (P + 4 * idx)) = false →
  is_u32 vaddr → is_u32 paddr → is_u32 size → size mod 4096 = 0 → size ≠ 0 →
  ∃ r s', pdt_map_body pdt paddr vaddr size rw pl s = Ok (r, s') ∧
    body_post s s' r P idx i paddr size rw pl.
Proof.
  intros idx i Hwf Hdir Hno Hv Hp Hsz Hsza Hsz0.
  assert (Hidx : 0 <= idx < 1024) by (unfold idx; Z.to_euclidean_division_equations; lia).
  destruct (dir_word s (phys s) pdt P idx Hdir) as [Hal Hw]; [done..|].
  unfold pdt_map_body. rewrite VIRTUAL_TO_PDT_IDX_eq by done. fold idx.
  rewrite (bind_ok _ _ _ _ _ (get_temporary_ok s Hwf)).
  rewrite (bind_ok _ _ _ _ _ (is_entry_present_ok s _ _ _ Hal Hw)), Hno.
  destruct (pfa_one s Hwf) as [(Hempty & p' & E & Hwf' & Hf & Hm)|
    (F & p' & E & Hwf' & HF & Hf & Hm & HFa & HF0 & HF4)];
    rewrite (bind_ok _ _ _ _ _ E).
  { simpl (0 =? 0). destruct (printk_ok (set_pfa p' s)
      "Couldn't allocate page frame for new page table.pdt_idx: %u, data vaddr: %X, data paddr: %X, data size: %u\n"
      [idx; vaddr; paddr; size] Hwf') as (p2 & Hpr & Hwfp & Hfp & Hmp).
    rewrite (bind_ok _ _ _ _ _ Hpr). eexists _, _. split; [done|]. left.
    split_and!; [done|done| |by left|done]. split; simpl in *; try done; [set_solver|congruence]. }
  destruct (Z.eqb_spec F 0) as [->|_]; [lia|].
  rewrite (bind_ok _ _ _ _ _ (map_temporary_ok (set_pfa p' s) F Hwf')).
  set (s1 := set_window (pt_entry F 1 0) (set_pfa p' s)).
  assert (Hnl : ¬ live s F) by (unfold live; rewrite hw_base_id by done; tauto).
  assert (HF1 : F ≠ active s) by (intros ->; by apply Hnl, kw_live_active).
  assert (HF2 : F ≠ kernel_pt s) by (intros ->; by apply Hnl, kw_live_pt).
  assert (Hwf1 : kernel_wf s1) by (apply kernel_wf_set_window; [done|apply pt_entry_u32]).
  assert (Hwin1 : window s1 F) by (apply window_set_window; [done|lia|done]).
  assert (Htf1 : table_frame s1 idx F) by (split; [done|lia|done|done]).
  rewrite (bind_ok _ _ _ _ _ (clear_window_ok s1 idx F Hwf1 Hwin1 Htf1 HF2)).
  assert (HFP : F ≠ P) by (intros ->; by apply Hnl, (dir_live _ _ _ Hdir)).
  assert (Htw : hw_base (tmp_word s) ≠ F)
    by (destruct (tmp_word_facts s Hwf) as (_&_&_&->&_); by apply not_eq_sym).
  pose proof (kernel_wf_zero s1 idx F 1024 Hwf1 Htf1 ltac:(lia)) as Hwfz.
  apply (pdt_map_table_ok s _ pdt P idx F i paddr vaddr size rw pl); try done; simpl.
  - unfold window. change (tmp_word (set_phys _ s1)) with (tmp_word s). simpl.
    rewrite ld_zero_frame by done. apply Hwin1.
  - by destruct Htf1; split.
  - rewrite Hf. set_solver.
  - rewrite Hf. intros a Ha. destruct (decide (a = F)); set_solver.
  - unfold live. simpl. rewrite Hf, hw_base_id by done. set_solver.
  - intros a Ha Hne. rewrite ld_zero_frame.
    + by apply ld_insert_ne, not_eq_sym.
    + done.
    + intros E'. apply Ha. by rewrite E'.
  - right. split_and!; [done..|]. intros k Hk. apply zero_words_in. lia.
Qed.
End body.
