(* ===== verification/DemoMachine.v ===== *)
(** * DemoMachine: a concrete machine for the witnesses of the paging theorems

    The state boot.s leaves, with the six frames of [Frames.demo_frames]: the
    directory at [0x101000] maps the first 4 MB on themselves and the kernel's
    first 4 MB through the table at [0x102000], where only the kernel's first page is entered. *)

From S2P Require Import Prelude CArith Interfaces Frames Mmu Paging PagingFacts.

Definition demo_machine : paging frames := Paging _
  (<[0x101000 := 0x8B]> (<[0x101C00 := 0x10200B]> (<[0x102000 := 0xB]> ∅)))
  0x101000 0x101000 0x102000 [] demo_frames.

Lemma demo_words a : is_u32 (ld (phys demo_machine) a).
Proof. simpl. rewrite !ld_insert. unfold ld. rewrite lookup_empty. repeat case_decide; simpl; lia. Qed.

(** The frames of the allocator are above the first 2 MB. *)
Lemma demo_live a : hw_base a < 0x200000 → live demo_machine a.
Proof.
  intros Ha Hin. apply free_set_managed, elem_of_managed_set in Hin as (k & Hk & E).
  rewrite E in Ha. simpl in Hk.
  assert (k = 0 ∨ k = 1 ∨ k = 2 ∨ k = 3 ∨ k = 4 ∨ k = 5) as Hc by lia.
  repeat destruct Hc as [->|Hc]; subst; done.
Qed.

Lemma demo_wf : kernel_wf demo_machine.
Proof.
  split; try (apply demo_live); try done.
  - apply demo_frames_wf.
  - apply demo_words.
Qed.

Lemma demo_directory : directory demo_machine 0x101000 0x101000.
Proof. split; try (by apply demo_live); done. Qed.

(** The entries of the directory that are present. *)
Lemma demo_pde idx :
  0 <= idx < 1024 →
  ld (phys demo_machine) (0x101000 + 4 * idx)
  = if decide (idx = 0) then 0x8B else if decide (idx = 768) then 0x10200B else 0.
Proof.
  intros Hi. simpl. repeat case_decide; subst; try done.
  rewrite !ld_insert_ne by lia. unfold ld. by rewrite lookup_empty.
Qed.

(** The words of the kernel's table. *)
Lemma demo_pte j :
  0 <= j < 1024 →
  ld (phys demo_machine) (0x102000 + 4 * j) = if decide (j = 0) then 0xB else 0.
Proof.
  intros Hi. simpl. case_decide; subst; [done|].
  rewrite !ld_insert_ne by lia. unfold ld. by rewrite lookup_empty.
Qed.
