(* ===== verification/PdtMap.v ===== *)
(** * PdtMap: the whole of [pdt_map_memory]

    The loop of [pdt_map_memory] as a sequence of the turns of [PageMap]: it
    always ends, it restores the window, it leaves every translation that
    existed alone, and when it does not give up the range is mapped as asked.
    When the range is clear and there are frames for the tables it misses, it
    does not give up. *)

From S2P Require Import Prelude CArith Interfaces Frames Mmu Paging PagingFacts PageMap DemoMachine.

Section map.
Context {St : Type} `{!FrameOps St, !FrameLaws St}.
Implicit Types s : paging St.

(** ** What a turn leaves alone *)

Lemma grows_directory s s' pdt P :
  kernel_wf s → grows s s' → directory s pdt P → directory s' pdt P.
Proof.
  intros Hwf Hg Hdir. pose proof Hdir as [(Hal & H0 & H4) Hw Hp HP Hl Hpt].
  assert (Ea : active s' = active s) by (unfold active; by rewrite (gr_active _ _ Hg)).
  assert (Hsame : ∀ a, on_path s pdt a → ld (phys s') a = ld (phys s) a).
  { intros a Ha. destruct (on_path_live s pdt P a Hwf Hdir Ha). apply Hg; [done|].
    apply hw_present_code. by apply (on_path_present s pdt P). }
  assert (Epde : pde_of (phys s') (active s) pdt = pde_of (phys s) (active s) pdt)
    by (apply Hsame; by left).
  split; rewrite ?Ea; [done| | |done| |].
  - by rewrite (walk_path_eq s _ pdt Hsame).
  - rewrite Epde. intros Hlg. destruct (Hp Hlg) as [Hlv Hne]. split; [by apply (grows_live s)|].
    unfold tmp_word. by rewrite (gr_pt _ _ Hg).
  - by apply (grows_live s).
  - by rewrite (gr_pt _ _ Hg).
Qed.

(** The other entries of the directory keep their value. *)
Lemma mapped_pde s s' pdt P idx F i n paddr rw pl idx' :
  kernel_wf s → directory s pdt P → mapped s s' P idx F i n paddr rw pl →
  0 <= idx < 1024 → 0 <= idx' < 1024 → idx' ≠ idx →
  ld (phys s') (P + 4 * idx') = ld (phys s) (P + 4 * idx').
Proof.
  intros Hwf [_ _ _ HPa HPl _] [_ _ Hg (Hp & _ & Hb) _ _ _ Ho _] Hi Hi' Hne.
  apply Ho; [by apply live_word; [..|lia]|lia|].
  rewrite hw_base_word by (done || lia). destruct (Hg (hw_present_code _ Hp)) as (_ & _ & H & _).
  congruence.
Qed.

(** An entry that keeps its value stays good. *)
Lemma good_kept s s' P idx :
  grows s s' → ld (phys s') (P + 4 * idx) = ld (phys s) (P + 4 * idx) →
  good_pde s P idx → good_pde s' P idx.
Proof.
  intros Hg E Hgood. unfold good_pde. rewrite E. intros Hp. destruct (Hgood Hp) as (?&?&?&[]&?).
  assert (Ea : active s' = active s) by (unfold active; by rewrite (gr_active _ _ Hg)).
  split_and!; try done; [|by apply (grows_live s)].
  split; try done; [by rewrite Ea|by rewrite (gr_pt _ _ Hg)].
Qed.

Lemma mapped_good s s' pdt P idx F i n paddr rw pl idx' :
  kernel_wf s → directory s pdt P → mapped s s' P idx F i n paddr rw pl →
  0 <= idx < 1024 → 0 <= idx' < 1024 → good_pde s P idx' → good_pde s' P idx'.
Proof.
  intros Hwf Hdir Hm Hi Hi' Hgood. destruct (decide (idx' = idx)) as [->|Hne]; [apply Hm|].
  apply (good_kept s); [apply Hm|by apply (mapped_pde s s' pdt P idx F i n paddr rw pl)|done].
Qed.

(** ** What it is for a page to be mapped *)

(** The page [v] leads to the frame [p] through a 4 kB entry with the rights
    [rw] and [pl], and the words that say so are not in free frames. *)
Record maps_page s (P v p rw pl : Z) : Prop := MapsPage {
  mpg_live : walk_live s P v;
  mpg_present : hw_present (pde_of (phys s) P v) = true;
  mpg_small : hw_large (pde_of (phys s) P v) = false;
  mpg_entry : ld (phys s) (pte_addr (pde_of (phys s) P v) v) = pt_entry p rw pl
}.

Lemma maps_page_walk s P v p rw pl o :
  maps_page s P v p rw pl → v mod 4096 = 0 → p mod 4096 = 0 → is_u32 p → 0 <= o < 4096 →
  walk (phys s) P (v + o) = Some (p + o).
Proof.
  intros [_ Hp Hl He] Hv Hpa Hpr Ho. rewrite walk_page by done. unfold walk.
  rewrite Hp, Hl, He. destruct (pt_entry_ok p rw pl Hpr Hpa) as [_ -> _ _ ->]. simpl.
  rewrite Hv, Z.add_0_r. done.
Qed.

Lemma grows_maps_page s s' P v p rw pl :
  grows s s' → is_u32 v → v mod 4096 = 0 → p mod 4096 = 0 → is_u32 p →
  maps_page s P v p rw pl → maps_page s' P v p rw pl.
Proof.
  intros Hg Hv Hva Hpa Hpr [Hlive Hp Hl He]. pose proof Hlive as (HP & HPa & Hpt).
  assert (Epde : pde_of (phys s') P v = pde_of (phys s) P v).
  { apply Hg; [|by apply hw_present_code]. apply live_word; [done..|].
    Z.to_euclidean_division_equations; lia. }
  split; rewrite ?Epde; try done; [by apply (grows_walk_live s)|].
  rewrite <- He. apply Hg; [apply live_pte; auto|]. rewrite He. by apply pt_entry_ok.
Qed.

(** The entries a turn wrote map pages. *)
Lemma mapped_maps s s' pdt P vaddr F n paddr rw pl k :
  let idx := vaddr / 4194304 in let i := vaddr / 4096 mod 1024 in
  kernel_wf s → directory s pdt P → mapped s s' P idx F i n paddr rw pl →
  vaddr mod 4096 = 0 → 0 <= vaddr → i + Z.of_nat n <= 1024 → 0 <= k < Z.of_nat n →
  vaddr + 4096 * k < 4294967296 →
  maps_page s' P (vaddr + 4096 * k) (u32 (paddr + 4096 * k)) rw pl.
Proof.
  intros idx i Hwf Hdir Hm Hva H0 Hn Hk Hr.
  assert (Ei : (vaddr + 4096 * k) / 4194304 = idx)
    by (unfold idx, i in *; Z.to_euclidean_division_equations; lia).
  assert (Ej : (vaddr + 4096 * k) / 4096 mod 1024 = i + k)
    by (unfold idx, i in *; Z.to_euclidean_division_equations; lia).
  destruct (mp_pde _ _ _ _ _ _ _ _ _ _ Hm) as (Hp & Hl & Hb).
  destruct (mp_good _ _ _ _ _ _ _ _ _ _ Hm (hw_present_code _ Hp)) as (_ & _ & _ & _ & Hlive).
  split; unfold walk_live, pde_of, pte_addr; rewrite ?Ei, ?Ej; try done.
  - split_and!; [|apply Hdir|done]. apply (grows_live s); [apply Hm|apply Hdir].
  - rewrite Hb. by apply (mp_in _ _ _ _ _ _ _ _ _ _ Hm).
Qed.
(** ** The loop *)

(** The directory indices of the range [v, v + size). *)
Definition spans (v size : Z) : list Z :=
  seqZ (v / 4194304) ((v + size - 1) / 4194304 - v / 4194304 + 1).

Definition missing s (P : Z) (l : list Z) : nat :=
  length (filter (λ idx, IS_ENTRY_PRESENT (ld (phys s) (P + 4 * idx)) = false) l).

Definition tables_good s (P v size : Z) : Prop :=
  ∀ idx, v / 4194304 <= idx <= (v + size - 1) / 4194304 → good_pde s P idx.

(** What lets a call succeed: no two entries of the range share a table, no
    page of the range is present or is the window, and there is a free frame
    for every table that is missing. *)
Record room s (P v size : Z) : Prop := Room {
  rm_distinct idx idx' :
    v / 4194304 <= idx <= (v + size - 1) / 4194304 →
    v / 4194304 <= idx' <= (v + size - 1) / 4194304 →
    IS_ENTRY_PRESENT (ld (phys s) (P + 4 * idx)) = true →
    IS_ENTRY_PRESENT (ld (phys s) (P + 4 * idx')) = true →
    hw_base (ld (phys s) (P + 4 * idx)) = hw_base (ld (phys s) (P + 4 * idx')) → idx = idx';
  rm_clear v' :
    v' mod 4096 = 0 → v <= v' < v + size →
    v' ≠ KERNEL_TMP_VADDR ∧
    (IS_ENTRY_PRESENT (pde_of (phys s) P v') = true →
     IS_ENTRY_PRESENT (ld (phys s) (pte_addr (pde_of (phys s) P v') v')) = false);
  rm_frames : (missing s P (spans v size) <= base.size (fr_free_set (pfa s)))%nat
}.

Lemma spans_next v size m :
  v mod 4096 = 0 → 0 < m < size → v / 4096 mod 1024 + m / 4096 = 1024 → m mod 4096 = 0 →
  spans v size = (v / 4194304) :: spans (v + m) (size - m) ∧
  (v + m) / 4194304 = v / 4194304 + 1.
Proof.
  intros Hv Hm Hn Hma.
  assert (E : (v + m) / 4194304 = v / 4194304 + 1) by (Z.to_euclidean_division_equations; lia).
  split; [|done]. unfold spans. rewrite E. replace (v + m + (size - m) - 1) with (v + size - 1) by lia.
  rewrite seqZ_step.
  - f_equal. f_equal. lia.
  - Z.to_euclidean_division_equations; lia.
Qed.

Lemma missing_cons s P idx l :
  missing s P (idx :: l) =
  ((if IS_ENTRY_PRESENT (ld (phys s) (P + 4 * idx)) then 0 else 1) + missing s P l)%nat.
Proof.
  unfold missing. rewrite filter_cons. by destruct (IS_ENTRY_PRESENT _).
Qed.

Lemma missing_ext s s' P l :
  (∀ idx, idx ∈ l → ld (phys s') (P + 4 * idx) = ld (phys s) (P + 4 * idx)) →
  missing s' P l = missing s P l.
Proof.
  induction l as [|idx l IH]; intros H; [done|]. rewrite !missing_cons, IH, H; [done|set_solver..].
Qed.
Lemma dir_word_live s pdt P idx : directory s pdt P → 0 <= idx < 1024 → live s (P + 4 * idx).
Proof. intros Hdir Hi. apply live_word; [apply Hdir..|lia]. Qed.

(** A turn takes a frame only for a missing table. *)
Lemma room_frames s s' P idx F i n paddr rw pl k :
  mapped s s' P idx F i n paddr rw pl →
  ((if IS_ENTRY_PRESENT (ld (phys s) (P + 4 * idx)) then 0 else 1) + k
    <= base.size (fr_free_set (pfa s)))%nat →
  (IS_ENTRY_PRESENT (ld (phys s) (P + 4 * idx)) = true → live s F) →
  (k <= base.size (fr_free_set (pfa s')))%nat.
Proof.
  intros Hm Hk HF. pose proof (mp_free _ _ _ _ _ _ _ _ _ _ Hm) as Hsub.
  destruct (IS_ENTRY_PRESENT _).
  - assert (fr_free_set (pfa s) ⊆ fr_free_set (pfa s')) as ?%subseteq_size; [|lia].
    assert (F ∉ fr_free_set (pfa s)); [|set_solver].
    specialize (HF eq_refl). unfold live in HF.
    destruct (mp_pde _ _ _ _ _ _ _ _ _ _ Hm) as (_ & _ & <-).
    by rewrite (hw_base_id (hw_base _)) in HF by apply hw_base_aligned.
  - apply subseteq_size in Hsub. rewrite size_union_alt, size_singleton in Hsub.
    pose proof (subseteq_size (fr_free_set (pfa s') ∖ {[F]}) (fr_free_set (pfa s')) ltac:(set_solver)).
    lia.
Qed.

(** A turn that went to the end of its table leaves room for the rest. *)
Lemma room_next s s' pdt P vaddr F n paddr rw pl size :
  let idx := vaddr / 4194304 in let i := vaddr / 4096 mod 1024 in
  let m := 4096 * Z.of_nat n in
  kernel_wf s → directory s pdt P → mapped s s' P idx F i n paddr rw pl →
  vaddr mod 4096 = 0 → 0 <= vaddr → vaddr + size <= 4294967296 →
  0 < m < size → i + Z.of_nat n = 1024 → tables_good s P vaddr size →
  room s P vaddr size → room s' P (vaddr + m) (size - m).
Proof.
  intros idx i m Hwf Hdir Hm Hva H0 Hend Hmr Hfull Hgood [Hdist Hclear Hframes].
  destruct (spans_next vaddr size m) as [Espan Enext]; try done.
  { unfold m, i in *. Z.to_euclidean_division_equations; lia. }
  { unfold m. Z.to_euclidean_division_equations; lia. }
  assert (Eend : vaddr + m + (size - m) - 1 = vaddr + size - 1) by lia.
  assert (Hidx : 0 <= idx < 1024) by (unfold idx; Z.to_euclidean_division_equations; lia).
  assert (Hlast : (vaddr + size - 1) / 4194304 < 1024) by (Z.to_euclidean_division_equations; lia).
  fold idx in Enext, Espan, Hdist. rewrite Espan, missing_cons in Hframes.
  assert (Hpde : ∀ idx', idx < idx' <= (vaddr + size - 1) / 4194304 →
    ld (phys s') (P + 4 * idx') = ld (phys s) (P + 4 * idx')).
  { intros idx' Hi'. apply (mapped_pde _ _ _ _ _ _ _ _ _ _ _ idx' Hwf Hdir Hm); lia. }
  pose proof (dir_word_live s pdt P idx Hdir Hidx) as Hlw.
  destruct (mp_pde _ _ _ _ _ _ _ _ _ _ Hm) as (Hp' & _ & Hb').
  assert (Hfresh : ∀ idx', idx < idx' <= (vaddr + size - 1) / 4194304 →
    IS_ENTRY_PRESENT (ld (phys s) (P + 4 * idx')) = true → hw_base (ld (phys s) (P + 4 * idx')) ≠ F).
  { intros idx' Hi' Hpi E. destruct (Hgood idx' ltac:(lia) Hpi) as (_&_&_&_&Hlv).
    rewrite E in Hlv. destruct (IS_ENTRY_PRESENT (ld (phys s) (P + 4 * idx))) eqn:Hpc.
    - assert (idx = idx'); [|lia]. apply Hdist; try done; try lia.
      rewrite E, <- Hb'. f_equal. symmetry. by apply (mp_grows _ _ _ _ _ _ _ _ _ _ Hm).
    - by apply (mp_fresh _ _ _ _ _ _ _ _ _ _ Hm). }
  split.
  - rewrite Enext, Eend. intros i1 i2 H1 H2. rewrite !Hpde by lia. apply Hdist; lia.
  - intros v' Hv' Hr. destruct (Hclear v' Hv' ltac:(lia)) as [? Hc]. split; [done|].
    assert (Hi' : idx < v' / 4194304 <= (vaddr + size - 1) / 4194304)
      by (revert Enext; Z.to_euclidean_division_equations; lia).
    unfold pde_of in *. rewrite Hpde by done. intros Hp. rewrite <- Hc by done. f_equal.
    destruct (Hgood (v' / 4194304) ltac:(lia) Hp) as (_&_&HP&_&Hlv).
    apply (mp_others _ _ _ _ _ _ _ _ _ _ Hm);
      [by apply live_pte| |rewrite hw_base_pte; by apply Hfresh].
    intros E. apply HP. rewrite <- (hw_base_pte _ v'), E. apply hw_base_word; [apply Hdir|lia].
  - rewrite (missing_ext s s')
      by (intros idx' Hin; unfold spans in Hin; rewrite Eend in Hin; apply elem_of_seqZ in Hin; apply Hpde; lia).
    apply (room_frames s s' P idx F i n paddr rw pl); [done..|]. intros Hp.
    destruct (Hgood idx ltac:(Z.to_euclidean_division_equations; lia) Hp) as (_&_&_&_&Hlv).
    rewrite <- Hb'. by rewrite (gr_keep _ _ (mp_grows _ _ _ _ _ _ _ _ _ _ Hm)).
Qed.
(** With room, a turn is not refused and stops only at the end of the range or
    of the table. *)
Lemma room_turn s s' pdt P vaddr r paddr rw pl size :
  let idx := vaddr / 4194304 in let i := vaddr / 4096 mod 1024 in
  kernel_wf s → directory s pdt P → body_post s s' r P idx i paddr size rw pl →
  vaddr mod 4096 = 0 → is_u32 vaddr → 0 < size → vaddr + size <= 4294967296 →
  room s P vaddr size →
  ∃ F n, r = Some (4096 * Z.of_nat n) ∧ mapped s s' P idx F i n paddr rw pl ∧
    0 < Z.of_nat n ∧
    (4096 * Z.of_nat n = size ∨ (4096 * Z.of_nat n < size ∧ i + Z.of_nat n = 1024)).
Proof.
  intros idx i Hwf Hdir Hpost Hva Hv Hsz Hend [Hdist Hclear Hframes].
  assert (Htmp : ∀ k, 0 <= 4096 * k < size → 0 <= i + k < 1024 → idx = 768 → i + k ≠ 1023).
  { intros k Hk Hik Ei Ek. destruct (Hclear (vaddr + 4096 * k)) as [Hne _];
      [Z.to_euclidean_division_equations; lia|lia|]. apply Hne.
    change KERNEL_TMP_VADDR with 3225415680. unfold idx, i in *.
    Z.to_euclidean_division_equations; lia. }
  assert (Habs : ∀ k, 0 <= 4096 * k < size → 0 <= i + k < 1024 →
    let e := ld (phys s) (P + 4 * idx) in IS_ENTRY_PRESENT e = true →
    IS_ENTRY_PRESENT (ld (phys s) (hw_base e + 4 * (i + k))) = false).
  { intros k Hk Hik e He. destruct (Hclear (vaddr + 4096 * k)) as [_ Hc];
      [Z.to_euclidean_division_equations; lia|lia|]. unfold pde_of, pte_addr in Hc.
    replace ((vaddr + 4096 * k) / 4194304) with idx in Hc
      by (unfold idx, i in *; Z.to_euclidean_division_equations; lia).
    replace ((vaddr + 4096 * k) / 4096 mod 1024) with (i + k) in Hc
      by (unfold idx, i in *; Z.to_euclidean_division_equations; lia).
    by apply Hc. }
  assert (Hi : 0 <= i < 1024) by (apply Z.mod_pos_bound; lia).
  destruct Hpost as [(_ & _ & _ & Hno & _)|(F & n & -> & Hn & Hle & Hin & Hm & Hstop)].
  - exfalso. destruct Hno as [(Hp & Hempty)|[(Ei & Ek)|(Hp & Hp')]].
    + rewrite Hempty, size_empty in Hframes. unfold spans in Hframes.
      rewrite seqZ_step, missing_cons in Hframes by (Z.to_euclidean_division_equations; lia).
      fold idx in Hframes. rewrite Hp in Hframes. lia.
    + apply (Htmp 0); lia.
    + specialize (Habs 0). rewrite Z.add_0_r in Habs. rewrite Habs in Hp'; [done|lia..|done].
  - exists F, n. split_and!; try done.
    destruct (decide (4096 * Z.of_nat n = size)) as [|Hlt]; [by left|right].
    split; [lia|]. destruct Hstop as [?|[?|[(Ei & Ek)|(Hl & EF & Hp)]]]; [done|done| |].
    + exfalso. apply (Htmp (Z.of_nat n)); lia.
    + destruct (decide (i + Z.of_nat n = 1024)); [done|exfalso]. rewrite EF, Habs in Hp; [done|lia..|].
      destruct (IS_ENTRY_PRESENT (ld (phys s) (P + 4 * idx))) eqn:E; [done|].
      by apply (mp_fresh _ _ _ _ _ _ _ _ _ _ Hm) in E.
Qed.

Lemma body_ok s pdt P paddr vaddr size rw pl :
  let idx := vaddr / 4194304 in let i := vaddr / 4096 mod 1024 in
  kernel_wf s → directory s pdt P → good_pde s P idx →
  is_u32 vaddr → is_u32 paddr → is_u32 size → size mod 4096 = 0 → size ≠ 0 →
  ∃ r s', pdt_map_body pdt paddr vaddr size rw pl s = Ok (r, s') ∧
    body_post s s' r P idx i paddr size rw pl.
Proof.
  intros. destruct (IS_ENTRY_PRESENT (ld (phys s) (P + 4 * idx))) eqn:E.
  - by apply body_present.
  - by apply body_fresh.
Qed.

(** A table that was missing is made in a frame that was free, and entered with the
    rights asked for. *)
Definition fresh_table s s' (P v rw pl : Z) : Prop :=
  IS_ENTRY_PRESENT (pde_of (phys s) P v) = false →
  ¬ live s (hw_base (pde_of (phys s') P v)) ∧
  pde_of (phys s') P v = pd_entry (hw_base (pde_of (phys s') P v)) PS_4KB rw pl.

(** The outcome of the loop, for a range of [size] bytes. *)
Definition map_post s s' (r P paddr vaddr size rw pl total : Z) : Prop :=
  kernel_wf s' ∧ grows s s' ∧
  (∀ idx, 0 <= idx < 1024 → good_pde s P idx → good_pde s' P idx) ∧
  ((r = total + size ∧ ∀ k, 0 <= k < size / 4096 →
      maps_page s' P (vaddr + 4096 * k) (u32 (paddr + 4096 * k)) rw pl ∧
      fresh_table s s' P (vaddr + 4096 * k) rw pl) ∨
   (r = 0 ∧ ¬ room s P vaddr size)).

Lemma fresh_now s s' P idx F i n paddr rw pl v :
  mapped s s' P idx F i n paddr rw pl → v / 4194304 = idx → fresh_table s s' P v rw pl.
Proof.
  intros Hm Ei Hno. unfold pde_of in *. rewrite Ei in *.
  destruct (mp_pde _ _ _ _ _ _ _ _ _ _ Hm) as (_ & _ & ->). split; by apply Hm.
Qed.

Lemma fresh_later s s1 s' pdt P idx F i n paddr rw pl v :
  kernel_wf s → directory s pdt P → mapped s s1 P idx F i n paddr rw pl → grows s1 s' →
  0 <= idx < 1024 → is_u32 v → fresh_table s1 s' P v rw pl → fresh_table s s' P v rw pl.
Proof.
  intros Hwf Hdir Hm Hg Hidx Hv Hf Hno. pose proof (mp_grows _ _ _ _ _ _ _ _ _ _ Hm) as Hg1.
  destruct (IS_ENTRY_PRESENT (pde_of (phys s1) P v)) eqn:E.
  - assert (Epde : pde_of (phys s') P v = pde_of (phys s1) P v).
    { apply Hg; [|done]. apply (grows_live s); [done|]. apply (dir_word_live s pdt); [done|].
      Z.to_euclidean_division_equations; lia. }
    rewrite Epde. destruct (decide (v / 4194304 = idx)) as [Ei|Hne].
    + by apply (fresh_now s s1 P idx F i n paddr rw pl).
    + unfold pde_of in E, Hno. rewrite (mapped_pde _ _ _ _ _ _ _ _ _ _ _ _ Hwf Hdir Hm) in E;
        [congruence|done| |done]. Z.to_euclidean_division_equations; lia.
  - destruct (Hf E) as [Hl He]. split; [|done]. intros Hl'. by apply Hl, (grows_live s).
Qed.

Lemma unchanged_good s s' pdt P :
  directory s pdt P → grows s s' → (∀ a, live s a → ld (phys s') a = ld (phys s) a) →
  ∀ idx, 0 <= idx < 1024 → good_pde s P idx → good_pde s' P idx.
Proof.
  intros Hdir Hg Hsame idx Hi. apply good_kept; [done|]. apply Hsame. by apply (dir_word_live s pdt).
Qed.

Lemma map_post_turn s s1 s' pdt P r F n paddr vaddr size rw pl total :
  let idx := vaddr / 4194304 in let i := vaddr / 4096 mod 1024 in
  let m := 4096 * Z.of_nat n in
  kernel_wf s → directory s pdt P → tables_good s P vaddr size →
  mapped s s1 P idx F i n paddr rw pl →
  paddr mod 4096 = 0 → vaddr mod 4096 = 0 → 0 <= vaddr → vaddr + size <= 4294967296 →
  0 < m < size → size mod 4096 = 0 → i + Z.of_nat n <= 1024 →
  (room s P vaddr size → i + Z.of_nat n = 1024) →
  map_post s1 s' r P (paddr +ᵤ m) (vaddr + m) (size - m) rw pl (total + m) →
  map_post s s' r P paddr vaddr size rw pl total.
Proof.
  intros idx i m Hwf Hdir Hgood Hm Hpa Hva Hv Hend Hr Hsa Hin Hfull (Hwf' & Hg & Hgd & Hres).
  pose proof (mp_grows _ _ _ _ _ _ _ _ _ _ Hm) as Hg1.
  split_and!; [done|by transitivity s1| |].
  { intros j Hj Hgj. apply Hgd; [done|]. apply (mapped_good s s1 pdt P idx F i n paddr rw pl); try done.
    unfold idx. Z.to_euclidean_division_equations; lia. }
  destruct Hres as [(-> & Hpages)|(-> & Hno)]; [left|right]; split; try lia.
  - intros k Hk. destruct (decide (k < Z.of_nat n)) as [Hkn|Hkn].
    + split.
      * apply (grows_maps_page s1); try done.
        1-4: unfold u32 in *; Z.to_euclidean_division_equations; lia.
        apply (mapped_maps s s1 pdt P vaddr F n); try done; lia.
      * apply (fresh_later s s1 s' pdt P idx F i n paddr rw pl); try done.
        { unfold idx. Z.to_euclidean_division_equations; lia. }
        { Z.to_euclidean_division_equations; lia. }
        intros E. exfalso. pose proof (proj1 (mp_pde _ _ _ _ _ _ _ _ _ _ Hm)) as Hp.
        apply hw_present_code in Hp. unfold pde_of in E.
        replace ((vaddr + 4096 * k) / 4194304) with idx in E; [congruence|].
        unfold idx, i in *. Z.to_euclidean_division_equations; lia.
    + specialize (Hpages (k - Z.of_nat n)).
      replace (vaddr + m + 4096 * (k - Z.of_nat n)) with (vaddr + 4096 * k) in Hpages by lia.
      replace (u32 ((paddr +ᵤ m) + 4096 * (k - Z.of_nat n))) with (u32 (paddr + 4096 * k)) in Hpages
        by (unfold u32, m; Z.to_euclidean_division_equations; lia).
      destruct Hpages as [Hp Hf]; [unfold m in *; Z.to_euclidean_division_equations; lia|].
      split; [done|]. apply (fresh_later s s1 s' pdt P idx F i n paddr rw pl); try done;
        unfold idx; Z.to_euclidean_division_equations; lia.
  - intros Hroom. apply Hno. apply (room_next s s1 pdt P vaddr F n paddr rw pl size); auto.
Qed.

Lemma pdt_map_loop_ok fuel s pdt P paddr vaddr size rw pl total :
  kernel_wf s → directory s pdt P → tables_good s P vaddr size →
  paddr mod 4096 = 0 → vaddr mod 4096 = 0 → size mod 4096 = 0 →
  is_u32 paddr → 0 <= vaddr → 0 <= size < 4096 * Z.of_nat fuel →
  vaddr + size <= 4294967296 → 0 <= total → total + size < 4294967296 →
  ∃ r s', pdt_map_loop fuel pdt paddr vaddr size rw pl total s = Ok (r, s') ∧
    map_post s s' r P paddr vaddr size rw pl total.
Proof.
  revert s paddr vaddr size total.
  induction fuel as [|fuel IH]; intros s paddr vaddr size total Hwf Hdir Hgood Hpa Hva Hsa Hp Hv
    Hfuel Hend Ht Hts; [lia|]. cbn [pdt_map_loop].
  destruct (Z.eqb_spec size 0) as [->|Hsz].
  { eexists _, _. split; [done|]. split_and!; [done|done|done|left]. split; [lia|]. intros k Hk.
    rewrite Z.div_0_l in Hk; lia. }
  set (idx := vaddr / 4194304). set (i := vaddr / 4096 mod 1024).
  assert (Hidx : 0 <= idx < 1024) by (unfold idx; Z.to_euclidean_division_equations; lia).
  destruct (body_ok s pdt P paddr vaddr size rw pl) as (r & s1 & E & Hpost); try done; try lia.
  { apply Hgood. unfold idx. Z.to_euclidean_division_equations; lia. }
  fold idx i in Hpost. rewrite (bind_ok _ _ _ _ _ E).
  assert (Hrt : room s P vaddr size → _)
    by exact (room_turn s s1 pdt P vaddr r paddr rw pl size Hwf Hdir Hpost Hva
      ltac:(lia) ltac:(lia) ltac:(lia)).
  destruct Hpost as [(-> & Hwf1 & Hg1 & _ & Hsame)|(F & n & -> & Hn & Hle & Hin & Hm & _)].
  { eexists _, _. split; [done|]. split_and!; [done|done|by apply (unchanged_good s s1 pdt)|right]. split; [done|].
    intros (? & ? & ? & _)%Hrt. done. }
  pose proof (mp_grows _ _ _ _ _ _ _ _ _ _ Hm) as Hg1. set (m := 4096 * Z.of_nat n) in *.
  rewrite (u32_small (size - m)), (u32_small (total + m)) by lia.
  destruct (decide (m = size)) as [Em|Hlt].
  - destruct fuel as [|fuel]; [unfold m in *; lia|]. cbn [pdt_map_loop].
    replace (size - m) with 0 by lia. simpl.
    eexists _, _. split; [done|]. split_and!; [apply Hm|done| |left].
    { intros j Hj. by apply (mapped_good s s1 pdt P idx F i n paddr rw pl). }
    split; [lia|]. intros k Hk.
    assert (0 <= k < Z.of_nat n) by (unfold m in *; Z.to_euclidean_division_equations; lia).
    split; [apply (mapped_maps s s1 pdt P vaddr F n); try done; unfold m in *; lia|].
    apply (fresh_now _ _ _ _ _ _ _ _ _ _ _ Hm). unfold idx, i in *.
    Z.to_euclidean_division_equations; lia.
  - rewrite (u32_small (vaddr + m)) by lia.
    destruct (IH s1 (paddr +ᵤ m) (vaddr + m) (size - m) (total + m)) as (r & s' & -> & Hpost).
    { apply Hm. } { by apply (grows_directory s). }
    { intros idx' Hi'. replace (vaddr + m + (size - m) - 1) with (vaddr + size - 1) in Hi' by lia.
      assert (idx <= (vaddr + m) / 4194304) by (apply Z.div_le_mono; lia).
      assert ((vaddr + size - 1) / 4194304 < 1024) by (apply Z.div_lt_upper_bound; lia).
      apply (mapped_good s s1 pdt P idx F i n paddr rw pl); try done; [lia|].
      apply Hgood. fold idx. lia. }
    all: try (unfold m, u32 in *; Z.to_euclidean_division_equations; lia).
    eexists _, _. split; [done|].
    apply (map_post_turn s s1 s' pdt P r F n); try done; [unfold m in *; lia|].
    intros Hroom. destruct (Hrt Hroom) as (F' & n' & [= En] & _ & _ & Hor).
    unfold m in *. lia.
Qed.
(** The arguments [pdt_map_memory] is called with: page aligned addresses, a
    range that ends below 4 GB, a directory whose tables it may write. *)
Record map_args s (pdt P paddr vaddr size : Z) : Prop := MapArgs {
  ma_wf : kernel_wf s;
  ma_dir : directory s pdt P;
  ma_tables : tables_good s P vaddr (align_up size 4096);
  ma_paddr : is_u32 paddr ∧ paddr mod 4096 = 0;
  ma_vaddr : 0 <= vaddr ∧ vaddr mod 4096 = 0;
  ma_size : 0 <= size <= 4294963200;
  ma_end : vaddr + align_up size 4096 <= 4294967296
}.

Lemma pdt_map_memory_spec s pdt P paddr vaddr size rw pl :
  map_args s pdt P paddr vaddr size →
  ∃ r s', pdt_map_memory pdt paddr vaddr size rw pl s = Ok (r, s') ∧
    map_post s s' r P paddr vaddr (align_up size 4096) rw pl 0.
Proof.
  intros [Hwf Hdir Hgood [Hp Hpa] [Hv Hva] Hsz Hend]. unfold pdt_map_memory.
  change PT_ENTRY_SIZE with 4096. rewrite align_up_page in * by lia.
  apply pdt_map_loop_ok; try done; try (Z.to_euclidean_division_equations; lia).
Qed.

(** A range inside one table: one turn, whose effect is known to the word. *)
Lemma pdt_map_one_table s pdt P paddr v size rw pl n :
  map_args s pdt P paddr v size → (0 < n)%nat → align_up size 4096 = 4096 * Z.of_nat n →
  v / 4096 mod 1024 + Z.of_nat n <= 1024 → room s P v (align_up size 4096) →
  ∃ F s', pdt_map_memory pdt paddr v size rw pl s = Ok (align_up size 4096, s') ∧
    mapped s s' P (v / 4194304) F (v / 4096 mod 1024) n paddr rw pl.
Proof.
  intros [Hwf Hdir Hgood [Hp Hpa] [Hv Hva] Hsz Hend] Hn E Hin Hroom.
  assert (Hz : 0 < align_up size 4096 <= 4194304) by (pose proof (Z.mod_pos_bound (v / 4096) 1024); lia).
  unfold pdt_map_memory. change PT_ENTRY_SIZE with 4096. cbn [pdt_map_loop].
  set (z := align_up size 4096) in *. clearbody z. destruct (Z.eqb_spec z 0); [lia|].
  destruct (body_ok s pdt P paddr v z rw pl) as (r & s' & Eb & Hpost); try done; try lia.
  { apply Hgood. clear E Hin. Z.to_euclidean_division_equations; lia. }
  { clear Hin. Z.to_euclidean_division_equations; lia. }
  destruct (room_turn s s' pdt P v r paddr rw pl z Hwf Hdir Hpost Hva ltac:(lia) ltac:(lia) Hend Hroom)
    as (F & k & -> & Hm & Hn0 & Hor).
  assert (k = n) as ->.
  { destruct Hor as [?|[Hlt Hbd]]; lia. }
  exists F, s'. split; [|done]. rewrite (bind_ok _ _ _ _ _ Eb), <- E, Z.sub_diag, Z.add_0_l.
  assert (Hk : (z / 4096) <> 0) by (Z.to_euclidean_division_equations; lia).
  destruct (Z.to_nat (z / 4096)) eqn:Ez; [Z.to_euclidean_division_equations; lia|].
  cbn [pdt_map_loop]. change (u32 0 =? 0) with true. cbv iota. by rewrite u32_small by lia.
Qed.

(** A single page. *)
Lemma pdt_map_page s pdt P paddr v size rw pl :
  map_args s pdt P paddr v size → align_up size 4096 = 4096 → room s P v 4096 →
  ∃ F s', pdt_map_memory pdt paddr v size rw pl s = Ok (4096, s') ∧
    mapped s s' P (v / 4194304) F (v / 4096 mod 1024) 1 paddr rw pl.
Proof.
  intros Ha E Hroom. pose proof (Z.mod_pos_bound (v / 4096) 1024 ltac:(lia)).
  pose proof (pdt_map_one_table s pdt P paddr v size rw pl 1 Ha ltac:(lia)) as H1. rewrite E in H1.
  apply H1; done || lia.
Qed.

(** The rights of the page [v]: those of its entry, cut down by those of its table. *)
Lemma maps_page_rights s P v p rw pl o :
  maps_page s P v p rw pl → v mod 4096 = 0 → 0 <= o < 4096 →
  let e := pde_of (phys s) P (v + o) in
  rights (phys s) P (v + o) = (hw_writable e && Z.odd rw, hw_user e && Z.odd pl).
Proof.
  intros [_ _ _ He] Hv Ho. unfold rights. rewrite pde_of_page, pte_addr_page, He by done. unfold pt_entry.
  by destruct (entry_rights 9 rw pl (p / 4096 mod 16 * 16) (p / 65536 mod 65536) eq_refl) as [-> ->].
Qed.

(** What there is between the address [v] of the range and memory, after the call: the
    entry of its table as it was, or, where there was none, one with the rights asked
    for; and what may be done at [v], all that was asked for unless the table that was
    there allows less. *)
Definition entered s s' (P v rw pl : Z) : Prop :=
  let e := pde_of (phys s) P v in
  let e' := pde_of (phys s') P v in
  if IS_ENTRY_PRESENT e
  then e' = e ∧ rights (phys s') P v = (hw_writable e && Z.odd rw, hw_user e && Z.odd pl)
  else e' = pd_entry (hw_base e') PS_4KB rw pl ∧ rights (phys s') P v = (Z.odd rw, Z.odd pl).

Lemma page_entered s s' pdt P v p rw pl o :
  directory s pdt P → grows s s' → is_u32 v → v mod 4096 = 0 → 0 <= o < 4096 →
  maps_page s' P v p rw pl → fresh_table s s' P v rw pl → entered s s' P (v + o) rw pl.
Proof.
  intros Hdir Hg Hv Hva Ho Hm Hf. pose proof (maps_page_rights s' P v p rw pl o Hm Hva Ho) as Hr. cbv zeta in Hr.
  unfold entered. rewrite !pde_of_page, Hr in * by done. destruct (IS_ENTRY_PRESENT _) eqn:Hp.
  - assert (E : pde_of (phys s') P v = pde_of (phys s) P v).
    { apply Hg; [|done]. apply (dir_word_live s pdt); [done|]. Z.to_euclidean_division_equations; lia. }
    by rewrite E.
  - destruct (Hf Hp) as [_ E]. split; [done|]. rewrite E. unfold pd_entry.
    destruct (entry_rights (9 + 128 * (PS_4KB mod 2)) rw pl (hw_base (pde_of (phys s') P v) / 4096 mod 16 * 16)
      (hw_base (pde_of (phys s') P v) / 65536 mod 65536) eq_refl) as [-> ->].
    by rewrite !andb_diag.
Qed.

(** C4: [pdt_map_memory] always ends without a fault. It answers 0 or the
    rounded size, and in the latter case every byte of the range translates to
    the corresponding byte of the physical range, through entries of pages with the
    rights asked for. A table that was missing is entered with these rights too, so
    that they are the rights of the page; where there was a table its entry is not
    touched, and the rights are those asked for that it allows. *)
Theorem pdt_map_memory_maps s pdt P paddr vaddr size rw pl :
  map_args s pdt P paddr vaddr size →
  ∃ r s', pdt_map_memory pdt paddr vaddr size rw pl s = Ok (r, s') ∧ kernel_wf s' ∧
    (r = 0 ∨ r = align_up size 4096 ∧
     ∀ o, 0 <= o < align_up size 4096 →
       walk (phys s') P (vaddr + o) = Some (u32 (paddr + o)) ∧
       ld (phys s') (pte_addr (pde_of (phys s') P (vaddr + o)) (vaddr + o))
       = pt_entry (u32 (paddr + o)) rw pl ∧
       entered s s' P (vaddr + o) rw pl).
Proof.
  intros Ha. destruct (pdt_map_memory_spec s pdt P paddr vaddr size rw pl Ha)
    as (r & s' & E & Hwf' & Hg & _ & Hres).
  exists r, s'. split_and!; [done|done|].
  destruct Hres as [(-> & Hpages)|(-> & _)]; [right|by left]. split; [done|].
  destruct Ha as [_ Hdir _ [Hp Hpa] [Hv Hva] Hsz Hend]. rewrite align_up_page in * by lia.
  intros o Ho.
  assert (Hk : 0 <= o / 4096 < (size + 4095) / 4096 * 4096 / 4096)
    by (Z.to_euclidean_division_equations; lia).
  destruct (Hpages _ Hk) as [Hpage Hfresh]. clear Hpages. set (v := vaddr + 4096 * (o / 4096)) in *.
  set (q := u32 (paddr + 4096 * (o / 4096))) in *.
  assert (Hva' : v mod 4096 = 0) by (unfold v; Z.to_euclidean_division_equations; lia).
  assert (Hqa : q mod 4096 = 0) by (unfold q, u32; Z.to_euclidean_division_equations; lia).
  assert (Hor : 0 <= o mod 4096 < 4096) by (apply Z.mod_pos_bound; lia).
  replace (vaddr + o) with (v + o mod 4096) by (unfold v; Z.to_euclidean_division_equations; lia).
  assert (Eq : u32 (paddr + o) = q + o mod 4096)
    by (unfold q, u32; Z.to_euclidean_division_equations; lia).
  split; [|split].
  - rewrite Eq. apply (maps_page_walk s' P v q rw pl); try done. apply u32_range.
  - rewrite pde_of_page, pte_addr_page, Eq by done. rewrite (mpg_entry _ _ _ _ _ _ Hpage).
    unfold pt_entry. f_equal; Z.to_euclidean_division_equations; lia.
  - apply (page_entered s s' pdt P v q rw pl); try done. unfold v. Z.to_euclidean_division_equations; lia.
Qed.

(** C5: whatever [pdt_map_memory] answers, every translation that some
    directory made through words in use is still there, the temporary window is
    restored and no frame is freed. *)
Theorem pdt_map_memory_preserves s pdt P paddr vaddr size rw pl r s' P' v p :
  map_args s pdt P paddr vaddr size →
  pdt_map_memory pdt paddr vaddr size rw pl s = Ok (r, s') →
  is_u32 v → walk_live s P' v → walk (phys s) P' v = Some p →
  walk (phys s') P' v = Some p ∧ tmp_entry s' = tmp_entry s ∧
  fr_free_set (pfa s') ⊆ fr_free_set (pfa s).
Proof.
  intros Ha E Hv Hlive Hw. destruct (pdt_map_memory_spec s pdt P paddr vaddr size rw pl Ha)
    as (r' & s2 & E' & _ & Hg & _). rewrite E in E'. injection E' as <- <-.
  split_and!; [by apply (grows_walk s)|apply Hg..].
Qed.

(** C6: [pdt_map_memory] succeeds on a range with no page present, other than
    the window's page, if a frame is free for each table it misses. *)
Theorem pdt_map_memory_succeeds s pdt P paddr vaddr size rw pl :
  map_args s pdt P paddr vaddr size → room s P vaddr (align_up size 4096) →
  ∃ s', pdt_map_memory pdt paddr vaddr size rw pl s = Ok (align_up size 4096, s').
Proof.
  intros Ha Hroom. destruct (pdt_map_memory_spec s pdt P paddr vaddr size rw pl Ha)
    as (r & s' & E & _ & _ & _ & [(-> & _)|(_ & Hno)]); [|done].
  by exists s'.
Qed.
End map.

(** ** At a concrete machine: two pages at 0xD0000000, where a table is missing *)

Lemma demo_map_args : map_args demo_machine 0x101000 0x101000 0x400000 0xD0000000 0x1800.
Proof.
  split; try (apply demo_wf || apply demo_directory || done).
  intros idx Hi. change (832 <= idx <= 832) in Hi. assert (idx = 832) as -> by lia. by intros ?.
Qed.

Lemma demo_room : room demo_machine 0x101000 0xD0000000 (align_up 0x1800 4096).
Proof.
  change (align_up 0x1800 4096) with 0x2000. split.
  - intros idx idx' Hi Hi'. change (832 <= idx <= 832) in Hi. change (832 <= idx' <= 832) in Hi'. lia.
  - intros v Hv Hr. change KERNEL_TMP_VADDR with 3225415680. split; [lia|].
    unfold pde_of. change (active demo_machine) with 0x101000. intros Hp. exfalso. revert Hp.
    replace (v / 4194304) with 832 by (Z.to_euclidean_division_equations; lia). done.
  - vm_compute. lia.
Qed.

Lemma pdt_map_memory_maps_witness :
  ∃ s', pdt_map_memory 0x101000 0x400000 0xD0000000 0x1800 1 0 demo_machine = Ok (0x2000, s') ∧
    walk (phys s') 0x101000 0xD0001234 = Some 0x401234 ∧ rights (phys s') 0x101000 0xD0001234 = (true, false).
Proof.
  destruct (pdt_map_memory_maps demo_machine 0x101000 0x101000 0x400000 0xD0000000 0x1800 1 0
    demo_map_args) as (r & s' & E & _ & Hor).
  exists s'. pose proof (result_ok _ _ _ 0x2000 E ltac:(vm_compute; reflexivity)) as ->.
  split; [exact E|]. destruct Hor as [Hz|[_ Hw]]; [discriminate Hz|].
  destruct (Hw 0x1234 ltac:(vm_compute; split; congruence)) as (Hwalk & _ & He).
  split; [exact Hwalk|]. exact (proj2 He).
Defined.

Lemma pdt_map_memory_preserves_witness :
  ∃ s', final (pdt_map_memory 0x101000 0x400000 0xD0000000 0x1800 1 0 demo_machine) = Some s' ∧
    walk (phys demo_machine) 0x101000 0xC0000010 = Some 0x10 ∧
    walk (phys s') 0x101000 0xC0000010 = Some 0x10.
Proof.
  destruct (pdt_map_memory_spec demo_machine 0x101000 0x101000 0x400000 0xD0000000 0x1800 1 0
    demo_map_args) as (r & s' & E & _).
  exists s'. split; [by rewrite E|]. split; [reflexivity|].
  apply (pdt_map_memory_preserves demo_machine 0x101000 0x101000 0x400000 0xD0000000 0x1800 1 0
    r s' _ _ _ demo_map_args E); [lia| |reflexivity].
  split_and!; [by apply demo_live|done|]. intros _ _. by apply demo_live.
Defined.

Lemma pdt_map_memory_succeeds_witness :
  ∃ s', pdt_map_memory 0x101000 0x400000 0xD0000000 0x1800 1 0 demo_machine = Ok (0x2000, s').
Proof.
  exact (pdt_map_memory_succeeds demo_machine 0x101000 0x101000 0x400000 0xD0000000 0x1800 1 0
    demo_map_args demo_room).
Defined.
