(* ===== verification/PageFind.v ===== *)
(** * PageFind: the search for free virtual addresses of the kernel

    [pt_kernel_find_next_vaddr] looks for the first run of absent entries in one
    table, [pdt_kernel_find_next_vaddr] goes through the kernel's quarter of the
    directory. The address found is one [pdt_map_kernel_memory] can use, and the
    search leaves memory as it was. *)

From S2P Require Import Prelude CArith Interfaces Frames Mmu Paging PagingFacts PageMap PdtMap DemoMachine.

Section find.
Context {St : Type} `{!FrameOps St, !FrameLaws St}.
Implicit Types s : paging St.

(** ** States that differ in nothing a later step can see *)

Record same s s' : Prop := Same {
  sm_cr3 : cr3 s' = cr3 s;
  sm_pdt : kernel_pdt s' = kernel_pdt s;
  sm_pt : kernel_pt s' = kernel_pt s;
  sm_pfa : pfa s' = pfa s;
  sm_ld a : ld (phys s') a = ld (phys s) a
}.

#[global] Instance same_equiv : Equivalence same.
Proof.
  split.
  - by split.
  - intros ? ? []. by split.
  - intros ? ? ? [] []. split; intros; etrans; eauto.
Qed.

#[global] Instance kernel_wf_same : Proper (same ==> iff) kernel_wf.
Proof.
  assert (∀ s s', same s s' → kernel_wf s → kernel_wf s') as Hone.
  { intros s s' [Ec Ed Ep Ef Em] H. apply (kernel_wf_mem s); rewrite ?Ef; try done; try apply H.
    intros a. rewrite Em. apply H. }
  intros s s' Hs. split; eauto. apply Hone. by symmetry.
Qed.

Lemma same_grows s s' : same s s' → grows s s'.
Proof.
  intros [Ec Ed Ep Ef Em]. split; try done; rewrite ?Ef; try done.
  unfold tmp_entry, tmp_word. by rewrite Ep, Em.
Qed.

Lemma same_active s s' : same s s' → active s' = active s.
Proof. intros [Ec _ _ _ _]. unfold active. by rewrite Ec. Qed.

Lemma same_good s s' P idx : same s s' → good_pde s P idx → good_pde s' P idx.
Proof.
  intros Hs Hg Hp. pose proof (same_active _ _ Hs) as Ea. destruct Hs as [Ec Ed Ep Ef Em].
  unfold good_pde, live in *. rewrite !Em in *. destruct (Hg Hp) as (?&?&?&[]&?).
  rewrite Ef. split_and!; try done. split; rewrite ?Ea, ?Ep; done.
Qed.

(** A turn of mapping, told from a state with the same tables. *)
Lemma mapped_same s t s' P idx F i n paddr rw pl :
  same s t → mapped t s' P idx F i n paddr rw pl → mapped s s' P idx F i n paddr rw pl.
Proof.
  intros Hs [Hwf Hg Hgd Hp Hin Hfr Hf Ho Htb]. pose proof Hs as [Ec Ed Ep Ef Em].
  split; try done.
  - etrans; [by apply same_grows|done].
  - by rewrite Ef in Hfr.
  - intros Hno. rewrite <- Em in Hno. unfold live. rewrite <- Ef. by apply Hf.
  - intros a Ha. rewrite <- Em. apply Ho. unfold live. by rewrite Ef.
  - by rewrite <- Em.
Qed.

(** Opening the window and closing it again. *)
Lemma same_window s w : same s (set_window (tmp_entry s) (set_window w s)).
Proof.
  split; try done. intros a. simpl. change (tmp_word (set_window w s)) with (tmp_word s).
  rewrite !ld_insert. by case_decide as E; [rewrite <- E|].
Qed.

(** ** The kernel's directory *)

(** The kernel's directory maps the first 4 MB on themselves and holds the
    kernel's first table at index 768; the other entries of its last quarter are
    absent or name tables. *)
Record kernel_tables s : Prop := KernelTables {
  kt_distinct : kernel_pdt s ≠ kernel_pt s;
  kt_low : hw_present (ld (phys s) (kernel_pdt s)) = true ∧
           hw_large (ld (phys s) (kernel_pdt s)) = true ∧
           hw_large_base (ld (phys s) (kernel_pdt s)) = 0;
  kt_first : entry_ok (ld (phys s) (kernel_pdt s + 4 * 768)) (kernel_pt s);
  kt_good idx : 768 <= idx < 1024 → good_pde s (kernel_pdt s) idx
}.

Lemma same_kernel_tables s s' : same s s' → kernel_tables s → kernel_tables s'.
Proof.
  intros Hs [Hd Hl Hf Hg]. pose proof Hs as [Ec Ed Ep Ef Em]. split; rewrite ?Ed, ?Ep, ?Em; try done.
  intros idx Hi. by apply (same_good s), Hg.
Qed.

Lemma kernel_directory s :
  kernel_wf s → kernel_tables s → directory s (kernel_pdt s) (kernel_pdt s).
Proof.
  intros Hwf Hkt. destruct (kw_pdt _ Hwf) as (Hal & H0 & H4).
  destruct (kw_low _ Hwf) as (_ & Hl & _).
  split; [lia|apply walk_low; [done|lia]| |done|apply Hwf|apply Hkt].
  unfold pde_of. replace (kernel_pdt s / 4194304) with 0 by (Z.to_euclidean_division_equations; lia).
  rewrite Z.mul_0_r, Z.add_0_r, Hl. done.
Qed.

Lemma kernel_pde_present s idx :
  kernel_wf s → kernel_tables s → 0 <= idx < 1024 →
  is_entry_present (kernel_pdt s) idx s
  = Ok (IS_ENTRY_PRESENT (ld (phys s) (kernel_pdt s + 4 * idx)), s).
Proof.
  intros Hwf Hkt Hi. destruct (dir_word s (phys s) _ _ idx (kernel_directory s Hwf Hkt)) as [Hal Hw];
    [done..|]. by apply is_entry_present_ok.
Qed.

(** ** One table *)

(** Entry [j] of the table [F] may be used for directory index [idx]. *)
Definition vacant s (idx F j : Z) : Prop :=
  IS_ENTRY_PRESENT (ld (phys s) (F + 4 * j)) = false ∧ ¬ (idx = 768 ∧ j = 1023).

(** No run of [num] vacant entries starts in [lo, hi). *)
Definition no_run s idx F num lo hi : Prop :=
  ∀ k, lo <= k < hi → k + num <= 1024 → ∃ j, k <= j < k + num ∧ ¬ vacant s idx F j.

(** The address [find_in_pt] answers: the first run, or 0. *)
Definition found s idx F num lo (v : Z) : Prop :=
  (∃ org, v = idx * 4194304 + org * 4096 ∧ lo <= org ∧ org + num <= 1024 ∧
     (∀ j, org <= j < org + num → vacant s idx F j) ∧ no_run s idx F num lo org) ∨
  (v = 0 ∧ no_run s idx F num lo 1024).

Lemma no_run_blocked s idx F num i lo hi :
  ¬ vacant s idx F i → i < lo + num → no_run s idx F num (i + 1) hi → no_run s idx F num lo hi.
Proof.
  intros Hb Hlo Hrest k Hk Hn. destruct (decide (k <= i)); [|apply Hrest; lia].
  exists i. split; [lia|done].
Qed.

Lemma found_blocked s idx F num i lo v :
  ¬ vacant s idx F i → lo <= i → i < lo + num →
  found s idx F num (i + 1) v → found s idx F num lo v.
Proof.
  intros Hb Hle Hlo [(org & -> & ? & ? & Hv & Hno)|(-> & Hno)]; [left|right].
  - exists org. split_and!; try done; [lia|]. by apply (no_run_blocked _ _ _ _ i).
  - split; [done|]. by apply (no_run_blocked _ _ _ _ i).
Qed.
Lemma virtual_bits idx org :
  0 <= idx < 1024 → 0 <= org < 1024 →
  Z.lor (PDT_IDX_TO_VIRTUAL idx) (PT_IDX_TO_VIRTUAL org) = idx * 4194304 + org * 4096.
Proof.
  intros Hi Ho. unfold PDT_IDX_TO_VIRTUAL, PT_IDX_TO_VIRTUAL.
  rewrite !u32_small by (rewrite Z.shiftl_mul_pow2 by lia; lia).
  rewrite (Z.shiftl_mul_pow2 org 12) by lia. rewrite lor_shiftl_add by lia. lia.
Qed.

(** The loop, with a run of [nf] vacant entries behind it. *)
Lemma find_in_pt_ok n s idx F num i nf org :
  kernel_wf s → window s F → 0 <= idx < 1024 → 1 <= num <= 1024 →
  0 <= i → i + Z.of_nat n = 1024 → 0 <= nf < num → nf <= i →
  (0 < nf → org = i - nf) → (∀ j, i - nf <= j < i → vacant s idx F j) →
  ∃ v, find_in_pt idx KERNEL_TMP_VADDR num (seqZ i (Z.of_nat n)) nf org s = Ok (v, s) ∧
    found s idx F num (i - nf) v.
Proof.
  intros Hwf Hwin Hidx Hnum. revert i nf org.
  induction n as [|n IH]; intros i nf org Hi Hin Hnf Hnfi Horg Hrun.
  { eexists. split; [done|]. right. split; [done|]. intros k Hk Hn. lia. }
  rewrite seqZ_step by lia. replace (Z.of_nat (S n) - 1) with (Z.of_nat n) by lia. simpl find_in_pt.
  rewrite (bind_ok _ _ _ _ _ (window_entry_present s F i Hwf Hwin ltac:(lia))).
  change KERNEL_PT_PDT_IDX with 768. change KERNEL_TMP_PT_IDX with 1023.
  destruct (IS_ENTRY_PRESENT _ || _) eqn:Hb.
  - assert (Hnv : ¬ vacant s idx F i).
    { intros [Hp Ht]. rewrite Hp in Hb. simpl in Hb. apply Ht. lia. }
    destruct (IH (i + 1) 0 org) as (v & -> & Hv); try lia.
    exists v. split; [done|]. apply (found_blocked _ _ _ _ i); try done; try lia.
    by rewrite Z.sub_0_r in Hv.
  - apply orb_false_elim in Hb as [Hp Ht].
    assert (Hvi : vacant s idx F i) by (split; [done|lia]).
    assert (Horg' : (if nf =? 0 then i else org) = i - nf).
    { destruct (Z.eqb_spec nf 0) as [->|]; lia. }
    rewrite Horg', u32_small by lia. destruct (Z.eqb_spec (nf + 1) num) as [E|E].
    + eexists. split; [done|]. left. exists (i - nf). rewrite virtual_bits by lia.
      split_and!; [done|lia..| |intros k; lia].
      intros j Hj. destruct (decide (j = i)) as [->|]; [done|]. apply Hrun. lia.
    + destruct (IH (i + 1) (nf + 1) (i - nf)) as (v & -> & Hv); try lia.
      { intros j Hj. destruct (decide (j = i)) as [->|]; [done|]. apply Hrun. lia. }
      exists v. split; [done|]. by replace (i + 1 - (nf + 1)) with (i - nf) in Hv by lia.
Qed.

Lemma pt_kernel_find_next_vaddr_ok s idx F size :
  kernel_wf s → window s F → 0 <= idx < 1024 → 0 < size <= 4194304 →
  ∃ v, pt_kernel_find_next_vaddr idx KERNEL_TMP_VADDR size s = Ok (v, s) ∧
    found s idx F (align_up size 4096 / 4096) 0 v.
Proof.
  intros Hwf Hwin Hidx Hsz. unfold pt_kernel_find_next_vaddr, PT_ENTRY_SIZE.
  apply (find_in_pt_ok 1024 s idx F _ 0 0 0); try done; try lia;
    rewrite align_up_page by lia; Z.to_euclidean_division_equations; lia.
Qed.

(** The search does not see that the window is open. *)
Lemma vacant_window s idx F w j :
  kernel_wf s → table_frame s idx F → 0 <= j < 1024 →
  vacant (set_window w s) idx F j ↔ vacant s idx F j.
Proof.
  intros Hwf HF Hj. unfold vacant. simpl. rewrite ld_insert.
  case_decide as E; [|done]. assert (idx = 768 ∧ j = 1023); [|tauto].
  destruct (decide (idx = 768 ∧ j = 1023)) as [|Hne]; [done|exfalso].
  apply (tmp_word_ne s idx F j); try done. lia.
Qed.

Lemma no_run_window s idx F w num hi :
  kernel_wf s → table_frame s idx F →
  no_run (set_window w s) idx F num 0 hi → no_run s idx F num 0 hi.
Proof.
  intros Hwf HF Hn k Hk Hkn. destruct (Hn k Hk Hkn) as (j & Hj & Hv). exists j. split; [done|].
  rewrite vacant_window in Hv by (done || lia). done.
Qed.

Lemma found_window s idx F w num v :
  kernel_wf s → table_frame s idx F →
  found (set_window w s) idx F num 0 v → found s idx F num 0 v.
Proof.
  intros Hwf HF [(org & -> & ? & ? & Hv & Hno)|(-> & Hno)]; [left|right].
  - exists org. split_and!; try done; [|by apply (no_run_window s _ _ w)].
    intros j Hj. rewrite <- (vacant_window s idx F w) by (done || lia). by apply Hv.
  - split; [done|]. by apply (no_run_window s _ _ w).
Qed.

(** ** The directory *)

(** The answer for the entries of the directory from [lo]: an address under the
    first entry that is absent or whose table has a run. *)
Definition pdt_found s num lo (v : Z) : Prop :=
  let e idx := ld (phys s) (kernel_pdt s + 4 * idx) in
  let full idx := IS_ENTRY_PRESENT (e idx) = true ∧ no_run s idx (hw_base (e idx)) num 0 1024 in
  (v = 0 ∧ ∀ idx, lo <= idx < 1024 → full idx) ∨
  ∃ idx, lo <= idx < 1024 ∧ (∀ idx', lo <= idx' < idx → full idx') ∧
    ((IS_ENTRY_PRESENT (e idx) = false ∧ v = idx * 4194304) ∨
     (IS_ENTRY_PRESENT (e idx) = true ∧ v ≠ 0 ∧ found s idx (hw_base (e idx)) num 0 v)).

Lemma same_no_run s s' idx F num lo hi :
  same s s' → no_run s' idx F num lo hi → no_run s idx F num lo hi.
Proof.
  intros [_ _ _ _ Em] Hn k Hk Hkn. destruct (Hn k Hk Hkn) as (j & Hj & Hv).
  exists j. split; [done|]. unfold vacant in *. by rewrite Em in Hv.
Qed.

Lemma same_found s s' idx F num lo v :
  same s s' → found s' idx F num lo v → found s idx F num lo v.
Proof.
  intros Hs [(org & -> & ? & ? & Hv & Hno)|(-> & Hno)]; [left|right].
  - exists org. split_and!; try done; [|by apply (same_no_run s s')].
    intros j Hj. specialize (Hv j Hj). destruct Hs as [_ _ _ _ Em].
    unfold vacant in *. by rewrite Em in Hv.
  - split; [done|]. by apply (same_no_run s s').
Qed.

Lemma same_pdt_found s s' num lo v :
  same s s' → pdt_found s' num lo v → pdt_found s num lo v.
Proof.
  intros Hs. pose proof Hs as [_ Ed _ _ Em]. unfold pdt_found. rewrite Ed.
  intros [(-> & Hf)|(idx & Hi & Hf & Hor)]; [left|right; exists idx].
  - split; [done|]. intros idx Hi. destruct (Hf idx Hi) as [Hp Hn]. rewrite Em in Hp, Hn.
    split; [done|]. by apply (same_no_run s s').
  - rewrite Em in Hor. split_and!; try done; try lia.
    + intros idx' Hi'. destruct (Hf idx' Hi') as [Hp Hn]. rewrite Em in Hp, Hn.
      split; [done|]. by apply (same_no_run s s').
    + destruct Hor as [?|(? & ? & ?)]; [by left|right]. split_and!; try done.
      by apply (same_found s s').
Qed.

(** One present entry: its table searched through the window, which is put back. *)
Lemma find_turn s idx num size :
  kernel_wf s → kernel_tables s → 768 <= idx < 1024 → 0 < size <= 4194304 →
  num = align_up size 4096 / 4096 →
  IS_ENTRY_PRESENT (ld (phys s) (kernel_pdt s + 4 * idx)) = true →
  ∃ v s', (tmp_entry ← kernel_get_temporary_entry;
           pt_paddr ← get_pt_paddr (kernel_pdt s) idx;
           pt_vaddr ← kernel_map_temporary_memory pt_paddr;
           vaddr ← pt_kernel_find_next_vaddr idx pt_vaddr size;
           kernel_set_temporary_entry tmp_entry ≫= λ _, mret vaddr) s = Ok (v, s') ∧
    same s s' ∧ found s idx (hw_base (ld (phys s) (kernel_pdt s + 4 * idx))) num 0 v.
Proof.
  intros Hwf Hkt Hidx Hsz Hnum Hp.
  destruct (kt_good _ Hkt idx Hidx Hp) as (_ & _ & _ & Htf & _).
  pose proof Htf as [HFa HFu HFD HFk]. set (F := hw_base _) in *.
  destruct (dir_word s (phys s) _ _ idx (kernel_directory s Hwf Hkt)) as [Hal Hw]; [done|lia|].
  rewrite (bind_ok _ _ _ _ _ (get_temporary_ok s Hwf)).
  rewrite (bind_ok _ _ _ _ _ (get_pt_paddr_ok s _ _ _ Hwf Hal Hw)). fold F.
  rewrite (bind_ok _ _ _ _ _ (map_temporary_ok s F Hwf)).
  set (s1 := set_window (pt_entry F 1 0) s).
  assert (Hwf1 : kernel_wf s1) by (apply kernel_wf_set_window; [done|apply pt_entry_u32]).
  destruct (pt_kernel_find_next_vaddr_ok s1 idx F size) as (v & E & Hf); try done; try lia.
  { by apply window_set_window. }
  rewrite (bind_ok _ _ _ _ _ E), (bind_ok _ _ _ _ _ (set_temporary_ok s1 _ Hwf1)).
  eexists _, _. split; [done|]. split; [apply same_window|]. subst num.
  by apply (found_window s idx F (pt_entry F 1 0)).
Qed.
Lemma find_in_pdt_ok n s lo num size :
  kernel_wf s → kernel_tables s → 768 <= lo → lo + Z.of_nat n = 1024 → 0 < size <= 4194304 →
  num = align_up size 4096 / 4096 →
  ∃ v s', find_in_pdt size (seqZ lo (Z.of_nat n)) s = Ok (v, s') ∧ same s s' ∧
    pdt_found s num lo v.
Proof.
  intros Hwf Hkt Hlo Hn Hsz Hnum. revert s lo Hwf Hkt Hlo Hn.
  induction n as [|n IH]; intros s lo Hwf Hkt Hlo Hn.
  { exists 0, s. split_and!; [done..|]. left. split; [done|]. intros. lia. }
  rewrite seqZ_step by lia. replace (Z.of_nat (S n) - 1) with (Z.of_nat n) by lia.
  cbn [find_in_pdt]. rewrite (bind_ok _ _ s (kernel_pdt s) s) by done.
  rewrite (bind_ok _ _ _ _ _ (kernel_pde_present s lo Hwf Hkt ltac:(lia))).
  destruct (IS_ENTRY_PRESENT _) eqn:Hp.
  - destruct (find_turn s lo num size) as (v & s1 & E & Hs & Hf); try done; [lia|].
    rewrite (bind_ok _ _ _ _ _ E). destruct (Z.eqb_spec v 0) as [->|Hv].
    + destruct (IH s1 (lo + 1)) as (v & s2 & -> & Hs2 & Hv); try lia.
      { by rewrite <- Hs. } { by apply (same_kernel_tables s). }
      exists v, s2. split_and!; [done|by etrans|]. apply (same_pdt_found s) in Hv; [|done].
      destruct Hf as [(org & E0 & ? & _)|(_ & Hno)]; [lia|].
      destruct Hv as [(-> & Hfull)|(idx & Hi & Hfull & Hor)]; [left|right; exists idx].
      * split; [done|]. intros idx Hi. destruct (decide (idx = lo)) as [->|]; [done|apply Hfull; lia].
      * split_and!; [lia..| |done]. intros idx' Hi'.
        destruct (decide (idx' = lo)) as [->|]; [done|apply Hfull; lia].
    + exists v, s1. split_and!; [done..|]. right. exists lo. split_and!; [lia..| |by right].
      intros; lia.
  - rewrite (bind_ok _ _ s (PDT_IDX_TO_VIRTUAL lo) s) by done.
    assert (Ev : PDT_IDX_TO_VIRTUAL lo = lo * 4194304).
    { unfold PDT_IDX_TO_VIRTUAL. rewrite u32_small; rewrite Z.shiftl_mul_pow2 by lia; lia. }
    rewrite Ev. destruct (Z.eqb_spec (lo * 4194304) 0); [lia|].
    exists (lo * 4194304), s. split_and!; [done..|]. right. exists lo.
    split_and!; [lia..| |by left]. intros; lia.
Qed.

Lemma pdt_kernel_find_next_vaddr_ok s size :
  kernel_wf s → kernel_tables s → 0 < size <= 4194304 →
  ∃ v s', pdt_kernel_find_next_vaddr size s = Ok (v, s') ∧ same s s' ∧
    pdt_found s (align_up size 4096 / 4096) 768 v.
Proof. intros. apply (find_in_pdt_ok 256 s 768); done. Qed.

(** ** What the answer is good for *)

(** An address found and the vacant entries behind it. *)
Lemma pdt_found_shape s size v :
  kernel_wf s → kernel_tables s → 0 < size <= 4194304 →
  pdt_found s (align_up size 4096 / 4096) 768 v → v ≠ 0 →
  ∃ idx org num, align_up size 4096 = num * 4096 ∧ 1 <= num <= 1024 ∧ 768 <= idx < 1024 ∧
    v = idx * 4194304 + org * 4096 ∧ 0 <= org ∧ org + num <= 1024 ∧
    (IS_ENTRY_PRESENT (ld (phys s) (kernel_pdt s + 4 * idx)) = true →
     ∀ j, org <= j < org + num → vacant s idx (hw_base (ld (phys s) (kernel_pdt s + 4 * idx))) j).
Proof.
  intros Hwf Hkt Hsz [(-> & _)|(idx & Hidx & _ & Hor)] Hv; [done|].
  assert (∃ num, align_up size 4096 / 4096 = num ∧ align_up size 4096 = num * 4096 ∧
    1 <= num <= 1024) as (num & En & Es & Hnum).
  { eexists. split; [done|]. rewrite align_up_page by lia. Z.to_euclidean_division_equations; lia. }
  rewrite En in Hor. exists idx. destruct Hor as [(Hp & ->)|(Hp & _ & [(org & -> & ? & ? & ? & _)|(-> & _)])].
  - exists 0, num. split_and!; try lia. by rewrite Hp.
  - by exists org, num.
  - done.
Qed.

(** No page of the range found is present or is the window's. *)
Lemma pdt_found_clear s size v v' :
  kernel_wf s → kernel_tables s → 0 < size <= 4194304 →
  pdt_found s (align_up size 4096 / 4096) 768 v → v ≠ 0 →
  v' mod 4096 = 0 → v <= v' < v + align_up size 4096 →
  v' ≠ KERNEL_TMP_VADDR ∧
  (IS_ENTRY_PRESENT (pde_of (phys s) (kernel_pdt s) v') = true →
   IS_ENTRY_PRESENT (ld (phys s) (pte_addr (pde_of (phys s) (kernel_pdt s) v') v')) = false).
Proof.
  intros Hwf Hkt Hsz Hf Hv Hva Hr.
  destruct (pdt_found_shape s size v Hwf Hkt Hsz Hf Hv)
    as (idx & org & num & Es & Hnum & Hidx & -> & Ho & Hon & Hvac). rewrite Es in Hr.
  assert (E : v' / 4194304 = idx) by (Z.to_euclidean_division_equations; lia).
  set (j := v' / 4096 mod 1024).
  assert (Hj : org <= j < org + num) by (unfold j; Z.to_euclidean_division_equations; lia).
  unfold pde_of, pte_addr. rewrite E. fold j. split; [|intros Hp; by apply Hvac].
  intros ->. change (KERNEL_TMP_VADDR / 4194304) with 768 in E. subst idx.
  destruct (Hvac (eo_config _ _ (kt_first _ Hkt)) j Hj) as [_ Hn]. by apply Hn.
Qed.

(** An address found is one [pdt_map_memory] has room at, if a frame is left
    for the table. *)
Lemma pdt_found_room s size v :
  kernel_wf s → kernel_tables s → 0 < size <= 4194304 →
  pdt_found s (align_up size 4096 / 4096) 768 v → v ≠ 0 →
  v mod 4096 = 0 ∧ 0xC0000000 <= v ∧ v + align_up size 4096 <= 4294967296 ∧
  tables_good s (kernel_pdt s) v (align_up size 4096) ∧
  (fr_free_set (pfa s) ≠ ∅ ∨ IS_ENTRY_PRESENT (pde_of (phys s) (kernel_pdt s) v) = true →
   room s (kernel_pdt s) v (align_up size 4096)).
Proof.
  intros Hwf Hkt Hsz Hf Hv. pose proof (pdt_found_clear s size v) as Hclear.
  destruct (pdt_found_shape s size v Hwf Hkt Hsz Hf Hv)
    as (idx & org & num & Es & Hnum & Hidx & Ev & Ho & Hon & _). rewrite Es in *.
  assert (Hspan : ∀ i, v / 4194304 <= i <= (v + num * 4096 - 1) / 4194304 → i = idx).
  { intros i. subst v. Z.to_euclidean_division_equations; lia. }
  split_and!; [subst v; Z.to_euclidean_division_equations; lia|lia|lia| |].
  { intros i ->%Hspan. apply (kt_good _ Hkt). lia. }
  intros Hfree. split.
  - intros i i' ->%Hspan ->%Hspan. done.
  - intros v' Hv' Hr. by apply Hclear.
  - unfold spans. replace (_ - _ + 1) with 1 by (subst v; Z.to_euclidean_division_equations; lia).
    rewrite seqZ_step, missing_cons, seqZ_nil by lia. unfold missing. rewrite filter_nil. simpl.
    destruct Hfree as [Hfree|Hp].
    + assert (base.size (fr_free_set (pfa s)) ≠ 0%nat) by (by intros ?%size_empty_inv%leibniz_equiv).
      case_match; lia.
    + unfold pde_of in Hp. rewrite Hp. lia.
Qed.

(** ** Properties *)

(** C7: for a size of at most 4 MB, [pdt_kernel_find_next_vaddr] always ends,
    leaves memory as it was, and answers the first address of the kernel's last
    gigabyte with that many bytes of absent pages in one table (the window's
    page is never among them), or 0 when every table is too full. *)
Theorem pdt_kernel_find_next_vaddr_first_fit s size :
  kernel_wf s → kernel_tables s → 0 < size <= 4194304 →
  ∃ v s', pdt_kernel_find_next_vaddr size s = Ok (v, s') ∧ same s s' ∧
    pdt_found s (align_up size 4096 / 4096) 768 v ∧
    (v ≠ 0 → v mod 4096 = 0 ∧ 0xC0000000 <= v ∧ v + align_up size 4096 <= 4294967296).
Proof.
  intros Hwf Hkt Hsz. destruct (pdt_kernel_find_next_vaddr_ok s size Hwf Hkt Hsz)
    as (v & s' & E & Hs & Hf).
  exists v, s'. split_and!; try done. intros Hv.
  by destruct (pdt_found_room s size v Hwf Hkt Hsz Hf Hv) as (?&?&?&_).
Qed.

(** The arguments and the room of a mapping at an address just found. *)
Lemma found_map_args s s' size v paddr :
  kernel_wf s → kernel_tables s → same s s' → 0 < size <= 4194304 →
  pdt_found s (align_up size 4096 / 4096) 768 v → v ≠ 0 →
  is_u32 paddr → paddr mod 4096 = 0 →
  map_args s' (kernel_pdt s') (kernel_pdt s') paddr v size ∧
  (fr_free_set (pfa s') ≠ ∅ ∨ IS_ENTRY_PRESENT (pde_of (phys s') (kernel_pdt s') v) = true →
   room s' (kernel_pdt s') v (align_up size 4096)).
Proof.
  intros Hwf Hkt Hs Hsz Hf Hv Hp Hpa.
  assert (Hwf' : kernel_wf s') by (by rewrite <- Hs).
  pose proof (same_kernel_tables _ _ Hs Hkt) as Hkt'.
  apply (same_pdt_found s' s) in Hf; [|by symmetry].
  destruct (pdt_found_room s' size v Hwf' Hkt' Hsz Hf Hv) as (?&?&?&?&?).
  split; [|done]. split; try done; try lia. by apply kernel_directory.
Qed.

(** An address found can be used: if a frame is left for a table, mapping
    the kernel's memory there succeeds at once. *)
Theorem find_then_map_succeeds s size v s' paddr rw pl :
  kernel_wf s → kernel_tables s → 0 < size <= 4194304 →
  pdt_kernel_find_next_vaddr size s = Ok (v, s') → v ≠ 0 →
  fr_free_set (pfa s) ≠ ∅ → is_u32 paddr → paddr mod 4096 = 0 →
  ∃ s'', pdt_map_kernel_memory paddr v size rw pl s' = Ok (align_up size 4096, s'').
Proof.
  intros Hwf Hkt Hsz E Hv Hfree Hp Hpa.
  destruct (pdt_kernel_find_next_vaddr_ok s size Hwf Hkt Hsz) as (v2 & s2 & E2 & Hs & Hf).
  rewrite E in E2. injection E2 as <- <-.
  destruct (found_map_args s s' size v paddr Hwf Hkt Hs Hsz Hf Hv Hp Hpa) as [Hargs Hroom].
  destruct (pdt_map_memory_spec s' _ _ paddr v size rw pl Hargs)
    as (r & s'' & Em & _ & _ & _ & [(-> & _)|(_ & Hno)]).
  - exists s''. unfold pdt_map_kernel_memory. rewrite (bind_ok _ _ s' (kernel_pdt s') s') by done.
    exact Em.
  - destruct Hno. apply Hroom. left. by rewrite (sm_pfa _ _ Hs).
Qed.
End find.

Lemma demo_tables : kernel_tables demo_machine.
Proof.
  split; [done|done|by split|]. intros idx Hi.
  change (kernel_pdt demo_machine) with 0x101000. unfold good_pde. rewrite demo_pde by lia.
  repeat case_decide; try lia; [|done]. subst. intros _.
  split_and!; done.
Qed.

Lemma pdt_kernel_find_next_vaddr_first_fit_witness :
  ∃ s', pdt_kernel_find_next_vaddr 0x2000 demo_machine = Ok (0xC0001000, s') ∧ same demo_machine s'.
Proof.
  destruct (pdt_kernel_find_next_vaddr_first_fit demo_machine 0x2000 demo_wf demo_tables ltac:(lia))
    as (v & s' & E & Hs & _).
  pose proof (result_ok _ _ _ 0xC0001000 E ltac:(vm_compute; reflexivity)) as ->.
  exists s'. split; [exact E|exact Hs].
Defined.

Lemma find_then_map_succeeds_witness :
  ∃ s' s'', pdt_kernel_find_next_vaddr 0x2000 demo_machine = Ok (0xC0001000, s') ∧
    pdt_map_kernel_memory 0x800000 0xC0001000 0x2000 1 0 s' = Ok (0x2000, s'').
Proof.
  destruct (pdt_kernel_find_next_vaddr_ok demo_machine 0x2000 demo_wf demo_tables ltac:(lia))
    as (v & s' & E & _).
  pose proof (result_ok _ _ _ 0xC0001000 E ltac:(vm_compute; reflexivity)) as ->.
  destruct (find_then_map_succeeds demo_machine 0x2000 0xC0001000 s' 0x800000 1 0 demo_wf demo_tables
    ltac:(lia) E ltac:(done) ltac:(by vm_compute) ltac:(lia) ltac:(done)) as (s'' & E').
  exists s', s''. split; [exact E|exact E'].
Defined.
