(* ===== verification/PdtCreate.v ===== *)
(** * PdtCreate: the directories of processes

    [pdt_create] gives a cleared directory in a frame of its own, mapped in the
    kernel's part of the address space; [pdt_load_process_pdt] shares the
    kernel's part with it and makes it the directory in force. *)

From S2P Require Import Prelude CArith Interfaces Frames Mmu Paging PagingFacts PageMap PdtMap PageFind DemoMachine.

Section create.
Context {St : Type} `{!FrameOps St, !FrameLaws St}.
Implicit Types s : paging St.

(** ** Clearing a mapped page *)

Lemma walk_path_maps s v F rw pl a :
  maps_page s (active s) v F rw pl → on_path s v a →
  a = active s + 4 * (v / 4194304) ∨ a = pte_addr (pde_of (phys s) (active s) v) v.
Proof. intros Hm [->|[_ ->]]; [by left|by right]. Qed.

Lemma clear_page_ok s v F rw pl :
  kernel_wf s → maps_page s (active s) v F rw pl →
  v mod 4096 = 0 → 0 <= v → v + 4096 <= 4294967296 →
  F mod 4096 = 0 → is_u32 F → F ≠ active s →
  hw_base (pde_of (phys s) (active s) v) ≠ F →
  clear_entries v NUM_ENTRIES s = Ok (tt, set_phys (zero_words 1024 F 0 (phys s)) s).
Proof.
  intros Hwf Hm Hv H0 H4 HFa HF HFD HT. apply (clear_loop_ok 1024). intros m k Hmem Hk.
  rewrite u32_small by lia. split; [Z.to_euclidean_division_equations; lia|].
  assert (Hpath : ∀ a, on_path s v a → ld m a = ld (phys s) a).
  { intros a Ha. apply Hmem. intros j Hj E.
    assert (Hb : hw_base a = F) by (rewrite E; apply hw_base_word; [done|lia]).
    destruct (walk_path_maps s v F rw pl a Hm Ha) as [->| ->].
    - rewrite hw_base_word in Hb; [congruence|apply active_aligned|].
      Z.to_euclidean_division_equations; lia.
    - rewrite hw_base_pte in Hb. congruence. }
  rewrite walk_page by (done || lia). rewrite (walk_path_eq s m _ Hpath).
  pose proof (maps_page_walk s _ v F rw pl 0 Hm Hv HFa HF ltac:(lia)) as E.
  rewrite !Z.add_0_r in E. by rewrite E.
Qed.

(** Zeroing a frame that was not in use is growth. *)
Lemma grows_zero s s' F :
  kernel_wf s → grows s s' → ¬ live s F → F mod 4096 = 0 →
  grows s (set_phys (zero_words 1024 F 0 (phys s')) s').
Proof.
  intros Hwf [Ec Ed Ep Ef Em Ew Hk] HF HFa.
  assert (Hz : ∀ a, live s a → ld (zero_words 1024 F 0 (phys s')) a = ld (phys s') a).
  { intros a Ha. apply ld_zero_frame; [done|]. intros E. apply HF. unfold live in *.
    by rewrite E, <- (hw_base_id F) in Ha. }
  split; try done.
  - rewrite <- Ew. unfold tmp_entry. apply Hz. unfold tmp_word. simpl. rewrite Ep.
    apply live_word; [by apply kw_live_pt|by apply kw_pt|lia].
  - intros a Ha Hp. simpl. rewrite Hz by done. by apply Hk.
Qed.

(** ** [pdt_create] *)

(** There is a page to put a directory at. *)
Definition has_vacancy s : Prop :=
  ∃ idx, 768 <= idx < 1024 ∧
    let e := ld (phys s) (kernel_pdt s + 4 * idx) in
    (IS_ENTRY_PRESENT e = true → ∃ j, 0 <= j < 1024 ∧ vacant s idx (hw_base e) j).

Lemma has_vacancy_found s v : has_vacancy s → pdt_found s 1 768 v → v ≠ 0.
Proof.
  intros (idx & Hidx & Hv) Hf ->. destruct Hf as [(_ & Hfull)|(i & Hi & _ & Hor)].
  - destruct (Hfull idx Hidx) as [Hp Hno]. destruct (Hv Hp) as (j & Hj & Hvac).
    destruct (Hno j ltac:(lia) ltac:(lia)) as (j' & Hj' & Hn). by replace j' with j in Hn by lia.
  - destruct Hor as [(_ & ?)|(_ & ? & _)]; [lia|done].
Qed.

(** What the allocator's new state changes: nothing the tables depend on. *)
Lemma set_pfa_good s p' P idx :
  fr_free_set p' ⊆ fr_free_set (pfa s) → good_pde s P idx → good_pde (set_pfa p' s) P idx.
Proof.
  intros Hsub Hg Hp. destruct (Hg Hp) as (?&?&?&[]&Hl). split_and!; try done.
  unfold live in *. simpl. set_solver.
Qed.

Lemma set_pfa_tables s p' :
  fr_free_set p' ⊆ fr_free_set (pfa s) → kernel_tables s → kernel_tables (set_pfa p' s).
Proof. intros Hsub [Hd Hl Hf Hg]. split; try done. intros idx Hi. by apply set_pfa_good, Hg. Qed.

Lemma set_pfa_grows s p' :
  fr_free_set p' ⊆ fr_free_set (pfa s) → fr_managed p' = fr_managed (pfa s) →
  grows s (set_pfa p' s).
Proof. by split. Qed.

(** Zeroing a frame keeps a page that does not resolve through it. *)
Lemma maps_page_zero s P v F rw pl o :
  maps_page s P v F rw pl → v mod 4096 = 0 → is_u32 v → F mod 4096 = 0 → is_u32 F →
  P ≠ F → hw_base (pde_of (phys s) P v) ≠ F → 0 <= o < 4096 →
  walk (zero_words 1024 F 0 (phys s)) P (v + o) = Some (F + o).
Proof.
  intros Hm Hv Hvr HFa HF HP HT Ho. rewrite <- (maps_page_walk s P v F rw pl o) by done.
  destruct (mpg_live _ _ _ _ _ _ Hm) as (_ & HPa & _). symmetry. rewrite !walk_page by done.
  f_equal. symmetry. apply walk_ext.
  - apply ld_zero_frame; [done|]. rewrite hw_base_word; [done..|].
    Z.to_euclidean_division_equations; lia.
  - intros _ _. apply ld_zero_frame; [done|]. by rewrite hw_base_pte.
Qed.

(** The allocation of the frame [F] of a directory, [p'] being left of the
    allocator, and its mapping at [v], under the table [T]. *)
Record mapped_dir s p' s3 (v F T : Z) : Prop := MappedDir {
  md_wf : kernel_wf (set_pfa p' s);
  md_free : F ∈ fr_free_set (pfa s);
  md_left : fr_free_set p' = fr_free_set (pfa s) ∖ {[F]};
  md_managed : fr_managed p' = fr_managed (pfa s);
  md_frame : F mod 4096 = 0 ∧ 0x100000 <= F ∧ F + 4096 < 4294967296;
  md_vaddr : v mod 4096 = 0 ∧ 0xC0000000 <= v ∧ v + 4096 <= 4294967296;
  md_window : v ≠ KERNEL_TMP_VADDR;
  md_mapped : mapped (set_pfa p' s) s3 (kernel_pdt s) (v / 4194304) T (v / 4096 mod 1024) 1 F
                PAGING_READ_WRITE PAGING_PL0
}.

(** A frame just taken is in use, though no word of it was. *)
Lemma taken_live s p' F :
  F ∈ fr_free_set (pfa s) → F mod 4096 = 0 → fr_free_set p' = fr_free_set (pfa s) ∖ {[F]} →
  ¬ live s F ∧ live (set_pfa p' s) F.
Proof. intros HF HFa Hl. unfold live. simpl. rewrite hw_base_id, Hl by done. set_solver. Qed.

(** The table under the new page is not the new directory's frame. *)
Lemma mapped_dir_table s p' s3 v F T :
  kernel_tables s → mapped_dir s p' s3 v F T → T ≠ F.
Proof.
  intros Hkt [Hwf1 HF Hl _ (HFa & _) (_ & Hv & Hv4) _ Hm] ->.
  destruct (taken_live s p' F HF HFa Hl) as [HnF HlF]. pose proof (mp_fresh _ _ _ _ _ _ _ _ _ _ Hm) as Hfresh.
  destruct (mp_pde _ _ _ _ _ _ _ _ _ _ Hm) as (_ & _ & Hb). set (i := v / 4194304) in *.
  assert (Hi : 768 <= i < 1024) by (unfold i; Z.to_euclidean_division_equations; lia).
  destruct (IS_ENTRY_PRESENT (ld (phys s) (kernel_pdt s + 4 * i))) eqn:Hp; [|by apply Hfresh].
  rewrite (gr_keep _ _ (mp_grows _ _ _ _ _ _ _ _ _ _ Hm)) in Hb; [|apply live_word; [apply Hwf1..|lia]|done].
  destruct (kt_good _ Hkt _ Hi Hp) as (_ & _ & _ & _ & H). simpl in Hb. by rewrite Hb in H.
Qed.

Lemma mapped_dir_page s p' s3 v F T :
  kernel_tables s → mapped_dir s p' s3 v F T →
  maps_page s3 (kernel_pdt s) v F PAGING_READ_WRITE PAGING_PL0.
Proof.
  intros Hkt [Hwf1 HF Hl _ (HFa & HF0 & HF4) (Hva & Hv & Hv4) Hw Hm].
  assert (Hkt1 : kernel_tables (set_pfa p' s)) by (apply set_pfa_tables; [rewrite Hl; set_solver|done]).
  pose proof (mapped_maps _ s3 _ _ v T 1 F 1 0 0 Hwf1 (kernel_directory _ Hwf1 Hkt1) Hm Hva) as H.
  rewrite Z.mul_0_r, !Z.add_0_r, u32_small in H by lia. apply H; try lia.
  pose proof (Z.mod_pos_bound (v / 4096) 1024). lia.
Qed.

(** The two steps, and the clearing that ends [pdt_create]. *)
Lemma pdt_create_steps s :
  kernel_wf s → kernel_tables s → active s = kernel_pdt s →
  (2 <= base.size (fr_free_set (pfa s)))%nat → has_vacancy s →
  ∃ v F T p' s3, mapped_dir s p' s3 v F T ∧
    pdt_create s = Ok ((v, F), set_phys (zero_words 1024 F 0 (phys s3)) s3).
Proof.
  intros Hwf Hkt Hact Hsize Hvac. unfold pdt_create.
  destruct (pfa_one s Hwf) as [(Hempty & _)|(F & p' & E & Hwf1 & HF & Hf & Hm & HFa & HF0 & HF4)].
  { rewrite Hempty, size_empty in Hsize. lia. }
  rewrite (bind_ok _ _ _ _ _ E). set (s1 := set_pfa p' s).
  assert (Hkt1 : kernel_tables s1) by (apply set_pfa_tables; [set_solver|done]).
  change PDT_SIZE with 4096.
  destruct (pdt_kernel_find_next_vaddr_ok s1 4096 Hwf1 Hkt1 ltac:(lia)) as (v & s2 & E2 & Hs2 & Hfound).
  rewrite (bind_ok _ _ _ _ _ E2).
  assert (Hv : v ≠ 0) by (apply (has_vacancy_found s1); [exact Hvac|exact Hfound]).
  destruct (pdt_found_room s1 4096 v Hwf1 Hkt1 ltac:(lia) Hfound Hv) as (Hva & Hv0 & Hv4 & _).
  change (align_up 4096 4096) with 4096 in *.
  destruct (found_map_args s1 s2 4096 v F Hwf1 Hkt1 Hs2 ltac:(lia) Hfound Hv ltac:(lia) HFa) as [Hargs Hroom].
  destruct (pdt_map_page s2 _ _ F v 4096 PAGING_READ_WRITE PAGING_PL0 Hargs eq_refl) as (T & s3 & E3 & Hmap).
  { apply Hroom. left. rewrite (sm_pfa _ _ Hs2). simpl. rewrite Hf. intros E0.
    pose proof (size_difference (fr_free_set (pfa s)) {[F]} ltac:(clear -HF; set_solver)) as Hd.
    rewrite E0, size_empty, size_singleton in Hd. lia. }
  rewrite (sm_pdt _ _ Hs2) in E3, Hmap. apply (mapped_same s1) in Hmap; [|done].
  change (kernel_pdt s1) with (kernel_pdt s) in E3, Hmap.
  destruct (pdt_found_clear s1 4096 v v Hwf1 Hkt1 ltac:(lia) Hfound Hv Hva) as [Hw _].
  { change (align_up 4096 4096) with 4096. lia. }
  assert (Hmd : mapped_dir s p' s3 v F T) by (split; try done; lia).
  exists v, F, T, p', s3. split; [exact Hmd|].
  unfold pdt_map_kernel_memory. rewrite bind_assoc, (bind_ok _ _ s2 (kernel_pdt s1) s2)
    by (unfold gets; by rewrite (sm_pdt _ _ Hs2)).
  rewrite (bind_ok _ _ _ _ _ E3). change (4096 <? 4096) with false. cbv iota.
  pose proof (mapped_dir_page s p' s3 v F T Hkt Hmd) as Hpage.
  assert (Hact3 : active s3 = kernel_pdt s).
  { unfold active. rewrite (gr_active _ _ (mp_grows _ _ _ _ _ _ _ _ _ _ Hmap)). exact Hact. }
  assert (HnD : F ≠ active s3).
  { rewrite Hact3. intros ->. destruct (taken_live s p' _ HF HFa Hf) as [[] _]. by apply kw_live_pdt. }
  rewrite <- Hact3 in Hpage.
  rewrite (bind_ok _ _ _ _ _ (clear_page_ok s3 v F _ _ (mp_wf _ _ _ _ _ _ _ _ _ _ Hmap) Hpage Hva ltac:(lia) Hv4
    HFa ltac:(lia) HnD ltac:(rewrite Hact3; destruct (mp_pde _ _ _ _ _ _ _ _ _ _ Hmap) as (_ & _ & Hb);
      unfold pde_of; rewrite Hb; by apply (mapped_dir_table s p' s3 v F T)))).
  reflexivity.
Qed.

(** What the end leaves. *)
Lemma mapped_dir_end s p' s3 v F T :
  kernel_wf s → kernel_tables s → active s = kernel_pdt s → mapped_dir s p' s3 v F T →
  let s' := set_phys (zero_words 1024 F 0 (phys s3)) s3 in
  kernel_wf s' ∧ grows s s' ∧ F ∉ fr_free_set (pfa s') ∧
  (∀ o, 0 <= o < 4096 → walk (phys s') (active s') (v + o) = Some (F + o)) ∧
  (∀ i, 0 <= i < 1024 → ld (phys s') (F + 4 * i) = 0).
Proof.
  intros Hwf Hkt Hact Hmd s'. pose proof (mapped_dir_page s p' s3 v F T Hkt Hmd) as Hpage.
  pose proof (mapped_dir_table s p' s3 v F T Hkt Hmd) as HT.
  destruct Hmd as [Hwf1 HF Hl Hman (HFa & HF0 & HF4) (Hva & Hv & Hv4) Hw Hm].
  destruct (taken_live s p' F HF HFa Hl) as [HnF HlF].
  assert (Hg1 : grows s (set_pfa p' s)) by (apply set_pfa_grows; [rewrite Hl; set_solver|done]).
  assert (Hg : grows s s3) by (etrans; [exact Hg1|apply Hm]).
  assert (Hact3 : active s3 = kernel_pdt s) by (unfold active; by rewrite (gr_active _ _ Hg)).
  split_and!.
  - apply (kernel_wf_zero s3 0); [apply Hm| |done]. split; [done|lia|..].
    + rewrite Hact3. intros ->. by apply HnF, kw_live_pdt.
    + intros E. destruct HnF. rewrite E, (gr_pt _ _ Hg). by apply kw_live_pt.
  - by apply grows_zero.
  - simpl. apply (not_elem_of_weaken _ _ (fr_free_set p')); [rewrite Hl; set_solver|].
    apply (gr_free _ _ (mp_grows _ _ _ _ _ _ _ _ _ _ Hm)).
  - intros o Ho. change (active s') with (active s3). rewrite Hact3.
    destruct (mp_pde _ _ _ _ _ _ _ _ _ _ Hm) as (_ & _ & Hb).
    apply (maps_page_zero s3 (kernel_pdt s) v F 1 0); try done; try lia.
    + intros <-. by apply HnF, kw_live_pdt.
    + unfold pde_of. by rewrite Hb.
  - intros i Hi. by apply zero_words_in.
Qed.

(** *** Without a free frame *)

(** The first place is in the kernel's first table, when there is one. *)
Lemma first_place s v j :
  kernel_tables s → 0 <= j < 1024 → vacant s 768 (kernel_pt s) j → pdt_found s 1 768 v →
  v ≠ 0 ∧ v / 4194304 = 768.
Proof.
  intros Hkt Hj Hv Hf. pose proof (kt_first _ Hkt) as [_ _ Hp _ Hb].
  assert (Hno : ¬ no_run s 768 (kernel_pt s) 1 0 1024).
  { intros H. destruct (H j ltac:(lia) ltac:(lia)) as (j' & Hj' & Hn). by replace j' with j in Hn by lia. }
  destruct Hf as [(_ & Hfull)|(idx & Hidx & Hall & Hor)].
  { destruct (Hfull 768 ltac:(lia)) as [_ H]. rewrite Hb in H. done. }
  destruct (decide (idx = 768)) as [->|Hne].
  2: { destruct (Hall 768 ltac:(lia)) as [_ H]. rewrite Hb in H. done. }
  destruct Hor as [(Habs & _)|(_ & Hv0 & [(org & -> & ? & ? & _)|(-> & _)])]; [congruence| |done].
  split; [lia|]. Z.to_euclidean_division_equations; lia.
Qed.

(** [pdt_create] does not look at what [pfa_allocate] answers: the directory is the
    first physical page, which it clears. *)
Lemma pdt_create_page_zero s j :
  kernel_wf s → kernel_tables s → active s = kernel_pdt s → fr_free_set (pfa s) = ∅ →
  kernel_pdt s ≠ 0 → kernel_pt s ≠ 0 → 0 <= j < 1024 → vacant s 768 (kernel_pt s) j →
  ∃ v s', pdt_create s = Ok ((v, 0), s') ∧ v ≠ 0 ∧
    (∀ o, 0 <= o < 4096 → walk (phys s') (active s') (v + o) = Some o) ∧
    (∀ i, 0 <= i < 1024 → ld (phys s') (4 * i) = 0).
Proof.
  intros Hwf Hkt Hact Hempty Hpd0 Hpt0 Hj Hvac. unfold pdt_create.
  destruct (pfa_one s Hwf) as [(_ & p' & E & Hwf1 & Hf & Hm)|(F & p' & _ & _ & HF & _)];
    [|rewrite Hempty in HF; set_solver].
  rewrite (bind_ok _ _ _ _ _ E). set (s1 := set_pfa p' s).
  assert (Hkt1 : kernel_tables s1) by (apply set_pfa_tables; [rewrite Hf; set_solver|done]).
  change PDT_SIZE with 4096.
  destruct (pdt_kernel_find_next_vaddr_ok s1 4096 Hwf1 Hkt1 ltac:(lia)) as (v & s2 & E2 & Hs2 & Hfound).
  rewrite (bind_ok _ _ _ _ _ E2).
  destruct (first_place s1 v j Hkt1 Hj Hvac Hfound) as [Hv Hidx].
  destruct (pdt_found_room s1 4096 v Hwf1 Hkt1 ltac:(lia) Hfound Hv) as (Hva & Hv0 & Hv4 & _).
  change (align_up 4096 4096) with 4096 in *.
  pose proof (kt_first _ Hkt) as [_ _ Hp _ Hb].
  destruct (found_map_args s1 s2 4096 v 0 Hwf1 Hkt1 Hs2 ltac:(lia) Hfound Hv ltac:(lia) eq_refl) as [Hargs Hroom].
  destruct (pdt_map_page s2 _ _ 0 v 4096 PAGING_READ_WRITE PAGING_PL0 Hargs eq_refl) as (T & s3 & E3 & Hmap).
  { apply Hroom. right. unfold pde_of. by rewrite (sm_pdt _ _ Hs2), (sm_ld _ _ Hs2), Hidx. }
  rewrite (sm_pdt _ _ Hs2) in E3, Hmap. apply (mapped_same s1) in Hmap; [|done].
  change (kernel_pdt s1) with (kernel_pdt s) in E3, Hmap.
  unfold pdt_map_kernel_memory. rewrite bind_assoc, (bind_ok _ _ s2 (kernel_pdt s) s2)
    by (unfold gets; by rewrite (sm_pdt _ _ Hs2)).
  rewrite (bind_ok _ _ _ _ _ E3). change (4096 <? 4096) with false. cbv iota.
  pose proof (mapped_maps s1 s3 _ _ v T 1 0 1 0 0 Hwf1 (kernel_directory _ Hwf1 Hkt1) Hmap Hva) as Hpage.
  rewrite Z.mul_0_r, !Z.add_0_r in Hpage. change (u32 0) with 0 in Hpage.
  specialize (Hpage ltac:(lia) ltac:(pose proof (Z.mod_pos_bound (v / 4096) 1024); lia) ltac:(lia) ltac:(lia)).
  assert (Hact3 : active s3 = kernel_pdt s).
  { unfold active. rewrite (gr_active _ _ (mp_grows _ _ _ _ _ _ _ _ _ _ Hmap)). exact Hact. }
  assert (HT : hw_base (pde_of (phys s3) (kernel_pdt s) v) ≠ 0).
  { unfold pde_of. rewrite Hidx, (gr_keep _ _ (mp_grows _ _ _ _ _ _ _ _ _ _ Hmap)); [|apply (dir_word_live s1 (kernel_pdt s)); [by apply (kernel_directory s1)|lia]|done].
    change (phys s1) with (phys s). by rewrite Hb. }
  assert (Hpage3 : maps_page s3 (active s3) v 0 1 0) by (rewrite Hact3; exact Hpage). rewrite <- Hact3 in HT.
  rewrite (bind_ok _ _ _ _ _ (clear_page_ok s3 v 0 _ _ (mp_wf _ _ _ _ _ _ _ _ _ _ Hmap) Hpage3 Hva ltac:(lia) Hv4
    eq_refl ltac:(lia) ltac:(by rewrite Hact3; apply not_eq_sym) HT)).
  eexists v, _. split; [reflexivity|]. split; [done|]. split.
  - intros o Ho. by apply (maps_page_zero s3 (active s3) v 0 1 0); [done|done|lia|done|lia|rewrite Hact3|done|].
  - intros i Hi. apply (zero_words_in 1024 0 0). lia.
Qed.

(** ** [pdt_load_process_pdt] *)

(** A directory in use nowhere: its frame is not part of the translation the
    code runs under, nor a table of the kernel's, nor one of its own tables. *)
Record loadable s (pdt P : Z) : Prop := Loadable {
  lo_dir : directory s pdt P;
  lo_u32 : is_u32 P;
  lo_not_active : P ≠ active s;
  lo_not_kernel : P ≠ kernel_pdt s;
  lo_path : hw_large (pde_of (phys s) (active s) pdt) = false →
    hw_base (pde_of (phys s) (active s) pdt) ≠ P;
  lo_kernel_tables idx : 768 <= idx < 1024 →
    let e := ld (phys s) (kernel_pdt s + 4 * idx) in IS_ENTRY_PRESENT e = true → hw_base e ≠ P;
  lo_own_tables idx : 1 <= idx < 768 →
    let e := ld (phys s) (P + 4 * idx) in IS_ENTRY_PRESENT e = true → hw_base e ≠ P
}.

Lemma set_phys_id s : set_phys (phys s) s = s.
Proof. by destruct s. Qed.

(** Memory [m] differs from that of [s] only in the frame [P]. *)
Definition outside_eq s (P : Z) (m : gmap Z Z) : Prop :=
  ∀ a, hw_base a ≠ P → ld m a = ld (phys s) a.

Lemma outside_insert s P m i w :
  P mod 4096 = 0 → 0 <= i < 1024 → outside_eq s P m → outside_eq s P (<[P + 4 * i := w]> m).
Proof.
  intros HP Hi Hm a Ha. rewrite ld_insert_ne; [by apply Hm|]. intros <-. apply Ha.
  apply hw_base_word; [done|lia].
Qed.

Section load.
Context s (pdt P : Z).
Context (Hwf : kernel_wf s) (Hkt : kernel_tables s) (Hload : loadable s pdt P).
Let K := kernel_pdt s.

Lemma kernel_word_out i : 0 <= i < 1024 → hw_base (K + 4 * i) ≠ P.
Proof using All.
  intros Hi. rewrite hw_base_word by (apply Hwf || lia). apply not_eq_sym, Hload.
Qed.

(** Where the two directories are found while the copy goes on. *)
Lemma load_words m i :
  outside_eq s P m → 0 <= i < 1024 →
  (K +ᵤ 4 * i) mod 4 = 0 ∧ walk m (active s) (K +ᵤ 4 * i) = Some (K + 4 * i) ∧
  (pdt +ᵤ 4 * i) mod 4 = 0 ∧ walk m (active s) (pdt +ᵤ 4 * i) = Some (P + 4 * i).
Proof using All.
  intros Hm Hi. pose proof Hload as [Hdir _ HPa _ Hpath _ _].
  assert (Hact : ∀ j, 0 <= j < 1024 → ld m (active s + 4 * j) = ld (phys s) (active s + 4 * j)).
  { intros j Hj. apply Hm. rewrite hw_base_word by (apply active_aligned || lia).
    by apply not_eq_sym. }
  destruct (dir_word s m K K i (kernel_directory s Hwf Hkt)) as [? ?]; [|done|].
  { intros a Ha. destruct Ha as [->|[Hl _]].
    - apply Hact. destruct (kw_pdt _ Hwf) as (_&?&?). unfold K.
      Z.to_euclidean_division_equations; lia.
    - destruct (kw_low _ Hwf) as (_ & Hlow & _). destruct (kw_pdt _ Hwf) as (_&?&?).
      unfold pde_of in Hl. replace (K / 4194304) with 0 in Hl
        by (unfold K; Z.to_euclidean_division_equations; lia).
      rewrite Z.mul_0_r, Z.add_0_r in Hl. congruence. }
  destruct (dir_word s m pdt P i Hdir) as [? ?]; [|done|done].
  intros a [->|[Hl ->]].
  - apply Hact. destruct (dir_vaddr _ _ _ Hdir) as (_&?&?). Z.to_euclidean_division_equations; lia.
  - apply Hm. rewrite hw_base_pte. auto.
Qed.

Lemma copy_entry_ok m i :
  outside_eq s P m → 0 <= i < 1024 →
  copy_entry pdt K i (set_phys m s)
  = Ok (tt, set_phys (<[P + 4 * i := ld (phys s) (K + 4 * i)]> m) s).
Proof using All.
  intros Hm Hi. destruct (load_words m i Hm Hi) as (H1&H2&H3&H4). unfold copy_entry.
  rewrite (bind_ok _ _ _ _ _ (load_ok (set_phys m s) _ _ H1 H2)).
  unfold store. rewrite (update_ok (set_phys m s) _ _ _ H3 H4). simpl.
  rewrite Hm by (by apply kernel_word_out). done.
Qed.

(** The words of the directory after the loop over [768 + k ...]. *)
Fixpoint share (n : nat) (i : Z) (m : gmap Z Z) : gmap Z Z :=
  match n with
  | O => m
  | S n =>
    let e := ld (phys s) (K + 4 * i) in
    share n (i + 1) (if IS_ENTRY_PRESENT e then <[P + 4 * i := e]> m else m)
  end.

Lemma share_outside n i m :
  outside_eq s P m → 0 <= i → i + Z.of_nat n <= 1024 → outside_eq s P (share n i m).
Proof using All.
  revert i m. induction n as [|n IH]; intros i m Hm Hi Hn; [done|]. simpl. apply IH; [|lia..].
  destruct (IS_ENTRY_PRESENT _); [|done]. apply outside_insert; [apply Hload|lia|done].
Qed.

Lemma share_word n i m j :
  0 <= i → i + Z.of_nat n <= 1024 →
  ld (share n i m) (P + 4 * j) =
  let e := ld (phys s) (K + 4 * j) in
  if bool_decide (i <= j < i + Z.of_nat n) && IS_ENTRY_PRESENT e then e else ld m (P + 4 * j).
Proof using All.
  revert i m. induction n as [|n IH]; intros i m Hi Hn; cbn [share].
  { by rewrite bool_decide_false by lia. }
  rewrite IH by lia. cbn zeta. destruct (decide (j = i)) as [->|Hne].
  - rewrite (bool_decide_false (i + 1 <= i < _)), (bool_decide_true (i <= i < _)) by lia. simpl.
    destruct (IS_ENTRY_PRESENT _); [by rewrite ld_insert_eq|done].
  - replace (bool_decide (i <= j < i + Z.of_nat (S n))) with (bool_decide (i + 1 <= j < i + 1 + Z.of_nat n))
      by (apply bool_decide_ext; lia).
    destruct (_ && _); [done|]. destruct (IS_ENTRY_PRESENT (ld (phys s) (K + 4 * i)));
      [rewrite ld_insert_ne by lia|]; done.
Qed.

Lemma share_loop_ok n i m :
  outside_eq s P m → 0 <= i → i + Z.of_nat n <= 1024 →
  for_each (seqZ i (Z.of_nat n))
    (λ i, is_entry_present K i ≫= λ present : bool,
          if present then copy_entry pdt K i else mret tt) (set_phys m s)
  = Ok (tt, set_phys (share n i m) s).
Proof using All.
  revert i m. induction n as [|n IH]; intros i m Hm Hi Hn; [done|].
  rewrite seqZ_step by lia. replace (Z.of_nat (S n) - 1) with (Z.of_nat n) by lia. simpl.
  destruct (load_words m i Hm ltac:(lia)) as (H1&H2&_).
  rewrite bind_assoc, (bind_ok _ _ _ _ _ (is_entry_present_ok (set_phys m s) _ _ _ H1 H2)). simpl.
  rewrite Hm by (apply kernel_word_out; lia). destruct (IS_ENTRY_PRESENT _).
  - rewrite (bind_ok _ _ _ _ _ (copy_entry_ok m i Hm ltac:(lia))).
    apply IH; [|lia..]. apply outside_insert; [apply Hload|lia|done].
  - rewrite (bind_ok _ _ (set_phys m s) tt (set_phys m s)) by done. by apply IH; [|lia..].
Qed.

(** The memory [pdt_load_process_pdt] leaves. *)
Definition loaded : gmap Z Z := share 256 768 (<[P + 4 * 0 := ld (phys s) (K + 4 * 0)]> (phys s)).

Definition cr3_of : Z := Z.lor (Z.land P 0xFFFFF000) 0x08.

Lemma cr3_of_base : hw_base cr3_of = P.
Proof using Hload.
  pose proof (dir_aligned _ _ _ (lo_dir _ _ _ Hload)) as HPa. pose proof (lo_u32 _ _ _ Hload) as HPu.
  unfold cr3_of. assert (HP : P = Z.shiftl (P / 4096) 12)
    by (rewrite Z.shiftl_mul_pow2 by done; Z.to_euclidean_division_equations; lia).
  assert (E : Z.land P 0xFFFFF000 = P).
  { rewrite HP at 1. change 0xFFFFF000 with (Z.shiftl (Z.ones 20) 12).
    rewrite <- Z.shiftl_land, Z.land_ones, Z.mod_small by (done || clear HP; Z.to_euclidean_division_equations; lia).
    done. }
  rewrite E. rewrite HP at 1. rewrite lor_shiftl_add by done. unfold hw_base.
  Z.to_euclidean_division_equations; lia.
Qed.

Lemma loaded_outside : outside_eq s P loaded.
Proof using All.
  apply share_outside; [|lia..]. apply outside_insert; [apply Hload|lia|by intros a _].
Qed.

Lemma loaded_word j :
  0 <= j < 1024 →
  ld loaded (P + 4 * j) =
  let e := ld (phys s) (K + 4 * j) in
  if bool_decide (j = 0) || (bool_decide (768 <= j) && IS_ENTRY_PRESENT e) then e
  else ld (phys s) (P + 4 * j).
Proof using All.
  intros Hj. unfold loaded. rewrite share_word by lia. cbn zeta.
  destruct (decide (j = 0)) as [->|Hne].
  - rewrite (bool_decide_false (768 <= 0 < _)) by lia. by rewrite ld_insert_eq.
  - rewrite (bool_decide_false (j = 0)) by done. rewrite ld_insert_ne by lia. simpl.
    by replace (bool_decide (768 <= j < 768 + Z.of_nat 256)) with (bool_decide (768 <= j))
      by (apply bool_decide_ext; lia).
Qed.

Lemma pdt_load_process_pdt_ok :
  pdt_load_process_pdt pdt P s = Ok (tt, set_cr3 cr3_of (set_phys loaded s)).
Proof using All.
  unfold pdt_load_process_pdt. rewrite (bind_ok _ _ s K s) by done.
  rewrite <- (set_phys_id s) at 1. rewrite (bind_ok _ _ _ _ _ (copy_entry_ok (phys s) 0 ltac:(by intros a _) ltac:(lia))).
  erewrite bind_ok; [done|]. apply (share_loop_ok 256 768); [|lia..].
  apply outside_insert; [apply Hload|lia|by intros a _].
Qed.

Let s' := set_cr3 cr3_of (set_phys loaded s).

Lemma loaded_active : active s' = P.
Proof using Hload. apply cr3_of_base. Qed.

Lemma insert_u32 m q w :
  (∀ a, is_u32 (ld m a)) → is_u32 w → ∀ a, is_u32 (ld (<[q := w]> m) a).
Proof. intros Hm Hw a. rewrite ld_insert. by case_decide. Qed.

Lemma loaded_u32 a : is_u32 (ld loaded a).
Proof using All.
  unfold loaded. generalize 256%nat, 768. revert a.
  assert (Hone : ∀ n i m, (∀ a, is_u32 (ld m a)) → ∀ a, is_u32 (ld (share n i m) a)).
  { induction n as [|n IH]; intros i m Hm; [done|]. cbn [share]. apply IH.
    destruct (IS_ENTRY_PRESENT _); [|done]. apply insert_u32; [done|apply Hwf]. }
  intros a n i. apply Hone, insert_u32; apply Hwf.
Qed.

Lemma loaded_wf : kernel_wf s'.
Proof using All.
  pose proof Hload as [Hdir HPu HPa HPk _ _ _]. pose proof loaded_active as Ea.
  assert (E0 : ld loaded P = ld (phys s) K).
  { pose proof (loaded_word 0 ltac:(lia)) as E. by rewrite !Z.add_0_r in E. }
  assert (E768 : ld loaded (P + 3072) = ld (phys s) (K + 3072)).
  { pose proof (loaded_word 768 ltac:(lia)) as E. cbn zeta in E.
    change (4 * 768) with 3072 in E. rewrite E.
    by rewrite (eo_config _ _ (kt_first _ Hkt) : IS_ENTRY_PRESENT (ld (phys s) (K + 3072)) = true). }
  split; try apply Hwf.
  - apply loaded_u32.
  - rewrite Ea. change (phys s') with loaded. rewrite E0. apply Hkt.
  - rewrite Ea. change (phys s') with loaded. rewrite E768. apply Hkt.
  - rewrite Ea. apply not_eq_sym, Hdir.
  - rewrite Ea. apply Hdir.
Qed.

Lemma loaded_tables : kernel_tables s'.
Proof using All.
  assert (EK : ∀ i, 0 <= i < 1024 → ld loaded (K + 4 * i) = ld (phys s) (K + 4 * i)).
  { intros i Hi. by apply loaded_outside, kernel_word_out. }
  destruct Hkt as [Hd Hl Hf Hg]. split; change (kernel_pdt s') with K; change (phys s') with loaded.
  - done.
  - pose proof (EK 0 ltac:(lia)) as E. rewrite Z.mul_0_r, Z.add_0_r in E. by rewrite E.
  - by rewrite EK by lia.
  - intros idx Hi. unfold good_pde. change (phys s') with loaded. rewrite EK by lia. intros Hp.
    destruct (Hg idx Hi Hp) as (?&?&?&[]&?). split_and!; try done.
    split; try done. rewrite loaded_active. by apply Hload.
Qed.

(** The kernel's part of the directory loaded translates as the kernel's own. *)
Lemma loaded_kernel v p :
  is_u32 v → v < 0x400000 ∨ 0xC0000000 <= v → walk (phys s) K v = Some p →
  walk loaded P v = Some p.
Proof using All.
  intros Hv Hr Hw. rewrite <- Hw.
  assert (Hi : 0 <= v / 4194304 < 1024) by (Z.to_euclidean_division_equations; lia).
  assert (Hpres : hw_present (pde_of (phys s) K v) = true).
  { revert Hw. unfold walk. by destruct (hw_present _). }
  assert (Epde : pde_of loaded P v = pde_of (phys s) K v).
  { unfold pde_of in *. rewrite loaded_word by done. cbn zeta.
    rewrite (hw_present_code _ Hpres). destruct Hr as [Hr|Hr].
    - rewrite bool_decide_true by (Z.to_euclidean_division_equations; lia). done.
    - rewrite (bool_decide_true (768 <= _)) by (Z.to_euclidean_division_equations; lia).
      by rewrite orb_true_r. }
  unfold walk. rewrite Epde, Hpres. cbn [negb]. destruct (hw_large _) eqn:Hl; [reflexivity|].
  cbn zeta. rewrite (loaded_outside (pte_addr _ _)); [reflexivity|]. rewrite hw_base_pte. destruct Hr as [Hr|Hr].
  - unfold pde_of in Hl. replace (v / 4194304) with 0 in Hl by (Z.to_euclidean_division_equations; lia).
    rewrite Z.mul_0_r, Z.add_0_r in Hl. destruct (kt_low _ Hkt) as (_ & Hl' & _).
    unfold K in Hl. congruence.
  - apply (lo_kernel_tables _ _ _ Hload); [Z.to_euclidean_division_equations; lia|]. by apply hw_present_code.
Qed.

(** The rest of it is what the process had. *)
Lemma loaded_user v : 0x400000 <= v < 0xC0000000 → walk loaded P v = walk (phys s) P v.
Proof using All.
  intros Hv. assert (Hi : 1 <= v / 4194304 < 768) by (Z.to_euclidean_division_equations; lia).
  apply walk_ext.
  - unfold pde_of. rewrite loaded_word by lia. cbn zeta.
    rewrite bool_decide_false, bool_decide_false by lia. done.
  - intros Hp _. apply loaded_outside. rewrite hw_base_pte.
    apply (lo_own_tables _ _ _ Hload); [done|]. by apply hw_present_code.
Qed.
End load.

(** C9: [pdt_load_process_pdt] makes the directory the one in force, keeps the
    invariant the paging code runs under, gives the directory every translation
    of the kernel's below 4 MB and from 3 GB on, and leaves the translations
    between, the process's own, alone. *)
Theorem pdt_load_process_pdt_shares s pdt P :
  kernel_wf s → kernel_tables s → loadable s pdt P →
  ∃ s', pdt_load_process_pdt pdt P s = Ok (tt, s') ∧ active s' = P ∧
    kernel_wf s' ∧ kernel_tables s' ∧
    (∀ v p, is_u32 v → v < 0x400000 ∨ 0xC0000000 <= v →
       walk (phys s) (kernel_pdt s) v = Some p → walk (phys s') (active s') v = Some p) ∧
    (∀ v, 0x400000 <= v < 0xC0000000 → walk (phys s') (active s') v = walk (phys s) P v).
Proof.
  intros Hwf Hkt Hload. eexists. split; [by apply pdt_load_process_pdt_ok|].
  rewrite (loaded_active s pdt P Hload). split; [done|]. split; [by apply (loaded_wf s pdt P)|].
  split; [by apply (loaded_tables s pdt P)|]. split; intros.
  - by apply (loaded_kernel s pdt P).
  - by apply (loaded_user s pdt P).
Qed.

(** C8: with two free frames and a vacant page, [pdt_create] succeeds: the
    directory is in a frame that was free and is so no more, it is mapped in the
    kernel's last gigabyte, all its entries are absent, and no translation in
    use has changed. Without a free frame it does not fail: with a page left in the
    kernel's first table it answers the address of a directory at the physical
    address 0, and has cleared the first page of memory. *)
Theorem pdt_create_fresh s :
  kernel_wf s → kernel_tables s → active s = kernel_pdt s →
  ((2 <= base.size (fr_free_set (pfa s)))%nat → has_vacancy s →
   ∃ v F s', pdt_create s = Ok ((v, F), s') ∧ kernel_wf s' ∧ grows s s' ∧
     F ∈ fr_free_set (pfa s) ∧ (F ∉ fr_free_set (pfa s')) ∧
     v mod 4096 = 0 ∧ 0xC0000000 <= v < 4294967296 ∧
     (∀ o, 0 <= o < 4096 → walk (phys s') (active s') (v + o) = Some (F + o)) ∧
     (∀ i, 0 <= i < 1024 → ld (phys s') (F + 4 * i) = 0)) ∧
  (fr_free_set (pfa s) = ∅ → kernel_pdt s ≠ 0 → kernel_pt s ≠ 0 →
   (∃ j, 0 <= j < 1024 ∧ vacant s 768 (kernel_pt s) j) →
   ∃ v s', pdt_create s = Ok ((v, 0), s') ∧ v ≠ 0 ∧
     (∀ o, 0 <= o < 4096 → walk (phys s') (active s') (v + o) = Some o) ∧
     (∀ i, 0 <= i < 1024 → ld (phys s') (4 * i) = 0)).
Proof.
  intros Hwf Hkt Hact. split.
  - intros Hsize Hvac. destruct (pdt_create_steps s Hwf Hkt Hact Hsize Hvac) as (v & F & T & p' & s3 & Hmd & E).
    destruct (mapped_dir_end s p' s3 v F T Hwf Hkt Hact Hmd) as (?&?&?&?&?).
    eexists v, F, _. split; [exact E|]. destruct Hmd as [_ HF _ _ _ (?&?&?) _ _].
    repeat (apply conj); try assumption; lia.
  - intros Hempty Hd Hp (j & Hj & Hv). by apply (pdt_create_page_zero s j).
Qed.
End create.

(** ** At the concrete machine *)

Lemma demo_vacancy : has_vacancy demo_machine.
Proof. exists 769. split; [lia|]. by intros ?. Qed.

(** The machine without a frame left. *)
Definition full_frames : frames :=
  Frames (PageFrameBitmap [0] 6) [MemoryMap 0x200000 0x4000; MemoryMap 0x300000 0x2000] [].

Definition full_machine : paging frames := set_pfa full_frames demo_machine.

Lemma full_tables : kernel_wf full_machine ∧ kernel_tables full_machine ∧ fr_free_set (pfa full_machine) = ∅.
Proof.
  assert (Hsub : fr_free_set full_frames ⊆ fr_free_set (pfa demo_machine)) by (apply (bool_decide_unpack _); by vm_compute).
  split; [|split].
  - apply (kernel_wf_mem demo_machine); try done; [exact demo_wf| |apply demo_wf].
    split; simpl; try (done || lia). repeat constructor; lia.
  - by apply set_pfa_tables; [|apply demo_tables].
  - apply (bool_decide_unpack _). by vm_compute.
Qed.

Lemma pdt_create_fresh_witness :
  (∃ s', pdt_create demo_machine = Ok ((0xC0001000, 0x200000), s') ∧
    walk (phys s') (active s') 0xC0001ABC = Some 0x200ABC ∧ ld (phys s') 0x200FFC = 0) ∧
  ∃ s', pdt_create full_machine = Ok ((0xC0001000, 0), s') ∧ walk (phys s') (active s') 0xC0001ABC = Some 0xABC.
Proof.
  split.
  - destruct (pdt_create_fresh demo_machine demo_wf demo_tables ltac:(reflexivity)) as [H _].
    destruct (H ltac:(vm_compute; lia) demo_vacancy) as (v & F & s' & E & _ & _ & _ & _ & _ & _ & Hw & Hz).
    pose proof (result_ok _ _ _ (0xC0001000, 0x200000) E ltac:(vm_compute; reflexivity)) as Er.
    injection Er as Ev EF. subst v F. exists s'. split; [exact E|]. split.
    + exact (Hw 0xABC ltac:(lia)).
    + exact (Hz 1023 ltac:(lia)).
  - destruct full_tables as (Hwf & Hkt & He).
    destruct (pdt_create_fresh full_machine Hwf Hkt ltac:(reflexivity)) as [_ H].
    destruct (H He ltac:(done) ltac:(done)) as (v & s' & E & _ & Hw & _).
    { exists 1. split; [lia|]. split; [by vm_compute|lia]. }
    pose proof (result_ok _ _ _ (0xC0001000, 0) E ltac:(vm_compute; reflexivity)) as Er.
    injection Er as Ev. subst v. exists s'. split; [exact E|]. exact (Hw 0xABC ltac:(lia)).
Defined.

Lemma demo_loadable : loadable demo_machine 0x105000 0x105000.
Proof.
  assert (E : ∀ a, 0x102004 <= a → ld (phys demo_machine) a = 0).
  { intros a Ha. simpl. rewrite !ld_insert_ne by lia. unfold ld. by rewrite lookup_empty. }
  split; try done.
  - intros idx Hi. change (kernel_pdt demo_machine) with 0x101000. rewrite demo_pde by lia.
    by repeat case_decide.
  - intros idx Hi. by rewrite E by lia.
Qed.

Lemma pdt_load_process_pdt_shares_witness :
  ∃ s', pdt_load_process_pdt 0x105000 0x105000 demo_machine = Ok (tt, s') ∧
    active s' = 0x105000 ∧ walk (phys s') (active s') 0xC0000010 = Some 0x10.
Proof.
  destruct (pdt_load_process_pdt_shares demo_machine 0x105000 0x105000 demo_wf demo_tables
    demo_loadable) as (s' & E & Ha & _ & _ & Hk & _).
  exists s'. split; [exact E|]. split; [exact Ha|].
  apply Hk; [lia|by right|reflexivity].
Defined.
