(* ===== verification/PageUnmap.v ===== *)
(** * PageUnmap: what [pdt_unmap_memory] does, and where it does not end

    Inside one table the pages asked for, and no others, lose their entries and
    are invalidated. The loop of [pdt_unmap_memory] over tables has three
    defects, which the last section proves: at an absent table on a 4 MB
    boundary it never advances, at the window's page it frees nothing and never
    advances, and past the end of a table it unmaps more than it was asked to. *)

From S2P Require Import Prelude CArith Interfaces Frames Mmu Paging PagingFacts PageMap PdtMap PageFind DemoMachine.

Section unmap.
Context {St : Type} `{!FrameOps St, !FrameLaws St}.
Implicit Types s : paging St.

(** ** One table *)

(** The entries [i, i + n) of the table [F] are cleared and their pages, from
    [vaddr] on, invalidated; nothing else is touched. *)
Record unmapped s s' (F i n vaddr : Z) : Prop := Unmapped {
  um_cr3 : cr3 s' = cr3 s;
  um_pdt : kernel_pdt s' = kernel_pdt s;
  um_pt : kernel_pt s' = kernel_pt s;
  um_pfa : pfa s' = pfa s;
  um_in k : 0 <= k < n →
    ld (phys s') (F + 4 * (i + k)) =
      (if IS_ENTRY_PRESENT (ld (phys s) (F + 4 * (i + k))) then 0
       else ld (phys s) (F + 4 * (i + k))) ∧
    (IS_ENTRY_PRESENT (ld (phys s) (F + 4 * (i + k))) = true →
     u32 (vaddr + 4096 * k) ∈ invalidated s');
  um_out a : (∀ k, 0 <= k < n → a ≠ F + 4 * (i + k)) → ld (phys s') a = ld (phys s) a;
  um_log v : v ∈ invalidated s → v ∈ invalidated s'
}.

Lemma unmapped_none s F i vaddr : unmapped s s F i 0 vaddr.
Proof. split; try done. intros. lia. Qed.

(** One turn of the loop. *)
Definition unmap_turn s (a vaddr : Z) : paging St :=
  if IS_ENTRY_PRESENT (ld (phys s) a)
  then set_invalidated (vaddr :: invalidated s) (put a 0 s) else s.

Lemma unmap_turn_ld s a vaddr b : b ≠ a → ld (phys (unmap_turn s a vaddr)) b = ld (phys s) b.
Proof. intros Hb. unfold unmap_turn. destruct (IS_ENTRY_PRESENT _); [|done]. by apply ld_insert_ne, not_eq_sym. Qed.

Lemma unmapped_step s s' F i n vaddr :
  is_u32 vaddr → 0 <= n → unmapped (unmap_turn s (F + 4 * i) vaddr) s' F (i + 1) n (vaddr +ᵤ 4096) →
  unmapped s s' F i (n + 1) vaddr.
Proof.
  intros Hv Hn [Ec Ed Ep Ef Hin Hout Hlog].
  assert (Hturn : ∀ v, v ∈ invalidated s → v ∈ invalidated s').
  { intros v Hvs. apply Hlog. unfold unmap_turn. destruct (IS_ENTRY_PRESENT _); [by right|done]. }
  assert (Hfields : let t := unmap_turn s (F + 4 * i) vaddr in cr3 t = cr3 s ∧
    kernel_pdt t = kernel_pdt s ∧ kernel_pt t = kernel_pt s ∧ pfa t = pfa s).
  { unfold unmap_turn. by destruct (IS_ENTRY_PRESENT _). }
  destruct Hfields as (Ec1 & Ed1 & Ep1 & Ef1). split; try congruence; [| |done].
  - intros k Hk. destruct (decide (k = 0)) as [->|Hk0].
    + rewrite Z.add_0_r, Z.mul_0_r, Z.add_0_r, u32_small by done. rewrite Hout by (intros; lia).
      unfold unmap_turn in *. destruct (IS_ENTRY_PRESENT _); [|done].
      simpl. rewrite ld_insert_eq. split; [done|]. intros _. apply Hlog. by left.
    + specialize (Hin (k - 1) ltac:(lia)).
      replace (i + 1 + (k - 1)) with (i + k) in Hin by lia.
      rewrite unmap_turn_ld in Hin by lia.
      replace (u32 ((vaddr +ᵤ 4096) + 4096 * (k - 1))) with (u32 (vaddr + 4096 * k)) in Hin;
        [done|]. unfold u32. Z.to_euclidean_division_equations; lia.
  - intros a Ha. rewrite Hout.
    + apply unmap_turn_ld. specialize (Ha 0 ltac:(lia)). by rewrite Z.add_0_r in Ha.
    + intros k Hk. specialize (Ha (k + 1) ltac:(lia)). by replace (i + 1 + k) with (i + (k + 1)) by lia.
Qed.

Lemma clear_one_ok s F i :
  kernel_wf s → window s F → 0 <= i < 1024 → F mod 4096 = 0 → F ≠ active s →
  F + 4 * i ≠ tmp_word s →
  clear_entries (KERNEL_TMP_VADDR +ᵤ 4 * i) 1 s = Ok (tt, put (F + 4 * i) 0 s).
Proof.
  intros Hwf Hwin Hi HF HD Htw. unfold clear_entries. rewrite seqZ_step by lia. simpl.
  destruct (window_stable s F i Hwf Hwin Hi HF HD Htw) as (Hal & Hw & _).
  unfold store. rewrite Z.add_0_r, (u32_small (KERNEL_TMP_VADDR +ᵤ 4 * i)) by apply u32_range.
  by rewrite (bind_ok _ _ _ _ _ (update_ok s _ _ (λ _, 0) Hal Hw)).
Qed.

(** How many entries the loop goes through. *)
Definition run_length (idx i n : Z) : Z :=
  Z.min n ((if idx =? 768 then 1023 else 1024) - i).

Lemma unmap_turn_ok s idx F i vaddr :
  kernel_wf s → window s F → table_frame s idx F → 0 <= i < 1024 → (idx = 768 → i ≠ 1023) →
  let s' := unmap_turn s (F + 4 * i) vaddr in
  ((is_entry_present KERNEL_TMP_VADDR i ≫= λ present : bool,
    if present then clear_entries (KERNEL_TMP_VADDR +ᵤ 4 * i) 1 ≫= λ _,
      invalidate_page_table_entry vaddr
    else mret tt) s = Ok (tt, s')) ∧ kernel_wf s' ∧ window s' F ∧ table_frame s' idx F.
Proof.
  intros Hwf Hwin Htf Hi Hne. pose proof (tmp_word_ne s idx F i Hwf Htf Hi Hne) as Htw.
  pose proof Htf as [HFa HFu HFD HFk].
  rewrite (bind_ok _ _ _ _ _ (window_entry_present s F i Hwf Hwin Hi)). unfold unmap_turn.
  destruct (IS_ENTRY_PRESENT _); [|done].
  rewrite (bind_ok _ _ _ _ _ (clear_one_ok s F i Hwf Hwin Hi HFa HFD Htw)).
  split_and!; [done| | |by split].
  - apply kernel_wf_invalidated. by apply (table_word_kernel_wf s idx).
  - apply (window_put s F (F + 4 * i) 0) in Hwin; [exact Hwin|done].
Qed.

Lemma pt_unmap_loop_ok fuel s idx F i vaddr freed size :
  kernel_wf s → window s F → table_frame s idx F →
  0 <= i → i <= (if idx =? 768 then 1023 else 1024) → 1025 - i <= Z.of_nat fuel →
  is_u32 size → size mod 4096 = 0 → 0 <= freed <= size → freed mod 4096 = 0 → is_u32 vaddr →
  let n := run_length idx i ((size - freed) / 4096) in
  ∃ s', pt_unmap_loop fuel KERNEL_TMP_VADDR idx vaddr i freed size s = Ok (freed + 4096 * n, s') ∧
    kernel_wf s' ∧ window s' F ∧ unmapped s s' F i n vaddr.
Proof.
  revert s i vaddr freed. induction fuel as [|fuel IH];
    intros s i vaddr freed Hwf Hwin Htf Hi Hi' Hfuel Hsz Hsza Hf Hfa Hv n; [destruct (idx =? 768); lia|].
  simpl pt_unmap_loop. change NUM_ENTRIES with 1024.
  destruct ((freed <? size) && (i <? 1024)) eqn:Hc; cycle 1.
  { assert (n = 0) as ->.
    { unfold n, run_length. destruct (idx =? 768); Z.to_euclidean_division_equations; lia. }
    exists s. rewrite Z.mul_0_r, Z.add_0_r. split_and!; [done..|apply unmapped_none]. }
  change KERNEL_PT_PDT_IDX with 768. change KERNEL_TMP_PT_IDX with 1023.
  destruct ((idx =? 768) && (i =? 1023)) eqn:Ht.
  { assert (n = 0) as ->.
    { unfold n, run_length. apply andb_prop in Ht as [-> ?]. Z.to_euclidean_division_equations; lia. }
    exists s. rewrite Z.mul_0_r, Z.add_0_r. split_and!; [done..|apply unmapped_none]. }
  assert (Hir : 0 <= i < 1024) by lia.
  destruct (unmap_turn_ok s idx F i vaddr Hwf Hwin Htf Hir ltac:(lia)) as (E & Hwf1 & Hwin1 & Htf1).
  rewrite <- bind_assoc, (bind_ok _ _ _ _ _ E). change PT_ENTRY_SIZE with 4096.
  assert (Hlt : freed + 4096 <= size) by (Z.to_euclidean_division_equations; lia).
  rewrite (u32_small (freed + 4096)) by lia.
  destruct (IH (unmap_turn s (F + 4 * i) vaddr) (i + 1) (vaddr +ᵤ 4096) (freed + 4096))
    as (s' & -> & Hwf' & Hwin' & Hu); try done; try lia.
  { destruct (idx =? 768) eqn:?; lia. }
  { Z.to_euclidean_division_equations; lia. }
  { apply u32_range. }
  assert (En : n = run_length idx (i + 1) ((size - (freed + 4096)) / 4096) + 1).
  { unfold n, run_length. replace ((size - (freed + 4096)) / 4096) with ((size - freed) / 4096 - 1)
      by (Z.to_euclidean_division_equations; lia). destruct (idx =? 768); lia. }
  exists s'. rewrite En. split_and!; [do 2 f_equal; lia|done|done|].
  apply unmapped_step; [done| |done].
  unfold run_length. destruct (idx =? 768) eqn:?; Z.to_euclidean_division_equations; lia.
Qed.
(** ** A range inside one table *)

Record unmap_args s (pdt P v size : Z) : Prop := UnmapArgs {
  ua_wf : kernel_wf s;
  ua_dir : directory s pdt P;
  ua_good : good_pde s P (v / 4194304);
  ua_present : IS_ENTRY_PRESENT (ld (phys s) (P + 4 * (v / 4194304))) = true;
  ua_vaddr : 0 <= v ∧ v mod 4096 = 0;
  ua_size : 0 < size <= 4190208;
  ua_table : v / 4096 mod 1024 + (size + 4095) / 4096 <=
             (if v / 4194304 =? 768 then 1023 else 1024);
  ua_end : v + align_up size 4096 < 4294967296
}.

(** The end of the function, after the window is closed. *)
Lemma unmap_restore s s2 F i n v :
  kernel_wf s → table_frame s (v / 4194304) F → 0 <= i → 0 <= n →
  i + n <= (if v / 4194304 =? 768 then 1023 else 1024) →
  let s1 := set_window (pt_entry F 1 0) s in
  unmapped s1 s2 F i n v →
  let s3 := set_window (tmp_entry s) s2 in
  unmapped s s3 F i n v ∧ tmp_entry s3 = tmp_entry s.
Proof.
  intros Hwf Htf Hi Hn Hin s1 [Ec Ed Ep Ef Hw Hout Hlog] s3.
  assert (Etw : tmp_word s2 = tmp_word s) by (unfold tmp_word; by rewrite Ep).
  assert (Hne : ∀ k, 0 <= k < n → F + 4 * (i + k) ≠ tmp_word s).
  { intros k Hk. apply (tmp_word_ne s (v / 4194304)); try done.
    - case_match; lia.
    - intros E. rewrite E in Hin. simpl in Hin. lia. }
  assert (Hld : ∀ a, a ≠ tmp_word s → ld (phys s3) a = ld (phys s2) a).
  { intros a Ha. unfold s3. simpl. rewrite Etw. by apply ld_insert_ne, not_eq_sym. }
  assert (Hld1 : ∀ a, a ≠ tmp_word s → ld (phys s1) a = ld (phys s) a).
  { intros a Ha. by apply ld_insert_ne, not_eq_sym. }
  assert (Htmp : ld (phys s3) (tmp_word s) = ld (phys s) (tmp_word s)).
  { unfold s3. simpl. by rewrite Etw, ld_insert_eq. }
  split; [split; try done|].
  - intros k Hk. specialize (Hw k Hk). rewrite !Hld1 in Hw by auto. rewrite Hld by auto.
    destruct Hw as [? Hinv]. split; [done|]. intros Hp. right. by apply Hinv.
  - intros a Ha. destruct (decide (a = tmp_word s)) as [->|Ht]; [done|].
    rewrite Hld, Hout, Hld1 by done. done.
  - intros w Hv. right. apply Hlog. by right.
  - unfold tmp_entry. change (tmp_word s3) with (tmp_word s2). by rewrite Etw.
Qed.

Lemma pdt_unmap_memory_ok fuel s pdt P v size :
  (2 <= fuel)%nat → unmap_args s pdt P v size →
  let F := hw_base (ld (phys s) (P + 4 * (v / 4194304))) in
  ∃ s', pdt_unmap_memory fuel pdt v size s = Ok (align_up size 4096, s') ∧ kernel_wf s' ∧
    tmp_entry s' = tmp_entry s ∧
    unmapped s s' F (v / 4096 mod 1024) (align_up size 4096 / 4096) v.
Proof.
  intros Hfuel [Hwf Hdir Hgood Hp [Hv Hva] Hsz Htab Hend] F.
  destruct (Hgood Hp) as (_ & _ & _ & Htf & _). fold F in Htf. pose proof Htf as [HFa HFu HFD HFk].
  unfold pdt_unmap_memory. change PT_ENTRY_SIZE with 4096. rewrite align_up_page in * by lia.
  set (size' := (size + 4095) / 4096 * 4096) in *.
  assert (Hs' : 4096 <= size' <= 4190208 ∧ size' mod 4096 = 0 ∧ size' / 4096 = (size + 4095) / 4096)
    by (unfold size'; Z.to_euclidean_division_equations; lia).
  destruct Hs' as (Hsr & Hsa & Esz). rewrite <- Esz in Htab. clearbody size'.
  set (i := v / 4096 mod 1024) in *. assert (Hi : 0 <= i < 1024) by (apply Z.mod_pos_bound; lia).
  rewrite (u32_small (v + size')) by lia.
  destruct fuel as [|[|fuel]]; [lia..|]. cbn [pdt_unmap_loop].
  destruct (Z.ltb_spec v (v + size')); [|lia].
  rewrite (VIRTUAL_TO_PDT_IDX_eq v) by lia. set (idx := v / 4194304) in *.
  assert (Hidx : 0 <= idx < 1024) by (unfold idx; Z.to_euclidean_division_equations; lia).
  destruct (dir_word s (phys s) pdt P idx Hdir) as [Hal Hw]; [done..|].
  rewrite (bind_ok _ _ _ _ _ (is_entry_present_ok s _ _ _ Hal Hw)), Hp. cbn [negb].
  rewrite (bind_ok _ _ _ _ _ (get_pt_paddr_ok s _ _ _ Hwf Hal Hw)). fold F.
  rewrite (bind_ok _ _ _ _ _ (get_temporary_ok s Hwf)).
  rewrite (bind_ok _ _ _ _ _ (map_temporary_ok s F Hwf)).
  set (s1 := set_window (pt_entry F 1 0) s).
  assert (Hwf1 : kernel_wf s1) by (apply kernel_wf_set_window; [done|apply pt_entry_u32]).
  assert (Hwin1 : window s1 F) by (by apply window_set_window).
  unfold pt_unmap_memory. rewrite VIRTUAL_TO_PT_IDX_eq. fold i.
  destruct (pt_unmap_loop_ok 1025 s1 idx F i v 0 size') as (s2 & E & Hwf2 & Hwin2 & Hu);
    try done; try lia.
  { revert Htab. case_match; Z.to_euclidean_division_equations; lia. }
  assert (En : run_length idx i ((size' - 0) / 4096) = size' / 4096).
  { unfold run_length. rewrite Z.sub_0_r. lia. }
  rewrite En in E, Hu. assert (Es : 0 + 4096 * (size' / 4096) = size')
    by (Z.to_euclidean_division_equations; lia).
  rewrite (bind_ok _ _ _ _ _ E), (bind_ok _ _ _ _ _ (set_temporary_ok s2 (tmp_entry s) Hwf2)), Es.
  change PDT_ENTRY_SIZE with 4194304. destruct (Z.eqb_spec size' 4194304); [lia|]. cbn [andb].
  rewrite (bind_ok _ _ (set_window (tmp_entry s) s2) tt (set_window (tmp_entry s) s2)) by done.
  rewrite (u32_small (v + size')), Z.ltb_irrefl by lia.
  destruct (unmap_restore s s2 F i (size' / 4096) v Hwf Htf (proj1 Hi)) as [Hu3 Ht3];
    [Z.to_euclidean_division_equations; lia|done|exact Hu|].
  eexists. split; [done|]. split_and!; [|done|done].
  apply kernel_wf_set_window; [done|]. apply Hwf.
Qed.
(** *** In terms of translations *)

Lemma code_absent w : IS_ENTRY_PRESENT w = false → hw_present w = false.
Proof. intros Hw. destruct (hw_present w) eqn:E; [|done]. apply hw_present_code in E. congruence. Qed.

Lemma unmapped_frame s s' F i n v a :
  unmapped s s' F i n v → F mod 4096 = 0 → 0 <= i → i + n <= 1024 → hw_base a ≠ F →
  ld (phys s') a = ld (phys s) a.
Proof.
  intros Hu HF Hi Hn Ha. apply Hu. intros k Hk ->. apply Ha. apply hw_base_word; [done|lia].
Qed.

Section translations.
Context s s' (pdt P v size : Z) (Hargs : unmap_args s pdt P v size).
Let F := hw_base (pde_of (phys s) P v).
Let i := v / 4096 mod 1024.
Let n := align_up size 4096 / 4096.
Context (Hu : unmapped s s' F i n v).

Lemma unmap_bounds :
  0 <= v < 4294967296 ∧ 0 <= i ∧ 0 < n ∧ i + n <= 1024 ∧ align_up size 4096 = 4096 * n ∧
  F mod 4096 = 0 ∧ F ≠ P ∧ P mod 4096 = 0.
Proof using Hargs.
  destruct Hargs as [_ Hdir Hgood Hp [Hv Hva] Hsz Htab Hend]. unfold i, n.
  destruct (Hgood Hp) as (_ & _ & HP & Htf & _). rewrite align_up_page in * by lia.
  assert (v / 4096 mod 1024 + (size + 4095) / 4096 <= 1024) by (case_match; lia).
  split_and!; try apply Htf; try done; try apply Hdir;
    Z.to_euclidean_division_equations; lia.
Qed.

Lemma unmap_pde w : is_u32 w → pde_of (phys s') P w = pde_of (phys s) P w.
Proof using All.
  intros Hw. destruct unmap_bounds as (_&?&?&?&_&?&?&?).
  apply (unmapped_frame s s' F i n v); try done.
  rewrite hw_base_word; [done..|]. Z.to_euclidean_division_equations; lia.
Qed.

Lemma unmap_pte_in o :
  0 <= o < align_up size 4096 →
  pde_of (phys s) P (v + o) = pde_of (phys s) P v ∧
  pte_addr (pde_of (phys s) P v) (v + o) = F + 4 * (i + o / 4096) ∧ 0 <= o / 4096 < n.
Proof using Hargs.
  intros Ho. destruct unmap_bounds as (?&?&?&?&E&_). pose proof (ua_vaddr _ _ _ _ _ Hargs) as [_ Hva].
  rewrite E in Ho. unfold pde_of, pte_addr. fold (pde_of (phys s) P v). fold F.
  assert ((v + o) / 4194304 = v / 4194304 ∧ (v + o) / 4096 mod 1024 = i + o / 4096 ∧
    0 <= o / 4096 < n) as (-> & -> & ?).
  { unfold i in *. clearbody n. Z.to_euclidean_division_equations; lia. }
  done.
Qed.

Lemma unmap_walk_in o :
  0 <= o < align_up size 4096 →
  walk (phys s') P (v + o) = None ∧
  (walk (phys s) P (v + o) ≠ None → v + o / 4096 * 4096 ∈ invalidated s').
Proof using All.
  intros Ho. destruct unmap_bounds as (Hv&_&_&_&E&_). pose proof (ua_end _ _ _ _ _ Hargs) as Hend.
  destruct (unmap_pte_in o Ho) as (Epde & Epte & Hk).
  destruct (um_in _ _ _ _ _ _ Hu _ Hk) as [Hw Hinv].
  destruct (ua_good _ _ _ _ _ Hargs (ua_present _ _ _ _ _ Hargs)) as (Hp & Hl & _).
  fold (pde_of (phys s) P v) in Hp, Hl. unfold walk.
  rewrite unmap_pde, Epde, Hp, Hl, Epte by lia. cbn [negb]. split.
  - rewrite Hw. destruct (IS_ENTRY_PRESENT _) eqn:Ha; [done|]. by rewrite (code_absent _ Ha).
  - destruct (hw_present (ld _ _)) eqn:Ha; [|done]. intros _.
    rewrite (hw_present_code _ Ha) in Hinv. specialize (Hinv eq_refl).
    rewrite u32_small in Hinv by lia. by rewrite (Z.mul_comm (o / 4096)).
Qed.

Lemma unmap_walk_out w :
  is_u32 w → w < v ∨ v + align_up size 4096 <= w →
  (hw_base (pde_of (phys s) P w) = F → w / 4194304 = v / 4194304) →
  walk (phys s') P w = walk (phys s) P w.
Proof using All.
  intros Hw Hout Hdist. destruct unmap_bounds as (Hv&Hi&Hn&Hin&E&HFa&_).
  pose proof (ua_vaddr _ _ _ _ _ Hargs) as [_ Hva].
  apply walk_ext; [by apply unmap_pde|]. intros _ _.
  destruct (decide (hw_base (pde_of (phys s) P w) = F)) as [EF|HF].
  - apply Hu. intros k Hk. specialize (Hdist EF). unfold pte_addr. rewrite EF, E in *.
    unfold i in *. clearbody n. Z.to_euclidean_division_equations; lia.
  - apply (unmapped_frame s s' F i n v); try done. by rewrite hw_base_pte.
Qed.
End translations.

(** ** Properties *)

(** C10: unmapping a range inside one table ends, and afterwards no address of
    the range translates, every page of it that did has been invalidated, and
    every address outside of it translates as before. *)
Theorem pdt_unmap_memory_unmaps fuel s pdt P v size :
  (2 <= fuel)%nat → unmap_args s pdt P v size →
  ∃ s', pdt_unmap_memory fuel pdt v size s = Ok (align_up size 4096, s') ∧ kernel_wf s' ∧
    tmp_entry s' = tmp_entry s ∧ pfa s' = pfa s ∧
    (∀ o, 0 <= o < align_up size 4096 →
       walk (phys s') P (v + o) = None ∧
       (walk (phys s) P (v + o) ≠ None → v + o / 4096 * 4096 ∈ invalidated s')) ∧
    (∀ w, is_u32 w → w < v ∨ v + align_up size 4096 <= w →
       (hw_base (pde_of (phys s) P w) = hw_base (pde_of (phys s) P v) →
        w / 4194304 = v / 4194304) →
       walk (phys s') P w = walk (phys s) P w).
Proof.
  intros Hfuel Hargs. destruct (pdt_unmap_memory_ok fuel s pdt P v size Hfuel Hargs)
    as (s' & E & Hwf' & Ht & Hu).
  exists s'. split_and!; [done..|apply Hu| |]; intros.
  - by apply (unmap_walk_in s s' pdt P v size).
  - by apply (unmap_walk_out s s' pdt P v size).
Qed.

(** *** Where the loop does not end *)

Lemma absent_forever fuel s pdt P v end_v size freed :
  directory s pdt P → is_u32 v → v mod 4194304 = 0 → v < end_v →
  IS_ENTRY_PRESENT (ld (phys s) (P + 4 * (v / 4194304))) = false →
  pdt_unmap_loop fuel pdt v end_v size freed s = OutOfFuel.
Proof.
  intros Hdir Hv Hva Hlt Hno. induction fuel as [|fuel IH]; [done|]. cbn [pdt_unmap_loop].
  destruct (Z.ltb_spec v end_v); [|lia]. rewrite (VIRTUAL_TO_PDT_IDX_eq v) by lia.
  destruct (dir_word s (phys s) pdt P (v / 4194304) Hdir) as [Hal Hw];
    [done|Z.to_euclidean_division_equations; lia|].
  rewrite (bind_ok _ _ _ _ _ (is_entry_present_ok s _ _ _ Hal Hw)), Hno. cbn [negb].
  by rewrite align_up_id.
Qed.

(** The outer loop. *)
Lemma pdt_unmap_absent_table_diverges fuel s pdt P v size :
  directory s pdt P → is_u32 v → v mod 4194304 = 0 →
  0 < size <= 4294963200 → v + align_up size 4096 < 4294967296 →
  IS_ENTRY_PRESENT (ld (phys s) (P + 4 * (v / 4194304))) = false →
  pdt_unmap_memory fuel pdt v size s = OutOfFuel.
Proof.
  intros Hdir Hv Hva Hsz Hend Hno. unfold pdt_unmap_memory. change PT_ENTRY_SIZE with 4096.
  rewrite align_up_page in * by lia. rewrite u32_small by (Z.to_euclidean_division_equations; lia).
  apply (absent_forever _ _ _ P); try done. Z.to_euclidean_division_equations; lia.
Qed.
(** One turn at the window's page: nothing is freed and nothing changes. *)
Lemma window_turn fuel s size freed end_v :
  kernel_wf s → kernel_tables s → is_u32 size → 0 < size → KERNEL_TMP_VADDR < end_v →
  ∃ s', same s s' ∧
    pdt_unmap_loop (S fuel) (kernel_pdt s) KERNEL_TMP_VADDR end_v size freed s
    = pdt_unmap_loop fuel (kernel_pdt s) KERNEL_TMP_VADDR end_v size 0 s'.
Proof.
  intros Hwf Hkt Hsz Hpos Hend. pose proof (kt_first _ Hkt) as [_ _ Hp _ Hb].
  destruct (kw_pt _ Hwf) as (Hpta & Hpt0 & Hpt4).
  exists (set_window (tmp_entry s) (set_window (pt_entry (kernel_pt s) 1 0) s)).
  split; [apply same_window|]. cbn [pdt_unmap_loop].
  destruct (Z.ltb_spec KERNEL_TMP_VADDR end_v); [|lia].
  change (VIRTUAL_TO_PDT_IDX KERNEL_TMP_VADDR) with 768.
  destruct (dir_word s (phys s) _ _ 768 (kernel_directory s Hwf Hkt)) as [Hal Hw]; [done..|].
  rewrite (bind_ok _ _ _ _ _ (is_entry_present_ok s _ _ _ Hal Hw)), Hp. cbn [negb].
  rewrite (bind_ok _ _ _ _ _ (get_pt_paddr_ok s _ _ _ Hwf Hal Hw)), Hb.
  rewrite (bind_ok _ _ _ _ _ (get_temporary_ok s Hwf)).
  rewrite (bind_ok _ _ _ _ _ (map_temporary_ok s _ Hwf)).
  set (s1 := set_window (pt_entry (kernel_pt s) 1 0) s).
  assert (Hwf1 : kernel_wf s1) by (apply kernel_wf_set_window; [done|apply pt_entry_u32]).
  assert (E : pt_unmap_memory KERNEL_TMP_VADDR 768 KERNEL_TMP_VADDR size s1 = Ok (0, s1)).
  { unfold pt_unmap_memory. change (VIRTUAL_TO_PT_IDX KERNEL_TMP_VADDR) with 1023.
    change 1025%nat with (S 1024). generalize 1024%nat. intros k. cbn [pt_unmap_loop].
    destruct (Z.ltb_spec 0 size); [|lia]. reflexivity. }
  rewrite (bind_ok _ _ _ _ _ E), (bind_ok _ _ _ _ _ (set_temporary_ok s1 _ Hwf1)).
  change ((0 =? PDT_ENTRY_SIZE) && _) with false. cbv iota.
  set (s2 := set_window _ s1). by rewrite (bind_ok _ _ s2 tt s2).
Qed.

Lemma window_forever fuel s size freed end_v :
  kernel_wf s → kernel_tables s → is_u32 size → 0 < size → KERNEL_TMP_VADDR < end_v →
  pdt_unmap_loop fuel (kernel_pdt s) KERNEL_TMP_VADDR end_v size freed s = OutOfFuel.
Proof.
  revert s freed. induction fuel as [|fuel IH]; intros s freed Hwf Hkt Hsz Hpos Hend; [done|].
  destruct (window_turn fuel s size freed end_v) as (s' & Hs & ->); try done.
  rewrite <- (sm_pdt _ _ Hs). apply IH; try done; [by rewrite <- Hs|by apply (same_kernel_tables s)].
Qed.

Lemma pdt_unmap_window_diverges fuel s size :
  kernel_wf s → kernel_tables s → 0 < size <= 0x10000000 →
  pdt_unmap_kernel_memory fuel KERNEL_TMP_VADDR size s = OutOfFuel.
Proof.
  intros Hwf Hkt Hsz. unfold pdt_unmap_kernel_memory, pdt_unmap_memory.
  rewrite (bind_ok _ _ s (kernel_pdt s) s) by done. change PT_ENTRY_SIZE with 4096.
  rewrite align_up_page by lia. change KERNEL_TMP_VADDR with 3225415680.
  rewrite u32_small by (Z.to_euclidean_division_equations; lia).
  apply window_forever; try done; try (change KERNEL_TMP_VADDR with 3225415680);
    Z.to_euclidean_division_equations; lia.
Qed.

(** C11: unmapping does not end in two cases: on a range that starts on a 4 MB
    boundary where the directory has no table, as [align_up] leaves the address where
    it is; and on the page of the temporary window, which it refuses to unmap
    but does not step over. *)
Theorem pdt_unmap_diverges fuel s pdt P v size :
  (directory s pdt P → is_u32 v → v mod 4194304 = 0 →
   0 < size <= 4294963200 → v + align_up size 4096 < 4294967296 →
   IS_ENTRY_PRESENT (ld (phys s) (P + 4 * (v / 4194304))) = false →
   pdt_unmap_memory fuel pdt v size s = OutOfFuel) ∧
  (kernel_wf s → kernel_tables s → 0 < size <= 0x10000000 →
   pdt_unmap_kernel_memory fuel KERNEL_TMP_VADDR size s = OutOfFuel).
Proof.
  split; intros; [by apply (pdt_unmap_absent_table_diverges fuel s pdt P v size)|].
  by apply pdt_unmap_window_diverges.
Qed.
End unmap.

(** What a call answers, and what [v] translates to before and after it. *)
Definition unmap_effect (m : outcome (Z * paging frames)) (P v unmap_v size : Z) :=
  s ← final m;
  '(r, s') ← (match pdt_unmap_memory 10 P unmap_v size s with Ok p => Some p | _ => None end);
  Some (r, walk (phys s) P v, walk (phys s') P v).

(** [pdt_unmap_memory] does not count what it has unmapped against the size
    left: asked for the two pages around the end of a table, it unmaps a third
    page, past the range, in the next table. *)
Lemma pdt_unmap_memory_overruns :
  unmap_effect (pdt_map_memory 0x101000 0x400000 0xD03FF000 0x3000 1 0 demo_machine)
    0x101000 (0xD03FF000 + 0x2000) 0xD03FF000 0x2000 = Some (0x2000, Some 0x402000, None).
Proof. vm_compute. reflexivity. Qed.

(** ** At the concrete machine *)

Lemma demo_unmap_args : unmap_args demo_machine 0x101000 0x101000 0xC0000000 0x800.
Proof.
  split; first [apply demo_wf | apply demo_directory | done | idtac].
Qed.

Lemma pdt_unmap_memory_unmaps_witness :
  ∃ s', pdt_unmap_memory 2 0x101000 0xC0000000 0x800 demo_machine = Ok (0x1000, s') ∧
    walk (phys demo_machine) 0x101000 0xC0000010 = Some 0x10 ∧
    walk (phys s') 0x101000 0xC0000010 = None ∧ 0xC0000000 ∈ invalidated s'.
Proof.
  destruct (pdt_unmap_memory_unmaps 2 demo_machine 0x101000 0x101000 0xC0000000 0x800
    ltac:(lia) demo_unmap_args) as (s' & E & _ & _ & _ & Hin & _).
  destruct (Hin 0x10 ltac:(vm_compute; split; congruence)) as [Hw Hinv].
  exists s'. split; [exact E|]. split; [reflexivity|]. split; [exact Hw|].
  apply Hinv. discriminate.
Defined.

Lemma pdt_unmap_diverges_witness :
  pdt_unmap_memory 1000 0x101000 0xD0000000 0x1000 demo_machine = OutOfFuel ∧
  pdt_unmap_kernel_memory 1000 KERNEL_TMP_VADDR 0x1000 demo_machine = OutOfFuel.
Proof.
  destruct (pdt_unmap_diverges 1000 demo_machine 0x101000 0x101000 0xD0000000 0x1000) as [H1 H2]. split.
  - apply H1; try reflexivity; try lia; apply demo_directory.
  - apply H2; [exact demo_wf|exact demo_tables|lia].
Defined.
