(* ===== verification/PageServices.v ===== *)
(** * PageServices: what the heap and the processes use of the paging code

    The client's view of paging.c: which virtual addresses can be accessed, and
    calls that hand out frames, find free addresses and map them. *)

From S2P Require Import Prelude CArith.

Class PageOps (St : Type) := {
  pg_allocate : Z → M St Z;
  pg_find : Z → M St Z;
  pg_map : Z → Z → Z → Z → Z → M St Z;
  pg_printk : string → list Z → M St unit;
  pg_mapped : St → Z → bool;
  pg_wf : St → Prop;
  pg_found : St → Z → Z → Prop
}.

(** [same_pages s s']: the addresses found free and those mapped stay so. *)
Definition same_pages {St} `{!PageOps St} (s s' : St) : Prop :=
  (∀ a, pg_mapped s' a = pg_mapped s a) ∧ (∀ v size, pg_found s v size → pg_found s' v size).

(** [pg_found s v size]: [v] is an answer of the search for [size] bytes, at
    most 4 MB, which is still good in [s]. *)
Class PageLaws (St : Type) `{!PageOps St} := {
  pg_allocate_spec s n :
    pg_wf s → is_u32 n →
    ∃ p s', pg_allocate n s = Ok (p, s') ∧ pg_wf s' ∧ same_pages s s' ∧
      (p ≠ 0 → 0 <= p ∧ p mod 4096 = 0 ∧ p + n * 4096 < 4294967296);
  pg_find_spec s size :
    pg_wf s → 0 < size <= 4194304 →
    ∃ v s', pg_find size s = Ok (v, s') ∧ pg_wf s' ∧ same_pages s s' ∧
      (v ≠ 0 → pg_found s' v size);
  pg_found_spec s v size :
    pg_wf s → pg_found s v size →
    v mod 4096 = 0 ∧ 0xC0000000 <= v ∧ v + align_up size 4096 <= 4294967296 ∧
    (∀ a, v <= a < v + align_up size 4096 → pg_mapped s a = false);
  pg_map_spec s p v size rw pl :
    pg_wf s → is_u32 p → p mod 4096 = 0 → 0 < size <= 4194304 → pg_found s v size →
    ∃ r s', pg_map p v size rw pl s = Ok (r, s') ∧ pg_wf s' ∧
      (∀ a, pg_mapped s a = true → pg_mapped s' a = true) ∧
      (r = 0 ∨ r = align_up size 4096 ∧
       ∀ a, v <= a < v + align_up size 4096 → pg_mapped s' a = true);
  pg_printk_spec s fmt args :
    pg_wf s → ∃ s', pg_printk fmt args s = Ok (tt, s') ∧ pg_wf s' ∧ same_pages s s'
}.

#[global] Instance same_pages_preorder {St} `{!PageOps St} : PreOrder same_pages.
Proof.
  split; [by split|]. intros s1 s2 s3 [M1 F1] [M2 F2]. split; [|auto].
  intros a. by rewrite M2.
Qed.
