(* ===== verification/PagingServices.v ===== *)
(** * PagingServices: the paging code as the services of its clients

    The functions of paging.c, over any allocator of frames, satisfy what
    [PageServices] promises to the heap and to the processes, while the kernel's
    directory is the one in force. *)

From S2P Require Import Prelude CArith Interfaces Frames Mmu Paging PagingFacts PageMap PdtMap PageFind DemoMachine PageServices.

Section services.
Context {St : Type} `{!FrameOps St, !FrameLaws St}.
Implicit Types s : paging St.

(** A kernel address that does not fault. *)
Definition kernel_mapped s (a : Z) : bool :=
  (0xC0000000 <=? a) && (a <? 4294967296) && bool_decide (is_Some (walk (phys s) (active s) a)).

Definition services_wf s : Prop :=
  kernel_wf s ∧ kernel_tables s ∧ active s = kernel_pdt s.

Definition services_found s (v size : Z) : Prop :=
  0 < size <= 4194304 ∧ v ≠ 0 ∧ pdt_found s (align_up size 4096 / 4096) 768 v.

#[export] Instance paging_ops : PageOps (paging St) := {|
  pg_allocate := pfa_allocate;
  pg_find := pdt_kernel_find_next_vaddr;
  pg_map := pdt_map_kernel_memory;
  pg_printk := printk;
  pg_mapped := kernel_mapped;
  pg_wf := services_wf;
  pg_found := services_found
|}.

(** States with the same tables offer the same. *)
Lemma same_memory_pages s s' :
  cr3 s' = cr3 s → kernel_pdt s' = kernel_pdt s → kernel_pt s' = kernel_pt s → (∀ a, ld (phys s') a = ld (phys s) a) →
  same_pages s s'.
Proof.
  intros Ec Ed Ep Em. assert (Ea : active s' = active s) by (unfold active; by rewrite Ec). split.
  - intros a. simpl. unfold kernel_mapped. do 2 f_equal. rewrite Ea.
    by rewrite (walk_ext (phys s) (phys s')) by (intros; apply Em).
  - intros v size (? & ? & Hf). split_and!; try done; try lia.
    exact (same_pdt_found (set_pfa (pfa s) s') s _ _ _ ltac:(by split) Hf).
Qed.

Lemma set_pfa_services s p' :
  services_wf s → kernel_wf (set_pfa p' s) → fr_free_set p' ⊆ fr_free_set (pfa s) →
  services_wf (set_pfa p' s) ∧ same_pages s (set_pfa p' s).
Proof.
  intros (Hwf & [Hd Hl Hf Hg] & Ha) Hwf' Hsub. split; [|by apply same_memory_pages].
  split_and!; [done| |done]. split; try done. intros idx Hi Hp.
  destruct (Hg idx Hi Hp) as (?&?&?&[]&Hlv). split_and!; try done.
  unfold live in *. simpl. set_solver.
Qed.

Lemma same_services s s' : same s s' → services_wf s → services_wf s' ∧ same_pages s s'.
Proof.
  intros Hs (Hwf & Hkt & Ha). pose proof Hs as [Ec Ed Ep _ Em]. split; [|by apply same_memory_pages].
  split_and!; [by rewrite <- Hs|by apply (same_kernel_tables s)|].
  by rewrite (same_active _ _ Hs), Ed.
Qed.

(** Mapping keeps the kernel's tables. *)
Lemma grown_services s s' :
  services_wf s → kernel_wf s' → grows s s' →
  (∀ idx, 0 <= idx < 1024 → good_pde s (kernel_pdt s) idx → good_pde s' (kernel_pdt s) idx) →
  services_wf s'.
Proof.
  intros (Hwf & [Hd Hl Hf Hg] & Ha) Hwf' Hgr Hgood.
  pose proof (gr_pdt _ _ Hgr) as Ed. pose proof (gr_pt _ _ Hgr) as Ep.
  assert (Hkeep : ∀ i, 0 <= i < 1024 → hw_present (ld (phys s) (kernel_pdt s + 4 * i)) = true →
    ld (phys s') (kernel_pdt s + 4 * i) = ld (phys s) (kernel_pdt s + 4 * i)).
  { intros i Hi Hp. apply Hgr; [|by apply hw_present_code].
    apply live_word; [by apply kw_live_pdt|by apply kw_pdt|lia]. }
  split_and!; [done| |unfold active; by rewrite (gr_active _ _ Hgr), Ed].
  split; rewrite ?Ed, ?Ep; try done.
  - pose proof (Hkeep 0 ltac:(lia)) as E. rewrite Z.mul_0_r, Z.add_0_r in E. rewrite E; [done|].
    apply Hl.
  - rewrite Hkeep; [done|lia|]. apply Hf.
  - intros idx Hi. apply Hgood; [lia|by apply Hg].
Qed.

Lemma map_services s s' r paddr v size rw pl :
  services_wf s → map_post s s' r (kernel_pdt s) paddr v size rw pl 0 → services_wf s'.
Proof. intros Hsv (Hwf' & Hgr & Hgood & _). by apply (grown_services s). Qed.

(** A mapped address of the kernel resolves through words in use. *)
Lemma kernel_walk_live s a p :
  services_wf s → 0xC0000000 <= a < 4294967296 → walk (phys s) (kernel_pdt s) a = Some p →
  walk_live s (kernel_pdt s) a.
Proof.
  intros (Hwf & Hkt & Ha) Hr Hw. split_and!; [by apply kw_live_pdt|by apply kw_pdt|].
  intros Hp _. apply hw_present_code in Hp.
  destruct (kt_good _ Hkt (a / 4194304) ltac:(Z.to_euclidean_division_equations; lia) Hp)
    as (_&_&_&_&Hl). done.
Qed.

(** What could be accessed still can. *)
Lemma grown_mapped s s' a :
  services_wf s → grows s s' → kernel_mapped s a = true → kernel_mapped s' a = true.
Proof.
  intros Hsv Hg. pose proof Hsv as (_ & _ & Ha). unfold kernel_mapped.
  assert (Ea' : active s' = kernel_pdt s) by (unfold active; by rewrite (gr_active _ _ Hg)). rewrite Ha, Ea'.
  intros [Hr [q Hq]%bool_decide_eq_true_1]%andb_prop. apply andb_prop in Hr as [H1 H2].
  rewrite H1, H2. simpl. apply bool_decide_eq_true_2. exists q.
  apply (grows_walk s); try done; try lia. apply (kernel_walk_live s a q); [done|lia|done].
Qed.

Lemma absent_unmapped s v size a :
  services_wf s → services_found s v size → v <= a < v + align_up size 4096 →
  walk (phys s) (kernel_pdt s) a = None.
Proof.
  intros (Hwf & Hkt & Ha) (Hsz & Hv & Hf) Hr.
  destruct (pdt_found_room s size v Hwf Hkt Hsz Hf Hv) as (Hva & Hv0 & Hv4 & _).
  assert (Hp : 0 <= a mod 4096 < 4096) by (apply Z.mod_pos_bound; lia).
  assert (Hpa : (a - a mod 4096) mod 4096 = 0) by (Z.to_euclidean_division_equations; lia).
  assert (Hsa : align_up size 4096 mod 4096 = 0)
    by (rewrite align_up_page by lia; apply Z.mod_mul; lia).
  destruct (pdt_found_clear s size v (a - a mod 4096) Hwf Hkt Hsz Hf Hv Hpa) as [_ Hc].
  { Z.to_euclidean_division_equations; lia. }
  replace a with (a - a mod 4096 + a mod 4096) by lia. rewrite walk_page by done. unfold walk.
  set (v' := a - a mod 4096) in *.
  destruct (hw_present (pde_of (phys s) (kernel_pdt s) v')) eqn:Hpd; [|done]. cbn [negb].
  assert (Hi : 768 <= v' / 4194304 < 1024) by (unfold v'; Z.to_euclidean_division_equations; lia).
  apply hw_present_code in Hpd. destruct (kt_good _ Hkt _ Hi Hpd) as (_ & Hl & _).
  fold (pde_of (phys s) (kernel_pdt s) v') in Hl. rewrite Hl.
  specialize (Hc Hpd). destruct (hw_present (ld _ _)) eqn:Hpt; [|done].
  apply hw_present_code in Hpt. congruence.
Qed.

(** ** The laws *)

Lemma pages_end (s : St) p n :
  fr_wf s → 0 < n → pages p n ⊆ fr_free_set s →
  0x100000 <= p ∧ p mod 4096 = 0 ∧ p + n * 4096 < 4294967296.
Proof.
  intros Hwf Hn Hsub.
  assert (Hin : ∀ i, 0 <= i < n → p + i * 4096 ∈ fr_managed s).
  { intros i Hi. apply fr_free_managed; [done|]. apply Hsub, elem_of_pages. by exists i. }
  destruct (fr_managed_ok s _ Hwf (Hin 0 ltac:(lia))) as (?&?&_).
  destruct (fr_managed_ok s _ Hwf (Hin (n - 1) ltac:(lia))) as (_&_&?).
  rewrite Z.mul_0_l, Z.add_0_r in *. lia.
Qed.

Lemma services_allocate s n :
  services_wf s → is_u32 n →
  ∃ p s', pfa_allocate n s = Ok (p, s') ∧ services_wf s' ∧ same_pages s s' ∧
    (p ≠ 0 → 0 <= p ∧ p mod 4096 = 0 ∧ p + n * 4096 < 4294967296).
Proof.
  intros Hsv Hn. pose proof Hsv as (Hwf & _).
  destruct (fr_allocate_spec (pfa s) n (kw_frames _ Hwf) Hn) as (p & p' & E & Hp' & Hm & Hpool).
  assert (Hsub : fr_free_set p' ⊆ fr_free_set (pfa s)).
  { destruct Hpool as [(_&->&_)|(_&_&->)]; set_solver. }
  assert (Hwf' : kernel_wf (set_pfa p' s)) by (apply (kernel_wf_mem s); simpl; try done; apply Hwf).
  destruct (set_pfa_services s p' Hsv Hwf' Hsub).
  exists p, (set_pfa p' s). split_and!; [unfold pfa_allocate, zoom; by rewrite E|done|done|].
  intros Hp. destruct Hpool as [(?&_)|(Hn0&Hin&_)]; [done|].
  destruct (pages_end (pfa s) p n (kw_frames _ Hwf) Hn0 Hin). lia.
Qed.

Lemma services_map s p v size rw pl :
  services_wf s → is_u32 p → p mod 4096 = 0 → 0 < size <= 4194304 → services_found s v size →
  ∃ r s', pdt_map_kernel_memory p v size rw pl s = Ok (r, s') ∧ services_wf s' ∧
    (∀ a, kernel_mapped s a = true → kernel_mapped s' a = true) ∧
    (r = 0 ∨ r = align_up size 4096 ∧
     ∀ a, v <= a < v + align_up size 4096 → kernel_mapped s' a = true).
Proof.
  intros Hsv Hp Hpa Hsz (_ & Hv & Hf). pose proof Hsv as (Hwf & Hkt & Ha).
  destruct (found_map_args s s size v p Hwf Hkt ltac:(done) Hsz Hf Hv Hp Hpa) as [Hargs _].
  destruct (pdt_found_room s size v Hwf Hkt Hsz Hf Hv) as (Hva & Hv0 & Hv4 & _).
  destruct (pdt_map_memory_spec s _ _ p v size rw pl Hargs) as (r & s' & E & Hpost).
  pose proof (map_services s s' r p v _ rw pl Hsv Hpost) as Hsv'.
  destruct Hpost as (Hwf' & Hg & _ & Hres).
  assert (Ea' : active s' = kernel_pdt s) by (unfold active; by rewrite (gr_active _ _ Hg)).
  exists r, s'. split_and!; [|done| |].
  - unfold pdt_map_kernel_memory. by rewrite (bind_ok _ _ s (kernel_pdt s) s).
  - intros a. by apply grown_mapped.
  - destruct Hres as [(-> & Hpages)|(-> & _)]; [right|by left]. split; [done|].
    intros a Hr. unfold kernel_mapped.
    destruct (Z.leb_spec 0xC0000000 a); [|lia]. destruct (Z.ltb_spec a 4294967296); [|lia]. simpl.
    apply bool_decide_eq_true_2. rewrite Ea'.
    assert (Hsa : align_up size 4096 mod 4096 = 0)
      by (rewrite align_up_page by lia; apply Z.mod_mul; lia).
    destruct (Hpages ((a - v) / 4096)) as [Hm _]; [Z.to_euclidean_division_equations; lia|].
    replace a with (v + 4096 * ((a - v) / 4096) + (a - v) mod 4096)
      by (Z.to_euclidean_division_equations; lia).
    eexists. apply (maps_page_walk s' _ _ _ rw pl _ Hm).
    + Z.to_euclidean_division_equations; lia.
    + unfold u32. Z.to_euclidean_division_equations; lia.
    + apply u32_range.
    + apply Z.mod_pos_bound. lia.
Qed.

#[export] Instance paging_laws : PageLaws (paging St).
Proof.
  split; simpl.
  - apply services_allocate.
  - intros s size Hsv Hsz. pose proof Hsv as (Hwf & Hkt & Ha).
    destruct (pdt_kernel_find_next_vaddr_ok s size Hwf Hkt Hsz) as (v & s' & E & Hs & Hf).
    destruct (same_services s s' Hs Hsv). exists v, s'. split_and!; try done.
    intros Hv. split_and!; try done; try lia. apply (same_pdt_found s' s); [by symmetry|done].
  - intros s v size Hsv Hf. pose proof Hsv as (Hwf & Hkt & Ha). pose proof Hf as (Hsz & Hv & Hpf).
    destruct (pdt_found_room s size v Hwf Hkt Hsz Hpf Hv) as (?&?&?&_). split_and!; [done..|].
    intros a Hr. unfold kernel_mapped. rewrite Ha, (absent_unmapped s v size a Hsv Hf Hr).
    by rewrite andb_false_r.
  - apply services_map.
  - intros s fmt args Hsv. pose proof Hsv as (Hwf & _).
    destruct (printk_ok s fmt args Hwf) as (p' & E & Hwf' & Hfr & Hm).
    destruct (set_pfa_services s p' Hsv Hwf') as [? ?]; [by rewrite Hfr|].
    by exists (set_pfa p' s).
Qed.
End services.

(** ** At the concrete machine *)

Lemma demo_services : services_wf demo_machine.
Proof. split_and!; [apply demo_wf|apply demo_tables|done]. Qed.
