(* ===== verification/ProcessPages.v ===== *)
(** * ProcessPages: the pages of a process under construction

    [private]: a directory made by [pdt_create] that no processor has loaded yet.
    Each call of paging.c that [process_create] makes keeps it, and succeeds when
    enough frames and entries of the kernel's directory are left ([supply]). *)

From S2P Require Import Prelude CArith Interfaces Frames Mmu Paging PagingFacts PageMap PdtMap PageFind PdtCreate PageUnmap PageServices PagingServices.

Section pages.
Context {St : Type} `{!FrameOps St, !FrameLaws St}.
Implicit Types (s : paging St) (D X : gset Z).

(** ** What is left *)

Definition absent_tables s X : Prop := ∀ idx, idx ∈ X →
  768 <= idx < 1024 ∧ IS_ENTRY_PRESENT (ld (phys s) (kernel_pdt s + 4 * idx)) = false.

(** [f] free frames, and [t] absent entries in the kernel's quarter of its directory. *)
Definition supply s (f t : nat) : Prop :=
  (f <= size (fr_free_set (pfa s)))%nat ∧ ∃ X, (t <= size X)%nat ∧ absent_tables s X.

(** One element less. *)
Lemma size_minus_one (A B : gset Z) (x : Z) (n : nat) :
  A ⊆ {[x]} ∪ B → (S n <= size A)%nat → (n <= size B)%nat.
Proof.
  intros Hsub%subseteq_size Hn. rewrite size_union_alt, size_singleton in Hsub.
  pose proof (subseteq_size (B ∖ {[x]}) B ltac:(set_solver)). lia.
Qed.

Lemma supply_kept s s' f t :
  (f <= size (fr_free_set (pfa s')))%nat → kernel_pdt s' = kernel_pdt s →
  (∀ i, 0 <= i < 1024 → ld (phys s') (kernel_pdt s + 4 * i) = ld (phys s) (kernel_pdt s + 4 * i)) →
  (∃ f', supply s f' t) → supply s' f t.
Proof.
  intros Hf Ek Hw (f' & _ & X & Ht & HX). split; [done|]. exists X. split; [done|].
  intros idx Hi. destruct (HX idx Hi). rewrite Ek, Hw by lia. done.
Qed.

Lemma supply_vacancy s f t : supply s f (S t) → has_vacancy s.
Proof.
  intros (_ & X & Ht & HX). destruct (set_choose_L X) as [idx Hi].
  { intros ->. rewrite size_empty in Ht. lia. }
  destruct (HX idx Hi) as [Hr Hno]. exists idx. split; [done|]. cbv zeta. congruence.
Qed.

Lemma supply_frame s f t : supply s (S f) t → fr_free_set (pfa s) ≠ ∅.
Proof. intros [Hf _] E. rewrite E, size_empty in Hf. lia. Qed.

(** [F] was free in [s] and is no more in [s']; it is a frame. *)
Definition taken s s' (F : Z) : Prop :=
  F ∈ fr_free_set (pfa s) ∧ F ∉ fr_free_set (pfa s') ∧ F mod 4096 = 0 ∧ 0x100000 <= F ∧ F + 4096 < 4294967296.

Lemma taken_grows s s1 s2 s' F : grows s s1 → grows s2 s' → taken s1 s2 F → taken s s' F.
Proof.
  intros Hg1 Hg2 (H1 & H2 & H). split; [by apply (gr_free _ _ Hg1)|]. split; [|done].
  intros Hin. by apply H2, (gr_free _ _ Hg2).
Qed.

Lemma taken_ne s s1 s2 s' F G : taken s s1 F → grows s1 s2 → taken s2 s' G → F ≠ G.
Proof. intros (_ & H & _) Hg (HG & _) ->. by apply H, (gr_free _ _ Hg). Qed.
(** ** A directory under construction *)

(** The directory in the frame [P], mapped at [v]: it shares no frame with the
    kernel's tables, and its entries outside of [D] are absent. *)
Record private s (v P : Z) D : Prop := Private {
  pv_services : services_wf s;
  pv_dir : directory s v P;
  pv_vaddr : 0xC0000000 <= v;
  pv_frame : 0x100000 <= P < 4294967296;
  pv_not_kernel : P ≠ kernel_pdt s;
  pv_tables idx : 768 <= idx < 1024 →
    let e := ld (phys s) (kernel_pdt s + 4 * idx) in IS_ENTRY_PRESENT e = true → hw_base e ≠ P;
  pv_good idx : 0 <= idx < 1024 → good_pde s P idx;
  pv_absent idx : 0 <= idx < 1024 → idx ∉ D → IS_ENTRY_PRESENT (ld (phys s) (P + 4 * idx)) = false
}.

Lemma private_loadable s v P D : private s v P D → loadable s v P.
Proof.
  intros [(Hwf & Hkt & Ha) Hdir Hv HP HK Ht Hg _]. pose proof Hdir as [(Hva & Hv0 & Hv4) Hw _ _ _ _].
  split; [done|lia|by rewrite Ha|done| |done|].
  - intros _. rewrite Ha. apply Ht; [Z.to_euclidean_division_equations; lia|].
    apply hw_present_code. rewrite Ha in Hw. revert Hw. unfold walk.
    fold (pde_of (phys s) (kernel_pdt s) v). by destruct (hw_present (pde_of _ _ v)).
  - intros idx Hi e Hp. by apply (Hg idx ltac:(lia)).
Qed.

(** Steps that leave its words and those of the kernel's directory alone. *)
Lemma private_kept s s' v P D :
  private s v P D → services_wf s' → grows s s' →
  (∀ i, 0 <= i < 1024 → ld (phys s') (P + 4 * i) = ld (phys s) (P + 4 * i)) →
  (∀ idx, 768 <= idx < 1024 →
     let e := ld (phys s') (kernel_pdt s + 4 * idx) in IS_ENTRY_PRESENT e = true → hw_base e ≠ P) →
  private s' v P D.
Proof.
  intros [(Hwf & Hkt & Ha) Hdir Hv HP HK _ Hg Hno] Hsv Hgr Hw Ht.
  split; try done; rewrite ?(gr_pdt _ _ Hgr); try done.
  - by apply (grows_directory s).
  - intros idx Hi. apply (good_kept s); [done|by apply Hw|by apply Hg].
  - intros idx Hi HD. rewrite Hw by done. by apply Hno.
Qed.

Lemma kernel_word_live s i : kernel_wf s → 0 <= i < 1024 → live s (kernel_pdt s + 4 * i).
Proof. intros Hwf Hi. apply live_word; [by apply kw_live_pdt|by apply kw_pdt|lia]. Qed.

(** Words of different tables. *)
Lemma words_apart (A B i j : Z) :
  A mod 4096 = 0 → B mod 4096 = 0 → A ≠ B → 0 <= i < 1024 → 0 <= j < 1024 → A + 4 * i ≠ B + 4 * j.
Proof. intros. apply frame_word_ne; done || lia. Qed.

(** ** Taking a frame *)

Lemma take_frame s f t :
  services_wf s → supply s (S f) t →
  ∃ F p', pfa_allocate 1 s = Ok (F, set_pfa p' s) ∧ services_wf (set_pfa p' s) ∧ grows s (set_pfa p' s) ∧
    supply (set_pfa p' s) f t ∧ F ∈ fr_free_set (pfa s) ∧ F ∉ fr_free_set p' ∧
    F mod 4096 = 0 ∧ 0x100000 <= F ∧ F + 4096 < 4294967296.
Proof.
  intros Hsv Hsup. pose proof Hsv as (Hwf & _).
  destruct (pfa_one s Hwf) as [(Hempty & _)|(F & p' & E & Hwf1 & HF & Hf & Hm & HFa & HF0 & HF4)].
  { by destruct (supply_frame s f t Hsup). }
  exists F, p'. split_and!; try done.
  - apply set_pfa_services; [done|done|]. rewrite Hf. set_solver.
  - apply set_pfa_grows; [rewrite Hf; set_solver|done].
  - destruct Hsup as [Hn HX]. split; [|exact HX]. simpl. rewrite Hf.
    apply (size_minus_one (fr_free_set (pfa s)) _ F); [|done].
    intros a Ha. destruct (decide (a = F)); set_solver.
  - rewrite Hf. set_solver.
Qed.

Lemma private_set_pfa s p' v P D :
  private s v P D → services_wf (set_pfa p' s) → grows s (set_pfa p' s) → private (set_pfa p' s) v P D.
Proof. intros Hp Hsv Hg. apply (private_kept s); try done. apply Hp. Qed.

Lemma supply_same s s' f t : same s s' → supply s f t → supply s' f t.
Proof.
  intros [_ Ed _ Ef Em] Hsup. apply (supply_kept s); [rewrite Ef; apply Hsup|done|by intros|by exists f].
Qed.

Lemma private_same s s' v P D : same s s' → private s v P D → private s' v P D.
Proof.
  intros Hs Hp. pose proof (pv_services _ _ _ _ Hp) as Hsv. destruct (same_services s s' Hs Hsv) as [Hsv' _].
  apply (private_kept s); [done|done|by apply same_grows|intros; apply Hs|].
  intros idx Hi. rewrite (sm_ld _ _ Hs). by apply Hp.
Qed.

(** ** Finding a page *)

Lemma align_one size : 0 < size <= 4096 → align_up size 4096 = 4096.
Proof. intros. rewrite align_up_page by lia. Z.to_euclidean_division_equations; lia. Qed.

Lemma find_page s size f t :
  services_wf s → supply s f (S t) → 0 < size <= 4194304 →
  ∃ v s', pdt_kernel_find_next_vaddr size s = Ok (v, s') ∧ same s s' ∧ services_found s' v size ∧
    0 < v < 4294963200.
Proof.
  intros (Hwf & Hkt & Ha) Hsup Hsz.
  destruct (pdt_kernel_find_next_vaddr_ok s size Hwf Hkt Hsz) as (v & s' & E & Hs & Hf).
  destruct Hsup as (_ & X & Ht & HX). destruct (set_choose_L X) as [x Hx].
  { intros ->. rewrite size_empty in Ht. lia. }
  destruct (HX x Hx) as [Hxr Hno].
  assert (Hv : v ≠ 0).
  { destruct Hf as [(_ & Hfull)|(idx & Hi & _ & [(_ & ->)|(_ & ? & _)])]; [|lia|done].
    destruct (Hfull x Hxr). congruence. }
  destruct (pdt_found_room s size v Hwf Hkt Hsz Hf Hv) as (Hva & Hv0 & Hv4 & _).
  exists v, s'. split; [done|]. split; [done|]. split.
  - split; [done|]. split; [done|]. apply (same_pdt_found s' s); [by symmetry|done].
  - split; [lia|]. assert (4096 <= align_up size 4096).
    { rewrite align_up_page by lia. Z.to_euclidean_division_equations; lia. }
    destruct Hf as [(-> & _)|(idx & Hi & Hfull & [(_ & ->)|(Hp & _ & [(org & -> & ? & ? & _)|(-> & _)])])]; [done|lia| |done].
    assert (x ≠ idx) by congruence.
    assert (~ x < idx) by (intros Hlt; destruct (Hfull x ltac:(lia)); congruence).
    Z.to_euclidean_division_equations; lia.
Qed.

(** ** Mapping a page *)

(** The table a turn wrote in was there, or is in a frame that was free. *)
Lemma mapped_table s s' pdt Q idx T i n paddr rw pl :
  directory s pdt Q → 0 <= idx < 1024 → mapped s s' Q idx T i n paddr rw pl →
  ¬ live s T ∨ let e := ld (phys s) (Q + 4 * idx) in IS_ENTRY_PRESENT e = true ∧ hw_base e = T.
Proof.
  intros Hdir Hi Hm. destruct (IS_ENTRY_PRESENT (ld (phys s) (Q + 4 * idx))) eqn:Hp.
  - right. split; [done|]. destruct (mp_pde _ _ _ _ _ _ _ _ _ _ Hm) as (_ & _ & <-). f_equal. symmetry.
    apply (mp_grows _ _ _ _ _ _ _ _ _ _ Hm); [|done]. by apply (dir_word_live s pdt).
  - left. by apply (mp_fresh _ _ _ _ _ _ _ _ _ _ Hm).
Qed.

Section kernel_map.
Context s s' (idx T i : Z) {n : nat} (paddr rw pl : Z) (Hsv : services_wf s) (Hi : 768 <= idx < 1024).
Context (Hm : mapped s s' (kernel_pdt s) idx T i n paddr rw pl).

Lemma kernel_mapped_services : services_wf s'.
Proof using All.
  pose proof Hsv as (Hwf & Hkt & _). apply (grown_services s); [done|apply Hm..|].
  intros j Hj. apply (mapped_good s s' _ _ idx T i n paddr rw pl j Hwf (kernel_directory s Hwf Hkt) Hm); lia.
Qed.

Lemma kernel_mapped_pde j :
  0 <= j < 1024 → j ≠ idx → ld (phys s') (kernel_pdt s + 4 * j) = ld (phys s) (kernel_pdt s + 4 * j).
Proof using All.
  pose proof Hsv as (Hwf & Hkt & _). intros Hj Hne.
  apply (mapped_pde s s' _ _ idx T i n paddr rw pl j Hwf (kernel_directory s Hwf Hkt) Hm); done || lia.
Qed.

Lemma kernel_mapped_supply f t : supply s (S f) (S t) → supply s' f t.
Proof using All.
  intros (Hf & X & Ht & HX). split; [by apply (size_minus_one (fr_free_set (pfa s)) _ T); [apply Hm|]|].
  exists (X ∖ {[idx]}). split; [apply (size_minus_one X _ idx); [|done]|].
  - intros a Ha. destruct (decide (a = idx)); set_solver.
  - intros j [Hj Hne]%elem_of_difference. destruct (HX j Hj). split; [done|].
    rewrite (gr_pdt _ _ (mp_grows _ _ _ _ _ _ _ _ _ _ Hm)), kernel_mapped_pde by (set_solver || lia). done.
Qed.

Lemma kernel_mapped_apart v P D : private s v P D → T ≠ P.
Proof using All.
  intros [(Hwf & Hkt & _) Hdir Hv HP HK Ht _ _].
  destruct (mapped_table s s' _ _ idx T i n paddr rw pl (kernel_directory s Hwf Hkt) ltac:(lia) Hm)
    as [Hl|(Hp & <-)]; [|by apply Ht]. intros ->. by apply Hl, Hdir.
Qed.

Lemma kernel_mapped_word v P D j :
  private s v P D → 0 <= j < 1024 → ld (phys s') (P + 4 * j) = ld (phys s) (P + 4 * j).
Proof using All.
  intros Hpv Hj. pose proof (kernel_mapped_apart v P D Hpv) as HT.
  destruct Hpv as [(Hwf & Hkt & _) Hdir Hv HP HK Ht _ _]. destruct (kw_pdt _ Hwf) as (HKa & _).
  apply (mp_others _ _ _ _ _ _ _ _ _ _ Hm); [by apply (dir_word_live s v)| |].
  - apply words_apart; try done; [apply Hdir|lia].
  - rewrite hw_base_word; [by apply not_eq_sym|apply Hdir|lia].
Qed.

Lemma kernel_mapped_private v P D : private s v P D → private s' v P D.
Proof using All.
  intros Hpv. apply (private_kept s); [done|apply kernel_mapped_services|apply Hm| |].
  - intros j Hj. by apply (kernel_mapped_word v P D).
  - intros j Hj e. unfold e. destruct (decide (j = idx)) as [->|Hne].
    + destruct (mp_pde _ _ _ _ _ _ _ _ _ _ Hm) as (_ & _ & ->). intros _.
      by apply (kernel_mapped_apart v P D).
    + rewrite kernel_mapped_pde by (done || lia). by apply Hpv.
Qed.

(** The table written is not the kernel's directory. *)
Lemma kernel_mapped_table : T mod 4096 = 0 ∧ T ≠ kernel_pdt s.
Proof using All.
  pose proof Hsv as (_ & _ & Ha). destruct (mp_pde _ _ _ _ _ _ _ _ _ _ Hm) as (Hp & _ & Hb).
  destruct (mp_good _ _ _ _ _ _ _ _ _ _ Hm (hw_present_code _ Hp)) as (_ & _ & HTK & Htf & _).
  rewrite Hb in *. split; [apply Htf|done].
Qed.
End kernel_map.

(** At an address found: the pages of one table. *)
Lemma kernel_pages s v size paddr rw pl f t :
  services_wf s → supply s (S f) t → services_found s v size → is_u32 paddr → paddr mod 4096 = 0 →
  ∃ T s' n, pdt_map_kernel_memory paddr v size rw pl s = Ok (align_up size 4096, s') ∧
    align_up size 4096 = 4096 * Z.of_nat n ∧ 768 <= v / 4194304 < 1024 ∧
    v / 4096 mod 1024 + Z.of_nat n <= 1024 ∧
    mapped s s' (kernel_pdt s) (v / 4194304) T (v / 4096 mod 1024) n paddr rw pl.
Proof.
  intros (Hwf & Hkt & Ha) Hsup (Hsz & Hv & Hf) Hp Hpa.
  destruct (pdt_found_room s size v Hwf Hkt Hsz Hf Hv) as (Hva & Hv0 & Hv4 & _).
  destruct (pdt_found_shape s size v Hwf Hkt Hsz Hf Hv) as (idx & org & num & Es & Hnum & Hidx & Ev & Ho & Hon & _).
  destruct (found_map_args s s size v paddr Hwf Hkt ltac:(done) Hsz Hf Hv Hp Hpa) as [Hargs Hroom].
  specialize (Hroom (or_introl (supply_frame _ _ _ Hsup))).
  assert (Hin : v / 4096 mod 1024 + num <= 1024 ∧ v / 4194304 = idx).
  { subst v. clear -Ho Hon Hnum Hidx. Z.to_euclidean_division_equations; lia. }
  destruct (pdt_map_one_table s _ _ paddr v size rw pl (Z.to_nat num) Hargs) as (T & s' & E & Hm); [lia..|done|].
  exists T, s', (Z.to_nat num). split_and!; [|lia..|done].
  unfold pdt_map_kernel_memory. by rewrite (bind_ok _ _ s (kernel_pdt s) s).
Qed.

Lemma kernel_page s v size paddr rw pl f t :
  services_wf s → supply s (S f) t → services_found s v size → 0 < size <= 4096 →
  is_u32 paddr → paddr mod 4096 = 0 →
  ∃ T s', pdt_map_kernel_memory paddr v size rw pl s = Ok (4096, s') ∧ 768 <= v / 4194304 < 1024 ∧
    mapped s s' (kernel_pdt s) (v / 4194304) T (v / 4096 mod 1024) 1 paddr rw pl ∧
    maps_page s' (kernel_pdt s) v paddr rw pl.
Proof.
  intros Hsv Hsup Hfd Hal%align_one Hp Hpa.
  destruct (kernel_pages s v size paddr rw pl f t Hsv Hsup Hfd Hp Hpa) as (T & s' & n & E & En & Hi & Hin & Hm).
  rewrite Hal in *. assert (n = 1%nat) as -> by lia. destruct Hsv as (Hwf & Hkt & Ha), Hfd as (Hsz & Hv & Hf).
  destruct (pdt_found_room s size v Hwf Hkt Hsz Hf Hv) as (Hva & Hv0 & Hv4 & _).
  exists T, s'. split_and!; [done|lia..|done|].
  pose proof (mapped_maps s s' _ _ v T 1 paddr rw pl 0 Hwf (kernel_directory s Hwf Hkt) Hm Hva) as H.
  rewrite Z.mul_0_r, !Z.add_0_r, u32_small in H by lia. apply H; try lia.
Qed.

(** In the directory under construction, where no table is yet. *)
Lemma private_page s v P D va size paddr rw pl f t :
  private s v P D → supply s (S f) t → va / 4194304 ∉ D → 0 <= va < 0xC0000000 → va mod 4096 = 0 →
  0 < size <= 4096 → is_u32 paddr → paddr mod 4096 = 0 →
  ∃ s', pdt_map_memory v paddr va size rw pl s = Ok (4096, s') ∧ private s' v P ({[va / 4194304]} ∪ D) ∧
    grows s s' ∧ supply s' f t ∧ maps_page s' P va paddr rw pl.
Proof.
  intros Hpv Hsup HD Hva Hvaa H0 Hp Hpa. pose proof (align_one size H0) as Hal. pose proof Hpv as [Hsv Hdir Hv HP HK Ht Hg Hno].
  pose proof Hsv as (Hwf & Hkt & Ha). set (idx := va / 4194304) in *.
  assert (Hi : 0 <= idx < 768) by (unfold idx; Z.to_euclidean_division_equations; lia).
  assert (Hspan : ∀ j, idx <= j <= (va + 4096 - 1) / 4194304 → j = idx)
    by (intros j; unfold idx; Z.to_euclidean_division_equations; lia).
  specialize (Hno idx ltac:(lia) HD) as Habs.
  destruct (pdt_map_page s v P paddr va size rw pl) as (T & s' & E & Hm).
  { split; rewrite ?Hal; try done; try lia.
    - intros j ->%Hspan. apply Hg. lia.
    }
  { done. }
  { split.
    - by intros j j' ->%Hspan ->%Hspan.
    - intros v' Hv' Hr. split; [change KERNEL_TMP_VADDR with 3225415680; lia|]. unfold pde_of.
      replace (v' / 4194304) with idx by (unfold idx; Z.to_euclidean_division_equations; lia). congruence.
    - unfold spans. fold idx. replace ((va + 4096 - 1) / 4194304 - idx + 1) with 1
        by (unfold idx; Z.to_euclidean_division_equations; lia).
      rewrite seqZ_step, missing_cons, seqZ_nil, Habs by lia. destruct Hsup as [? _]. simpl.
      change (missing s P []) with 0%nat. lia. }
  fold idx in Hm. pose proof (mp_grows _ _ _ _ _ _ _ _ _ _ Hm) as Hgr.
  destruct (mp_pde _ _ _ _ _ _ _ _ _ _ Hm) as (HpT & _ & HbT).
  destruct (mp_good _ _ _ _ _ _ _ _ _ _ Hm (hw_present_code _ HpT)) as (_ & _ & HTP & Htf & _).
  rewrite HbT in HTP, Htf.
  assert (Ea : active s' = kernel_pdt s) by (unfold active; by rewrite (gr_active _ _ Hgr)).
  assert (HwK : ∀ j, 0 <= j < 1024 → ld (phys s') (kernel_pdt s + 4 * j) = ld (phys s) (kernel_pdt s + 4 * j)).
  { intros j Hj. destruct (kw_pdt _ Hwf) as (HKa & _).
    apply (mp_others _ _ _ _ _ _ _ _ _ _ Hm); [by apply kernel_word_live| |].
    - apply words_apart; try done; [apply Hdir|lia].
    - rewrite hw_base_word by (done || lia). rewrite <- Ea. apply not_eq_sym, Htf. }
  assert (Hsv' : services_wf s').
  { apply (grown_services s); [done|apply Hm|done|]. intros j Hj. apply good_kept; [done|by apply HwK]. }
  exists s'. split_and!; [done| |done| |].
  - split; rewrite ?(gr_pdt _ _ Hgr); try done.
    + by apply (grows_directory s).
    + intros j Hj. rewrite HwK by lia. by apply Ht.
    + intros j Hj. apply (mapped_good s s' v P idx T _ 1 paddr rw pl j Hwf Hdir Hm); [lia|done|by apply Hg].
    + intros j Hj Hn. rewrite (mapped_pde s s' v P idx T _ 1 paddr rw pl j Hwf Hdir Hm); try lia; [|set_solver].
      apply Hno; [done|set_solver].
  - apply (supply_kept s); [|apply Hgr|done|by exists (S f)].
    destruct Hsup as [Hf _]. by apply (size_minus_one (fr_free_set (pfa s)) _ T); [apply Hm|].
  - pose proof (mapped_maps s s' _ _ va T 1 paddr rw pl 0 Hwf Hdir Hm Hvaa) as H.
    rewrite Z.mul_0_r, !Z.add_0_r, u32_small in H by lia. apply H; try lia.
    pose proof (Z.mod_pos_bound (va / 4096) 1024). lia.
Qed.

(** ** A page mapped and unmapped again *)

Lemma unmap_page fuel s s1 T v size paddr rw pl :
  (2 <= fuel)%nat → services_wf s → services_found s v size → 0 < size <= 4096 → v < 4294963200 →
  768 <= v / 4194304 < 1024 →
  mapped s s1 (kernel_pdt s) (v / 4194304) T (v / 4096 mod 1024) 1 paddr rw pl →
  ∃ s2, pdt_unmap_kernel_memory fuel v size s1 = Ok (4096, s2) ∧ services_wf s2 ∧ grows s s2 ∧
    pfa s2 = pfa s1 ∧
    (∀ a, a ≠ T + 4 * (v / 4096 mod 1024) → ld (phys s2) a = ld (phys s1) a).
Proof.
  intros Hfuel Hsv (Hsz & Hv & Hf) H0 Hv4 Hi Hm. pose proof Hsv as (Hwf & Hkt & Ha). pose proof (align_one size H0) as Hal.
  pose proof (kernel_mapped_services s s1 _ _ _ _ _ _ Hsv Hi Hm) as Hsv1. pose proof Hsv1 as (Hwf1 & Hkt1 & Ha1).
  destruct (kernel_mapped_table s s1 _ _ _ _ _ _ Hsv Hi Hm) as [HTa HTK].
  pose proof (mp_grows _ _ _ _ _ _ _ _ _ _ Hm) as Hg1. pose proof (gr_pdt _ _ Hg1) as EK.
  destruct (mp_pde _ _ _ _ _ _ _ _ _ _ Hm) as (Hp1 & _ & Hb1).
  destruct (pdt_found_room s size v Hwf Hkt Hsz Hf Hv) as (Hva & Hv0 & _ & _).
  destruct (pdt_found_clear s size v v Hwf Hkt Hsz Hf Hv Hva ltac:(lia)) as [Hw Hclear].
  set (idx := v / 4194304) in *. set (i := v / 4096 mod 1024) in *.
  assert (Hir : 0 <= i < 1024) by (apply Z.mod_pos_bound; lia).
  assert (Hargs : unmap_args s1 (kernel_pdt s1) (kernel_pdt s1) v size).
  { split; try done; try lia; fold idx i.
    - by apply kernel_directory.
    - apply (kt_good _ Hkt1). done.
    - rewrite EK. by apply hw_present_code.
    - replace ((size + 4095) / 4096) with 1 by (Z.to_euclidean_division_equations; lia).
      destruct (Z.eqb_spec idx 768) as [E|]; [|lia]. assert (i ≠ 1023); [|lia]. intros E'. apply Hw.
      change KERNEL_TMP_VADDR with 3225415680. unfold idx, i in *. Z.to_euclidean_division_equations; lia. }
  destruct (pdt_unmap_memory_ok fuel s1 _ _ v size Hfuel Hargs) as (s2 & E & Hwf2 & Ht2 & Hu).
  fold idx i in Hu. rewrite EK, Hb1, Hal in Hu. rewrite Hal in E. change (4096 / 4096) with 1 in Hu.
  destruct Hu as [Ec Ed Ep Ef _ Hout _].
  assert (Hout' : ∀ a, a ≠ T + 4 * i → ld (phys s2) a = ld (phys s1) a).
  { intros a Hne. apply Hout. intros k Hk ->. apply Hne. f_equal. lia. }
  assert (HwK : ∀ j, 0 <= j < 1024 → ld (phys s2) (kernel_pdt s1 + 4 * j) = ld (phys s1) (kernel_pdt s1 + 4 * j)).
  { intros j Hj. apply Hout'. apply words_apart; try done; [apply Hwf1|by rewrite EK; apply not_eq_sym]. }
  assert (Ea : active s2 = active s1) by (unfold active; by rewrite Ec).
  exists s2. split; [|split; [|split; [|split; [exact Ef|exact Hout']]]].
  - unfold pdt_unmap_kernel_memory. by rewrite (bind_ok _ _ s1 (kernel_pdt s1) s1).
  - split; [done|]. split; [|by rewrite Ea, Ed].
    destruct Hkt1 as [Hd Hl Hfst Hg]. split; rewrite ?Ed, ?Ep; try done.
    + pose proof (HwK 0 ltac:(lia)) as E0. rewrite Z.mul_0_r, Z.add_0_r in E0. by rewrite E0.
    + by rewrite HwK by lia.
    + intros j Hj. unfold good_pde. rewrite HwK by lia. intros Hpj. destruct (Hg j Hj Hpj) as (?&?&?&[]&?).
      unfold live. rewrite Ef. split_and!; try done. split; rewrite ?Ea, ?Ep; done.
  - destruct Hg1 as [Gc Gd Gp Gf Gm Gw Gk]. split; rewrite ?Ef; try (congruence || exact Gf).
    intros a Hl Hp. rewrite Hout'; [by apply Gk|]. intros ->.
    destruct (mapped_table s s1 _ _ idx T i 1 paddr rw pl (kernel_directory s Hwf Hkt) ltac:(lia) Hm)
      as [HlT|(Hpd & Hb)].
    + apply HlT. unfold live in *. by rewrite hw_base_word, <- (hw_base_id T) in Hl by (done || lia).
    + unfold pde_of, pte_addr in Hclear. fold idx i in Hclear. rewrite Hb in Hclear. rewrite Hclear in Hp; done.
Qed.

Lemma scratch_page fuel s v size paddr rw pl f t w P D :
  (2 <= fuel)%nat → private s w P D → supply s (S f) (S t) → services_found s v size → 0 < size <= 4096 →
  v < 4294963200 → is_u32 paddr → paddr mod 4096 = 0 →
  ∃ s1 s2, pdt_map_kernel_memory paddr v size rw pl s = Ok (4096, s1) ∧
    pdt_unmap_kernel_memory fuel v size s1 = Ok (4096, s2) ∧ private s2 w P D ∧ supply s2 f t ∧ grows s s2.
Proof.
  intros Hfuel Hpv Hsup Hf Hsz Hv4 Hp Hpa. pose proof (pv_services _ _ _ _ Hpv) as Hsv.
  destruct (kernel_page s v size paddr rw pl f (S t) Hsv Hsup Hf Hsz Hp Hpa) as (T & s1 & E1 & Hi & Hm & _).
  destruct (unmap_page fuel s s1 T v size paddr rw pl Hfuel Hsv Hf Hsz Hv4 Hi Hm)
    as (s2 & E2 & Hsv2 & Hg & Ef & Hout).
  destruct (kernel_mapped_table s s1 _ _ _ _ _ _ Hsv Hi Hm) as [HTa HTK].
  pose proof (kernel_mapped_private s s1 _ _ _ _ _ _ Hsv Hi Hm w P D Hpv) as Hpv1.
  pose proof (gr_pdt _ _ (mp_grows _ _ _ _ _ _ _ _ _ _ Hm)) as EK.
  assert (HwK : ∀ j, 0 <= j < 1024 → ld (phys s2) (kernel_pdt s + 4 * j) = ld (phys s1) (kernel_pdt s + 4 * j)).
  { intros j Hj. apply Hout. apply words_apart; try done; [apply Hsv|]. apply Z.mod_pos_bound. lia. }
  exists s1, s2. split; [done|]. split; [done|]. split; [|split; [|done]].
  - apply (private_kept s); [done..| |].
    + intros j Hj. rewrite <- (kernel_mapped_word s s1 _ _ _ _ _ _ Hsv Hi Hm w P D j Hpv Hj). apply Hout.
      apply words_apart; try done; [apply Hpv| |apply Z.mod_pos_bound; lia].
      apply not_eq_sym, (kernel_mapped_apart s s1 _ _ _ _ _ _ Hsv Hi Hm w P D Hpv).
    + intros j Hj. rewrite HwK, <- EK by lia. by apply Hpv1.
  - pose proof (kernel_mapped_supply s s1 _ _ _ _ _ _ Hsv Hi Hm f t Hsup) as Hsup1.
    apply (supply_kept s1); [rewrite Ef; apply Hsup1|by rewrite (gr_pdt _ _ Hg), EK|by rewrite EK|by exists f].
Qed.

(** ** Making the directory *)

(** [s'] is [s] with the frame [P] cleared. *)
Record cleared s s' (P : Z) : Prop := Cleared {
  cl_cr3 : cr3 s' = cr3 s;
  cl_pdt : kernel_pdt s' = kernel_pdt s;
  cl_pt : kernel_pt s' = kernel_pt s;
  cl_pfa : pfa s' = pfa s;
  cl_out a : hw_base a ≠ P → ld (phys s') a = ld (phys s) a;
  cl_in i : 0 <= i < 1024 → ld (phys s') (P + 4 * i) = 0
}.

Lemma cleared_zero s P : P mod 4096 = 0 → cleared s (set_phys (zero_words 1024 P 0 (phys s)) s) P.
Proof.
  intros HP. split; [reflexivity..| |].
  - intros a Ha. exact (ld_zero_frame P (phys s) a HP Ha).
  - intros i Hi. by apply zero_words_in.
Qed.

Section make.
Context s p' s3 s' (v P T : Z) (Hsv : services_wf s) (Hmd : mapped_dir s p' s3 v P T).
Context (Hcl : cleared s3 s' P) (Hwf' : kernel_wf s').
Let idx := v / 4194304.

Lemma make_index : 768 <= idx < 1024.
Proof using Hmd. destruct (md_vaddr _ _ _ _ _ _ Hmd). unfold idx. Z.to_euclidean_division_equations; lia. Qed.

Lemma make_taken : services_wf (set_pfa p' s) ∧ ¬ live s P.
Proof using FrameLaws0 Hsv Hmd.
  destruct Hmd as [Hwf1 HP Hl _ (HPa & _) _ _ _]. split; [|by destruct (taken_live s p' P HP HPa Hl)].
  apply set_pfa_services; [done..|]. rewrite Hl. clear. set_solver.
Qed.

Lemma make_kernel_word j :
  0 <= j < 1024 → ld (phys s') (kernel_pdt s + 4 * j) = ld (phys s3) (kernel_pdt s + 4 * j).
Proof using FrameLaws0 Hsv Hmd Hcl.
  destruct make_taken as [_ HnP]. destruct Hsv as (Hwf & _). intros Hj. apply Hcl.
  rewrite hw_base_word; [|apply Hwf|lia]. intros <-. by apply HnP, kw_live_pdt.
Qed.

Lemma make_services : services_wf s'.
Proof using All.
  destruct make_taken as [Hsv1 _]. pose proof make_kernel_word as HwK.
  destruct (kernel_mapped_services _ s3 _ _ _ _ _ _ Hsv1 make_index (md_mapped _ _ _ _ _ _ Hmd)) as (_ & Hkt3 & Ha3).
  pose proof (gr_pdt _ _ (mp_grows _ _ _ _ _ _ _ _ _ _ (md_mapped _ _ _ _ _ _ Hmd))) as EK. simpl in EK.
  destruct Hcl as [Ec Ed Ep Ef _ _]. assert (Ea : active s' = active s3) by (unfold active; by rewrite Ec).
  split; [done|]. split; [|by rewrite Ea, Ed]. destruct Hkt3 as [Hd Hl Hf Hg].
  split; rewrite ?Ed, ?Ep; [done| | |].
  - pose proof (HwK 0 ltac:(lia)) as E0. rewrite Z.mul_0_r, Z.add_0_r in E0. rewrite EK in *. by rewrite E0.
  - rewrite EK in *. by rewrite HwK by lia.
  - intros j Hj. unfold good_pde, live. rewrite EK, HwK, Ef, <- EK by lia. intros Hp.
    destruct (Hg j Hj Hp) as (?&?&?&[]&?). split_and!; try done. split; rewrite ?Ea, ?Ep; done.
Qed.

Lemma make_directory : directory s' v P.
Proof using All.
  pose proof make_index as Hi. destruct make_taken as [_ HnP]. destruct Hsv as (Hwf & Hkt & Ha).
  pose proof (mapped_dir_page s p' s3 v P T Hkt Hmd) as Hpage. pose proof (mapped_dir_table s p' s3 v P T Hkt Hmd) as HT.
  destruct Hmd as [_ HP Hl _ (HPa & HP0 & HP4) (Hva & Hv & Hv4) Hw Hm]. fold idx in Hm.
  pose proof (mp_grows _ _ _ _ _ _ _ _ _ _ Hm) as Hg. destruct (mp_pde _ _ _ _ _ _ _ _ _ _ Hm) as (HpT & HlT & HbT).
  destruct (mp_good _ _ _ _ _ _ _ _ _ _ Hm (hw_present_code _ HpT)) as (_ & _ & _ & [HTa _ _ HTk] & HlvT).
  rewrite HbT in HTk, HlvT, HTa. pose proof (make_kernel_word idx ltac:(lia)) as HwK. destruct Hcl as [Ec Ed Ep Ef Hout _].
  assert (Ea : active s' = kernel_pdt s) by (unfold active in *; by rewrite Ec, (gr_active _ _ Hg)).
  assert (Epde : pde_of (phys s') (kernel_pdt s) v = ld (phys s3) (kernel_pdt s + 4 * idx)) by exact HwK.
  split; rewrite ?Ea; [lia| | |done| |].
  - rewrite (walk_ext (phys s3)); [|done|intros _ _; apply Hout].
    + pose proof (maps_page_walk s3 _ v P _ _ 0 Hpage Hva HPa ltac:(lia) ltac:(lia)) as E. by rewrite !Z.add_0_r in E.
    + rewrite hw_base_pte. unfold pde_of. fold idx. by rewrite HbT.
  - intros _. rewrite Epde, HbT. split; [unfold live; by rewrite Ef|]. unfold pte_addr, tmp_word. rewrite HbT, Ep.
    intros Ew. destruct (decide (T = kernel_pt s3)) as [ET|ET].
    + specialize (HTk ET). apply Hw. change KERNEL_TMP_VADDR with 3225415680.
      unfold idx in *. Z.to_euclidean_division_equations; lia.
    + revert Ew. apply words_apart; [done| |done|apply Z.mod_pos_bound; lia|lia].
      by destruct (kw_pt _ (mp_wf _ _ _ _ _ _ _ _ _ _ Hm)).
  - unfold live. rewrite Ef, hw_base_id by done. intros Hin%(gr_free _ _ Hg). simpl in Hin. rewrite Hl in Hin. set_solver.
  - rewrite Ep, (gr_pt _ _ Hg). simpl. intros E. apply HnP. rewrite E. by apply kw_live_pt.
Qed.

Lemma make_private : private s' v P ∅.
Proof using All.
  pose proof make_index as Hi. destruct make_taken as [Hsv1 HnP]. pose proof Hsv as (Hwf & Hkt & _).
  pose proof (mapped_dir_table s p' s3 v P T Hkt Hmd) as HT. pose proof make_directory as Hdir.
  pose proof make_services as Hsv'. pose proof make_kernel_word as HwK.
  destruct Hmd as [_ HP Hl _ (HPa & HP0 & HP4) (Hva & Hv & Hv4) Hw Hm]. fold idx in Hm.
  pose proof (gr_pdt _ _ (mp_grows _ _ _ _ _ _ _ _ _ _ Hm)) as EK.
  destruct (mp_pde _ _ _ _ _ _ _ _ _ _ Hm) as (_ & _ & HbT). destruct Hcl as [_ Ed _ _ _ Hzero].
  assert (EK' : kernel_pdt s' = kernel_pdt s) by (by rewrite Ed, EK).
  split; [done|done|lia|lia|rewrite EK'; intros ->; by apply HnP, kw_live_pdt| | |].
  - intros j Hj. cbv zeta. rewrite EK', HwK by lia. destruct (decide (j = idx)) as [->|Hne].
    + intros _. by rewrite HbT.
    + rewrite (kernel_mapped_pde (set_pfa p' s) s3 _ _ _ _ _ _ Hsv1 Hi Hm) by (done || lia). intros Hp Hb.
      destruct (kt_good _ Hkt j Hj Hp) as (_&_&_&_&Hlv). simpl in Hb. by rewrite Hb in Hlv.
  - intros j Hj. unfold good_pde. by rewrite Hzero by done.
  - intros j Hj _. by rewrite Hzero by done.
Qed.
End make.

Lemma create_private s f t :
  services_wf s → supply s (S (S f)) (S t) →
  ∃ v P s', pdt_create s = Ok ((v, P), s') ∧ private s' v P ∅ ∧ supply s' f t ∧ grows s s' ∧ taken s s' P.
Proof.
  intros Hsv Hsup. pose proof Hsv as (Hwf & Hkt & Ha).
  destruct (pdt_create_steps s Hwf Hkt Ha) as (v & P & T & p' & s3 & Hmd & E).
  { destruct Hsup as [Hf _]. lia. }
  { by apply (supply_vacancy s (S (S f)) t). }
  destruct (mapped_dir_end s p' s3 v P T Hwf Hkt Ha Hmd) as (Hwf' & Hg & HP' & _).
  pose proof (cleared_zero s3 P (proj1 (md_frame _ _ _ _ _ _ Hmd))) as Hcl.
  pose proof (make_index s p' s3 v P T Hmd) as Hi. destruct (make_taken s p' s3 v P T Hsv Hmd) as [Hsv1 _].
  set (s' := set_phys _ s3) in *. clearbody s'.
  pose proof (make_private s p' s3 s' v P T Hsv Hmd Hcl Hwf') as Hpv.
  pose proof (make_kernel_word s p' s3 s' v P T Hsv Hmd Hcl) as HwK.
  destruct Hmd as [_ HP Hl _ (HPa & HP0 & HP4) _ _ Hm].
  exists v, P, s'. split; [exact E|]. split; [done|]. split; [|by split_and!].
  assert (Hsup1 : supply (set_pfa p' s) (S f) (S t)).
  { destruct Hsup as [Hf HX]. split; [|exact HX]. simpl. rewrite Hl.
    apply (size_minus_one (fr_free_set (pfa s)) _ P); [|done].
    clear. intros a Hin. destruct (decide (a = P)); set_solver. }
  pose proof (kernel_mapped_supply (set_pfa p' s) s3 _ _ _ _ _ _ Hsv1 Hi Hm f t Hsup1) as Hsup3.
  pose proof (gr_pdt _ _ (mp_grows _ _ _ _ _ _ _ _ _ _ Hm)) as EK. simpl in EK. destruct Hcl as [_ Ed _ Ef _ _].
  apply (supply_kept s3); [rewrite Ef; apply Hsup3|done|by rewrite EK|by exists f].
Qed.

(** ** The pages of the three parts of a process *)

(** The code: a frame, mapped and unmapped in the kernel, then mapped at 0. *)
Lemma code_pages fuel s v P f t :
  (2 <= fuel)%nat → private s v P ∅ → supply s (S (S (S f))) (S t) →
  ∃ F s1 w s2 s3 s4 s5,
    pfa_allocate 1 s = Ok (F, s1) ∧ pdt_kernel_find_next_vaddr 42 s1 = Ok (w, s2) ∧
    pdt_map_kernel_memory F w 42 PAGING_READ_WRITE PAGING_PL0 s2 = Ok (4096, s3) ∧
    pdt_unmap_kernel_memory fuel w 42 s3 = Ok (4096, s4) ∧
    pdt_map_memory v F 0 42 PAGING_READ_WRITE PAGING_PL3 s4 = Ok (4096, s5) ∧
    private s4 v P ∅ ∧ grows s s4 ∧ private s5 v P {[0]} ∧ grows s4 s5 ∧ supply s5 f t ∧
    taken s s5 F ∧ maps_page s5 P 0 F PAGING_READ_WRITE PAGING_PL3.
Proof.
  intros Hfuel Hpv Hsup.
  destruct (take_frame s _ _ (pv_services _ _ _ _ Hpv) Hsup) as (F & p' & E1 & Hsv1 & Hg1 & Hsup1 & HF & HF' & HFa & HF0 & HF4).
  pose proof (private_set_pfa s p' v P ∅ Hpv Hsv1 Hg1) as Hpv1. set (s1 := set_pfa p' s) in *.
  destruct (find_page s1 42 _ _ Hsv1 Hsup1 ltac:(lia)) as (w & s2 & E2 & Hs2 & Hfound & Hw).
  pose proof (private_same s1 s2 v P ∅ Hs2 Hpv1) as Hpv2. pose proof (supply_same s1 s2 _ _ Hs2 Hsup1) as Hsup2.
  destruct (scratch_page fuel s2 w 42 F 1 0 _ _ v P ∅ Hfuel Hpv2 Hsup2 Hfound ltac:(lia) ltac:(lia) ltac:(lia) HFa)
    as (s3 & s4 & E3 & E4 & Hpv4 & Hsup4 & Hg4).
  destruct (private_page s4 v P ∅ 0 42 F 1 1 _ _ Hpv4 Hsup4) as (s5 & E5 & Hpv5 & Hg5 & Hsup5 & Hm5); try done; try lia.
  assert (Hg : grows s s4) by (etrans; [exact Hg1|]; etrans; [by apply same_grows|exact Hg4]).
  exists F, s1, w, s2, s3, s4, s5. change (0 / 4194304) with 0 in Hpv5. rewrite (right_id_L ∅ (∪)) in Hpv5.
  repeat (split; [done|]). split; [|done].
  apply (taken_grows s s s1 s5); [done| |by split_and!].
  etrans; [by apply same_grows|]. etrans; [exact Hg4|exact Hg5].
Qed.

(** The stack: a frame mapped below 3 GB. *)
Lemma stack_pages s v P f t :
  private s v P {[0]} → supply s (S (S f)) t →
  ∃ F s1 s2,
    pfa_allocate 1 s = Ok (F, s1) ∧
    pdt_map_memory v F 0xBFFFF000 4096 PAGING_READ_WRITE PAGING_PL3 s1 = Ok (4096, s2) ∧
    private s1 v P {[0]} ∧ grows s s1 ∧ private s2 v P {[767; 0]} ∧ grows s1 s2 ∧ supply s2 f t ∧
    taken s s2 F ∧ maps_page s2 P 0xBFFFF000 F PAGING_READ_WRITE PAGING_PL3.
Proof.
  intros Hpv Hsup.
  destruct (take_frame s _ _ (pv_services _ _ _ _ Hpv) Hsup) as (F & p' & E1 & Hsv1 & Hg1 & Hsup1 & HF & HF' & HFa & HF0 & HF4).
  pose proof (private_set_pfa s p' v P _ Hpv Hsv1 Hg1) as Hpv1. set (s1 := set_pfa p' s) in *.
  destruct (private_page s1 v P _ 0xBFFFF000 4096 F 1 1 _ _ Hpv1 Hsup1) as (s2 & E2 & Hpv2 & Hg2 & Hsup2 & Hm2);
    try done; try lia.
  exists F, s1, s2. change (0xBFFFF000 / 4194304) with 767 in Hpv2.
  repeat (split; [done|]). split; [|done]. apply (taken_grows s s s1 s2); [done|exact Hg2|by split_and!].
Qed.

(** The kernel stack: a frame mapped in the kernel. *)
Lemma kernel_stack_pages s v P D f t :
  private s v P D → supply s (S (S f)) (S t) →
  ∃ F s1 w s2 s3,
    pfa_allocate 1 s = Ok (F, s1) ∧ pdt_kernel_find_next_vaddr 4096 s1 = Ok (w, s2) ∧
    pdt_map_kernel_memory F w 4096 PAGING_READ_WRITE PAGING_PL0 s2 = Ok (4096, s3) ∧
    0xC0000000 <= w < 4294963200 ∧ w mod 4096 = 0 ∧ private s3 v P D ∧ grows s s3 ∧ supply s3 f t ∧ taken s s3 F ∧
    maps_page s3 (kernel_pdt s) w F PAGING_READ_WRITE PAGING_PL0.
Proof.
  intros Hpv Hsup.
  destruct (take_frame s _ _ (pv_services _ _ _ _ Hpv) Hsup) as (F & p' & E1 & Hsv1 & Hg1 & Hsup1 & HF & HF' & HFa & HF0 & HF4).
  pose proof (private_set_pfa s p' v P D Hpv Hsv1 Hg1) as Hpv1. set (s1 := set_pfa p' s) in *.
  destruct (find_page s1 4096 _ _ Hsv1 Hsup1 ltac:(lia)) as (w & s2 & E2 & Hs2 & Hfound & Hw).
  pose proof (private_same s1 s2 v P D Hs2 Hpv1) as Hpv2. pose proof (supply_same s1 s2 _ _ Hs2 Hsup1) as Hsup2.
  pose proof (pv_services _ _ _ _ Hpv2) as Hsv2.
  destruct (kernel_page s2 w 4096 F 1 0 _ _ Hsv2 Hsup2 Hfound ltac:(lia) ltac:(lia) HFa) as (T & s3 & E3 & Hi & Hm & Hpg).
  pose proof (mp_grows _ _ _ _ _ _ _ _ _ _ Hm) as Hg3.
  assert (Hwr : w mod 4096 = 0 ∧ 0xC0000000 <= w).
  { destruct Hsv2 as (Hwf2 & Hkt2 & _), Hfound as (Hsz & Hw0 & Hf).
    by destruct (pdt_found_room s2 4096 w Hwf2 Hkt2 Hsz Hf Hw0) as (?&?&_). }
  exists F, s1, w, s2, s3. do 3 (split; [done|]). split; [lia|]. split; [apply Hwr|].
  split; [|split; [|split; [|split]]].
  - exact (kernel_mapped_private s2 s3 _ _ _ _ _ _ Hsv2 Hi Hm v P D Hpv2).
  - etrans; [exact Hg1|]. etrans; [by apply same_grows|exact Hg3].
  - exact (kernel_mapped_supply s2 s3 _ _ _ _ _ _ Hsv2 Hi Hm f t Hsup2).
  - apply (taken_grows s s s1 s3); [done| |by split_and!]. etrans; [by apply same_grows|exact Hg3].
  - by rewrite (sm_pdt _ _ Hs2) in Hpg.
Qed.
(** An arena of the heap: some frames in a row, mapped in the kernel. *)
Lemma arena_pages s n p s1 f t :
  services_wf s → supply s (Z.to_nat n + S f) (S t) → 0 < n <= 1024 → pfa_allocate n s = Ok (p, s1) → p ≠ 0 →
  ∃ v s2 s3, pdt_kernel_find_next_vaddr (n * 4096) s1 = Ok (v, s2) ∧ v ≠ 0 ∧
    pdt_map_kernel_memory p v (n * 4096) PAGING_READ_WRITE PAGING_PL0 s2 = Ok (n * 4096, s3) ∧
    services_wf s3 ∧ supply s3 f t.
Proof.
  intros Hsv [Hf HX] Hn E Hp. pose proof Hsv as (Hwf & _).
  destruct (fr_allocate_spec (pfa s) n (kw_frames _ Hwf) ltac:(lia)) as (p2 & p' & E2 & Hp' & Hm & Hpool).
  assert (E' : pfa_allocate n s = Ok (p2, set_pfa p' s)) by (unfold pfa_allocate, zoom; by rewrite E2).
  rewrite E in E'. injection E' as <- ->. destruct Hpool as [(?&_)|(_&Hin&Hf')]; [done|].
  destruct (pages_end (pfa s) p n (kw_frames _ Hwf) ltac:(lia) Hin) as (Hp0 & Hpa & Hp4).
  destruct (set_pfa_services s p' Hsv) as [Hsv1 _].
  { apply (kernel_wf_mem s); simpl; try done; [rewrite Hf'; clear; set_solver|apply Hwf]. }
  { rewrite Hf'. clear. set_solver. }
  assert (Hsup1 : supply (set_pfa p' s) (S f) (S t)).
  { split; [|exact HX]. simpl. rewrite Hf', size_difference by done. unfold Interfaces.pages.
    assert (Hlen : (size (list_to_set ((λ i, p + i * 4096)%Z <$> seqZ 0 n) : gset Z) <= Z.to_nat n)%nat).
    { rewrite size_list_to_set, length_fmap, length_seqZ; [lia|].
      apply (NoDup_fmap_2_strong (λ i : Z, p + i * 4096)); [intros; lia|apply NoDup_seqZ]. }
    lia. }
  destruct (find_page _ (n * 4096) _ _ Hsv1 Hsup1 ltac:(lia)) as (v & s2 & E3 & Hs2 & Hfound & Hv).
  destruct (same_services _ _ Hs2 Hsv1) as [Hsv2 _]. pose proof (supply_same _ _ _ _ Hs2 Hsup1) as Hsup2.
  destruct (kernel_pages s2 v (n * 4096) p PAGING_READ_WRITE PAGING_PL0 _ _ Hsv2 Hsup2 Hfound ltac:(lia) Hpa)
    as (T & s3 & k & E4 & _ & Hi & _ & Hmd).
  rewrite align_up_id in E4 by (apply Z.mod_mul; lia).
  exists v, s2, s3. split; [done|]. split; [lia|]. split; [done|].
  split; [exact (kernel_mapped_services s2 s3 _ _ _ _ _ _ Hsv2 Hi Hmd)|].
  exact (kernel_mapped_supply s2 s3 _ _ _ _ _ _ Hsv2 Hi Hmd f t Hsup2).
Qed.
End pages.
