(* ===== verification/Ring.v ===== *)
(** * Ring: circular lists sorted by address

    The free list of kmalloc.c as a finite map from the addresses of its blocks
    to their sizes: each block's [next] is its cyclic successor in the order of
    addresses. Insertion, removal and resizing of a block are what [kfree] and
    [kmalloc] do to it. *)

From S2P Require Import Prelude Mmu.

Implicit Types (m F : gmap Z Z) (a b c p : Z).

(** [b] is the cyclic successor of [a] among the keys of [F]. *)
Definition succ F a b : Prop :=
  (a < b ∧ ∀ c, is_Some (F !! c) → c <= a ∨ b <= c) ∨
  (b <= a ∧ ∀ c, is_Some (F !! c) → b <= c <= a).

(** The memory [m] holds the list [F]. *)
Definition ring m F : Prop :=
  ∀ a n, F !! a = Some n →
    ld m (a + 4) = n ∧ is_Some (F !! ld m a) ∧ succ F a (ld m a).

(** A memory with the same words at every block of the list. *)
Lemma ring_ext m m' F :
  ring m F →
  (∀ a, is_Some (F !! a) → ld m' a = ld m a ∧ ld m' (a + 4) = ld m (a + 4)) → ring m' F.
Proof.
  intros Hr Hm a n Ha. destruct (Hm a) as [E1 E2]; [eauto|]. rewrite E1, E2. by apply Hr.
Qed.

Lemma succ_unique F a b b' :
  is_Some (F !! b) → is_Some (F !! b') → succ F a b → succ F a b' → b = b'.
Proof.
  intros Hb Hb' [[Hlt H]|[Hle H]] [[Hlt' H']|[Hle' H']];
    pose proof (H b' Hb'); pose proof (H' b Hb); lia.
Qed.

(** ** Insertion *)

(** Where a new address goes: the condition the loop of [kfree] leaves on. *)
Definition place bp p next : Prop :=
  (p < bp ∧ bp < next) ∨ (next <= p ∧ (p < bp ∨ bp < next)).

Lemma place_between F p next bp :
  is_Some (F !! p) → is_Some (F !! next) → succ F p next → F !! bp = None → place bp p next →
  ∀ c, is_Some (F !! c) → c ≠ bp ∧
    ((p < bp < next ∧ (c <= p ∨ next <= c)) ∨
     (next <= p ∧ (p < bp ∨ bp < next) ∧ next <= c <= p)).
Proof.
  intros Hp Hn Hs Hb Hpl c Hc. split; [intros ->; rewrite Hb in Hc; by destruct Hc|].
  destruct Hs as [[Hlt H]|[Hle H]]; pose proof (H c Hc); destruct Hpl; lia.
Qed.

Lemma ring_insert m m' F p next bp n :
  ring m F → is_Some (F !! p) → next = ld m p → F !! bp = None → place bp p next →
  ld m' bp = next → ld m' (bp + 4) = n → ld m' p = bp → ld m' (p + 4) = ld m (p + 4) →
  (∀ c, is_Some (F !! c) → c ≠ p → ld m' c = ld m c ∧ ld m' (c + 4) = ld m (c + 4)) →
  ring m' (<[bp := n]> F).
Proof.
  intros Hr Hp -> Hb Hpl E1 E2 E3 E4 Hm a k Ha.
  destruct Hp as [np Hp]. destruct (Hr p np Hp) as (Hnp & Hnext & Hsp).
  pose proof (place_between F p _ bp (mk_is_Some _ _ Hp) Hnext Hsp Hb Hpl) as Hbet.
  assert (Hkeep : ∀ c, is_Some (F !! c) → is_Some (<[bp:=n]> F !! c))
    by (intros c Hc; destruct (decide (bp = c)) as [->|];
        [rewrite lookup_insert_eq|rewrite lookup_insert_ne by done]; eauto).
  assert (Hnew : ∀ c, is_Some (<[bp:=n]> F !! c) → c = bp ∨ is_Some (F !! c)).
  { intros c [x Hx]. destruct (decide (bp = c)) as [->|]; [by left|].
    rewrite lookup_insert_ne in Hx by done. eauto. }
  destruct (decide (a = bp)) as [->|Hab].
  - rewrite lookup_insert_eq in Ha. injection Ha as <-. rewrite E1, E2.
    split_and!; [done|by apply Hkeep|].
    destruct (Hbet _ (mk_is_Some _ _ Hp)) as [_ Hbp].
    destruct Hpl as [[? ?]|[? [?|?]]]; [left|right|left]; split; try lia;
      intros c [->|Hc]%Hnew; try lia; destruct (Hbet c Hc); lia.
  - rewrite lookup_insert_ne in Ha by done. destruct (decide (a = p)) as [->|Hap].
    + rewrite Hp in Ha. injection Ha as <-. rewrite E3, E4. split_and!; [done| |].
      { rewrite lookup_insert_eq. eauto. }
      destruct Hpl as [[? ?]|[? [?|?]]]; [left|left|right]; split; try lia;
        intros c [->|Hc]%Hnew; try lia; destruct (Hbet c Hc); lia.
    + destruct (Hm a (mk_is_Some _ _ Ha) Hap) as [-> ->].
      destruct (Hr a k Ha) as (? & Hs1 & Hs2). split_and!; [done|by apply Hkeep|].
      pose proof (proj2 (Hbet _ (mk_is_Some _ _ Ha))). pose proof (proj2 (Hbet _ Hs1)).
      pose proof (proj2 (Hbet _ (mk_is_Some _ _ Hp))). pose proof (proj2 (Hbet _ Hnext)).
      destruct Hs2 as [[Hlt H']|[Hle H']]; pose proof (H' p (mk_is_Some _ _ Hp));
        [left|right]; (split; [done|]); intros c [->|Hc]%Hnew; try (by apply H').
      * lia.
      * assert (a ≠ p) by done. pose proof (H' _ Hnext). lia.
Qed.

(** ** Removal *)

Lemma succ_inj F a a' b :
  is_Some (F !! a) → is_Some (F !! a') → is_Some (F !! b) →
  succ F a b → succ F a' b → a = a'.
Proof.
  intros Ha Ha' Hb [[Hlt H]|[Hle H]] [[Hlt' H']|[Hle' H']];
    pose proof (H a' Ha'); pose proof (H' a Ha); lia.
Qed.

Lemma succ_self F a c : succ F a a → is_Some (F !! c) → c = a.
Proof. intros [[? _]|[_ H]] Hc; [lia|]. specialize (H c Hc). lia. Qed.

Lemma ring_remove m m' F p q :
  ring m F → is_Some (F !! p) → ld m p = q → p ≠ q →
  ld m' p = ld m q → ld m' (p + 4) = ld m (p + 4) →
  (∀ c, is_Some (F !! c) → c ≠ p → c ≠ q → ld m' c = ld m c ∧ ld m' (c + 4) = ld m (c + 4)) →
  ring m' (delete q F).
Proof.
  intros Hr [np Hp] Hq Hne E1 E2 Hm a k Ha.
  destruct (Hr p np Hp) as (Hnp & [nq Hnq] & Hsp). rewrite Hq in *.
  destruct (Hr q nq Hnq) as (_ & [nr Hnr] & Hsq).
  assert (Hrq : ld m q ≠ q).
  { intros E. rewrite E in Hsq. apply (succ_self F q p) in Hsq; eauto. }
  assert (Hold : ∀ c, is_Some (delete q F !! c) → is_Some (F !! c)).
  { intros c [x Hx]. apply lookup_delete_Some in Hx as [_ Hx]. eauto. }
  assert (Hsub : ∀ b c, succ F b c → succ (delete q F) b c).
  { intros b c [[? H]|[? H]]; [left|right]; split; auto. }
  apply lookup_delete_Some in Ha as [Haq Ha]. destruct (decide (a = p)) as [->|Hap].
  - rewrite Hp in Ha. injection Ha as <-. rewrite E1, E2. split_and!; [done| |].
    { rewrite lookup_delete_ne by done. eauto. }
    pose proof (λ c Hc, conj (Hold c Hc) Hc) as Hc'.
    destruct Hsp as [[Hlt H]|[Hle H]], Hsq as [[Hlt' H']|[Hle' H']].
    + left. split; [lia|]. intros c [x Hx]. apply lookup_delete_Some in Hx as [? Hx].
      pose proof (H c (mk_is_Some _ _ Hx)). pose proof (H' c (mk_is_Some _ _ Hx)). lia.
    + right. pose proof (H' p (mk_is_Some _ _ Hp)). pose proof (H _ (mk_is_Some _ _ Hnr)).
      split; [lia|]. intros c [x Hx]. apply lookup_delete_Some in Hx as [? Hx].
      pose proof (H c (mk_is_Some _ _ Hx)). pose proof (H' c (mk_is_Some _ _ Hx)). lia.
    + right. pose proof (H _ (mk_is_Some _ _ Hnr)). split; [lia|].
      intros c [x Hx]. apply lookup_delete_Some in Hx as [? Hx].
      pose proof (H c (mk_is_Some _ _ Hx)). pose proof (H' c (mk_is_Some _ _ Hx)). lia.
    + exfalso. pose proof (H' p (mk_is_Some _ _ Hp)). lia.
  - destruct (Hm a (mk_is_Some _ _ Ha) Hap (not_eq_sym Haq)) as [-> ->].
    destruct (Hr a k Ha) as (? & Hs1 & Hs2). split_and!; [done| |by apply Hsub].
    rewrite lookup_delete_ne; [done|]. intros E. apply Hap.
    apply (succ_inj F a p q); eauto. by rewrite E.
Qed.

(** ** Resizing *)

Lemma ring_resize m m' F p n :
  ring m F → is_Some (F !! p) → ld m' p = ld m p → ld m' (p + 4) = n →
  (∀ c, is_Some (F !! c) → c ≠ p → ld m' c = ld m c ∧ ld m' (c + 4) = ld m (c + 4)) →
  ring m' (<[p := n]> F).
Proof.
  intros Hr [np Hp] E1 E2 Hm a k Ha.
  assert (Hdom : ∀ c, is_Some (<[p:=n]> F !! c) ↔ is_Some (F !! c)).
  { intros c. destruct (decide (p = c)) as [->|];
      [rewrite lookup_insert_eq|by rewrite lookup_insert_ne]; naive_solver. }
  assert (Hsub : ∀ b c, succ F b c → succ (<[p:=n]> F) b c).
  { intros b c [[? H]|[? H]]; [left|right]; (split; [done|]); intros d Hd%Hdom; auto. }
  destruct (decide (a = p)) as [->|Hap].
  - rewrite lookup_insert_eq in Ha. injection Ha as <-. destruct (Hr p np Hp) as (_ & ? & ?).
    rewrite E1, E2, Hdom. auto.
  - rewrite lookup_insert_ne in Ha by done. destruct (Hr a k Ha) as (? & ? & ?).
    destruct (Hm a (mk_is_Some _ _ Ha) Hap) as [-> ->]. rewrite Hdom. auto.
Qed.

(** ** Walking the list *)

Definition between a t c : Prop := if a <? t then a < c <= t else a < c ∨ c <= t.

#[global] Instance between_dec a t c : Decision (between a t c).
Proof. unfold between. destruct (a <? t); apply _. Defined.

(** The keys met on the way from [a], excluded, to [t], included. *)
Definition ahead F a t : gset Z := filter (between a t) (dom F).

Lemma elem_of_ahead F a t c : c ∈ ahead F a t ↔ is_Some (F !! c) ∧ between a t c.
Proof. unfold ahead. rewrite elem_of_filter, elem_of_dom. tauto. Qed.

(** Starting where one ends, every key is met. *)
Lemma ahead_all F t c : is_Some (F !! c) → c ∈ ahead F t t.
Proof. intros Hc. rewrite elem_of_ahead. split; [done|]. unfold between. rewrite Z.ltb_irrefl. lia. Qed.

Lemma ahead_step F a b t c :
  is_Some (F !! a) → is_Some (F !! b) → is_Some (F !! t) → succ F a b → b ≠ t →
  c ∈ ahead F a t ↔ c = b ∨ c ∈ ahead F b t.
Proof.
  intros Ha Hb Ht Hs Hne. rewrite !elem_of_ahead. unfold between. split.
  - intros [Hc Hbet]. destruct (decide (c = b)) as [->|Hcb]; [by left|right]. split; [done|].
    destruct Hs as [[Hlt H]|[Hle H]]; pose proof (H c Hc); pose proof (H t Ht);
      destruct (Z.ltb_spec a t), (Z.ltb_spec b t); lia.
  - intros [->|[Hc Hbet]]; (split; [done|]);
      destruct Hs as [[Hlt H]|[Hle H]]; pose proof (H t Ht); try pose proof (H c Hc);
      destruct (Z.ltb_spec a t), (Z.ltb_spec b t); lia.
Qed.

Lemma ahead_next_out F b t : b ≠ t → b ∉ ahead F b t.
Proof. intros Hne. rewrite elem_of_ahead. unfold between. destruct (Z.ltb_spec b t); lia. Qed.

Lemma ahead_decr F a b t :
  is_Some (F !! a) → is_Some (F !! b) → is_Some (F !! t) → succ F a b → b ≠ t →
  (size (ahead F b t) < size (ahead F a t))%nat.
Proof.
  intros Ha Hb Ht Hs Hne. apply subset_size. split.
  - intros c Hc. rewrite (ahead_step F a b t) by done. by right.
  - intros Hsub. apply (ahead_next_out F b t); [done|]. apply Hsub.
    rewrite (ahead_step F a b t) by done. by left.
Qed.

Lemma ahead_size F a t : (size (ahead F a t) <= size (dom F))%nat.
Proof. apply subseteq_size. intros c Hc. apply elem_of_ahead in Hc as [Hc _]. by apply elem_of_dom. Qed.

(** ** The place of an address *)

(** Some block of a list satisfies the condition of [place]. *)
Lemma greatest_exists (X : gset Z) : X ≠ ∅ → ∃ t, t ∈ X ∧ ∀ c, c ∈ X → c <= t.
Proof.
  intros HX. assert (Transitive Z.ge) by (intros ? ? ? ? ?; lia).
  assert (∀ a b, Decision (Z.ge a b)) by (intros a b; destruct (decide (b <= a)); [left|right]; lia).
  destruct (minimal_exists_elem_of_L Z.ge X HX) as (t & Ht & Hmin).
  exists t. split; [done|]. intros c Hc. destruct (decide (c <= t)); [done|].
  specialize (Hmin c Hc). simpl in Hmin. lia.
Qed.

Lemma place_exists m F bp p :
  ring m F → is_Some (F !! p) → F !! bp = None →
  ∃ t, is_Some (F !! t) ∧ place bp t (ld m t).
Proof.
  intros Hr Hp Hb.
  assert (Hne : ∀ c, is_Some (F !! c) → c ≠ bp) by (intros c [x Hx] ->; congruence).
  destruct (decide (filter (λ c, c < bp) (dom F) = ∅)) as [Hempty|Hex].
  - destruct (greatest_exists (dom F)) as (t & Ht & Hmax).
    { intros E. apply elem_of_dom in Hp. rewrite E in Hp. set_solver. }
    apply elem_of_dom in Ht as [n Hn]. exists t. split; [eauto|].
    destruct (Hr t n Hn) as (_ & Hnx & Hs). right.
    assert (bp < ld m t).
    { destruct (decide (ld m t < bp)); [|pose proof (Hne _ Hnx); lia].
      assert (Hin : ld m t ∈ filter (λ c, c < bp) (dom F))
        by (apply elem_of_filter; split; [done|by apply elem_of_dom]).
      rewrite Hempty in Hin. set_solver. }
    apply elem_of_dom, Hmax in Hnx. lia.
  - destruct (greatest_exists _ Hex) as (t & Ht & Hmax).
    apply elem_of_filter in Ht as [Htb Ht]. apply elem_of_dom in Ht as [n Hn].
    exists t. split; [eauto|]. destruct (Hr t n Hn) as (_ & Hnx & Hs).
    destruct Hs as [[Hlt _]|[Hle _]]; [left|right; lia]. split; [done|].
    destruct (decide (ld m t < bp)); [|pose proof (Hne _ Hnx); lia].
    assert (ld m t <= t); [|lia].
    apply Hmax, elem_of_filter. split; [done|by apply elem_of_dom].
Qed.

(** ** Joining a block to its successor *)

Lemma ring_join m m' F p q n :
  ring m F → is_Some (F !! p) → ld m p = q → p ≠ q →
  (∀ c, is_Some (F !! c) → c ≠ p + 4) →
  ld m' p = ld m q → ld m' (p + 4) = n →
  (∀ c, is_Some (F !! c) → c ≠ p → c ≠ q → ld m' c = ld m c ∧ ld m' (c + 4) = ld m (c + 4)) →
  ring m' (<[p := n]> (delete q F)).
Proof.
  intros Hr Hp Hq Hne Hw E1 E2 Hm.
  assert (Hr1 : ring (<[p + 4 := ld m (p + 4)]> m') (delete q F)).
  { apply (ring_remove m _ F p q); try done.
    - rewrite ld_insert_ne by lia. done.
    - apply ld_insert_eq.
    - intros c Hc Hcp Hcq. rewrite !ld_insert_ne by (specialize (Hw c Hc); lia). auto. }
  eapply ring_resize; [exact Hr1| | |done|].
  - rewrite lookup_delete_ne by done. done.
  - rewrite ld_insert_ne by lia. done.
  - intros c [x Hc] Hcp. apply lookup_delete_Some in Hc as [_ Hc].
    rewrite !ld_insert_ne by (specialize (Hw c (mk_is_Some _ _ Hc)); lia). done.
Qed.
