(* ===== verification/Kmalloc.v ===== *)
(** * Kmalloc: the heap of kernel/kmalloc.c

    The circular free list of K&R, over any page services ([PageOps]). Headers
    are words of memory: [next] at the address of the header, [size] four bytes
    further; an access to an address no page is mapped at, or that is not aligned,
    is a fault. *)

From S2P Require Import Prelude Layout CArith Mmu PageServices.

Definition MIN_BLOCK_SIZE : Z := 1024.
Definition sizeof_header_t : Z := Eval vm_compute in sizeof struct_header.
Definition HEADER_SIZE : Z := Eval vm_compute in offsetof struct_header ["size"].
Definition PAGING_READ_WRITE : Z := 1.
Definition PAGING_PL0 : Z := 0.

(** ** State

    [words] is the memory of the kernel's address space as 32-bit words,
    [freep] the static of the file, [pages] the state of the paging code. *)
Record heap {St : Type} : Type := Heap {
  words : gmap Z Z;
  freep : Z;
  pages : St
}.
Arguments heap : clear implicits.

Section operations.
Context {St : Type} `{!PageOps St}.
Implicit Types s : heap St.

(** The address of the static [base]. *)
Context (base : Z).

Definition set_words (m : gmap Z Z) s : heap St := Heap _ m (freep s) (pages s).
Definition set_freep (p : Z) s : heap St := Heap _ (words s) p (pages s).
Definition set_pages (p : St) s : heap St := Heap _ (words s) (freep s) p.

Definition pfa_allocate (n : Z) : M (heap St) Z := zoom pages set_pages (pg_allocate n).
Definition pdt_kernel_find_next_vaddr (size : Z) : M (heap St) Z :=
  zoom pages set_pages (pg_find size).
Definition pdt_map_kernel_memory (p v size rw pl : Z) : M (heap St) Z :=
  zoom pages set_pages (pg_map p v size rw pl).
Definition printk (fmt : string) (args : list Z) : M (heap St) unit :=
  zoom pages set_pages (pg_printk fmt args).

(** ** Accesses to headers *)

Definition read (a : Z) : M (heap St) Z :=
  s ← gets id;
  if pg_mapped (pages s) a && (a mod 4 =? 0) then mret (ld (words s) a) else fault.

Definition write (a w : Z) : M (heap St) unit :=
  s ← gets id;
  if pg_mapped (pages s) a && (a mod 4 =? 0)
  then modify (λ s, set_words (<[a := w]> (words s)) s) else fault.

Definition get_next (p : Z) : M (heap St) Z := read p.
Definition get_size (p : Z) : M (heap St) Z := read (p +ᵤ HEADER_SIZE).
Definition set_next (p n : Z) : M (heap St) unit := write p n.
Definition set_size (p n : Z) : M (heap St) unit := write (p +ᵤ HEADER_SIZE) n.

(** [p + n] on a [header_t *]. *)
Definition plus (p n : Z) : Z := p +ᵤ sizeof_header_t * n.

(** ** [kfree] *)

(** The loop that looks for the block's place, from [p]. *)
Fixpoint find_place (fuel : nat) (bp p : Z) : M (heap St) Z :=
  match fuel with
  | O => out_of_fuel
  | S fuel =>
    next ← get_next p;
    if (p <? bp) && (bp <? next) then mret p
    else if (next <=? p) && ((p <? bp) || (bp <? next)) then mret p
    else find_place fuel bp next
  end.

(** Joining the block to its neighbours. *)
Definition link (bp p : Z) : M (heap St) unit :=
  bsize ← get_size bp;
  next ← get_next p;
  (if plus bp bsize =? next then
     nsize ← get_size next;
     set_size bp (bsize +ᵤ nsize) ≫= λ _,
     next ← get_next p;
     nnext ← get_next next;
     set_next bp nnext
   else set_next bp next) ≫= λ _,
  psize ← get_size p;
  (if plus p psize =? bp then
     bsize ← get_size bp;
     set_size p (psize +ᵤ bsize) ≫= λ _,
     bnext ← get_next bp;
     set_next p bnext
   else set_next p bp) ≫= λ _,
  modify (set_freep p).

Definition kfree (fuel : nat) (ap : Z) : M (heap St) unit :=
  if ap =? 0 then mret tt
  else
    let bp := plus ap (-1) in
    p ← gets freep;
    p ← find_place fuel bp p;
    link bp p.

(** ** [kmalloc] *)

Definition acquire_more_heap (fuel : nat) (nunits : Z) : M (heap St) Z :=
  let nunits := if nunits <? MIN_BLOCK_SIZE then MIN_BLOCK_SIZE else nunits in
  let page_frames := div_ceil (nunits *ᵤ sizeof_header_t) FOUR_KB in
  let bytes := page_frames *ᵤ FOUR_KB in
  paddr ← pfa_allocate page_frames;
  if paddr =? 0 then
    printk "Could't allocated page frames for kmalloc. page_frames: %u, bytes: %u\n"
      [page_frames; bytes] ≫= λ _, mret 0
  else
    vaddr ← pdt_kernel_find_next_vaddr bytes;
    if vaddr =? 0 then
      printk "Could't find a virtual address. paddr: %X, page_frames: %u, bytes: %u\n"
        [paddr; page_frames; bytes] ≫= λ _, mret 0
    else
      mapped_mem ← pdt_map_kernel_memory paddr vaddr bytes PAGING_READ_WRITE PAGING_PL0;
      if mapped_mem <? bytes then
        printk "Could't map virtual memory. vaddr: %X, paddr: %X, page_frames: %u, bytes: %u\n"
          [vaddr; paddr; page_frames; bytes] ≫= λ _, mret 0
      else
        set_size vaddr (bytes / sizeof_header_t) ≫= λ _,
        kfree fuel (plus vaddr 1) ≫= λ _,
        gets freep.

(** A block that is big enough: all of it, or its tail. *)
Definition carve (p prevp nunits : Z) : M (heap St) Z :=
  size ← get_size p;
  p ← (if size =? nunits then
         next ← get_next p;
         set_next prevp next ≫= λ _, mret p
       else
         set_size p (size -ᵤ nunits) ≫= λ _,
         size ← get_size p;
         let p := plus p size in
         set_size p nunits ≫= λ _, mret p);
  modify (set_freep prevp) ≫= λ _,
  mret (plus p 1).

(** The loop of [kmalloc] over [p] and [prevp]. *)
Fixpoint search (fuel : nat) (nbytes nunits p prevp : Z) : M (heap St) Z :=
  match fuel with
  | O => out_of_fuel
  | S fuel' =>
    size ← get_size p;
    if nunits <=? size then carve p prevp nunits
    else
      head ← gets freep;
      if p =? head then
        p ← acquire_more_heap fuel nunits;
        if p =? 0 then
          printk "Cannot acquire more memory. memory: %u" [nbytes] ≫= λ _, mret 0
        else
          next ← get_next p;
          search fuel' nbytes nunits next p
      else
        next ← get_next p;
        search fuel' nbytes nunits next p
  end.

Definition units (nbytes : Z) : Z :=
  ((nbytes +ᵤ sizeof_header_t) -ᵤ 1) / sizeof_header_t +ᵤ 1.

Definition kmalloc (fuel : nat) (nbytes : Z) : M (heap St) Z :=
  if nbytes =? 0 then mret 0
  else
    head ← gets freep;
    (if head =? 0 then
       modify (set_freep base) ≫= λ _,
       set_next base base ≫= λ _,
       set_size base 0
     else mret tt) ≫= λ _,
    prevp ← gets freep;
    p ← get_next prevp;
    search fuel nbytes (units nbytes) p prevp.
End operations.
