(* ===== verification/HeapLayout.v ===== *)
(** * HeapLayout: free and live blocks of kmalloc's heap

    Blocks are intervals of 8-byte units; free blocks are those of the list,
    live blocks those handed out. They never overlap, whatever the operation:
    freeing a block, joining two that touch, splitting one, taking a whole one,
    or adding an arena. *)

From S2P Require Import Prelude PageServices.

Implicit Types (F L : gmap Z Z).

(** The bytes a block takes; the static [base] has size 0 and a header. *)
Definition span (n : Z) : Z := 8 * Z.max n 1.

Definition blk F L (a n : Z) : Prop := F !! a = Some n ∨ L !! a = Some n.

(** A byte of a free block. *)
Definition free_at F (x : Z) : Prop := ∃ a n, F !! a = Some n ∧ a <= x < a + 8 * n.

Section layout.
Context {St : Type} `{!PageOps St} (base : Z).
Implicit Types s : St.

Record block_ok s (a n : Z) : Prop := BlockOk {
  bk_aligned : a mod 4 = 0;
  bk_pos : 0 < a;
  bk_end : a + span n <= 4294967296;
  bk_size : 0 <= n;
  bk_mapped x : a <= x < a + span n → pg_mapped s x = true;
  bk_base : a ≠ base → 1 <= n ∧ a + 8 * n ≠ base
}.

Record layout s F L : Prop := Layout {
  ly_base : F !! base = Some 0;
  ly_disj a n : F !! a = Some n → L !! a = None;
  ly_ok a n : blk F L a n → block_ok s a n;
  ly_apart a n b k : blk F L a n → blk F L b k → a ≠ b → a + span n <= b ∨ b + span k <= a
}.

(** Only the mapped addresses matter. *)
Lemma layout_pages s s' F L :
  (∀ a, pg_mapped s a = true → pg_mapped s' a = true) → layout s F L → layout s' F L.
Proof.
  intros Hm [Hb Hd Hok Ha]. split; try done. intros a n Hblk.
  destruct (Hok a n Hblk). split; auto.
Qed.

Lemma layout_base_live s F L : layout s F L → L !! base = None.
Proof. intros Hl. by apply (ly_disj _ _ _ Hl _ 0), ly_base with s L. Qed.

(** The words of two headers do not overlap. *)
Lemma layout_words s F L a n b k :
  layout s F L → blk F L a n → blk F L b k → a ≠ b → a ≠ b + 4 ∧ a + 4 ≠ b ∧ a + 4 ≠ b + 4.
Proof.
  intros Hl Ha Hb Hne. pose proof (ly_apart _ _ _ Hl a n b k Ha Hb Hne). unfold span in *. lia.
Qed.

(** ** Freeing a live block *)

Lemma layout_free s F L bp n :
  layout s F L → L !! bp = Some n → layout s (<[bp := n]> F) (delete bp L).
Proof.
  intros Hl Hbp. pose proof (layout_base_live _ _ _ Hl) as Hnb. destruct Hl as [Hb Hd Hok Ha].
  assert (bp ≠ base) by congruence.
  assert (Hold : ∀ a k, blk (<[bp:=n]> F) (delete bp L) a k → blk F L a k).
  { intros a k [H1|H1].
    - apply lookup_insert_Some in H1 as [[<- <-]|[_ H1]]; [by right|by left].
    - apply lookup_delete_Some in H1 as [_ H1]. by right. }
  split.
  - by rewrite lookup_insert_ne.
  - intros a k H1. apply lookup_insert_Some in H1 as [[<- <-]|[? H1]].
    + apply lookup_delete_eq.
    + rewrite lookup_delete_ne by done. eauto.
  - eauto.
  - intros a k b j H1%Hold H2%Hold. eauto.
Qed.

Lemma free_at_insert F bp n x :
  F !! bp = None → free_at (<[bp := n]> F) x ↔ free_at F x ∨ bp <= x < bp + 8 * n.
Proof.
  intros Hn. split.
  - intros (a & k & [[<- <-]|[_ H]]%lookup_insert_Some & Hx); [by right|left; by exists a, k].
  - intros [(a & k & H & Hx)|Hx].
    + exists a, k. rewrite lookup_insert_ne by (intros ->; congruence). done.
    + exists bp, n. by rewrite lookup_insert_eq.
Qed.

(** ** Joining two free blocks that touch *)

Lemma layout_join s F L a n b k :
  layout s F L → F !! a = Some n → F !! b = Some k → a + 8 * n = b → a ≠ base → b ≠ base →
  layout s (<[a := n + k]> (delete b F)) L.
Proof.
  intros Hl Ha Hb Hab Hna Hnb. pose proof (ly_ok _ _ _ Hl a n (or_introl Ha)) as Hoka.
  pose proof (ly_ok _ _ _ Hl b k (or_introl Hb)) as Hokb.
  destruct (bk_base _ _ _ Hoka Hna) as [Hn _]. destruct (bk_base _ _ _ Hokb Hnb) as [Hk Hkb].
  assert (Hspan : a + span (n + k) = b + span k ∧ a + span n = b) by (unfold span; lia).
  assert (Hold : ∀ c j, blk (<[a:=n + k]> (delete b F)) L c j →
    (c = a ∧ j = n + k) ∨ (c ≠ a ∧ c ≠ b ∧ blk F L c j)).
  { intros c j [H1|H1].
    - apply lookup_insert_Some in H1 as [[<- <-]|[? H1]]; [by left|right].
      apply lookup_delete_Some in H1 as [? H1]. split_and!; [done..|by left].
    - right. split_and!; [intros ->|intros ->|by right].
      + by rewrite (ly_disj _ _ _ Hl a n Ha) in H1.
      + by rewrite (ly_disj _ _ _ Hl b k Hb) in H1. }
  pose proof (ly_apart _ _ _ Hl) as Hapart. split.
  - rewrite lookup_insert_ne, lookup_delete_ne by done. apply Hl.
  - intros c j H1. apply lookup_insert_Some in H1 as [[<- <-]|[? H1]]; [by apply Hl with n|].
    apply lookup_delete_Some in H1 as [? H1]. by apply Hl with j.
  - intros c j [[-> ->]|(_ & _ & H1)]%Hold; [|by apply Hl].
    destruct Hoka, Hokb. split; try done; try lia.
    intros x Hx. destruct (decide (x < b)); [apply bk_mapped0|apply bk_mapped1]; lia.
  - intros c j d i [[-> ->]|(Hca & Hcb & H1)]%Hold [[-> ->]|(Hda & Hdb & H2)]%Hold Hne; [done| | |].
    + pose proof (Hapart a n d i (or_introl Ha) H2 ltac:(done)).
      pose proof (Hapart b k d i (or_introl Hb) H2 ltac:(done)). unfold span in *. lia.
    + pose proof (Hapart a n c j (or_introl Ha) H1 ltac:(done)).
      pose proof (Hapart b k c j (or_introl Hb) H1 ltac:(done)). unfold span in *. lia.
    + by apply Hapart.
Qed.

Lemma free_at_join F a n b k x :
  F !! a = Some n → F !! b = Some k → a + 8 * n = b → a ≠ b → 0 <= n → 0 <= k →
  free_at (<[a := n + k]> (delete b F)) x ↔ free_at F x.
Proof.
  intros Ha Hb Hab Hne Hn Hk. split.
  - intros (c & j & [[<- <-]|[_ H]]%lookup_insert_Some & Hx).
    + destruct (decide (x < b)); [exists a, n|exists b, k]; (split; [done|lia]).
    + apply lookup_delete_Some in H as [_ H]. by exists c, j.
  - intros (c & j & H & Hx). destruct (decide (c = a)) as [->|]; [|destruct (decide (c = b)) as [->|]].
    + exists a, (n + k). rewrite lookup_insert_eq. split; [done|]. simplify_eq. lia.
    + exists a, (n + k). rewrite lookup_insert_eq. split; [done|]. simplify_eq. lia.
    + exists c, j. by rewrite lookup_insert_ne, lookup_delete_ne.
Qed.
(** ** Taking a whole free block, or its tail *)

Lemma layout_take s F L a n :
  layout s F L → F !! a = Some n → a ≠ base → layout s (delete a F) (<[a := n]> L).
Proof.
  intros [Hb Hd Hok Hapart] Ha Hne.
  assert (Hold : ∀ c j, blk (delete a F) (<[a:=n]> L) c j → blk F L c j).
  { intros c j [H1|H1].
    - apply lookup_delete_Some in H1 as [_ H1]. by left.
    - apply lookup_insert_Some in H1 as [[<- <-]|[_ H1]]; [by left|by right]. }
  split.
  - by rewrite lookup_delete_ne.
  - intros c j H1. apply lookup_delete_Some in H1 as [? H1]. rewrite lookup_insert_ne; eauto.
  - eauto.
  - intros c j d i H1%Hold H2%Hold. eauto.
Qed.

Lemma layout_split s F L a n k :
  layout s F L → F !! a = Some n → a ≠ base → 1 <= k < n →
  layout s (<[a := n - k]> F) (<[a + 8 * (n - k) := k]> L).
Proof.
  intros Hl Ha Hne Hk. set (b := a + 8 * (n - k)).
  pose proof (ly_ok _ _ _ Hl a n (or_introl Ha)) as Hoka.
  destruct (bk_base _ _ _ Hoka Hne) as [_ Hend].
  pose proof (ly_apart _ _ _ Hl) as Hapart.
  assert (Hin : ∀ c j, blk F L c j → c ≠ a → c + span j <= a ∨ a + 8 * n <= c).
  { intros c j Hc Hca. pose proof (Hapart c j a n Hc (or_introl Ha) Hca). unfold span in *. lia. }
  assert (Hb : ∀ c j, blk F L c j → c ≠ b).
  { intros c j Hc ->. destruct (decide (b = a)); [unfold b in *; lia|].
    pose proof (Hin b j Hc ltac:(done)). unfold b, span in *. lia. }
  assert (Hbase : a + 8 * (n - k) ≠ base).
  { intros E. apply (Hb base 0); [left; apply Hl|done]. }
  assert (Hold : ∀ c j, blk (<[a:=n - k]> F) (<[b:=k]> L) c j →
    (c = a ∧ j = n - k) ∨ (c = b ∧ j = k) ∨ (c ≠ a ∧ blk F L c j)).
  { intros c j [H1|H1].
    - apply lookup_insert_Some in H1 as [[<- <-]|[? H1]]; [by left|right; right].
      split; [done|by left].
    - apply lookup_insert_Some in H1 as [[<- <-]|[? H1]]; [by right; left|right; right].
      split; [|by right]. intros ->. by rewrite (ly_disj _ _ _ Hl a n Ha) in H1. }
  split.
  - rewrite lookup_insert_ne by done. apply Hl.
  - intros c j H1. rewrite lookup_insert_ne.
    + apply lookup_insert_Some in H1 as [[<- _]|[_ H1]]; by eapply (ly_disj _ _ _ Hl).
    + intros <-. apply lookup_insert_Some in H1 as [[? _]|[_ H1]]; [unfold b in *; lia|].
      by apply (Hb b j); [left|].
  - destruct Hoka. intros c j [[-> ->]|[[-> ->]|[_ H1]]]%Hold; [| |by apply Hl].
    + split; try done; unfold span in *; try lia. intros x Hx. apply bk_mapped0. lia.
    + split; unfold span, b in *; try lia.
      * Z.to_euclidean_division_equations; lia.
      * intros x Hx. apply bk_mapped0. lia.
  - intros c j d i [[-> ->]|[[-> ->]|[? H1]]]%Hold [[-> ->]|[[-> ->]|[? H2]]]%Hold Hcd;
      try done; try (pose proof (Hin d i H2 ltac:(done))); try (pose proof (Hin c j H1 ltac:(done)));
      unfold span, b in *; try lia. by apply Hapart.
Qed.

(** No block reaches into a free one. *)
Lemma layout_beside s F L a n :
  layout s F L → F !! a = Some n → ∀ c j, blk F L c j → c ≠ a → c + span j <= a ∨ a + 8 * n <= c.
Proof.
  intros Hl Ha c j Hc Hca. pose proof (ly_apart _ _ _ Hl c j a n Hc (or_introl Ha) Hca). unfold span in *. lia.
Qed.

Lemma free_at_delete F a n x :
  F !! a = Some n → (∀ b k, F !! b = Some k → b ≠ a → ¬ (b <= x < b + 8 * k ∧ a <= x < a + 8 * n)) →
  free_at (delete a F) x ↔ free_at F x ∧ ¬ a <= x < a + 8 * n.
Proof.
  intros Ha Hd. split.
  - intros (c & j & [? H]%lookup_delete_Some & Hx). split; [by exists c, j|].
    intros Hxa. by apply (Hd c j H).
  - intros [(c & j & H & Hx) Hxa]. exists c, j. rewrite lookup_delete_ne; [done|].
    intros <-. rewrite Ha in H. injection H as <-. by apply Hxa.
Qed.

Lemma free_at_take s F L a n x :
  layout s F L → F !! a = Some n → free_at (delete a F) x ↔ free_at F x ∧ ¬ a <= x < a + 8 * n.
Proof.
  intros Hl Ha. apply free_at_delete; [done|]. intros b j Hb Hba [Hx1 Hx2].
  pose proof (layout_beside s F L a n Hl Ha b j (or_introl Hb) Hba). unfold span in *. lia.
Qed.

Lemma free_at_split s F L a n k x :
  layout s F L → F !! a = Some n → 1 <= k < n →
  free_at (<[a := n - k]> F) x ↔ free_at F x ∧ ¬ a + 8 * (n - k) <= x < a + 8 * (n - k) + 8 * k.
Proof.
  intros Hl Ha Hk. pose proof (layout_beside s F L a n Hl Ha) as Hb. split.
  - intros (c & j & [[<- <-]|[Hca Hc]]%lookup_insert_Some & Hx).
    + split; [exists a, n; split; [done|lia]|lia].
    + split; [by exists c, j|]. pose proof (Hb c j (or_introl Hc) (not_eq_sym Hca)). unfold span in *. lia.
  - intros [(c & j & Hc & Hx) Hnx]. destruct (decide (c = a)) as [->|].
    + exists a, (n - k). rewrite lookup_insert_eq. rewrite Ha in Hc. injection Hc as <-. split; [done|]. lia.
    + exists c, j. by rewrite lookup_insert_ne.
Qed.

(** ** A new arena *)

Lemma layout_extend s s' F L v n :
  layout s F L → (∀ a, pg_mapped s a = true → pg_mapped s' a = true) →
  v mod 4 = 0 → 0 < v → 1 <= n → v + 8 * n <= 4294967296 → v + 8 * n ≠ base →
  (∀ x, v <= x < v + 8 * n → pg_mapped s x = false) →
  (∀ x, v <= x < v + 8 * n → pg_mapped s' x = true) →
  layout s' F (<[v := n]> L) ∧ F !! v = None ∧ L !! v = None.
Proof.
  intros Hl Hmono Hv H0 Hn Hend Hb Hfresh Hmap.
  pose proof (layout_pages s s' F L Hmono Hl) as [Hb' Hd' Hok' Ha'].
  assert (Hout : ∀ c j, blk F L c j → c + span j <= v ∨ v + span n <= c).
  { intros c j Hc. pose proof (ly_ok _ _ _ Hl c j Hc) as [_ _ _ _ Hm _].
    destruct (decide (c + span j <= v)) as [|Hlt]; [by left|right].
    destruct (decide (v + span n <= c)) as [|Hlt']; [done|exfalso].
    assert (E : pg_mapped s (Z.max c v) = true) by (apply Hm; unfold span in *; lia).
    rewrite Hfresh in E; [done|]. unfold span in *. lia. }
  assert (HF : F !! v = None).
  { destruct (F !! v) as [j|] eqn:E; [|done]. pose proof (Hout v j (or_introl E)).
    unfold span in *. lia. }
  assert (HL : L !! v = None).
  { destruct (L !! v) as [j|] eqn:E; [|done]. pose proof (Hout v j (or_intror E)).
    unfold span in *. lia. }
  split_and!; [|done..].
  assert (Hold : ∀ c j, blk F (<[v:=n]> L) c j → (c = v ∧ j = n) ∨ blk F L c j).
  { intros c j [H1|H1]; [by right; left|].
    apply lookup_insert_Some in H1 as [[<- <-]|[_ H1]]; [by left|by right; right]. }
  split.
  - done.
  - intros c j Hc. rewrite lookup_insert_ne; [eauto|]. intros <-. congruence.
  - intros c j [[-> ->]|Hc]%Hold; [|eauto]. split; unfold span; try done; try lia.
    intros x Hx. apply Hmap. lia.
  - intros c j d i [[-> ->]|Hc]%Hold [[-> ->]|Hdb]%Hold Hne; [done| | |eauto].
    + destruct (Hout d i Hdb); [by right|by left].
    + by apply Hout.
Qed.

(** ** Free and live bytes *)

Lemma layout_exclusive s F L a n x :
  layout s F L → L !! a = Some n → a <= x < a + 8 * n → ¬ free_at F x.
Proof.
  intros Hl Ha Hx (c & j & Hc & Hxc).
  assert (c ≠ a) by (intros ->; by rewrite (ly_disj _ _ _ Hl a j Hc) in Ha).
  pose proof (ly_apart _ _ _ Hl c j a n (or_introl Hc) (or_intror Ha) ltac:(done)).
  unfold span in *. lia.
Qed.
End layout.
