(* ===== verification/KmallocFacts.v ===== *)
(** * KmallocFacts: [kfree] gives a block back

    The invariant of the heap, the accesses of the code under it, and the effect
    of [kfree]: the loop finds the block's place, and linking it in keeps the
    list sorted, circular and without overlaps, whichever neighbours it joins. *)

From S2P Require Import Prelude CArith Mmu PageServices Ring Kmalloc HeapLayout.

Section accesses.
Context {St : Type} `{!PageOps St} (base : Z).
Implicit Types (s : heap St) (m F L : gmap Z Z).

(** ** Accesses *)

Record hdr_ok (ps : St) (a : Z) : Prop := HdrOk {
  hd_next : pg_mapped ps a = true;
  hd_size : pg_mapped ps (a + 4) = true;
  hd_aligned : a mod 4 = 0;
  hd_range : 0 < a ∧ a + 8 <= 4294967296
}.

Lemma blk_hdr ps F L a n : layout base ps F L → blk F L a n → hdr_ok ps a.
Proof.
  intros Hl Hb. destruct (ly_ok _ _ _ _ Hl a n Hb). unfold span in *.
  split; try done; try apply bk_mapped; lia.
Qed.

Lemma read_ok s a : pg_mapped (pages s) a = true → a mod 4 = 0 → read a s = Ok (ld (words s) a, s).
Proof. intros Hm Ha. unfold read. rewrite (bind_ok _ _ s s s) by done. by rewrite Hm, Ha. Qed.

Lemma write_ok s a w :
  pg_mapped (pages s) a = true → a mod 4 = 0 →
  write a w s = Ok (tt, set_words (<[a := w]> (words s)) s).
Proof. intros Hm Ha. unfold write. rewrite (bind_ok _ _ s s s) by done. by rewrite Hm, Ha. Qed.

Lemma get_next_ok s a : hdr_ok (pages s) a → get_next a s = Ok (ld (words s) a, s).
Proof. intros []. by apply read_ok. Qed.

Lemma hdr_size_aligned s a : hdr_ok (pages s) a → a +ᵤ HEADER_SIZE = a + 4 ∧ (a + 4) mod 4 = 0.
Proof. intros [_ _ Ha Hr]. unfold HEADER_SIZE. rewrite u32_small by lia. split; [done|]. Z.to_euclidean_division_equations; lia. Qed.

Lemma get_size_ok s a : hdr_ok (pages s) a → get_size a s = Ok (ld (words s) (a + 4), s).
Proof.
  intros H. destruct (hdr_size_aligned s a H) as [E Ha]. unfold get_size. rewrite E.
  apply read_ok; [apply H|done].
Qed.

Lemma set_next_ok s a w :
  hdr_ok (pages s) a → set_next a w s = Ok (tt, set_words (<[a := w]> (words s)) s).
Proof. intros []. by apply write_ok. Qed.

Lemma set_size_ok s a w :
  hdr_ok (pages s) a → set_size a w s = Ok (tt, set_words (<[a + 4 := w]> (words s)) s).
Proof.
  intros H. destruct (hdr_size_aligned s a H) as [E Ha]. unfold set_size. rewrite E.
  apply write_ok; [apply H|done].
Qed.
End accesses.

(** Step through the accesses of a computation. *)
Ltac hstep :=
  match goal with
  | |- context [(get_next ?a ≫= _) ?s] =>
    rewrite (bind_ok _ _ _ _ _ (get_next_ok s a ltac:(eassumption)))
  | |- context [(get_size ?a ≫= _) ?s] =>
    rewrite (bind_ok _ _ _ _ _ (get_size_ok s a ltac:(eassumption)))
  | |- context [(set_next ?a ?w ≫= _) ?s] =>
    rewrite (bind_ok _ _ _ _ _ (set_next_ok s a w ltac:(eassumption)))
  | |- context [(set_size ?a ?w ≫= _) ?s] =>
    rewrite (bind_ok _ _ _ _ _ (set_size_ok s a w ltac:(eassumption)))
  end.

Section facts.
Context {St : Type} `{!PageOps St, !PageLaws St} (base : Z).
Implicit Types (s : heap St) (m F L : gmap Z Z).

(** [F] are the free blocks, [L] the live ones. *)
Record heap_inv s F L : Prop := HeapInv {
  hv_pages : pg_wf (pages s);
  hv_layout : layout base (pages s) F L;
  hv_ring : ring (words s) F;
  hv_freep : is_Some (F !! freep s);
  hv_live a n : L !! a = Some n → 2 <= n ∧ ld (words s) (a + 4) = n
}.

(** ** The loop of [kfree] *)

Lemma find_place_ok fuel s F L bp p t :
  heap_inv s F L → F !! bp = None → is_Some (F !! p) → is_Some (F !! t) →
  place bp t (ld (words s) t) → (1 <= fuel)%nat →
  (p ≠ t → S (size (ahead F p t)) <= fuel)%nat →
  ∃ q, find_place fuel bp p s = Ok (q, s) ∧ is_Some (F !! q) ∧ place bp q (ld (words s) q).
Proof.
  intros Hinv Hb Hp Ht Hpl. revert p Hp. induction fuel as [|fuel IH]; intros p Hp Hf Hm; [lia|].
  cbn [find_place]. destruct Hp as [n Hn].
  assert (Hh : hdr_ok (pages s) p) by (apply (blk_hdr base _ F L p n); [apply Hinv|by left]).
  destruct (hv_ring _ _ _ Hinv p n Hn) as (_ & Hx & Hs). hstep. set (next := ld (words s) p) in *.
  destruct ((p <? bp) && (bp <? next)) eqn:E1.
  { exists p. split; [done|]. split; [eauto|]. left. lia. }
  destruct ((next <=? p) && ((p <? bp) || (bp <? next))) eqn:E2.
  { exists p. split; [done|]. split; [eauto|]. right. lia. }
  assert (Hne : p ≠ t).
  { intros ->. fold next in Hpl. destruct Hpl as [?|?]; lia. }
  specialize (Hm Hne).
  assert (Hpos : (1 <= size (ahead F p t))%nat).
  { destruct (decide (next = t)) as [E|E].
    - assert (t ∈ ahead F p t) as Hin.
      { rewrite elem_of_ahead. split; [done|]. unfold between. rewrite E in *.
        destruct (Z.ltb_spec p t); lia. }
      destruct (size (ahead F p t)) eqn:Es; [|lia]. apply size_empty_inv in Es. set_solver.
    - pose proof (ahead_decr F p next t (mk_is_Some _ _ Hn) Hx Ht Hs E). lia. }
  apply IH; [done|lia|]. intros Hnt.
  pose proof (ahead_decr F p next t (mk_is_Some _ _ Hn) Hx Ht Hs Hnt). lia.
Qed.

(** ** Joining the upper neighbour *)

Definition up_words m bp n next : gmap Z Z :=
  if bp + 8 * n =? next then
    let m := <[bp + 4 := n + ld m (next + 4)]> m in <[bp := ld m next]> m
  else <[bp := next]> m.

Definition up_blocks F bp n next : gmap Z Z :=
  if bp + 8 * n =? next
  then <[bp := n + default 0 (F !! next)]> (delete next (<[bp := n]> F))
  else <[bp := n]> F.

(** The hypotheses of [link]. *)
Record linking ps m F L (bp n p : Z) : Prop := Linking {
  lk_layout : layout base ps F L;
  lk_ring : ring m F;
  lk_block : L !! bp = Some n;
  lk_size : ld m (bp + 4) = n;
  lk_place : is_Some (F !! p);
  lk_fits : place bp p (ld m p)
}.

Section linking.
Context ps m F L bp n p (H : linking ps m F L bp n p).
Let next := ld m p.

Lemma lk_facts :
  F !! bp = None ∧ bp ≠ base ∧ 1 <= n ∧ bp + 8 * n ≠ base ∧ p ≠ bp ∧ is_Some (F !! next) ∧ next ≠ bp.
Proof using All.
  destruct H as [Hl Hr Hb Hs [k Hp] Hf].
  assert (HF : F !! bp = None).
  { destruct (F !! bp) as [j|] eqn:E; [|done]. by rewrite (ly_disj _ _ _ _ Hl bp j E) in Hb. }
  assert (Hne : bp ≠ base) by (intros ->; by rewrite (ly_base _ _ _ _ Hl) in HF).
  destruct (bk_base _ _ _ _ (ly_ok _ _ _ _ Hl bp n (or_intror Hb)) Hne).
  destruct (Hr p k Hp) as (_ & Hx & _). fold next in Hx.
  split_and!; try done.
  - intros ->. congruence.
  - intros E. rewrite E in Hx. rewrite HF in Hx. by destruct Hx.
Qed.

(** When the block touches the next one, that one is not the only one. *)
Lemma up_not_self : bp + 8 * n = next → next ≠ p ∧ next ≠ base.
Proof using All.
  intros E. destruct lk_facts as (_&_&_&Hnb&_&_&_). split; [|congruence].
  intros Ep. destruct H as [Hl Hr _ _ [k Hp] _]. destruct (Hr p k Hp) as (_ & _ & Hs).
  fold next in Hs. rewrite Ep in Hs.
  apply (succ_self F p base) in Hs; [|rewrite (ly_base _ _ _ _ Hl); eauto]. congruence.
Qed.

Lemma lk_words c : is_Some (F !! c) → c ≠ bp ∧ c ≠ bp + 4 ∧ c + 4 ≠ bp ∧ (c ≠ p → c ≠ p + 4 ∧ c + 4 ≠ p).
Proof using All.
  intros [k Hc]. destruct lk_facts as (HF&_&_&_&_&_&_). destruct H as [Hl _ Hb _ [j Hp] _].
  assert (Hne : c ≠ bp) by (intros ->; congruence).
  pose proof (layout_words _ _ _ _ c k bp n Hl (or_introl Hc) (or_intror Hb) Hne).
  split_and!; try lia. intros Hcp.
  pose proof (layout_words _ _ _ _ c k p j Hl (or_introl Hc) (or_introl Hp) Hcp). lia.
Qed.

Let m1 := up_words m bp n next.
Let F1 := up_blocks F bp n next.

Lemma ins_ring : ring (<[p := bp]> (<[bp := next]> m)) (<[bp := n]> F).
Proof using All.
  destruct lk_facts as (HF&_&_&_&Hpb&Hx&_). pose proof (lk_words p (lk_place _ _ _ _ _ _ _ H)) as Hwp.
  apply (ring_insert m _ F p next); try done; try apply H.
  - by rewrite ld_insert_ne, ld_insert_eq.
  - rewrite !ld_insert_ne by lia. exact (lk_size _ _ _ _ _ _ _ H).
  - by rewrite ld_insert_eq.
  - by rewrite !ld_insert_ne by lia.
  - intros c Hc Hcp. pose proof (lk_words c Hc). by rewrite !ld_insert_ne by lia.
Qed.

Lemma up_ring : ring (<[p := bp]> m1) F1.
Proof using All.
  unfold m1, F1, up_words, up_blocks. destruct (Z.eqb_spec (bp + 8 * n) next) as [E|E]; [|apply ins_ring].
  destruct lk_facts as (HF&_&_&_&Hpb&[k Hx]&Hxb). destruct (up_not_self E) as [Hxp _].
  pose proof (lk_words p (lk_place _ _ _ _ _ _ _ H)) as Hwp.
  pose proof (lk_words next (mk_is_Some _ _ Hx)) as Hwx.
  rewrite Hx. simpl. assert (Ek : ld m (next + 4) = k) by (by apply (lk_ring _ _ _ _ _ _ _ H)).
  apply (ring_join (<[p := bp]> (<[bp := next]> m)) _ _ bp next); [apply ins_ring|..].
  - rewrite lookup_insert_eq. eauto.
  - by rewrite ld_insert_ne, ld_insert_eq.
  - done.
  - intros c [j [[<- _]|[_ Hc]]%lookup_insert_Some]; [lia|]. pose proof (lk_words c (mk_is_Some _ _ Hc)). lia.
  - rewrite ld_insert_ne, ld_insert_eq by lia. by rewrite !ld_insert_ne by lia.
  - rewrite !ld_insert_ne, ld_insert_eq by lia. by rewrite Ek.
  - intros c [j [[<- _]|[_ Hc]]%lookup_insert_Some] Hcb Hcx; [done|].
    pose proof (lk_words c (mk_is_Some _ _ Hc)). destruct (decide (c = p)) as [->|Hcp].
    + rewrite !ld_insert_eq. split; [done|]. by rewrite !ld_insert_ne by lia.
    + by rewrite !ld_insert_ne by lia.
Qed.

Lemma up_layout :
  layout base ps F1 (delete bp L) ∧ (∀ x, free_at F1 x ↔ free_at F x ∨ bp <= x < bp + 8 * n) ∧
  F1 !! p = F !! p ∧ ∃ k, F1 !! bp = Some k ∧ n <= k ∧ k = (if bp + 8 * n =? next then n + ld m (next + 4) else n).
Proof using All.
  pose proof (lk_layout _ _ _ _ _ _ _ H) as Hl. pose proof (lk_block _ _ _ _ _ _ _ H) as Hb.
  pose proof (layout_free _ _ _ _ _ _ Hl Hb) as Hl1.
  destruct lk_facts as (HF&Hbb&Hn&_&Hpb&[k Hx]&Hxb).
  unfold F1, up_blocks. destruct (Z.eqb_spec (bp + 8 * n) next) as [E|E].
  - destruct (up_not_self E) as [Hxp Hxn]. rewrite Hx. simpl.
    assert (Ek : ld m (next + 4) = k) by (by apply (lk_ring _ _ _ _ _ _ _ H)).
    assert (H1 : <[bp:=n]> F !! bp = Some n) by apply lookup_insert_eq.
    assert (H2 : <[bp:=n]> F !! next = Some k) by (by rewrite lookup_insert_ne).
    destruct (bk_base _ _ _ _ (ly_ok _ _ _ _ Hl next k (or_introl Hx)) Hxn) as [Hk _].
    split_and!.
    + by apply layout_join.
    + intros x. rewrite free_at_join by (done || lia). by apply free_at_insert.
    + by rewrite lookup_insert_ne, lookup_delete_ne, lookup_insert_ne by done.
    + exists (n + k). rewrite lookup_insert_eq, Ek. split_and!; [done|lia|done].
  - split_and!; [done|..].
    + intros x. by apply free_at_insert.
    + by rewrite lookup_insert_ne.
    + exists n. rewrite lookup_insert_eq. split_and!; [done|lia|done].
Qed.

Lemma up_words_out w : w ≠ bp → w ≠ bp + 4 → ld m1 w = ld m w.
Proof.
  intros H1 H2. unfold m1, up_words. case_match; by rewrite !ld_insert_ne by done.
Qed.
End linking.

(** ** Joining the lower neighbour *)

Definition low_words m p bp : gmap Z Z :=
  if p + 8 * ld m (p + 4) =? bp then
    let m := <[p + 4 := ld m (p + 4) + ld m (bp + 4)]> m in <[p := ld m bp]> m
  else <[p := bp]> m.

Definition low_blocks F p bp : gmap Z Z :=
  if p + 8 * default 0 (F !! p) =? bp
  then <[p := default 0 (F !! p) + default 0 (F !! bp)]> (delete bp F)
  else F.

Lemma low_words_out m p bp w : w ≠ p → w ≠ p + 4 → ld (low_words m p bp) w = ld m w.
Proof. intros H1 H2. unfold low_words. case_match; by rewrite !ld_insert_ne by done. Qed.

Lemma low_ok ps m F L p bp np k :
  layout base ps F L → ring (<[p := bp]> m) F → F !! p = Some np → F !! bp = Some k →
  p ≠ bp → bp ≠ base →
  ring (low_words m p bp) (low_blocks F p bp) ∧ layout base ps (low_blocks F p bp) L ∧
  (∀ x, free_at (low_blocks F p bp) x ↔ free_at F x) ∧ is_Some (low_blocks F p bp !! p).
Proof.
  intros Hl Hr Hp Hb Hne Hbb.
  assert (Hwb : bp ≠ p ∧ bp ≠ p + 4 ∧ p ≠ bp + 4 ∧ bp + 4 ≠ p + 4).
  { pose proof (layout_words _ _ _ _ p np bp k Hl (or_introl Hp) (or_introl Hb) Hne). lia. }
  assert (Ep : ld m (p + 4) = np).
  { destruct (Hr p np Hp) as (E & _). by rewrite ld_insert_ne in E by lia. }
  assert (Eb : ld m (bp + 4) = k).
  { destruct (Hr bp k Hb) as (E & _). by rewrite ld_insert_ne in E by lia. }
  unfold low_words, low_blocks. rewrite Hp, Hb, Ep, Eb. simpl.
  destruct (Z.eqb_spec (p + 8 * np) bp) as [E|E]; [|by rewrite Hp].
  assert (Hpb : p ≠ base) by (intros ->; rewrite (ly_base _ _ _ _ Hl) in Hp; simplify_eq; lia).
  destruct (bk_base _ _ _ _ (ly_ok _ _ _ _ Hl p np (or_introl Hp)) Hpb) as [Hnp _].
  destruct (bk_base _ _ _ _ (ly_ok _ _ _ _ Hl bp k (or_introl Hb)) Hbb) as [Hk _].
  split_and!.
  - apply (ring_join (<[p := bp]> m) _ F p bp); try done.
    + by apply ld_insert_eq.
    + intros c [j Hc]. destruct (decide (c = p)); [lia|].
      pose proof (layout_words _ _ _ _ c j p np Hl (or_introl Hc) (or_introl Hp) ltac:(done)). lia.
    + rewrite ld_insert_eq. by rewrite !ld_insert_ne by lia.
    + by rewrite ld_insert_ne, ld_insert_eq by lia.
    + intros c [j Hc] Hcp Hcb.
      pose proof (layout_words _ _ _ _ c j p np Hl (or_introl Hc) (or_introl Hp) Hcp).
      by rewrite !ld_insert_ne by lia.
  - by apply layout_join.
  - intros x. apply free_at_join; try done; lia.
  - rewrite lookup_insert_eq. eauto.
Qed.

(** ** The code *)

Lemma size_sum ps F L a n b k :
  layout base ps F L → blk F L a n → blk F L b k → a + 8 * n = b → 0 <= n + k < 536870912.
Proof.
  intros Hl Ha Hb E. destruct (ly_ok _ _ _ _ Hl a n Ha) as [_ ? _ ? _ _].
  destruct (ly_ok _ _ _ _ Hl b k Hb) as [_ _ He ? _ _]. unfold span in *. lia.
Qed.

Lemma plus_eqb ps F L a n b :
  layout base ps F L → blk F L a n → 0 < b < 4294967296 → (plus a n =? b) = (a + 8 * n =? b).
Proof.
  intros Hl Ha Hb. destruct (ly_ok _ _ _ _ Hl a n Ha) as [_ ? He ? _ _].
  unfold plus, sizeof_header_t, span in *.
  destruct (decide (a + 8 * n = 4294967296)) as [E|E]; [|by rewrite u32_small by lia].
  rewrite E. change (u32 4294967296) with 0. lia.
Qed.

Lemma link_ok s F L bp n p :
  linking (pages s) (words s) F L bp n p →
  link bp p s = Ok (tt, set_freep p
    (set_words (low_words (up_words (words s) bp n (ld (words s) p)) p bp) s)).
Proof.
  intros H. pose proof H as [Hl Hr Hb Hs [np Hp] _]. set (next := ld (words s) p).
  destruct (lk_facts _ _ _ _ _ _ _ H) as (HF&Hbb&Hn&_&Hpb&[k Hx]&Hxb). fold next in Hx, Hxb.
  pose proof (lk_words _ _ _ _ _ _ _ H p ltac:(eauto)) as Hwp.
  pose proof (lk_words _ _ _ _ _ _ _ H next ltac:(eauto)) as Hwx.
  assert (Hhb : hdr_ok (pages s) bp) by (by apply (blk_hdr base _ F L bp n); [|right]).
  assert (Hhp : hdr_ok (pages s) p) by (by apply (blk_hdr base _ F L p np); [|left]).
  assert (Hhx : hdr_ok (pages s) next) by (by apply (blk_hdr base _ F L next k); [|left]).
  assert (Hx0 : 0 < next < 4294967296) by (destruct Hhx as [_ _ _ ?]; lia).
  assert (Hb0 : 0 < bp < 4294967296) by (destruct Hhb as [_ _ _ ?]; lia).
  assert (Enp : ld (words s) (p + 4) = np) by (by apply Hr).
  assert (Enk : ld (words s) (next + 4) = k) by (by apply Hr).
  unfold link. hstep. hstep. rewrite Hs. fold next.
  rewrite (plus_eqb _ F L bp n next Hl (or_intror Hb) Hx0).
  destruct (up_layout _ _ _ _ _ _ _ H) as (Hl1 & _ & Hp1 & k1 & Hb1 & Hk1 & Ek1).
  fold next in Hl1, Hp1, Hb1, Ek1.
  set (m1 := up_words (words s) bp n next) in *. set (F1 := up_blocks F bp n next) in *.
  rewrite Hp in Hp1.
  assert (E1 : (if bp + 8 * n =? next then
     nsize ← get_size next; set_size bp (n +ᵤ nsize) ≫= λ _,
     next ← get_next p; nnext ← get_next next; set_next bp nnext
   else set_next bp next) s = Ok (tt, set_words m1 s)).
  { unfold m1, up_words. destruct (Z.eqb_spec (bp + 8 * n) next) as [E|E]; [|by apply set_next_ok].
    pose proof (size_sum _ _ _ _ _ _ _ Hl (or_intror Hb) (or_introl Hx) E).
    destruct (up_not_self _ _ _ _ _ _ _ H E) as [Hxp _].
    hstep. rewrite Enk, u32_small by lia. hstep. set (s1 := set_words _ s).
    change (pages s) with (pages s1) in *. hstep.
    assert (En : ld (words s1) p = next) by (unfold s1; simpl; by rewrite ld_insert_ne by lia).
    rewrite En. hstep. by rewrite (set_next_ok s1 bp). }
  rewrite (bind_ok _ _ _ _ _ E1). set (s1 := set_words m1 s). change (pages s) with (pages s1) in *.
  hstep. change (words s1) with m1.
  assert (Enp1 : ld m1 (p + 4) = np).
  { rewrite <- Enp. apply (up_words_out (words s) bp n p); lia. }
  rewrite Enp1, (plus_eqb _ F1 _ p np bp Hl1 (or_introl Hp1) Hb0).
  unfold low_words. rewrite Enp1.
  erewrite bind_ok; [reflexivity|]. destruct (Z.eqb_spec (p + 8 * np) bp) as [E|E].
  - pose proof (size_sum _ _ _ _ _ _ _ Hl1 (or_introl Hp1) (or_introl Hb1) E).
    assert (Eb1 : ld m1 (bp + 4) = k1).
    { destruct (up_ring _ _ _ _ _ _ _ H bp k1 Hb1) as (E2 & _). fold next m1 in E2.
      by rewrite ld_insert_ne in E2 by lia. }
    hstep. change (words s1) with m1. rewrite Eb1, u32_small by lia. hstep.
    set (s2 := set_words _ s1). change (pages s1) with (pages s2) in *. hstep.
    by rewrite (set_next_ok s2 p).
  - by rewrite (set_next_ok s1 p).
Qed.
(** The words of the live blocks [L] are the same in [s] and [s']. *)
Definition live_kept s s' L : Prop :=
  ∀ a n w, L !! a = Some n → a <= w < a + 8 * n → ld (words s') w = ld (words s) w.

Lemma live_kept_trans s1 s2 s3 L L' :
  live_kept s1 s2 L → live_kept s2 s3 L' → (∀ a n, L !! a = Some n → L' !! a = Some n) →
  live_kept s1 s3 L.
Proof. intros H1 H2 Hsub a n w Ha Hw. rewrite (H2 a n w); auto. by apply (H1 a n). Qed.

Lemma link_keys F bp n p next :
  is_Some (up_blocks F bp n next !! p) ∧ is_Some (up_blocks F bp n next !! bp) →
  (size (dom (low_blocks (up_blocks F bp n next) p bp)) <= S (size (dom F)))%nat.
Proof.
  intros [Hp Hb].
  assert (Hup : ∀ a, is_Some (up_blocks F bp n next !! a) → a ∈ {[bp]} ∪ dom F).
  { intros a Ha. unfold up_blocks in Ha. destruct (bp + 8 * n =? next).
    - destruct Ha as [j [[<- _]|[_ Ha]]%lookup_insert_Some]; [set_solver|].
      apply lookup_delete_Some in Ha as [_ [[<- _]|[_ Ha]]%lookup_insert_Some]; [set_solver|].
      apply elem_of_union_r, elem_of_dom. eauto.
    - destruct Ha as [j [[<- _]|[_ Ha]]%lookup_insert_Some]; [set_solver|].
      apply elem_of_union_r, elem_of_dom. eauto. }
  assert (Hsub : dom (low_blocks (up_blocks F bp n next) p bp) ⊆ {[bp]} ∪ dom F).
  { intros a [j Ha]%elem_of_dom. apply Hup. unfold low_blocks in Ha. case_match; [|eauto].
    apply lookup_insert_Some in Ha as [[<- _]|[_ Ha]]; [done|].
    apply lookup_delete_Some in Ha as [_ Ha]. eauto. }
  apply subseteq_size in Hsub. rewrite size_union_alt, size_singleton in Hsub.
  pose proof (subseteq_size (dom F ∖ {[bp]}) (dom F) ltac:(set_solver)). lia.
Qed.

Lemma kfree_spec fuel s F L bp n :
  heap_inv s F L → L !! bp = Some n → (size (dom F) < fuel)%nat →
  ∃ s' F', kfree fuel (bp + 8) s = Ok (tt, s') ∧ heap_inv s' F' (delete bp L) ∧
    (∀ x, free_at F' x ↔ free_at F x ∨ bp <= x < bp + 8 * n) ∧
    pages s' = pages s ∧ live_kept s s' (delete bp L) ∧
    (size (dom F') <= S (size (dom F)))%nat ∧ (∃ a k, F' !! a = Some k ∧ n <= k).
Proof.
  intros Hinv Hb Hfuel. pose proof Hinv as [Hwf Hl Hr Hfp Hlv].
  destruct (Hlv bp n Hb) as [Hn2 Hsz].
  assert (HF : F !! bp = None).
  { destruct (F !! bp) as [j|] eqn:E; [|done]. by rewrite (ly_disj _ _ _ _ Hl bp j E) in Hb. }
  destruct (ly_ok _ _ _ _ Hl bp n (or_intror Hb)) as [_ Hp0 He _ _ _].
  unfold kfree. destruct (Z.eqb_spec (bp + 8) 0); [lia|].
  assert (Ebp : plus (bp + 8) (-1) = bp).
  { unfold plus, sizeof_header_t. replace (bp + 8 + 8 * -1) with bp by lia. apply u32_small.
    unfold span in He. lia. }
  rewrite Ebp. rewrite (bind_ok _ _ s (freep s) s) by done.
  destruct (place_exists (words s) F bp (freep s) Hr Hfp HF) as (t & Ht & Hpl).
  destruct (find_place_ok fuel s F L bp (freep s) t Hinv HF Hfp Ht Hpl) as (p & E & [np Hp] & Hfit).
  { lia. }
  { intros _. pose proof (ahead_size F (freep s) t). lia. }
  rewrite (bind_ok _ _ _ _ _ E).
  assert (Hk : linking (pages s) (words s) F L bp n p) by (split; eauto).
  rewrite (link_ok s F L bp n p Hk).
  destruct (up_layout _ _ _ _ _ _ _ Hk) as (Hl1 & Hf1 & Hp1 & k1 & Hb1 & Hk1 & _).
  destruct (lk_facts _ _ _ _ _ _ _ Hk) as (_&Hbb&_&_&Hpb&_&_).
  rewrite Hp in Hp1.
  destruct (low_ok _ _ _ _ p bp np k1 Hl1 (up_ring _ _ _ _ _ _ _ Hk) Hp1 Hb1 Hpb Hbb)
    as (Hr2 & Hl2 & Hf2 & Hp2).
  assert (Hkept : ∀ a k w, delete bp L !! a = Some k → a <= w < a + 8 * k →
    ld (low_words (up_words (words s) bp n (ld (words s) p)) p bp) w = ld (words s) w).
  { intros a k w [Hne Ha]%lookup_delete_Some Hw.
    pose proof (ly_apart _ _ _ _ Hl a k bp n (or_intror Ha) (or_intror Hb) ltac:(done)).
    assert (a ≠ p) by (intros ->; by rewrite (ly_disj _ _ _ _ Hl p np Hp) in Ha).
    pose proof (ly_apart _ _ _ _ Hl a k p np (or_intror Ha) (or_introl Hp) ltac:(done)).
    unfold span in *. rewrite low_words_out by lia. apply (up_words_out (words s) bp n p); lia. }
  eexists _, _. split; [done|]. split_and!.
  - split; simpl; [done|exact Hl2|exact Hr2|done|].
    intros a k Ha. pose proof Ha as [_ Ha']%lookup_delete_Some.
    destruct (Hlv a k Ha') as [? Hs]. split; [done|]. rewrite <- Hs.
    apply (Hkept a k); [done|]. lia.
  - intros x. by rewrite Hf2, Hf1.
  - done.
  - intros a k w Ha Hw. by apply (Hkept a k).
  - apply link_keys. rewrite Hp1, Hb1. eauto.
  - unfold low_blocks. rewrite Hp1, Hb1. simpl. case_match.
    + exists p, (np + k1). rewrite lookup_insert_eq. split; [done|].
      destruct (ly_ok _ _ _ _ Hl p np (or_introl Hp)). lia.
    + by exists bp, k1.
Qed.
End facts.
