(* ===== verification/KmallocSpec.v ===== *)
(** * KmallocSpec: the contract of the heap

    [kmalloc] and [kfree] against the specification of an allocator: live blocks
    never overlap, are as large as asked for, keep their contents, and nothing
    the clients write in them harms the free list. *)

From S2P Require Import Prelude CArith Mmu PageServices Ring Kmalloc HeapLayout KmallocFacts.

(** ** More fuel, same result *)

Section fuel.
Context {St : Type}.

Definition refines {A} (m m' : M St A) : Prop := ∀ s r, m s = Ok r → m' s = Ok r.

Lemma refines_refl {A} (m : M St A) : refines m m.
Proof. by intros s r. Qed.

Lemma refines_bind {A B} (m m' : M St A) (f f' : A → M St B) :
  refines m m' → (∀ a, refines (f a) (f' a)) → refines (m ≫= f) (m' ≫= f').
Proof.
  intros Hm Hf s r H. apply bind_ok_inv in H as (a & s' & H1 & H2).
  rewrite (bind_ok _ _ _ _ _ (Hm _ _ H1)). by apply Hf.
Qed.

Lemma refines_fuel {A} (m : M St A) : refines out_of_fuel m.
Proof. by intros s r. Qed.
End fuel.

Section mono.
Context {St : Type} `{!PageOps St} (base : Z).

Ltac mono := repeat first
  [ apply refines_refl | apply refines_fuel | apply refines_bind; [|intros ?] | case_match ].

Lemma find_place_mono f f' bp p :
  (f <= f')%nat → refines (find_place (St := St) f bp p) (find_place f' bp p).
Proof.
  revert f' p. induction f as [|f IH]; intros f' p Hf; [apply refines_fuel|].
  destruct f' as [|f']; [lia|]. cbn [find_place]. mono; apply IH; lia.
Qed.

Lemma kfree_mono f f' ap : (f <= f')%nat → refines (kfree (St := St) f ap) (kfree f' ap).
Proof. intros Hf. unfold kfree. mono; by apply find_place_mono. Qed.

Lemma search_mono f f' nbytes n p prevp :
  (f <= f')%nat → refines (search (St := St) f nbytes n p prevp) (search f' nbytes n p prevp).
Proof.
  revert f' p prevp. induction f as [|f IH]; intros f' p prevp Hf; [apply refines_fuel|].
  destruct f' as [|f']; [lia|]. cbn [search]. mono; first [apply kfree_mono; lia|apply IH; lia].
Qed.

Lemma kmalloc_mono f f' nbytes :
  (f <= f')%nat → refines (kmalloc (St := St) base f nbytes) (kmalloc base f' nbytes).
Proof. intros Hf. unfold kmalloc. mono; by apply search_mono. Qed.
End mono.

(** The number of units asked for. *)
Lemma units_eq nbytes :
  0 < nbytes <= 4194296 →
  units nbytes = (nbytes + 7) / 8 + 1 ∧ 2 <= units nbytes <= 524288 ∧ nbytes + 8 <= 8 * units nbytes.
Proof.
  intros Hn. assert (E : units nbytes = (nbytes + 7) / 8 + 1).
  { unfold units, sizeof_header_t. rewrite (u32_small (nbytes + 8)) by lia.
    replace (nbytes + 8 - 1) with (nbytes + 7) by lia. rewrite (u32_small (nbytes + 7)) by lia.
    apply u32_small. Z.to_euclidean_division_equations; lia. }
  rewrite E. Z.to_euclidean_division_equations; lia.
Qed.

Section spec.
Context {St : Type} `{!PageOps St, !PageLaws St} (base : Z) (Hbase : base mod 4096 ≠ 0).
Implicit Types (s : heap St) (m F L : gmap Z Z).

Abbreviation heap_inv := (heap_inv base).

(** ** Carving a block out of a free one *)

(** What a successful request of [n] units does to the blocks. *)
Record carved s s' F F' L (b n : Z) : Prop := Carved {
  cv_inv : heap_inv s' F' (<[b := n]> L);
  cv_new : L !! b = None;
  cv_was x : b <= x < b + 8 * n → free_at F x;
  cv_free x : free_at F' x ↔ free_at F x ∧ ¬ b <= x < b + 8 * n;
  cv_kept : live_kept s s' L;
  cv_pages : pages s' = pages s;
  cv_size : (size (dom F') <= size (dom F))%nat;
  cv_left c j r : F !! c = Some j → n + r <= j → 0 < r → ∃ k, F' !! c = Some k ∧ r <= k
}.

(** The whole block at [q], unlinked from the one before it. *)
Lemma carved_whole s F L prev q n :
  heap_inv s F L → is_Some (F !! prev) → ld (words s) prev = q → prev ≠ q → F !! q = Some n → q ≠ base → 2 <= n →
  carved s (set_freep prev (set_words (<[prev := ld (words s) q]> (words s)) s)) F (delete q F) L q n.
Proof.
  intros Hinv [np Hprev] Hq Hne Hk Hqb Hn. pose proof Hinv as [Hwf Hl Hr Hfp Hlv].
  set (m' := <[prev := ld (words s) q]> (words s)).
  assert (Hout : ∀ a j w, L !! a = Some j → a <= w < a + 8 * j → ld m' w = ld (words s) w).
  { intros a j w Ha Hw. apply ld_insert_ne. intros <-. assert (a ≠ prev) by (intros ->; by rewrite (ly_disj _ _ _ _ Hl prev np Hprev) in Ha).
    pose proof (ly_apart _ _ _ _ Hl a j prev np (or_intror Ha) (or_introl Hprev) ltac:(done)). unfold span in *. lia. }
  assert (Hwq : ∀ c j, F !! c = Some j → c ≠ prev → ld m' c = ld (words s) c ∧ ld m' (c + 4) = ld (words s) (c + 4)).
  { intros c j Hc Hcp. pose proof (layout_words _ _ _ _ c j prev np Hl (or_introl Hc) (or_introl Hprev) Hcp).
    unfold m'. by rewrite !ld_insert_ne by lia. }
  split; [split; simpl; [done|by apply layout_take| | |]|..].
  - apply (ring_remove (words s) _ F prev q); try done; [unfold m'; by rewrite ld_insert_eq| |].
    + unfold m'. by rewrite ld_insert_ne by lia.
    + intros c [j Hc] Hcp _. by apply (Hwq c j).
  - rewrite lookup_delete_ne by done. eauto.
  - intros a j [[<- <-]|[_ Ha]]%lookup_insert_Some.
    + split; [lia|]. rewrite (proj2 (Hwq q n Hk (not_eq_sym Hne))). by apply Hr.
    + destruct (Hlv a j Ha) as [? E]. split; [done|]. rewrite <- E. apply (Hout a j); [done|lia].
  - by apply (ly_disj _ _ _ _ Hl q n).
  - intros x Hx. by exists q, n.
  - intros x. by apply (free_at_take base (pages s) F L).
  - intros a j w Ha Hw. by apply (Hout a j).
  - done.
  - rewrite dom_delete_L. apply subseteq_size. set_solver.
  - intros c j r Hc Hj Hr0. exists j. rewrite lookup_delete_ne; [split; [done|lia]|]. intros ->. simplify_eq. lia.
Qed.

(** The tail of the block at [q], which keeps the rest. *)
Lemma carved_tail s F L prev q k n :
  heap_inv s F L → is_Some (F !! prev) → F !! q = Some k → q ≠ base → 2 <= n < k →
  let b := q + 8 * (k - n) in
  carved s (set_freep prev (set_words (<[b + 4 := n]> (<[q + 4 := k - n]> (words s))) s)) F (<[q := k - n]> F) L b n.
Proof.
  intros Hinv Hprev Hk Hqb Hn b. pose proof Hinv as [Hwf Hl Hr Hfp Hlv].
  pose proof (layout_beside _ _ _ _ q k Hl Hk) as Hdisj.
  assert (Hl' : layout base (pages s) (<[q:=k - n]> F) (<[b:=n]> L)) by (apply layout_split; try done; lia).
  destruct (ly_ok _ _ _ _ Hl q k (or_introl Hk)) as [Hqa _ _ _ _ _].
  set (m' := <[b + 4 := n]> _).
  assert (Hout : ∀ w, w ≠ q + 4 → w ≠ b + 4 → ld m' w = ld (words s) w)
    by (intros w H1 H2; unfold m'; by rewrite !ld_insert_ne).
  assert (Hlive : ∀ a j w, L !! a = Some j → a <= w < a + span j → ld m' w = ld (words s) w).
  { intros a j w Ha Hw. assert (a ≠ q) by (intros ->; by rewrite (ly_disj _ _ _ _ Hl q k Hk) in Ha).
    pose proof (Hdisj a j (or_intror Ha) ltac:(done)). unfold span, b in *. apply Hout; lia. }
  split; [split; simpl; [done|done| | |]|..].
  - apply (ring_resize (words s) _ F q); [done|eauto|..].
    + apply Hout; unfold b; lia.
    + unfold m'. rewrite ld_insert_ne by (unfold b; lia). apply ld_insert_eq.
    + intros c [j Hc] Hcq. pose proof (Hdisj c j (or_introl Hc) Hcq).
      pose proof (bk_aligned _ _ _ _ (ly_ok _ _ _ _ Hl c j (or_introl Hc))).
      unfold span, b in *. rewrite !Hout; [done|..]; Z.to_euclidean_division_equations; lia.
  - destruct (decide (prev = q)) as [->|]; [rewrite lookup_insert_eq; eauto|by rewrite lookup_insert_ne].
  - intros a j [[<- <-]|[_ Ha]]%lookup_insert_Some.
    + split; [lia|]. apply ld_insert_eq.
    + destruct (Hlv a j Ha) as [? E]. split; [done|]. rewrite <- E. apply (Hlive a j); [done|unfold span; lia].
  - destruct (L !! b) as [j|] eqn:E; [|done].
    pose proof (Hdisj b j (or_intror E) ltac:(unfold b; lia)). unfold span, b in *. lia.
  - intros x Hx. exists q, k. split; [done|]. unfold b in *. lia.
  - intros x. by apply (free_at_split base (pages s) F L); [..|lia].
  - intros a j w Ha Hw. apply (Hlive a j); [done|unfold span; lia].
  - done.
  - rewrite dom_insert_lookup_L; [done|eauto].
  - intros c j r Hc Hj Hr0. destruct (decide (c = q)) as [->|].
    + exists (k - n). rewrite lookup_insert_eq. simplify_eq. split; [done|lia].
    + exists j. rewrite lookup_insert_ne by done. split; [done|lia].
Qed.

Lemma carve_ok s F L prev q k n :
  heap_inv s F L → is_Some (F !! prev) → ld (words s) prev = q → F !! q = Some k → 2 <= n <= k →
  ∃ s' F' b, carve q prev n s = Ok (b + 8, s') ∧ carved s s' F F' L b n.
Proof.
  intros Hinv Hprev Hq Hk Hn. pose proof Hinv as [Hwf Hl Hr Hfp Hlv]. pose proof Hprev as [np Hnp].
  assert (Hqb : q ≠ base) by (intros ->; rewrite (ly_base _ _ _ _ Hl) in Hk; simplify_eq; lia).
  assert (Hne : prev ≠ q).
  { intros E. destruct (Hr prev np Hnp) as (_ & _ & Hs). rewrite Hq, E in Hs.
    apply (succ_self F q base) in Hs; [congruence|]. rewrite (ly_base _ _ _ _ Hl). eauto. }
  assert (Hhq : hdr_ok (pages s) q) by (by apply (blk_hdr base _ F L q k); [|left]).
  assert (Hhp : hdr_ok (pages s) prev) by (by apply (blk_hdr base _ F L prev np); [|left]).
  assert (Hsz : ld (words s) (q + 4) = k) by (by apply Hr).
  destruct (ly_ok _ _ _ _ Hl q k (or_introl Hk)) as [_ Hq0 Hqe _ _ _]. unfold span in Hqe.
  unfold carve. hstep. rewrite Hsz. destruct (Z.eqb_spec k n) as [->|Hkn].
  - rewrite bind_assoc. hstep. rewrite bind_assoc. hstep.
    eexists _, (delete q F), q. split; [|by apply (carved_whole s F L prev q n); [..|lia]].
    unfold mbind, M_bind, modify, mret, M_ret. simpl. do 3 f_equal.
    unfold plus, sizeof_header_t. rewrite u32_small by lia. lia.
  - set (b := q + 8 * (k - n)).
    assert (Hhb : hdr_ok (pages s) b).
    { apply (blk_hdr base _ (<[q:=k - n]> F) (<[b:=n]> L) b n); [apply layout_split; try done; lia|].
      right. apply lookup_insert_eq. }
    assert (Eb : plus q (k - n) = b) by (unfold plus, sizeof_header_t, b; apply u32_small; lia).
    rewrite bind_assoc. hstep. rewrite u32_small by lia.
    set (s1 := set_words _ s). change (pages s) with (pages s1) in Hhq, Hhb.
    rewrite bind_assoc. hstep.
    assert (E1 : ld (words s1) (q + 4) = k - n) by apply ld_insert_eq.
    rewrite E1. cbv zeta. rewrite Eb, bind_assoc. hstep.
    eexists _, (<[q:=k - n]> F), b. split; [|by apply (carved_tail s F L prev q k n); [..|lia]].
    unfold mbind, M_bind, modify, mret, M_ret. simpl. do 3 f_equal.
    unfold plus, sizeof_header_t. rewrite u32_small by (unfold b; lia). lia.
Qed.

(** ** A new arena *)

Lemma heap_inv_pages s F L ps :
  heap_inv s F L → pg_wf ps → (∀ a, pg_mapped (pages s) a = true → pg_mapped ps a = true) →
  heap_inv (set_pages ps s) F L.
Proof.
  intros [Hwf Hl Hr Hfp Hlv] Hps Hm. split; try done. by apply (layout_pages base (pages s)).
Qed.

Lemma same_pages_mono (p p' : St) :
  same_pages p p' → ∀ a, pg_mapped p a = true → pg_mapped p' a = true.
Proof. intros [H _] a. by rewrite H. Qed.

Lemma heap_printk_ok s F L fmt args :
  heap_inv s F L → ∃ ps, printk fmt args s = Ok (tt, set_pages ps s) ∧ heap_inv (set_pages ps s) F L.
Proof.
  intros Hinv. destruct (pg_printk_spec (pages s) fmt args (hv_pages _ _ _ _ Hinv)) as (ps & E & Hwf & Hs).
  exists ps. split; [unfold printk, zoom; by rewrite E|].
  apply heap_inv_pages; [done..|]. by apply same_pages_mono.
Qed.

Lemma heap_inv_arena s s' F L v n :
  heap_inv s F L → freep s' = freep s → pg_wf (pages s') → words s' = <[v + 4 := n]> (words s) →
  layout base (pages s') F (<[v := n]> L) → F !! v = None → L !! v = None → 2 <= n →
  heap_inv s' F (<[v := n]> L) ∧ live_kept s s' L.
Proof.
  intros [Hwf Hl Hr Hfp Hlv] Ef Hwf' Ew Hl' HFv HLv Hn.
  assert (Hv : blk F (<[v:=n]> L) v n) by (right; apply lookup_insert_eq).
  assert (Hout : ∀ a j, blk F L a j → a ≠ v → v + 4 ≠ a ∧ v + 4 ≠ a + 4 ∧
    (∀ w, a <= w < a + 8 * j → w ≠ v + 4)).
  { intros a j Ha Hav. assert (Ha' : blk F (<[v:=n]> L) a j).
    { destruct Ha; [by left|right]. by rewrite lookup_insert_ne. }
    pose proof (ly_apart _ _ _ _ Hl' a j v n Ha' Hv Hav). unfold span in *.
    split_and!; [lia..|]. intros w Hw. lia. }
  split; [split|].
  - done.
  - done.
  - apply (ring_ext (words s)); [done|]. intros a [j Ha].
    assert (a ≠ v) by (intros ->; congruence).
    destruct (Hout a j (or_introl Ha) ltac:(done)) as (? & ? & _).
    rewrite Ew, !ld_insert_ne by done. done.
  - by rewrite Ef.
  - intros a j [[<- <-]|[Hav Ha]]%lookup_insert_Some.
    + split; [done|]. rewrite Ew. apply ld_insert_eq.
    + destruct (Hlv a j Ha) as [? E]. split; [done|].
      destruct (Hout a j (or_intror Ha) (not_eq_sym Hav)) as (_ & ? & _).
      by rewrite Ew, ld_insert_ne.
  - intros a j w Ha Hw. assert (a ≠ v) by (intros ->; congruence).
    destruct (Hout a j (or_intror Ha) ltac:(done)) as (_ & _ & Hw'). rewrite Ew, ld_insert_ne; [done|].
    apply not_eq_sym. by apply Hw'.
Qed.

(** The frames asked for when [n] units are missing. *)
Definition arena_frames (n : Z) : Z :=
  div_ceil ((if n <? MIN_BLOCK_SIZE then MIN_BLOCK_SIZE else n) *ᵤ sizeof_header_t) FOUR_KB.

Lemma arena_size n :
  2 <= n <= 524288 →
  let f := arena_frames n in
  is_u32 f ∧ f *ᵤ FOUR_KB = f * 4096 ∧ 8 * n <= f * 4096 ∧ 8192 <= f * 4096 <= 4194304 ∧
  align_up (f *ᵤ FOUR_KB) 4096 = f * 4096.
Proof.
  intros Hn f. unfold arena_frames, MIN_BLOCK_SIZE, sizeof_header_t, FOUR_KB in *.
  set (u := if n <? 1024 then 1024 else n) in *.
  assert (Hu : 1024 <= u <= 524288 ∧ n <= u) by (unfold u; destruct (Z.ltb_spec n 1024); lia).
  clearbody u. assert (Ef : f = (u * 8 + 4095) / 4096).
  { unfold f. rewrite u32_small by lia. rewrite div_ceil_eq by lia. f_equal. lia. }
  clearbody f. assert (8 * u <= f * 4096 <= 4194304) by (subst f; Z.to_euclidean_division_equations; lia).
  rewrite u32_small by lia. rewrite align_up_id by (apply Z.mod_mul; lia). lia.
Qed.

(** The failures of [acquire_more_heap]: nothing is lost of the heap. *)
Definition acquired s s' F F' L (n r : Z) : Prop :=
  heap_inv s' F' L ∧ live_kept s s' L ∧ (size (dom F') <= S (size (dom F)))%nat ∧
  ((r = 0 ∧ F' = F) ∨
   (r = freep s' ∧ r ≠ 0 ∧ (∃ a k, F' !! a = Some k ∧ n <= k) ∧
    (∀ x, free_at F' x → free_at F x ∨ pg_mapped (pages s) x = false))).

Lemma acquired_failed s F L ps n : heap_inv (set_pages ps s) F L → acquired s (set_pages ps s) F F L n 0.
Proof. intros Hinv. split_and!; [done| |lia|by left]. by intros a j w. Qed.

(** The paging code has [f] frames and addresses for them. *)
Definition grants (ps : St) (f : Z) (ps' : St) : Prop :=
  ∃ p v ps1 ps2, pg_allocate f ps = Ok (p, ps1) ∧ p ≠ 0 ∧ pg_find (f * 4096) ps1 = Ok (v, ps2) ∧ v ≠ 0 ∧
    pg_map p v (f * 4096) PAGING_READ_WRITE PAGING_PL0 ps2 = Ok (f * 4096, ps').

(** What [acquire_more_heap] does when [f] frames are asked for. *)
Definition arena_post s s' F F' L (f r : Z) : Prop :=
  (∀ n, 2 <= n → 8 * n <= f * 4096 → acquired s s' F F' L n r) ∧
  ∀ ps, grants (pages s) f ps → r ≠ 0 ∧ pages s' = ps.

Lemma acquire_failed s F L ps f fmt args :
  heap_inv (set_pages ps s) F L → (∀ ps', ¬ grants (pages s) f ps') →
  ∃ r s' F', (printk fmt args ≫= λ _, mret 0) (set_pages ps s) = Ok (r, s') ∧ arena_post s s' F F' L f r.
Proof.
  intros Hinv Hno. destruct (heap_printk_ok _ F L fmt args Hinv) as (ps' & E & Hinv').
  rewrite (bind_ok _ _ _ _ _ E). eexists 0, _, F. split; [done|]. split.
  - intros n _ _. by apply (acquired_failed s F L ps').
  - intros ps1 Hg. by destruct (Hno ps1).
Qed.

(** The arena made a live block and freed at once. *)
Lemma arena_freed fuel s s1 F L v f :
  heap_inv s F L → (size (dom F) < fuel)%nat → freep s1 = freep s → words s1 = words s →
  pg_wf (pages s1) → (∀ a, pg_mapped (pages s) a = true → pg_mapped (pages s1) a = true) →
  8192 <= f * 4096 → v mod 4096 = 0 → 0 < v → v + f * 4096 <= 4294967296 →
  (∀ x, v <= x < v + f * 4096 → pg_mapped (pages s) x = false) →
  (∀ x, v <= x < v + f * 4096 → pg_mapped (pages s1) x = true) →
  ∃ r s' F', (set_size v (f * 4096 / 8) ≫= λ _, kfree fuel (plus v 1) ≫= λ _, gets freep) s1
    = Ok (r, s') ∧ (∀ n, 2 <= n → 8 * n <= f * 4096 → acquired s s' F F' L n r) ∧ r ≠ 0 ∧ pages s' = pages s1.
Proof.
  intros Hinv Hfuel Efp Ew Hwf1 Hmono Hf Hva Hv0 Hve Hfresh Hmap.
  set (k := f * 4096 / 8). assert (Ek : 8 * k = f * 4096) by (unfold k; Z.to_euclidean_division_equations; lia).
  destruct (layout_extend base (pages s) (pages s1) F L v k) as (Hl1 & HFv & HLv).
  { apply Hinv. } { done. } { Z.to_euclidean_division_equations; lia. } { done. } { lia. } { lia. }
  { intros E. apply Hbase. rewrite <- E. Z.to_euclidean_division_equations; lia. }
  { intros x Hx. apply Hfresh. lia. } { intros x Hx. apply Hmap. lia. }
  assert (Hh : hdr_ok (pages s1) v).
  { apply (blk_hdr base _ _ _ v k Hl1). right. apply lookup_insert_eq. }
  hstep. set (s2 := set_words _ s1).
  destruct (heap_inv_arena s s2 F L v k) as [Hinv2 Hkept]; try done; [|lia|].
  { unfold s2. simpl. by rewrite Ew. }
  assert (Ep : plus v 1 = v + 8) by (unfold plus, sizeof_header_t; apply u32_small; lia).
  rewrite Ep. destruct (kfree_spec base fuel s2 F _ v k Hinv2 (lookup_insert_eq _ _ _) Hfuel)
    as (s3 & F' & E & Hinv3 & Hfree & Epg & Hkept3 & Hsize & (a & j & Ha & Hj)).
  rewrite delete_insert_id in * by done.
  rewrite (bind_ok _ _ _ _ _ E). eexists (freep s3), s3, F'. split; [done|].
  destruct (hv_freep _ _ _ _ Hinv3) as [i Hi].
  pose proof (bk_pos _ _ _ _ (ly_ok _ _ _ _ (hv_layout _ _ _ _ Hinv3) _ i (or_introl Hi))).
  split; [|split; [lia|by rewrite Epg]]. intros n Hn Hnf. split_and!; [done| |done|right].
  - apply (live_kept_trans s s2 s3 L L); auto.
  - split_and!; [done|lia|exists a, j; split; [done|lia]|].
    intros x [?|?]%Hfree; [by left|right]. apply Hfresh. lia.
Qed.

Lemma acquire_ok fuel s F L n :
  heap_inv s F L → 2 <= n <= 524288 → (size (dom F) < fuel)%nat →
  ∃ r s' F', acquire_more_heap fuel n s = Ok (r, s') ∧ arena_post s s' F F' L (arena_frames n) r.
Proof.
  intros Hinv Hn Hfuel. unfold acquire_more_heap.
  destruct (arena_size n Hn) as (Hf & Eb & Hnf & Hfr & Eal). fold (arena_frames n).
  set (f := arena_frames n) in *. rewrite Eb in *. clearbody f. clear Eb.
  destruct (pg_allocate_spec (pages s) f (hv_pages _ _ _ _ Hinv) Hf) as (p & ps1 & E1 & Hwf1 & Hs1 & Hp).
  assert (Ea : pfa_allocate f s = Ok (p, set_pages ps1 s)) by (unfold pfa_allocate, zoom; by rewrite E1).
  rewrite (bind_ok _ _ _ _ _ Ea). pose proof (same_pages_mono _ _ Hs1) as Hm1.
  destruct (Z.eqb_spec p 0) as [Hp0|Hp0].
  { apply acquire_failed; [by apply heap_inv_pages|]. intros ps (?&?&?&?&E&?&_). rewrite E1 in E. congruence. }
  destruct (Hp Hp0) as (Hpp & Hpa & Hpe).
  destruct (pg_find_spec ps1 (f * 4096) Hwf1 ltac:(lia)) as (v & ps2 & E2 & Hwf2 & Hs2 & Hv).
  assert (Eb : pdt_kernel_find_next_vaddr (f * 4096) (set_pages ps1 s) = Ok (v, set_pages ps2 s))
    by (unfold pdt_kernel_find_next_vaddr, zoom; simpl; by rewrite E2).
  rewrite (bind_ok _ _ _ _ _ Eb). pose proof (same_pages_mono _ _ Hs2) as Hm2.
  destruct (Z.eqb_spec v 0) as [Hv0|Hv0].
  { apply acquire_failed; [apply heap_inv_pages; auto|]. intros ps (?&?&?&?&E&_&E'&?&_).
    rewrite E1 in E. injection E as <- <-. rewrite E2 in E'. congruence. }
  destruct (pg_found_spec ps2 v (f * 4096) Hwf2 (Hv Hv0)) as (Hva & Hvl & Hve & Hfresh).
  rewrite Eal in *.
  destruct (pg_map_spec ps2 p v (f * 4096) PAGING_READ_WRITE PAGING_PL0 Hwf2 ltac:(lia) Hpa ltac:(lia)
    (Hv Hv0)) as (r & ps3 & E3 & Hwf3 & Hm3 & Hr).
  assert (Ec : pdt_map_kernel_memory p v (f * 4096) PAGING_READ_WRITE PAGING_PL0 (set_pages ps2 s)
    = Ok (r, set_pages ps3 s)) by (unfold pdt_map_kernel_memory, zoom; simpl; by rewrite E3).
  rewrite (bind_ok _ _ _ _ _ Ec).
  destruct Hr as [->|[-> Hmap]].
  { destruct (Z.ltb_spec 0 (f * 4096)); [|lia]. apply acquire_failed; [apply heap_inv_pages; auto|].
    intros ps (?&?&?&?&E&_&E'&_&E''). rewrite E1 in E. injection E as <- <-. rewrite E2 in E'. injection E' as <- <-.
    rewrite E3 in E''. injection E'' as Ez _. lia. }
  rewrite Eal, Z.ltb_irrefl in *. unfold sizeof_header_t.
  destruct (arena_freed fuel s (set_pages ps3 s) F L v f) as (r & s' & F' & E & Hacq & Hr0 & Epg); simpl; auto; try lia.
  { intros x Hx. destruct Hs1 as [M1 _], Hs2 as [M2 _]. rewrite <- M1, <- M2. by apply Hfresh. }
  exists r, s', F'. split; [done|]. split; [done|]. intros ps (?&?&?&?&E1'&_&E2'&_&E3'). split; [done|].
  rewrite E1 in E1'. injection E1' as <- <-. rewrite E2 in E2'. injection E2' as <- <-. rewrite E3 in E3'.
  injection E3' as <-. exact Epg.
Qed.

(** ** The search *)

Lemma ahead_last F a t c :
  is_Some (F !! a) → is_Some (F !! t) → succ F a t → c ∈ ahead F a t → c = t.
Proof.
  intros Ha Ht Hs [Hc Hb]%elem_of_ahead. unfold between in Hb.
  destruct Hs as [[Hlt H]|[Hle H]]; pose proof (H c Hc); pose proof (H a Ha);
    destruct (Z.ltb_spec a t); lia.
Qed.

(** The blocks met before the one after [prevp] are too small. *)
Definition seen_small s F (prevp n : Z) : Prop :=
  ∀ c k, F !! c = Some k → c ∉ ahead F prevp (freep s) → k < n.

(** The search ends at a block that is big enough, or has met them all. *)
Lemma search_walk fuel s F L nbytes n prevp :
  heap_inv s F L → is_Some (F !! prevp) → seen_small s F prevp n →
  (size (ahead F prevp (freep s)) < fuel)%nat →
  (∃ prev q k, is_Some (F !! prev) ∧ ld (words s) prev = q ∧ F !! q = Some k ∧ n <= k ∧
     search fuel nbytes n (ld (words s) prevp) prevp s = carve q prev n s) ∨
  ((∀ c k, F !! c = Some k → k < n) ∧
   ∃ fuel', (fuel <= S fuel' + size (ahead F prevp (freep s)))%nat ∧
     search fuel nbytes n (ld (words s) prevp) prevp s
     = (p ← acquire_more_heap (S fuel') n;
        if p =? 0 then printk "Cannot acquire more memory. memory: %u" [nbytes] ≫= λ _, mret 0
        else next ← get_next p; search fuel' nbytes n next p) s).
Proof.
  intros Hinv Hp Hseen Hf. revert prevp Hp Hseen Hf.
  induction fuel as [|fuel IH]; intros prevp [np Hnp] Hseen Hf; [lia|].
  pose proof Hinv as [Hwf Hl Hr Hfp Hlv].
  destruct (Hr prevp np Hnp) as (_ & [k Hk] & Hs). set (p := ld (words s) prevp) in *.
  assert (Hhp : hdr_ok (pages s) p) by (by apply (blk_hdr base _ F L p k); [|left]).
  assert (Hsz : ld (words s) (p + 4) = k) by (by apply Hr).
  cbn [search]. hstep. rewrite Hsz. destruct (Z.leb_spec n k) as [Hnk|Hnk].
  { left. exists prevp, p, k. split_and!; done. }
  rewrite (bind_ok _ _ s (freep s) s) by done.
  destruct (Z.eqb_spec p (freep s)) as [E|E].
  - right. split.
    + intros c j Hc. destruct (decide (c ∈ ahead F prevp (freep s))) as [Hin|Hin]; [|by apply (Hseen c j)].
      rewrite <- E in Hin. assert (c = p) as -> by (apply (ahead_last F prevp p c); eauto). congruence.
    + exists fuel. split; [lia|done].
  - hstep.
    assert (Hd : (size (ahead F p (freep s)) < size (ahead F prevp (freep s)))%nat)
      by (apply ahead_decr; eauto).
    destruct (IH p) as [?|(Hall & fuel' & Hf' & Es)]; [by eauto| |lia|by left|].
    + intros c j Hc Hin. destruct (decide (c = p)) as [->|Hcp]; [congruence|].
      apply (Hseen c j Hc). rewrite (ahead_step F prevp p) by eauto. intros [?|?]; done.
    + right. split; [done|]. exists fuel'. split; [lia|done].
Qed.

(** A block of at least [n] units, [n] being 0 if none is needed. *)
Definition has_block F (n : Z) : Prop := ∃ c k, F !! c = Some k ∧ n <= k.

(** With a block that is big enough it is carved, and no pages are asked for. *)
Lemma search_carves fuel s F L nbytes n r :
  heap_inv s F L → 2 <= n → 0 <= r → has_block F (n + r) → (S (size (dom F)) <= fuel)%nat →
  ∃ s' F' b, search fuel nbytes n (ld (words s) (freep s)) (freep s) s = Ok (b + 8, s') ∧
    carved s s' F F' L b n ∧ has_block F' r.
Proof.
  intros Hinv Hn Hr (c & k & Hc & Hk) Hfuel.
  pose proof (ahead_size F (freep s) (freep s)) as Hsz.
  destruct (search_walk fuel s F L nbytes n (freep s) Hinv (hv_freep _ _ _ _ Hinv))
    as [(prev & q & j & Hprev & Hq & Hj & Hnj & ->)|(Hsmall & _)].
  - intros a j Ha Hin. destruct Hin. apply ahead_all. eauto.
  - lia.
  - destruct (carve_ok s F L prev q j n Hinv Hprev Hq Hj ltac:(lia)) as (s' & F' & b & E & Hc').
    exists s', F', b. split_and!; [done..|]. destruct (decide (0 < r)).
    + destruct (cv_left _ _ _ _ _ _ _ Hc' c k r Hc Hk) as (i & Hi & Hir); [done|]. by exists c, i.
    + exists base, 0. split; [|lia]. apply (ly_base _ _ _ _ (hv_layout _ _ _ _ (cv_inv _ _ _ _ _ _ _ Hc'))).
  - specialize (Hsmall c k Hc). lia.
Qed.

(** What [kmalloc] answers for [n] units. *)
Definition allocated s s' F F' L (n r : Z) : Prop :=
  (r = 0 ∧ heap_inv s' F' L ∧ F' = F ∧ live_kept s s' L) ∨
  (∃ b, r = b + 8 ∧ heap_inv s' F' (<[b := n]> L) ∧ L !! b = None ∧ live_kept s s' L ∧
     (∀ x, b <= x < b + 8 * n → free_at F x ∨ pg_mapped (pages s) x = false)).

Lemma carve_allocated s s1 F F1 L prev q k n :
  heap_inv s1 F1 L → live_kept s s1 L → (size (dom F1) <= S (size (dom F)))%nat →
  (∀ x, free_at F1 x → free_at F x ∨ pg_mapped (pages s) x = false) →
  is_Some (F1 !! prev) → ld (words s1) prev = q → F1 !! q = Some k → 2 <= n → n <= k →
  ∃ r s' F', carve q prev n s1 = Ok (r, s') ∧
    allocated s s' F F' L n r ∧ (size (dom F') <= S (size (dom F)))%nat.
Proof.
  intros Hinv Hkept Hsize Hfree Hprev Hq Hk H2 Hn.
  destruct (carve_ok s1 F1 L prev q k n Hinv Hprev Hq Hk ltac:(lia)) as (s' & F' & b & E & []).
  exists (b + 8), s', F'. split_and!; [done| |lia]. right. exists b. split_and!; try done.
  - by apply (live_kept_trans s s1 s' L L); auto.
  - auto.
Qed.

Lemma search_ok fuel s F L nbytes n :
  heap_inv s F L → 2 <= n <= 524288 → (2 * size (dom F) + 4 <= fuel)%nat →
  ∃ r s' F', search fuel nbytes n (ld (words s) (freep s)) (freep s) s = Ok (r, s') ∧
    allocated s s' F F' L n r ∧ (size (dom F') <= S (size (dom F)))%nat.
Proof.
  intros Hinv Hn Hfuel.
  assert (Hall : ∀ t F c k, F !! c = Some k → c ∈ ahead F t t) by (intros; apply ahead_all; eauto).
  pose proof (ahead_size F (freep s) (freep s)) as Hsz.
  destruct (search_walk fuel s F L nbytes n (freep s) Hinv (hv_freep _ _ _ _ Hinv))
    as [(prev & q & k & Hprev & Hq & Hk & Hnk & ->)|(Hsmall & fuel' & Hf' & ->)].
  { intros c k Hc Hin. by destruct Hin; eapply Hall. }
  { lia. }
  { apply (carve_allocated s s F F L prev q k n); auto; try lia. by intros a j w. }
  destruct (acquire_ok (S fuel') s F L n Hinv Hn ltac:(lia)) as (r & s1 & F1 & E & Hpost & _).
  destruct (arena_size n Hn) as (_ & _ & Hnf & _ & _). pose proof (Hpost n ltac:(lia) Hnf) as Hacq.
  rewrite (bind_ok _ _ _ _ _ E). destruct Hacq as (Hinv1 & Hk1 & Hs1 & [(-> & ->)|(Er & Hr0 & Hbig & Hfr)]).
  - simpl. destruct (heap_printk_ok s1 F L "Cannot acquire more memory. memory: %u" [nbytes] Hinv1) as (ps & Ep & Hinv2).
    rewrite (bind_ok _ _ _ _ _ Ep). eexists 0, _, F. split_and!; [done| |done]. left. by split_and!.
  - destruct (Z.eqb_spec r 0) as [|_]; [done|].
    destruct (hv_freep _ _ _ _ Hinv1) as [j Hj].
    assert (Hh : hdr_ok (pages s1) r).
    { subst r. apply (blk_hdr base _ F1 L _ j); [apply Hinv1|by left]. }
    hstep. subst r. pose proof (ahead_size F1 (freep s1) (freep s1)) as Hsz1.
    destruct (search_walk fuel' s1 F1 L nbytes n (freep s1) Hinv1 ltac:(eauto))
      as [(prev & q & k & Hprev & Hq & Hk & Hnk & ->)|(Hsm & _)].
    { intros c k Hc Hin. by destruct Hin; eapply Hall. }
    { lia. }
    { apply (carve_allocated s s1 F F1 L prev q k n); auto; lia. }
    destruct Hbig as (a & k & Ha & Hk). specialize (Hsm a k Ha). lia.
Qed.

(** ** [kmalloc] *)

(** The start of [kmalloc] once there is a list. *)
Lemma kmalloc_search fuel s F L nbytes :
  heap_inv s F L → nbytes ≠ 0 →
  kmalloc base fuel nbytes s
  = search fuel nbytes (units nbytes) (ld (words s) (freep s)) (freep s) s.
Proof.
  intros Hinv Hn. unfold kmalloc. destruct (Z.eqb_spec nbytes 0); [lia|].
  rewrite (bind_ok _ _ s (freep s) s) by done.
  destruct (hv_freep _ _ _ _ Hinv) as [j Hj].
  pose proof (bk_pos _ _ _ _ (ly_ok _ _ _ _ (hv_layout _ _ _ _ Hinv) _ j (or_introl Hj))).
  destruct (Z.eqb_spec (freep s) 0); [lia|].
  rewrite (bind_ok _ _ s tt s), (bind_ok _ _ s (freep s) s) by done.
  assert (Hh : hdr_ok (pages s) (freep s)) by (apply (blk_hdr base _ F L _ j); [apply Hinv|by left]).
  by hstep.
Qed.

Lemma kmalloc_carves fuel s F L nbytes r :
  heap_inv s F L → 0 < nbytes <= 4194296 → 0 <= r → has_block F (units nbytes + r) →
  (size (dom F) < fuel)%nat →
  ∃ s' F' b, kmalloc base fuel nbytes s = Ok (b + 8, s') ∧
    carved s s' F F' L b (units nbytes) ∧ has_block F' r.
Proof.
  intros Hinv Hn Hr Hb Hfuel. rewrite (kmalloc_search fuel s F L) by (done || lia).
  pose proof (units_eq nbytes Hn). apply search_carves; try done; lia.
Qed.

(** When no block is big enough and the paging code has room, the heap grows. *)
Lemma search_grows fuel s F L nbytes n r ps :
  heap_inv s F L → 2 <= n <= 524288 → 0 <= r → 8 * (n + r) <= arena_frames n * 4096 →
  (∀ c k, F !! c = Some k → k < n) → grants (pages s) (arena_frames n) ps → (2 * size (dom F) + 4 <= fuel)%nat →
  ∃ s' F' b, search fuel nbytes n (ld (words s) (freep s)) (freep s) s = Ok (b + 8, s') ∧
    heap_inv s' F' (<[b := n]> L) ∧ L !! b = None ∧ live_kept s s' L ∧ pages s' = ps ∧ has_block F' r ∧
    (size (dom F') <= S (size (dom F)))%nat.
Proof.
  intros Hinv Hn Hr Hnr Hsmall Hg Hfuel. pose proof (ahead_size F (freep s) (freep s)) as Hsz.
  destruct (search_walk fuel s F L nbytes n (freep s) Hinv (hv_freep _ _ _ _ Hinv))
    as [(prev & q & k & _ & _ & Hk & Hnk & _)|(_ & fuel' & Hf' & ->)].
  { intros c k Hc Hin. destruct Hin. apply ahead_all. eauto. } { lia. } { specialize (Hsmall q k Hk). lia. }
  destruct (acquire_ok (S fuel') s F L n Hinv Hn ltac:(lia)) as (p & s1 & F1 & E & Hpost & Hgr).
  destruct (Hgr ps Hg) as [Hp Eps]. rewrite (bind_ok _ _ _ _ _ E).
  destruct (Hpost (n + r) ltac:(lia) ltac:(lia)) as (Hinv1 & Hk1 & Hs1 & [(-> & _)|(Er & _ & Hbig & _)]); [done|].
  destruct (Z.eqb_spec p 0); [done|]. destruct (hv_freep _ _ _ _ Hinv1) as [j Hj]. subst p.
  assert (Hh : hdr_ok (pages s1) (freep s1)) by (apply (blk_hdr base _ F1 L _ j); [apply Hinv1|by left]).
  hstep. destruct (search_carves fuel' s1 F1 L nbytes n r Hinv1 ltac:(lia) Hr Hbig ltac:(lia))
    as (s' & F' & b & Es & Hc & Hb). pose proof Hc as [Hi Hnew _ _ Hkept Hpg Hsize _].
  exists s', F', b. split; [done|]. split; [done|]. split; [done|].
  split; [by apply (live_kept_trans s s1 s' L L)|]. split; [by rewrite Hpg|]. split; [done|]. lia.
Qed.

Lemma kmalloc_spec fuel s F L nbytes :
  heap_inv s F L → 0 < nbytes <= 4194296 → (2 * size (dom F) + 4 <= fuel)%nat →
  ∃ r s' F', kmalloc base fuel nbytes s = Ok (r, s') ∧
    allocated s s' F F' L (units nbytes) r ∧ (size (dom F') <= S (size (dom F)))%nat.
Proof.
  intros Hinv Hn Hfuel. rewrite (kmalloc_search fuel s F L) by (done || lia).
  apply search_ok; [done| |done]. by apply units_eq.
Qed.

(** Before the first call. *)
Record heap_start s : Prop := HeapStart {
  hs_pages : pg_wf (pages s);
  hs_freep : freep s = 0;
  hs_base : block_ok base (pages s) base 0
}.

Definition started s : heap St :=
  set_words (<[base + 4 := 0]> (<[base := base]> (words s))) (set_freep base s).

Lemma started_inv s : heap_start s → heap_inv (started s) {[base := 0]} ∅.
Proof.
  intros [Hwf Hfp Hb]. split; simpl; try done.
  - split.
    + apply lookup_singleton_eq.
    + intros a n _. apply lookup_empty.
    + intros a n [[<- <-]%lookup_singleton_Some|H]; [done|by rewrite lookup_empty in H].
    + intros a n b k [[<- _]%lookup_singleton_Some|H] [[<- _]%lookup_singleton_Some|H'] Hne;
        [done|by rewrite lookup_empty in H'|by rewrite lookup_empty in H..].
  - intros a n [<- <-]%lookup_singleton_Some. rewrite ld_insert_eq.
    rewrite ld_insert_ne, ld_insert_eq by lia. split_and!; [done|rewrite lookup_singleton_eq; eauto|].
    right. split; [lia|]. intros c [k [<- _]%lookup_singleton_Some]. lia.
  - rewrite lookup_singleton_eq. eauto.
Qed.

Lemma kmalloc_first fuel s nbytes :
  heap_start s → nbytes ≠ 0 → kmalloc base fuel nbytes s = kmalloc base fuel nbytes (started s).
Proof.
  intros Hs Hn. pose proof (started_inv s Hs) as Hinv. destruct Hs as [Hwf Hfp Hb].
  assert (Hh : hdr_ok (pages s) base).
  { apply (blk_hdr base _ {[base := 0]} ∅ base 0); [apply Hinv|left; apply lookup_singleton_eq]. }
  pose proof (bk_pos _ _ _ _ Hb). unfold kmalloc. destruct (Z.eqb_spec nbytes 0); [done|].
  rewrite (bind_ok _ _ s (freep s) s), (bind_ok _ _ (started s) base (started s)) by done.
  rewrite Hfp. destruct (Z.eqb_spec base 0); [lia|]. simpl (0 =? 0). cbv iota.
  rewrite !bind_assoc. rewrite (bind_ok _ _ s tt (set_freep base s)) by done.
  set (s1 := set_freep base s). change (pages s) with (pages s1) in Hh.
  rewrite bind_assoc. hstep. set (s2 := set_words _ s1). change (pages s1) with (pages s2) in Hh.
  by rewrite (bind_ok _ _ _ _ _ (set_size_ok s2 base 0 Hh)).
Qed.
End spec.
