(* ===== verification/KmallocTrace.v ===== *)
(** * KmallocTrace: the heap under any sequence of calls

    A client calls [kmalloc] and [kfree] and writes into the blocks it owns, in
    any order. In every state so reached the blocks are disjoint and accessible
    and no call faults. *)

From S2P Require Import Prelude CArith Frames Mmu Paging PagingFacts DemoMachine PageServices PagingServices Ring Kmalloc HeapLayout KmallocFacts KmallocSpec.

Section trace.
Context {St : Type} `{!PageOps St, !PageLaws St} (base : Z) (Hbase : base mod 4096 ≠ 0).
Implicit Types (s : heap St) (F L U : gmap Z Z).

(** The state and the blocks the client owns: their addresses and the sizes
    asked for. *)
Inductive heap_step : heap St * gmap Z Z → heap St * gmap Z Z → Prop :=
| step_kmalloc s U fuel nbytes p s' :
    0 < nbytes <= 4194296 → kmalloc base fuel nbytes s = Ok (p, s') → p ≠ 0 →
    heap_step (s, U) (s', <[p := nbytes]> U)
| step_kmalloc_fails s U fuel nbytes s' :
    0 < nbytes <= 4194296 → kmalloc base fuel nbytes s = Ok (0, s') → heap_step (s, U) (s', U)
| step_kfree s U fuel p s' :
    is_Some (U !! p) → kfree fuel p s = Ok (tt, s') → heap_step (s, U) (s', delete p U)
| step_write s U p n a w :
    U !! p = Some n → p <= a → a + 4 <= p + n →
    heap_step (s, U) (set_words (<[a := w]> (words s)) s, U).

(** The blocks owned are the live ones. *)
Definition tracked L U : Prop :=
  (∀ p n, U !! p = Some n → 0 < n <= 4194296 ∧ L !! (p - 8) = Some (units n)) ∧
  (∀ a k, L !! a = Some k → is_Some (U !! (a + 8))).

Definition state_inv (c : heap St * gmap Z Z) : Prop :=
  (heap_start base c.1 ∧ c.2 = ∅) ∨ ∃ F L, heap_inv base c.1 F L ∧ tracked L c.2.

Lemma tracked_kept s s' L U :
  tracked L U → live_kept s s' L →
  ∀ q n w, U !! q = Some n → q <= w < q + n → ld (words s') w = ld (words s) w.
Proof.
  intros [Hu _] Hk q n w Hq Hw. destruct (Hu q n Hq) as [Hn Hl].
  destruct (units_eq n Hn) as (_ & _ & ?). apply (Hk (q - 8) (units n)); [done|lia].
Qed.

Lemma tracked_insert L U b n :
  tracked L U → 0 < n <= 4194296 → L !! b = None → tracked (<[b := units n]> L) (<[b + 8 := n]> U).
Proof.
  intros [Hu Hl] Hn Hb. split.
  - intros p k [[<- <-]|[Hne Hp]]%lookup_insert_Some.
    + split; [done|]. replace (b + 8 - 8) with b by lia. apply lookup_insert_eq.
    + destruct (Hu p k Hp). split; [done|]. rewrite lookup_insert_ne by lia. done.
  - intros a k [[<- <-]|[Hne Ha]]%lookup_insert_Some; [rewrite lookup_insert_eq; eauto|].
    rewrite lookup_insert_ne by lia. eauto.
Qed.

Lemma tracked_delete L U p : tracked L U → tracked (delete (p - 8) L) (delete p U).
Proof.
  intros [Hu Hl]. split.
  - intros q n [Hne Hq]%lookup_delete_Some. destruct (Hu q n Hq). split; [done|].
    rewrite lookup_delete_ne by lia. done.
  - intros a k [Hne Ha]%lookup_delete_Some. rewrite lookup_delete_ne by lia. eauto.
Qed.

(** [kmalloc] in a reachable state: with enough fuel it ends, and whenever it
    ends this is what it has done. *)
Definition kmalloc_post s U nbytes p s' : Prop :=
  (∀ q n w, U !! q = Some n → q <= w < q + n → ld (words s') w = ld (words s) w) ∧
  ((p = 0 ∧ state_inv (s', U)) ∨ (p ≠ 0 ∧ U !! p = None ∧ state_inv (s', <[p := nbytes]> U))).

Lemma allocated_post s s' F F' L U nbytes r :
  tracked L U → 0 < nbytes <= 4194296 → allocated base s s' F F' L (units nbytes) r →
  kmalloc_post s U nbytes r s'.
Proof.
  intros Ht Hn [(-> & Hinv & -> & Hk)|(b & -> & Hinv & Hb & Hk & _)];
    (split; [by apply (tracked_kept _ _ L)|]).
  - left. split; [done|]. right. eauto.
  - right. pose proof (bk_pos _ _ _ _ (ly_ok _ _ _ _ (hv_layout _ _ _ _ Hinv) b (units nbytes)
      (or_intror (lookup_insert_eq _ _ _)))).
    split_and!; [lia| |right; exists F', (<[b:=units nbytes]> L); split; [done|by apply tracked_insert]].
    destruct (U !! (b + 8)) as [n|] eqn:E; [|done]. destruct Ht as [Hu _].
    destruct (Hu _ _ E) as [_ Hl]. replace (b + 8 - 8) with b in Hl by lia. congruence.
Qed.

Lemma kmalloc_total s U nbytes :
  state_inv (s, U) → 0 < nbytes <= 4194296 →
  ∃ fuel p s', (∀ f, (fuel <= f)%nat → kmalloc base f nbytes s = Ok (p, s')) ∧
    kmalloc_post s U nbytes p s'.
Proof.
  intros Hinv Hn. assert (Hcase : ∃ s0 F L, heap_inv base s0 F L ∧ tracked L U ∧
    (∀ f, kmalloc base f nbytes s = kmalloc base f nbytes s0) ∧ live_kept s s0 L).
  { destruct Hinv as [[Hs E]|(F & L & Hi & Ht)]; simpl in *.
    - subst U. exists (started base s), {[base := 0]}, ∅. split_and!.
      + by apply started_inv. + split; intros ? ? H; by rewrite lookup_empty in H.
      + intros f. apply kmalloc_first; [done|lia]. + intros ? ? ? H. by rewrite lookup_empty in H.
    - exists s, F, L. split_and!; [done..|by intros ? ? ?]. }
  destruct Hcase as (s0 & F & L & Hi & Ht & Heq & Hk0).
  destruct (kmalloc_spec base Hbase (2 * size (dom F) + 4) s0 F L nbytes Hi Hn ltac:(lia))
    as (r & s' & F' & E & Ha & _).
  exists (2 * size (dom F) + 4)%nat, r, s'. split.
  - intros f Hf. rewrite Heq. by apply (kmalloc_mono base _ _ nbytes Hf).
  - apply (allocated_post s0 s' F F' L U) in Ha; [|done..]. destruct Ha as [Hkept Hor].
    split; [|done]. intros q n w Hq Hw. rewrite (Hkept q n w Hq Hw).
    by apply (tracked_kept s s0 L U Ht Hk0 q n w).
Qed.

Lemma kmalloc_any s U fuel nbytes p s' :
  state_inv (s, U) → 0 < nbytes <= 4194296 → kmalloc base fuel nbytes s = Ok (p, s') →
  kmalloc_post s U nbytes p s'.
Proof.
  intros Hinv Hn E. destruct (kmalloc_total s U nbytes Hinv Hn) as (f & p' & s2 & Hall & Hpost).
  apply (kmalloc_mono base fuel (Nat.max f fuel)) in E; [|lia].
  rewrite Hall in E by lia. by injection E as <- <-.
Qed.

(** The same for [kfree]; the block freed can be had again without new pages. *)
Definition kfree_post s U p s' : Prop :=
  (∀ q n w, U !! q = Some n → q ≠ p → q <= w < q + n → ld (words s') w = ld (words s) w) ∧
  pages s' = pages s ∧
  ∃ F' L', heap_inv base s' F' L' ∧ tracked L' (delete p U) ∧
    (∀ n, U !! p = Some n → ∃ a k, F' !! a = Some k ∧ units n <= k).

Lemma kfree_total s U p :
  state_inv (s, U) → is_Some (U !! p) →
  ∃ fuel s', (∀ f, (fuel <= f)%nat → kfree f p s = Ok (tt, s')) ∧ kfree_post s U p s'.
Proof.
  intros [[_ E]|(F & L & Hi & Ht)] [n Hp]; simpl in *; [by rewrite E, lookup_empty in Hp|].
  destruct (proj1 Ht p n Hp) as [Hn Hl].
  destruct (kfree_spec base (S (size (dom F))) s F L (p - 8) (units n) Hi Hl ltac:(lia))
    as (s' & F' & E & Hi' & _ & Epg & Hk & _ & Hbig).
  replace (p - 8 + 8) with p in E by lia.
  exists (S (size (dom F))), s'. split; [intros f Hf; by apply (kfree_mono _ _ p Hf)|].
  pose proof (tracked_delete L U p Ht) as Ht'. split_and!; [|done|].
  - intros q k w Hq Hne Hw. apply (tracked_kept s s' _ _ Ht' Hk q k w); [|done].
    by rewrite lookup_delete_ne.
  - exists F', (delete (p - 8) L). split_and!; [done..|]. intros j Hj. by simplify_eq.
Qed.

Lemma kfree_any s U fuel p s' :
  state_inv (s, U) → is_Some (U !! p) → kfree fuel p s = Ok (tt, s') → kfree_post s U p s'.
Proof.
  intros Hinv Hp E. destruct (kfree_total s U p Hinv Hp) as (f & s2 & Hall & Hpost).
  apply (kfree_mono fuel (Nat.max f fuel)) in E; [|lia].
  rewrite Hall in E by lia. by injection E as <-.
Qed.

(** Writing in a block one owns. *)
Lemma write_heap s F L U p n a w :
  heap_inv base s F L → tracked L U → U !! p = Some n → p <= a → a + 4 <= p + n →
  heap_inv base (set_words (<[a := w]> (words s)) s) F L.
Proof.
  intros Hi Ht Hp Ha1 Ha2. destruct (proj1 Ht p n Hp) as [Hn Hl].
  destruct (units_eq n Hn) as (_ & _ & Hu). destruct Hi as [Hwf Hly Hr Hfp Hlv].
  assert (Hout : ∀ b k, blk F L b k → b ≠ p - 8 → a ≠ b ∧ a ≠ b + 4).
  { intros b k Hb Hne. pose proof (ly_apart _ _ _ _ Hly b k (p - 8) (units n) Hb (or_intror Hl) Hne).
    unfold span in *. lia. }
  split; simpl; try done.
  - apply (ring_ext (words s)); [done|]. intros b [k Hb].
    assert (b ≠ p - 8) by (intros ->; by rewrite (ly_disj _ _ _ _ Hly _ k Hb) in Hl).
    destruct (Hout b k (or_introl Hb) ltac:(done)). by rewrite !ld_insert_ne.
  - intros b k Hb. destruct (Hlv b k Hb) as [? E]. split; [done|].
    destruct (decide (b = p - 8)) as [->|Hne]; [rewrite ld_insert_ne by lia; done|].
    destruct (Hout b k (or_intror Hb) Hne). by rewrite ld_insert_ne.
Qed.

Lemma write_inv s U p n a w :
  state_inv (s, U) → U !! p = Some n → p <= a → a + 4 <= p + n →
  state_inv (set_words (<[a := w]> (words s)) s, U).
Proof.
  intros [[_ E]|(F & L & Hi & Ht)] Hp Ha1 Ha2; simpl in *; [by rewrite E, lookup_empty in Hp|].
  right. exists F, L. split; [|done]. by apply (write_heap s F L U p n).
Qed.

(** A state with at most [N] free blocks, one of them of [n] units. *)
Definition heap_room s U (N : nat) (n : Z) : Prop :=
  ∃ F L, heap_inv base s F L ∧ tracked L U ∧ (size (dom F) <= N)%nat ∧ has_block F n.

Lemma heap_room_inv s U N n : heap_room s U N n → state_inv (s, U).
Proof. intros (F & L & Hi & Ht & _). right. by exists F, L. Qed.

Lemma write_room s U N n p k a w :
  heap_room s U N n → U !! p = Some k → p <= a → a + 4 <= p + k →
  heap_room (set_words (<[a := w]> (words s)) s) U N n.
Proof.
  intros (F & L & Hi & Ht & Hr) Hp Ha1 Ha2. exists F, L. split; [|done]. by apply (write_heap s F L U p k).
Qed.

(** A call that has room in such a block succeeds, and asks for no pages. *)
Lemma kmalloc_room s U N n r fuel :
  heap_room s U N (units n + r) → 0 < n <= 4194296 → 0 <= r → (N < fuel)%nat →
  ∃ p s', kmalloc base fuel n s = Ok (p, s') ∧ p ≠ 0 ∧ U !! p = None ∧ pages s' = pages s ∧
    heap_room s' (<[p := n]> U) N r ∧
    (∀ q k w, U !! q = Some k → q <= w < q + k → ld (words s') w = ld (words s) w).
Proof.
  intros (F & L & Hi & Ht & HN & Hb) Hn Hr Hf.
  destruct (kmalloc_carves base Hbase fuel s F L n r Hi Hn Hr Hb ltac:(lia)) as (s' & F' & b & E & Hc & Hb').
  assert (Hal : allocated base s s' F F' L (units n) (b + 8)).
  { right. exists b. destruct Hc. split_and!; try done. intros x Hx. left. auto. }
  destruct (allocated_post s s' F F' L U n (b + 8) Ht Hn Hal) as (Hk & Hor).
  pose proof (bk_pos _ _ _ _ (ly_ok _ _ _ _ (hv_layout _ _ _ _ (cv_inv _ _ _ _ _ _ _ _ Hc)) b (units n)
    (or_intror (lookup_insert_eq _ _ _)))).
  destruct Hor as [[? _]|(Hne & HU & _)]; [lia|].
  exists (b + 8), s'. split_and!; [done..|apply Hc| |done].
  exists F', (<[b := units n]> L). split_and!; [apply Hc|apply tracked_insert; [done..|apply Hc]| |done].
  destruct Hc. lia.
Qed.

(** The first call of all succeeds when the paging code has room for an arena. *)
Lemma kmalloc_starts s n r ps fuel :
  heap_start base s → 0 < n <= 4194296 → 0 <= r → 8 * (units n + r) <= arena_frames (units n) * 4096 →
  grants (pages s) (arena_frames (units n)) ps → (6 <= fuel)%nat →
  ∃ p s', kmalloc base fuel n s = Ok (p, s') ∧ p ≠ 0 ∧ pages s' = ps ∧ heap_room s' {[p := n]} 2 r.
Proof.
  intros Hs Hn Hr Hnr Hg Hf. pose proof (units_eq n Hn) as (_ & Hu & _).
  pose proof (started_inv base s Hs) as Hi. rewrite kmalloc_first, (kmalloc_search base fuel _ _ _ n Hi) by (done || lia).
  destruct (search_grows base Hbase fuel (started base s) {[base := 0]} ∅ n (units n) r ps Hi Hu Hr Hnr)
    as (s' & F' & b & E & Hi' & Hb & _ & Epg & Hroom & HN).
  - intros c k [<- <-]%lookup_singleton_Some. lia.
  - done.
  - rewrite dom_singleton_L, size_singleton. lia.
  - exists (b + 8), s'. split; [done|]. split.
    { pose proof (bk_pos _ _ _ _ (ly_ok _ _ _ _ (hv_layout _ _ _ _ Hi') b (units n) (or_intror (lookup_insert_eq _ _ _)))). lia. }
    split; [done|]. exists F', (<[b := units n]> ∅). split; [done|]. split; [|split; [|done]].
    + apply (tracked_insert ∅ ∅ b n); [|done|done]. split; intros ? ? H; by rewrite lookup_empty in H.
    + rewrite dom_singleton_L, size_singleton in HN. lia.
Qed.

Lemma heap_step_inv c c' : heap_step c c' → state_inv c → state_inv c'.
Proof.
  intros [s U fuel nbytes p s' Hn E Hp|s U fuel nbytes s' Hn E|s U fuel p s' Hp E|s U p n a w Hp H1 H2] Hinv.
  - destruct (kmalloc_any s U fuel nbytes p s' Hinv Hn E) as [_ [[? _]|(_ & _ & ?)]]; done.
  - destruct (kmalloc_any s U fuel nbytes 0 s' Hinv Hn E) as [_ [[_ ?]|(? & _)]]; done.
  - destruct (kfree_any s U fuel p s' Hinv Hp E) as (_ & _ & F' & L' & Hi & Ht & _). right. eauto.
  - by apply (write_inv s U p n).
Qed.

Lemma heap_steps_inv c c' : rtc heap_step c c' → state_inv c → state_inv c'.
Proof. induction 1; eauto using heap_step_inv. Qed.

(** Two blocks owned never overlap, and can be accessed. *)
Lemma owned_disjoint s U :
  state_inv (s, U) →
  (∀ p n q k, U !! p = Some n → U !! q = Some k → p ≠ q → p + n <= q ∨ q + k <= p) ∧
  (∀ p n x, U !! p = Some n → p <= x < p + n → pg_mapped (pages s) x = true).
Proof.
  intros [[_ E]|(F & L & Hi & [Hu _])]; simpl in *.
  { subst U. split; intros; by rewrite lookup_empty in *. }
  destruct Hi as [_ Hly _ _ _]. split.
  - intros p n q k Hp Hq Hne. destruct (Hu p n Hp) as [Hn Hl], (Hu q k Hq) as [Hk Hl'].
    destruct (units_eq n Hn) as (_&_&?), (units_eq k Hk) as (_&_&?).
    pose proof (ly_apart _ _ _ _ Hly (p - 8) _ (q - 8) _ (or_intror Hl) (or_intror Hl') ltac:(lia)).
    unfold span in *. lia.
  - intros p n x Hp Hx. destruct (Hu p n Hp) as [Hn Hl]. destruct (units_eq n Hn) as (_&_&?).
    apply (bk_mapped _ _ _ _ (ly_ok _ _ _ _ Hly (p - 8) _ (or_intror Hl))). unfold span. lia.
Qed.

(** NULL is nobody's block. *)
Lemma owned_not_null s U : state_inv (s, U) → U !! 0 = None.
Proof.
  intros [[_ E]|(F & L & Hi & [Hu _])]; simpl in *; [by rewrite E, lookup_empty|].
  destruct (U !! 0) as [n|] eqn:E; [|done]. destruct (Hu 0 n E) as [_ Hl].
  pose proof (bk_pos _ _ _ _ (ly_ok _ _ _ _ (hv_layout _ _ _ _ Hi) _ _ (or_intror Hl))). lia.
Qed.
End trace.

(** ** The heap of the concrete machine *)

Definition demo_base : Z := 0xC0000100.
Definition demo_heap : heap (paging frames) := Heap _ ∅ 0 demo_machine.

Lemma demo_heap_start : heap_start demo_base demo_heap.
Proof.
  split; [exact demo_services|done|]. split; try done. intros x Hx. simpl.
  replace x with (0xC0000100 + (x - 0xC0000100)) by lia.
  assert (∃ i : nat, x - 0xC0000100 = Z.of_nat i ∧ (i < 8)%nat) as (i & -> & Hi).
  { exists (Z.to_nat (x - 0xC0000100)). unfold span, demo_base in Hx. simpl in Hx. lia. }
  do 8 (destruct i as [|i]; [by vm_compute|]). lia.
Qed.

Definition demo_fuel : nat := 8.

(** The state after the allocation of four bytes. *)
Definition demo_heap_4 : heap (paging frames) :=
  match kmalloc demo_base demo_fuel 4 demo_heap with Ok (_, s) => s | _ => demo_heap end.

(** ** Properties *)

Section properties.
Context {St : Type} `{!PageOps St, !PageLaws St} (base : Z) (Hbase : base mod 4096 ≠ 0).
Implicit Types (s : heap St) (U : gmap Z Z).

(** The states a client can bring about. *)
Definition reached (c : heap St * gmap Z Z) : Prop :=
  ∃ s0, heap_start base s0 ∧ rtc (heap_step base) (s0, ∅) c.

Lemma reached_inv s U : reached (s, U) → state_inv base (s, U).
Proof using Hbase PageLaws0.
  intros (s0 & Hs & Hsteps). apply (heap_steps_inv base Hbase _ _ Hsteps). by left.
Qed.

(** C12: whatever sequence of [kmalloc], [kfree] and writes in one's own blocks
    is made from the first call on, the blocks owned are disjoint and each of
    their bytes can be accessed, every further [kmalloc] (of at most the 4194296
    bytes that, with a header, are the 4 MB a search can find) and every [kfree] of a block owned ends without a fault,
    and [kmalloc] of nothing and [kfree] of NULL do nothing. *)
Theorem heap_exclusive s U :
  reached (s, U) →
  (∀ p n q k, U !! p = Some n → U !! q = Some k → p ≠ q → p + n <= q ∨ q + k <= p) ∧
  (∀ p n a, U !! p = Some n → p <= a < p + n → pg_mapped (pages s) a = true) ∧
  (∀ nbytes, 0 < nbytes <= 4194296 →
     ∃ fuel p s', ∀ f, (fuel <= f)%nat → kmalloc base f nbytes s = Ok (p, s')) ∧
  (∀ p, is_Some (U !! p) → ∃ fuel s', ∀ f, (fuel <= f)%nat → kfree f p s = Ok (tt, s')) ∧
  (∀ f, kmalloc base f 0 s = Ok (0, s) ∧ kfree f 0 s = Ok (tt, s)).
Proof.
  intros Hinv%reached_inv. destruct (owned_disjoint base s U Hinv) as [H1 H2].
  split_and!; [done|done| | |done].
  - intros n Hn. destruct (kmalloc_total base Hbase s U n Hinv Hn) as (f & p & s' & E & _). eauto.
  - intros p Hp. destruct (kfree_total base s U p Hinv Hp) as (f & s' & E & _). eauto.
Qed.

(** C13: [kmalloc] of at most 4194296 bytes answers NULL or a block nobody owns,
    and neither it nor [kfree] changes a byte of the blocks that stay owned. *)
Theorem heap_keeps_blocks s U :
  reached (s, U) →
  (∀ fuel nbytes p s', 0 < nbytes <= 4194296 → kmalloc base fuel nbytes s = Ok (p, s') →
     U !! p = None ∧
     ∀ q n a, U !! q = Some n → q <= a < q + n → ld (words s') a = ld (words s) a) ∧
  (∀ fuel p s', is_Some (U !! p) → kfree fuel p s = Ok (tt, s') →
     ∀ q n a, U !! q = Some n → q ≠ p → q <= a < q + n → ld (words s') a = ld (words s) a).
Proof.
  intros Hinv%reached_inv. split.
  - intros f n p s' Hn E. destruct (kmalloc_any base Hbase s U f n p s' Hinv Hn E) as [Hk Hr].
    split; [|done]. destruct Hr as [[-> _]|(_ & ? & _)]; [|done].
    by apply (owned_not_null base s U).
  - intros f p s' Hp E. by destruct (kfree_any base s U f p s' Hinv Hp E) as [Hk _].
Qed.

(** C14: what is freed can be had again: [kmalloc] of as many bytes as the
    block given back had succeeds, and asks the paging code for nothing. *)
Theorem kfree_reusable s U fuel p n s1 :
  reached (s, U) → U !! p = Some n → kfree fuel p s = Ok (tt, s1) →
  ∃ fuel' q s2, kmalloc base fuel' n s1 = Ok (q, s2) ∧ q ≠ 0 ∧ pages s2 = pages s.
Proof.
  intros Hinv%reached_inv Hp E.
  assert (Hn : 0 < n <= 4194296).
  { destruct Hinv as [[_ Eu]|(F & L & _ & [Hu _])]; simpl in *; [subst U; by rewrite lookup_empty in Hp|].
    by apply (Hu p n). }
  destruct (kfree_any base s U fuel p s1 Hinv (mk_is_Some _ _ Hp) E)
    as (_ & Hpg & F & L & Hi & Ht & Hbig).
  destruct (kmalloc_room base Hbase s1 (delete p U) (size (dom F)) n 0 (S (size (dom F)))) as (q & s2 & Es & Hq & _ & Hs2 & _); try lia.
  - exists F, L. rewrite Z.add_0_r. split; [done|]. split; [done|]. split; [done|]. by apply Hbig.
  - exists (S (size (dom F))), q, s2. split_and!; [done..|congruence].
Qed.
End properties.

(** The sum that rounds the request up wraps around: asked for one of
    the seven greatest numbers of bytes the heap hands out a block that has no byte
    at all, the address after it not even mapped. *)
Lemma kmalloc_overflow nbytes :
  0xFFFFFFF9 <= nbytes <= 0xFFFFFFFF →
  ∃ s', kmalloc demo_base demo_fuel nbytes demo_heap = Ok (0xC0003000, s') ∧
    pg_mapped (pages s') 0xC0003000 = false.
Proof.
  intros H. assert (∃ i : nat, nbytes = 0xFFFFFFF9 + Z.of_nat i ∧ (i < 7)%nat) as (i & -> & Hi).
  { exists (Z.to_nat (nbytes - 0xFFFFFFF9)). lia. }
  do 7 (destruct i as [|i]; [eexists; split; [vm_compute; reflexivity|by vm_compute]|]). lia.
Qed.

(** ** Witnesses, on the concrete machine *)

Lemma demo_kmalloc_4 : kmalloc demo_base demo_fuel 4 demo_heap = Ok (0xC0002FF8, demo_heap_4).
Proof. vm_compute. reflexivity. Qed.

Lemma demo_reached : reached demo_base (demo_heap_4, {[0xC0002FF8 := 4]}).
Proof.
  exists demo_heap. split; [apply demo_heap_start|]. apply rtc_once.
  apply (step_kmalloc demo_base demo_heap ∅ demo_fuel 4 0xC0002FF8); [lia|apply demo_kmalloc_4|done].
Qed.

Lemma four_bytes : 0 < 4 <= 4194296.
Proof. lia. Qed.

Lemma heap_exclusive_witness :
  ∃ fuel p s', ∀ f, (fuel <= f)%nat → kmalloc demo_base f 4 demo_heap_4 = Ok (p, s').
Proof.
  destruct (heap_exclusive demo_base ltac:(done) _ _ demo_reached) as (_ & _ & H & _).
  exact (H 4 four_bytes).
Defined.

Lemma heap_keeps_blocks_witness :
  ∃ fuel p s', kmalloc demo_base fuel 4 demo_heap_4 = Ok (p, s') ∧ p ≠ 0xC0002FF8 ∧
    ∀ a, 0xC0002FF8 <= a < 0xC0002FF8 + 4 → ld (words s') a = ld (words demo_heap_4) a.
Proof.
  destruct (heap_keeps_blocks demo_base ltac:(done) _ _ demo_reached) as [H _].
  destruct (kmalloc demo_base demo_fuel 4 demo_heap_4) as [[p s']| |] eqn:E; [|by vm_compute in E..].
  destruct (H demo_fuel 4 p s' four_bytes E) as [Hn Hk]. exists demo_fuel, p, s'. split_and!; [done| |].
  - intros ->. rewrite lookup_singleton_eq in Hn. discriminate Hn.
  - intros a Ha. apply (Hk 0xC0002FF8 4); [apply lookup_singleton_eq|done].
Defined.

Lemma kfree_reusable_witness :
  ∃ fuel s1 fuel' q s2, kfree fuel 0xC0002FF8 demo_heap_4 = Ok (tt, s1) ∧
    kmalloc demo_base fuel' 4 s1 = Ok (q, s2) ∧ q ≠ 0.
Proof.
  destruct (kfree demo_fuel 0xC0002FF8 demo_heap_4) as [[[] s1]| |] eqn:E; [|by vm_compute in E..].
  destruct (kfree_reusable demo_base ltac:(done) _ _ demo_fuel 0xC0002FF8 4 s1 demo_reached
    (lookup_singleton_eq _ _) E) as (f & q & s2 & E2 & Hq & _).
  exists demo_fuel, s1, f, q, s2. exact (conj E (conj E2 Hq)).
Defined.
