(* ===== verification/FramesInit.v ===== *)
(** * FramesInit: the memory map and the bitmap at boot (paging.c, [frames_init])

    [fill_memory_map] reads the regions of GRUB's memory map through the address
    translation, [frames_init] aligns them, [construct_bitmap] takes the bitmap's
    pages from one of them, maps them and marks every frame free. The state is
    that of the page tables over the frame allocator. The cells of the bitmap are
    the allocator's array from then on: [construct_bitmap] takes over what the
    pages held and writes its bytes there. *)

From S2P Require Import Prelude CArith Layout Interfaces Frames Mmu Paging.

Abbreviation St := (paging frames).
Implicit Types (s : St).

Definition MAX_NUM_MEMORY_MAP : Z := 100.
Definition MULTIBOOT_MEMORY_AVAILABLE : Z := 1.

(** ** [fill_memory_map] *)

(** The fields of [struct multiboot_info] and of [multiboot_memory_map_t] the
    code reads; the 64-bit ones are cut to their low word. *)
Definition MINFO_MMAP_LENGTH : Z := Eval vm_compute in offsetof multiboot_info ["mmap_length"].
Definition MINFO_MMAP_ADDR : Z := Eval vm_compute in offsetof multiboot_info ["mmap_addr"].
Definition ENTRY_ADDR : Z := Eval vm_compute in offsetof multiboot_mmap_entry ["addr"].
Definition ENTRY_LEN : Z := Eval vm_compute in offsetof multiboot_mmap_entry ["len"].
Definition ENTRY_TYPE : Z := Eval vm_compute in offsetof multiboot_mmap_entry ["type"].

Definition minfo_flags (p : Z) : M St Z := load p.
Definition minfo_mmap_length (p : Z) : M St Z := load (p +ᵤ MINFO_MMAP_LENGTH).
Definition minfo_mmap_addr (p : Z) : M St Z := load (p +ᵤ MINFO_MMAP_ADDR).
Definition entry_size (e : Z) : M St Z := load e.
Definition entry_addr (e : Z) : M St Z := load (e +ᵤ ENTRY_ADDR).
Definition entry_len (e : Z) : M St Z := load (e +ᵤ ENTRY_LEN).
Definition entry_type (e : Z) : M St Z := load (e +ᵤ ENTRY_TYPE).

(** The body of the [if] on the type: what is appended to [mmap]. *)
Definition keep_region (kernel_physical_start kernel_physical_end addr len : Z) : list memory_map :=
  let '(addr, len) :=
    if (addr <=? kernel_physical_start) && (kernel_physical_end <? addr +ᵤ len)
    then (kernel_physical_end, len -ᵤ kernel_physical_end) else (addr, len) in
  if 0x100000 <? addr then [MemoryMap addr len] else [].

(** [ms] is what is written of [mmap] so far; more than its 100 entries is a
    write outside of it. *)
Fixpoint fill_loop (fuel : nat) (kps kpe entry last : Z) (ms : list memory_map)
    : M St (list memory_map) :=
  match fuel with
  | O => out_of_fuel
  | S fuel =>
    if entry <? last then
      type ← entry_type entry;
      ms ← (if type =? MULTIBOOT_MEMORY_AVAILABLE then
              addr ← entry_addr entry;
              len ← entry_len entry;
              mret (ms ++ keep_region kps kpe addr len)
            else mret ms);
      if MAX_NUM_MEMORY_MAP <? Z.of_nat (length ms) then fault
      else
        size ← entry_size entry;
        fill_loop fuel kps kpe (entry +ᵤ size +ᵤ 4) last ms
    else mret ms
  end.

Definition fill_memory_map (fuel : nat) (kernel_physical_start kernel_physical_end multiboot_info : Z)
    : M St (list memory_map) :=
  flags ← minfo_flags multiboot_info;
  if Z.land flags 0x40 =? 0 then
    Paging.printk "No memory map from GRUB\n" [] ≫= λ _, mret []
  else
    entry ← minfo_mmap_addr multiboot_info;
    length ← minfo_mmap_length multiboot_info;
    fill_loop fuel kernel_physical_start kernel_physical_end entry (entry +ᵤ length) [].

(** ** [construct_bitmap] *)

Definition total_pfs (ms : list memory_map) : Z :=
  foldl (λ acc m, acc +ᵤ len m / FOUR_KB) 0 ms.

(** The loop that takes the bitmap's pages from the first region that has
    them: their address and the regions left. *)
Fixpoint place_bitmap (bytes : Z) (ms : list memory_map) : option (Z * list memory_map) :=
  match ms with
  | [] => None
  | m :: ms =>
    if bytes <=? len m
    then Some (addr m, MemoryMap (addr m +ᵤ bytes) (len m -ᵤ bytes) :: ms)
    else '(p, ms) ← place_bitmap bytes ms; Some (p, m :: ms)
  end.

(** Byte [i] of the little-endian cells. *)
Definition byte_of (i : Z) (cells : list Z) : Z :=
  Z.land (Z.shiftr (default 0 (cells !! Z.to_nat (i / 4))) (8 * (i mod 4))) 0xFF.

Definition set_byte (i b : Z) (cells : list Z) : list Z :=
  alter (λ c, Z.lor (Z.ldiff c (Z.shiftl 0xFF (8 * (i mod 4)))) (Z.shiftl b (8 * (i mod 4))))
    (Z.to_nat (i / 4)) cells.

(** [memset(start, b, n)] *)
Definition set_bytes (b n : Z) (cells : list Z) : list Z :=
  foldl (λ cs i, set_byte i b cs) cells (seqZ 0 n).

(** The last byte of the bitmap, reset and set again bit by bit. *)
Definition set_last (last nbits : Z) (cells : list Z) : list Z :=
  foldl (λ cs i, set_byte last (u8 (Z.lor (byte_of last cs) (Z.shiftl 0x01 (7 - i)))) cs)
    (set_byte last 0 cells) (seqZ 0 (nbits mod 8)).

Definition set_mmap (ms : list memory_map) s : St :=
  set_pfa (Frames (page_frames (pfa s)) ms (klog (pfa s))) s.
Definition set_len (n : Z) s : St :=
  set_pfa (Frames (PageFrameBitmap (start (page_frames (pfa s))) n) (mmap (pfa s)) (klog (pfa s))) s.
Definition set_cells (cells : list Z) s : St := set_pfa (set_start cells (pfa s)) s.

(** What the pages at [v] hold, [n] words. *)
Fixpoint load_words (v : Z) (n : nat) : M St (list Z) :=
  match n with
  | O => mret []
  | S n => w ← load v; ws ← load_words (v +ᵤ 4) n; mret (w :: ws)
  end.

Definition construct_bitmap : M St Z :=
  ms ← gets (λ s, mmap (pfa s));
  let total := total_pfs ms in
  let bitmap_pfs := div_ceil (div_ceil total 8) FOUR_KB in
  let placed := place_bitmap (bitmap_pfs *ᵤ FOUR_KB) ms in
  let len := total -ᵤ bitmap_pfs in
  let bitmap_size := div_ceil len 8 in
  match placed with
  | None =>
    modify (set_len len) ≫= λ _,
    Paging.printk "Couldn't find place for bitmap. bitmap_size: %u\n" [bitmap_size] ≫= λ _, mret 1
  | Some (paddr, ms) =>
    modify (set_mmap ms) ≫= λ _,
    modify (set_len len) ≫= λ _,
    vaddr ← pdt_kernel_find_next_vaddr bitmap_size;
    if vaddr =? 0 then
      Paging.printk "Could not find virtual address for bitmap in kernel. paddr: %X, bitmap_size: %u, bitmap_pfs: %u\n"
        [paddr; bitmap_size] ≫= λ _, mret 1
    else
      mapped_mem ← pdt_map_kernel_memory paddr vaddr bitmap_size PAGING_PL0 PAGING_READ_WRITE;
      if mapped_mem <? bitmap_size then
        Paging.printk "Could not map kernel memory for bitmap. paddr: %X, vaddr: %X, bitmap_size: %u\n"
          [paddr; vaddr; bitmap_size] ≫= λ _, mret 1
      else
        old ← load_words vaddr (Z.to_nat (mapped_mem / 4));
        let cells := set_last (bitmap_size - 1) len (set_bytes 0xFF bitmap_size old) in
        modify (set_cells cells) ≫= λ _, mret 0
  end.

(** ** [frames_init] *)

Definition align_region (m : memory_map) : memory_map :=
  let a := align_up (addr m) FOUR_KB in
  MemoryMap a (align_down (len m -ᵤ (a -ᵤ addr m)) FOUR_KB).

Definition set_kernel_tables (pdt pt : Z) s : St :=
  Paging _ (phys s) (cr3 s) pdt pt (invalidated s) (pfa s).

Definition frames_init (fuel : nat) (kernel_physical_start kernel_physical_end kernel_virtual_start
    kernel_virtual_end kernel_pdt_vaddr kernel_pt_vaddr minfo : Z) : M St unit :=
  Paging.printk "Kernel Address:\n" [] ≫= λ _,
  Paging.printk " Physical: [%X ... %X]\n" [kernel_physical_start; kernel_physical_end] ≫= λ _,
  Paging.printk " Virtual:  [%X ... %X]\n" [kernel_virtual_start; kernel_virtual_end] ≫= λ _,
  modify (set_kernel_tables kernel_pdt_vaddr kernel_pt_vaddr) ≫= λ _,
  ms ← fill_memory_map fuel kernel_physical_start kernel_physical_end minfo;
  modify (set_mmap (align_region <$> ms)) ≫= λ _,
  construct_bitmap ≫= λ _, mret tt.
