(* ===== verification/BitmapFacts.v ===== *)
(** * BitmapFacts: what [construct_bitmap] writes in the bitmap

    The bitmap is written byte by byte and read by 32-bit cells, the first frame
    in the highest bit of a cell. *)

From S2P Require Import Prelude CArith Frames FramesInit.

Implicit Types (cells : list Z) (i j k b n : Z).

(** ** Bits *)

Lemma testbit_0xFF j : 0 <= j → Z.testbit 0xFF j = (j <? 8).
Proof.
  intros Hj. change 0xFF with (Z.ones 8). destruct (Z.ltb_spec j 8).
  - by apply Z.ones_spec_low.
  - by apply Z.ones_spec_high.
Qed.

Lemma testbit_u8 b j : is_u8 b → 8 <= j → Z.testbit b j = false.
Proof.
  intros Hb Hj. rewrite <- (Z.mod_small b (2 ^ 8)) by (change (2 ^ 8) with 256; lia).
  apply Z.mod_pow2_bits_high. lia.
Qed.

Lemma testbit_u32 c j : is_u32 c → 32 <= j → Z.testbit c j = false.
Proof.
  intros Hc Hj. rewrite <- (Z.mod_small c (2 ^ 32)) by (change (2 ^ 32) with 4294967296; lia).
  apply Z.mod_pow2_bits_high. lia.
Qed.

Lemma u32_testbit c : (∀ j, 32 <= j → Z.testbit c j = false) → is_u32 c.
Proof.
  intros H. replace c with (c mod 2 ^ 32); [apply u32_range|]. apply Z.bits_inj'. intros j Hj.
  destruct (decide (j < 32)); [apply Z.mod_pow2_bits_low; lia|].
  rewrite Z.mod_pow2_bits_high by lia. symmetry. apply H. lia.
Qed.

(** The cell with byte [r] replaced. *)
Definition cell_byte (c r b : Z) : Z := Z.lor (Z.ldiff c (Z.shiftl 0xFF (8 * r))) (Z.shiftl b (8 * r)).

Lemma testbit_cell_byte c r b j :
  0 <= r → is_u8 b → 0 <= j →
  Z.testbit (cell_byte c r b) j
  = if (8 * r <=? j) && (j <? 8 * r + 8) then Z.testbit b (j - 8 * r) else Z.testbit c j.
Proof.
  intros Hr Hb Hj. unfold cell_byte. rewrite Z.lor_spec, Z.ldiff_spec, !Z.shiftl_spec by done.
  destruct (Z.leb_spec (8 * r) j); simpl.
  - rewrite testbit_0xFF by lia. destruct (Z.ltb_spec j (8 * r + 8)); simpl.
    + destruct (Z.ltb_spec (j - 8 * r) 8); [|lia]. by rewrite andb_false_r.
    + destruct (Z.ltb_spec (j - 8 * r) 8); [lia|]. simpl. rewrite andb_true_r.
      rewrite (testbit_u8 b (j - 8 * r)) by lia. by rewrite orb_false_r.
  - rewrite !(Z.testbit_neg_r _ (j - 8 * r)) by lia. by rewrite andb_true_r, orb_false_r.
Qed.

Lemma cell_byte_u32 c r b : is_u32 c → 0 <= r < 4 → is_u8 b → is_u32 (cell_byte c r b).
Proof.
  intros Hc Hr Hb. apply u32_testbit. intros j Hj. rewrite testbit_cell_byte by lia.
  destruct (Z.leb_spec (8 * r) j), (Z.ltb_spec j (8 * r + 8)); simpl; try lia; by apply testbit_u32.
Qed.

(** ** Bytes of the bitmap *)

(** Bit [j] of byte [i]. *)
Definition bytebit cells i j : bool :=
  Z.testbit (default 0 (cells !! Z.to_nat (i / 4))) (8 * (i mod 4) + j).

Lemma byte_of_testbit cells i j :
  0 <= i → 0 <= j → Z.testbit (byte_of i cells) j = bytebit cells i j && (j <? 8).
Proof.
  intros Hi Hj. unfold byte_of, bytebit. pose proof (Z.mod_pos_bound i 4 ltac:(lia)).
  rewrite Z.land_spec, Z.shiftr_spec, testbit_0xFF by lia. do 2 f_equal. lia.
Qed.

Lemma byte_of_u8 cells i : is_u8 (byte_of i cells).
Proof.
  unfold byte_of. rewrite land_0xFF. apply Z.mod_pos_bound. lia.
Qed.

Lemma set_byte_length i b cells : length (set_byte i b cells) = length cells.
Proof. apply length_alter. Qed.

Lemma set_byte_u32 i b cells :
  0 <= i → is_u8 b → Forall (λ c, is_u32 c) cells → Forall (λ c, is_u32 c) (set_byte i b cells).
Proof.
  intros Hi Hb Hc. pose proof (Z.mod_pos_bound i 4 ltac:(lia)). apply Forall_alter; [done|]. intros c _ Hu.
  apply (cell_byte_u32 c (i mod 4) b); [done|lia|done].
Qed.

Lemma bytebit_set_byte i b cells i' j :
  0 <= i < 4 * Z.of_nat (length cells) → 0 <= i' → is_u8 b → 0 <= j < 8 →
  bytebit (set_byte i b cells) i' j = if i' =? i then Z.testbit b j else bytebit cells i' j.
Proof.
  intros Hi Hi' Hb Hj. unfold bytebit, set_byte.
  pose proof (Z.mod_pos_bound i 4 ltac:(lia)). pose proof (Z.mod_pos_bound i' 4 ltac:(lia)).
  destruct (decide (i' / 4 = i / 4)) as [E|Hne].
  - rewrite E, list_lookup_alter_eq. destruct (lookup_lt_is_Some_2 cells (Z.to_nat (i / 4))) as [c Hc];
      [Z.to_euclidean_division_equations; lia|]. rewrite Hc. simpl.
    rewrite (testbit_cell_byte c (i mod 4) b) by lia.
    destruct (Z.eqb_spec i' i) as [->|Hn].
    + destruct (Z.leb_spec (8 * (i mod 4)) (8 * (i mod 4) + j)); [|lia].
      destruct (Z.ltb_spec (8 * (i mod 4) + j) (8 * (i mod 4) + 8)); [|lia]. simpl. f_equal. lia.
    + destruct (Z.leb_spec (8 * (i mod 4)) (8 * (i' mod 4) + j)); [|done].
      destruct (Z.ltb_spec (8 * (i' mod 4) + j) (8 * (i mod 4) + 8)); [|done]. exfalso.
      Z.to_euclidean_division_equations; lia.
  - rewrite list_lookup_alter_ne by (Z.to_euclidean_division_equations; lia).
    destruct (Z.eqb_spec i' i) as [->|]; [done|]. done.
Qed.

(** ** [memset] and the last byte *)

Lemma set_bytes_step b (n : nat) cells :
  set_bytes b (Z.of_nat (S n)) cells = set_byte (Z.of_nat n) b (set_bytes b (Z.of_nat n) cells).
Proof.
  unfold set_bytes. replace (Z.of_nat (S n)) with (Z.of_nat n + 1) by lia.
  rewrite seqZ_app by lia. rewrite foldl_app. by rewrite Z.add_0_l.
Qed.

Lemma set_bytes_ok b (n : nat) cells :
  is_u8 b → Z.of_nat n <= 4 * Z.of_nat (length cells) →
  length (set_bytes b (Z.of_nat n) cells) = length cells ∧
  (Forall (λ c, is_u32 c) cells → Forall (λ c, is_u32 c) (set_bytes b (Z.of_nat n) cells)) ∧
  ∀ i j, 0 <= i → 0 <= j < 8 →
    bytebit (set_bytes b (Z.of_nat n) cells) i j = if i <? Z.of_nat n then Z.testbit b j else bytebit cells i j.
Proof.
  intros Hb. induction n as [|n IH]; intros Hn.
  { split_and!; try done. intros i j Hi Hj. by destruct (Z.ltb_spec i (Z.of_nat 0)); [lia|]. }
  destruct IH as (Hl & Hu & Hbit); [lia|]. rewrite set_bytes_step. split_and!.
  - by rewrite set_byte_length.
  - intros H. apply set_byte_u32; [lia|done|auto].
  - intros i j Hi Hj. rewrite bytebit_set_byte by lia. rewrite Hbit by done.
    destruct (Z.eqb_spec i (Z.of_nat n)), (Z.ltb_spec i (Z.of_nat n)), (Z.ltb_spec i (Z.of_nat (S n))); lia || done.
Qed.

(** The loop over the bits of the last byte. *)
Definition set_high (last r : Z) cells : list Z :=
  foldl (λ cs i, set_byte last (u8 (Z.lor (byte_of last cs) (Z.shiftl 0x01 (7 - i)))) cs) cells (seqZ 0 r).

Lemma set_high_step last (r : nat) cells :
  set_high last (Z.of_nat (S r)) cells
  = set_byte last (u8 (Z.lor (byte_of last (set_high last (Z.of_nat r) cells)) (Z.shiftl 0x01 (7 - Z.of_nat r))))
      (set_high last (Z.of_nat r) cells).
Proof.
  unfold set_high. replace (Z.of_nat (S r)) with (Z.of_nat r + 1) by lia.
  rewrite seqZ_app by lia. rewrite foldl_app. by rewrite Z.add_0_l.
Qed.

Lemma set_high_ok last (r : nat) cells :
  0 <= last < 4 * Z.of_nat (length cells) → (r <= 8)%nat →
  length (set_high last (Z.of_nat r) cells) = length cells ∧
  (Forall (λ c, is_u32 c) cells → Forall (λ c, is_u32 c) (set_high last (Z.of_nat r) cells)) ∧
  ∀ i j, 0 <= i → 0 <= j < 8 →
    bytebit (set_high last (Z.of_nat r) cells) i j
    = bytebit cells i j || ((i =? last) && (7 - j <? Z.of_nat r)).
Proof.
  intros Hlast. induction r as [|r IH]; intros Hr.
  { split_and!; try done. intros i j Hi Hj. destruct (Z.ltb_spec (7 - j) (Z.of_nat 0)); [lia|].
    by rewrite andb_false_r, orb_false_r. }
  destruct IH as (Hl & Hu & Hbit); [lia|]. rewrite set_high_step. split_and!.
  - by rewrite set_byte_length.
  - intros H. apply set_byte_u32; [lia|apply u8_range|auto].
  - intros i j Hi Hj. rewrite bytebit_set_byte by (apply u8_range || lia).
    destruct (Z.eqb_spec i last) as [->|]; simpl; [|by rewrite Hbit, (proj2 (Z.eqb_neq _ _)) by done].
    unfold u8. change 256 with (2 ^ 8). rewrite Z.mod_pow2_bits_low by lia.
    rewrite Z.lor_spec, byte_of_testbit, Hbit, Z.shiftl_spec, Z.eqb_refl by lia.
    rewrite (proj2 (Z.ltb_lt j 8)), andb_true_r by lia. simpl. rewrite <- orb_assoc. f_equal.
    destruct (decide (j = 7 - Z.of_nat r)) as [->|Hne].
    + rewrite Z.sub_diag. simpl. rewrite orb_true_r. symmetry. apply Z.ltb_lt. lia.
    + change 1 with (2 ^ 0). rewrite Z.pow2_bits_false by lia. rewrite orb_false_r.
      destruct (Z.ltb_spec (7 - j) (Z.of_nat r)), (Z.ltb_spec (7 - j) (Z.of_nat (S r))); lia || done.
Qed.

(** ** The bitmap written *)

(** The byte of the bitmap that has the bit of frame [k]. *)
Definition byte_index k : Z := 4 * (k / 32) + 3 - k mod 32 / 8.

Definition new_cells (size nbits : Z) cells : list Z :=
  set_last (size - 1) nbits (set_bytes 0xFF size cells).

Lemma new_cells_ok size nbits cells :
  0 < size <= 4 * Z.of_nat (length cells) → 0 <= nbits →
  length (new_cells size nbits cells) = length cells ∧
  (Forall (λ c, is_u32 c) cells → Forall (λ c, is_u32 c) (new_cells size nbits cells)) ∧
  ∀ i j, 0 <= i → 0 <= j < 8 →
    bytebit (new_cells size nbits cells) i j
    = if i <? size - 1 then true else if i =? size - 1 then 7 - j <? nbits mod 8 else bytebit cells i j.
Proof.
  intros Hsz Hn. destruct (set_bytes_ok 0xFF (Z.to_nat size) cells) as (Hl & Hu & Hbit); [lia..|].
  rewrite Z2Nat.id in * by lia. unfold new_cells. set (c1 := set_bytes _ _ _) in *.
  set (c2 := set_byte (size - 1) 0 c1).
  change (set_last (size - 1) nbits c1) with (set_high (size - 1) (nbits mod 8) c2).
  assert (Hl2 : length c2 = length cells) by (unfold c2; by rewrite set_byte_length).
  pose proof (Z.mod_pos_bound nbits 8 ltac:(lia)).
  destruct (set_high_ok (size - 1) (Z.to_nat (nbits mod 8)) c2) as (Hl3 & Hu3 & Hbit3);
    [lia|lia|].
  rewrite Z2Nat.id in * by lia. split_and!.
  - by rewrite Hl3.
  - intros Hc. apply Hu3, set_byte_u32; [lia|lia|auto].
  - intros i j Hi Hj. rewrite Hbit3 by done. unfold c2.
    rewrite bytebit_set_byte by lia. rewrite Hbit by done. rewrite testbit_0xFF by lia.
    rewrite (proj2 (Z.ltb_lt j 8)) by lia. rewrite Z.testbit_0_l.
    destruct (Z.eqb_spec i (size - 1)), (Z.ltb_spec i size), (Z.ltb_spec i (size - 1)); simpl; try lia; try done.
    by rewrite orb_false_r.
Qed.

Lemma bit_bytebit s k :
  0 <= k → bit s k = bytebit (start (page_frames s)) (byte_index k) (7 - k mod 8).
Proof.
  intros Hk. unfold bit, bytebit, byte_index.
  replace ((4 * (k / 32) + 3 - k mod 32 / 8) / 4) with (k / 32) by (Z.to_euclidean_division_equations; lia).
  f_equal. Z.to_euclidean_division_equations; lia.
Qed.
