(* ===== verification/FramesBoot.v ===== *)
(** * FramesBoot: mapping memory before there is an allocator

    While [frames_init] runs the allocator has no bitmap, and asking it for a
    frame reads through a null pointer. The page tables are seen here over an
    allocator that has nothing to give: what it lets be mapped is mapped alike
    without asking for a frame at all. *)

From S2P Require Import Prelude CArith Interfaces Frames Mmu Paging PagingFacts PageMap PdtMap PageFind DemoMachine PageServices PagingServices.

(** An allocator that has no frames to give, for the regions [ms] and [n] frames. *)
Definition boot_ops (ms : list memory_map) (n : Z) : FrameOps frames := {|
  fr_allocate := λ _, mret 0;
  fr_free := λ _, mret tt;
  fr_printk := Frames.printk;
  fr_free_set := λ _, ∅;
  fr_managed := λ _, ∅;
  fr_wf := λ p, mmap p = ms ∧ nbits (page_frames p) = n
|}.

Lemma boot_laws ms n : @FrameLaws frames (boot_ops ms n).
Proof.
  split; simpl; try done.
  - intros s k [? ?] _. exists 0, s. split_and!; try done. by left.
  - intros s fmt args [? ?]. eexists. by split_and!.
Qed.

Section boot.
Context (ms : list memory_map) (nb : Z).
#[local] Instance here : FrameOps frames := boot_ops ms nb.
#[local] Instance here_laws : FrameLaws frames := boot_laws ms nb.
Implicit Types s : paging frames.

(** A turn of the loop on a table that is there asks for no frame. *)
Lemma boot_body s paddr vaddr size rw pl :
  let idx := vaddr / 4194304 in
  kernel_wf s → directory s (kernel_pdt s) (kernel_pdt s) → is_u32 vaddr →
  IS_ENTRY_PRESENT (ld (phys s) (kernel_pdt s + 4 * idx)) = true →
  @pdt_map_body frames frames_ops (kernel_pdt s) paddr vaddr size rw pl s
  = pdt_map_body (kernel_pdt s) paddr vaddr size rw pl s.
Proof.
  intros idx Hwf Hdir Hv Hp.
  assert (Hidx : 0 <= idx < 1024) by (unfold idx; Z.to_euclidean_division_equations; lia).
  destruct (dir_word s (phys s) _ _ idx Hdir) as [Hal Hw]; [done..|].
  unfold pdt_map_body. rewrite VIRTUAL_TO_PDT_IDX_eq by done. fold idx.
  rewrite !(bind_ok _ _ _ _ _ (get_temporary_ok s Hwf)).
  rewrite !(bind_ok _ _ _ _ _ (is_entry_present_ok s _ _ _ Hal Hw)), Hp. reflexivity.
Qed.

(** The search finds its place in the kernel's first table when that has room. *)
Lemma boot_found s size v k :
  kernel_wf s → kernel_tables s → 0 < size <= 4194304 →
  pdt_found s (align_up size 4096 / 4096) 768 v →
  0 <= k → k + align_up size 4096 / 4096 <= 1024 →
  (∀ j, k <= j < k + align_up size 4096 / 4096 → vacant s 768 (kernel_pt s) j) →
  v ≠ 0 ∧ v / 4194304 = 768.
Proof.
  intros Hwf Hkt Hsz Hf Hk Hkn Hvac.
  destruct (kt_first _ Hkt) as [_ _ Hc _ Hb].
  assert (Hnot : ¬ no_run s 768 (kernel_pt s) (align_up size 4096 / 4096) 0 1024).
  { intros Hn. assert (1 <= align_up size 4096 / 4096).
    { rewrite align_up_page by lia. Z.to_euclidean_division_equations; lia. }
    destruct (Hn k) as (j & Hj & Hvj); [lia..|]. apply Hvj, Hvac. lia. }
  rewrite <- Hb in Hnot. destruct Hf as [(-> & Hfull)|(idx & Hi & Hfull & Hor)].
  - destruct Hnot. apply (Hfull 768). lia.
  - assert (idx = 768) as ->.
    { destruct (decide (idx = 768)); [done|]. destruct Hnot. apply (Hfull 768). lia. }
    destruct Hor as [(E & _)|(_ & Hv & [(org & -> & Ho & Hon & _)|(-> & _)])]; [|split; [done|]|done].
    + change (4 * 768) with 3072 in *. congruence.
    + assert (1 <= align_up size 4096 / 4096).
      { rewrite align_up_page by lia. Z.to_euclidean_division_equations; lia. }
      Z.to_euclidean_division_equations; lia.
Qed.

(** Mapping there: one turn writes every entry. *)
Lemma boot_map s paddr v size rw pl :
  kernel_wf s → kernel_tables s → 0 < size <= 4194304 →
  pdt_found s (align_up size 4096 / 4096) 768 v → v ≠ 0 → v / 4194304 = 768 →
  is_u32 paddr → paddr mod 4096 = 0 →
  ∃ s' n, @pdt_map_kernel_memory frames frames_ops paddr v size rw pl s = Ok (align_up size 4096, s') ∧
    align_up size 4096 = 4096 * Z.of_nat n ∧
    mapped s s' (kernel_pdt s) (v / 4194304) (kernel_pt s) (v / 4096 mod 1024) n paddr rw pl.
Proof.
  intros Hwf Hkt Hsz Hf Hv Hidx Hp Hpa.
  destruct (kt_first _ Hkt) as [_ _ Hc _ Hb]. change (4 * 768) with 3072 in *.
  destruct (pdt_found_room s size v Hwf Hkt Hsz Hf Hv) as (Hva & Hv0 & Hv4 & Hgood & _).
  pose proof (kernel_directory s Hwf Hkt) as Hdir.
  assert (Hsa : align_up size 4096 mod 4096 = 0 ∧ 4096 <= align_up size 4096 <= 4194304).
  { rewrite align_up_page by lia. Z.to_euclidean_division_equations; lia. }
  assert (Hroom : room s (kernel_pdt s) v (align_up size 4096)).
  { destruct (pdt_found_shape s size v Hwf Hkt Hsz Hf Hv)
      as (idx & org & num & Es & Hnum & Hi & Ev & Ho & Hon & _). rewrite Es.
    assert (idx = 768) as -> by (Z.to_euclidean_division_equations; lia).
    assert (Hspan : ∀ i, v / 4194304 <= i <= (v + num * 4096 - 1) / 4194304 → i = 768).
    { intros i. subst v. Z.to_euclidean_division_equations; lia. }
    split.
    - intros i i' ->%Hspan ->%Hspan. done.
    - intros v' Hv' Hr. rewrite <- Es in Hr. by apply (pdt_found_clear s size v).
    - unfold spans. replace (_ - _ + 1) with 1 by (subst v; Z.to_euclidean_division_equations; lia).
      rewrite seqZ_step, missing_cons, seqZ_nil by lia. rewrite Hidx. change (4 * 768) with 3072. rewrite Hc. unfold missing. rewrite filter_nil. simpl. lia. }
  destruct (body_present s (kernel_pdt s) (kernel_pdt s) paddr v (align_up size 4096) rw pl)
    as (r & s1 & E & Hpost); try done; try lia.
  { rewrite Hidx. apply (kt_good _ Hkt). lia. } { by rewrite Hidx. }
  destruct (room_turn s s1 _ _ v r paddr rw pl (align_up size 4096) Hwf Hdir Hpost Hva ltac:(lia) ltac:(lia)
    Hv4 Hroom) as (F & n & -> & Hm & Hn & Hor).
  assert (En : 4096 * Z.of_nat n = align_up size 4096).
  { destruct Hor as [?|[Hlt Hend]]; [done|].
    destruct (pdt_found_shape s size v Hwf Hkt Hsz Hf Hv) as (idx & org & num & Es & _ & _ & Ev & Ho & Hon & _).
    Z.to_euclidean_division_equations; lia. }
  exists s1, n. split_and!; [|done|].
  - unfold pdt_map_kernel_memory, pdt_map_memory. rewrite (bind_ok _ _ s (kernel_pdt s) s) by done.
    change PT_ENTRY_SIZE with 4096. set (z := align_up size 4096) in *.
    destruct (Z.to_nat (z / 4096)) as [|f] eqn:Ef; [Z.to_euclidean_division_equations; lia|].
    cbn [pdt_map_loop]. destruct (Z.eqb_spec z 0); [lia|].
    assert (Hpres : IS_ENTRY_PRESENT (ld (phys s) (kernel_pdt s + 4 * (v / 4194304))) = true)
      by (rewrite Hidx; exact Hc).
    pose proof (boot_body s paddr v z rw pl Hwf Hdir ltac:(lia) Hpres) as Eb. rewrite <- Eb in E.
    rewrite (bind_ok _ _ _ _ _ E). rewrite En, Z.sub_diag. simpl.
    by rewrite u32_small by lia.
  - destruct (mp_pde _ _ _ _ _ _ _ _ _ _ Hm) as (_ & _ & HF).
    assert (Epde : ld (phys s1) (kernel_pdt s + 3072) = ld (phys s) (kernel_pdt s + 3072)).
    { apply (gr_keep _ _ (mp_grows _ _ _ _ _ _ _ _ _ _ Hm)); [|done]. unfold live. simpl. set_solver. }
    rewrite Hidx in *. change (4 * 768) with 3072 in *. rewrite Epde, Hb in HF. by rewrite HF.
Qed.

(** The search and the mapping as [construct_bitmap] does them: they succeed, the
    tables stay as they were but for the entries written in the kernel's first
    one, and so do the allocator's regions. *)
Lemma boot_find_map s size paddr rw pl k :
  services_wf s → 0 < size <= 4194304 → is_u32 paddr → paddr mod 4096 = 0 →
  0 <= k → k + align_up size 4096 / 4096 <= 1024 →
  (∀ j, k <= j < k + align_up size 4096 / 4096 → vacant s 768 (kernel_pt s) j) →
  ∃ v s1 s2, pdt_kernel_find_next_vaddr size s = Ok (v, s1) ∧
    @pdt_map_kernel_memory frames frames_ops paddr v size rw pl s1 = Ok (align_up size 4096, s2) ∧
    services_wf s2 ∧ 0xC0000000 <= v ∧ v mod 4096 = 0 ∧ v + align_up size 4096 <= 0xC0400000 ∧
    (∀ a, v <= a < v + align_up size 4096 → is_Some (walk (phys s2) (active s2) a)) ∧
    kernel_pdt s2 = kernel_pdt s ∧ kernel_pt s2 = kernel_pt s ∧
    (∀ idx, 768 <= idx < 1024 → IS_ENTRY_PRESENT (ld (phys s2) (kernel_pdt s + 4 * idx)) = true →
       IS_ENTRY_PRESENT (ld (phys s) (kernel_pdt s + 4 * idx)) = true ∧
       hw_base (ld (phys s2) (kernel_pdt s + 4 * idx)) = hw_base (ld (phys s) (kernel_pdt s + 4 * idx))) ∧
    (∀ a, kernel_mapped s a = true → kernel_mapped s2 a = true).
Proof.
  intros Hsv Hsz Hp Hpa Hk Hkn Hvac. pose proof Hsv as (Hwf & Hkt & Ha).
  destruct (pdt_kernel_find_next_vaddr_ok s size Hwf Hkt Hsz) as (v & s1 & E1 & Hs & Hf).
  destruct (boot_found s size v k Hwf Hkt Hsz Hf Hk Hkn Hvac) as [Hv0 Hidx].
  destruct (same_services s s1 Hs Hsv) as [Hsv1 [Hmap1 _]]. pose proof Hsv1 as (Hwf1 & Hkt1 & Ha1).
  apply (same_pdt_found s1 s) in Hf; [|by symmetry].
  destruct (boot_map s1 paddr v size rw pl Hwf1 Hkt1 Hsz Hf Hv0 Hidx Hp Hpa) as (s2 & n & E2 & Hn & Hm).
  destruct (pdt_found_room s1 size v Hwf1 Hkt1 Hsz Hf Hv0) as (Hva & Hvl & Hve & _).
  pose proof (kernel_directory s1 Hwf1 Hkt1) as Hdir.
  pose proof (mp_grows _ _ _ _ _ _ _ _ _ _ Hm) as Hgr.
  assert (Hi : 0 <= v / 4194304 < 1024) by lia.
  assert (Ha2 : active s2 = kernel_pdt s1) by (unfold active; by rewrite (gr_active _ _ Hgr)).
  destruct Hs as [Ec Ed Ep _ Em].
  assert (Hin : v / 4096 mod 1024 + Z.of_nat n <= 1024).
  { destruct (pdt_found_shape s1 size v Hwf1 Hkt1 Hsz Hf Hv0)
      as (idx & org & num & Es & _ & _ & Ev & Ho & Hon & _). Z.to_euclidean_division_equations; lia. }
  exists v, s1, s2. split_and!; try done.
  - apply (grown_services s1); try done; [apply Hm|].
    intros idx Hidx'. by apply (mapped_good s1 s2 _ _ _ _ _ _ _ _ _ _ Hwf1 Hdir Hm).
  - rewrite Hn. Z.to_euclidean_division_equations; lia.
  - intros a Hr. rewrite Ha2.
    pose proof (mapped_maps s1 s2 _ _ v _ n paddr rw pl ((a - v) / 4096) Hwf1 Hdir Hm Hva ltac:(lia) Hin
      ltac:(Z.to_euclidean_division_equations; lia) ltac:(Z.to_euclidean_division_equations; lia)) as Hpg.
    replace a with (v + 4096 * ((a - v) / 4096) + (a - v) mod 4096)
      by (Z.to_euclidean_division_equations; lia).
    eexists. apply (maps_page_walk s2 _ _ _ rw pl _ Hpg).
    + Z.to_euclidean_division_equations; lia.
    + unfold u32. Z.to_euclidean_division_equations; lia.
    + apply u32_range.
    + apply Z.mod_pos_bound. lia.
  - by rewrite (gr_pdt _ _ Hgr).
  - by rewrite (gr_pt _ _ Hgr).
  - intros idx Hidx'. rewrite <- Ed, <- Em. destruct (decide (idx = v / 4194304)) as [->|Hne].
    + rewrite Hidx. destruct (kt_first _ Hkt1) as [_ _ Hc _ Hb].
      destruct (mp_pde _ _ _ _ _ _ _ _ _ _ Hm) as (_ & _ & HF). rewrite Hidx in HF.
      split; [done|congruence].
    + by rewrite (mapped_pde s1 s2 _ _ _ _ _ _ _ _ _ idx Hwf1 Hdir Hm) by (done || lia).
  - intros a Ha'. apply (grown_mapped s1); [done|done|]. pose proof (Hmap1 a) as E. simpl in E. by rewrite E.
Qed.
End boot.
