(* ===== verification/StringLib.v ===== *)
(** * StringLib: the memory and string functions of lib/string.c

    Memory is the bytes that can be accessed, by address; an access outside is a
    fault. [memcpy] and [memmove] are the loops of the file over that one
    memory, so that overlapping ranges behave as they do in C. *)

From S2P Require Import Prelude.

Abbreviation bytes := (gmap Z Z).

Definition load (a : Z) : M bytes Z := gets (λ m, m !! a) ≫= of_option.

Definition store (a b : Z) : M bytes unit :=
  load a ≫= λ _, modify (<[a := b]>).

(** ** Operations *)

Fixpoint memcmp_loop (s1 s2 : Z) (idx : list Z) : M bytes Z :=
  match idx with
  | [] => mret 0
  | i :: idx =>
    a ← load (s1 +ᵤ i);
    b ← load (s2 +ᵤ i);
    if a <? b then mret (-1) else if b <? a then mret 1 else memcmp_loop s1 s2 idx
  end.

Definition memcmp (s1 s2 n : Z) : M bytes Z := memcmp_loop s1 s2 (seqZ 0 n).

Definition copy_byte (dst src i : Z) : M bytes unit :=
  b ← load (src +ᵤ i); store (dst +ᵤ i) b.

Definition memcpy (dst src n : Z) : M bytes Z :=
  for_each (seqZ 0 n) (copy_byte dst src) ≫= λ _, mret dst.

Definition memmove (dst src len : Z) : M bytes Z :=
  (if dst <? src then for_each (seqZ 0 len) (copy_byte dst src)
   else for_each (reverse (seqZ 1 len)) (λ i, copy_byte dst src (i - 1))) ≫= λ _, mret dst.

Definition memset (b c len : Z) : M bytes Z :=
  for_each (seqZ 0 len) (λ i, store (b +ᵤ i) (u8 c)) ≫= λ _, mret b.

(** [while (s[len++]);] *)
Fixpoint strlen_loop (fuel : nat) (s len : Z) : M bytes Z :=
  match fuel with
  | O => out_of_fuel
  | S fuel =>
    b ← load (s +ᵤ len);
    let len := len +ᵤ 1 in
    if b =? 0 then mret len else strlen_loop fuel s len
  end.

Definition strlen (fuel : nat) (s : Z) : M bytes Z := strlen_loop fuel s 0.

(** ** Ranges of memory *)

Implicit Types (m : bytes) (l : list Z) (a b i n : Z).

(** The bytes [l] are at [a]. *)
Definition holds m a l : Prop := ∀ i, 0 <= i < Z.of_nat (length l) → m !! (a + i) = l !! Z.to_nat i.

Definition accessible m a n : Prop := ∀ i, 0 <= i < n → is_Some (m !! (a + i)).

Definition no_wrap a n : Prop := 0 <= a ∧ a + n <= 4294967296.

(** Memory with [f] applied over the range of [n] bytes at [a]. *)
Definition filled m m' a n (f : Z → Z) : Prop :=
  (∀ i, 0 <= i < n → m' !! (a + i) = Some (f i)) ∧
  (∀ x, ¬ a <= x < a + n → m' !! x = m !! x).

Lemma byte_at_ok m a b : m !! a = Some b → load a m = Ok (b, m).
Proof. intros H. unfold load. rewrite (bind_ok _ _ m (m !! a) m) by done. by rewrite H. Qed.

Lemma byte_store_ok m a b : is_Some (m !! a) → store a b m = Ok (tt, <[a := b]> m).
Proof. intros [c H]. unfold store. by rewrite (bind_ok _ _ _ _ _ (byte_at_ok m a c H)). Qed.

Lemma holds_lookup m a l i b : holds m a l → 0 <= i → l !! Z.to_nat i = Some b → m !! (a + i) = Some b.
Proof. intros H Hi Hb. rewrite H; [done|]. apply lookup_lt_Some in Hb. lia. Qed.

Lemma holds_accessible m a l : holds m a l → accessible m a (Z.of_nat (length l)).
Proof. intros H i Hi. rewrite H by done. apply lookup_lt_is_Some_2. lia. Qed.

(** ** The loops *)

(** What [n] turns of the copy from index [j] on leave. *)
Definition copied m m' dst src j n : Prop :=
  (∀ i, j <= i < j + n → m' !! (dst + i) = m !! (src + i)) ∧
  (∀ x, ¬ dst + j <= x < dst + j + n → m' !! x = m !! x).

Lemma copy_byte_ok m dst src i b :
  no_wrap dst (i + 1) → no_wrap src (i + 1) → 0 <= i → m !! (src + i) = Some b →
  is_Some (m !! (dst + i)) → copy_byte dst src i m = Ok (tt, <[dst + i := b]> m).
Proof.
  intros [] [] Hi Hs Hd. unfold copy_byte. csimp.
  rewrite (bind_ok _ _ _ _ _ (byte_at_ok m _ b Hs)). by apply byte_store_ok.
Qed.

Lemma accessible_insert m a n x b : accessible m a n → accessible (<[x := b]> m) a n.
Proof. intros H i Hi. apply lookup_insert_is_Some'. right. by apply H. Qed.

(** Upwards, when no byte is read after it has been written. *)
Lemma copy_up n dst src : ∀ (k : nat) j m,
  no_wrap dst n → no_wrap src n → 0 <= j → j + Z.of_nat k <= n →
  accessible m dst n → accessible m src n → (dst <= src ∨ src + n <= dst) →
  ∃ m', for_each (seqZ j (Z.of_nat k)) (copy_byte dst src) m = Ok (tt, m') ∧
    copied m m' dst src j (Z.of_nat k).
Proof.
  intros k. induction k as [|k IH]; intros j m Hd Hs Hj Hk Ad As Ho.
  { exists m. split; [done|]. split; [lia|done]. }
  rewrite seqZ_step by lia. simpl. replace (Z.of_nat (S k) - 1) with (Z.of_nat k) by lia.
  destruct (As j) as [b Hb]; [lia|].
  rewrite (bind_ok _ _ _ _ _ (copy_byte_ok m dst src j b ltac:(unfold no_wrap in *; lia)
    ltac:(unfold no_wrap in *; lia) Hj Hb (Ad j ltac:(lia)))).
  destruct (IH (j + 1) (<[dst + j := b]> m)) as (m' & E & Hc & Ho'); auto using accessible_insert; [lia..|].
  exists m'. split; [done|]. split.
  - intros i Hi. destruct (decide (i = j)) as [->|].
    + rewrite Ho' by lia. by rewrite lookup_insert_eq.
    + rewrite Hc by lia. by rewrite lookup_insert_ne by lia.
  - intros x Hx. rewrite Ho' by lia. by rewrite lookup_insert_ne by lia.
Qed.

Lemma reverse_seqZ_S (k : nat) :
  reverse (seqZ 1 (Z.of_nat (S k))) = (Z.of_nat k + 1) :: reverse (seqZ 1 (Z.of_nat k)).
Proof.
  replace (Z.of_nat (S k)) with (Z.of_nat k + 1) by lia. rewrite seqZ_app by lia.
  rewrite reverse_app. change (seqZ (1 + Z.of_nat k) 1) with [Z.of_nat 0 + (1 + Z.of_nat k)].
  simpl. f_equal. lia.
Qed.

(** Downwards, likewise. *)
Lemma copy_down n dst src : ∀ (k : nat) m,
  no_wrap dst n → no_wrap src n → Z.of_nat k <= n →
  accessible m dst n → accessible m src n → src <= dst →
  ∃ m', for_each (reverse (seqZ 1 (Z.of_nat k))) (λ i, copy_byte dst src (i - 1)) m = Ok (tt, m') ∧
    copied m m' dst src 0 (Z.of_nat k).
Proof.
  intros k. induction k as [|k IH]; intros m Hd Hs Hk Ad As Ho.
  { exists m. split; [done|]. split; [lia|done]. }
  rewrite reverse_seqZ_S. cbn [for_each]. replace (Z.of_nat k + 1 - 1) with (Z.of_nat k) by lia.
  replace (Z.of_nat (S k)) with (Z.of_nat k + 1) by lia.
  destruct (As (Z.of_nat k)) as [b Hb]; [lia|].
  rewrite (bind_ok _ _ _ _ _ (copy_byte_ok m dst src (Z.of_nat k) b ltac:(unfold no_wrap in *; lia)
    ltac:(unfold no_wrap in *; lia) ltac:(lia) Hb (Ad (Z.of_nat k) ltac:(lia)))).
  destruct (IH (<[dst + Z.of_nat k := b]> m)) as (m' & E & Hc & Ho'); auto using accessible_insert; [lia..|].
  exists m'. split; [done|]. split.
  - intros i Hi. destruct (decide (i = Z.of_nat k)) as [->|].
    + rewrite Ho' by lia. by rewrite lookup_insert_eq.
    + rewrite Hc by lia. by rewrite lookup_insert_ne by lia.
  - intros x Hx. rewrite Ho' by lia. by rewrite lookup_insert_ne by lia.
Qed.

Lemma set_up v n b : ∀ (k : nat) j m,
  no_wrap b n → 0 <= j → j + Z.of_nat k <= n → accessible m b n →
  ∃ m', for_each (seqZ j (Z.of_nat k)) (λ i, store (b +ᵤ i) v) m = Ok (tt, m') ∧
    (∀ i, j <= i < j + Z.of_nat k → m' !! (b + i) = Some v) ∧
    (∀ x, ¬ b + j <= x < b + j + Z.of_nat k → m' !! x = m !! x).
Proof.
  intros k. induction k as [|k IH]; intros j m Hb Hj Hk Ab.
  { exists m. split; [done|]. split; [lia|done]. }
  rewrite seqZ_step by lia. simpl. replace (Z.of_nat (S k) - 1) with (Z.of_nat k) by lia.
  assert (is_Some (m !! (b +ᵤ j))) as Hs.
  { rewrite u32_small by (unfold no_wrap in *; lia). apply Ab. lia. }
  rewrite (bind_ok _ _ _ _ _ (byte_store_ok m _ v Hs)). rewrite u32_small by (unfold no_wrap in *; lia).
  destruct (IH (j + 1) (<[b + j := v]> m)) as (m' & E & Hc & Ho'); auto using accessible_insert; [lia..|].
  exists m'. split; [done|]. split.
  - intros i Hi. destruct (decide (i = j)) as [->|]; [|apply Hc; lia].
    rewrite Ho' by lia. by rewrite lookup_insert_eq.
  - intros x Hx. rewrite Ho' by lia. by rewrite lookup_insert_ne by lia.
Qed.

(** The comparison of two byte strings of the same length, byte by byte. *)
Fixpoint compare_bytes (l1 l2 : list Z) : Z :=
  match l1, l2 with
  | a :: l1, b :: l2 =>
    match a ?= b with Lt => -1 | Gt => 1 | Eq => compare_bytes l1 l2 end
  | _, _ => 0
  end.

Lemma memcmp_loop_ok m s1 s2 l1 : ∀ l2 j,
  length l1 = length l2 → 0 <= j → no_wrap s1 (j + Z.of_nat (length l1)) →
  no_wrap s2 (j + Z.of_nat (length l1)) → holds m (s1 + j) l1 → holds m (s2 + j) l2 →
  memcmp_loop s1 s2 (seqZ j (Z.of_nat (length l1))) m = Ok (compare_bytes l1 l2, m).
Proof.
  induction l1 as [|a l1 IH]; intros [|b l2] j Hl Hj H1 H2 h1 h2; try done.
  unfold no_wrap in *. simpl length in *. rewrite seqZ_step by lia. cbn [memcmp_loop].
  rewrite !u32_small by lia.
  assert (m !! (s1 + j) = Some a) as E1 by (rewrite <- (Z.add_0_r (s1 + j)); apply h1; simpl; lia).
  assert (m !! (s2 + j) = Some b) as E2 by (rewrite <- (Z.add_0_r (s2 + j)); apply h2; simpl; lia).
  rewrite (bind_ok _ _ _ _ _ (byte_at_ok m _ a E1)), (bind_ok _ _ _ _ _ (byte_at_ok m _ b E2)).
  cbn [compare_bytes]. destruct (Z.compare_spec a b) as [->|Hlt|Hgt].
  - rewrite Z.ltb_irrefl. replace (Z.of_nat (S (length l1)) - 1) with (Z.of_nat (length l1)) by lia.
    apply IH; try lia.
    + intros i Hi. replace (s1 + (j + 1) + i) with (s1 + j + (i + 1)) by lia. rewrite h1 by (simpl; lia).
      by replace (Z.to_nat (i + 1)) with (S (Z.to_nat i)) by lia.
    + intros i Hi. replace (s2 + (j + 1) + i) with (s2 + j + (i + 1)) by lia. rewrite h2 by (simpl; lia).
      by replace (Z.to_nat (i + 1)) with (S (Z.to_nat i)) by lia.
  - by rewrite (proj2 (Z.ltb_lt a b)).
  - rewrite (proj2 (Z.ltb_ge a b)) by lia. by rewrite (proj2 (Z.ltb_lt b a)).
Qed.

Lemma memset_ok m b c (len : nat) :
  no_wrap b (Z.of_nat len) → accessible m b (Z.of_nat len) →
  ∃ m', memset b c (Z.of_nat len) m = Ok (b, m') ∧ filled m m' b (Z.of_nat len) (λ _, u8 c).
Proof.
  intros Hb Ha. destruct (set_up (u8 c) (Z.of_nat len) b len 0 m Hb) as (m' & E & Hv & Ho); [lia..|done|].
  exists m'. split; [unfold memset; by rewrite (bind_ok _ _ _ _ _ E)|].
  split; [intros i Hi; by apply Hv|intros x Hx; apply Ho; lia].
Qed.

Lemma copied_filled m m' dst src n : copied m m' dst src 0 n → 
  (∀ i, 0 <= i < n → m' !! (dst + i) = m !! (src + i)) ∧ (∀ x, ¬ dst <= x < dst + n → m' !! x = m !! x).
Proof. intros [H1 H2]. split; [auto with lia|]. intros x Hx. apply H2. lia. Qed.

Lemma compare_bytes_eq l1 : ∀ l2, length l1 = length l2 → compare_bytes l1 l2 = 0 ↔ l1 = l2.
Proof.
  induction l1 as [|a l1 IH]; intros [|b l2] Hl; try done. simpl in *.
  destruct (Z.compare_spec a b) as [->|Hlt|Hgt].
  - rewrite IH by lia. split; [by intros ->|by intros [=]].
  - split; [done|]. intros [= -> _]. lia.
  - split; [done|]. intros [= -> _]. lia.
Qed.

Lemma compare_bytes_lt l1 : ∀ l2, length l1 = length l2 →
  compare_bytes l1 l2 = -1 ↔ ∃ p a b t1 t2, l1 = p ++ a :: t1 ∧ l2 = p ++ b :: t2 ∧ a < b.
Proof.
  induction l1 as [|a l1 IH]; intros [|b l2] Hl; try done.
  - split; [done|]. intros ([|? ?] & ? & ? & ? & ? & ? & _); done.
  - cbn [compare_bytes]. simpl in Hl. destruct (Z.compare_spec a b) as [->|Hlt|Hgt].
    + rewrite IH by lia. split.
      * intros (p & x & y & t1 & t2 & -> & -> & Hxy). by exists (b :: p), x, y, t1, t2.
      * intros ([|z p] & x & y & t1 & t2 & E1 & E2 & Hxy); simplify_eq/=; [lia|]. by exists p, x, y, t1, t2.
    + split; [|done]. intros _. by exists [], a, b, l1, l2.
    + split; [done|]. intros ([|z p] & x & y & t1 & t2 & E1 & E2 & Hxy); simplify_eq/=; lia.
Qed.

Lemma strlen_loop_ok m s l : ∀ (fuel : nat) j,
  no_wrap s (j + Z.of_nat (length l) + 1) → 0 <= j → Forall (λ b, b ≠ 0) l →
  j + Z.of_nat (length l) + 1 < 4294967296 →
  holds m (s + j) (l ++ [0]) → (length l < fuel)%nat →
  strlen_loop fuel s j m = Ok (j + Z.of_nat (length l) + 1, m).
Proof.
  induction l as [|b l IH]; intros fuel j Hn Hj Hl Hlen Hh Hf; (destruct fuel as [|fuel]; [simpl in *; lia|]);
    unfold no_wrap in *; simpl length in *; cbn [strlen_loop]; rewrite (u32_small (s + j)) by lia.
  - rewrite (bind_ok _ _ _ _ _ (byte_at_ok m (s + j) 0 ltac:(rewrite <- (Z.add_0_r (s + j)); apply Hh; simpl; lia))).
    simpl. rewrite u32_small by lia. unfold mret, M_ret. do 2 f_equal. lia.
  - apply Forall_cons in Hl as [Hb Hl].
    rewrite (bind_ok _ _ _ _ _ (byte_at_ok m (s + j) b ltac:(rewrite <- (Z.add_0_r (s + j)); apply Hh; simpl; lia))).
    cbv zeta. rewrite (proj2 (Z.eqb_neq b 0) Hb). rewrite u32_small by lia.
    rewrite (IH fuel (j + 1)); [do 2 f_equal; lia|lia|lia|done|lia| |lia].
    intros i Hi. replace (s + (j + 1) + i) with (s + j + (i + 1)) by lia.
    rewrite Hh by (simpl; lia). by replace (Z.to_nat (i + 1)) with (S (Z.to_nat i)) by lia.
Qed.

(** ** Properties *)

Lemma memmove_ok m dst src (len : nat) :
  no_wrap dst (Z.of_nat len) → no_wrap src (Z.of_nat len) →
  accessible m dst (Z.of_nat len) → accessible m src (Z.of_nat len) →
  ∃ m', memmove dst src (Z.of_nat len) m = Ok (dst, m') ∧
    (∀ i, 0 <= i < Z.of_nat len → m' !! (dst + i) = m !! (src + i)) ∧
    (∀ x, ¬ dst <= x < dst + Z.of_nat len → m' !! x = m !! x).
Proof.
  intros Hd Hs Ad As. unfold memmove. destruct (Z.ltb_spec dst src).
  - destruct (copy_up (Z.of_nat len) dst src len 0 m) as (m' & E & Hc); auto with lia.
    exists m'. split; [by rewrite (bind_ok _ _ _ _ _ E)|by apply copied_filled].
  - destruct (copy_down (Z.of_nat len) dst src len m) as (m' & E & Hc); auto with lia.
    exists m'. split; [by rewrite (bind_ok _ _ _ _ _ E)|by apply copied_filled].
Qed.

(** On ranges that do not overlap, as [restrict] promises, [memcpy] and
    [memmove] do the same. *)
Lemma memcpy_same m dst src (len : nat) :
  no_wrap dst (Z.of_nat len) → no_wrap src (Z.of_nat len) →
  accessible m dst (Z.of_nat len) → accessible m src (Z.of_nat len) →
  dst + Z.of_nat len <= src ∨ src + Z.of_nat len <= dst →
  ∃ m', memcpy dst src (Z.of_nat len) m = Ok (dst, m') ∧ memmove dst src (Z.of_nat len) m = Ok (dst, m').
Proof.
  intros Hd Hs Ad As Ho. unfold memmove, memcpy.
  destruct (copy_up (Z.of_nat len) dst src len 0 m) as (m1 & E1 & Hc1); auto with lia.
  rewrite (bind_ok _ _ _ _ _ E1). exists m1. split; [done|]. destruct (Z.ltb_spec dst src).
  - by rewrite (bind_ok _ _ _ _ _ E1).
  - destruct (copy_down (Z.of_nat len) dst src len m) as (m2 & E2 & Hc2); auto with lia.
    rewrite (bind_ok _ _ _ _ _ E2). replace m1 with m2; [done|].
    apply copied_filled in Hc1 as [Hv1 Ho1], Hc2 as [Hv2 Ho2]. apply map_eq. intros x.
    destruct (decide (dst <= x < dst + Z.of_nat len)).
    + replace x with (dst + (x - dst)) by lia. by rewrite Hv1, Hv2 by lia.
    + by rewrite Ho1, Ho2.
Qed.

(** C15: [memmove] ends without a fault and leaves at [dst] the bytes that were
    at [src], however the two ranges overlap, and every other byte as it was. On
    ranges that do not overlap, as [restrict] promises, [memcpy] leaves the same memory. *)
Theorem memmove_moves m dst src (len : nat) :
  no_wrap dst (Z.of_nat len) → no_wrap src (Z.of_nat len) →
  accessible m dst (Z.of_nat len) → accessible m src (Z.of_nat len) →
  ∃ m', memmove dst src (Z.of_nat len) m = Ok (dst, m') ∧
    (∀ i, 0 <= i < Z.of_nat len → m' !! (dst + i) = m !! (src + i)) ∧
    (∀ x, ¬ dst <= x < dst + Z.of_nat len → m' !! x = m !! x) ∧
    (dst + Z.of_nat len <= src ∨ src + Z.of_nat len <= dst → memcpy dst src (Z.of_nat len) m = Ok (dst, m')).
Proof.
  intros Hd Hs Ad As. destruct (memmove_ok m dst src len Hd Hs Ad As) as (m'&E&Hv&Ho).
  exists m'. split_and!; [done..|]. intros Hdis.
  destruct (memcpy_same m dst src len Hd Hs Ad As Hdis) as (m2&E2&E3). congruence.
Qed.

(** [memcmp] answers 0 exactly for equal bytes, and -1 exactly when at the
    first place where they differ the byte of [s1] is the smaller. *)
Lemma memcmp_orders m s1 s2 l1 l2 :
  length l1 = length l2 → no_wrap s1 (Z.of_nat (length l1)) → no_wrap s2 (Z.of_nat (length l1)) →
  holds m s1 l1 → holds m s2 l2 →
  ∃ r, memcmp s1 s2 (Z.of_nat (length l1)) m = Ok (r, m) ∧ (r = 0 ↔ l1 = l2) ∧
    (r = -1 ↔ ∃ p a b t1 t2, l1 = p ++ a :: t1 ∧ l2 = p ++ b :: t2 ∧ a < b).
Proof.
  intros Hl H1 H2 h1 h2. exists (compare_bytes l1 l2).
  split; [|split; [by apply compare_bytes_eq|by apply compare_bytes_lt]].
  apply memcmp_loop_ok; try done; by rewrite Z.add_0_r.
Qed.

(** [strlen] counts the terminator: its answer for a string of [n]
    characters is [n + 1]. *)
Lemma strlen_counts_terminator m s l (fuel : nat) :
  Forall (λ b, b ≠ 0) l → holds m s (l ++ [0]) → no_wrap s (Z.of_nat (length l) + 1) →
  Z.of_nat (length l) + 1 < 4294967296 → (length l < fuel)%nat →
  strlen fuel s m = Ok (Z.of_nat (length l) + 1, m).
Proof.
  intros Hl Hh Hn Hlen Hf. unfold strlen.
  rewrite (strlen_loop_ok m s l fuel 0); try done. by rewrite Z.add_0_r.
Qed.

(** ** Witnesses: five bytes at 100, overlapping copies *)

Definition demo_bytes : bytes := <[100 := 1]> (<[101 := 2]> (<[102 := 3]> (<[103 := 4]> (<[104 := 0]> ∅)))).

Lemma demo_accessible a n : 100 <= a → a + n <= 105 → accessible demo_bytes a n.
Proof.
  intros Ha Hn i Hi. assert (a + i = 100 ∨ a + i = 101 ∨ a + i = 102 ∨ a + i = 103 ∨ a + i = 104) as H by lia.
  destruct H as [->|[->|[->|[->| ->]]]]; by eexists.
Qed.

(** Three bytes moved up by one, and two copied to the front. *)
Lemma memmove_moves_witness :
  (∃ m', memmove 101 100 3 demo_bytes = Ok (101, m') ∧ m' !! 101 = Some 1 ∧ m' !! 103 = Some 3) ∧
  (∃ m', memcpy 100 102 2 demo_bytes = Ok (100, m') ∧ m' !! 100 = Some 3).
Proof.
  split.
  - destruct (memmove_moves demo_bytes 101 100 3) as (m' & E & H & _);
      [unfold no_wrap; lia|unfold no_wrap; lia|apply demo_accessible; lia|apply demo_accessible; lia|].
    exists m'. split; [done|]. split; [by apply (H 0)|by apply (H 2)].
  - destruct (memmove_moves demo_bytes 100 102 2) as (m' & _ & H & _ & Hc);
      [unfold no_wrap; lia|unfold no_wrap; lia|apply demo_accessible; lia|apply demo_accessible; lia|].
    exists m'. split; [apply Hc; lia|by apply (H 0)].
Defined.

Lemma demo_holds a l : forallb (λ i, bool_decide (demo_bytes !! (a + i) = l !! Z.to_nat i)) (seqZ 0 (Z.of_nat (length l))) = true →
  holds demo_bytes a l.
Proof.
  intros H i Hi. rewrite forallb_forall in H. apply (bool_decide_eq_true_1 _), H.
  apply list_elem_of_In, elem_of_seqZ. lia.
Qed.

Lemma memcmp_orders_witness :
  ∃ r, memcmp 100 102 2 demo_bytes = Ok (r, demo_bytes) ∧ r = -1.
Proof.
  destruct (memcmp_orders demo_bytes 100 102 [1; 2] [3; 4]) as (r & E & _ & H);
    [done|done|done|by apply demo_holds|by apply demo_holds|].
  exists r. split; [done|]. apply H. by exists [], 1, 3, [2], [4].
Defined.

Lemma strlen_counts_terminator_witness : strlen 10 100 demo_bytes = Ok (5, demo_bytes).
Proof.
  apply (strlen_counts_terminator demo_bytes 100 [1; 2; 3; 4] 10);
    [repeat constructor; lia|by apply demo_holds|done|done|simpl; lia].
Defined.
