(* ===== verification/MemoryMap.v ===== *)
(** * MemoryMap: the regions [frames_init] takes over from GRUB's memory map

    [fill_memory_map] reads the entries one after the other, and what it keeps is
    available memory above 1 MB that does not hold the kernel, unless the kernel
    ends beyond the size of its entry, where a subtraction wraps around. *)

From S2P Require Import Prelude CArith Frames Mmu Paging FramesInit.

Record map_entry := MapEntry { me_size : Z; me_addr : Z; me_len : Z; me_type : Z }.

(** The entries [es] lie one after the other in virtual memory from [a] to [last]. *)
Inductive entries_at (s : paging frames) : Z → list map_entry → Z → Prop :=
| entries_nil a : entries_at s a [] a
| entries_cons a e es last :
    entry_size a s = Ok (me_size e, s) → entry_addr a s = Ok (me_addr e, s) →
    entry_len a s = Ok (me_len e, s) → entry_type a s = Ok (me_type e, s) →
    is_u32 (me_size e) → 0 <= a → a + me_size e + 4 < 4294967296 →
    entries_at s (a + me_size e + 4) es last → entries_at s a (e :: es) last.

Definition available (e : map_entry) : bool := me_type e =? MULTIBOOT_MEMORY_AVAILABLE.

(** What is kept of the entries. *)
Definition kept (kps kpe : Z) (es : list map_entry) : list memory_map :=
  e ← es; if available e then keep_region kps kpe (me_addr e) (me_len e) else [].

Lemma kept_cons kps kpe e es :
  kept kps kpe (e :: es)
  = (if available e then keep_region kps kpe (me_addr e) (me_len e) else []) ++ kept kps kpe es.
Proof. done. Qed.

Lemma entries_at_le s a es last : entries_at s a es last → a <= last.
Proof. induction 1; lia. Qed.

Lemma fill_loop_ok kps kpe s a es last fuel ms :
  entries_at s a es last → Z.of_nat (length (ms ++ kept kps kpe es)) <= MAX_NUM_MEMORY_MAP →
  (length es < fuel)%nat →
  fill_loop fuel kps kpe a last ms s = Ok (ms ++ kept kps kpe es, s).
Proof.
  intros H. revert fuel ms. induction H as [a|a e es last Hs Ha Hl Ht Hsz H0 Hend Hes IH];
    intros fuel ms Hlen Hfuel; (destruct fuel as [|fuel]; [simpl in *; lia|]); cbn [fill_loop].
  { rewrite Z.ltb_irrefl. by rewrite app_nil_r. }
  pose proof (entries_at_le _ _ _ _ Hes). destruct (Z.ltb_spec a last); [|lia].
  rewrite (bind_ok _ _ _ _ _ Ht). rewrite kept_cons in *. unfold available in *.
  set (r := if me_type e =? _ then keep_region _ _ _ _ else []) in *.
  assert (E : (if me_type e =? MULTIBOOT_MEMORY_AVAILABLE then
      addr ← entry_addr a; len ← entry_len a; mret (ms ++ keep_region kps kpe addr len)
    else mret ms) s = Ok (ms ++ r, s)).
  { unfold r. case_match; [|by rewrite app_nil_r].
    by rewrite (bind_ok _ _ _ _ _ Ha), (bind_ok _ _ _ _ _ Hl). }
  rewrite (bind_ok _ _ _ _ _ E). rewrite !length_app in *.
  destruct (Z.ltb_spec MAX_NUM_MEMORY_MAP (Z.of_nat (length ms + length r))); [lia|].
  rewrite (bind_ok _ _ _ _ _ Hs).
  assert (Ea : (a +ᵤ me_size e) +ᵤ 4 = a + me_size e + 4) by (rewrite (u32_small (a + me_size e)) by lia; apply u32_small; lia).
  rewrite Ea, app_assoc. apply IH; [rewrite !length_app; lia|simpl in *; lia].
Qed.

(** An available entry as a machine has them: it ends below 4 GB, and it either
    holds the whole kernel, which ends within as many bytes of address 0 as the
    entry is long, or does not meet the kernel. *)
Definition sane (kps kpe : Z) (e : map_entry) : Prop :=
  0 <= me_addr e ∧ 0 <= me_len e ∧ me_addr e + me_len e < 4294967296 ∧
  ((me_addr e <= kps ∧ kpe < me_addr e + me_len e ∧ kpe <= me_len e) ∨
   me_addr e + me_len e <= kps ∨ kpe <= me_addr e).

Lemma keep_region_safe kps kpe e m :
  0 <= kps < kpe → sane kps kpe e → m ∈ keep_region kps kpe (me_addr e) (me_len e) →
  0x100000 < addr m ∧ 0 <= len m ∧ me_addr e <= addr m ∧
  addr m + len m <= me_addr e + me_len e ∧ (addr m + len m <= kps ∨ kpe <= addr m).
Proof.
  intros Hk (H0 & Hl & H4 & Hor). unfold keep_region. rewrite (u32_small (_ + _)) by lia.
  destruct (Z.leb_spec (me_addr e) kps), (Z.ltb_spec kpe (me_addr e + me_len e)); simpl;
    (case_match eqn:E; [apply Z.ltb_lt in E|by intros ?%not_elem_of_nil]);
    intros ->%list_elem_of_singleton; simpl; rewrite ?u32_small by lia; lia.
Qed.

Lemma kept_length kps kpe es : (length (kept kps kpe es) <= length es)%nat.
Proof.
  induction es as [|e es IH]; [done|]. rewrite kept_cons, length_app. simpl.
  assert (length (if available e then keep_region kps kpe (me_addr e) (me_len e) else []) <= 1)%nat.
  { destruct (available e); [|simpl; lia]. unfold keep_region.
    destruct (_ && _); cbv zeta; destruct (0x100000 <? _); simpl; lia. }
  lia.
Qed.

Lemma elem_of_kept kps kpe es m :
  m ∈ kept kps kpe es ↔
  ∃ e, e ∈ es ∧ m ∈ (if available e then keep_region kps kpe (me_addr e) (me_len e) else []).
Proof. unfold kept. rewrite list_elem_of_bind. split; intros (e & ? & ?); eauto. Qed.

Lemma fill_memory_map_ok s minfo kps kpe flags entry len es fuel :
  minfo_flags minfo s = Ok (flags, s) → Z.testbit flags 6 = true →
  minfo_mmap_addr minfo s = Ok (entry, s) → minfo_mmap_length minfo s = Ok (len, s) →
  entries_at s entry es (entry +ᵤ len) → (length es < fuel)%nat →
  Z.of_nat (length es) <= MAX_NUM_MEMORY_MAP →
  fill_memory_map fuel kps kpe minfo s = Ok (kept kps kpe es, s).
Proof.
  intros Hf Hbit Ha Hl Hes Hfuel Hn. unfold fill_memory_map.
  rewrite (bind_ok _ _ _ _ _ Hf). destruct (Z.eqb_spec (Z.land flags 0x40) 0) as [E|_].
  { exfalso. apply (f_equal (λ z, Z.testbit z 6)) in E. rewrite Z.land_spec, Hbit in E. done. }
  rewrite (bind_ok _ _ _ _ _ Ha), (bind_ok _ _ _ _ _ Hl).
  apply (fill_loop_ok kps kpe s entry es _ fuel []); try done.
  pose proof (kept_length kps kpe es). simpl. lia.
Qed.

(** C17: [fill_memory_map] ends, and for a map of sane entries (each ends below 4 GB,
    and is clear of the kernel, or holds it and is as long as the kernel's end is
    high: without that see [keep_region_wraps]) each region it keeps is above 1 MB, inside an available entry and clear of the kernel. *)
Theorem fill_memory_map_regions s minfo kps kpe flags entry len es fuel :
  minfo_flags minfo s = Ok (flags, s) → Z.testbit flags 6 = true →
  minfo_mmap_addr minfo s = Ok (entry, s) → minfo_mmap_length minfo s = Ok (len, s) →
  entries_at s entry es (entry +ᵤ len) → (length es < fuel)%nat →
  Z.of_nat (length es) <= MAX_NUM_MEMORY_MAP → 0 <= kps < kpe →
  Forall (λ e, available e = true → sane kps kpe e) es →
  fill_memory_map fuel kps kpe minfo s = Ok (kept kps kpe es, s) ∧
  ∀ m, m ∈ kept kps kpe es → 0x100000 < addr m ∧ (addr m + Frames.len m <= kps ∨ kpe <= addr m) ∧
    ∃ e, e ∈ es ∧ available e = true ∧ me_addr e <= addr m ∧
      addr m + Frames.len m <= me_addr e + me_len e.
Proof.
  intros Hf Hbit Ha Hl Hes Hfuel Hn Hk Hsane. split.
  - by apply (fill_memory_map_ok s minfo kps kpe flags entry len es fuel).
  - intros m (e & He & Hm)%elem_of_kept. rewrite Forall_forall in Hsane.
    destruct (available e) eqn:Ev; [|by apply not_elem_of_nil in Hm].
    destruct (keep_region_safe kps kpe e m Hk (Hsane e He Ev) Hm) as (?&?&?&?&?).
    split_and!; try done. by exists e.
Qed.

(** When the memory of the entry that holds the kernel ends less than its
    own start beyond the kernel, [len - kernel_physical_end] wraps around, and the
    region kept runs past the end of the entry, to just below the end of the
    address space and beyond. *)
Lemma keep_region_wraps kps kpe a n :
  0x100000 <= a → a <= kps < kpe → is_u32 kpe → kpe < a + n < 4294967296 → 0 < n < kpe →
  keep_region kps kpe a n = [MemoryMap kpe (4294967296 + n - kpe)] ∧
  a + n < kpe + (4294967296 + n - kpe).
Proof.
  intros Ha Hk Hu Hn Hw. split; [|lia]. unfold keep_region. rewrite (u32_small (a + n)) by lia.
  destruct (Z.leb_spec a kps); [|lia]. destruct (Z.ltb_spec kpe (a + n)); [|lia]. simpl.
  destruct (Z.ltb_spec 0x100000 kpe); [|lia]. do 2 f_equal.
  unfold u32. Z.to_euclidean_division_equations; lia.
Qed.

(** ** A concrete machine at boot

    The state boot.s leaves, with GRUB's information at [0x10000]: a map of two
    available entries, 639 kB at 0 and some 15 MB at 1 MB, where the kernel is. *)

Definition boot_words : gmap Z Z :=
  <[0x101000 := 0x8B]> (<[0x101C00 := 0x10200B]> (<[0x102000 := 0xB]>
  (<[0x10000 := 0x40]> (<[0x1002C := 48]> (<[0x10030 := 0x10100]>
  (<[0x10100 := 20]> (<[0x10104 := 0]> (<[0x1010C := 0x9FC00]> (<[0x10114 := 1]>
  (<[0x10118 := 20]> (<[0x1011C := 0x100000]> (<[0x10124 := 0xEF1000]> (<[0x1012C := 1]> ∅))))))))))))).

Definition boot_machine : paging frames :=
  Paging _ boot_words 0x101000 0 0 [] (Frames (PageFrameBitmap [] 0) [] []).

Definition boot_entries : list map_entry :=
  [MapEntry 20 0 0x9FC00 1; MapEntry 20 0x100000 0xEF1000 1].

Lemma boot_entries_at s :
  phys s = boot_words → cr3 s = 0x101000 → entries_at s 0x10100 boot_entries 0x10130.
Proof.
  destruct s as [m c kp kt l p]; simpl. intros -> ->.
  apply (entries_cons _ 0x10100 (MapEntry 20 0 0x9FC00 1)); try (reflexivity || (simpl; lia)).
  apply (entries_cons _ 0x10118 (MapEntry 20 0x100000 0xEF1000 1)); try (reflexivity || (simpl; lia)).
  constructor.
Qed.

Lemma boot_entries_sane :
  Forall (λ e, available e = true → sane 0x100000 0x110000 e) boot_entries.
Proof. repeat constructor; unfold sane; simpl; lia. Qed.

Lemma fill_memory_map_regions_witness :
  fill_memory_map 3 0x100000 0x110000 0x10000 boot_machine
  = Ok ([MemoryMap 0x110000 0xDE1000], boot_machine).
Proof.
  refine (proj1 (fill_memory_map_regions boot_machine 0x10000 0x100000 0x110000 0x40 0x10100 48
    boot_entries 3 _ _ _ _ _ _ _ _ _)); try (reflexivity || (unfold MAX_NUM_MEMORY_MAP; simpl; lia)).
  - by apply boot_entries_at.
  - apply boot_entries_sane.
Defined.
