(* ===== verification/FramesInitSpec.v ===== *)
(** * FramesInitSpec: [frames_init] sets up the allocator and the page tables

    From a machine as boot.s leaves it, [frames_init] ends in a state in which
    everything the theorems on frames, page tables and the heap assume holds, and
    every bit of the bitmap is what [BitmapFacts] says. *)

From S2P Require Import Prelude CArith Interfaces Frames Mmu Paging PagingFacts PageMap PdtMap PageFind DemoMachine PageServices PagingServices FramesInit MemoryMap BitmapFacts FramesBoot.

(** ** The regions *)

(** The regions kept are in increasing order, apart, below 4 GB, and none is
    shorter than what aligning its start takes off. *)
Fixpoint regions_ok (lo : Z) (ms : list memory_map) : Prop :=
  match ms with
  | [] => True
  | m :: ms =>
    lo <= addr m ∧ 0 <= len m ∧ align_up (addr m) 4096 <= addr m + len m ∧
    addr m + len m < 4294963200 ∧
    regions_ok (addr m + len m) ms
  end.

Lemma align_region_ok m :
  0 <= addr m → align_up (addr m) 4096 <= addr m + len m → addr m + len m < 4294963200 →
  addr m <= 4294963200 →
  let m' := align_region m in
  addr m <= addr m' ∧ addr m' mod 4096 = 0 ∧ len m' mod 4096 = 0 ∧ 0 <= len m' ∧
  addr m' + len m' <= addr m + len m.
Proof.
  intros H0 Ha H4 H1. unfold align_region. cbv zeta. cbn [addr len].
  change FOUR_KB with 4096. rewrite align_up_page in * by lia.
  set (a := (addr m + 4095) / 4096 * 4096) in *.
  assert (addr m <= a ∧ a mod 4096 = 0) as [H2 H3] by (unfold a; Z.to_euclidean_division_equations; lia).
  rewrite (u32_small (a - addr m)), (u32_small (len m - _)) by lia.
  destruct (align_down_spec (len m - (a - addr m)) 4096 ltac:(lia)) as [H5 H6].
  split_and!; try done; try lia. unfold align_down. Z.to_euclidean_division_equations; lia.
Qed.

Lemma mmap_ok_weaken lo lo' ms : lo' <= lo → mmap_ok lo ms → mmap_ok lo' ms.
Proof. destruct ms as [|m ms]; [done|]. intros Hle (?&?&?&?&?&?). simpl. split_and!; lia || done. Qed.

Lemma align_regions_ok lo ms : 0 <= lo → regions_ok lo ms → mmap_ok lo (align_region <$> ms).
Proof.
  revert lo. induction ms as [|m ms IH]; intros lo Hlo H; [done|]. destruct H as (Hl & Hn & Ha & H4 & Hms).
  destruct (align_region_ok m) as (?&?&?&?&?); [lia..|].
  rewrite fmap_cons. cbn [mmap_ok]. split_and!; try done; try lia. apply (mmap_ok_weaken (addr m + len m)); [lia|].
  apply IH; [lia|done].
Qed.

(** ** The place of the bitmap *)

Lemma place_bitmap_ok bytes ms : ∀ lo,
  mmap_ok lo ms → 0 <= lo → 0 <= bytes → bytes mod 4096 = 0 → (∃ m, m ∈ ms ∧ bytes <= len m) →
  ∃ p ms', place_bitmap bytes ms = Some (p, ms') ∧ mmap_ok lo ms' ∧ total ms' = total ms - bytes ∧
    lo <= p ∧ p mod 4096 = 0 ∧ p < 4294967296.
Proof.
  induction ms as [|m ms IH]; intros lo Hok Hlo Hb Hba (m0 & Hm & Hle); [by apply not_elem_of_nil in Hm|].
  destruct Hok as (H1 & H2 & H3 & H4 & H5 & H6). cbn [place_bitmap].
  destruct (Z.leb_spec bytes (len m)).
  - rewrite (u32_small (addr m + bytes)), (u32_small (len m - bytes)) by lia.
    eexists _, _. split; [done|]. simpl. replace (addr m + bytes + (len m - bytes)) with (addr m + len m) by lia.
    split_and!; try done; try lia; Z.to_euclidean_division_equations; lia.
  - apply elem_of_cons in Hm as [->|Hm]; [lia|].
    destruct (IH (addr m + len m)) as (p & ms' & -> & Hok' & Ht & Hp & Hpa & Hp4); [done|lia..|by exists m0|].
    exists p, (m :: ms'). simpl. split_and!; try done; lia.
Qed.

Lemma total_pfs_ok lo ms : mmap_ok lo ms → 0 <= lo → total_pfs ms = total ms / 4096.
Proof.
  intros Hok Hlo. unfold total_pfs. change FOUR_KB with 4096.
  assert (H : ∀ ms lo acc, mmap_ok lo ms → 0 <= acc → acc + total ms / 4096 < 4294967296 →
    foldl (λ acc m, acc +ᵤ len m / 4096) acc ms = acc + total ms / 4096).
  { clear. induction ms as [|m ms IH]; intros lo acc Hok Hacc Hb; simpl; [by rewrite Z.add_0_r|].
    destruct Hok as (_ & _ & Hl & H0 & H4 & Hok). pose proof (total_nonneg _ _ Hok). simpl in Hb.
    assert (E : (len m + total ms) / 4096 = len m / 4096 + total ms / 4096)
      by (Z.to_euclidean_division_equations; lia).
    assert (0 <= len m / 4096 ∧ 0 <= total ms / 4096) by (Z.to_euclidean_division_equations; lia).
    rewrite E in *. rewrite u32_small by lia. rewrite (IH (addr m + len m)) by (done || lia). lia. }
  rewrite (H ms lo 0); [lia|done|lia|]. pose proof (total_nonneg _ _ Hok).
  destruct (total_bound _ _ Hok) as [->|?]; simpl; Z.to_euclidean_division_equations; lia.
Qed.

(** The sizes [construct_bitmap] computes for [n] frames. *)
Definition bitmap_pages (n : Z) : Z := div_ceil (div_ceil n 8) 4096.

Lemma bitmap_sizes n len size :
  0 < n < 1048576 → bitmap_pages n < n → len = n - bitmap_pages n → size = div_ceil len 8 →
  1 <= bitmap_pages n <= 32 ∧ n -ᵤ bitmap_pages n = len ∧ bitmap_pages n *ᵤ 4096 = bitmap_pages n * 4096 ∧
  size = (len + 7) / 8 ∧ 0 < size <= 131072 ∧ size <= align_up size 4096 <= 131072 ∧
  align_up size 4096 mod 4096 = 0.
Proof.
  intros Hn Hlt El Esz.
  assert (Eb : bitmap_pages n = ((n + 8 - 1) / 8 + 4096 - 1) / 4096).
  { unfold bitmap_pages. rewrite (div_ceil_eq n 8) by lia.
    apply div_ceil_eq; [clear Hlt; Z.to_euclidean_division_equations; lia|lia]. }
  set (b := bitmap_pages n) in *.
  assert (Hb : 1 <= b <= 32) by (rewrite Eb; Z.to_euclidean_division_equations; lia). clearbody b.
  assert (Es : size = (len + 7) / 8).
  { subst size. rewrite div_ceil_eq; [f_equal; lia| |lia]. lia. }
  assert (0 < size <= 131072) by (rewrite Es; Z.to_euclidean_division_equations; lia).
  rewrite align_up_page by lia. clear Esz Eb. subst len.
  split_and!; try done; try lia; try (apply u32_small; lia);
    Z.to_euclidean_division_equations; lia.
Qed.

(** ** The words of the bitmap's pages *)

Lemma load_words_ok s (n : nat) : ∀ v,
  (∀ a, is_u32 (ld (phys s) a)) → v mod 4 = 0 → 0 <= v → v + 4 * Z.of_nat n < 4294967296 →
  (∀ a, v <= a < v + 4 * Z.of_nat n → is_Some (walk (phys s) (active s) a)) →
  ∃ ws, load_words v n s = Ok (ws, s) ∧ length ws = n ∧ Forall (λ c, is_u32 c) ws.
Proof.
  induction n as [|n IH]; intros v Hu Hv H0 Hend Hw; [by exists []|]. cbn [load_words].
  destruct (Hw v ltac:(lia)) as [q Hq].
  assert (El : load v s = Ok (ld (phys s) q, s)).
  { unfold load, resolve. rewrite bind_assoc. rewrite (bind_ok _ _ s s s) by done.
    rewrite Hv, Hq. done. }
  rewrite (bind_ok _ _ _ _ _ El). rewrite u32_small by lia.
  destruct (IH (v + 4)) as (ws & E & Hl & Hc); [done|Z.to_euclidean_division_equations; lia|lia|lia| |].
  { intros a Ha. apply Hw. lia. }
  rewrite (bind_ok _ _ _ _ _ E). exists (ld (phys s) q :: ws). split_and!; [done|simpl; lia|by constructor].
Qed.

(** ** [construct_bitmap] *)

(** The page tables as boot.s leaves them, whatever the allocator: the kernel's
    directory is in force, the tables it names lie below [lo], and the kernel's
    first table has 32 free entries in a row, which is enough for any bitmap. *)
Record boot_state (lo : Z) (s : paging frames) : Prop := BootState {
  bs_services : @services_wf frames (boot_ops (mmap (pfa s)) (nbits (page_frames (pfa s)))) s;
  bs_low : kernel_pt s + 4096 <= lo ∧ kernel_pdt s + 4096 <= lo;
  bs_tables idx : 768 <= idx < 1024 →
    IS_ENTRY_PRESENT (ld (phys s) (kernel_pdt s + 4 * idx)) = true →
    hw_base (ld (phys s) (kernel_pdt s + 4 * idx)) + 4096 <= lo;
  bs_room : ∃ k, 0 <= k ∧ k + 32 <= 1024 ∧ ∀ j, k <= j < k + 32 → vacant s 768 (kernel_pt s) j
}.

Lemma boot_services ms n ms' n' p s :
  @services_wf frames (boot_ops ms n) s → mmap p = ms' → nbits (page_frames p) = n' →
  @services_wf frames (boot_ops ms' n') (set_pfa p s).
Proof.
  intros ([] & [] & Ha) Em En. split_and!; [by split| |done]. split; try done.
  intros idx Hi Hp. destruct (kt_good idx Hi Hp) as (?&?&?&[]&?). by split_and!.
Qed.

(** The frames the allocator manages are not below the regions. *)
Lemma frames_above lo s p :
  frames_wf s → mmap_ok lo (mmap s) → p ∈ free_set s → lo <= p.
Proof.
  intros Hwf Hok (k & Hk & ->)%free_set_managed%elem_of_managed_set.
  destruct (paddr_for_idx_in s Hwf k Hk) as (m & o & Hm & -> & _ & Ho & _).
  destruct (locate_spec (mmap s) lo (4096 * k) m o Hok ltac:(lia) Hm) as (?&_). lia.
Qed.

(** With an allocator over regions above the kernel's tables, the page tables
    are those every other theorem starts from. *)
Lemma boot_done lo s ms n :
  @services_wf frames (boot_ops ms n) s → frames_wf (pfa s) → mmap_ok lo (mmap (pfa s)) →
  kernel_pt s + 4096 <= lo ∧ kernel_pdt s + 4096 <= lo →
  (∀ idx, 768 <= idx < 1024 → IS_ENTRY_PRESENT (ld (phys s) (kernel_pdt s + 4 * idx)) = true →
     hw_base (ld (phys s) (kernel_pdt s + 4 * idx)) + 4096 <= lo) →
  services_wf s.
Proof.
  intros ([] & [] & Ha) Hfr Hok Hlow Htab.
  assert (Hlive : ∀ a, hw_base a + 4096 <= lo → live s a).
  { intros a Hb Hin. pose proof (frames_above lo (pfa s) _ Hfr Hok Hin). lia. }
  assert (Hb : ∀ a, a mod 4096 = 0 → hw_base a = a)
    by (intros a E; unfold hw_base; Z.to_euclidean_division_equations; lia).
  split_and!; [|  |done].
  - split; try done; apply Hlive; rewrite ?Ha, Hb; lia.
  - split; try done. intros idx Hi Hp. destruct (kt_good idx Hi Hp) as (?&?&?&[]&?).
    split_and!; try done. apply Hlive. rewrite (Hb (hw_base _)); [by apply Htab|].
    unfold hw_base. apply Z.mod_mul. lia.
Qed.

(** What [construct_bitmap] has done with the regions [ms]: the allocator is
    well-formed, and each bit is as the bytes written say. *)
Definition bitmap_built (ms : list memory_map) (s : frames) : Prop :=
  let n := total ms / 4096 - bitmap_pages (total ms / 4096) in
  let size := (n + 7) / 8 in
  frames_wf s ∧ nbits (page_frames s) = n ∧
  (∃ p, place_bitmap (bitmap_pages (total ms / 4096) * 4096) ms = Some (p, mmap s)) ∧
  ∀ k, 0 <= k < n → byte_index k < size →
    bit s k = if byte_index k <? size - 1 then true else k mod 8 <? n mod 8.

Lemma cells_built lo p n size old :
  mmap_ok lo (mmap p) → 0x100000 <= lo → total (mmap p) = 4096 * n → nbits (page_frames p) = n → 0 < n →
  size = (n + 7) / 8 → size <= 4 * Z.of_nat (length old) → Forall (λ c, is_u32 c) old →
  let p' := set_start (new_cells size n old) p in
  frames_wf p' ∧ ∀ k, 0 <= k < n → byte_index k < size →
    bit p' k = if byte_index k <? size - 1 then true else k mod 8 <? n mod 8.
Proof.
  intros Hok Hlo Ht Hnb Hn Hsz Hlen Hold p'.
  assert (H0 : 0 < size) by (subst size; Z.to_euclidean_division_equations; lia).
  destruct (new_cells_ok size n old) as (Hl & Hu & Hbits); [lia..|]. split.
  - split; simpl; rewrite ?Hl; auto; try lia; [|by apply (mmap_ok_weaken lo)].
    subst size. Z.to_euclidean_division_equations; lia.
  - intros k Hk Hb. rewrite bit_bytebit by lia.
    assert (Hi : 0 <= byte_index k) by (unfold byte_index; Z.to_euclidean_division_equations; lia).
    pose proof (Z.mod_pos_bound k 8 ltac:(lia)).
    change (start (page_frames p')) with (new_cells size n old). rewrite Hbits by lia.
    destruct (Z.ltb_spec (byte_index k) (size - 1)); [done|].
    destruct (Z.eqb_spec (byte_index k) (size - 1)); [|lia]. f_equal. lia.
Qed.

(** A memory map with room for its bitmap has some frames, and less than 4 GB. *)
Lemma total_pages lo ms :
  mmap_ok lo ms → 0 <= lo → bitmap_pages (total ms / 4096) < total ms / 4096 →
  (∃ m, m ∈ ms ∧ bitmap_pages (total ms / 4096) * 4096 <= len m) →
  0 < total ms / 4096 < 1048576 ∧ total ms = 4096 * (total ms / 4096).
Proof.
  intros Hok Hlo Hlt Hplace. pose proof (total_aligned ms lo Hok). pose proof (total_nonneg ms lo Hok).
  destruct (total_bound ms lo Hok) as [->|?]; [by destruct Hplace as (m & Hm%not_elem_of_nil & _)|].
  set (T := total ms / 4096) in *.
  assert (0 < T); [|unfold T in *; Z.to_euclidean_division_equations; lia].
  destruct (Z.le_gt_cases T 0) as [HT0|]; [|done]. exfalso.
  assert (T = 0) as E by (unfold T in *; Z.to_euclidean_division_equations; lia).
  rewrite E in Hlt. by vm_compute in Hlt.
Qed.

(** The tables named, and the addresses mapped, that [frames_init] does not touch. *)
Definition keeps_tables (s s' : paging frames) : Prop :=
  kernel_pdt s' = kernel_pdt s ∧
  (∀ idx, 768 <= idx < 1024 → IS_ENTRY_PRESENT (ld (phys s) (kernel_pdt s + 4 * idx)) = false →
     IS_ENTRY_PRESENT (ld (phys s') (kernel_pdt s + 4 * idx)) = false) ∧
  ∀ a, kernel_mapped s a = true → kernel_mapped s' a = true.

Lemma construct_bitmap_ok lo s ms :
  boot_state lo s → mmap (pfa s) = ms → mmap_ok lo ms → 0x100000 <= lo →
  bitmap_pages (total ms / 4096) < total ms / 4096 →
  (∃ m, m ∈ ms ∧ bitmap_pages (total ms / 4096) * 4096 <= len m) →
  ∃ s', construct_bitmap s = Ok (0, s') ∧ services_wf s' ∧ bitmap_built ms (pfa s') ∧ keeps_tables s s'.
Proof.
  intros [Hsv Hlow Htab (k0 & Hk0 & Hk32 & Hvac)] Ems Hok Hlo Hlt Hplace.
  pose proof (total_pages lo ms Hok ltac:(lia) Hlt Hplace) as HT. set (T := total ms / 4096) in *.
  destruct HT as [HT Htot]. set (B := bitmap_pages T) in *.
  destruct (bitmap_sizes T (T - B) (div_ceil (T - B) 8) HT Hlt eq_refl eq_refl)
    as (HB & Esub & Emul & Esz & Hsz & Hal & Halm). fold B in Esub, Emul.
  set (n := T - B) in *. set (size := div_ceil n 8) in *.
  destruct (place_bitmap_ok (B * 4096) ms lo Hok ltac:(lia) ltac:(lia) ltac:(by apply Z.mod_mul) Hplace)
    as (p & ms' & Epl & Hok' & Ht' & Hp & Hpa & Hp4).
  set (p1 := Frames (PageFrameBitmap (start (page_frames (pfa s))) n) ms' (klog (pfa s))).
  set (s1 := set_pfa p1 s).
  assert (Hsv1 : @services_wf frames (boot_ops ms' n) s1) by exact (boot_services _ _ ms' n p1 s Hsv eq_refl eq_refl).
  assert (Hnum : align_up size 4096 / 4096 <= 32) by (Z.to_euclidean_division_equations; lia).
  destruct (boot_find_map ms' n s1 size p PAGING_PL0 PAGING_READ_WRITE k0 Hsv1 ltac:(lia) ltac:(lia) Hpa Hk0
    ltac:(lia)) as (v & s2 & s3 & E2 & E3 & Hsv3 & Hv & Hva & Hve & Hw & Epdt & Ept & Etab & Hmap).
  { intros j Hj. apply Hvac. lia. }
  destruct (load_words_ok s3 (Z.to_nat (align_up size 4096 / 4)) v) as (old & E4 & Hold & Hu).
  { apply Hsv3. } { Z.to_euclidean_division_equations; lia. } { lia. }
  { Z.to_euclidean_division_equations; lia. }
  { intros a Ha. apply Hw. Z.to_euclidean_division_equations; lia. }
  destruct Hsv3 as (Hwf3 & Hkt3 & Ha3). pose proof (kw_frames _ Hwf3) as [Em3 En3].
  destruct (cells_built lo (pfa s3) n size old) as [Hfw Hbits]; rewrite ?Em3; try done; try lia.
  { rewrite Hold. Z.to_euclidean_division_equations; lia. }
  eexists. split; [|split; [|split]].
  - unfold construct_bitmap. rewrite (bind_ok _ _ s ms s) by (unfold gets; by rewrite Ems).
    rewrite (total_pfs_ok lo ms Hok ltac:(lia)). fold T. change (div_ceil (div_ceil T 8) FOUR_KB) with B.
    change FOUR_KB with 4096. cbv zeta. change (T - B) with n. rewrite Emul, Epl, Esub. fold size.
    rewrite (bind_ok _ _ s tt (set_mmap ms' s)) by done.
    rewrite (bind_ok _ _ (set_mmap ms' s) tt s1) by done.
    rewrite (bind_ok _ _ _ _ _ E2). destruct (Z.eqb_spec v 0); [lia|].
    rewrite (bind_ok _ _ _ _ _ E3). destruct (Z.ltb_spec (align_up size 4096) size); [lia|].
    rewrite (bind_ok _ _ _ _ _ E4). reflexivity.
  - apply (boot_done lo _ ms' n); simpl.
    + exact (boot_services _ _ ms' n (set_start (new_cells size n old) (pfa s3)) s3
        (conj Hwf3 (conj Hkt3 Ha3)) Em3 En3).
    + exact Hfw.
    + by rewrite Em3.
    + rewrite Epdt, Ept. exact Hlow.
    + intros idx Hi. rewrite Epdt. intros [Hpr ->]%Etab; [|done]. by apply Htab.
  - unfold bitmap_built. fold T B n. rewrite <- Esz. simpl. rewrite Em3.
    split_and!; [exact Hfw|exact En3|by exists p|exact Hbits].
  - split; [exact Epdt|]. split; [|exact Hmap]. intros idx Hi Hno.
    destruct (IS_ENTRY_PRESENT (ld (phys s3) (kernel_pdt s + 4 * idx))) eqn:Hp'; [|exact Hp'].
    destruct (Etab idx Hi Hp') as [Hyes _]. simpl in Hyes. congruence.
Qed.

(** ** [frames_init] *)

(** Reading memory does not depend on the allocator nor on the pointers. *)
Lemma load_same v w (s s' : paging frames) :
  load v s = Ok (w, s) → phys s' = phys s → cr3 s' = cr3 s → load v s' = Ok (w, s').
Proof.
  intros E Em Ec. revert E. unfold load, resolve, active, mbind, M_bind, gets, of_option, id. rewrite Em, Ec.
  destruct (v mod 4 =? 0); [|done]. destruct (walk _ _ _); [|done]. rewrite Em. by intros [= ->].
Qed.

Lemma entries_at_same (s s' : paging frames) a es last :
  entries_at s a es last → phys s' = phys s → cr3 s' = cr3 s → entries_at s' a es last.
Proof.
  intros H Em Ec. induction H as [|a e es last H1 H2 H3 H4]; constructor; try done;
    by apply (load_same _ _ s).
Qed.

(** ** The frames that are free after it *)

Lemma place_bitmap_keeps bytes ms p ms' m lo :
  mmap_ok lo ms → 0 <= lo → 0 <= bytes → place_bitmap bytes ms = Some (p, ms') → m ∈ ms → bytes < len m →
  ∃ m', m' ∈ ms' ∧ len m - bytes <= len m'.
Proof.
  revert lo p ms'. induction ms as [|m0 ms IH]; intros lo p ms' Hok Hlo Hb E Hm Hlt; [by apply not_elem_of_nil in Hm|].
  destruct Hok as (H1 & H2 & H3 & H4 & H5 & H6). cbn [place_bitmap] in E. destruct (Z.leb_spec bytes (len m0)).
  - injection E as _ <-. apply elem_of_cons in Hm as [->|Hm].
    + eexists. split; [by left|]. simpl. rewrite u32_small by lia. lia.
    + exists m. split; [by right|lia].
  - apply elem_of_cons in Hm as [->|Hm]; [lia|]. destruct (place_bitmap bytes ms) as [[p1 ms1]|] eqn:E1; [|done].
    injection E as _ <-. destruct (IH _ p1 ms1 H6 ltac:(lia) Hb eq_refl Hm Hlt) as (m' & ? & ?).
    exists m'. split; [by right|done].
Qed.

(** The first frame of a region. *)
Lemma locate_start ms lo m :
  mmap_ok lo ms → m ∈ ms → 0 < len m → ∃ k, 0 <= k ∧ locate ms (4096 * k) = Some (m, 0).
Proof.
  revert lo. induction ms as [|m0 ms IH]; intros lo Hok Hm Hp; [by apply not_elem_of_nil in Hm|].
  destruct Hok as (_ & _ & H3 & H4 & _ & H6). cbn [locate]. apply elem_of_cons in Hm as [->|Hm].
  - exists 0. split; [done|]. rewrite Z.mul_0_r. destruct (Z.ltb_spec 0 (len m0)); [done|lia].
  - destruct (IH _ H6 Hm Hp) as (k & Hk & E). exists (len m0 / 4096 + k).
    assert (Ek : 4096 * (len m0 / 4096 + k) = len m0 + 4096 * k) by (Z.to_euclidean_division_equations; lia).
    split; [Z.to_euclidean_division_equations; lia|]. rewrite Ek.
    destruct (Z.ltb_spec (len m0 + 4096 * k) (len m0)); [lia|]. rewrite <- E. f_equal. lia.
Qed.

Section built.
Context (ms : list memory_map) (p : frames) (Hb : bitmap_built ms p).

Lemma built_bit k : 0 <= k → k + 39 <= nbits (page_frames p) → bit p k = true.
Proof using Hb.
  destruct Hb as (Hwf & En & _ & Hbits). rewrite En. set (n := total ms / 4096 - _) in *. intros Hk Hkn.
  rewrite Hbits by (done || lia || (unfold byte_index; Z.to_euclidean_division_equations; lia)).
  destruct (Z.ltb_spec (byte_index k) ((n + 7) / 8 - 1)) as [|Hge]; [done|]. exfalso.
  unfold byte_index in Hge. Z.to_euclidean_division_equations; lia.
Qed.

(** The bits of the bitmap by their word: its last one is the word [(n - 1) / 32], and
    [c] bytes of it are written. *)
Lemma built_words k :
  let n := nbits (page_frames p) in
  let c := (n - 32 * ((n - 1) / 32) + 7) / 8 in
  0 <= k < n →
  (k < 32 * ((n - 1) / 32) → bit p k = true) ∧
  (32 * ((n - 1) / 32) <= k →
   (4 - c < k mod 32 / 8 → bit p k = true) ∧ (k mod 32 / 8 = 4 - c → bit p k = (k mod 8 <? n mod 8))).
Proof using Hb.
  destruct Hb as (Hwf & En & _ & Hbits). rewrite En. set (n := total ms / 4096 - _) in *. intros n' c Hk.
  specialize (Hbits k Hk). subst n'. clearbody n. clear En Hb. split; [|intros Hl; split].
  - intros Hlt. assert (Hi : byte_index k < (n + 7) / 8 - 1)
      by (unfold byte_index; Z.to_euclidean_division_equations; lia).
    rewrite Hbits by lia. by rewrite (proj2 (Z.ltb_lt _ _) Hi).
  - intros Hgt. assert (Hi : byte_index k < (n + 7) / 8 - 1)
      by (unfold c, byte_index in *; Z.to_euclidean_division_equations; lia).
    rewrite Hbits by lia. by rewrite (proj2 (Z.ltb_lt _ _) Hi).
  - intros E. assert (Hi : byte_index k = (n + 7) / 8 - 1)
      by (unfold c, byte_index in *; Z.to_euclidean_division_equations; lia).
    rewrite Hbits by lia. by rewrite Hi, Z.ltb_irrefl.
Qed.

(** All frames but the last 38 are free. *)
Lemma built_size (c : nat) : Z.of_nat c + 38 <= nbits (page_frames p) → (c <= size (free_set p))%nat.
Proof using Hb.
  intros Hc. pose proof Hb as (Hwf & _).
  set (l := paddr_for_idx p <$> seqZ 0 (Z.of_nat c)).
  assert (Hl : size (list_to_set l : gset Z) = c).
  { rewrite size_list_to_set; [unfold l; rewrite length_fmap, length_seqZ; lia|].
    apply (NoDup_fmap_2_strong (paddr_for_idx p)); [|apply NoDup_seqZ].
    intros i j Hi%elem_of_seqZ Hj%elem_of_seqZ E. apply (paddr_inj p Hwf) in E; lia. }
  rewrite <- Hl. apply subseteq_size. intros a. rewrite elem_of_list_to_set. unfold l.
  intros (k & -> & Hk%elem_of_seqZ)%list_elem_of_fmap. apply elem_of_free_set. exists k.
  split; [lia|]. split; [done|]. apply built_bit; lia.
Qed.

(** A region of [c] frames, 38 of which may be the last ones. *)
Lemma built_run m c :
  m ∈ mmap p → 0 < c → 4096 * (c + 38) <= len m → ∃ x, free_run p x c.
Proof using Hb.
  intros Hm Hc Hlen. pose proof Hb as (Hwf & _).
  destruct (locate_start (mmap p) _ m (wf_mmap _ Hwf) Hm ltac:(lia)) as (x & Hx & E).
  exists x. split; [done|]. split; [|exists m, 0; split; [done|lia]].
  intros y Hy. apply built_bit; [lia|].
  pose proof (locate_spec (mmap p) _ (4096 * x) _ _ (wf_mmap _ Hwf) ltac:(lia) E) as (_&_&_&_&_&_&?&_).
  pose proof (wf_nbits _ Hwf). lia.
Qed.
End built.

Lemma frames_init_ok lo (s : paging frames) minfo kps kpe kvs kve kpdt kpt flags entry len es fuel :
  let ms := align_region <$> kept kps kpe es in
  boot_state lo (set_kernel_tables kpdt kpt s) → 0x100000 <= lo →
  minfo_flags minfo s = Ok (flags, s) → Z.testbit flags 6 = true →
  minfo_mmap_addr minfo s = Ok (entry, s) → minfo_mmap_length minfo s = Ok (len, s) →
  entries_at s entry es (entry +ᵤ len) → (length es < fuel)%nat →
  Z.of_nat (length es) <= MAX_NUM_MEMORY_MAP → regions_ok lo (kept kps kpe es) →
  bitmap_pages (total ms / 4096) < total ms / 4096 →
  (∃ m, m ∈ ms ∧ bitmap_pages (total ms / 4096) * 4096 <= Frames.len m) →
  ∃ s', frames_init fuel kps kpe kvs kve kpdt kpt minfo s = Ok (tt, s') ∧
    services_wf s' ∧ bitmap_built ms (pfa s') ∧ keeps_tables (set_kernel_tables kpdt kpt s) s'.
Proof.
  intros ms Hb Hlo Hf Hbit Ha Hl Hes Hfuel Hn Hreg Hlt Hplace. unfold frames_init.
  set (p3 := Frames (page_frames (pfa s)) (mmap (pfa s))
    ((" Virtual:  [%X ... %X]\n", [kvs; kve]) :: (" Physical: [%X ... %X]\n", [kps; kpe]) ::
     ("Kernel Address:\n", []) :: klog (pfa s))).
  set (s1 := set_kernel_tables kpdt kpt (set_pfa p3 s)).
  assert (Hms : fill_memory_map fuel kps kpe minfo s1 = Ok (kept kps kpe es, s1)).
  { apply (fill_memory_map_ok s1 minfo kps kpe flags entry len es fuel); try done;
      first [by apply (load_same _ _ s)|by apply (entries_at_same s)]. }
  set (s2 := set_mmap ms s1).
  destruct (construct_bitmap_ok lo s2 ms) as (s' & E & Hsv & Hbuilt & Hkeep); try done.
  - destruct Hb as [Hsv Hlow Htab Hroom]. split; try done.
    exact (boot_services _ _ _ _ (pfa s2) _ Hsv eq_refl eq_refl).
  - apply align_regions_ok; [lia|done].
  - exists s'. split; [|by split].
    change ((ms ← fill_memory_map fuel kps kpe minfo;
      modify (set_mmap (align_region <$> ms)) ≫= λ _, construct_bitmap ≫= λ _, mret tt) s1 = Ok (tt, s')).
    rewrite (bind_ok _ _ _ _ _ Hms), (bind_ok _ _ s1 tt s2) by done. by rewrite (bind_ok _ _ _ _ _ E).
Qed.

(** C18: on a machine as boot.s leaves it, [frames_init] ends, and when the
    regions of GRUB's map are in order above the kernel's tables and one has room
    for the bitmap, it leaves the allocator and the page tables in the state
    every other theorem starts from, every bit of the bitmap being known; no table
    is added to the kernel's, and the addresses that were mapped still are. *)
Theorem frames_init_establishes lo (s : paging frames) minfo kps kpe kvs kve kpdt kpt flags entry len es fuel :
  let ms := align_region <$> kept kps kpe es in
  boot_state lo (set_kernel_tables kpdt kpt s) → 0x100000 <= lo →
  minfo_flags minfo s = Ok (flags, s) → Z.testbit flags 6 = true →
  minfo_mmap_addr minfo s = Ok (entry, s) → minfo_mmap_length minfo s = Ok (len, s) →
  entries_at s entry es (entry +ᵤ len) → (length es < fuel)%nat →
  Z.of_nat (length es) <= MAX_NUM_MEMORY_MAP → regions_ok lo (kept kps kpe es) →
  bitmap_pages (total ms / 4096) < total ms / 4096 →
  (∃ m, m ∈ ms ∧ bitmap_pages (total ms / 4096) * 4096 <= Frames.len m) →
  ∃ s', frames_init fuel kps kpe kvs kve kpdt kpt minfo s = Ok (tt, s') ∧
    services_wf s' ∧ bitmap_built ms (pfa s') ∧ keeps_tables (set_kernel_tables kpdt kpt s) s'.
Proof. intros ms. by apply frames_init_ok. Qed.

(** C19: of the [n] frames the bitmap is made for, all before its last word are free at
    the start. In the last word the code sets bytes from the lowest address on, where the
    bits of the highest frames are: of the [c] bytes written, those above the lowest
    frames are free, and in the last one written as many as [n] has beyond a multiple of
    8, none when there is nothing beyond. So when [n] is a multiple of 32 the first
    eight frames of the last word can never be allocated, and the others are free. *)
Theorem construct_bitmap_loses_frames lo s ms :
  boot_state lo s → mmap (pfa s) = ms → mmap_ok lo ms → 0x100000 <= lo →
  bitmap_pages (total ms / 4096) < total ms / 4096 →
  (∃ m, m ∈ ms ∧ bitmap_pages (total ms / 4096) * 4096 <= len m) →
  ∃ s' n, construct_bitmap s = Ok (0, s') ∧ nbits (page_frames (pfa s')) = n ∧
    n = total ms / 4096 - bitmap_pages (total ms / 4096) ∧
    (∀ k, 0 <= k < 32 * ((n - 1) / 32) → bit (pfa s') k = true) ∧
    (let c := (n - 32 * ((n - 1) / 32) + 7) / 8 in
     ∀ k, 32 * ((n - 1) / 32) <= k < n →
       (4 - c < k mod 32 / 8 → bit (pfa s') k = true) ∧
       (k mod 32 / 8 = 4 - c → bit (pfa s') k = (k mod 8 <? n mod 8))) ∧
    (n mod 32 = 0 → (∀ k, n - 32 <= k < n - 24 → bit (pfa s') k = false) ∧
                    (∀ k, n - 24 <= k < n → bit (pfa s') k = true)).
Proof.
  intros Hb Em Hok Hlo Hlt Hplace.
  destruct (construct_bitmap_ok lo s ms Hb Em Hok Hlo Hlt Hplace) as (s' & E & _ & Hbuilt & _).
  pose proof (built_words ms (pfa s') Hbuilt) as Hw. cbv zeta in Hw. destruct Hbuilt as (_ & En & _ & _).
  pose proof (total_pages lo ms Hok ltac:(lia) Hlt Hplace) as [_ _]. rewrite En in Hw.
  set (n := total ms / 4096 - _) in *. assert (Hn : 0 < n) by lia. clearbody n.
  exists s', n. split; [done|]. split; [done|]. split; [done|].
  split; [|split]; [intros k Hk; apply (proj1 (Hw k ltac:(clear - Hk Hn; Z.to_euclidean_division_equations; lia))), Hk| |].
  { intros c k Hk. apply (proj2 (Hw k ltac:(clear - Hk Hn; Z.to_euclidean_division_equations; lia))), Hk. }
  intros Hm. assert (E32 : 32 * ((n - 1) / 32) = n - 32 ∧ 32 <= n) by (clear - Hm Hn; Z.to_euclidean_division_equations; lia).
  destruct E32 as [E32 H32]. rewrite E32 in Hw. replace (n - (n - 32) + 7) with 39 in Hw by lia. change (39 / 8) with 4 in Hw.
  split; intros k Hk; destruct (Hw k ltac:(lia)) as [_ H]; specialize (H ltac:(lia)).
  - rewrite (proj2 H) by (clear - Hm Hk; Z.to_euclidean_division_equations; lia). apply Z.ltb_ge.
    clear - Hm. Z.to_euclidean_division_equations; lia.
  - apply H. clear - Hm Hk. Z.to_euclidean_division_equations; lia.
Qed.

(** ** The concrete machine at boot *)

Lemma boot_pde idx :
  0 <= idx < 1024 →
  ld boot_words (0x101000 + 4 * idx)
  = if decide (idx = 0) then 0x8B else if decide (idx = 768) then 0x10200B else 0.
Proof.
  intros Hi. unfold boot_words. repeat case_decide; subst; try done.
  rewrite !ld_insert_ne by lia. unfold ld. by rewrite lookup_empty.
Qed.

Lemma boot_machine_state :
  boot_state 0x110000 (set_kernel_tables 0x101000 0x102000 boot_machine).
Proof.
  split.
  - split_and!; [| |done].
    + split; try done. intros a. simpl. unfold boot_words. rewrite !ld_insert.
      unfold ld. rewrite lookup_empty. repeat case_decide; simpl; lia.
    + split; try done. intros idx Hi. unfold good_pde. simpl. rewrite boot_pde by lia.
      repeat case_decide; [lia| |done]. intros _. subst. split_and!; done.
  - simpl. lia.
  - intros idx Hi. simpl. rewrite boot_pde by lia. repeat case_decide; [lia|done|done].
  - exists 1. split_and!; [lia|lia|]. intros j Hj. split; [|lia]. simpl.
    unfold boot_words. rewrite !ld_insert_ne by lia. unfold ld. by rewrite lookup_empty.
Qed.

Definition boot_regions : list memory_map := [MemoryMap 0x110000 0xDE1000].

Lemma frames_init_establishes_witness :
  ∃ s', frames_init 3 0x100000 0x110000 0xC0100000 0xC0110000 0x101000 0x102000 0x10000 boot_machine
    = Ok (tt, s') ∧ services_wf s' ∧ bitmap_built boot_regions (pfa s') ∧
    keeps_tables (set_kernel_tables 0x101000 0x102000 boot_machine) s'.
Proof.
  apply (frames_init_establishes 0x110000 boot_machine 0x10000 0x100000 0x110000 0xC0100000 0xC0110000
    0x101000 0x102000 0x40 0x10100 48 boot_entries 3); try reflexivity; try (simpl; lia).
  - apply boot_machine_state.
  - by apply boot_entries_at.
  - unfold MAX_NUM_MEMORY_MAP. simpl. lia.
  - vm_compute. intuition congruence.
  - exists (MemoryMap 0x110000 0xDE1000). split; [by left|by vm_compute].
Defined.

Lemma construct_bitmap_loses_frames_witness :
  ∃ s', construct_bitmap (set_mmap boot_regions (set_kernel_tables 0x101000 0x102000 boot_machine)) = Ok (0, s') ∧
    nbits (page_frames (pfa s')) = 3552 ∧ bit (pfa s') 0 = true ∧ bit (pfa s') 3520 = false.
Proof.
  destruct (construct_bitmap_loses_frames 0x110000
    (set_mmap boot_regions (set_kernel_tables 0x101000 0x102000 boot_machine)) boot_regions)
    as (s' & n & E & En & Hn & Hfree & _ & Hlost); try reflexivity; try (simpl; lia).
  - destruct boot_machine_state as [Hsv Hlow Htab Hroom]. split; try done.
    exact (boot_services _ _ _ _ _ _ Hsv eq_refl eq_refl).
  - by split_and!.
  - exists (MemoryMap 0x110000 0xDE1000). split; [by left|by vm_compute].
  - vm_compute in Hn. rewrite Hn in En, Hfree, Hlost. exists s'. refine (conj E (conj En (conj _ _))); clear E.
    + apply Hfree. split; [lia|by vm_compute].
    + apply (proj1 (Hlost eq_refl)). lia.
Defined.
