(* ===== verification/Tty.v ===== *)
(** * Tty: the console of kernel/arch/i386/tty.c

    The frame buffer of the text mode, two bytes a cell, the position of the
    cursor, and the bytes sent to the display's ports. An access outside of the
    frame buffer is a fault. *)

From S2P Require Import Prelude.

Definition TTY_NUM_COLS : Z := 80.
Definition TTY_NUM_ROWS : Z := 25.
Definition TTY_CURSOR_DATA_PORT : Z := 0x3D5.
Definition TTY_CURSOR_INDEX_PORT : Z := 0x3D4.
Definition TTY_HIGH_BYTE : Z := 14.
Definition TTY_LOW_BYTE : Z := 15.
Definition BLACK_ON_WHITE : Z := 0x0F.
Definition TTY_BACKSPACE_ASCII : Z := 8.

(** The characters ['\n'], ['\t'], [' '] and ['0']. *)
Definition NEWLINE : Z := 10.
Definition TAB : Z := 9.
Definition SPACE : Z := 32.
Definition ZERO : Z := 48.

(** ** State

    [fb] is the memory the pointer of the file leads to, [ports] what [outb] was
    called with, the latest first. *)
Record tty := Tty { fb : list Z; cursor_pos : Z; ports : list (Z * Z) }.

Definition set_fb (m : list Z) (s : tty) : tty := Tty m (cursor_pos s) (ports s).
Definition set_cursor_pos (c : Z) (s : tty) : tty := Tty (fb s) (u16 c) (ports s).

Definition outb (port value : Z) : M tty unit :=
  modify (λ s, Tty (fb s) (cursor_pos s) ((port, u8 value) :: ports s)).

Definition load (a : Z) : M tty Z := gets (λ s, fb s !! Z.to_nat a) ≫= of_option.
Definition store (a b : Z) : M tty unit :=
  load a ≫= λ _, modify (λ s, set_fb (<[Z.to_nat a := b]> (fb s)) s).

(** ** Cells. Addresses are relative to [fb]. *)

Definition TO_ADDRESS (row col : Z) : Z := u32 (2 * (row * TTY_NUM_COLS + col)).

Definition read_cell (row col : Z) : M tty Z := load (TO_ADDRESS row col).

Definition write_cell (cell b : Z) : M tty unit :=
  store cell b ≫= λ _, store (cell + 1) BLACK_ON_WHITE.

Definition write_at (b row col : Z) : M tty unit := write_cell (TO_ADDRESS row col) b.

(** ** The cursor *)

Definition set_cursor (loc : Z) : M tty unit :=
  outb TTY_CURSOR_INDEX_PORT TTY_HIGH_BYTE ≫= λ _,
  outb TTY_CURSOR_DATA_PORT (Z.shiftr loc 8) ≫= λ _,
  outb TTY_CURSOR_INDEX_PORT TTY_LOW_BYTE ≫= λ _,
  outb TTY_CURSOR_DATA_PORT loc.

Definition move_cursor_forward : M tty unit :=
  modify (λ s, set_cursor_pos (cursor_pos s + 1) s) ≫= λ _,
  c ← gets cursor_pos; set_cursor c.

Definition move_cursor_back : M tty unit :=
  c ← gets cursor_pos;
  if c =? 0 then mret tt
  else
    modify (λ s, set_cursor_pos (cursor_pos s - 1) s) ≫= λ _,
    c ← gets cursor_pos; set_cursor c.

Definition move_cursor_down : M tty unit :=
  modify (λ s, set_cursor_pos (cursor_pos s + TTY_NUM_COLS) s) ≫= λ _,
  c ← gets cursor_pos; set_cursor c.

Definition move_cursor_start : M tty unit :=
  modify (λ s, set_cursor_pos (cursor_pos s - cursor_pos s mod TTY_NUM_COLS) s) ≫= λ _,
  c ← gets cursor_pos; set_cursor c.

Definition tty_move_cursor (row col : Z) : M tty unit :=
  let loc := u16 (row * TTY_NUM_COLS + col) in
  modify (set_cursor_pos loc) ≫= λ _, set_cursor loc.

(** ** Output *)

Definition scroll : M tty unit :=
  for_each (seqZ 1 (TTY_NUM_ROWS - 1)) (λ r,
    for_each (seqZ 0 TTY_NUM_COLS) (λ c, b ← read_cell r c; write_at b (r - 1) c)) ≫= λ _,
  for_each (seqZ 0 TTY_NUM_COLS) (λ c, write_at SPACE (TTY_NUM_ROWS - 1) c).

(** The body of [tty_write_byte], over its recursive call. *)
Definition tty_write_byte_body (tty_write_byte : Z → M tty unit) (b : Z) : M tty unit :=
  (if negb (b =? NEWLINE) && negb (b =? TAB) && negb (b =? TTY_BACKSPACE_ASCII) then
     c ← gets cursor_pos; write_cell (2 * c) b
   else mret tt) ≫= λ _,
  (if b =? NEWLINE then move_cursor_down ≫= λ _, move_cursor_start
   else if b =? TTY_BACKSPACE_ASCII then
     move_cursor_back ≫= λ _, c ← gets cursor_pos; write_cell (2 * c) SPACE
   else if b =? TAB then for_each (seqZ 0 4) (λ _, tty_write_byte SPACE)
   else move_cursor_forward) ≫= λ _,
  c ← gets cursor_pos;
  if TTY_NUM_COLS * TTY_NUM_ROWS <=? c then scroll ≫= λ _, tty_move_cursor 24 0 else mret tt.

(** The function calls itself for the spaces of a tab only. *)
Definition tty_write_byte : Z → M tty unit :=
  tty_write_byte_body (tty_write_byte_body (λ _, out_of_fuel)).

(** A C string is the bytes before its terminator. *)
Definition tty_write_string (s : list Z) : M tty unit := for_each s tty_write_byte.

(** The characters of [s]. *)
Definition bytes_of (s : string) : list Z :=
  (λ c, Z.of_nat (Ascii.nat_of_ascii c)) <$> String.list_ascii_of_string s.

Definition tty_write_hex (n : Z) : M tty unit :=
  let chars := bytes_of "0123456789ABCDEF" in
  tty_write_string (bytes_of "0x") ≫= λ _,
  for_each (reverse (seqZ 0 8)) (λ i,
    let b := Z.land (Z.shiftr n (i * 4)) 0x0F in
    c ← of_option (chars !! Z.to_nat b); tty_write_byte c).

(** [while (n > 0)]: the array and the index it leaves. *)
Fixpoint reverse_digits (fuel : nat) (n i : Z) (reversed : list Z) : M tty (list Z * Z) :=
  match fuel with
  | O => out_of_fuel
  | S fuel =>
    if 0 <? n then
      let i := i + 1 in
      of_option (reversed !! Z.to_nat i) ≫= λ _,
      reverse_digits fuel (n / 10) i (<[Z.to_nat i := n mod 10]> reversed)
    else mret (reversed, i)
  end.

(** A 32-bit number has at most ten digits. *)
Definition tty_write_int (n : Z) : M tty unit :=
  let chars := bytes_of "0123456789" in
  let reversed := replicate 10 0 in
  if n =? 0 then tty_write_byte ZERO
  else
    '(reversed, i) ← reverse_digits 11 n 0 reversed;
    for_each (reverse (seqZ 1 i)) (λ i,
      d ← of_option (reversed !! Z.to_nat i);
      c ← of_option (chars !! Z.to_nat d);
      tty_write_byte c).

Definition tty_clear : M tty unit :=
  for_each (seqZ 0 TTY_NUM_ROWS) (λ i,
    for_each (seqZ 0 TTY_NUM_COLS) (λ j, write_at SPACE i j)) ≫= λ _,
  tty_move_cursor 0 0.
