(* ===== verification/TtyFacts.v ===== *)
(** * TtyFacts: the console refines a screen of characters

    The abstract screen is the list of its 2000 characters and the position of
    the cursor. Each operation of tty.c does on the frame buffer what its abstract
    counterpart does on that list, and never leaves the buffer. *)

From S2P Require Import Prelude Tty.

Implicit Types (s : tty) (l : list Z) (b c i : Z).

(** ** The frame buffer *)

(** The frame buffer that shows the characters [l]. *)
Definition cells l : list Z := l ≫= λ b, [b; BLACK_ON_WHITE].

Lemma cells_length l : length (cells l) = (2 * length l)%nat.
Proof. induction l as [|b l IH]; [done|]. simpl. rewrite IH. lia. Qed.

Lemma cells_lookup l (i : nat) : cells l !! (2 * i)%nat = l !! i.
Proof.
  revert i. induction l as [|b l IH]; intros [|i]; try done.
  replace (2 * S i)%nat with (S (S (2 * i))) by lia. apply IH.
Qed.

Lemma cells_insert l rest b (i : nat) :
  (i < length l)%nat →
  <[S (2 * i) := BLACK_ON_WHITE]> (<[(2 * i)%nat := b]> (cells l ++ rest)) = cells (<[i := b]> l) ++ rest.
Proof.
  revert i. induction l as [|x l IH]; intros i Hi; simpl in Hi; [lia|]. destruct i as [|i]; [done|].
  replace (2 * S i)%nat with (S (S (2 * i))) by lia. simpl. f_equal. f_equal. apply IH. lia.
Qed.

Lemma cells_app l l' : cells (l ++ l') = cells l ++ cells l'.
Proof. apply bind_app. Qed.

(** [s] has the frame buffer [m] and the cursor at [c]. *)
Definition at_screen m c s : Prop := fb s = m ∧ cursor_pos s = c.

Lemma tty_load_ok s a b : fb s !! Z.to_nat a = Some b → load a s = Ok (b, s).
Proof.
  intros H. unfold load. rewrite (bind_ok _ _ s (fb s !! Z.to_nat a) s) by done. by rewrite H.
Qed.

Lemma tty_store_ok s a b :
  (Z.to_nat a < length (fb s))%nat → store a b s = Ok (tt, set_fb (<[Z.to_nat a := b]> (fb s)) s).
Proof.
  intros H. destruct (lookup_lt_is_Some_2 _ _ H) as [x Hx]. unfold store.
  by rewrite (bind_ok _ _ _ _ _ (tty_load_ok s a x Hx)).
Qed.

(** Writing a cell that is on the screen. *)
Lemma write_cell_ok s i b l rest :
  fb s = cells l ++ rest → 0 <= i < Z.of_nat (length l) →
  write_cell (2 * i) b s = Ok (tt, set_fb (cells (<[Z.to_nat i := b]> l) ++ rest) s).
Proof.
  intros Hs Hi. unfold write_cell.
  assert (Hlen : length (fb s) = (2 * length l + length rest)%nat) by (rewrite Hs, length_app, cells_length; lia).
  rewrite (bind_ok _ _ _ _ _ (tty_store_ok s (2 * i) b ltac:(lia))).
  rewrite tty_store_ok by (simpl; rewrite length_insert; lia). do 2 f_equal. unfold set_fb. simpl. f_equal.
  rewrite Hs. replace (Z.to_nat (2 * i + 1)) with (S (2 * Z.to_nat i)) by lia.
  replace (Z.to_nat (2 * i)) with (2 * Z.to_nat i)%nat by lia. apply cells_insert. lia.
Qed.

Lemma TO_ADDRESS_eq row col :
  0 <= row < 25 → 0 <= col < 80 → TO_ADDRESS row col = 2 * (row * 80 + col).
Proof. intros. unfold TO_ADDRESS, TTY_NUM_COLS. apply u32_small. lia. Qed.

Lemma write_at_ok s row col b l rest :
  fb s = cells l ++ rest → 0 <= row < 25 → 0 <= col < 80 → row * 80 + col < Z.of_nat (length l) →
  write_at b row col s = Ok (tt, set_fb (cells (<[Z.to_nat (row * 80 + col) := b]> l) ++ rest) s).
Proof.
  intros Hs Hr Hc Hl. unfold write_at. rewrite TO_ADDRESS_eq by done. apply write_cell_ok; [done|lia].
Qed.

Lemma read_cell_ok s row col b l rest :
  fb s = cells l ++ rest → 0 <= row < 25 → 0 <= col < 80 → l !! Z.to_nat (row * 80 + col) = Some b →
  read_cell row col s = Ok (b, s).
Proof.
  intros Hs Hr Hc Hb. unfold read_cell. rewrite TO_ADDRESS_eq by done. apply tty_load_ok. rewrite Hs.
  replace (Z.to_nat (2 * (row * 80 + col))) with (2 * Z.to_nat (row * 80 + col))%nat by lia.
  rewrite lookup_app_l; [by rewrite cells_lookup|]. rewrite cells_length.
  apply lookup_lt_Some in Hb. lia.
Qed.

(** ** The ports *)

(** What the display is told of a cursor at [c]. *)
Definition cursor_ports c : list (Z * Z) :=
  [(TTY_CURSOR_DATA_PORT, c mod 256); (TTY_CURSOR_INDEX_PORT, TTY_LOW_BYTE);
   (TTY_CURSOR_DATA_PORT, c / 256); (TTY_CURSOR_INDEX_PORT, TTY_HIGH_BYTE)].

Definition to_display (w : Z * Z) : bool :=
  (w.1 =? TTY_CURSOR_DATA_PORT) || (w.1 =? TTY_CURSOR_INDEX_PORT).

(** The last the display was told is where the cursor is. *)
Definition synced s : Prop := take 4 (filter to_display (ports s)) = cursor_ports (cursor_pos s).

Lemma set_cursor_ok s c :
  is_u16 c → set_cursor c s = Ok (tt, Tty (fb s) (cursor_pos s) (cursor_ports c ++ ports s)).
Proof.
  intros Hc. unfold set_cursor, outb, modify, mbind, M_bind, cursor_ports. simpl. do 2 f_equal. f_equal.
  rewrite Z.shiftr_div_pow2 by lia. change (2 ^ 8) with 256. rewrite (u8_small (c / 256)); [done|].
  Z.to_euclidean_division_equations; lia.
Qed.

(** A step that moves the cursor to [c] and tells the display. *)
Lemma cursor_moved s (f : tty → tty) c :
  fb (f s) = fb s → cursor_pos (f s) = c → is_u16 c →
  ∃ s', (modify f ≫= λ _, c ← gets cursor_pos; set_cursor c) s = Ok (tt, s') ∧
    at_screen (fb s) c s' ∧ synced s'.
Proof.
  intros Hf Hc Hu. rewrite (bind_ok _ _ s tt (f s)) by done.
  rewrite (bind_ok _ _ (f s) (cursor_pos (f s)) (f s)) by done. rewrite Hc, set_cursor_ok by done.
  eexists. split; [done|]. unfold at_screen, synced. simpl. by rewrite Hc.
Qed.

Lemma forward_ok s c :
  cursor_pos s = c → 0 <= c < 65535 →
  ∃ s', move_cursor_forward s = Ok (tt, s') ∧ at_screen (fb s) (c + 1) s' ∧ synced s'.
Proof. intros Hc Hr. apply cursor_moved; simpl; rewrite ?Hc; try apply u16_small; done || lia. Qed.

Lemma down_ok s c :
  cursor_pos s = c → 0 <= c < 65000 →
  ∃ s', move_cursor_down s = Ok (tt, s') ∧ at_screen (fb s) (c + 80) s' ∧ synced s'.
Proof.
  intros Hc Hr. apply cursor_moved; simpl; rewrite ?Hc; unfold TTY_NUM_COLS; try apply u16_small; done || lia.
Qed.

Lemma start_ok s c :
  cursor_pos s = c → is_u16 c →
  ∃ s', move_cursor_start s = Ok (tt, s') ∧ at_screen (fb s) (c - c mod 80) s' ∧ synced s'.
Proof.
  intros Hc Hr. assert (0 <= c mod 80 <= c) by (Z.to_euclidean_division_equations; lia).
  apply cursor_moved; simpl; rewrite ?Hc; unfold TTY_NUM_COLS; try apply u16_small; done || lia.
Qed.

Lemma back_ok s c :
  cursor_pos s = c → is_u16 c → synced s →
  ∃ s', move_cursor_back s = Ok (tt, s') ∧ at_screen (fb s) (Z.max 0 (c - 1)) s' ∧ synced s'.
Proof.
  intros Hc Hr Hs. unfold move_cursor_back. rewrite (bind_ok _ _ s c s) by (unfold gets; by rewrite Hc).
  destruct (Z.eqb_spec c 0) as [->|Hne]; [by exists s|].
  apply cursor_moved; simpl; rewrite ?Hc; [done| |lia]. rewrite u16_small by lia. lia.
Qed.

Lemma move_ok s row col :
  0 <= row < 25 → 0 <= col < 80 →
  ∃ s', tty_move_cursor row col s = Ok (tt, s') ∧ at_screen (fb s) (row * 80 + col) s' ∧ synced s'.
Proof.
  intros Hr Hc. unfold tty_move_cursor, TTY_NUM_COLS. cbv zeta. rewrite (u16_small (_ + _)) by lia.
  rewrite (bind_ok _ _ s tt (set_cursor_pos (row * 80 + col) s)) by done. rewrite set_cursor_ok by lia.
  eexists. split; [done|]. unfold at_screen, synced. simpl. by rewrite u16_small by lia.
Qed.

(** ** Scrolling *)

(** The screen moved up by a row. *)
Definition scrolled l : list Z := drop 80 l ++ replicate 80 SPACE.

(** The screen with its first [k] characters already moved. *)
Definition half_scrolled (k : nat) l : list Z := take k (drop 80 l) ++ drop k l.

Lemma half_scrolled_step (k : nat) l b :
  (length l = 2000)%nat → (k < 1920)%nat → l !! (k + 80)%nat = Some b →
  <[k := b]> (half_scrolled k l) = half_scrolled (S k) l.
Proof.
  intros Hl Hk Hb. unfold half_scrolled.
  assert (Ht : length (take k (drop 80 l)) = k) by (rewrite length_take, length_drop; lia).
  rewrite insert_app_r_alt by lia. rewrite Ht, Nat.sub_diag.
  destruct (lookup_lt_is_Some_2 l k ltac:(lia)) as [x Hx].
  rewrite (drop_S l x k Hx). simpl.
  assert (Hd : drop 80 l !! k = Some b) by (rewrite lookup_drop; by rewrite Nat.add_comm).
  by rewrite (take_S_r _ _ _ Hd), <- app_assoc.
Qed.

Lemma half_scrolled_length (k : nat) l :
  (length l = 2000)%nat → (k <= 1920)%nat → length (half_scrolled k l) = 2000%nat.
Proof.
  intros Hl Hk. unfold half_scrolled. rewrite length_app, length_take, !length_drop. lia.
Qed.

Lemma half_scrolled_lookup (k i : nat) l :
  (length l = 2000)%nat → (k <= 1920)%nat → (k <= i)%nat → half_scrolled k l !! i = l !! i.
Proof.
  intros Hl Hk Hi. unfold half_scrolled.
  rewrite lookup_app_r by (rewrite length_take, length_drop; lia).
  rewrite length_take, length_drop, lookup_drop. f_equal. lia.
Qed.

(** A loop over [n] indices from [a] on, by an invariant on the frame buffer. *)
Lemma for_fb (P : Z → list Z) (body : Z → M tty unit) (n : nat) : ∀ a s,
  fb s = P a →
  (∀ i s, a <= i < a + Z.of_nat n → fb s = P i → body i s = Ok (tt, set_fb (P (i + 1)) s)) →
  for_each (seqZ a (Z.of_nat n)) body s = Ok (tt, set_fb (P (a + Z.of_nat n)) s).
Proof.
  induction n as [|n IH]; intros a s Hs Hbody.
  { rewrite Z.add_0_r, <- Hs. by destruct s. }
  rewrite seqZ_step by lia. replace (Z.of_nat (S n) - 1) with (Z.of_nat n) by lia. cbn [for_each].
  rewrite (bind_ok _ _ _ _ _ (Hbody a s ltac:(lia) Hs)). rewrite IH; [|done|intros; apply Hbody; [lia|done]].
  by replace (a + 1 + Z.of_nat n) with (a + Z.of_nat (S n)) by lia.
Qed.

(** The same on the characters shown. *)
Lemma for_screen (P : Z → list Z) (body : Z → M tty unit) (n : nat) a s :
  fb s = cells (P a) →
  (∀ i s, a <= i < a + Z.of_nat n → fb s = cells (P i) →
     body i s = Ok (tt, set_fb (cells (P (i + 1))) s)) →
  for_each (seqZ a (Z.of_nat n)) body s = Ok (tt, set_fb (cells (P (a + Z.of_nat n))) s).
Proof. exact (for_fb (λ i, cells (P i)) body n a s). Qed.

Lemma scroll_row_ok r l s :
  length l = 2000%nat → 1 <= r < 25 → fb s = cells (half_scrolled (Z.to_nat ((r - 1) * 80)) l) →
  for_each (seqZ 0 TTY_NUM_COLS) (λ c, b ← read_cell r c; write_at b (r - 1) c) s
  = Ok (tt, set_fb (cells (half_scrolled (Z.to_nat (r * 80)) l)) s).
Proof.
  intros Hl Hr Hs. set (P := λ c, half_scrolled (Z.to_nat ((r - 1) * 80 + c)) l).
  change TTY_NUM_COLS with (Z.of_nat 80).
  rewrite (for_screen P _ 80 0).
  - unfold P. do 3 f_equal. f_equal. f_equal. lia.
  - unfold P. by rewrite Z.add_0_r.
  - clear s Hs. intros c s Hc Hs. unfold P in *. set (k := Z.to_nat ((r - 1) * 80 + c)) in *.
    destruct (lookup_lt_is_Some_2 l (k + 80)%nat ltac:(unfold k; lia)) as [b Hb].
    assert (Hb' : half_scrolled k l !! Z.to_nat (r * 80 + c) = Some b).
    { rewrite half_scrolled_lookup by (done || (unfold k; lia)). rewrite <- Hb. f_equal. unfold k. lia. }
    rewrite <- (app_nil_r (cells _)) in Hs.
    rewrite (bind_ok _ _ _ _ _ (read_cell_ok s r c b _ _ Hs ltac:(lia) ltac:(lia) Hb')).
    rewrite (write_at_ok s (r - 1) c b _ _ Hs ltac:(lia) ltac:(lia))
      by (rewrite half_scrolled_length by (done || (unfold k; lia)); lia).
    fold k. rewrite app_nil_r, (half_scrolled_step k l b Hl) by (done || (unfold k; lia)).
    do 4 f_equal. f_equal. unfold k. lia.
Qed.

Lemma scroll_ok l s :
  length l = 2000%nat → fb s = cells l → scroll s = Ok (tt, set_fb (cells (scrolled l)) s).
Proof.
  intros Hl Hs. unfold scroll.
  set (P := λ r, half_scrolled (Z.to_nat ((r - 1) * 80)) l).
  change (TTY_NUM_ROWS - 1) with (Z.of_nat 24).
  erewrite bind_ok.
  2: { apply (for_screen P _ 24 1); [unfold P; by rewrite Hs|].
       intros r s' Hr Hs'. unfold P in *. rewrite (scroll_row_ok r l) by (done || lia).
       by replace (r + 1 - 1) with r by lia. }
  set (s1 := set_fb _ s). change (1 + Z.of_nat 24) with 25 in *.
  set (Q := λ c, drop 80 l ++ replicate (Z.to_nat c) SPACE ++ drop (1920 + Z.to_nat c) l).
  change TTY_NUM_COLS with (Z.of_nat 80).
  rewrite (for_screen Q _ 80 0).
  - assert (HQ : Q (0 + Z.of_nat 80) = scrolled l).
    { unfold Q, scrolled. rewrite (drop_ge l (1920 + _)) by lia. rewrite app_nil_r. do 2 f_equal. }
    by rewrite HQ.
  - assert (HP : P 25 = Q 0); [|by unfold s1; rewrite <- HP].
    unfold P, Q, half_scrolled. rewrite take_ge by (rewrite length_drop; lia). do 2 f_equal.
  - clear s1. change (Z.of_nat 24) with 24. intros c s1 Hc Hs1. rewrite <- (app_nil_r (cells _)) in Hs1.
    rewrite (write_at_ok s1 24 c SPACE _ _ Hs1 ltac:(lia) ltac:(lia)), app_nil_r.
    + do 4 f_equal. unfold Q. replace (Z.to_nat (24 * 80 + c)) with (1920 + Z.to_nat c)%nat by lia.
      rewrite insert_app_r_alt by (rewrite length_drop; lia).
      rewrite length_drop, Hl, insert_app_r_alt by (rewrite length_replicate; lia).
      rewrite length_replicate. replace (1920 + Z.to_nat c - (2000 - 80) - Z.to_nat c)%nat with 0%nat by lia.
      destruct (lookup_lt_is_Some_2 l (1920 + Z.to_nat c)%nat ltac:(lia)) as [x Hx].
      rewrite (drop_S l x _ Hx). simpl. replace (Z.to_nat (c + 1)) with (S (Z.to_nat c)) by lia.
      rewrite replicate_S_end, <- app_assoc. done.
    + unfold Q. rewrite !length_app, length_replicate, !length_drop. lia.
Qed.

(** ** Clearing *)

(** A buffer [m] whose first [k] cells are blank. *)
Definition half_cleared (m : list Z) (k : Z) : list Z :=
  cells (replicate (Z.to_nat k) SPACE) ++ drop (2 * Z.to_nat k) m.

Lemma half_cleared_step m k :
  0 <= k → 2 * k + 1 < Z.of_nat (length m) →
  <[Z.to_nat (2 * k + 1) := BLACK_ON_WHITE]> (<[Z.to_nat (2 * k) := SPACE]> (half_cleared m k))
  = half_cleared m (k + 1).
Proof.
  intros Hk Hm. unfold half_cleared.
  replace (Z.to_nat (2 * k + 1)) with (S (2 * Z.to_nat k)) by lia.
  replace (Z.to_nat (2 * k)) with (2 * Z.to_nat k)%nat by lia.
  replace (Z.to_nat (k + 1)) with (S (Z.to_nat k)) by lia.
  set (j := Z.to_nat k) in *.
  assert (Hlen : length (cells (replicate j SPACE)) = (2 * j)%nat) by (by rewrite cells_length, length_replicate).
  rewrite !insert_app_r_alt by lia. rewrite Hlen, Nat.sub_diag. replace (S (2 * j) - 2 * j)%nat with 1%nat by lia.
  destruct (lookup_lt_is_Some_2 m (2 * j)%nat ltac:(unfold j; lia)) as [x Hx].
  destruct (lookup_lt_is_Some_2 m (S (2 * j)) ltac:(unfold j; lia)) as [y Hy].
  rewrite (drop_S m x _ Hx), (drop_S m y _ Hy). replace (2 * S j)%nat with (S (S (2 * j))) by lia.
  rewrite replicate_S_end, cells_app, <- app_assoc. done.
Qed.

Lemma clear_cell_ok m row col s :
  length m = 4000%nat → 0 <= row < 25 → 0 <= col < 80 → fb s = half_cleared m (row * 80 + col) →
  write_at SPACE row col s = Ok (tt, set_fb (half_cleared m (row * 80 + (col + 1))) s).
Proof.
  intros Hm Hr Hc Hs. unfold write_at, write_cell. rewrite TO_ADDRESS_eq by done.
  assert (Hlen : length (fb s) = 4000%nat).
  { rewrite Hs. unfold half_cleared. rewrite length_app, cells_length, length_replicate, length_drop. lia. }
  rewrite (bind_ok _ _ _ _ _ (tty_store_ok s (2 * (row * 80 + col)) SPACE ltac:(lia))).
  rewrite tty_store_ok by (simpl; rewrite length_insert; lia). do 2 f_equal. unfold set_fb. simpl. f_equal.
  rewrite Hs, half_cleared_step by lia. f_equal. lia.
Qed.

Lemma tty_clear_ok s :
  length (fb s) = 4000%nat →
  ∃ s', tty_clear s = Ok (tt, s') ∧ at_screen (cells (replicate 2000 SPACE)) 0 s' ∧ synced s'.
Proof.
  intros Hm. unfold tty_clear. change TTY_NUM_ROWS with (Z.of_nat 25). change TTY_NUM_COLS with (Z.of_nat 80).
  set (m := fb s) in *. erewrite bind_ok.
  2: { apply (for_fb (λ r, half_cleared m (r * 80)) _ 25 0 s); [done|].
       intros r s1 Hr Hs1. rewrite (for_fb (λ c, half_cleared m (r * 80 + c)) _ 80 0 s1).
       - by replace ((r + 1) * 80) with (r * 80 + (0 + Z.of_nat 80)) by lia.
       - by rewrite Hs1, Z.add_0_r.
       - intros c s2 Hc Hs2. apply clear_cell_ok; done || lia. }
  assert (Hfb : half_cleared m ((0 + Z.of_nat 25) * 80) = cells (replicate 2000 SPACE)).
  { unfold half_cleared. rewrite drop_ge by lia. by rewrite app_nil_r. }
  rewrite Hfb. destruct (move_ok (set_fb (cells (replicate 2000 SPACE)) s) 0 0) as (s'&He&H); [lia..|eauto].
Qed.
