(* ===== verification/TtySpec.v ===== *)
(** * TtySpec: the correctness of the console

    The abstract console is a screen of 2000 characters and the position of its
    cursor. The theorems state that tty.c implements it, and what its two number
    printers write. *)

From S2P Require Import Prelude Tty TtyFacts.

Implicit Types (s : tty) (l : list Z) (b c n : Z).

(** ** The abstract console *)

Abbreviation screen := (list Z * Z)%type.

Definition blank : screen := (replicate 2000 SPACE, 0).

(** A position below the last row scrolls the screen. *)
Definition settle (p : screen) : screen :=
  if 2000 <=? p.2 then (scrolled p.1, 1920) else p.

(** A character that is not a tab. *)
Definition put_char b (p : screen) : screen :=
  let '(l, c) := p in
  settle
    (if b =? NEWLINE then (l, c - c mod 80 + 80)
     else if b =? TTY_BACKSPACE_ASCII then
       (<[Z.to_nat (Z.max 0 (c - 1)) := SPACE]> l, Z.max 0 (c - 1))
     else (<[Z.to_nat c := b]> l, c + 1)).

Definition put b (p : screen) : screen :=
  if b =? TAB then Nat.iter 4 (put_char SPACE) p else put_char b p.

Definition put_all (bs : list Z) (p : screen) : screen := foldl (λ p b, put b p) p bs.

Definition on_screen (p : screen) : Prop := length p.1 = 2000%nat ∧ 0 <= p.2 < 2000.

(** [s] shows [p]: its frame buffer, its cursor and the cursor of the display. *)
Definition shows (p : screen) s : Prop := on_screen p ∧ at_screen (cells p.1) p.2 s ∧ synced s.

Lemma settle_on_screen p : length p.1 = 2000%nat → 0 <= p.2 → on_screen (settle p).
Proof.
  intros Hl Hc. unfold settle. destruct (Z.leb_spec 2000 p.2); [|done].
  split; [|simpl; lia]. simpl. unfold scrolled. rewrite length_app, length_drop, length_replicate. lia.
Qed.

(** ** Refinement *)

(** The end of [tty_write_byte]. *)
Lemma settle_ok s l c :
  length l = 2000%nat → 0 <= c → at_screen (cells l) c s → synced s →
  ∃ s', (c ← gets cursor_pos;
         if TTY_NUM_COLS * TTY_NUM_ROWS <=? c then scroll ≫= λ _, tty_move_cursor 24 0 else mret tt) s
        = Ok (tt, s') ∧ shows (settle (l, c)) s'.
Proof.
  intros Hl Hc [Hf Hp] Hs. rewrite (bind_ok _ _ s c s) by (unfold gets; by rewrite Hp).
  change (TTY_NUM_COLS * TTY_NUM_ROWS) with 2000.
  assert (Ho := settle_on_screen (l, c) Hl Hc). unfold shows. revert Ho. unfold settle. simpl.
  destruct (Z.leb_spec 2000 c) as [Hge|Hlt]; intros Ho; [|by exists s].
  rewrite (bind_ok _ _ _ _ _ (scroll_ok l s Hl Hf)).
  destruct (move_ok (set_fb (cells (scrolled l)) s) 24 0) as (s'&He&Ha&Hs'); [lia..|]. by exists s'.
Qed.

Lemma put_char_ok (rec : Z → M tty unit) b p s :
  b ≠ TAB → shows p s → ∃ s', tty_write_byte_body rec b s = Ok (tt, s') ∧ shows (put_char b p) s'.
Proof.
  destruct p as [l c]. intros Ht ((Hl&Hc)&[Hf Hp]&Hs). simpl in *. unfold tty_write_byte_body, put_char.
  rewrite (proj2 (Z.eqb_neq b TAB) Ht), andb_true_r. rewrite <- (app_nil_r (cells l)) in Hf.
  destruct (Z.eqb_spec b NEWLINE) as [->|Hn]; simpl.
  - rewrite (bind_ok _ _ s tt s) by done.
    destruct (down_ok s c Hp ltac:(lia)) as (s1&E1&[Hf1 Hp1]&_).
    destruct (start_ok s1 (c + 80) Hp1 ltac:(lia)) as (s2&E2&[Hf2 Hp2]&Hs2).
    rewrite (bind_ok _ _ s tt s2) by (by rewrite (bind_ok _ _ _ _ _ E1)).
    assert (Hm : c + 80 - (c + 80) mod 80 = c - c mod 80 + 80).
    { replace (c + 80) with (c + 1 * 80) at 2 by lia. rewrite Z.mod_add by lia. lia. }
    pose proof (Z.mod_pos_bound c 80 ltac:(lia)). pose proof (Z.mod_le c 80 ltac:(lia) ltac:(lia)).
    apply settle_ok; [done|lia| |done]. split; [|lia]. rewrite Hf2, Hf1, Hf. apply app_nil_r.
  - destruct (Z.eqb_spec b TTY_BACKSPACE_ASCII) as [->|Hb]; simpl.
    + rewrite (bind_ok _ _ s tt s) by done.
      destruct (back_ok s c Hp ltac:(lia) Hs) as (s1&E1&[Hf1 Hp1]&Hs1). rewrite Hf in Hf1.
      rewrite (bind_ok _ _ s tt (set_fb (cells (<[Z.to_nat (Z.max 0 (c - 1)) := SPACE]> l) ++ []) s1)).
      * rewrite app_nil_r. apply settle_ok; [by rewrite length_insert|lia|done|done].
      * rewrite (bind_ok _ _ _ _ _ E1), (bind_ok _ _ s1 (Z.max 0 (c - 1)) s1) by (unfold gets; by rewrite Hp1).
        apply write_cell_ok; [done|lia].
    + rewrite (bind_ok _ _ s tt (set_fb (cells (<[Z.to_nat c := b]> l) ++ []) s)).
      * destruct (Z.eqb_spec b TAB); [done|]. rewrite app_nil_r.
        destruct (forward_ok (set_fb (cells (<[Z.to_nat c := b]> l)) s) c Hp ltac:(lia)) as (s1&E1&Ha&Hs1).
        rewrite (bind_ok _ _ _ _ _ E1). apply settle_ok; [by rewrite length_insert|lia|done|done].
      * rewrite (bind_ok _ _ s c s) by (unfold gets; by rewrite Hp). apply write_cell_ok; [done|lia].
Qed.

Lemma put_ok b p s :
  shows p s → ∃ s', tty_write_byte b s = Ok (tt, s') ∧ shows (put b p) s'.
Proof.
  intros H. unfold put, tty_write_byte. destruct (Z.eqb_spec b TAB) as [->|]; [|by apply put_char_ok].
  unfold tty_write_byte_body at 1. simpl (if negb _ && _ && _ then _ else _).
  destruct (put_char_ok (λ _, out_of_fuel) SPACE p s) as (s1&E1&H1); [done..|].
  destruct (put_char_ok (λ _, out_of_fuel) SPACE _ s1 ltac:(done) H1) as (s2&E2&H2).
  destruct (put_char_ok (λ _, out_of_fuel) SPACE _ s2 ltac:(done) H2) as (s3&E3&H3).
  destruct (put_char_ok (λ _, out_of_fuel) SPACE _ s3 ltac:(done) H3) as (s4&E4&H4).
  exists s4. split; [|done]. destruct H4 as ([_ Hc]&[_ Hp]&_). rewrite <- Hp in Hc.
  rewrite (bind_ok _ _ s tt s) by done. rewrite (bind_ok _ _ s tt s4).
  - rewrite (bind_ok _ _ s4 (cursor_pos s4) s4) by done. change (TTY_NUM_COLS * TTY_NUM_ROWS) with 2000.
    by destruct (Z.leb_spec 2000 (cursor_pos s4)); [lia|].
  - change (seqZ 0 4) with [0; 1; 2; 3]. cbn [for_each].
    change (TAB =? NEWLINE) with false. change (TAB =? TTY_BACKSPACE_ASCII) with false. rewrite Z.eqb_refl. cbv iota.
    rewrite (bind_ok _ _ _ _ _ E1), (bind_ok _ _ _ _ _ E2), (bind_ok _ _ _ _ _ E3).
    by rewrite (bind_ok _ _ _ _ _ E4).
Qed.

Lemma put_all_ok bs : ∀ p s,
  shows p s → ∃ s', tty_write_string bs s = Ok (tt, s') ∧ shows (put_all bs p) s'.
Proof.
  induction bs as [|b bs IH]; intros p s H; [by exists s|].
  destruct (put_ok b p s H) as (s1&E1&H1). unfold tty_write_string. cbn [for_each].
  rewrite (bind_ok _ _ _ _ _ E1). by apply IH.
Qed.

(** ** Numbers *)

(** The characters of the digits up to fifteen. *)
Definition digit_char (d : Z) : Z := if d <? 10 then 48 + d else 55 + d.
Definition digit_value b : option Z :=
  if (48 <=? b) && (b <=? 57) then Some (b - 48)
  else if (65 <=? b) && (b <=? 70) then Some (b - 55) else None.

(** Reading a numeral. *)
Definition read_number (base : Z) (bs : list Z) : option Z :=
  foldl (λ a b, n ← a; d ← digit_value b; if d <? base then Some (n * base + d) else None) (Some 0) bs.

(** The [k] low digits of [n], the lowest first. *)
Fixpoint low_digits (base : Z) (k : nat) n : list Z :=
  match k with O => [] | S k => n mod base :: low_digits base k (n / base) end.

Definition numeral (base : Z) (k : nat) n : list Z := reverse (digit_char <$> low_digits base k n).

Lemma digit_round d : 0 <= d < 16 → digit_value (digit_char d) = Some d.
Proof.
  intros Hd. unfold digit_value, digit_char. destruct (Z.ltb_spec d 10).
  - destruct (Z.leb_spec 48 (48 + d)), (Z.leb_spec (48 + d) 57); try lia. simpl. f_equal. lia.
  - destruct (Z.leb_spec (55 + d) 57); [lia|]. rewrite andb_false_r.
    destruct (Z.leb_spec 65 (55 + d)), (Z.leb_spec (55 + d) 70); try lia. simpl. f_equal. lia.
Qed.

Lemma read_numeral base k : ∀ n,
  1 < base <= 16 → 0 <= n → read_number base (numeral base k n) = Some (n mod base ^ Z.of_nat k).
Proof.
  induction k as [|k IH]; intros n Hb Hn.
  { change (base ^ Z.of_nat 0) with 1. by rewrite Z.mod_1_r. }
  unfold numeral in *. simpl. rewrite reverse_cons. unfold read_number in *. rewrite foldl_snoc.
  rewrite IH by (try apply Z.div_pos; lia). simpl. pose proof (Z.mod_pos_bound n base ltac:(lia)).
  rewrite digit_round by lia. simpl. destruct (Z.ltb_spec (n mod base) base); [|lia]. f_equal.
  rewrite Nat2Z.inj_succ, Z.pow_succ_r by lia.
  rewrite (Z.rem_mul_r n base (base ^ Z.of_nat k)) by lia. lia.
Qed.

Lemma low_digits_lookup base k : ∀ n (i : nat),
  1 < base → (i < k)%nat → low_digits base k n !! i = Some (n / base ^ Z.of_nat i mod base).
Proof.
  induction k as [|k IH]; intros n [|i] Hb Hi; try lia; simpl.
  - by rewrite Z.div_1_r.
  - rewrite IH by lia. rewrite Z.div_div by lia. do 3 f_equal.
    rewrite <- Z.pow_succ_r by lia. f_equal. lia.
Qed.

Lemma low_digits_length base k n : length (low_digits base k n) = k.
Proof. revert n. induction k; intros n; [done|]. simpl. by rewrite IHk. Qed.

(** A loop whose body writes one character. *)
Lemma for_each_write (idx : list Z) (body : Z → M tty unit) (g : Z → Z) s :
  (∀ i s, i ∈ idx → body i s = tty_write_byte (g i) s) →
  for_each idx body s = tty_write_string (g <$> idx) s.
Proof.
  revert s. induction idx as [|i idx IH]; intros s H; [done|]. unfold tty_write_string. simpl.
  unfold mbind, M_bind. rewrite H by left. destruct (tty_write_byte (g i) s) as [[[] s']| |]; try done.
  apply IH. intros; apply H; by right.
Qed.

Lemma write_string_app bs bs' s :
  tty_write_string (bs ++ bs') s = (tty_write_string bs ≫= λ _, tty_write_string bs') s.
Proof.
  revert s. induction bs as [|b bs IH]; intros s; [done|]. unfold tty_write_string in *. simpl.
  unfold mbind, M_bind in *. by destruct (tty_write_byte b s) as [[[] s']| |].
Qed.

Lemma hex_chars d : 0 <= d < 16 → bytes_of "0123456789ABCDEF" !! Z.to_nat d = Some (digit_char d).
Proof.
  intros Hd. apply (bool_decide_eq_true_1 (bytes_of "0123456789ABCDEF" !! Z.to_nat d = Some (digit_char d))).
  assert (H : forallb (λ d, bool_decide (bytes_of "0123456789ABCDEF" !! Z.to_nat d = Some (digit_char d)))
    (seqZ 0 16) = true) by reflexivity.
  rewrite forallb_forall in H. apply H. apply list_elem_of_In, elem_of_seqZ. lia.
Qed.

Lemma dec_chars d : 0 <= d < 10 → bytes_of "0123456789" !! Z.to_nat d = Some (digit_char d).
Proof.
  intros Hd. apply (bool_decide_eq_true_1 (bytes_of "0123456789" !! Z.to_nat d = Some (digit_char d))).
  assert (H : forallb (λ d, bool_decide (bytes_of "0123456789" !! Z.to_nat d = Some (digit_char d)))
    (seqZ 0 10) = true) by reflexivity.
  rewrite forallb_forall in H. apply H. apply list_elem_of_In, elem_of_seqZ. lia.
Qed.

Lemma hex_ok n s :
  tty_write_hex n s = tty_write_string (bytes_of "0x" ++ numeral 16 8 n) s.
Proof.
  rewrite write_string_app. unfold tty_write_hex. cbv zeta. unfold mbind, M_bind.
  destruct (tty_write_string (bytes_of "0x") s) as [[[] s1]| |]; [|done..].
  rewrite (for_each_write _ _ (λ i, digit_char (Z.land (Z.shiftr n (i * 4)) 0x0F))).
  - f_equal. change (reverse (seqZ 0 8)) with [7; 6; 5; 4; 3; 2; 1; 0]. unfold numeral.
    apply list_eq. intros i. destruct (decide (i < 8)%nat) as [Hi|Hi].
    2: { rewrite !lookup_ge_None_2; [done| |simpl; lia].
         rewrite length_reverse, length_fmap, low_digits_length. lia. }
    rewrite reverse_lookup by (rewrite length_fmap, low_digits_length; lia).
    rewrite (list_lookup_fmap digit_char), length_fmap, low_digits_length, low_digits_lookup by lia. simpl (_ <$> Some _).
    assert (Hd : ∀ j : nat, digit_char (Z.land (Z.shiftr n (Z.of_nat j * 4)) 15)
      = digit_char (n / 16 ^ Z.of_nat j mod 16)).
    { intros j. change 15 with (0xF). rewrite land_0xF, Z.shiftr_div_pow2 by lia.
      rewrite Z.mul_comm, Z.pow_mul_r by lia. done. }
    assert (Hl : [7; 6; 5; 4; 3; 2; 1; 0] !! i = Some (Z.of_nat (7 - i))).
    { clear - Hi. do 8 (destruct i as [|i]; [done|]). lia. }
    rewrite list_lookup_fmap, Hl. apply (f_equal Some), Hd.
  - intros i s' _. rewrite land_0xF. pose proof (Z.mod_pos_bound (Z.shiftr n (i * 4)) 16 ltac:(lia)).
    unfold mbind, M_bind, of_option. by rewrite hex_chars by lia.
Qed.

(** [n] is written with [m] digits, none of them a leading zero. *)
Definition has_digits (m : nat) n : Prop :=
  0 <= n < 10 ^ Z.of_nat m ∧ (m = 0%nat ∨ 10 ^ (Z.of_nat m - 1) <= n).

Lemma has_digits_step m n : has_digits (S m) n → 0 < n ∧ has_digits m (n / 10).
Proof.
  intros [Hn [?|Hl]]; [lia|]. replace (Z.of_nat (S m) - 1) with (Z.of_nat m) in Hl by lia.
  rewrite Nat2Z.inj_succ, Z.pow_succ_r in Hn by lia.
  assert (0 < 10 ^ Z.of_nat m) by (apply Z.pow_pos_nonneg; lia). split; [lia|]. split.
  - split; [apply Z.div_pos; lia|]. apply Z.div_lt_upper_bound; lia.
  - destruct m as [|m]; [by left|right]. replace (Z.of_nat (S m) - 1) with (Z.of_nat m) by lia.
    rewrite Nat2Z.inj_succ, Z.pow_succ_r in Hl by lia. apply Z.div_le_lower_bound; lia.
Qed.

Lemma has_digits_u32 n : is_u32 n → ∃ m, (m <= 10)%nat ∧ has_digits m n.
Proof.
  intros Hn. unfold has_digits. assert (n = 0 ∨ ∃ m, (m <= 9)%nat ∧ 10 ^ Z.of_nat m <= n < 10 ^ Z.of_nat (S m)).
  { destruct (decide (n = 0)); [by left|right].
    assert (H : 1 <= n < 10000000000) by lia. revert H. clear.
    assert (H : ∀ k : nat, 1 <= n < 10 ^ Z.of_nat (S k) →
      ∃ m, (m <= k)%nat ∧ 10 ^ Z.of_nat m <= n < 10 ^ Z.of_nat (S m)); [|intros; by apply (H 9%nat)].
    induction k as [|k IH]; intros H; [by exists 0%nat|].
    destruct (decide (n < 10 ^ Z.of_nat (S k))).
    - destruct IH as (m&?&?); [lia|]. exists m. auto.
    - exists (S k). lia. }
  destruct H as [->|(m&?&?)]; [exists 0%nat; split; [lia|]; split; [done|by left]|].
  exists (S m). split; [lia|]. split; [|right; replace (Z.of_nat (S m) - 1) with (Z.of_nat m) by lia; lia].
  split; [|lia]. assert (0 < 10 ^ Z.of_nat m) by (apply Z.pow_pos_nonneg; lia). lia.
Qed.

(** The array holds the digits above the index the loop started from. *)
Lemma reverse_digits_ok (s : tty) m : ∀ fuel n i rev,
  has_digits m n → (m < fuel)%nat → 0 <= i → i + Z.of_nat m <= 9 → length rev = 10%nat →
  ∃ rev', reverse_digits fuel n i rev s = Ok ((rev', i + Z.of_nat m), s) ∧
    (∀ j, (j <= Z.to_nat i)%nat → rev' !! j = rev !! j) ∧
    (∀ j, (j < m)%nat → rev' !! (Z.to_nat i + 1 + j)%nat = Some (n / 10 ^ Z.of_nat j mod 10)).
Proof.
  induction m as [|m IH]; intros fuel n i rev Hn Hf Hi Him Hl; (destruct fuel as [|fuel]; [lia|]); simpl.
  { destruct Hn as [Hn _]. change (10 ^ Z.of_nat 0) with 1 in Hn. destruct (Z.ltb_spec 0 n); [lia|].
    exists rev. rewrite Z.add_0_r. split; [done|]. split; [done|]. intros; lia. }
  destruct (has_digits_step _ _ Hn) as [Hp Hn']. destruct (Z.ltb_spec 0 n) as [_|]; [|lia].
  destruct (lookup_lt_is_Some_2 rev (Z.to_nat (i + 1)) ltac:(lia)) as [x Hx].
  rewrite (bind_ok _ _ s x s) by (by rewrite Hx).
  destruct (IH fuel (n / 10) (i + 1) (<[Z.to_nat (i + 1) := n mod 10]> rev)) as (rev'&He&Hlo&Hhi);
    [done|lia..|by rewrite length_insert|].
  exists rev'. rewrite He. split; [do 3 f_equal; lia|]. split.
  - intros j Hj. rewrite Hlo by lia. apply list_lookup_insert_ne. lia.
  - intros [|j] Hj.
    + rewrite Hlo by lia. change (10 ^ Z.of_nat 0) with 1. rewrite Z.div_1_r.
      replace (Z.to_nat i + 1 + 0)%nat with (Z.to_nat (i + 1)) by lia. apply list_lookup_insert_eq. lia.
    + replace (Z.to_nat i + 1 + S j)%nat with (Z.to_nat (i + 1) + 1 + j)%nat by lia. rewrite Hhi by lia.
      rewrite Z.div_div by lia. do 3 f_equal. rewrite <- Z.pow_succ_r by lia. f_equal. lia.
Qed.

Lemma reverse_digits_fault (s : tty) m : ∀ fuel n i rev,
  has_digits m n → (m < fuel)%nat → 0 <= i <= 9 → 9 < i + Z.of_nat m → length rev = 10%nat →
  reverse_digits fuel n i rev s = Fault.
Proof.
  induction m as [|m IH]; intros fuel n i rev Hn Hf Hi Him Hl; [lia|]. destruct fuel as [|fuel]; [lia|]. simpl.
  destruct (has_digits_step _ _ Hn) as [Hp Hn']. destruct (Z.ltb_spec 0 n) as [_|]; [|lia].
  destruct (decide (i = 9)) as [->|].
  - unfold mbind, M_bind, of_option. rewrite lookup_ge_None_2; [done|lia].
  - destruct (lookup_lt_is_Some_2 rev (Z.to_nat (i + 1)) ltac:(lia)) as [x Hx].
    rewrite (bind_ok _ _ s x s) by (by rewrite Hx). apply IH; [done|lia..|by rewrite length_insert].
Qed.

Lemma int_ok m n s :
  has_digits m n → (1 <= m <= 9)%nat → tty_write_int n s = tty_write_string (numeral 10 m n) s.
Proof.
  intros Hn Hm. unfold tty_write_int. cbv zeta.
  assert (Hp : 0 < n) by (destruct m; [lia|by apply has_digits_step in Hn as []]).
  destruct (Z.eqb_spec n 0); [lia|].
  destruct (reverse_digits_ok s m 11 n 0 (replicate 10 0)) as (rev&He&_&Hd); [done|lia..|done|].
  rewrite (bind_ok _ _ _ _ _ He). rewrite (for_each_write _ _ (λ i, digit_char (n / 10 ^ (i - 1) mod 10))).
  - f_equal. rewrite fmap_reverse. unfold numeral. f_equal. apply list_eq. intros i.
    rewrite !list_lookup_fmap. destruct (decide (i < m)%nat) as [Hi|Hi].
    + rewrite low_digits_lookup, lookup_seqZ_lt by lia. simpl. do 5 f_equal. lia.
    + rewrite lookup_seqZ_ge by lia. rewrite lookup_ge_None_2; [done|]. rewrite low_digits_length. lia.
  - intros i s' Hi. rewrite elem_of_reverse, elem_of_seqZ in Hi. unfold mbind, M_bind, of_option.
    replace (Z.to_nat i) with (Z.to_nat 0 + 1 + Z.to_nat (i - 1))%nat by lia. rewrite Hd by lia.
    rewrite Z2Nat.id by lia. pose proof (Z.mod_pos_bound (n / 10 ^ (i - 1)) 10 ltac:(lia)).
    by rewrite dec_chars by lia.
Qed.

(** [tty_write_int] on both sides of its bound. *)
Lemma int_round n :
  0 <= n < 1000000000 →
  ∃ digits, (∀ s, tty_write_int n s = tty_write_string digits s) ∧
    read_number 10 digits = Some n ∧ (head digits ≠ Some ZERO ∨ n = 0).
Proof.
  intros Hn. destruct (decide (n = 0)) as [->|Hz].
  { exists [ZERO]. split; [|by split; [|right]]. intros s. unfold tty_write_string. simpl.
    unfold tty_write_int, mbind, M_bind. simpl (0 =? 0). by destruct (tty_write_byte ZERO s) as [[[] s']| |]. }
  destruct (has_digits_u32 n ltac:(lia)) as (m&Hm&Hd).
  assert (1 <= m <= 9)%nat.
  { destruct Hd as [[_ Hu] [->|Hl]]; [simpl in Hu; lia|]. split; [destruct m; [simpl in Hu; lia|lia]|].
    destruct (decide (m = 10)%nat) as [->|]; [simpl in Hl; lia|lia]. }
  exists (numeral 10 m n). split; [intros; by apply int_ok|]. split.
  { rewrite read_numeral by lia. f_equal. apply Z.mod_small. apply Hd. }
  left. destruct Hd as [[_ Hu] [->|Hl]]; [lia|]. destruct m as [|m]; [lia|].
  unfold numeral. rewrite head_reverse, last_lookup, length_fmap, low_digits_length. simpl Nat.pred.
  rewrite list_lookup_fmap, low_digits_lookup by lia. simpl (digit_char <$> Some _).
  replace (Z.of_nat (S m) - 1) with (Z.of_nat m) in Hl by lia.
  rewrite Nat2Z.inj_succ, Z.pow_succ_r in Hu by lia.
  assert (0 < 10 ^ Z.of_nat m) by (apply Z.pow_pos_nonneg; lia).
  assert (Hq : 1 <= n / 10 ^ Z.of_nat m < 10).
  { split; [apply Z.div_le_lower_bound; lia|apply Z.div_lt_upper_bound; lia]. }
  rewrite Z.mod_small by lia. unfold digit_char, ZERO. destruct (Z.ltb_spec (n / 10 ^ Z.of_nat m) 10); [|lia].
  intros [=]. lia.
Qed.

Lemma int_overflow n s :
  is_u32 n → 1000000000 <= n → tty_write_int n s = Fault.
Proof.
  intros Hn Hl. unfold tty_write_int. cbv zeta. destruct (Z.eqb_spec n 0); [lia|].
  destruct (has_digits_u32 n Hn) as (m&Hm&Hd). unfold mbind at 1, M_bind at 1.
  rewrite (reverse_digits_fault s m); [done|done|lia..| |done].
  destruct Hd as [[_ Hu] _]. destruct (decide (m <= 9)%nat); [|lia].
  assert (10 ^ Z.of_nat m <= 10 ^ 9) by (apply Z.pow_le_mono_r; lia). lia.
Qed.

(** ** The properties *)

(** C20: [tty_write_byte] implements the abstract console on every byte
    and every state that shows a screen: it writes the two bytes of one cell
    inside the buffer (or moves the cursor, or scrolls), leaves the cursor on the
    screen, and has told the display's ports where the cursor is. *)
Theorem tty_write_byte_refines b p s :
  shows p s →
  ∃ s', tty_write_byte b s = Ok (tt, s') ∧ shows (put b p) s' ∧ length (fb s') = length (fb s).
Proof.
  intros H. destruct (put_ok b p s H) as (s'&He&H'). exists s'. split; [done|]. split; [done|].
  destruct H as ((Hl&_)&[Hf _]&_), H' as ((Hl'&_)&[Hf' _]&_). rewrite Hf, Hf', !cells_length. lia.
Qed.

(** C21: From a frame buffer with any content, [tty_clear] and then
    [tty_write_string] show the text the abstract console shows on a blank
    screen, whatever its length and its control characters. *)
Theorem tty_text_refines text s :
  length (fb s) = 4000%nat →
  ∃ s', (tty_clear ≫= λ _, tty_write_string text) s = Ok (tt, s') ∧ shows (put_all text blank) s'.
Proof.
  intros Hl. destruct (tty_clear_ok s Hl) as (s1&E1&Ha&Hs). rewrite (bind_ok _ _ _ _ _ E1).
  apply put_all_ok. split; [split; [done|simpl; lia]|]. by split.
Qed.

(** [tty_write_hex] writes "0x" and eight characters that read back,
    in base sixteen, as its argument. *)
Lemma hex_round n :
  is_u32 n →
  ∃ digits, (∀ s, tty_write_hex n s = tty_write_string (bytes_of "0x" ++ digits) s) ∧
    length digits = 8%nat ∧ read_number 16 digits = Some n.
Proof.
  intros Hn. exists (numeral 16 8 n). split; [intros; apply hex_ok|]. split.
  - unfold numeral. by rewrite length_reverse, length_fmap, low_digits_length.
  - rewrite read_numeral by lia. f_equal. apply Z.mod_small. simpl. lia.
Qed.

(** C22: The numbers of the console read back. [tty_write_hex] writes "0x" and eight
    characters that are its argument in base sixteen. Below 10^9, [tty_write_int]
    writes a numeral without a leading zero that is its argument in base ten;
    from there on the number has ten digits and the call writes past the end of
    its array of ten, as the digits start at index 1. *)
Theorem tty_numbers_round n :
  is_u32 n →
  (∃ digits, (∀ s, tty_write_hex n s = tty_write_string (bytes_of "0x" ++ digits) s) ∧
     length digits = 8%nat ∧ read_number 16 digits = Some n) ∧
  (n < 1000000000 →
   ∃ digits, (∀ s, tty_write_int n s = tty_write_string digits s) ∧
     read_number 10 digits = Some n ∧ (head digits ≠ Some ZERO ∨ n = 0)) ∧
  (1000000000 <= n → ∀ s, tty_write_int n s = Fault).
Proof.
  intros Hn. split; [by apply hex_round|]. split; [intros; apply int_round; lia|].
  intros Hl s. by apply int_overflow.
Qed.

(** ** Witnesses *)

(** A blank console with its cursor on the last cell. *)
Definition full_console : tty := Tty (cells (replicate 2000 SPACE)) 1999 (cursor_ports 1999).

Lemma full_console_shows : shows (replicate 2000 SPACE, 1999) full_console.
Proof. split; [split; [done|simpl; lia]|]. by split. Qed.

(** The last cell is filled and the screen scrolls. *)
Lemma tty_write_byte_refines_witness :
  cursor_pos <$> final (tty_write_byte 65 full_console) = Some 1920 ∧
  ∃ s', tty_write_byte 65 full_console = Ok (tt, s') ∧
    shows (put 65 (replicate 2000 SPACE, 1999)) s' ∧ length (fb s') = length (fb full_console).
Proof.
  split; [vm_compute; reflexivity|]. apply (tty_write_byte_refines 65 _ full_console), full_console_shows.
Defined.

(** A line break, a tab and an erased letter, from a buffer full of garbage. *)
Lemma tty_text_refines_witness :
  let s := Tty (replicate 4000 7) 5000 [] in
  length (fb s) = 4000%nat ∧
  ∃ s', (tty_clear ≫= λ _, tty_write_string [72; 105; 10; 9; 88; 8]) s = Ok (tt, s') ∧
    shows (put_all [72; 105; 10; 9; 88; 8] blank) s'.
Proof. split; [reflexivity|]. apply tty_text_refines. reflexivity. Defined.

Lemma tty_numbers_round_witness :
  (∃ digits, (∀ s, tty_write_hex 3735928559 s = tty_write_string (bytes_of "0x" ++ digits) s) ∧
    length digits = 8%nat ∧ read_number 16 digits = Some 3735928559) ∧
  (∃ digits, (∀ s, tty_write_int 999999999 s = tty_write_string digits s) ∧
    read_number 10 digits = Some 999999999 ∧ (head digits ≠ Some ZERO ∨ 999999999 = 0)) ∧
  tty_write_int 3735928559 full_console = Fault.
Proof.
  split; [apply (tty_numbers_round 3735928559); lia|].
  split; [apply (tty_numbers_round 999999999); lia|].
  apply (tty_numbers_round 3735928559); lia.
Defined.
