(* ===== verification/Printk.v ===== *)
(** * Printk: the formatted output of kernel/printk.c

    [printk] over the console of [Tty], and a reference that says which
    characters a format and its arguments stand for. *)

From S2P Require Import Prelude Tty TtyFacts TtySpec.

Implicit Types (s : tty) (n : Z).

(** The characters ['%'], ['X'], ['u'] and ['s']. *)
Definition PERCENT : Z := 37.
Definition CONV_X : Z := 88.
Definition CONV_u : Z := 117.
Definition CONV_s : Z := 115.

(** What [va_arg] finds: a 32-bit integer or the characters of a C string. *)
Inductive arg := AInt (n : Z) | AStr (l : list Z).

(** [printk] reads its arguments from left to right. Reading an argument that
    was not passed, an integer as a string or a string as an integer, or past the
    terminator of the format, is a fault. *)
Fixpoint printk (fmt : list Z) (ap : list arg) : M tty unit :=
  match fmt with
  | [] => mret tt
  | p :: fmt =>
    if negb (p =? PERCENT) then tty_write_byte p ≫= λ _, printk fmt ap
    else
      match fmt with
      | [] => fault
      | p :: fmt =>
        if p =? CONV_X then
          match ap with
          | AInt uival :: ap => tty_write_hex uival ≫= λ _, printk fmt ap
          | _ => fault
          end
        else if p =? CONV_u then
          match ap with
          | AInt uival :: ap => tty_write_int uival ≫= λ _, printk fmt ap
          | _ => fault
          end
        else if p =? CONV_s then
          match ap with
          | AStr sval :: ap => tty_write_string sval ≫= λ _, printk fmt ap
          | _ => fault
          end
        else if p =? PERCENT then tty_write_byte PERCENT ≫= λ _, printk fmt ap
        else printk fmt ap
      end
  end.

(** ** The reference: directives first, characters next *)

Inductive directive := Plain (b : Z) | Hex | Dec | Str | Ignored | Cut.

(** The conversion a character after ['%'] asks for. *)
Definition conversion (b : Z) : directive :=
  if b =? CONV_X then Hex else if b =? CONV_u then Dec else if b =? CONV_s then Str
  else if b =? PERCENT then Plain PERCENT else Ignored.

Fixpoint parse_format (fmt : list Z) : list directive :=
  match fmt with
  | [] => []
  | b :: fmt =>
    if b =? PERCENT then
      match fmt with [] => [Cut] | b :: fmt => conversion b :: parse_format fmt end
    else Plain b :: parse_format fmt
  end.

(** The length of a decimal numeral of at most [S k] digits. *)
Fixpoint num_digits (k : nat) n : nat :=
  match k with O => 1 | S k => if n <? 10 then 1 else S (num_digits k (n / 10)) end.

Definition decimal n : option (list Z) :=
  if n <? 1000000000 then Some (numeral 10 (num_digits 8 n) n) else None.

(** The characters a directive writes and the arguments it leaves. *)
Definition expand (d : directive) (ap : list arg) : option (list Z * list arg) :=
  match d, ap with
  | Plain b, _ => Some ([b], ap)
  | Ignored, _ => Some ([], ap)
  | Hex, AInt n :: ap => Some (bytes_of "0x" ++ numeral 16 8 n, ap)
  | Dec, AInt n :: ap => l ← decimal n; Some (l, ap)
  | Str, AStr l :: ap => Some (l, ap)
  | _, _ => None
  end.

Fixpoint render (ds : list directive) (ap : list arg) : option (list Z) :=
  match ds with
  | [] => Some []
  | d :: ds => '(l, ap) ← expand d ap; l' ← render ds ap; Some (l ++ l')
  end.

Definition arg_ok (a : arg) : Prop := match a with AInt n => is_u32 n | AStr _ => True end.

(** ** What one directive does *)

(** On a console that shows a screen, [m] writes what [o] says, or faults. *)
Definition writes (m : M tty unit) (o : option (list Z)) : Prop := ∀ p s,
  shows p s →
  match o with Some l => ∃ s', m s = Ok (tt, s') ∧ shows (put_all l p) s' | None => m s = Fault end.

Lemma writes_string m l : (∀ s, m s = tty_write_string l s) → writes m (Some l).
Proof. intros Hm p s Hs. rewrite Hm. by apply put_all_ok. Qed.

Lemma writes_seq (m m' : M tty unit) l o :
  writes m (Some l) → writes m' o → writes (m ≫= λ _, m') (l' ← o; Some (l ++ l')).
Proof.
  intros Hm Hm' p s Hs. destruct (Hm p s Hs) as (s1&E1&Hs1). rewrite (bind_ok _ _ _ _ _ E1).
  specialize (Hm' _ _ Hs1). destruct o as [l'|]; [|done]. simpl. unfold put_all in *. by rewrite foldl_app.
Qed.

Lemma writes_seq_fault (m m' : M tty unit) : writes m None → writes (m ≫= λ _, m') None.
Proof. intros Hm p s Hs. unfold mbind, M_bind. by rewrite (Hm p s Hs). Qed.

Lemma write_one b s : tty_write_string [b] s = tty_write_byte b s.
Proof.
  unfold tty_write_string. simpl. unfold mbind, M_bind. by destruct (tty_write_byte b s) as [[[] s']| |].
Qed.

Lemma num_digits_ok k : ∀ n,
  0 < n < 10 ^ Z.of_nat (S k) → has_digits (num_digits k n) n ∧ (1 <= num_digits k n <= S k)%nat.
Proof.
  induction k as [|k IH]; intros n Hn; simpl.
  { split; [|lia]. split; [simpl in *; lia|right; simpl; lia]. }
  destruct (Z.ltb_spec n 10).
  { split; [|lia]. split; [simpl in *; lia|right; simpl; lia]. }
  rewrite Nat2Z.inj_succ, Z.pow_succ_r in Hn by lia.
  destruct (IH (n / 10)) as [[Hd Hl] Hk].
  { split; [apply Z.div_str_pos; lia|apply Z.div_lt_upper_bound; lia]. }
  split; [|lia]. unfold has_digits. rewrite Nat2Z.inj_succ, Z.pow_succ_r by lia.
  split; [Z.to_euclidean_division_equations; lia|right].
  replace (Z.succ _ - 1) with (Z.succ (Z.of_nat (num_digits k (n / 10)) - 1)) by lia.
  rewrite Z.pow_succ_r by lia. destruct Hl as [|Hl]; [lia|]. Z.to_euclidean_division_equations; lia.
Qed.

Lemma decimal_ok n : is_u32 n → writes (tty_write_int n) (decimal n).
Proof.
  intros Hn. unfold decimal. destruct (Z.ltb_spec n 1000000000); [|intros p s _; by apply int_overflow].
  apply writes_string. intros s. destruct (decide (n = 0)) as [->|]; [symmetry; apply (write_one ZERO)|].
  destruct (num_digits_ok 8 n) as [Hd Hm]; [simpl; lia|]. by apply int_ok.
Qed.


Lemma byte_writes b : writes (tty_write_byte b) (Some [b]).
Proof. apply writes_string. intros s. symmetry. apply write_one. Qed.

Lemma printk_writes fmt : ∀ ap,
  Forall arg_ok ap → writes (printk fmt ap) (render (parse_format fmt) ap).
Proof.
  induction fmt as [fmt IH] using (induction_ltof1 _ length). unfold ltof in IH.
  intros ap Hap. destruct fmt as [|b fmt]; [by apply writes_string|]. simpl.
  destruct (Z.eqb_spec b PERCENT) as [->|Hb]; simpl.
  2: { apply (writes_seq _ _ [b]); [apply byte_writes|by apply IH; [simpl; lia|]]. }
  destruct fmt as [|b fmt]; [by intros p s _|].
  assert (IH' : ∀ ap, Forall arg_ok ap → writes (printk fmt ap) (render (parse_format fmt) ap))
    by (intros; apply IH; [simpl; lia|done]). clear IH.
  unfold conversion. destruct (Z.eqb_spec b CONV_X) as [->|_].
  { destruct ap as [|[n|l] ap]; [by intros p s _| |by intros p s _]. apply Forall_cons in Hap as [Hn Hap].
    apply (writes_seq _ _ (bytes_of "0x" ++ numeral 16 8 n)); [apply writes_string; intros; apply hex_ok|by apply IH']. }
  destruct (Z.eqb_spec b CONV_u) as [->|_].
  { destruct ap as [|[n|l] ap]; [by intros p s _| |by intros p s _]. apply Forall_cons in Hap as [Hn Hap].
    pose proof (decimal_ok n Hn) as Hd. simpl. destruct (decimal n) as [l|]; simpl.
    - apply (writes_seq _ _ l); [done|by apply IH'].
    - by apply writes_seq_fault. }
  destruct (Z.eqb_spec b CONV_s) as [->|_].
  { destruct ap as [|[n|l] ap]; [by intros p s _|by intros p s _|]. apply Forall_cons in Hap as [_ Hap].
    apply (writes_seq _ _ l); [by apply writes_string|by apply IH']. }
  destruct (Z.eqb_spec b PERCENT) as [->|_].
  { apply (writes_seq _ _ [PERCENT]); [apply byte_writes|by apply IH']. }
  specialize (IH' ap Hap). simpl. by destruct (render (parse_format fmt) ap).
Qed.

(** C23: [printk] shows what the reference renders, for every format and
    every 32-bit arguments, and it stops on an access it has no right to make
    exactly when the reference has no rendering: an argument that is missing or of
    the wrong type, a number of ten digits for ['%u'], a ['%'] at the end. *)
Theorem printk_renders fmt ap p s :
  Forall arg_ok ap → shows p s →
  match render (parse_format fmt) ap with
  | Some l => ∃ s', printk fmt ap s = Ok (tt, s') ∧ shows (put_all l p) s'
  | None => printk fmt ap s = Fault
  end.
Proof. intros Hap Hs. by apply printk_writes. Qed.

(** ** Witness *)

Lemma printk_renders_witness :
  render (parse_format (bytes_of "id %u at %X: %s%%")) [AInt 42; AInt 3221225472; AStr (bytes_of "ok")]
    = Some (bytes_of "id 42 at 0xC0000000: ok%") ∧
  (∃ s', printk (bytes_of "id %u at %X: %s%%") [AInt 42; AInt 3221225472; AStr (bytes_of "ok")] full_console
     = Ok (tt, s') ∧ shows (put_all (bytes_of "id 42 at 0xC0000000: ok%") (replicate 2000 SPACE, 1999)) s') ∧
  printk (bytes_of "%s") [AInt 97] full_console = Fault.
Proof.
  split; [reflexivity|]. split.
  - apply (printk_renders (bytes_of "id %u at %X: %s%%")
      [AInt 42; AInt 3221225472; AStr (bytes_of "ok")] (replicate 2000 SPACE, 1999) full_console);
      [|apply full_console_shows]. repeat (constructor; [simpl; try lia; done|]). constructor.
  - apply (printk_renders (bytes_of "%s") [AInt 97] (replicate 2000 SPACE, 1999) full_console);
      [|apply full_console_shows]. constructor; [simpl; lia|constructor].
Defined.
