(* ===== verification/TtySafe.v ===== *)
(** * TtySafe: the console before the screen is cleared

    Until [tty_clear] is called the attributes of the cells are not the
    console's, so no screen is shown in the sense of [TtySpec]; writing is safe
    all the same. *)

From S2P Require Import Prelude Tty TtyFacts Printk.

Implicit Types (s : tty) (b : Z).

(** [m] ends normally from every state of [P], in a state of [P]. *)
Definition keeps {A} (P : tty → Prop) (m : M tty A) : Prop :=
  ∀ s, P s → ∃ a s', m s = Ok (a, s') ∧ P s'.

Lemma keeps_bind {A B} P (m : M tty A) (f : A → M tty B) :
  keeps P m → (∀ a, keeps P (f a)) → keeps P (m ≫= f).
Proof.
  intros Hm Hf s Hs. destruct (Hm s Hs) as (a&s1&E&Hs1). destruct (Hf a s1 Hs1) as (b&s2&E2&Hs2).
  exists b, s2. by rewrite (bind_ok _ _ _ _ _ E).
Qed.

Lemma keeps_ret {A} P (a : A) : keeps P (mret a).
Proof. intros s Hs. by exists a, s. Qed.

Lemma keeps_each {A} P (xs : list A) (body : A → M tty unit) :
  (∀ x, x ∈ xs → keeps P (body x)) → keeps P (for_each xs body).
Proof.
  induction xs as [|x xs IH]; intros H; [apply keeps_ret|]. simpl.
  apply keeps_bind; [apply H; by left|]. intros _. apply IH. intros; apply H; by right.
Qed.

(** The buffer has its size; the cursor is on the screen. *)
Definition sized s : Prop := length (fb s) = 4000%nat ∧ is_u16 (cursor_pos s).
Definition usable s : Prop := length (fb s) = 4000%nat ∧ 0 <= cursor_pos s < 2000.

Lemma usable_sized s : usable s → sized s.
Proof. intros [? ?]. split; [done|lia]. Qed.

Lemma load_keeps a : 0 <= a < 4000 → keeps sized (load a).
Proof.
  intros Ha s Hs. destruct (lookup_lt_is_Some_2 (fb s) (Z.to_nat a)) as [b Hb]; [destruct Hs; lia|].
  exists b, s. split; [by apply tty_load_ok|done].
Qed.

Lemma write_cell_keeps i b : 0 <= i < 2000 → keeps sized (write_cell (2 * i) b).
Proof.
  intros Hi. assert (Hst : ∀ a b, 0 <= a < 4000 → keeps sized (store a b)).
  { intros a x Ha s [Hl Hc]. exists tt. eexists. split; [apply tty_store_ok; lia|].
    split; [|done]. simpl. by rewrite length_insert. }
  apply keeps_bind; [apply Hst; lia|]. intros _. apply Hst. lia.
Qed.

Lemma write_at_keeps b row col : 0 <= row < 25 → 0 <= col < 80 → keeps sized (write_at b row col).
Proof. intros Hr Hc. unfold write_at. rewrite TO_ADDRESS_eq by done. apply write_cell_keeps. lia. Qed.

Lemma scroll_keeps : keeps sized scroll.
Proof.
  assert (H80 : TTY_NUM_COLS = 80) by done. assert (H25 : TTY_NUM_ROWS = 25) by done.
  unfold scroll. apply keeps_bind; [|intros _].
  - apply keeps_each. intros r Hr%elem_of_seqZ. apply keeps_each. intros c Hc%elem_of_seqZ. apply keeps_bind.
    + unfold read_cell. rewrite TO_ADDRESS_eq by lia. apply load_keeps. lia.
    + intros b. apply write_at_keeps; lia.
  - apply keeps_each. intros c Hc%elem_of_seqZ. apply write_at_keeps; lia.
Qed.

(** A character that only moves the cursor forward, or a line break. *)
Lemma write_byte_usable b : b ≠ TAB → b ≠ TTY_BACKSPACE_ASCII → keeps usable (tty_write_byte b).
Proof.
  intros Ht Hb s Hs. pose proof Hs as [Hl Hc]. unfold tty_write_byte, tty_write_byte_body at 1.
  rewrite (proj2 (Z.eqb_neq b TAB) Ht), (proj2 (Z.eqb_neq b _) Hb), !andb_true_r.
  assert (Hmid : ∃ s1, length (fb s1) = 4000%nat ∧ 0 <= cursor_pos s1 < 2080 ∧
    ((if negb (b =? NEWLINE) then c ← gets cursor_pos; write_cell (2 * c) b else mret tt) ≫= λ _,
     (if b =? NEWLINE then move_cursor_down ≫= λ _, move_cursor_start else move_cursor_forward)) s = Ok (tt, s1)).
  { destruct (Z.eqb_spec b NEWLINE); simpl.
    - destruct (down_ok s (cursor_pos s) eq_refl ltac:(lia)) as (s1&E1&[Hf1 Hp1]&_).
      destruct (start_ok s1 _ Hp1 ltac:(lia)) as (s2&E2&[Hf2 Hp2]&_).
      pose proof (Z.mod_pos_bound (cursor_pos s + 80) 80 ltac:(lia)).
      pose proof (Z.mod_le (cursor_pos s + 80) 80 ltac:(lia) ltac:(lia)).
      exists s2. rewrite Hf2, Hf1, Hp2. split; [done|]. split; [lia|].
      rewrite (bind_ok _ _ s tt s) by done. by rewrite (bind_ok _ _ _ _ _ E1).
    - destruct (write_cell_keeps (cursor_pos s) b ltac:(lia) s (usable_sized s Hs)) as ([]&s1&E1&Hl1&_).
      assert (Hp1 : cursor_pos s1 = cursor_pos s).
      { unfold write_cell, store, load in E1. minv. done. }
      destruct (forward_ok s1 _ Hp1 ltac:(lia)) as (s2&E2&[Hf2 Hp2]&_).
      exists s2. rewrite Hf2, Hp2. split; [done|]. split; [lia|].
      rewrite (bind_ok _ _ s tt s1); [done|]. by rewrite (bind_ok _ _ s (cursor_pos s) s). }
  destruct Hmid as (s1&Hl1&Hp1&E1). rewrite <- (bind_assoc _ _ _ s), (bind_ok _ _ _ _ _ E1).
  rewrite (bind_ok _ _ s1 (cursor_pos s1) s1) by done. change (TTY_NUM_COLS * TTY_NUM_ROWS) with 2000.
  destruct (Z.leb_spec 2000 (cursor_pos s1)); [|exists tt, s1; split; [done|split; [done|lia]]].
  destruct (scroll_keeps s1) as ([]&s2&E2&Hl2&_); [split; [done|lia]|].
  rewrite (bind_ok _ _ _ _ _ E2). destruct (move_ok s2 24 0) as (s3&E3&[Hf3 Hp3]&_); [lia..|].
  exists tt, s3. split; [done|]. split; [by rewrite Hf3|]. rewrite Hp3. lia.
Qed.

(** A text without conversions, tabs and backspaces. *)
Definition plain (fmt : list Z) : Prop :=
  Forall (λ b, b ≠ PERCENT ∧ b ≠ TAB ∧ b ≠ TTY_BACKSPACE_ASCII) fmt.

#[export] Instance plain_dec fmt : Decision (plain fmt).
Proof. unfold plain. apply _. Defined.

Lemma printk_usable fmt ap : plain fmt → keeps usable (printk fmt ap).
Proof.
  induction 1 as [|b fmt (Hp&Ht&Hb) _ IH]; [apply keeps_ret|]. simpl.
  rewrite (proj2 (Z.eqb_neq b PERCENT) Hp). simpl. apply keeps_bind; [by apply write_byte_usable|done].
Qed.
