(* ===== verification/Gdt.v ===== *)
(** * Gdt: the segment descriptors of kernel/arch/i386/gdt.c

    The table of descriptors, the fields [gdt_set_gate] and
    [gdt_create_tss_entry] write, and how the processor reads them. *)

From S2P Require Import Prelude Layout.

Definition SEGMENT_BASE : Z := 0.
Definition SEGMENT_LIMIT : Z := 0xFFFFF.
Definition PL0 : Z := 0x0.
Definition PL3 : Z := 0x3.
Definition CODE_RX_TYPE : Z := 0xA.
Definition DATA_RW_TYPE : Z := 0x2.
Definition GDT_NUM_ENTRIES : Z := 6.
Definition TSS_SEGSEL : Z := 5 * 8.

(** [sizeof(struct gdt_entry)] and [sizeof(struct tss)], both packed. *)
Definition sizeof_gdt_entry : Z := Eval vm_compute in sizeof struct_gdt_entry.
Definition sizeof_tss : Z := Eval vm_compute in sizeof struct_tss.

(** ** State *)

Record gdt_entry := GdtEntry {
  limit_low : Z;
  base_low : Z;
  base_mid : Z;
  access : Z;
  granularity : Z;
  base_high : Z
}.

(** [gdtr] and [tr] are what [gdt_flush] and [tss_load_and_set] of
    gdt_assembler.s were called with: the pointer's limit and base, and the selector. *)
Record gdt := Gdt {
  gdt_entries : list gdt_entry;
  gdtr : option (Z * Z);
  tr : option Z
}.

Definition zero_entry : gdt_entry := GdtEntry 0 0 0 0 0 0.

(** Update the entry [n]; there is none past the end of the table. *)
Definition update_entry (n : Z) (f : gdt_entry → gdt_entry) : M gdt unit :=
  e ← (gets (λ s, gdt_entries s !! Z.to_nat n) ≫= of_option);
  modify (λ s, Gdt (<[Z.to_nat n := f e]> (gdt_entries s)) (gdtr s) (tr s)).

Definition gdt_flush (limit base : Z) : M gdt unit :=
  modify (λ s, Gdt (gdt_entries s) (Some (limit, base)) (tr s)).

Definition tss_load_and_set (segsel : Z) : M gdt unit :=
  modify (λ s, Gdt (gdt_entries s) (gdtr s) (Some segsel)).

(** ** Operations *)

Definition gdt_set_gate (num plevel type : Z) : M gdt unit :=
  update_entry num (λ e, GdtEntry
    (Z.land SEGMENT_LIMIT 0xFFFF)
    (Z.land SEGMENT_BASE 0xFFFF)
    (Z.land (Z.shiftr SEGMENT_BASE 16) 0xFF)
    (u8 (Z.lor (Z.lor (Z.lor (Z.shiftl 0x01 7) (Z.shiftl (Z.land plevel 0x03) 5)) (Z.shiftl 0x01 4))
       (Z.land type 0x0F)))
    (u8 (Z.lor (granularity e) (Z.lor (Z.lor (Z.shiftl 0x01 7) (Z.shiftl 0x01 6)) 0x0F)))
    (Z.land (Z.shiftr SEGMENT_BASE 24) 0xFF)).

Definition gdt_create_tss_entry (n tss_vaddr : Z) : M gdt unit :=
  update_entry n (λ e, GdtEntry
    (u16 (sizeof_tss - 1))
    (Z.land tss_vaddr 0xFFFF)
    (Z.land (Z.shiftr tss_vaddr 16) 0xFF)
    (Z.lor (Z.lor (Z.shiftl 0x01 7) (Z.shiftl 0x01 3)) 0x01)
    0
    (Z.land (Z.shiftr tss_vaddr 24) 0xFF)).

(** [gdt_entries_vaddr] is the address of the static [gdt_entries]. *)
Definition gdt_init (gdt_entries_vaddr tss_vaddr : Z) : M gdt unit :=
  let limit := u16 (sizeof_gdt_entry * GDT_NUM_ENTRIES) in
  gdt_set_gate 0 0 0 ≫= λ _,
  gdt_set_gate 1 PL0 CODE_RX_TYPE ≫= λ _,
  gdt_set_gate 2 PL0 DATA_RW_TYPE ≫= λ _,
  gdt_set_gate 3 PL3 CODE_RX_TYPE ≫= λ _,
  gdt_set_gate 4 PL3 DATA_RW_TYPE ≫= λ _,
  gdt_create_tss_entry 5 tss_vaddr ≫= λ _,
  gdt_flush limit gdt_entries_vaddr ≫= λ _,
  tss_load_and_set TSS_SEGSEL.

(** ** What the processor reads *)

(** A segment descriptor: [d_last] is the offset of its last byte. *)
Record descriptor := Descriptor {
  d_base : Z;
  d_last : Z;
  d_present : bool;
  d_dpl : Z;
  d_code_or_data : bool;
  d_type : Z;
  d_32bit : bool
}.

Definition decode (e : gdt_entry) : descriptor :=
  let limit := limit_low e + 65536 * (granularity e mod 16) in
  Descriptor
    (base_low e + 65536 * base_mid e + 16777216 * base_high e)
    (if Z.testbit (granularity e) 7 then 4096 * limit + 4095 else limit)
    (Z.testbit (access e) 7)
    (access e / 32 mod 4)
    (Z.testbit (access e) 4)
    (access e mod 16)
    (Z.testbit (granularity e) 6).

(** All of the 4 GB, at the privilege level [dpl]. *)
Definition flat (dpl type : Z) : descriptor := Descriptor 0 4294967295 true dpl true type true.

(** A free 32-bit task state segment. *)
Definition task_segment (base : Z) : descriptor := Descriptor base 103 true 0 false 9 false.

(** The statics of gdt.c before the first call. *)
Definition gdt_start : gdt := Gdt (replicate 6 zero_entry) None None.

(** A 32-bit address is its three parts. *)
Lemma split_address a :
  is_u32 a → Z.land a 0xFFFF + 65536 * Z.land (Z.shiftr a 16) 0xFF + 16777216 * Z.land (Z.shiftr a 24) 0xFF = a.
Proof.
  intros Ha. rewrite land_0xFFFF, !land_0xFF, !Z.shiftr_div_pow2 by lia.
  change (2 ^ 16) with 65536. change (2 ^ 24) with 16777216. Z.to_euclidean_division_equations; lia.
Qed.

Lemma gdt_init_ok gdt_vaddr tss_vaddr :
  is_u32 tss_vaddr →
  ∃ s', gdt_init gdt_vaddr tss_vaddr gdt_start = Ok (tt, s') ∧
    decode <$> tail (gdt_entries s')
      = [flat 0 CODE_RX_TYPE; flat 0 DATA_RW_TYPE; flat 3 CODE_RX_TYPE; flat 3 DATA_RW_TYPE;
         task_segment tss_vaddr] ∧
    gdtr s' = Some (8 * Z.of_nat (length (gdt_entries s')), gdt_vaddr) ∧ tr s' = Some 0x28.
Proof.
  intros Ht. eexists. split; [reflexivity|]. split; [|by split]. simpl.
  unfold decode, task_segment. simpl. repeat f_equal. rewrite split_address by done. done.
Qed.

(** [gdt_init] fills the table so that the processor finds, past the
    entry 0 it never uses, code and data segments of the whole address space for the
    kernel and for user mode, and the task state segment with exactly the 104 bytes of
    [struct tss] at the address given; it loads the table and the selector of the
    last. The limit loaded is the size of the table, one more than the offset of
    its last byte. *)
Lemma gdt_init_segments gdt_vaddr tss_vaddr :
  is_u32 tss_vaddr →
  ∃ s', gdt_init gdt_vaddr tss_vaddr gdt_start = Ok (tt, s') ∧
    decode <$> tail (gdt_entries s')
      = [flat 0 CODE_RX_TYPE; flat 0 DATA_RW_TYPE; flat 3 CODE_RX_TYPE; flat 3 DATA_RW_TYPE;
         task_segment tss_vaddr] ∧
    gdtr s' = Some (8 * Z.of_nat (length (gdt_entries s')), gdt_vaddr) ∧ tr s' = Some 0x28.
Proof. apply gdt_init_ok. Qed.

Lemma gdt_init_segments_witness :
  ∃ s', gdt_init 0xC0106000 0xC0107040 gdt_start = Ok (tt, s') ∧
    decode <$> tail (gdt_entries s')
      = [flat 0 CODE_RX_TYPE; flat 0 DATA_RW_TYPE; flat 3 CODE_RX_TYPE; flat 3 DATA_RW_TYPE;
         task_segment 0xC0107040] ∧
    gdtr s' = Some (8 * Z.of_nat (length (gdt_entries s')), 0xC0106000) ∧ tr s' = Some 0x28.
Proof. apply (gdt_init_segments 0xC0106000 0xC0107040). lia. Defined.
