(* ===== verification/Machine.v ===== *)
(** * Machine: the part of the i386 the assembler files use

    Registers, segment registers with the descriptors they were loaded with,
    control registers, and physical memory by words; the instructions of
    boot.s, interrupts_assembler.s, gdt_assembler.s, scheduler_assembler.s,
    paging_assembler.s, io.s and task.s, and a run of a list of them. Addresses go through the segment and, once paging is on, through the
    translation [walk]. Accesses are of aligned words, but for the tables the processor
    reads by itself; of the flags only those of an arithmetic result that [jle]
    reads, and the interrupt flag, are kept, and of the task register that its
    selector was accepted. *)

From S2P Require Import Prelude Mmu Gdt.

Inductive reg := EAX | ECX | EDX | EBX | ESP | EBP | ESI | EDI.
Inductive seg := CS | SS | DS | ES | FS | GS.
Inductive creg := CR0 | CR3 | CR4.

#[global] Instance reg_eq_dec : EqDecision reg.
Proof. solve_decision. Defined.
#[global] Instance seg_eq_dec : EqDecision seg.
Proof. solve_decision. Defined.
#[global] Instance creg_eq_dec : EqDecision creg.
Proof. solve_decision. Defined.

(** A segment register: its selector, and the descriptor read when it was loaded. *)
Record segment := Segment { sel : Z; desc : descriptor }.

(** [world] is the state of the C code, which only its own functions change. *)
Record machine {X : Type} := Machine {
  gr : reg → Z;
  sr : seg → segment;
  mflags : Z;
  cr : creg → Z;
  ram : gmap Z Z;
  table : list descriptor;
  world : X
}.
Arguments machine : clear implicits.

(** Update one register. *)
Definition upd {R A} `{!EqDecision R} (r : R) (a : A) (f : R → A) : R → A :=
  λ r', if decide (r' = r) then a else f r'.

Section machine.
Context {X : Type}.
Implicit Types m : machine X.

Definition set_gr (r : reg) (v : Z) m : machine X :=
  Machine X (upd r v (gr m)) (sr m) (mflags m) (cr m) (ram m) (table m) (world m).
Definition set_sr (s : seg) (v : segment) m : machine X :=
  Machine X (gr m) (upd s v (sr m)) (mflags m) (cr m) (ram m) (table m) (world m).
Definition set_flags (f : Z) m : machine X :=
  Machine X (gr m) (sr m) f (cr m) (ram m) (table m) (world m).
Definition set_cr (c : creg) (v : Z) m : machine X :=
  Machine X (gr m) (sr m) (mflags m) (upd c v (cr m)) (ram m) (table m) (world m).
Definition set_ram (r : gmap Z Z) m : machine X :=
  Machine X (gr m) (sr m) (mflags m) (cr m) r (table m) (world m).
Definition set_table (t : list descriptor) m : machine X :=
  Machine X (gr m) (sr m) (mflags m) (cr m) (ram m) t (world m).
Definition set_world (w : X) m : machine X :=
  Machine X (gr m) (sr m) (mflags m) (cr m) (ram m) (table m) w.

(** ** Addresses *)

Definition readable (d : descriptor) : bool :=
  d_present d && d_code_or_data d && (if Z.testbit (d_type d) 3 then Z.testbit (d_type d) 1 else true).
Definition writable (d : descriptor) : bool :=
  d_present d && d_code_or_data d && negb (Z.testbit (d_type d) 3) && Z.testbit (d_type d) 1.

(** The linear address of the word at [off] in a segment; segments that grow
    down do not occur. *)
Definition linear (write : bool) (d : descriptor) (off : Z) : option Z :=
  if (if write then writable d else readable d) && (off + 3 <=? d_last d)
  then Some (u32 (d_base d + off)) else None.

Definition paging_on m : bool := Z.testbit (cr m CR0) 31.

(** With paging, pages of 4 MB must be enabled, as [walk] knows them. *)
Definition translate m (a : Z) : option Z :=
  if paging_on m then
    if Z.testbit (cr m CR4) 4 then walk (ram m) (hw_base (cr m CR3)) a else None
  else Some a.

(** The physical address of the word at [off]. *)
Definition resolve (write : bool) (s : seg) (off : Z) m : option Z :=
  a ← linear write (desc (sr m s)) off;
  if a mod 4 =? 0 then translate m a else None.

Definition read (s : seg) (off : Z) : M (machine X) Z := λ m,
  match resolve false s off m with Some p => Ok (ld (ram m) p, m) | None => Fault end.
Definition write (s : seg) (off v : Z) : M (machine X) unit := λ m,
  match resolve true s off m with Some p => Ok (tt, set_ram (<[p := v]> (ram m)) m) | None => Fault end.

(** An address made from [%esp] or [%ebp] is in the stack's segment. *)
Definition segment_of (b : option reg) : seg :=
  match b with Some ESP | Some EBP => SS | _ => DS end.
Definition offset_of (b : option reg) (d : Z) m : Z :=
  match b with Some r => u32 (gr m r + d) | None => u32 d end.

(** ** The stack, segments, flags *)

Definition push (v : Z) : M (machine X) unit :=
  e ← gets (λ m, u32 (gr m ESP - 4));
  write SS e v ≫= λ _, modify (set_gr ESP e).
Definition pop : M (machine X) Z :=
  e ← gets (λ m, gr m ESP);
  v ← read SS e;
  modify (set_gr ESP (u32 (e + 4))) ≫= λ _, mret v.

Definition cpl m : Z := sel (sr m CS) mod 4.

Definition null_descriptor : descriptor := Descriptor 0 0 false 0 false 0 false.

(** What the processor loads into a register of data: nothing for a null selector,
    else a readable descriptor of the table it has the privilege for. *)
Definition data_segment (t : list descriptor) (level s : Z) : option segment :=
  if s / 4 =? 0 then Some (Segment s null_descriptor)
  else if Z.testbit s 2 then None
  else
    d ← t !! Z.to_nat (s / 8);
    if readable d && ((Z.max level (s mod 4) <=? d_dpl d) || (Z.testbit (d_type d) 3 && Z.testbit (d_type d) 2))
    then Some (Segment s d) else None.

(** Into the register of the stack: of the kernel's own privilege, and writable. *)
Definition stack_segment (t : list descriptor) (level s : Z) : option segment :=
  d ← t !! Z.to_nat (s / 8);
  if writable d && negb (s / 4 =? 0) && negb (Z.testbit s 2) && (s mod 4 =? level) && (d_dpl d =? level)
  then Some (Segment s d) else None.

(** Into the register of code, without a change of privilege. *)
Definition code_segment (t : list descriptor) (level s : Z) : option segment :=
  d ← t !! Z.to_nat (s / 8);
  if d_present d && d_code_or_data d && Z.testbit (d_type d) 3 && negb (Z.testbit s 2) && (s mod 4 =? level)
    && (d_dpl d =? level)
  then Some (Segment s d) else None.

Definition load_data (s : seg) (v : Z) : M (machine X) unit :=
  x ← (gets (λ m, (if decide (s = SS) then stack_segment else data_segment) (table m) (cpl m) v) ≫= of_option);
  modify (set_sr s x).
Definition load_code (v : Z) : M (machine X) unit :=
  x ← (gets (λ m, code_segment (table m) (cpl m) v) ≫= of_option);
  modify (set_sr CS x).

(** ** Tables the processor reads

    By bytes, at linear addresses. *)

Definition byte_at m (a : Z) : option Z :=
  p ← translate m (u32 a); Some (ld (ram m) (p - p mod 4) / 256 ^ (p mod 4) mod 256).

Fixpoint number_at m (a : Z) (n : nat) : option Z :=
  match n with
  | O => Some 0
  | S n => b ← byte_at m a; v ← number_at m (a + 1) n; Some (b + 256 * v)
  end.

Definition descriptor_at m (a : Z) : option descriptor :=
  l0 ← number_at m a 2; b0 ← number_at m (a + 2) 2; b2 ← number_at m (a + 4) 1;
  x ← number_at m (a + 5) 1; g ← number_at m (a + 6) 1; b3 ← number_at m (a + 7) 1;
  Some (decode (GdtEntry l0 b0 b2 x g b3)).

(** The table whose limit and base are at [p]; it is read once, here. *)
Definition table_at m (p : Z) : option (list descriptor) :=
  limit ← number_at m p 2;
  base ← number_at m (p + 2) 4;
  mapM (λ i, descriptor_at m (base + 8 * i)) (seqZ 0 ((limit + 1) / 8)).

Definition load_table (b : option reg) : M (machine X) unit :=
  l ← gets cpl;
  p ← gets (offset_of b 0);
  d ← gets (λ m, desc (sr m (segment_of b)));
  if (l =? 0) && readable d && (p + 5 <=? d_last d) then
    t ← (gets (λ m, table_at m (d_base d + p)) ≫= of_option);
    modify (set_table t)
  else fault.

(** The selector of a task state segment that is free. *)
Definition load_task (v : Z) : M (machine X) unit :=
  l ← gets cpl;
  d ← (gets (λ m, table m !! Z.to_nat (v / 8)) ≫= of_option);
  if (l =? 0) && negb (Z.testbit v 2) && d_present d && negb (d_code_or_data d) && (d_type d =? 9)
  then mret tt else fault.

Definition IF_BIT : Z := 9.

(** The interrupt flag may only be changed by the kernel. *)
Definition set_if (b : bool) : M (machine X) unit :=
  l ← gets cpl;
  if l =? 0 then modify (λ m, set_flags (if b then Z.setbit (mflags m) IF_BIT else Z.clearbit (mflags m) IF_BIT) m)
  else fault.

(** The flags zero, sign and overflow. *)
Definition with_result (f r : Z) (overflow : bool) : Z :=
  Z.lor (Z.ldiff f 0x8C0)
    ((if r =? 0 then 0x40 else 0) + (if Z.testbit r 31 then 0x80 else 0) + (if overflow then 0x800 else 0)).

Definition signed (z : Z) : Z := (z + 2147483648) mod 4294967296 - 2147483648.

Definition is_signed (z : Z) : bool := (-2147483648 <=? z) && (z <? 2147483648).

(** Lower or equal, of signed numbers. *)
Definition le_flags (f : Z) : bool := Z.testbit f 6 || xorb (Z.testbit f 7) (Z.testbit f 11).
End machine.

(** ** Instructions

    In the order of AT&T syntax: the source before the destination. *)

Inductive instr :=
| Cli
| Sti
| PushI (n : Z)
| PushR (r : reg)
| PushS (s : seg)
| PushM (d : Z) (b : option reg)
| PopR (r : reg)
| PopS (s : seg)
| MovI (n : Z) (r : reg)
| MovI16 (n : Z) (r : reg)
| MovS (r : reg) (s : seg)
| Load (d : Z) (b : option reg) (r : reg)
| Store (r : reg) (d : Z) (b : option reg)
| AddI (n : Z) (r : reg)
| AndI (n : Z) (r : reg)
| OrI (n : Z) (r : reg)
| CmpI (n : Z) (r : reg)
| MovFromCr (c : creg) (r : reg)
| MovToCr (r : reg) (c : creg)
| Pusha
| Popa
| Jmp (l : string)
| Jle (l : string)
| JmpR (r : reg)
| Call (f : string)
| Ret
| Iret
| Load16 (d : Z) (b : option reg) (r : reg)
| Lgdt (b : option reg)
| Ltr (r : reg)
| JmpFar (s : Z) (l : string)
| MovR (r r' : reg)
| Invlpg (b : option reg)
| Load8 (d : Z) (b : option reg) (r : reg)
| Port (x : string).

(** Where to go on: with the next instruction, at a label, or back to an address
    outside of the program. *)
Inductive next := Next | Goto (l : string) | Leave (eip : Z).

Abbreviation program := (list (string * list instr)).

(** The code from a label on; it falls through to the labels that follow. *)
Fixpoint from (l : string) (p : program) : list instr :=
  match p with
  | [] => []
  | (l', c) :: p => if decide (l = l') then c ++ concat (snd <$> p) else from l p
  end.

Section run.
Context {X : Type} (prog : program) (sym : string → Z) (ext : string → M (machine X) unit).
Implicit Types m : machine X.

Definition next_instr (c : M (machine X) unit) : M (machine X) next := c ≫= λ _, mret Next.

(** The registers [popa] restores, last pushed first; that of the stack is skipped. *)
Definition popa_order : list (option reg) :=
  [Some EDI; Some ESI; Some EBP; None; Some EBX; Some EDX; Some ECX; Some EAX].

(** The label an address stands for. *)
Definition label_at (a : Z) : option string := fst <$> head (filter (λ p, sym p.1 = a) prog).

(** There is no translation cache, so that [invlpg] has nothing to do.
    [sym] gives labels their addresses, and [sym f] with a function [f] that is
    called the address after the call; [ext f] runs [f], its [ret] included. An [in] or [out] is
    [Port], and [ext x] what the device does. *)
Definition exec (i : instr) : M (machine X) next :=
  match i with
  | Cli => next_instr (set_if false)
  | Sti => next_instr (set_if true)
  | PushI n => next_instr (push (u32 n))
  | PushR r => next_instr (v ← gets (λ m, gr m r); push v)
  | PushS s => next_instr (v ← gets (λ m, sel (sr m s)); push v)
  | PushM d b => next_instr (o ← gets (offset_of b d); v ← read (segment_of b) o; push v)
  | PopR r => next_instr (v ← pop; modify (set_gr r v))
  | PopS s => next_instr (v ← pop; load_data s (u16 v))
  | MovI n r => next_instr (modify (set_gr r (u32 n)))
  | MovI16 n r => next_instr (modify (λ m, set_gr r (gr m r / 65536 * 65536 + u16 n) m))
  | MovS r s => next_instr (v ← gets (λ m, gr m r); load_data s (u16 v))
  | Load d b r => next_instr (o ← gets (offset_of b d); v ← read (segment_of b) o; modify (set_gr r v))
  | Store r d b => next_instr (o ← gets (offset_of b d); v ← gets (λ m, gr m r); write (segment_of b) o v)
  | AddI n r => next_instr (modify (λ m, let a := gr m r in
      set_flags (with_result (mflags m) (u32 (a + n)) (negb (is_signed (signed a + signed n)))) (set_gr r (u32 (a + n)) m)))
  | AndI n r => next_instr (modify (λ m, let v := Z.land (gr m r) (u32 n) in
      set_flags (with_result (mflags m) v false) (set_gr r v m)))
  | OrI n r => next_instr (modify (λ m, let v := Z.lor (gr m r) (u32 n) in
      set_flags (with_result (mflags m) v false) (set_gr r v m)))
  | CmpI n r => next_instr (modify (λ m, let a := gr m r in
      set_flags (with_result (mflags m) (u32 (a - n)) (negb (is_signed (signed a - signed n)))) m))
  | MovFromCr c r => next_instr (modify (λ m, set_gr r (cr m c) m))
  | MovToCr r c => next_instr (modify (λ m, set_cr c (gr m r) m))
  | Pusha => next_instr (g ← gets gr; for_each [EAX; ECX; EDX; EBX; ESP; EBP; ESI; EDI] (λ r, push (g r)))
  | Popa => next_instr (for_each popa_order (λ o, v ← pop;
      match o with Some r => modify (set_gr r v) | None => mret tt end))
  | Jmp l => mret (Goto l)
  | Jle l => b ← gets (λ m, le_flags (mflags m)); mret (if b : bool then Goto l else Next)
  | JmpR r =>
    a ← gets (λ m, gr m r);
    (gets (λ m, translate m a) ≫= of_option) ≫= λ _,
    l ← of_option (label_at a); mret (Goto l)
  | Call f => push (sym f) ≫= λ _, next_instr (ext f)
  | Ret => e ← pop; mret (Leave e)
  | Iret => e ← pop; c ← pop; f ← pop; load_code (u16 c) ≫= λ _, modify (set_flags f) ≫= λ _, mret (Leave e)
  | Load16 d b r => next_instr (o ← gets (offset_of b d); v ← read (segment_of b) o;
      modify (λ m, set_gr r (gr m r / 65536 * 65536 + u16 v) m))
  | Lgdt b => next_instr (load_table b)
  | Ltr r => next_instr (v ← gets (λ m, gr m r); load_task (u16 v))
  | JmpFar s l => load_code (u16 s) ≫= λ _, mret (Goto l)
  | MovR r r' => next_instr (v ← gets (λ m, gr m r); modify (set_gr r' v))
  | Invlpg b => l ← gets cpl; if l =? 0 then mret Next else fault
  | Load8 d b r => next_instr (o ← gets (offset_of b d); v ← read (segment_of b) o;
      modify (λ m, set_gr r (gr m r / 256 * 256 + u8 v) m))
  | Port x => next_instr (ext x)
  end.

(** A run of a list of instructions; it answers the address it leaves for. *)
Fixpoint run (fuel : nat) (code : list instr) : M (machine X) Z :=
  match fuel, code with
  | O, _ => out_of_fuel
  | _, [] => fault
  | S fuel, i :: code =>
    n ← exec i;
    match n with
    | Next => run fuel code
    | Goto l => run fuel (from l prog)
    | Leave e => mret e
    end
  end.
End run.

(** ** Labels *)

Lemma from_label (p : program) i l c :
  NoDup p.*1 → p !! i = Some (l, c) → ∃ rest, from l p = c ++ rest.
Proof.
  revert i. induction p as [|[l1 c1] p IH]; intros i Hd Hi; [done|]. apply NoDup_cons in Hd as [Hn Hd].
  destruct i as [|i]; simpl in Hi.
  - injection Hi as -> ->. simpl. rewrite decide_True by done. eauto.
  - simpl. rewrite decide_False; [by apply (IH i)|]. intros ->. apply Hn. apply list_elem_of_fmap.
    exists (l1, c). split; [done|]. by apply list_elem_of_lookup_2 with i.
Qed.

Lemma label_at_address (p : program) sym i l c :
  NoDup ((λ x, sym x.1) <$> p) → p !! i = Some (l, c) → label_at p sym (sym l) = Some l.
Proof.
  unfold label_at. revert i. induction p as [|[l1 c1] p IH]; intros i Hd Hi; [done|].
  apply NoDup_cons in Hd as [Hn Hd]. destruct i as [|i]; simpl in Hi.
  - injection Hi as -> ->. by rewrite filter_cons_True.
  - rewrite filter_cons_False; [by apply (IH i)|]. simpl. intros E. apply Hn. simpl. rewrite E.
    apply list_elem_of_fmap. exists (l, c). split; [done|]. by apply list_elem_of_lookup_2 with i.
Qed.

(** ** Flags *)

Lemma with_result_bits f r o :
  Z.testbit (with_result f r o) 6 = (r =? 0) ∧ Z.testbit (with_result f r o) 7 = Z.testbit r 31 ∧
  Z.testbit (with_result f r o) 11 = o.
Proof.
  unfold with_result. rewrite !Z.lor_spec, !Z.ldiff_spec.
  replace (Z.testbit 2240 6) with true by done. replace (Z.testbit 2240 7) with true by done.
  replace (Z.testbit 2240 11) with true by done. cbn [negb]. rewrite !andb_false_r. cbn [orb].
  by destruct (r =? 0), (Z.testbit r 31), o.
Qed.

(** The sign of a 32-bit number is its highest bit. *)
Lemma testbit_31 z : is_u32 z → Z.testbit z 31 = (2147483648 <=? z).
Proof.
  intros Hz. destruct (Z.leb_spec 2147483648 z).
  - apply Z.testbit_true; [lia|]. change (2 ^ 31) with 2147483648. Z.to_euclidean_division_equations; lia.
  - apply Z.testbit_false; [lia|]. change (2 ^ 31) with 2147483648. rewrite Z.div_small by lia. done.
Qed.

(** [jle] after [cmp], on numbers without a sign. *)
Lemma compared f a b :
  0 <= a < 2147483648 → 0 <= b < 2147483648 →
  le_flags (with_result f (u32 (a - b)) (negb (is_signed (signed a - signed b)))) = (a <=? b).
Proof.
  intros Ha Hb. unfold le_flags. destruct (with_result_bits f (u32 (a - b)) (negb (is_signed (signed a - signed b))))
    as (-> & -> & ->). rewrite testbit_31 by apply u32_range.
  assert (Es : ∀ z, 0 <= z < 2147483648 → signed z = z) by (intros z Hz; unfold signed; rewrite Z.mod_small; lia).
  rewrite !Es by done. replace (is_signed (a - b)) with true by (unfold is_signed; lia). cbn [negb].
  rewrite xorb_false_r. destruct (Z.ltb_spec a b).
  - replace (u32 (a - b)) with (a - b + 4294967296) by clia. lia.
  - rewrite u32_small by lia. lia.
Qed.
