(* ===== verification/StackView.v ===== *)
(** * StackView: assembler code that works on a stack, as computations on a list

    A routine that pushes, pops and calls runs the same on a machine whose stack
    is a list of words ([view]) as on [Machine], as long as the words of its stack
    are translated, each to its own place, away from the tables that translate
    them. What such a routine does can then be computed on the list. *)

From S2P Require Import Prelude Mmu Gdt Machine.

Section view.
Context {X : Type}.
Implicit Types m : machine X.

(** ** Words that are apart

    [own a] tells the addresses, [at_ a] is where such a word is in memory. *)

(** The entries the translation of [a] reads. *)
Definition tables m (a : Z) : list Z :=
  if paging_on m then
    let pdt := hw_base (cr m CR3) in [pdt + 4 * (a / 4194304); pte_addr (pde_of (ram m) pdt a) a]
  else [].

Lemma translate_kept m (p w a : Z) :
  p ∉ tables m a →
  translate (set_ram (<[p := w]> (ram m)) m) a = translate m a ∧
  tables (set_ram (<[p := w]> (ram m)) m) a = tables m a.
Proof.
  unfold tables, translate, paging_on. cbn [set_ram cr ram]. destruct (Z.testbit (cr m CR0) 31); [|by split].
  intros [Hd [Ht _]%not_elem_of_cons]%not_elem_of_cons.
  assert (E : pde_of (<[p := w]> (ram m)) (hw_base (cr m CR3)) a = pde_of (ram m) (hw_base (cr m CR3)) a)
    by (unfold pde_of; by rewrite ld_insert_ne).
  rewrite E. split; [|done]. destruct (Z.testbit (cr m CR4) 4); [|done]. apply walk_ext; [exact E|].
  intros _ _. by rewrite ld_insert_ne.
Qed.

Context (own : Z → Prop) (at_ : Z → Z).
Context (at_inj : ∀ a b, own a → own b → at_ a = at_ b → a = b).

Record owned m : Prop := Owned {
  ow_address a : own a → 0 <= a < 4294967296 ∧ a mod 4 = 0 ∧ translate m a = Some (at_ a);
  ow_apart a b : own a → own b → at_ a ∉ tables m b
}.

Definition word m (a : Z) : Z := ld (ram m) (at_ a).
Definition set_word (a w : Z) m : machine X := set_ram (<[at_ a := w]> (ram m)) m.

Lemma owned_set m a w : owned m → own a → owned (set_word a w m).
Proof.
  intros [Ha Hp] Ho. split.
  - intros b Hb. destruct (Ha b Hb) as (?&?&?). split_and!; try done; try lia.
    unfold set_word. by rewrite (proj1 (translate_kept m (at_ a) w b (Hp a b Ho Hb))).
  - intros b c Hb Hc. unfold set_word. rewrite (proj2 (translate_kept m (at_ a) w c (Hp a c Ho Hc))). by apply Hp.
Qed.

Lemma word_set_eq m (a w : Z) : word (set_word a w m) a = w.
Proof. apply ld_insert_eq. Qed.

Lemma word_set_ne m a w b : own a → own b → a ≠ b → word (set_word a w m) b = word m b.
Proof using at_inj. intros Ha Hb Hne. apply ld_insert_ne. intros E. by apply Hne, at_inj. Qed.

(** Flat segments: all of the address space. *)
Definition flat_data (d : descriptor) : Prop := writable d = true ∧ d_base d = 0 ∧ d_last d = 4294967295.
Definition flat_read (d : descriptor) : Prop := readable d = true ∧ d_base d = 0 ∧ d_last d = 4294967295.

Lemma flat_data_read d : flat_data d → flat_read d.
Proof.
  unfold flat_data, flat_read, writable, readable. intros (H&?&?). split; [|done].
  apply andb_prop in H as [H _]. apply andb_prop in H as [-> H]. by apply negb_true_iff in H as ->.
Qed.

Lemma resolve_owned m (b : bool) (s : seg) a :
  owned m → own a → (if b then flat_data (desc (sr m s)) else flat_read (desc (sr m s))) →
  resolve b s a m = Some (at_ a).
Proof.
  intros Ho Ha Hd. destruct (ow_address m Ho a Ha) as (Hr & H4 & Ht). unfold resolve, linear.
  assert (Hf : (if b then writable (desc (sr m s)) else readable (desc (sr m s))) = true ∧
    d_base (desc (sr m s)) = 0 ∧ d_last (desc (sr m s)) = 4294967295) by (by destruct b).
  destruct Hf as (-> & -> & ->). assert (a + 3 <= 4294967295) by (Z.to_euclidean_division_equations; lia).
  rewrite (proj2 (Z.leb_le _ _)) by done. cbn [andb mbind option_bind]. rewrite Z.add_0_l, u32_small by lia. by rewrite H4.
Qed.

Lemma read_owned m s a : owned m → own a → flat_read (desc (sr m s)) → read s a m = Ok (word m a, m).
Proof. intros Ho Ha Hd. unfold read. by rewrite (resolve_owned m false s a Ho Ha Hd). Qed.

Lemma write_owned m s a w :
  owned m → own a → flat_data (desc (sr m s)) → write s a w m = Ok (tt, set_word a w m).
Proof. intros Ho Ha Hd. unfold write. by rewrite (resolve_owned m true s a Ho Ha Hd). Qed.

(** ** The view

    The registers but for the stack's, the words from the stack pointer up to
    [top], and how many more fit below. [heap] are words elsewhere, that are read. *)

Record view := View {
  v_gr : reg → Z;
  v_sr : seg → segment;
  v_flags : Z;
  v_room : nat;
  v_stack : list Z;
  v_world : X
}.

Context (top : Z) (size : nat) (heap : gmap Z Z) (control : creg → Z) (descriptors : list descriptor) (ram0 : gmap Z Z).

(** The words of the stack, the first at [top - 4], and those of the heap. *)
Record arranged : Prop := Arranged {
  ar_top : 4 * Z.of_nat size <= top < 4294967296;
  ar_stack i : 0 <= i < Z.of_nat size → own (top - 4 * (i + 1));
  ar_heap a w : heap !! a = Some w → own a ∧ ∀ i, 0 <= i < Z.of_nat size → a ≠ top - 4 * (i + 1)
}.

(** The address of the word [i] of a stack of [n]. *)
Definition slot (n i : nat) : Z := top - 4 * (Z.of_nat n - Z.of_nat i).

Record represents m (V : view) : Prop := Represents {
  re_gr r : r ≠ ESP → gr m r = v_gr V r;
  re_esp : gr m ESP = top - 4 * Z.of_nat (length (v_stack V));
  re_sr s : sr m s = v_sr V s;
  re_ss : flat_data (desc (v_sr V SS));
  re_flags : mflags m = v_flags V;
  re_world : world m = v_world V;
  re_cr c : cr m c = control c;
  re_table : table m = descriptors;
  re_owned : owned m;
  re_size : (length (v_stack V) + v_room V = size)%nat;
  re_stack i w : v_stack V !! i = Some w → word m (slot (length (v_stack V)) i) = w;
  re_heap a w : heap !! a = Some w → word m a = w;
  re_rest p : (∀ a, own a → at_ a ≠ p) → ld (ram m) p = ld ram0 p
}.

Context (Harr : arranged).

Lemma slot_own n i : (i < n)%nat → (n <= size)%nat → own (slot n i).
Proof using Harr.
  intros Hi Hn. replace (slot n i) with (top - 4 * (Z.of_nat n - Z.of_nat i - 1 + 1)) by (unfold slot; lia).
  apply (ar_stack Harr). lia.
Qed.

(** ** What instructions do to a view *)

Definition v_esp (V : view) : Z := top - 4 * Z.of_nat (length (v_stack V)).
Definition v_reg (V : view) (r : reg) : Z := if decide (r = ESP) then v_esp V else v_gr V r.

Definition with_gr (r : reg) (x : Z) (V : view) : view :=
  View (upd r x (v_gr V)) (v_sr V) (v_flags V) (v_room V) (v_stack V) (v_world V).
Definition with_sr (s : seg) (x : segment) (V : view) : view :=
  View (v_gr V) (upd s x (v_sr V)) (v_flags V) (v_room V) (v_stack V) (v_world V).
Definition with_flags (f : Z) (V : view) : view :=
  View (v_gr V) (v_sr V) f (v_room V) (v_stack V) (v_world V).
Definition with_stack (n : nat) (l : list Z) (V : view) : view :=
  View (v_gr V) (v_sr V) (v_flags V) n l (v_world V).

Definition vpush (w : Z) (V : view) : option view :=
  match v_room V with O => None | S n => Some (with_stack n (w :: v_stack V) V) end.
Definition vpop (V : view) : option (Z * view) :=
  match v_stack V with [] => None | w :: l => Some (w, with_stack (S (v_room V)) l V) end.

Definition vload (s : seg) (v : Z) (V : view) : option view :=
  match s with
  | CS | SS => None
  | _ => x ← data_segment descriptors (sel (v_sr V CS) mod 4) (u16 v); Some (with_sr s x V)
  end.

(** The word at an address made from [eax] or given, in the flat segment of data. *)
Definition vread (d : Z) (b : option reg) (V : view) : option Z :=
  let ds := desc (v_sr V DS) in
  if readable ds && (d_base ds =? 0) && (d_last ds =? 4294967295) then
    match b with Some EAX => heap !! u32 (v_gr V EAX + d) | None => heap !! u32 d | _ => None end
  else None.

Definition vpush_all (l : list Z) (V : view) : option view := foldl (λ o w, o ≫= vpush w) (Some V) l.

Definition vpop_reg (o : option reg) (V : view) : option view :=
  '(w, V) ← vpop V; Some (match o with Some r => with_gr r w V | None => V end).

(** The instructions that only work on the stack and the registers. *)
Definition vexec (i : instr) (V : view) : option view :=
  match i with
  | Cli => if sel (v_sr V CS) mod 4 =? 0 then Some (with_flags (Z.clearbit (v_flags V) IF_BIT) V) else None
  | PushI n => vpush (u32 n) V
  | PushR r => vpush (v_reg V r) V
  | PushS s => vpush (sel (v_sr V s)) V
  | PopR ESP => None
  | PopR r => vpop_reg (Some r) V
  | PopS s => '(w, V) ← vpop V; vload s w V
  | MovI16 n ESP => None
  | MovI16 n r => Some (with_gr r (v_gr V r / 65536 * 65536 + u16 n) V)
  | MovS r s => vload s (v_reg V r) V
  | Load d (Some ESP) ESP => None
  | Load d (Some ESP) r =>
    if (0 <=? d) && (d mod 4 =? 0) then w ← v_stack V !! Z.to_nat (d / 4); Some (with_gr r w V) else None
  | Load d (Some EAX) r => if decide (r = ESP) then None else w ← vread d (Some EAX) V; Some (with_gr r w V)
  | PushM d b => w ← vread d b V; vpush w V
  | AddI n ESP =>
    if negb (n =? 4) then None else
    '(_, V') ← vpop V;
    Some (with_flags (with_result (v_flags V) (v_esp V') (negb (is_signed (signed (v_esp V) + signed 4)))) V')
  | Pusha => vpush_all (v_reg V <$> [EAX; ECX; EDX; EBX; ESP; EBP; ESI; EDI]) V
  | Popa => foldl (λ o r, o ≫= vpop_reg r) (Some V) popa_order
  | _ => None
  end.

Definition vrun (code : list instr) (V : view) : option view := foldl (λ o i, o ≫= vexec i) (Some V) code.

(** ** The machine does the same *)

Lemma upd_eq {R A} `{!EqDecision R} (r : R) (a : A) f : upd r a f r = a.
Proof. unfold upd. by rewrite decide_True. Qed.

Lemma upd_ne {R A} `{!EqDecision R} (r r' : R) (a : A) f : r' ≠ r → upd r a f r' = f r'.
Proof. intros. unfold upd. by rewrite decide_False. Qed.

(** Only the memory and the control registers matter. *)
Lemma owned_same m m' : ram m' = ram m → cr m' = cr m → owned m → owned m'.
Proof.
  intros Er Ec. assert (Et : ∀ a, translate m' a = translate m a ∧ tables m' a = tables m a)
    by (intros a; unfold translate, tables, paging_on; by rewrite Er, Ec).
  intros [Ha Hp]. split.
  - intros a H. destruct (Et a) as [-> _]. auto.
  - intros a b H1 H2. destruct (Et b) as [_ ->]. auto.
Qed.

Lemma set_gr_sim m V (r : reg) (x : Z) : represents m V → r ≠ ESP → represents (set_gr r x m) (with_gr r x V).
Proof.
  intros [] Hr. split; try done; cbn [gr set_gr with_gr v_gr v_stack]; [| |by apply (owned_same m)].
  - intros r' Hr'. unfold upd. by case_decide; auto.
  - by rewrite upd_ne.
Qed.

Lemma set_sr_sim m V (s : seg) (x : segment) :
  represents m V → s ≠ SS → represents (set_sr s x m) (with_sr s x V).
Proof.
  intros [] Hs. split; try done; cbn [sr set_sr with_sr v_sr]; [| |by apply (owned_same m)].
  - intros s'. unfold upd. by case_decide.
  - by rewrite upd_ne.
Qed.

Lemma set_flags_sim m V (f : Z) : represents m V → represents (set_flags f m) (with_flags f V).
Proof. intros []. split; try done. by apply (owned_same m). Qed.

Lemma reg_sim m V (r : reg) : represents m V → gr m r = v_reg V r.
Proof. intros []. unfold v_reg, v_esp. case_decide as E; [by rewrite E|auto]. Qed.

(** Room for one more word. *)
Lemma room_below m V n : represents m V → v_room V = S n → (S (length (v_stack V)) <= size)%nat ∧
  u32 (gr m ESP - 4) = slot (S (length (v_stack V))) 0.
Proof using Harr.
  intros [] Hn. rewrite Hn in re_size0. split; [lia|]. rewrite re_esp0. unfold slot.
  pose proof (ar_top Harr). rewrite u32_small; lia.
Qed.

Lemma push_sim m V V' (w : Z) :
  represents m V → vpush w V = Some V' → ∃ m', push w m = Ok (tt, m') ∧ represents m' V'.
Proof using Harr at_inj.
  intros Hm Hp. unfold vpush in Hp. destruct (v_room V) as [|n] eqn:En; [done|]. injection Hp as <-.
  destruct (room_below m V n Hm En) as [Hsz Ee]. set (k := S (length (v_stack V))) in *.
  pose proof (slot_own k 0 ltac:(lia) Hsz) as Hown. pose proof Hm as [].
  unfold push, mbind, M_bind, gets. rewrite Ee.
  rewrite (write_owned m SS (slot k 0) w re_owned0 Hown) by (by rewrite re_sr0).
  eexists. split; [reflexivity|].
  assert (Hword : ∀ b, own b → slot k 0 ≠ b → word (set_word (slot k 0) w m) b = word m b)
    by (intros b Hb Hne; by apply word_set_ne).
  split; cbn [with_stack v_stack v_gr v_sr v_flags v_world v_room set_gr gr sr mflags world cr table]; try done.
  - intros r Hr. by rewrite upd_ne, <- re_gr0.
  - by apply (owned_same (set_word (slot k 0) w m)), owned_set.
  - cbn [length]. lia.
  - intros [|i] w' Hi; simpl in Hi.
    + injection Hi as <-. apply (word_set_eq m).
    + pose proof (lookup_lt_Some _ _ _ Hi) as Hlt.
      change (word (set_word (slot k 0) w m) (slot k (S i)) = w'). rewrite Hword.
      * rewrite <- (re_stack0 i w' Hi). f_equal. unfold slot, k. lia.
      * apply slot_own; [unfold k; lia|done].
      * unfold slot, k. lia.
  - intros a w' Ha. destruct (ar_heap Harr a w' Ha) as [Hoa Hne]. rewrite <- (re_heap0 a w' Ha). apply Hword; [done|].
    specialize (Hne (Z.of_nat k - 1) ltac:(unfold k in *; lia)). unfold slot, k in *. intros <-. apply Hne. lia.
  - intros p Hp. rewrite <- (re_rest0 p Hp). apply ld_insert_ne. by apply Hp.
Qed.

Lemma pop_sim m V V' (w : Z) :
  represents m V → vpop V = Some (w, V') →
  let m' := set_gr ESP (u32 (gr m ESP + 4)) m in pop m = Ok (w, m') ∧ represents m' V'.
Proof using Harr.
  intros Hm Hp m'. unfold vpop in Hp. destruct (v_stack V) as [|w' l] eqn:El; [done|]. injection Hp as -> <-.
  pose proof Hm as []. rewrite El in *. cbn [length] in *.
  assert (Ee : gr m ESP = slot (S (length l)) 0) by (rewrite re_esp0; unfold slot; lia).
  pose proof (slot_own (S (length l)) 0 ltac:(lia) ltac:(lia)) as Hown.
  split; [unfold pop, mbind, M_bind, gets, m'; rewrite Ee;
    rewrite (read_owned m SS _ re_owned0 Hown) by (apply flat_data_read; by rewrite re_sr0);
    by rewrite (re_stack0 0%nat w eq_refl)|].
  unfold m'. rewrite Ee. clear m'. split; cbn [with_stack v_stack v_gr v_sr v_flags v_world v_room set_gr gr sr mflags world cr table]; try done.
  - intros r Hr. by rewrite upd_ne, <- re_gr0.
  - rewrite upd_eq. unfold slot. pose proof (ar_top Harr). rewrite u32_small; lia.
  - by apply (owned_same m).
  - lia.
  - intros i x Hi. rewrite <- (re_stack0 (S i) x Hi). unfold word. cbn [set_gr ram]. do 2 f_equal. unfold slot. lia.
Qed.

Lemma load_data_sim m V V' (s : seg) (v : Z) :
  represents m V → vload s v V = Some V' → ∃ m', load_data s (u16 v) m = Ok (tt, m') ∧ represents m' V'.
Proof.
  intros Hm Hv. assert (Hs : s ≠ SS ∧ (x ← data_segment descriptors (sel (v_sr V CS) mod 4) (u16 v);
    Some (with_sr s x V)) = Some V') by (by destruct s).
  destruct Hs as [Hs E]. destruct (data_segment _ _ _) as [x|] eqn:Ed; [|done]. injection E as <-. pose proof Hm as [].
  exists (set_sr s x m). split; [|by apply set_sr_sim].
  unfold load_data. rewrite decide_False by done. unfold mbind, M_bind, gets, of_option, cpl. by rewrite re_table0, re_sr0, Ed.
Qed.

Lemma vpop_reg_sim m V V' (o : option reg) :
  represents m V → o ≠ Some ESP → vpop_reg o V = Some V' →
  ∃ m', (v ← pop; match o with Some r => modify (set_gr r v) | None => mret tt end) m = Ok (tt, m') ∧ represents m' V'.
Proof using Harr.
  intros Hm Ho Hv. unfold vpop_reg in Hv. destruct (vpop V) as [[w V1]|] eqn:Ep; [|done]. simpl in Hv. injection Hv as <-.
  destruct (pop_sim m V V1 w Hm Ep) as (E & Hm1). rewrite (bind_ok _ _ _ _ _ E). set (m1 := set_gr ESP _ m) in *.
  destruct o as [r|]; [|by exists m1]. exists (set_gr r w m1). split; [done|]. apply set_gr_sim; congruence.
Qed.

(** A list of steps, each from a view to the next. *)
Lemma steps_sim {A} (f : A → view → option view) (g : A → M (machine X) unit) (P : A → Prop) l :
  (∀ a m V V', P a → represents m V → f a V = Some V' → ∃ m', g a m = Ok (tt, m') ∧ represents m' V') →
  Forall P l → ∀ m V V', represents m V → foldl (λ o a, o ≫= f a) (Some V) l = Some V' →
  ∃ m', for_each l g m = Ok (tt, m') ∧ represents m' V'.
Proof.
  intros Hstep Hl. induction Hl as [|a l Ha _ IH]; intros m V V' Hm Hf; simpl in Hf.
  { injection Hf as <-. by exists m. }
  destruct (f a V) as [V1|] eqn:E1.
  - destruct (Hstep a m V V1 Ha Hm E1) as (m1 & Eg & Hm1). destruct (IH m1 V1 V' Hm1 Hf) as (m2 & E2 & Hm2).
    exists m2. split; [|done]. cbn [for_each]. by rewrite (bind_ok _ _ _ _ _ Eg).
  - exfalso. clear -Hf. induction l; by simpl in *.
Qed.

Lemma read_heap m V (b : option reg) (d w : Z) :
  represents m V → vread d b V = Some w → read (segment_of b) (offset_of b d m) m = Ok (w, m).
Proof using Harr.
  intros [] Hr. unfold vread in Hr. destruct (readable _ && _ && _) eqn:Ed; [|done].
  apply andb_prop in Ed as [[Hd Hb%Z.eqb_eq]%andb_prop Hl%Z.eqb_eq].
  assert (Ha : ∃ a, offset_of b d m = a ∧ segment_of b = DS ∧ heap !! a = Some w).
  { destruct b as [[]|]; try done; eexists; split; try done. cbn [offset_of]. by rewrite re_gr0. }
  destruct Ha as (a & -> & -> & Ha). destruct (ar_heap Harr _ _ Ha) as [Hown _].
  rewrite (read_owned m DS _ re_owned0 Hown) by (by rewrite re_sr0). by rewrite (re_heap0 _ _ Ha).
Qed.

Lemma read_stack m V (d w : Z) :
  represents m V → 0 <= d → d mod 4 = 0 → v_stack V !! Z.to_nat (d / 4) = Some w →
  read SS (u32 (gr m ESP + d)) m = Ok (w, m).
Proof using Harr.
  intros [] H0 H4 Hw. pose proof (lookup_lt_Some _ _ _ Hw) as Hlt. set (i := Z.to_nat (d / 4)) in *.
  assert (Ed : d = 4 * Z.of_nat i) by (unfold i; Z.to_euclidean_division_equations; lia).
  assert (Es : u32 (gr m ESP + d) = slot (length (v_stack V)) i).
  { rewrite re_esp0. unfold slot. pose proof (ar_top Harr). rewrite u32_small; lia. }
  rewrite Es, (read_owned m SS _ re_owned0); [by rewrite (re_stack0 _ _ Hw)|apply slot_own; lia|].
  apply flat_data_read. by rewrite re_sr0.
Qed.

Context (prog : program) (sym : string → Z) (ext : string → M (machine X) unit).

Lemma next_ok (c : M (machine X) unit) m m' : c m = Ok (tt, m') → next_instr c m = Ok (Next, m').
Proof. intros E. unfold next_instr. by rewrite (bind_ok _ _ _ _ _ E). Qed.

(** One instruction. *)
Lemma vexec_sim (i : instr) m V V' :
  represents m V → vexec i V = Some V' → ∃ m', exec prog sym ext i m = Ok (Next, m') ∧ represents m' V'.
Proof using Harr at_inj.
  intros Hm Hi.
  assert (Hnext : ∀ c : M (machine X) unit, (∃ m', c m = Ok (tt, m') ∧ represents m' V') →
    ∃ m', next_instr c m = Ok (Next, m') ∧ represents m' V') by (intros c (m' & E & H); eauto using next_ok).
  destruct i; try discriminate Hi; cbn [exec]; try (apply Hnext; clear Hnext).
  - simpl in Hi. destruct (Z.eqb_spec (sel (v_sr V CS) mod 4) 0) as [E|]; [|done]. injection Hi as <-.
    pose proof Hm as []. exists (set_flags (Z.clearbit (mflags m) IF_BIT) m). split.
    + unfold set_if, mbind, M_bind, gets, cpl. by rewrite re_sr0, E.
    + rewrite re_flags0. by apply set_flags_sim.
  - by apply (push_sim m V V').
  - unfold mbind, M_bind, gets. rewrite (reg_sim m V) by done. by apply (push_sim m V V').
  - unfold mbind, M_bind, gets. rewrite (re_sr m V Hm). by apply (push_sim m V V').
  - simpl in Hi. destruct (vread d b V) as [w|] eqn:Er; [|done].
    rewrite (bind_ok _ _ m (offset_of b d m) m) by done.
    rewrite (bind_ok _ _ _ _ _ (read_heap m V b d w Hm Er)). by apply (push_sim m V V').
  - assert (Hr : r ≠ ESP ∧ vpop_reg (Some r) V = Some V') by (by destruct r). destruct Hr.
    apply (vpop_reg_sim m V V' (Some r)); [done|congruence|done].
  - simpl in Hi. destruct (vpop V) as [[w V1]|] eqn:Ep; [|done]. destruct (pop_sim m V V1 w Hm Ep) as (E & Hm1).
    rewrite (bind_ok _ _ _ _ _ E). by apply (load_data_sim _ V1).
  - assert (Hr : r ≠ ESP ∧ with_gr r (v_gr V r / 65536 * 65536 + u16 n) V = V') 
      by (destruct r; first [discriminate Hi|injection Hi as <-; by split]).
    destruct Hr as [Hr <-]. eexists. split; [reflexivity|]. rewrite (re_gr m V Hm r Hr). by apply set_gr_sim.
  - unfold mbind, M_bind, gets. rewrite (reg_sim m V) by done. by apply (load_data_sim m V).
  - destruct b as [b|]; [|discriminate Hi]. assert (Hb : b = EAX ∨ b = ESP) by (destruct b; auto; discriminate Hi).
    destruct Hb as [-> | ->].
    + simpl in Hi. case_decide as Hr; [done|]. destruct (vread d (Some EAX) V) as [w|] eqn:Er; [|done]. injection Hi as <-.
      rewrite (bind_ok _ _ m (offset_of (Some EAX) d m) m) by done.
      rewrite (bind_ok _ _ _ _ _ (read_heap m V (Some EAX) d w Hm Er)). exists (set_gr r w m). split; [done|]. by apply set_gr_sim.
    + assert (Hr : r ≠ ESP ∧ (if (0 <=? d) && (d mod 4 =? 0) then w ← v_stack V !! Z.to_nat (d / 4); Some (with_gr r w V)
        else None) = Some V') by (by destruct r). clear Hi. destruct Hr as [Hr Hi].
      destruct (Z.leb_spec 0 d) as [H0|]; [|done]. destruct (Z.eqb_spec (d mod 4) 0) as [H4|]; [|done].
      cbn [andb] in Hi. destruct (v_stack V !! _) as [w|] eqn:Ew; [|done]. injection Hi as <-.
      unfold offset_of, segment_of. rewrite (bind_ok _ _ m (u32 (gr m ESP + d)) m) by done.
      rewrite (bind_ok _ _ _ _ _ (read_stack m V d w Hm H0 H4 Ew)). exists (set_gr r w m). split; [done|].
      by apply set_gr_sim.
  - assert (Hr : r = ESP) by (destruct r; done || discriminate Hi). subst r. simpl in Hi.
    destruct (Z.eqb_spec n 4) as [->|]; [|done]. simpl in Hi. destruct (vpop V) as [[w V1]|] eqn:Ep; [|done].
    injection Hi as <-. destruct (pop_sim m V V1 w Hm Ep) as (E & Hm1). set (m1 := set_gr ESP _ m) in *.
    eexists. split; [reflexivity|]. cbv beta zeta. fold m1. rewrite (re_flags m V Hm).
    assert (E1 : u32 (gr m ESP + 4) = v_esp V1) 
      by (pose proof (re_esp m1 V1 Hm1) as He; unfold m1 in He; cbn [set_gr gr] in He; by rewrite upd_eq in He).
    rewrite E1, (re_esp m V Hm). by apply set_flags_sim.
  - assert (E : (g ← gets gr; for_each [EAX; ECX; EDX; EBX; ESP; EBP; ESI; EDI] (λ r, push (g r))) m
      = for_each (v_reg V <$> [EAX; ECX; EDX; EBX; ESP; EBP; ESI; EDI]) push m).
    { unfold mbind at 1, M_bind at 1, gets. cbn [for_each fmap list_fmap]. by rewrite !(reg_sim m V). }
    rewrite E. apply (steps_sim vpush push (λ _, True) _ (λ w m V V' _ Hm Hv, push_sim m V V' w Hm Hv)) with V; [|done..].
    by apply Forall_true.
  - apply (steps_sim vpop_reg (λ o, v ← pop; match o with Some r => modify (set_gr r v) | None => mret tt end)
      (λ o, o ≠ Some ESP) popa_order) with V; [|by repeat constructor|done..].
    intros o m0 V0 V0' Ho Hm0 Hv. by apply (vpop_reg_sim m0 V0 V0' o).
Qed.

(** A piece of code without jumps. *)
Lemma vrun_sim (code : list instr) : ∀ m V V',
  represents m V → vrun code V = Some V' →
  ∃ m', represents m' V' ∧ ∀ fuel rest, run prog sym ext (length code + fuel) (code ++ rest) m = run prog sym ext fuel rest m'.
Proof using Harr at_inj.
  induction code as [|i code IH]; intros m V V' Hm Hv; unfold vrun in Hv; simpl in Hv.
  { injection Hv as <-. by exists m. }
  destruct (vexec i V) as [V1|] eqn:E1.
  - destruct (vexec_sim i m V V1 Hm E1) as (m1 & E & Hm1). destruct (IH m1 V1 V' Hm1 Hv) as (m2 & Hm2 & Hrun).
    exists m2. split; [done|]. intros fuel rest. rewrite <- Hrun. simpl. by rewrite (bind_ok _ _ _ _ _ E).
  - exfalso. clear -Hv. induction code; by simpl in *.
Qed.
End view.

(** Compute on a view, an instruction at a time. *)
Lemma vrun_cons {X} top heap t (i : instr) code (V V' : @view X) :
  vexec top heap t i V = Some V' → vrun top heap t (i :: code) V = vrun top heap t code V'.
Proof. intros E. unfold vrun. simpl. by rewrite E. Qed.

Lemma vrun_app {X} top heap t c1 c2 (V V' : @view X) :
  vrun top heap t c1 V = Some V' → vrun top heap t (c1 ++ c2) V = vrun top heap t c2 V'.
Proof. intros E. unfold vrun in *. by rewrite foldl_app, E. Qed.

(** ** Regions

    The words a routine works on, and what stays as it is while it does. *)

Record region := Region {
  rg_own : Z → Prop;
  rg_at : Z → Z;
  rg_top : Z;
  rg_size : nat;
  rg_heap : gmap Z Z;
  rg_control : creg → Z;
  rg_table : list descriptor;
  rg_ram : gmap Z Z
}.

Record region_ok (R : region) : Prop := RegionOk {
  ro_inj a b : rg_own R a → rg_own R b → rg_at R a = rg_at R b → a = b;
  ro_arranged : arranged (rg_own R) (rg_top R) (rg_size R) (rg_heap R)
}.

Definition stands {X} (R : region) (m : machine X) (V : view) : Prop :=
  represents (rg_own R) (rg_at R) (rg_top R) (rg_size R) (rg_heap R) (rg_control R) (rg_table R) (rg_ram R) m V.

(** Registers and segments only matter one by one. *)
Lemma stands_ext {X} R (m : machine X) (V V' : view) :
  stands R m V → (∀ r, r ≠ ESP → v_gr V r = v_gr V' r) → (∀ x, v_sr V x = v_sr V' x) → v_flags V = v_flags V' →
  v_room V = v_room V' → v_stack V = v_stack V' → v_world V = v_world V' → stands R m V'.
Proof.
  destruct V as [g s f n l w], V' as [g' s' f' n' l' w']. simpl. intros [] Hg Hs -> -> -> ->. split; simpl in *; try done.
  - intros r Hr. by rewrite <- Hg, re_gr0.
  - intros x. by rewrite <- Hs.
  - by rewrite <- Hs.
Qed.

Section region.
Context {X : Type} (R : region) (HR : region_ok R).
Implicit Types (m : machine X) (V : @view X).

Lemma push_stands m g s f n l w x :
  stands R m (View g s f (S n) l w) → ∃ m', push x m = Ok (tt, m') ∧ stands R m' (View g s f n (x :: l) w).
Proof using HR. intros Hm. destruct HR as [Hi Ha]. by apply (push_sim _ _ Hi _ _ _ _ _ _ Ha m (View g s f (S n) l w)). Qed.

Lemma pop_stands m g s f n l w x :
  stands R m (View g s f n (x :: l) w) → ∃ m', pop m = Ok (x, m') ∧ stands R m' (View g s f (S n) l w).
Proof using HR.
  intros Hm. destruct HR as [_ Ha]. eexists.
  by apply (pop_sim _ _ _ _ _ _ _ _ Ha m (View g s f n (x :: l) w) (View g s f (S n) l w) x).
Qed.

(** A call: the address after it is pushed, and [f] runs. *)
Lemma call_stands prog sym ext f m V V' :
  stands R m V → vpush (sym f) V = Some V' → ∃ m', stands R m' V' ∧
    ∀ fuel rest, run prog sym ext (S fuel) (Call f :: rest) m = (ext f ≫= λ _, run prog sym ext fuel rest) m'.
Proof using HR.
  intros Hm HV. destruct HR as [Hi Ha].
  destruct (push_sim _ _ Hi _ _ _ _ _ _ Ha m V V' (sym f) Hm HV) as (m' & E & Hm'). exists m'. split; [exact Hm'|].
  intros fuel rest. cbn [run exec]. rewrite bind_assoc, (bind_ok _ _ _ _ _ E). unfold next_instr. rewrite bind_assoc.
  unfold mbind, M_bind. by destruct (ext f m') as [[]| |].
Qed.

(** The way back from an interrupt of the same privilege. *)
Lemma iret_stands prog sym ext m g s f n l w eip c fl x fuel rest :
  stands R m (View g s f n (eip :: c :: fl :: l) w) →
  code_segment (rg_table R) (sel (s CS) mod 4) (u16 c) = Some x →
  ∃ m', run prog sym ext (S fuel) (Iret :: rest) m = Ok (eip, m') ∧ stands R m' (View g (upd CS x s) fl (3 + n) l w).
Proof using HR.
  intros Hm Hx. destruct (pop_stands _ _ _ _ _ _ _ _ Hm) as (m1 & E1 & H1).
  destruct (pop_stands _ _ _ _ _ _ _ _ H1) as (m2 & E2 & H2). destruct (pop_stands _ _ _ _ _ _ _ _ H2) as (m3 & E3 & H3).
  exists (set_flags fl (set_sr CS x m3)). split.
  - cbn [run exec]. rewrite !bind_assoc, (bind_ok _ _ _ _ _ E1). rewrite !bind_assoc, (bind_ok _ _ _ _ _ E2).
    rewrite !bind_assoc, (bind_ok _ _ _ _ _ E3). rewrite !bind_assoc.
    assert (El : load_code (u16 c) m3 = Ok (tt, set_sr CS x m3)).
    { pose proof (re_table _ _ _ _ _ _ _ _ _ _ H3) as Et. pose proof (re_sr _ _ _ _ _ _ _ _ _ _ H3 CS) as Es.
      cbn [v_sr] in Es. unfold load_code, mbind, M_bind, gets, of_option, cpl. by rewrite Et, Es, Hx. }
    by rewrite (bind_ok _ _ _ _ _ El).
  - apply (set_flags_sim _ _ _ _ _ _ _ _ (set_sr CS x m3) (View g (upd CS x s) f (3 + n) l w)).
    by apply (set_sr_sim _ _ _ _ _ _ _ _ m3 (View g s f (3 + n) l w)).
Qed.

(** Code without jumps, computed on the view. *)
Lemma code_stands prog sym ext code m V V' :
  stands R m V → vrun (rg_top R) (rg_heap R) (rg_table R) code V = Some V' →
  ∃ m', stands R m' V' ∧
    ∀ fuel rest, run prog sym ext (length code + fuel) (code ++ rest) m = run prog sym ext fuel rest m'.
Proof using HR. destruct HR as [Hi Ha]. by apply (vrun_sim _ _ Hi _ _ _ _ _ _ Ha). Qed.
End region.
