(* ===== verification/Calls.v ===== *)
(** * Calls: routines in assembler that C calls with one argument

    What such a routine finds on its stack, and how it returns. *)

From S2P Require Import Prelude Mmu Gdt Machine StackView.

(** A routine was called with one argument: the return address and it are the two
    words on top of the stack. *)
Record called {X} (m : machine X) (ra arg : Z) : Prop := Called {
  cl_level : cpl m = 0;
  cl_stack : flat_read (desc (sr m SS));
  cl_esp : 0 <= gr m ESP ∧ gr m ESP + 8 <= 4294967296 ∧ gr m ESP mod 4 = 0;
  cl_return : ∃ p, translate m (gr m ESP) = Some p ∧ ld (ram m) p = ra;
  cl_argument : ∃ p, translate m (gr m ESP + 4) = Some p ∧ ld (ram m) p = arg
}.

Section calls.
Context {X : Type}.
Implicit Types m : machine X.

Lemma read_flat m s a p :
  flat_read (desc (sr m s)) → 0 <= a < 4294967296 → a mod 4 = 0 → translate m a = Some p →
  read s a m = Ok (ld (ram m) p, m).
Proof.
  intros (Hr & Hb & Hl) Ha H4 Hp. unfold read, Machine.resolve, linear. rewrite Hr, Hb, Hl.
  rewrite (proj2 (Z.leb_le _ _)) by (Z.to_euclidean_division_equations; lia). cbn [andb mbind option_bind].
  rewrite Z.add_0_l, u32_small, H4 by lia. by rewrite Hp.
Qed.

Lemma read_argument m ra arg : called m ra arg → read SS (u32 (gr m ESP + 4)) m = Ok (arg, m).
Proof.
  intros [_ Hs (H0 & H8 & H4) _ (p & Hp & <-)]. rewrite u32_small by lia.
  apply read_flat; [done|lia| |done]. Z.to_euclidean_division_equations; lia.
Qed.

Lemma pop_return m ra arg : called m ra arg → pop m = Ok (ra, set_gr ESP (gr m ESP + 4) m).
Proof.
  intros [_ Hs (H0 & H8 & H4) (p & Hp & <-) _]. unfold pop. rewrite (bind_ok _ _ m (gr m ESP) m) by done.
  rewrite (bind_ok _ _ _ _ _ (read_flat m SS (gr m ESP) p Hs ltac:(lia) H4 Hp)). by rewrite u32_small by lia.
Qed.

(** What a call needs is not in the registers but the stack's, nor in the table. *)
Lemma called_same m m' ra arg :
  called m ra arg → cpl m' = 0 → flat_read (desc (sr m' SS)) → gr m' ESP = gr m ESP → ram m' = ram m → cr m' = cr m →
  called m' ra arg.
Proof.
  intros [_ _ He Hr Ha] Hc Hs Eg Er Ec.
  assert (Et : ∀ a, translate m' a = translate m a) by (intros a; unfold translate, paging_on; by rewrite Er, Ec).
  split; [exact Hc|exact Hs|by rewrite Eg|rewrite Eg|rewrite Eg]; [destruct Hr as (p & ? & ?)|destruct Ha as (p & ? & ?)];
    exists p; by rewrite Et, Er.
Qed.
End calls.

Section run.
Context {X : Type} (prog : program) (sym : string → Z) (ext : string → M (machine X) unit).
Implicit Types m : machine X.

Lemma run_step i code m m' n :
  exec prog sym ext i m = Ok (Next, m') →
  run prog sym ext (S n) (i :: code) m = run prog sym ext n code m'.
Proof. intros E. cbn [run]. by rewrite (bind_ok _ _ _ _ _ E). Qed.

Lemma run_goto i code l m m' n :
  exec prog sym ext i m = Ok (Goto l, m') →
  run prog sym ext (S n) (i :: code) m = run prog sym ext n (from l prog) m'.
Proof. intros E. cbn [run]. by rewrite (bind_ok _ _ _ _ _ E). Qed.

Lemma run_ret code m ra arg n :
  called m ra arg →
  run prog sym ext (S n) (Ret :: code) m = Ok (ra, set_gr ESP (gr m ESP + 4) m).
Proof. intros Hc. cbn [run exec]. by rewrite bind_assoc, (bind_ok _ _ _ _ _ (pop_return m ra arg Hc)). Qed.
End run.
