(* ===== verification/Interrupts.v ===== *)
(** * Interrupts: the tables and handlers of kernel/arch/i386/interrupts.c

    The interrupt descriptor table, the tables of handlers, and the two C
    functions the stubs of interrupts_assembler.s call. The console takes part in
    the state: it shows the messages, and its ports are those of the machine. *)

From S2P Require Import Prelude Layout Tty TtyFacts TtySpec Printk.

(** ** State *)

Record idt_entry := IdtEntry {
  base_lo : Z;
  selector : Z;
  always0 : Z;
  flags : Z;
  base_hi : Z
}.

Record registers := Registers {
  gs : Z; fs : Z; es : Z; ds : Z;
  edi : Z; esi : Z; ebp : Z; esp : Z; ebx : Z; edx : Z; ecx : Z; eax : Z;
  interrupt_number : Z; error_code : Z;
  eip : Z; cs : Z; eflags : Z; useresp : Z; ss : Z
}.

(** The functions whose addresses are put in the tables of handlers. *)
Inductive irq_t := keyboard_handler | timer_handler.

(** [lidt] is what [idt_flush] of interrupts_assembler.s loaded, [kbd] the byte
    the keyboard's data port gives, [tick] the static of timer.c. *)
Record cpu := Cpu {
  idt_entries : list idt_entry;
  idt_ptr : Z * Z;
  exception_handlers : list (option irq_t);
  interrupt_handlers : list (option irq_t);
  lidt : option (Z * Z);
  con : tty;
  kbd : Z;
  tick : Z
}.

Definition set_idt (l : list idt_entry) (s : cpu) : cpu :=
  Cpu l (idt_ptr s) (exception_handlers s) (interrupt_handlers s) (lidt s) (con s) (kbd s) (tick s).
Definition set_idt_ptr (p : Z * Z) (s : cpu) : cpu :=
  Cpu (idt_entries s) p (exception_handlers s) (interrupt_handlers s) (lidt s) (con s) (kbd s) (tick s).
Definition set_exception_handlers (l : list (option irq_t)) (s : cpu) : cpu :=
  Cpu (idt_entries s) (idt_ptr s) l (interrupt_handlers s) (lidt s) (con s) (kbd s) (tick s).
Definition set_interrupt_handlers (l : list (option irq_t)) (s : cpu) : cpu :=
  Cpu (idt_entries s) (idt_ptr s) (exception_handlers s) l (lidt s) (con s) (kbd s) (tick s).
Definition set_lidt (p : Z * Z) (s : cpu) : cpu :=
  Cpu (idt_entries s) (idt_ptr s) (exception_handlers s) (interrupt_handlers s) (Some p) (con s) (kbd s) (tick s).
Definition set_con (c : tty) (s : cpu) : cpu :=
  Cpu (idt_entries s) (idt_ptr s) (exception_handlers s) (interrupt_handlers s) (lidt s) c (kbd s) (tick s).
Definition set_tick (n : Z) (s : cpu) : cpu :=
  Cpu (idt_entries s) (idt_ptr s) (exception_handlers s) (interrupt_handlers s) (lidt s) (con s) (kbd s) n.

Definition outb (port value : Z) : M cpu unit := zoom con set_con (Tty.outb port value).
Definition printk (fmt : list Z) (args : list arg) : M cpu unit := zoom con set_con (Printk.printk fmt args).

(** ** The descriptor table *)

Definition idt_set_gate (number base sel fl : Z) : M cpu unit :=
  let number := u8 number in
  l ← gets idt_entries;
  of_option (l !! Z.to_nat number) ≫= λ _,
  modify (λ s, set_idt (<[Z.to_nat number := IdtEntry
    (Z.land base 0xFFFF) sel 0 (Z.lor fl 0x60) (Z.land (Z.shiftr base 16) 0xFFFF)]> l) s).

Definition sizeof_idt_entry : Z := Eval vm_compute in sizeof idt_entry_struct.

(** [idt_vaddr] is the address of the static [idt_entries]. *)
Definition clear_idt (idt_vaddr : Z) : M cpu unit :=
  modify (set_idt_ptr (u16 (sizeof_idt_entry * 256 - 1), idt_vaddr)) ≫= λ _,
  modify (set_idt (replicate 256 (IdtEntry 0 0 0 0 0))).

Definition idt_flush : M cpu unit := modify (λ s, set_lidt (idt_ptr s) s).

(** The addresses of the stubs [isr0]... and [irq0]... of interrupts_assembler.s
    are arguments of the functions below. *)
Definition init_isr (isr : Z → Z) : M cpu unit :=
  modify (set_exception_handlers (replicate 32 None)) ≫= λ _,
  for_each (seqZ 0 32) (λ n, idt_set_gate n (isr n) 0x08 0x8E).

(** The two interrupt controllers are told their vectors, and the gates set. *)
Definition init_irq (irq : Z → Z) : M cpu unit :=
  for_each [(0x20, 0x11); (0xA0, 0x11); (0x21, 0x20); (0xA1, 0x28); (0x21, 0x04); (0xA1, 0x02);
            (0x21, 0x01); (0xA1, 0x01); (0x21, 0x0); (0xA1, 0x0)] (λ '(p, v), outb p v) ≫= λ _,
  for_each (seqZ 0 16) (λ n, idt_set_gate (32 + n) (irq n) 0x08 0x8E).

Definition line (s : string) : list Z := bytes_of s ++ [NEWLINE].

Definition interrupts_init (isr irq : Z → Z) : M cpu unit :=
  init_isr isr ≫= λ _,
  init_irq irq ≫= λ _,
  idt_flush ≫= λ _,
  printk (line "Interrupts enabled.") [].

(** ** Handlers *)

(** [exception_handlers[number] = handler]. *)
Definition register_isr_handler (number : Z) (h : irq_t) : M cpu unit :=
  l ← gets exception_handlers;
  if (0 <=? number) && (number <? Z.of_nat (length l))
  then modify (set_exception_handlers (<[Z.to_nat number := Some h]> l)) else fault.

Definition register_irq_handler (n : Z) (h : irq_t) : M cpu unit :=
  let n := u8 n in
  l ← gets interrupt_handlers;
  of_option (l !! Z.to_nat n) ≫= λ _,
  modify (set_interrupt_handlers (<[Z.to_nat n := Some h]> l)).

Definition exception_messages : list (list Z) :=
  bytes_of <$> ["Divide Error"; "Debug Exceptions"; "NMI Interrupt"; "Breakpoint";
    "INTO Detected Overflow"; "BOUND Range Exceeded"; "Invalid Opcode";
    "Coprocessor Not Available"; "Double Exception"; "Coprocessor Segment Overrun";
    "Invalid Task State Segment"; "Segment Not Present"; "Stack Fault"; "General Protection";
    "Page Fault"; "(reserved)"; "Coprocessor Error"]
  ++ replicate 16 "(reserved)".

Definition exception_format : list Z :=
  line "Unhandled exception - %X : [errno - %X]: %s" ++
  line "Data segments: gs[%X], fs[%X], es[%X], ds[%X]" ++
  line "edi: %X" ++ line "esi: %X" ++ line "ebp: %X" ++ line "esp: %X" ++ line "ebx: %X" ++
  line "edx: %X" ++ line "ecx: %X" ++ line "eax: %X" ++ line "eip: %X" ++ line "cs: %X" ++
  line "eflags: %X" ++ line "usersp: %X" ++ line "ss: %X".

(** [abort] of lib/stdlib.c never returns. *)
Definition abort : M cpu unit := printk (line "abort()") [] ≫= λ _, out_of_fuel.

(** The message of an exception without a handler. *)
Definition report_exception (regs : registers) : M cpu unit :=
  msg ← of_option (exception_messages !! Z.to_nat (interrupt_number regs));
  printk exception_format
    ([AInt (interrupt_number regs); AInt (error_code regs); AStr msg]
     ++ (AInt <$> [gs regs; fs regs; es regs; ds regs; edi regs; esi regs; ebp regs; esp regs;
          ebx regs; edx regs; ecx regs; eax regs; eip regs; cs regs; eflags regs; useresp regs;
          ss regs])).

Section dispatch.
(** The code of a handler. *)
Context (call : irq_t → registers → M cpu unit).

Definition interrupt_handler (regs : registers) : M cpu unit :=
  l ← gets exception_handlers;
  h ← of_option (l !! Z.to_nat (interrupt_number regs));
  match h with
  | Some h => call h regs
  | None => report_exception regs ≫= λ _, abort
  end.

Definition irq_handler (regs : registers) : M cpu unit :=
  (if 40 <=? interrupt_number regs then outb 0xA0 0x20 else mret tt) ≫= λ _,
  outb 0x20 0x20 ≫= λ _,
  l ← gets interrupt_handlers;
  h ← of_option (l !! Z.to_nat (interrupt_number regs));
  match h with
  | Some h => call h regs
  | None => mret tt
  end.
End dispatch.
