(* ===== verification/Tasks.v ===== *)
(** * Tasks: processes in memory

    The layout of [struct process] (kernel/include/newbos/process.h), the task
    state segment of kernel/process.c, and the state process.c and scheduler.c
    work on: the kernel's heap, over any page services. *)

From S2P Require Import Prelude Layout CArith Mmu PageServices Kmalloc.

(** ** Services of the paging code that only processes use *)

Class ProcessPageOps (St : Type) := {
  pp_create : M St (Z * Z);
  pp_map_in : Z → Z → Z → Z → Z → Z → M St Z;
  pp_unmap : nat → Z → Z → M St Z;
  pp_load : Z → Z → M St unit;
  pp_loadable : St → Z → Z → Prop;
  pp_in_force : St → Z
}.

(** Loading a directory puts it in force and keeps the kernel's addresses. *)
Class ProcessPageLaws (St : Type) `{!PageOps St, !ProcessPageOps St} := {
  pp_load_spec s pdt paddr :
    pg_wf s → pp_loadable s pdt paddr →
    ∃ s', pp_load pdt paddr s = Ok (tt, s') ∧ pp_in_force s' = paddr ∧
      (∀ a, pg_mapped s a = true → pg_mapped s' a = true)
}.

(** ** Layout: the offsets of the fields *)

(** [struct _registers], packed. *)
Definition REG_SS : Z := Eval vm_compute in offsetof struct__registers ["ss"].
Definition REG_ESP : Z := Eval vm_compute in offsetof struct__registers ["esp"].
Definition REG_EFLAGS : Z := Eval vm_compute in offsetof struct__registers ["eflags"].
Definition REG_CS : Z := Eval vm_compute in offsetof struct__registers ["cs"].
Definition REG_EIP : Z := Eval vm_compute in offsetof struct__registers ["eip"].
Definition sizeof_registers : Z := Eval vm_compute in sizeof struct__registers.

(** [struct paddr_ele] and [struct paddr_list]. *)
Definition ELE_PADDR : Z := Eval vm_compute in offsetof struct_paddr_ele ["paddr"].
Definition ELE_COUNT : Z := Eval vm_compute in offsetof struct_paddr_ele ["count"].
Definition ELE_NEXT : Z := Eval vm_compute in offsetof struct_paddr_ele ["next"].
Definition sizeof_paddr_ele : Z := Eval vm_compute in sizeof struct_paddr_ele.
Definition LIST_START : Z := Eval vm_compute in offsetof struct_paddr_list ["start"].
Definition LIST_END : Z := Eval vm_compute in offsetof struct_paddr_list ["end"].

(** [struct process]. *)
Definition P_ID : Z := Eval vm_compute in offsetof struct_process ["id"].
Definition P_PARENT_ID : Z := Eval vm_compute in offsetof struct_process ["parent_id"].
Definition P_PDT : Z := Eval vm_compute in offsetof struct_process ["pdt"].
Definition P_PDT_PADDR : Z := Eval vm_compute in offsetof struct_process ["pdt_paddr"].
Definition P_CURRENT : Z := Eval vm_compute in offsetof struct_process ["current"].
Definition P_USER_MODE : Z := Eval vm_compute in offsetof struct_process ["user_mode"].
Definition P_KERNEL_STACK : Z := Eval vm_compute in offsetof struct_process ["kernel_stack_start_vaddr"].
Definition P_STACK : Z := Eval vm_compute in offsetof struct_process ["stack_start_vaddr"].
Definition P_CODE : Z := Eval vm_compute in offsetof struct_process ["code_start_vaddr"].
Definition P_CODE_PADDRS : Z := Eval vm_compute in offsetof struct_process ["code_paddrs"].
Definition P_STACK_PADDRS : Z := Eval vm_compute in offsetof struct_process ["stack_paddrs"].
Definition P_KERNEL_STACK_PADDRS : Z := Eval vm_compute in offsetof struct_process ["kernel_stack_paddrs"].
Definition sizeof_process : Z := Eval vm_compute in sizeof struct_process.

Definition SEGSEL_KERNEL_CS : Z := 0x08.
Definition SEGSEL_KERNEL_DS : Z := 0x10.
Definition SEGSEL_USER_SPACE_CS : Z := 0x18.
Definition SEGSEL_USER_SPACE_DS : Z := 0x20.

(** ** State

    The fields of [struct tss] the code writes, and the list of runnable processes. *)
Record tss := Tss { esp0 : Z; ss0 : Z }.

Record tasks {St : Type} : Type := Tasks {
  kheap : heap St;
  the_tss : tss;
  list_start : Z;
  list_end : Z
}.
Arguments tasks : clear implicits.

Section operations.
Context {St : Type} `{!PageOps St, !ProcessPageOps St}.
Implicit Types s : tasks St.

Definition set_kheap (h : heap St) s : tasks St := Tasks _ h (the_tss s) (list_start s) (list_end s).
Definition set_tss (t : tss) s : tasks St := Tasks _ (kheap s) t (list_start s) (list_end s).
Definition set_start (a : Z) s : tasks St := Tasks _ (kheap s) (the_tss s) a (list_end s).
Definition set_end (a : Z) s : tasks St := Tasks _ (kheap s) (the_tss s) (list_start s) a.

(** A field of a structure at the address [a]. *)
Definition rd (a off : Z) : M (tasks St) Z := zoom kheap set_kheap (Kmalloc.read (a +ᵤ off)).
Definition wr (a off w : Z) : M (tasks St) unit := zoom kheap set_kheap (Kmalloc.write (a +ᵤ off) w).

Definition printk (fmt : string) (args : list Z) : M (tasks St) unit :=
  zoom kheap set_kheap (Kmalloc.printk fmt args).

(** A call of the paging code. *)
Definition paging_call {A} (m : M St A) : M (tasks St) A := zoom kheap set_kheap (zoom pages set_pages m).

Definition tss_set_kernel_stack (segsel vaddr : Z) : M (tasks St) unit :=
  modify (set_tss (Tss vaddr segsel)).

(** [memset(a + off, 0, 4 * n)] and [*(a + dst) = *(a + src)], by words. *)
Definition clear_words (a off n : Z) : M (tasks St) unit :=
  for_each (seqZ 0 n) (λ i, wr a (off + 4 * i) 0).
Definition copy_words (a dst src n : Z) : M (tasks St) unit :=
  for_each (seqZ 0 n) (λ i, w ← rd a (src + 4 * i); wr a (dst + 4 * i) w).
End operations.
