(* ===== verification/Scheduler.v ===== *)
(** * Scheduler: the list of runnable processes of kernel/scheduler.c *)

From S2P Require Import Prelude Layout CArith Mmu PageServices Kmalloc Tasks.

(** [struct process_list_element]. *)
Definition E_NEXT : Z := Eval vm_compute in offsetof struct_process_list_element ["next"].
Definition E_PS : Z := Eval vm_compute in offsetof struct_process_list_element ["ps"].
Definition sizeof_process_list_element : Z := Eval vm_compute in sizeof struct_process_list_element.

Section scheduler.
Context {St : Type} `{!PageOps St, !ProcessPageOps St}.

(** The address of the static [base] of kmalloc.c. *)
Context (base : Z).

(** The loop of [scheduler_next_pid] from [p] on. *)
Fixpoint max_pid_loop (fuel : nat) (p max_pid : Z) : M (tasks St) Z :=
  match fuel with
  | O => out_of_fuel
  | S fuel =>
    if p =? 0 then mret max_pid
    else
      ps ← rd p E_PS;
      max_pid ← (if ps =? 0 then mret max_pid
                 else id ← rd ps P_ID; mret (if max_pid <? id then id else max_pid));
      p ← rd p E_NEXT;
      max_pid_loop fuel p max_pid
  end.

Definition scheduler_next_pid (fuel : nat) : M (tasks St) Z :=
  p ← gets list_start;
  max_pid ← max_pid_loop fuel p 0;
  mret (max_pid +ᵤ 1).

Definition scheduler_add_process (fuel : nat) (p : Z) : M (tasks St) Z :=
  e ← zoom kheap set_kheap (kmalloc base fuel sizeof_process_list_element);
  if e =? 0 then
    printk "scheduler_add_process: Couldn't allocate memory for element in process list\n" []
    ≫= λ _, mret (-1)
  else
    wr e E_PS p ≫= λ _,
    wr e E_NEXT 0 ≫= λ _,
    start ← gets list_start;
    (if start =? 0 then modify (set_start e)
     else last ← gets list_end; wr last E_NEXT e) ≫= λ _,
    modify (set_end e) ≫= λ _,
    mret 0.

(** The end of [scheduler_schedule], [p] being the process to run. A process that is
    not in kernel mode is given to [run_process_in_user_mode] of scheduler_assembler.s,
    with the address of its registers: there the run of the C code ends. That routine
    comes to the return address again, but with the registers of its callers lost and
    with segments no word can be stored through, as UserMode shows. *)
Definition switch_to (p : Z) : M (tasks St) (control unit) :=
  kstack ← rd p P_KERNEL_STACK;
  tss_set_kernel_stack SEGSEL_KERNEL_DS kstack ≫= λ _,
  pdt ← rd p P_PDT;
  pdt_paddr ← rd p P_PDT_PADDR;
  paging_call (pp_load pdt pdt_paddr) ≫= λ _,
  cs ← rd p (P_CURRENT + REG_CS);
  if cs =? SEGSEL_KERNEL_CS then mret (Back tt)
  else mret (Away (p +ᵤ P_CURRENT)).

(** The head moves to the end of the list. *)
Definition rotate : M (tasks St) unit :=
  e ← gets list_start;
  next ← rd e E_NEXT;
  if next =? 0 then mret tt
  else
    modify (set_start next) ≫= λ _,
    wr e E_NEXT 0 ≫= λ _,
    last ← gets list_end;
    wr last E_NEXT e ≫= λ _,
    modify (set_end e).

Definition scheduler_schedule : M (tasks St) (control unit) :=
  start ← gets list_start;
  ps ← (if start =? 0 then mret 0 else rd start E_PS);
  if ps =? 0 then printk "scheduler: There are no runnable processes to schedule\n" [] ≫= λ _, mret (Back tt)
  else
    rotate ≫= λ _,
    start ← gets list_start;
    p ← rd start E_PS;
    if p =? 0 then printk "scheduler: No process to schedule\n" [] ≫= λ _, mret (Back tt)
    else switch_to p.
End scheduler.
