(* ===== verification/ProcessServices.v ===== *)
(** * ProcessServices: the paging code as the services processes use

    The functions of paging.c on directories of processes satisfy what [Tasks]
    promises to the scheduler. *)

From S2P Require Import Prelude CArith Interfaces Frames Mmu Paging PagingFacts PageMap PdtMap PageFind PdtCreate PageServices PagingServices Tasks.

Section services.
Context {St : Type} `{!FrameOps St, !FrameLaws St}.
Implicit Types s : paging St.

#[export] Instance process_ops : ProcessPageOps (paging St) := {|
  pp_create := pdt_create;
  pp_map_in := pdt_map_memory;
  pp_unmap := pdt_unmap_kernel_memory;
  pp_load := pdt_load_process_pdt;
  pp_loadable := loadable;
  pp_in_force := active
|}.

#[export] Instance process_laws : ProcessPageLaws (paging St).
Proof.
  split. intros s pdt P (Hwf & Hkt & Ha) Hload. eexists. split; [exact (pdt_load_process_pdt_ok s pdt P Hwf Hkt Hload)|].
  split; [apply (loaded_active s pdt P Hload)|]. intros a. cbn [pg_mapped paging_ops]. unfold kernel_mapped.
  intros [Hr [p Hp]%bool_decide_eq_true_1]%andb_prop. rewrite Hr. cbn [andb]. apply bool_decide_eq_true_2.
  exists p. rewrite Ha in Hp.
  assert (Hva : 0xC0000000 <= a < 4294967296) by (clear - Hr; lia).
  rewrite (loaded_active s pdt P Hload).
  apply (loaded_kernel s pdt P Hwf Hkt Hload a p); [clear - Hva; lia|right; apply Hva|exact Hp].
Qed.
End services.
