(* ===== verification/SchedulerSpec.v ===== *)
(** * SchedulerSpec: the scheduler implements a queue of processes

    The list scheduler.c keeps in the heap represents a sequence of processes:
    adding puts one at its end, scheduling moves the first to the end and runs the
    next. *)

From S2P Require Import Prelude CArith Mmu PageServices Kmalloc HeapLayout KmallocFacts KmallocSpec KmallocTrace Tasks Scheduler.

Section spec.
Context {St : Type} `{!PageOps St, !PageLaws St, !ProcessPageOps St, !ProcessPageLaws St}.
Context (base : Z).
Implicit Types (s : tasks St) (U : gmap Z Z) (m : gmap Z Z) (q : list (Z * Z)).

(** ** Accesses to the blocks one owns *)

(** The words of the heap. *)
Definition mem s : gmap Z Z := words (kheap s).

Definition put (a w : Z) s : tasks St := set_kheap (set_words (<[a := w]> (mem s)) (kheap s)) s.

Lemma mem_put a w s : mem (put a w s) = <[a := w]> (mem s).
Proof. done. Qed.

(** The heap's invariant, the blocks of [U] owned. *)
Definition owns s U : Prop := state_inv base (kheap s, U).

(** The offset of a word in a block of [n] bytes. *)
Definition field (off n : Z) : Prop := 0 <= off ∧ off + 4 <= n ∧ off mod 4 = 0.

Lemma owned_block s U a n :
  owns s U → U !! a = Some n → 0 < a ∧ a mod 4 = 0 ∧ a + n <= 4294967296.
Proof.
  intros [[_ E]|(F & L & Hi & [Hu _])] Ha; simpl in *; [subst U; by rewrite lookup_empty in Ha|].
  destruct (Hu a n Ha) as [Hn Hl]. destruct (units_eq n Hn) as (_ & _ & ?).
  destruct (ly_ok _ _ _ _ (hv_layout _ _ _ _ Hi) _ _ (or_intror Hl)). unfold span in *.
  split; [lia|]. split; [Z.to_euclidean_division_equations; lia|lia].
Qed.

Lemma owned_field s U a n off :
  owns s U → U !! a = Some n → field off n →
  a +ᵤ off = a + off ∧ pg_mapped (pages (kheap s)) (a + off) = true ∧ (a + off) mod 4 = 0.
Proof.
  intros Hs Ha (Ho&Hn&H4). destruct (owned_block s U a n Hs Ha) as (?&?&?).
  split; [apply u32_small; lia|]. split; [|Z.to_euclidean_division_equations; lia].
  apply (proj2 (owned_disjoint base _ U Hs) a n); [done|lia].
Qed.

Lemma rd_owned s U a n off :
  owns s U → U !! a = Some n → field off n → rd a off s = Ok (ld (mem s) (a + off), s).
Proof.
  intros Hs Ha Ho. destruct (owned_field s U a n off Hs Ha Ho) as (E&Hm&H4). unfold rd, zoom.
  rewrite E, (read_ok (kheap s)) by done. by destruct s.
Qed.

Lemma wr_owned s U a n off w :
  owns s U → U !! a = Some n → field off n →
  wr a off w s = Ok (tt, put (a + off) w s) ∧ owns (put (a + off) w s) U.
Proof.
  intros Hs Ha Ho. destruct (owned_field s U a n off Hs Ha Ho) as (E&Hm&H4). unfold wr, zoom. split.
  - by rewrite E, (write_ok (kheap s)).
  - destruct Ho as (?&?&_). apply (write_inv base _ U a n); [done|done|lia|lia].
Qed.

(** Two words of different blocks are different. *)
Lemma fields_apart s U a n o b k o' :
  owns s U → U !! a = Some n → U !! b = Some k → a ≠ b → field o n → field o' k → a + o ≠ b + o'.
Proof.
  intros Hs Ha Hb Hne (?&?&_) (?&?&_).
  destruct (proj1 (owned_disjoint base _ U Hs) a n b k Ha Hb Hne); lia.
Qed.

(** ** The list *)

(** The address of the first element, [z] if there is none. *)
Definition first q (z : Z) : Z := match q with [] => z | (e, _) :: _ => e end.

(** The elements [q] of a list whose last [next] is [z]: their addresses and
    their processes. *)
Fixpoint chain m q (z : Z) : Prop :=
  match q with
  | [] => True
  | (e, p) :: q' => ld m e = first q' z ∧ ld m (e + 4) = p ∧ chain m q' z
  end.

Record queue s U q : Prop := Queue {
  qu_nodup : NoDup q.*1;
  qu_owned e : e ∈ q.*1 → U !! e = Some 8;
  qu_chain : chain (mem s) q 0;
  qu_start : list_start s = first q 0;
  qu_end q' x : q = q' ++ [x] → list_end s = x.1
}.

(** The blocks that are not elements keep their bytes. *)
Definition keeps_others s s' U q : Prop := ∀ b n w,
  U !! b = Some n → b ∉ q.*1 → b <= w < b + n → ld (mem s') w = ld (mem s) w.

Lemma first_app q1 q2 z : first (q1 ++ q2) z = first q1 (first q2 z).
Proof. by destruct q1 as [|[]]. Qed.

Lemma chain_app m q1 q2 z : chain m (q1 ++ q2) z ↔ chain m q1 (first q2 z) ∧ chain m q2 z.
Proof.
  induction q1 as [|[e p] q1 IH]; simpl; [tauto|]. rewrite IH, first_app. tauto.
Qed.

Lemma chain_ext m m' q z :
  (∀ e, e ∈ q.*1 → ld m' e = ld m e ∧ ld m' (e + 4) = ld m (e + 4)) → chain m q z → chain m' q z.
Proof.
  induction q as [|[e p] q IH]; intros H; [done|]. simpl. intros (H1&H2&H3).
  destruct (H e) as [E1 E2]; [simpl; by left|]. rewrite E1, E2. split; [done|]. split; [done|].
  apply IH; [|done]. intros e' He. apply H. simpl. by right.
Qed.

Lemma ne_field0 : field 0 8. Proof. done. Qed.
Lemma ps_field4 : field 4 8. Proof. done. Qed.

(** A word written outside of the list. *)
Lemma chain_put s U q z e off w :
  owns s U → (∀ x, x ∈ q.*1 → U !! x = Some 8) → U !! e = Some 8 → e ∉ q.*1 → field off 8 →
  chain (mem s) q z → chain (mem (put (e + off) w s)) q z.
Proof.
  intros Hs Hq He Hn Hf. apply chain_ext. intros x Hx. rewrite mem_put.
  assert (x ≠ e) by (intros ->; contradiction).
  pose proof (fields_apart s U x 8 0 e 8 off Hs (Hq x Hx) He ltac:(done) ne_field0 Hf).
  pose proof (fields_apart s U x 8 4 e 8 off Hs (Hq x Hx) He ltac:(done) ps_field4 Hf).
  rewrite !ld_insert_ne by lia. done.
Qed.

Lemma put_others s U q e off w :
  owns s U → U !! e = Some 8 → e ∈ q.*1 → field off 8 → keeps_others s (put (e + off) w s) U q.
Proof.
  intros Hs He Hin (?&?&_) b n x Hb Hn Hx. rewrite mem_put. apply ld_insert_ne.
  assert (b ≠ e) by (intros ->; contradiction).
  destruct (proj1 (owned_disjoint base _ U Hs) b n e 8 Hb He ltac:(done)); lia.
Qed.

Lemma addr_app e q q' : e ∈ (q ++ q').*1 ↔ e ∈ q.*1 ∨ e ∈ q'.*1.
Proof. rewrite fmap_app. apply elem_of_app. Qed.

Lemma addr_one (e : Z) (x : Z * Z) : e ∈ [x].*1 ↔ e = x.1.
Proof. apply list_elem_of_singleton. Qed.

(** The element [e], whose next is null, becomes the next of the last. *)
Lemma link_last s U q e p :
  owns s U → queue s U q → q ≠ [] → U !! e = Some 8 → e ∉ q.*1 →
  ld (mem s) e = 0 → ld (mem s) (e + 4) = p →
  ∃ s', (last ← gets list_end; wr last E_NEXT e) s = Ok (tt, s') ∧ owns s' U ∧
    keeps_others s s' U q ∧ queue (set_end e s') U (q ++ [(e, p)]) ∧ s' = put (list_end s) e s.
Proof.
  intros Hs [Hnd Ho Hc Hst Hen] Hq He Hn H0 Hp.
  destruct (exists_last Hq) as (q'&[l pl]&->).
  assert (Hl : U !! l = Some 8) by (apply Ho; rewrite addr_app; right; by rewrite addr_one).
  assert (Hle : l ≠ e) by (intros ->; apply Hn; rewrite addr_app; right; by rewrite addr_one).
  rewrite (bind_ok _ _ s l s) by (unfold gets; by rewrite (Hen q' (l, pl))).
  destruct (wr_owned s U l 8 0 e Hs Hl ne_field0) as [Ew Hs']. unfold E_NEXT. rewrite Ew.
  rewrite Z.add_0_r in *. exists (put l e s). split; [done|]. split; [done|].
  split; [|split; [|by rewrite (Hen q' (l, pl))]].
  { pose proof (put_others s U (q' ++ [(l, pl)]) l 0 e Hs Hl) as H. rewrite Z.add_0_r in H.
    apply H; [|done]. rewrite addr_app. right. by rewrite addr_one. }
  apply chain_app in Hc as [Hc1 (Hc2&Hc3&_)]. simpl in Hc1, Hc2, Hc3.
  pose proof (fields_apart s U e 8 0 l 8 0 Hs He Hl ltac:(done) ne_field0 ne_field0).
  pose proof (fields_apart s U e 8 4 l 8 0 Hs He Hl ltac:(done) ps_field4 ne_field0).
  pose proof Hnd as Hnd'. rewrite fmap_app in Hnd'. apply NoDup_app in Hnd' as (_&Hnd2&_).
  split.
  - rewrite fmap_app. apply NoDup_app. split; [done|].
    split; [|apply NoDup_singleton]. intros x Hx Hin. rewrite addr_one in Hin. by subst x.
  - intros x Hx. rewrite addr_app, addr_one in Hx. destruct Hx as [Hx| ->]; [by apply Ho|done].
  - change (mem (set_end e (put l e s))) with (mem (put l e s)). rewrite <- app_assoc. apply chain_app.
    simpl (first _ _). split.
    + pose proof (chain_put s U q' l l 0 e Hs) as Hput. rewrite Z.add_0_r in Hput. apply Hput; try done.
      * intros x Hx. apply Ho. rewrite addr_app. by left.
      * intros Hin. apply (Hnd2 l Hin). by left.
    + rewrite mem_put. cbn [chain app first]. rewrite ld_insert_eq, !ld_insert_ne by lia. done.
  - simpl. rewrite Hst, !first_app. by destruct q' as [|[]].
  - intros q2 x E. apply app_inj_tail in E as [_ <-]. done.
Qed.
(** ** Messages *)

Lemma owns_pages s U ps :
  owns s U → pg_wf ps → same_pages (pages (kheap s)) ps → owns (set_kheap (set_pages ps (kheap s)) s) U.
Proof.
  intros [[[Hwf Hfp Hb] E]|(F & L & Hi & Ht)] Hps Hsame; simpl in *.
  - left. split; [|done]. split; [done|done|]. simpl. destruct Hb. split; try done.
    intros x Hx. apply (same_pages_mono _ _ Hsame). auto.
  - right. exists F, L. split; [|done]. apply heap_inv_pages; [done..|]. by apply same_pages_mono.
Qed.

Lemma owns_wf s U : owns s U → pg_wf (pages (kheap s)).
Proof. intros [[[Hwf _ _] _]|(F & L & Hi & _)]; [done|apply Hi]. Qed.

(** A message changes only the state of the paging code. *)
Lemma message_ok s U fmt args :
  owns s U → ∃ ps, Tasks.printk fmt args s = Ok (tt, set_kheap (set_pages ps (kheap s)) s) ∧
    owns (set_kheap (set_pages ps (kheap s)) s) U.
Proof.
  intros Hs. destruct (pg_printk_spec (pages (kheap s)) fmt args (owns_wf s U Hs)) as (ps&E&Hps&Hsame).
  exists ps. split; [|by apply owns_pages]. unfold Tasks.printk, Kmalloc.printk, zoom. by rewrite E.
Qed.

(** ** Numbering *)

(** The processes of the list are blocks one owns, or null. *)
Definition processes U q : Prop := ∀ x, x ∈ q → x.2 = 0 ∨ U !! x.2 = Some sizeof_process.

(** The greatest number of a process of the list. *)
Definition greatest_id m q (acc : Z) : Z :=
  foldl (λ a x, if x.2 =? 0 then a else Z.max a (ld m x.2)) acc q.

Lemma max_pid_loop_ok s U q : ∀ fuel acc,
  owns s U → (∀ e, e ∈ q.*1 → U !! e = Some 8) → chain (mem s) q 0 → processes U q →
  (length q < fuel)%nat →
  max_pid_loop fuel (first q 0) acc s = Ok (greatest_id (mem s) q acc, s).
Proof.
  induction q as [|[e p] q IH]; intros fuel acc Hs Ho Hc Hp Hf; (destruct fuel as [|fuel]; [simpl in Hf; lia|]); [done|].
  destruct Hc as (Hc1&Hc2&Hc3). cbn [first max_pid_loop].
  assert (He : U !! e = Some 8) by (apply Ho; simpl; by left).
  destruct (owned_block s U e 8 Hs He) as (Hpos&_). destruct (Z.eqb_spec e 0); [lia|].
  rewrite (bind_ok _ _ _ _ _ (rd_owned s U e 8 E_PS Hs He ps_field4)). change (e + E_PS) with (e + 4). rewrite Hc2.
  rewrite (bind_ok _ _ s (if p =? 0 then acc else Z.max acc (ld (mem s) p)) s).
  - rewrite (bind_ok _ _ _ _ _ (rd_owned s U e 8 E_NEXT Hs He ne_field0)).
    replace (e + E_NEXT) with e by (unfold E_NEXT; lia). rewrite Hc1.
    rewrite IH; [done|done| |done| |simpl in Hf; lia].
    + intros x Hx. apply Ho. simpl. by right.
    + intros x Hx. apply Hp. by right.
  - destruct (Z.eqb_spec p 0); [done|]. destruct (Hp (e, p)) as [?|Hb]; [by left|done|]. simpl in Hb.
    rewrite (bind_ok _ _ _ _ _ (rd_owned s U p sizeof_process P_ID Hs Hb ltac:(done))).
    unfold P_ID. rewrite Z.add_0_r. unfold mret, M_ret. do 2 f_equal.
    destruct (Z.ltb_spec acc (ld (mem s) p)); lia.
Qed.

Lemma greatest_id_ext m m' q : ∀ acc,
  (∀ x, x ∈ q → x.2 ≠ 0 → ld m' x.2 = ld m x.2) → greatest_id m' q acc = greatest_id m q acc.
Proof.
  induction q as [|[e p] q IH]; intros acc H; [done|]. simpl.
  rewrite (IH _ (λ x Hx, H x ltac:(by right))). f_equal. destruct (Z.eqb_spec p 0); [done|].
  by rewrite (H (e, p) ltac:(by left) ltac:(done) : ld m' p = ld m p).
Qed.

Lemma greatest_id_le m q : ∀ acc,
  acc <= greatest_id m q acc ∧ (∀ x, x ∈ q → x.2 ≠ 0 → ld m x.2 <= greatest_id m q acc).
Proof.
  induction q as [|[e p] q IH]; intros acc; [split; [done|]; intros x Hx; by apply elem_of_nil in Hx|].
  simpl. set (a := if p =? 0 then acc else Z.max acc (ld m p)).
  assert (Ha : acc <= a) by (unfold a; destruct (p =? 0); lia).
  destruct (IH a) as [H1 H2]. split; [lia|]. intros x [->|Hx]%elem_of_cons Hn; [|by apply H2].
  simpl in *. unfold a in *. destruct (Z.eqb_spec p 0); [done|]. lia.
Qed.

Lemma greatest_id_lt m q b : ∀ acc,
  acc < b → (∀ x, x ∈ q → x.2 ≠ 0 → ld m x.2 < b) → greatest_id m q acc < b.
Proof.
  induction q as [|[e p] q IH]; intros acc Ha H; [done|]. simpl. apply IH.
  - destruct (Z.eqb_spec p 0); [done|]. pose proof (H (e, p) ltac:(by left) ltac:(done)). simpl in *. lia.
  - intros x Hx. apply H. by right.
Qed.

(** ** Rotation *)

Definition rotated q : list (Z * Z) := match q with [] => [] | x :: q' => q' ++ [x] end.

Lemma rotate_ok s U q :
  owns s U → queue s U q → q ≠ [] →
  ∃ s', rotate s = Ok (tt, s') ∧ owns s' U ∧ queue s' U (rotated q) ∧ keeps_others s s' U q ∧
    pages (kheap s') = pages (kheap s) ∧ the_tss s' = the_tss s.
Proof.
  intros Hs Hq Hne. destruct q as [|[e p] q2]; [done|]. pose proof Hq as [Hnd Ho (Hc1&Hc2&Hc3) Hst Hen].
  assert (He : U !! e = Some 8) by (apply Ho; simpl; by left). unfold rotate.
  rewrite (bind_ok _ _ s e s) by (unfold gets; by rewrite Hst).
  rewrite (bind_ok _ _ _ _ _ (rd_owned s U e 8 E_NEXT Hs He ne_field0)).
  replace (e + E_NEXT) with (e + 0) by done. rewrite Z.add_0_r, Hc1.
  destruct q2 as [|[e2 p2] q2]; [exists s; split; [done|]; split; [done|]; split; [done|]; by split|].
  set (q' := (e2, p2) :: q2) in *. cbn [first].
  assert (He2 : U !! e2 = Some 8) by (apply Ho; simpl; right; by left).
  destruct (owned_block s U e2 8 Hs He2) as (Hpos&_). simpl (first q' 0). destruct (Z.eqb_spec e2 0); [lia|].
  rewrite (bind_ok _ _ s tt (set_start e2 s)) by done.
  destruct (wr_owned (set_start e2 s) U e 8 E_NEXT 0 Hs He ne_field0) as [Ew Hs2].
  rewrite (bind_ok _ _ _ _ _ Ew). set (s2 := put (e + E_NEXT) 0 (set_start e2 s)) in *.
  apply NoDup_cons in Hnd as [Hn Hnd].
  assert (Hm2 : mem s2 = <[e := 0]> (mem s)) by (unfold s2; rewrite mem_put; by replace (e + E_NEXT) with e by (unfold E_NEXT; lia)).
  assert (Hq2 : queue s2 U q').
  { split; [done| | |done|].
    - intros x Hx. apply Ho. simpl. by right.
    - apply (chain_put (set_start e2 s) U q' 0 e 0 0); try done. intros x Hx. apply Ho. simpl. by right.
    - intros q3 x E. apply (Hen ((e, p) :: q3)). by rewrite E. }
  destruct (link_last s2 U q' e p Hs2 Hq2) as (s3&E3&Hs3&Hk3&Hq3&Es3); try done.
  { by rewrite Hm2, ld_insert_eq. }
  { rewrite Hm2, ld_insert_ne by lia. done. }
  unfold mbind, M_bind in E3. simpl in E3. exists (set_end e s3). split.
  { unfold mbind, M_bind. simpl. by rewrite E3. }
  split; [exact Hs3|]. split; [exact Hq3|]. split; [|by rewrite Es3].
  intros b k w Hb Hbn Hw. change (mem (set_end e s3)) with (mem s3).
  rewrite (Hk3 b k w Hb) by (done || (intros Hin; apply Hbn; simpl; by right)).
  apply (put_others s U [(e, p)] e 0 0 Hs He ltac:(by left) ne_field0 b k w Hb); [|done].
  intros Hin. apply Hbn. rewrite addr_one in Hin. rewrite Hin. simpl. by left.
Qed.

(** ** Switching *)

(** The directory of a process can be loaded. *)
Definition ready s p : Prop :=
  pp_loadable (pages (kheap s)) (ld (mem s) (p + P_PDT)) (ld (mem s) (p + P_PDT_PADDR)).

(** The turn of the process [p] of [s] begins in [s'] with the answer [r]: its kernel
    stack is in the task state segment, its directory in force and, unless it was in
    kernel mode, [run_process_in_user_mode] is called with its registers. *)
Definition runs s s' p (r : control unit) : Prop :=
  the_tss s' = Tss (ld (mem s) (p + P_KERNEL_STACK)) SEGSEL_KERNEL_DS ∧
  pp_in_force (pages (kheap s')) = ld (mem s) (p + P_PDT_PADDR) ∧
  r = if ld (mem s) (p + 56) =? SEGSEL_KERNEL_CS then Back tt else Away (p + P_CURRENT).

Lemma switch_ok s U p :
  owns s U → U !! p = Some sizeof_process → ready s p →
  ∃ r s', switch_to p s = Ok (r, s') ∧ runs s s' p r ∧ mem s' = mem s ∧ list_start s' = list_start s ∧
    list_end s' = list_end s ∧
    (∀ a, pg_mapped (pages (kheap s)) a = true → pg_mapped (pages (kheap s')) a = true) ∧
    pp_load (ld (mem s) (p + P_PDT)) (ld (mem s) (p + P_PDT_PADDR)) (pages (kheap s)) = Ok (tt, pages (kheap s')).
Proof.
  intros Hs Hp Hr. unfold switch_to.
  rewrite (bind_ok _ _ _ _ _ (rd_owned s U p _ P_KERNEL_STACK Hs Hp ltac:(done))).
  set (s1 := set_tss (Tss (ld (mem s) (p + P_KERNEL_STACK)) SEGSEL_KERNEL_DS) s).
  rewrite (bind_ok _ _ s tt s1) by done.
  rewrite (bind_ok _ _ _ _ _ (rd_owned s1 U p _ P_PDT Hs Hp ltac:(done))).
  rewrite (bind_ok _ _ _ _ _ (rd_owned s1 U p _ P_PDT_PADDR Hs Hp ltac:(done))).
  destruct (pp_load_spec (pages (kheap s)) _ _ (owns_wf s U Hs) Hr) as (ps&E&Hf&Hm).
  set (s2 := set_kheap (set_pages ps (kheap s1)) s1).
  rewrite (bind_ok _ _ s1 tt s2) 
    by (unfold paging_call, zoom; change (pages (kheap s1)) with (pages (kheap s)); change (mem s1) with (mem s); by rewrite E).
  destruct (owned_field s U p _ (P_CURRENT + REG_CS) Hs Hp ltac:(done)) as (Ea&Hma&H4).
  assert (Er : rd p (P_CURRENT + REG_CS) s2 = Ok (ld (mem s) (p + 56), s2)).
  { unfold rd, zoom. rewrite Ea, read_ok; [done|by apply Hm|done]. }
  rewrite (bind_ok _ _ _ _ _ Er). destruct (ld (mem s) (p + 56) =? SEGSEL_KERNEL_CS) eqn:Ecs.
  - exists (Back tt), s2. split; [done|]. split; [|done]. split; [done|]. split; [done|]. by rewrite Ecs.
  - exists (Away (p + P_CURRENT)), s2. split.
    + by destruct (owned_field s U p _ P_CURRENT Hs Hp ltac:(done)) as (->&_).
    + split; [|done]. split; [done|]. split; [done|]. by rewrite Ecs.
Qed.

(** What the scheduler does to its queue, and the process it runs. *)
Definition next_turn q : list (Z * Z) * option Z :=
  match q with
  | [] => (q, None)
  | (_, p) :: _ =>
    if p =? 0 then (q, None)
    else (rotated q, match rotated q with
                     | (_, p') :: _ => if p' =? 0 then None else Some p'
                     | [] => None
                     end)
  end.

Lemma queue_same s s' U q :
  mem s' = mem s → list_start s' = list_start s → list_end s' = list_end s → queue s U q → queue s' U q.
Proof. intros Hm H1 H2 [Hn Ho Hc Hs He]. split; try done; by rewrite ?Hm, ?H1, ?H2. Qed.

Lemma rotated_in q x : x ∈ rotated q ↔ x ∈ q.
Proof.
  destruct q as [|y q]; [done|]. simpl. rewrite elem_of_app, list_elem_of_singleton, elem_of_cons. tauto.
Qed.

(** A block that is not an element is still the same, and so what it says. *)
Lemma kept_field s s' U q p n off :
  keeps_others s s' U q → (∀ e, e ∈ q.*1 → U !! e = Some 8) → U !! p = Some n → n ≠ 8 → field off n →
  ld (mem s') (p + off) = ld (mem s) (p + off).
Proof.
  intros Hk Ho Hp Hn (?&?&_). apply (Hk p n); [done| |lia].
  intros Hin. apply Ho in Hin. congruence.
Qed.

Lemma runs_kept s s1 s' U q p r :
  keeps_others s s1 U q → (∀ e, e ∈ q.*1 → U !! e = Some 8) → U !! p = Some sizeof_process →
  runs s1 s' p r → runs s s' p r.
Proof.
  intros Hk Ho Hp (H1&H2&H3). unfold runs in *.
  rewrite (kept_field s s1 U q p sizeof_process P_KERNEL_STACK Hk Ho Hp) in H1 by done.
  rewrite (kept_field s s1 U q p sizeof_process P_PDT_PADDR Hk Ho Hp) in H2 by done.
  rewrite (kept_field s s1 U q p sizeof_process 56 Hk Ho Hp) in H3 by done. done.
Qed.

(** Only a message. *)
Lemma stay_ok s U q msg :
  owns s U → queue s U q →
  ∃ r s', (Tasks.printk msg [] ≫= λ _, mret (Back tt)) s = Ok (r, s') ∧ queue s' U q ∧ keeps_others s s' U q ∧
    (∀ a, pg_mapped (pages (kheap s)) a = true → pg_mapped (pages (kheap s')) a = true) ∧
    r = @Back unit tt ∧ the_tss s' = the_tss s.
Proof.
  intros Hs Hq. destruct (pg_printk_spec (pages (kheap s)) msg [] (owns_wf s U Hs)) as (ps&E&Hps&Hsame).
  exists (Back tt), (set_kheap (set_pages ps (kheap s)) s).
  split; [unfold Tasks.printk, Kmalloc.printk, zoom, mbind, M_bind; by rewrite E|].
  split; [by apply (queue_same s)|]. split; [by intros b n w|]. split; [|done]. by apply same_pages_mono.
Qed.

(** ** Adding *)

(** A fresh element, filled in but not linked. *)
Lemma fill_element s U q e p :
  owns s U → queue s U q → U !! e = Some 8 → e ∉ q.*1 →
  ∃ s', (wr e E_PS p ≫= λ _, wr e E_NEXT 0) s = Ok (tt, s') ∧ owns s' U ∧ queue s' U q ∧
    ld (mem s') e = 0 ∧ ld (mem s') (e + 4) = p ∧ keeps_others s s' U [(e, p)] ∧
    pages (kheap s') = pages (kheap s) ∧ the_tss s' = the_tss s.
Proof.
  intros Hs [Hnd Ho Hc Hst Hen] He Hn.
  destruct (wr_owned s U e 8 E_PS p Hs He ps_field4) as [E1 Hs1]. rewrite (bind_ok _ _ _ _ _ E1).
  set (s1 := put (e + E_PS) p s) in *.
  destruct (wr_owned s1 U e 8 E_NEXT 0 Hs1 He ne_field0) as [E2 Hs2].
  exists (put (e + E_NEXT) 0 s1). split; [done|]. split; [done|].
  assert (Hin : e ∈ [(e, p)].*1) by (by left).
  split; [|split; [|split; [|split; [|done]]]].
  - split; try done. apply (chain_put s1 U); try done. by apply (chain_put s U).
  - rewrite mem_put. unfold E_NEXT. rewrite Z.add_0_r. apply ld_insert_eq.
  - rewrite mem_put. unfold E_NEXT. rewrite ld_insert_ne by lia. apply ld_insert_eq.
  - intros b n w Hb Hbn Hw. rewrite (put_others s1 U [(e, p)] e E_NEXT 0 Hs1 He Hin ne_field0 b n w Hb Hbn Hw).
    apply (put_others s U [(e, p)] e E_PS p Hs He Hin ps_field4 b n w Hb Hbn Hw).
Qed.

(** Linking it into the list. *)
Lemma append_ok s U q e p :
  owns s U → queue s U q → U !! e = Some 8 → e ∉ q.*1 → ld (mem s) e = 0 → ld (mem s) (e + 4) = p →
  ∃ s', (start ← gets list_start;
         (if start =? 0 then modify (set_start e)
          else last ← gets list_end; wr last E_NEXT e) ≫= λ _,
         modify (set_end e) ≫= λ _, mret 0) s = Ok (0, s') ∧ owns s' U ∧ queue s' U (q ++ [(e, p)]) ∧
    keeps_others s s' U q ∧ pages (kheap s') = pages (kheap s) ∧ the_tss s' = the_tss s.
Proof.
  intros Hs Hq He Hn H0 Hp. pose proof Hq as [Hnd Ho Hc Hst Hen].
  rewrite (bind_ok _ _ s (first q 0) s) by (unfold gets; by rewrite Hst).
  destruct q as [|[e1 p1] q]; simpl (first _ 0).
  - exists (set_end e (set_start e s)). split; [done|]. split; [done|].
    split; [|by repeat split]. split; simpl; try done.
    + apply NoDup_singleton.
    + intros x Hx. apply list_elem_of_singleton in Hx. by subst x.
    + intros q' x E. apply (app_inj_tail [] q') in E as [_ <-]. done.
  - assert (He1 : U !! e1 = Some 8) by (apply Ho; simpl; by left).
    destruct (owned_block s U e1 8 Hs He1) as (?&_). destruct (Z.eqb_spec e1 0); [lia|].
    destruct (link_last s U ((e1, p1) :: q) e p Hs Hq ltac:(done) He Hn H0 Hp) as (s1&E1&Hs1&Hk&Hq1&Es).
    rewrite (bind_ok _ _ _ _ _ E1). exists (set_end e s1). split; [done|]. split; [done|].
    split; [done|]. split; [done|]. by rewrite Es.
Qed.

(** The whole of [scheduler_add_process] when there is an element for it. *)
Lemma enqueue_ok s U q p e h :
  queue s U q → e ≠ 0 → U !! e = None → state_inv base (h, <[e := 8]> U) →
  (∀ b n w, U !! b = Some n → b <= w < b + n → ld (words h) w = ld (mem s) w) →
  ∃ s', (∀ f, kmalloc base f 8 (kheap s) = Ok (e, h) → scheduler_add_process base f p s = Ok (0, s')) ∧
    owns s' (<[e := 8]> U) ∧ queue s' (<[e := 8]> U) (q ++ [(e, p)]) ∧ keeps_others s s' U q ∧
    pages (kheap s') = pages h ∧ the_tss s' = the_tss s.
Proof.
  intros [Hnd Ho Hc Hst Hen] He Hnone Hinv Hk. set (s1 := set_kheap h s). set (U' := <[e := 8]> U) in *.
  assert (Hs1 : owns s1 U') by exact Hinv.
  assert (Hc1 : chain (mem s1) q 0).
  { apply (chain_ext (mem s)); [|done]. intros x Hx. by split; apply (Hk x 8); auto; lia. }
  assert (Hu : ∀ b n, U !! b = Some n → U' !! b = Some n ∧ b ≠ e).
  { intros b n Hb. assert (b ≠ e) by congruence. split; [|done]. unfold U'. by rewrite lookup_insert_ne. }
  assert (Hn : e ∉ q.*1) by (intros Hin; apply Ho in Hin; congruence).
  assert (Hq1 : queue s1 U' q) by (split; try done; intros x Hx; apply (Hu x 8), Ho, Hx).
  destruct (fill_element s1 U' q e p Hs1 Hq1 (lookup_insert_eq _ _ _) Hn)
    as (s2&E2&Hs2&Hq2&H0&Hp&Hk2&Hpg2&Ht2).
  destruct (append_ok s2 U' q e p Hs2 Hq2 (lookup_insert_eq _ _ _) Hn H0 Hp)
    as (s3&E3&Hs3&Hq3&Hk3&Hpg3&Ht3).
  exists s3. split.
  { intros f Ek. unfold scheduler_add_process.
    assert (Ea : zoom kheap set_kheap (kmalloc base f sizeof_process_list_element) s = Ok (e, s1))
      by (unfold zoom, sizeof_process_list_element; by rewrite Ek).
    rewrite (bind_ok _ _ _ _ _ Ea).
    destruct (Z.eqb_spec e 0); [done|]. rewrite <- (bind_assoc _ _ _ s1), (bind_ok _ _ _ _ _ E2). done. }
  split; [done|]. split; [done|]. split; [|by rewrite Hpg3, Hpg2, Ht3, Ht2].
  intros b n w Hb Hbn Hw. destruct (Hu b n Hb) as [Hb' Hne]. rewrite (Hk3 b n w Hb' Hbn Hw).
  rewrite (Hk2 b n w Hb'); [by apply (Hk b n)| |done]. rewrite addr_one. done.
Qed.

(** The whole of [scheduler_schedule]. *)
Lemma schedule_ok s U q :
  owns s U → queue s U q → processes U q → (∀ x, x ∈ q → x.2 ≠ 0 → ready s x.2) →
  ∃ r s', scheduler_schedule s = Ok (r, s') ∧ queue s' U (next_turn q).1 ∧ keeps_others s s' U q ∧
    (∀ a, pg_mapped (pages (kheap s)) a = true → pg_mapped (pages (kheap s')) a = true) ∧
    match (next_turn q).2 with
    | Some p => runs s s' p r
    | None => r = Back tt ∧ the_tss s' = the_tss s
    end.
Proof.
  intros Hs Hq Hp Hr. pose proof Hq as [Hnd Ho Hc Hst Hen]. unfold scheduler_schedule, next_turn.
  rewrite (bind_ok _ _ s (first q 0) s) by (unfold gets; by rewrite Hst).
  destruct q as [|[e p] q2] eqn:Eq; rewrite <- Eq in *; [subst q|].
  { simpl (first _ 0). rewrite (bind_ok _ _ s 0 s) by done. by apply stay_ok. }
  assert (Hin : (e, p) ∈ q) by (subst q; by left).
  assert (He : U !! e = Some 8) by (apply Ho; subst q; simpl; by left).
  destruct (owned_block s U e 8 Hs He) as (Hpos&_).
  assert (Ef : first q 0 = e) by (by subst q). rewrite Ef. destruct (Z.eqb_spec e 0); [lia|].
  assert (Ep : ld (mem s) (e + 4) = p) by (subst q; apply Hc).
  rewrite (bind_ok _ _ _ _ _ (rd_owned s U e 8 E_PS Hs He ps_field4)). change (e + E_PS) with (e + 4). rewrite Ep.
  destruct (Z.eqb_spec p 0) as [->|Hpn]; [by apply stay_ok|].
  destruct (rotate_ok s U q Hs Hq) as (s1&E1&Hs1&Hq1&Hk1&Hpg&Ht1); [by subst q|].
  rewrite (bind_ok _ _ _ _ _ E1). pose proof Hq1 as [_ Ho1 Hc1 Hst1 _].
  destruct (rotated q) as [|[e' p'] q3] eqn:Er.
  { exfalso. subst q. simpl in Er. by destruct q2. }
  assert (He' : U !! e' = Some 8) by (apply Ho1; simpl; by left).
  rewrite (bind_ok _ _ s1 e' s1) by (unfold gets; by rewrite Hst1).
  rewrite (bind_ok _ _ _ _ _ (rd_owned s1 U e' 8 E_PS Hs1 He' ps_field4)). change (e' + E_PS) with (e' + 4).
  destruct Hc1 as (_&Ep'&_). rewrite Ep'. cbn [fst snd].
  destruct (Z.eqb_spec p' 0) as [->|Hpn'].
  { destruct (stay_ok s1 U _ "scheduler: No process to schedule\n" Hs1 Hq1) as (r2&s2&E2&Hq2&Hm2&Hmp2&Hr2&Ht2).
    exists r2, s2. split; [done|]. split; [done|]. split; [|split; [by rewrite <- Hpg|by rewrite Hr2, Ht2, Ht1]].
    intros b n' w Hb Hbn Hw. rewrite <- (Hk1 b n' w Hb Hbn Hw). apply (Hm2 b n' w); [done| |done].
    intros Hin'. apply Hbn. revert Hin'. rewrite <- Er, !list_elem_of_fmap. intros (x&->&Hx). rewrite rotated_in in Hx.
    exists x. split; [reflexivity|exact Hx]. }
  assert (Hin' : (e', p') ∈ q) by (apply rotated_in; rewrite Er; by left).
  assert (Hpb : U !! p' = Some sizeof_process) by (destruct (Hp _ Hin'); done).
  assert (Hready : ready s1 p').
  { unfold ready. rewrite Hpg, !(kept_field s s1 U q p' sizeof_process) by done. by apply (Hr (e', p')). }
  destruct (switch_ok s1 U p' Hs1 Hpb Hready) as (r&s2&E2&Hruns&Hm2&Hls2&Hle2&Hmp2&_).
  exists r, s2. split; [done|]. split; [by apply (queue_same s1)|]. split.
  - intros b n' w Hb Hbn Hw. rewrite Hm2. by apply (Hk1 b n').
  - split; [by rewrite <- Hpg|]. by apply (runs_kept s s1 s2 U q).
Qed.

(** ** The properties *)

(** C29: [scheduler_next_pid] ends, changes nothing, and answers a number
    that no process of the list has, greater than all of theirs; only when one of
    them has the greatest number of 32 bits does it wrap around to 0. *)
Theorem scheduler_next_pid_fresh s U q fuel :
  owns s U → queue s U q → processes U q → (∀ x, x ∈ q → x.2 ≠ 0 → is_u32 (ld (mem s) x.2)) →
  (length q < fuel)%nat →
  ∃ r, scheduler_next_pid fuel s = Ok (r, s) ∧
    (((∀ x, x ∈ q → x.2 ≠ 0 → ld (mem s) x.2 < 4294967295) ∧ 0 < r < 4294967296 ∧
      ∀ x, x ∈ q → x.2 ≠ 0 → ld (mem s) x.2 < r) ∨
     ((∃ x, x ∈ q ∧ x.2 ≠ 0 ∧ ld (mem s) x.2 = 4294967295) ∧ r = 0)).
Proof.
  intros Hs [Hnd Ho Hc Hst Hen] Hp Hu Hf. unfold scheduler_next_pid.
  rewrite (bind_ok _ _ s (first q 0) s) by (unfold gets; by rewrite Hst).
  rewrite (bind_ok _ _ _ _ _ (max_pid_loop_ok s U q fuel 0 Hs Ho Hc Hp Hf)).
  eexists. split; [reflexivity|]. destruct (greatest_id_le (mem s) q 0) as [H0 Hle].
  destruct (decide (Exists (λ x, x.2 ≠ 0 ∧ ld (mem s) x.2 = 4294967295) q)) as [Hex|Hno].
  - right. apply Exists_exists in Hex as (x&Hx&Hn&E). split; [by exists x|].
    pose proof (Hle x Hx Hn).
    assert (greatest_id (mem s) q 0 < 4294967296) by (apply greatest_id_lt; [lia|]; intros; by apply Hu).
    replace (greatest_id (mem s) q 0) with 4294967295 by lia. done.
  - left. rewrite <- Forall_Exists_neg, Forall_forall in Hno.
    assert (Hlt : ∀ x, x ∈ q → x.2 ≠ 0 → ld (mem s) x.2 < 4294967295).
    { intros x Hx Hn. pose proof (Hu x Hx Hn). specialize (Hno x Hx). simpl in Hno.
      destruct (decide (ld (mem s) x.2 = 4294967295)); [tauto|lia]. }
    pose proof (greatest_id_lt (mem s) q 4294967295 0 ltac:(lia) Hlt).
    rewrite u32_small by lia. split; [done|]. split; [lia|]. intros x Hx Hn. specialize (Hle x Hx Hn). lia.
Qed.

(** C30: [scheduler_add_process] with enough fuel ends: it puts the
    process at the end of the queue, in an element of its own, or it answers -1 and
    leaves the queue as it was; the blocks of others keep their bytes. *)
Theorem scheduler_add_process_enqueues s U q p :
  base mod 4096 ≠ 0 → owns s U → queue s U q →
  ∃ fuel r s', (∀ f, (fuel <= f)%nat → scheduler_add_process base f p s = Ok (r, s')) ∧
    keeps_others s s' U q ∧ the_tss s' = the_tss s ∧
    ((r = 0 ∧ ∃ e, U !! e = None ∧ owns s' (<[e := 8]> U) ∧ queue s' (<[e := 8]> U) (q ++ [(e, p)])) ∨
     (r = -1 ∧ owns s' U ∧ queue s' U q)).
Proof.
  intros Hbase Hs Hq. destruct (kmalloc_total base Hbase (kheap s) U 8 Hs ltac:(lia)) as (fuel&e&h&E&Hk&Hpost).
  set (s1 := set_kheap h s). pose proof Hq as [Hnd Ho Hc Hst Hen].
  assert (Hk1 : ∀ b n w, U !! b = Some n → b <= w < b + n → ld (mem s1) w = ld (mem s) w) by exact Hk.
  assert (Hc1 : chain (mem s1) q 0).
  { apply (chain_ext (mem s)); [|done]. intros x Hx. by split; apply (Hk1 x 8); auto; lia. }
  assert (Eadd : ∀ f, (fuel <= f)%nat →
    zoom kheap set_kheap (kmalloc base f sizeof_process_list_element) s = Ok (e, s1)).
  { intros f Hf. unfold zoom. by rewrite E. }
  destruct Hpost as [[-> Hs1]|(He&Hnone&Hs1)].
  - destruct (message_ok s1 U "scheduler_add_process: Couldn't allocate memory for element in process list\n" [] Hs1)
      as (ps&Em&Hs2).
    exists fuel, (-1). eexists. split.
    { intros f Hf. unfold scheduler_add_process. rewrite (bind_ok _ _ _ _ _ (Eadd f Hf)). simpl (0 =? 0). cbv iota.
      rewrite (bind_ok _ _ _ _ _ Em). reflexivity. }
    split; [intros b n w Hb _; by apply (Hk1 b n)|]. split; [done|]. right. split; [done|]. by split.
  - destruct (enqueue_ok s U q p e h Hq He Hnone Hs1 Hk) as (s3 & E3 & Hs3 & Hq3 & Hk3 & _ & Ht3).
    exists fuel, 0, s3. split; [intros f Hf; by apply E3, E|]. do 2 (split; [done|]). left. split; [done|]. by exists e.
Qed.

(** C31: [scheduler_schedule] moves the first process of the queue to its
    end and begins the turn of the next: its kernel stack is in the task state segment,
    its directory in force, and [run_process_in_user_mode] is called with its
    registers, which is where the run of the C code ends; it returns when the process
    was in kernel mode. It begins no turn, says so and returns, when the queue is empty or one of the two is null; a null process
    at the head stays there. The blocks of others keep their bytes. *)
Theorem scheduler_schedule_rotates s U q :
  owns s U → queue s U q → processes U q → (∀ x, x ∈ q → x.2 ≠ 0 → ready s x.2) →
  ∃ r s', scheduler_schedule s = Ok (r, s') ∧ queue s' U (next_turn q).1 ∧ keeps_others s s' U q ∧
    match (next_turn q).2 with
    | Some p => runs s s' p r
    | None => r = Back tt ∧ the_tss s' = the_tss s
    end.
Proof.
  intros Hs Hq Hp Hr. destruct (schedule_ok s U q Hs Hq Hp Hr) as (r & s' & E & Hq' & Hk & _ & Hruns). by exists r, s'.
Qed.
End spec.
