(* ===== verification/Process.v ===== *)
(** * Process: the creation of processes in kernel/process.c

    [process_create] in its four parts. A part answers [false] where the function
    returns NULL. The arguments of a message that are pointers are passed as the
    numbers they are. *)

From S2P Require Import Prelude CArith Mmu PageServices Kmalloc Tasks Scheduler.

Definition PAGING_PL3 : Z := 1.
Definition KERNEL_START_VADDR : Z := 0xC0000000.
Definition PROC_INITIAL_STACK_SIZE : Z := 1.
Definition PROC_INITIAL_STACK_VADDR : Z := KERNEL_START_VADDR - FOUR_KB.
Definition PROC_INITIAL_ESP : Z := KERNEL_START_VADDR - 4.
Definition KERNEL_STACK_SIZE : Z := FOUR_KB.
Definition REG_EFLAGS_DEFAULT : Z := 0x202.

Section process.
Context {St : Type} `{!PageOps St, !ProcessPageOps St}.

(** The address of the static [base] of kmalloc.c. *)
Context (base : Z).

Definition kmalloc (fuel : nat) (n : Z) : M (tasks St) Z :=
  zoom kheap set_kheap (Kmalloc.kmalloc base fuel n).
Definition pfa_allocate (n : Z) : M (tasks St) Z := paging_call (pg_allocate n).

(** Initialize process structure. *)
Definition initialize (fuel : nat) (p : Z) : M (tasks St) unit :=
  id ← scheduler_next_pid fuel;
  wr p P_ID id ≫= λ _,
  wr p P_PARENT_ID 0 ≫= λ _,
  wr p P_PDT 0 ≫= λ _,
  wr p P_PDT_PADDR 0 ≫= λ _,
  wr p P_KERNEL_STACK 0 ≫= λ _,
  wr p P_CODE 0 ≫= λ _,
  wr p P_STACK PROC_INITIAL_STACK_VADDR ≫= λ _,
  wr p (P_CODE_PADDRS + LIST_START) 0 ≫= λ _,
  wr p (P_CODE_PADDRS + LIST_END) 0 ≫= λ _,
  wr p (P_STACK_PADDRS + LIST_START) 0 ≫= λ _,
  wr p (P_STACK_PADDRS + LIST_END) 0 ≫= λ _,
  wr p (P_KERNEL_STACK_PADDRS + LIST_START) 0 ≫= λ _,
  wr p (P_KERNEL_STACK_PADDRS + LIST_END) 0 ≫= λ _,
  clear_words p P_USER_MODE (sizeof_registers / 4) ≫= λ _,
  clear_words p P_CURRENT (sizeof_registers / 4) ≫= λ _,
  wr p (P_USER_MODE + REG_EFLAGS) REG_EFLAGS_DEFAULT ≫= λ _,
  wr p (P_USER_MODE + REG_SS) (Z.lor SEGSEL_USER_SPACE_DS 0x03) ≫= λ _,
  wr p (P_USER_MODE + REG_CS) (Z.lor SEGSEL_USER_SPACE_CS 0x03).

(** Load process page tables. *)
Definition load_pdt (p : Z) : M (tasks St) bool :=
  '(pdt, paddr) ← paging_call pp_create;
  if (pdt =? 0) || (paddr =? 0) then
    printk "process_load_pdt: Could not create PDT for process.pdt: %X, pdt_paddr: %u\n" [pdt; paddr]
    ≫= λ _, mret false
  else
    wr p P_PDT pdt ≫= λ _,
    wr p P_PDT_PADDR paddr ≫= λ _, mret true.

(** Load process code: a page, at the address 0 of the process. *)
Definition load_code (fuel : nat) (p : Z) : M (tasks St) unit :=
  let vaddr := 0x00000000 in
  let file_size := 42 in
  let pfs := div_ceil file_size FOUR_KB in
  paddr ← pfa_allocate pfs;
  kernel_vaddr ← paging_call (pg_find file_size);
  paging_call (pg_map paddr kernel_vaddr file_size PAGING_READ_WRITE PAGING_PL0) ≫= λ _,
  paging_call (pp_unmap fuel kernel_vaddr file_size) ≫= λ _,
  pdt ← rd p P_PDT;
  mapped_memory_size ← paging_call (pp_map_in pdt paddr vaddr file_size PAGING_READ_WRITE PAGING_PL3);
  (if mapped_memory_size <? file_size then
     pdt ← rd p P_PDT;
     printk "Could not map memory in proc PDT. vaddr: %X, paddr %X, size %u, pdt: %X\n"
       [vaddr; paddr; file_size; pdt]
   else mret tt) ≫= λ _,
  code_paddrs ← kmalloc fuel sizeof_paddr_ele;
  wr code_paddrs ELE_PADDR paddr ≫= λ _,
  wr code_paddrs ELE_COUNT pfs ≫= λ _,
  wr p (P_CODE_PADDRS + LIST_START) code_paddrs ≫= λ _,
  wr p (P_CODE_PADDRS + LIST_END) code_paddrs ≫= λ _,
  wr p (P_USER_MODE + REG_EIP) vaddr ≫= λ _,
  wr p P_CODE vaddr.

(** Load process stack: a page below the kernel. *)
Definition load_stack (fuel : nat) (p : Z) : M (tasks St) bool :=
  let pfs := div_ceil PROC_INITIAL_STACK_SIZE FOUR_KB in
  paddr ← pfa_allocate pfs;
  if paddr =? 0 then
    printk "process_load_stack: Could not allocate page frames for stack. pfs: %u\n" [pfs]
    ≫= λ _, mret false
  else
    let bytes := pfs *ᵤ FOUR_KB in
    pdt ← rd p P_PDT;
    mapped_memory_size ←
      paging_call (pp_map_in pdt paddr PROC_INITIAL_STACK_VADDR bytes PAGING_READ_WRITE PAGING_PL3);
    if mapped_memory_size <? bytes then
      pdt ← rd p P_PDT;
      printk "process_load_stack: Could not map memory for stack in given pdt. vaddr: %X, paddr: %X, size: %u, pdt: %X\n"
        [PROC_INITIAL_STACK_VADDR; paddr; bytes; pdt] ≫= λ _, mret false
    else
      stack_paddrs ← kmalloc fuel sizeof_paddr_ele;
      if stack_paddrs =? 0 then
        printk "process_load_stack: Could not allocated memory for stack paddr list\n" []
        ≫= λ _, mret false
      else
        wr stack_paddrs ELE_PADDR paddr ≫= λ _,
        wr stack_paddrs ELE_COUNT pfs ≫= λ _,
        wr stack_paddrs ELE_NEXT 0 ≫= λ _,
        wr p (P_STACK_PADDRS + LIST_START) stack_paddrs ≫= λ _,
        wr p (P_STACK_PADDRS + LIST_END) stack_paddrs ≫= λ _,
        wr p P_STACK PROC_INITIAL_STACK_VADDR ≫= λ _,
        wr p (P_USER_MODE + REG_ESP) PROC_INITIAL_ESP ≫= λ _, mret true.

(** Load process kernel stack: a page of the kernel's addresses. *)
Definition load_kernel_stack (fuel : nat) (p : Z) : M (tasks St) bool :=
  let pfs := div_ceil KERNEL_STACK_SIZE FOUR_KB in
  paddr ← pfa_allocate pfs;
  if paddr =? 0 then
    printk "process_load_kernel_stack: Could not allocate page for kernel stack. pfs: %u\n" [pfs]
    ≫= λ _, mret false
  else
    let bytes := pfs *ᵤ FOUR_KB in
    vaddr ← paging_call (pg_find bytes);
    if vaddr =? 0 then
      printk "process_load_kernel_stack: Could not find virtual address for kernel stack.bytes: %u\n" [bytes]
      ≫= λ _, mret false
    else
      mapped_memory_size ← paging_call (pg_map paddr vaddr bytes PAGING_READ_WRITE PAGING_PL0);
      if negb (mapped_memory_size =? bytes) then
        printk "process_load_kernel_stack: Could not map memory for kernel stack. paddr: %X, vaddr: %X, bytes: %u\n"
          [paddr; vaddr; bytes] ≫= λ _, mret false
      else
        kernel_stack_paddrs ← kmalloc fuel sizeof_paddr_ele;
        if kernel_stack_paddrs =? 0 then
          printk "process_load_kernel_stack: Could not allocated memory for kernel stack paddr list\n" []
          ≫= λ _, mret false
        else
          wr kernel_stack_paddrs ELE_COUNT pfs ≫= λ _,
          wr kernel_stack_paddrs ELE_PADDR paddr ≫= λ _,
          wr kernel_stack_paddrs ELE_NEXT 0 ≫= λ _,
          wr p (P_KERNEL_STACK_PADDRS + LIST_START) kernel_stack_paddrs ≫= λ _,
          wr p (P_KERNEL_STACK_PADDRS + LIST_END) kernel_stack_paddrs ≫= λ _,
          wr p P_KERNEL_STACK ((vaddr +ᵤ bytes) -ᵤ 4) ≫= λ _, mret true.

(** [m], and then [k], or NULL where [m] gave up. *)
Definition or_null (m : M (tasks St) bool) (k : M (tasks St) Z) : M (tasks St) Z :=
  ok ← m; if ok : bool then k else mret 0.

(** The program's file is not read yet, so the path plays no part. *)
Definition process_create (fuel : nat) : M (tasks St) Z :=
  p ← kmalloc fuel sizeof_process;
  (if p =? 0 then printk "Failed to kmalloc 'struct process' during process create." []
   else mret tt) ≫= λ _,
  initialize fuel p ≫= λ _,
  or_null (load_pdt p)
    (load_code fuel p ≫= λ _,
     or_null (load_stack fuel p)
       (or_null (load_kernel_stack fuel p)
          (copy_words p P_CURRENT P_USER_MODE (sizeof_registers / 4) ≫= λ _, mret p))).

Definition process_init (fuel : nat) : M (tasks St) unit :=
  process_create fuel ≫= λ _, mret tt.
End process.
