(* ===== verification/TaskBlocks.v ===== *)
(** * TaskBlocks: the heap's blocks while a process is made

    [blocks]: the blocks handed out since a state [s0] and the words known of
    them, those owned before keeping their bytes. The accesses to fields, the calls of
    [kmalloc] and those of the paging code, as steps from one such description to
    the next. *)

From S2P Require Import Prelude CArith Mmu PageServices Kmalloc HeapLayout KmallocFacts KmallocSpec KmallocTrace Tasks Scheduler SchedulerSpec Process.

(** The words at the offsets of a block. *)
Abbreviation contents := (gmap Z Z).

Definition writes (l : list (Z * Z)) (m : contents) : contents := foldl (λ m '(o, w), <[o := w]> m) m l.

Section blocks.
Context {St : Type} `{!PageOps St, !PageLaws St, !ProcessPageOps St}.
Context (base : Z) (Hbase : base mod 4096 ≠ 0).
Context (s0 : tasks St) (U0 : gmap Z Z).
Implicit Types (s : tasks St) (B : gmap Z (Z * contents)) (m : contents) (ps : St).

Definition sizes B : gmap Z Z := fst <$> B.

(** The state of the paging code, in the state of the tasks. *)
Definition set_services ps s : tasks St := set_kheap (set_pages ps (kheap s)) s.

(** In [s] the blocks of [B] are owned beside those of [U0], at most [N] are free, one of
    them of [n] units, and the state of the paging code is [ps]. *)
Record blocks s (N : nat) (n : Z) B ps : Prop := Blocks {
  bl_room : heap_room base (kheap s) (sizes B ∪ U0) N n;
  bl_new p : is_Some (B !! p) → U0 !! p = None;
  bl_words p k m o w : B !! p = Some (k, m) → m !! o = Some w → field o k ∧ ld (mem s) (p + o) = w;
  bl_kept p k w : U0 !! p = Some k → p <= w < p + k → ld (mem s) w = ld (mem s0) w;
  bl_pages : pages (kheap s) = ps;
  bl_rest : the_tss s = the_tss s0 ∧ list_start s = list_start s0 ∧ list_end s = list_end s0
}.

Lemma blocks_owns s N n B ps : blocks s N n B ps → owns base s (sizes B ∪ U0).
Proof. intros [Hr _ _ _ _ _]. exact (heap_room_inv base _ _ N n Hr). Qed.

Lemma sizes_lookup B p k m : B !! p = Some (k, m) → (sizes B ∪ U0) !! p = Some k.
Proof. intros E. apply lookup_union_Some_l. unfold sizes. by rewrite lookup_fmap, E. Qed.

Lemma old_lookup s N n B ps p k :
  blocks s N n B ps → U0 !! p = Some k → (sizes B ∪ U0) !! p = Some k.
Proof.
  intros Hb E. rewrite lookup_union_r; [done|]. unfold sizes. rewrite lookup_fmap.
  destruct (B !! p) eqn:EB; [|done]. rewrite (bl_new _ _ _ _ _ Hb p) in E; [done|by rewrite EB].
Qed.

(** At the start. *)
Lemma blocks_start N n ps :
  heap_room base (kheap s0) U0 N n → pages (kheap s0) = ps → blocks s0 N n ∅ ps.
Proof.
  intros Hr Hp. split; [| | |done..].
  - unfold sizes. by rewrite fmap_empty, (left_id_L ∅ (∪)).
  - intros p [x E]. by rewrite lookup_empty in E.
  - intros p k m o w E. by rewrite lookup_empty in E.
Qed.

(** ** Fields *)

Lemma blocks_rd s N n B ps p k m o w :
  blocks s N n B ps → B !! p = Some (k, m) → m !! o = Some w → rd p o s = Ok (w, s).
Proof.
  intros Hb Hp Ho. destruct (bl_words _ _ _ _ _ Hb p k m o w Hp Ho) as [Hf <-].
  apply (rd_owned base s (sizes B ∪ U0) p k o); [by apply (blocks_owns s N n B ps)|by apply (sizes_lookup B p k m)|done].
Qed.

Lemma sizes_same B p k m m' : B !! p = Some (k, m) → sizes (<[p := (k, m')]> B) = sizes B.
Proof.
  intros E. unfold sizes. rewrite fmap_insert. apply insert_id. by rewrite lookup_fmap, E.
Qed.

Lemma blocks_wr s N n B ps p k m o w :
  blocks s N n B ps → B !! p = Some (k, m) → field o k →
  ∃ s', wr p o w s = Ok (tt, s') ∧ blocks s' N n (<[p := (k, <[o := w]> m)]> B) ps.
Proof.
  intros Hb Hp Ho. pose proof (blocks_owns s N n B ps Hb) as Hs. pose proof (sizes_lookup B p k m Hp) as HU.
  destruct (wr_owned base s _ p k o w Hs HU Ho) as [E _]. exists (put (p + o) w s). split; [done|].
  pose proof Hb as [Hroom Hnew Hw Hk Hps Hr]. pose proof Ho as (Ho0 & Hok & Ho4).
  split.
  - rewrite (sizes_same B p k m) by done. by apply (write_room base (kheap s) _ N n p k); [..|lia|lia].
  - intros q [->|[_ ?]]%lookup_insert_is_Some; apply Hnew; eauto.
  - intros q k' m' o' w' [[<- [= <- <-]]|[Hne Hq]]%lookup_insert_Some Hm'.
    + apply lookup_insert_Some in Hm' as [[<- <-]|[Hno Hm']]; [split; [done|apply ld_insert_eq]|].
      destruct (Hw p k m o' w' Hp Hm') as [? E']. split; [done|]. rewrite mem_put, ld_insert_ne by lia. done.
    + destruct (Hw q k' m' o' w' Hq Hm') as [Hf' E']. split; [done|]. rewrite mem_put, ld_insert_ne; [done|].
      by apply (fields_apart base s _ p k o q k' o' Hs HU (sizes_lookup B q k' m' Hq)).
  - intros q k' x Hq Hx. rewrite mem_put, ld_insert_ne; [by apply (Hk q k')|].
    pose proof (old_lookup s N n B ps q k' Hb Hq) as HUq.
    assert (q ≠ p) by (intros ->; rewrite Hnew in Hq; by eauto).
    destruct (proj1 (owned_disjoint base _ _ Hs) q k' p k HUq HU ltac:(done)); lia.
  - done.
  - done.
Qed.

(** The same field again. *)
Lemma blocks_insert s N n B ps p k m m' :
  blocks s N n (<[p := (k, m')]> (<[p := (k, m)]> B)) ps → blocks s N n (<[p := (k, m')]> B) ps.
Proof. by rewrite insert_insert_eq. Qed.

(** ** Loops over fields *)

Lemma blocks_each (I : contents → Prop) (l : list Z) (f : Z → M (tasks St) unit) (g h : Z → Z) N n B ps p k :
  (∀ i, i ∈ l → field (g i) k) →
  (∀ i m, i ∈ l → I m → I (<[g i := h i]> m)) →
  (∀ i t m, i ∈ l → I m → blocks t N n (<[p := (k, m)]> B) ps → f i t = wr p (g i) (h i) t) →
  ∀ s m, I m → blocks s N n (<[p := (k, m)]> B) ps →
  ∃ s', for_each l f s = Ok (tt, s') ∧
    blocks s' N n (<[p := (k, writes ((λ i, (g i, h i)) <$> l) m)]> B) ps.
Proof.
  induction l as [|i l IH]; intros Hg HI Hf s m Hm Hb; [by exists s|]. cbn [for_each].
  assert (Hi : i ∈ i :: l) by (by left).
  destruct (blocks_wr s N n _ ps p k m (g i) (h i) Hb (lookup_insert_eq _ _ _) (Hg i Hi)) as (s1 & E1 & Hb1).
  rewrite <- (Hf i s m Hi Hm Hb) in E1. rewrite (bind_ok _ _ _ _ _ E1). apply blocks_insert in Hb1.
  apply (IH ltac:(intros; apply Hg; by right) ltac:(intros; apply HI; [by right|done])
    ltac:(intros j t m' Hj; apply Hf; by right) s1 _ (HI i m Hi Hm) Hb1).
Qed.

Lemma blocks_clear s N n B ps p k m off c :
  blocks s N n (<[p := (k, m)]> B) ps → (∀ i, 0 <= i < c → field (off + 4 * i) k) →
  ∃ s', clear_words p off c s = Ok (tt, s') ∧
    blocks s' N n (<[p := (k, writes ((λ i, (off + 4 * i, 0)) <$> seqZ 0 c) m)]> B) ps.
Proof.
  intros Hb Hf. apply (blocks_each (λ _, True) (seqZ 0 c) _ (λ i, off + 4 * i) (λ _, 0)); try done.
  intros i Hi%elem_of_seqZ. apply Hf. lia.
Qed.

Lemma blocks_copy s N n B ps p k m dst src c (W : Z → Z) :
  blocks s N n (<[p := (k, m)]> B) ps → (∀ i, 0 <= i < c → field (dst + 4 * i) k) →
  (∀ i, 0 <= i < c → m !! (src + 4 * i) = Some (W i)) → dst + 4 * c <= src ∨ src + 4 * c <= dst →
  ∃ s', copy_words p dst src c s = Ok (tt, s') ∧
    blocks s' N n (<[p := (k, writes ((λ i, (dst + 4 * i, W i)) <$> seqZ 0 c) m)]> B) ps.
Proof.
  intros Hb Hf HW Hd.
  apply (blocks_each (λ m, ∀ j, 0 <= j < c → m !! (src + 4 * j) = Some (W j)) (seqZ 0 c) _ (λ i, dst + 4 * i) W);
    try done.
  - intros i Hi%elem_of_seqZ. apply Hf. lia.
  - intros i m' Hi%elem_of_seqZ Hm' j Hj. rewrite lookup_insert_ne by lia. by apply Hm'.
  - intros i t m' Hi%elem_of_seqZ Hm' Hb'.
    by rewrite (bind_ok _ _ _ _ _ (blocks_rd t N n _ ps p k m' _ _ Hb' (lookup_insert_eq _ _ _) (Hm' i ltac:(lia)))).
Qed.

(** ** Calls *)

Lemma blocks_kmalloc s N z r B ps fuel :
  blocks s N (units z + r) B ps → 0 < z <= 4194296 → 0 <= r → (N < fuel)%nat →
  ∃ p s', Process.kmalloc base fuel z s = Ok (p, s') ∧ p ≠ 0 ∧ B !! p = None ∧ U0 !! p = None ∧
    blocks s' N r (<[p := (z, ∅)]> B) ps.
Proof.
  intros Hb Hz Hr Hf. pose proof Hb as [Hroom Hnew Hw Hk Hps (Ht & Hs & He)].
  destruct (kmalloc_room base Hbase (kheap s) _ N z r fuel Hroom Hz Hr Hf) as (p & h & E & Hp & HU & Epg & Hr' & Hk').
  apply lookup_union_None in HU as [HB HU0]. unfold sizes in HB. rewrite lookup_fmap in HB.
  assert (HBp : B !! p = None) by (by destruct (B !! p)).
  exists p, (set_kheap h s). split; [unfold Process.kmalloc, zoom; by rewrite E|]. split; [done|]. split; [done|].
  split; [done|]. split; [| | | |by rewrite <- Hps|done].
  - unfold sizes. rewrite fmap_insert, <- insert_union_l. exact Hr'.
  - intros q [->|[_ ?]]%lookup_insert_is_Some; [done|by apply Hnew].
  - intros q k m o w [[<- [= <- <-]]|[Hne Hq]]%lookup_insert_Some Ho; [by rewrite lookup_empty in Ho|].
    destruct (Hw q k m o w Hq Ho) as [Hfd <-]. split; [done|]. destruct Hfd as (?&?&_).
    apply (Hk' q k); [by apply (sizes_lookup B q k m)|lia].
  - intros q k x Hq Hx. rewrite <- (Hk q k x Hq Hx). apply (Hk' q k); [by apply (old_lookup s N (units z + r) B ps)|done].
Qed.

Lemma paging_call_ok {A} (c : M St A) s ps r ps' :
  pages (kheap s) = ps → c ps = Ok (r, ps') → paging_call c s = Ok (r, set_services ps' s).
Proof. intros <- E. unfold paging_call, zoom. by rewrite E. Qed.

Lemma blocks_services s N n B ps ps' :
  blocks s N n B ps → pg_wf ps' → (∀ a, pg_mapped ps a = true → pg_mapped ps' a = true) →
  blocks (set_services ps' s) N n B ps'.
Proof.
  intros [(F & L & Hi & Ht & Hf) Hnew Hw Hk <- Hr] Hwf Hm. split; try done.
  exists F, L. split; [by apply heap_inv_pages|done].
Qed.

(** The number given to a new process. *)
Lemma blocks_next_pid s N n B ps q fuel :
  blocks s N n B ps → queue s0 U0 q → processes U0 q → (length q < fuel)%nat →
  scheduler_next_pid fuel s = Ok (u32 (greatest_id (mem s0) q 0 + 1), s).
Proof.
  intros Hb [_ Ho Hc Hst _] Hp Hf. pose proof (blocks_owns s N n B ps Hb) as Hs.
  destruct (bl_rest _ _ _ _ _ Hb) as (_ & Es & _). unfold scheduler_next_pid.
  assert (Hc' : chain (mem s) q 0).
  { apply (chain_ext (mem s0)); [|done]. intros e He. by split; apply (bl_kept _ _ _ _ _ Hb e 8); auto; lia. }
  assert (Hp' : processes (sizes B ∪ U0) q).
  { intros x Hx. destruct (Hp x Hx) as [?|HU]; [by left|right]. by apply (old_lookup s N n B ps). }
  rewrite (bind_ok _ _ s (first q 0) s) by (unfold gets; by rewrite Es, Hst).
  rewrite (bind_ok _ _ _ _ _ (max_pid_loop_ok base s _ q fuel 0 Hs
    ltac:(intros e He; apply (old_lookup s N n B ps); auto) Hc' Hp' Hf)).
  rewrite (greatest_id_ext (mem s0) (mem s)); [done|]. intros x Hx Hn. destruct (Hp x Hx) as [?|HU]; [done|].
  apply (bl_kept _ _ _ _ _ Hb x.2 sizeof_process); [done|]. unfold sizeof_process. lia.
Qed.
End blocks.
