(* ===== verification/ProcessCreate.v ===== *)
(** * ProcessCreate: [process_create] succeeds, and what it makes

    Each part of [process_create] as a step from one description of the blocks to
    the next, over the pages of [ProcessPages]. *)

From S2P Require Import Prelude CArith Interfaces Frames Mmu Paging PagingFacts PageMap PdtMap PageFind PdtCreate PageUnmap DemoMachine PageServices PagingServices ProcessPages Kmalloc HeapLayout KmallocFacts KmallocSpec KmallocTrace Tasks ProcessServices Scheduler SchedulerSpec Process TaskBlocks.

(** ** What the parts write *)

Definition header (id : Z) : list (Z * Z) :=
  [(P_ID, id); (P_PARENT_ID, 0); (P_PDT, 0); (P_PDT_PADDR, 0); (P_KERNEL_STACK, 0); (P_CODE, 0);
   (P_STACK, PROC_INITIAL_STACK_VADDR); (P_CODE_PADDRS + LIST_START, 0); (P_CODE_PADDRS + LIST_END, 0);
   (P_STACK_PADDRS + LIST_START, 0); (P_STACK_PADDRS + LIST_END, 0);
   (P_KERNEL_STACK_PADDRS + LIST_START, 0); (P_KERNEL_STACK_PADDRS + LIST_END, 0)].

Definition no_registers (off : Z) : list (Z * Z) := (λ i, (off + 4 * i, 0)) <$> seqZ 0 (sizeof_registers / 4).

Definition user_registers : list (Z * Z) :=
  [(P_USER_MODE + REG_EFLAGS, REG_EFLAGS_DEFAULT); (P_USER_MODE + REG_SS, Z.lor SEGSEL_USER_SPACE_DS 0x03);
   (P_USER_MODE + REG_CS, Z.lor SEGSEL_USER_SPACE_CS 0x03)].

Definition initial (id : Z) : contents :=
  writes user_registers (writes (no_registers P_CURRENT) (writes (no_registers P_USER_MODE) (writes (header id) ∅))).

Section parts.
Context {St : Type} `{!FrameOps St, !FrameLaws St}.
Context (base : Z).
Context (s0 : tasks (paging St)) (U0 : gmap Z Z).
Implicit Types (s : tasks (paging St)) (B : gmap Z (Z * contents)) (m : contents) (ps : paging St).

Abbreviation blocks := (blocks base s0 U0).

(** The writing of a field of the last block of [H]. *)
Ltac wr_step H :=
  match type of H with
  | TaskBlocks.blocks ?b ?t ?U ?s ?N ?n (<[?p := (?k, ?m)]> ?B) ?ps =>
    match goal with
    | |- context [wr p ?o ?w] =>
      let s' := fresh "s" in let E := fresh "E" in let H' := fresh "H" in
      destruct (blocks_wr b t U s N n _ ps p k m o w H (lookup_insert_eq _ _ _) ltac:(done)) as (s' & E & H');
      first [rewrite (bind_ok _ _ _ _ _ E) | rewrite E];
      clear E H; apply blocks_insert in H'; rename H' into H; try clear s
    end
  end.

Lemma initialize_ok fuel s N n B ps p q :
  blocks s N n (<[p := (sizeof_process, ∅)]> B) ps → queue s0 U0 q → processes U0 q → (length q < fuel)%nat →
  ∃ s', initialize fuel p s = Ok (tt, s') ∧
    blocks s' N n (<[p := (sizeof_process, initial (u32 (greatest_id (mem s0) q 0 + 1)))]> B) ps.
Proof.
  intros Hb Hq Hp Hf. unfold initialize.
  rewrite (bind_ok _ _ _ _ _ (blocks_next_pid base s0 U0 s N n _ ps q fuel Hb Hq Hp Hf)).
  set (id := u32 _). clearbody id. do 13 wr_step Hb.
  destruct (blocks_clear base s0 U0 _ N n B ps p sizeof_process _ P_USER_MODE (sizeof_registers / 4) Hb)
    as (t1 & E1 & Hb1).
  { intros i Hi. unfold field, P_USER_MODE, sizeof_process. change (sizeof_registers / 4) with 12 in Hi.
    Z.to_euclidean_division_equations; lia. }
  rewrite (bind_ok _ _ _ _ _ E1).
  destruct (blocks_clear base s0 U0 _ N n B ps p sizeof_process _ P_CURRENT (sizeof_registers / 4) Hb1)
    as (t2 & E2 & Hb2).
  { intros i Hi. unfold field, P_CURRENT, sizeof_process. change (sizeof_registers / 4) with 12 in Hi.
    Z.to_euclidean_division_equations; lia. }
  rewrite (bind_ok _ _ _ _ _ E2). do 3 wr_step Hb2. eexists. split; [reflexivity|exact Hb2].
Qed.

(** A call of the paging code whose result is known. *)
Lemma grown_blocks s N n B ps ps' :
  blocks s N n B ps → services_wf ps → services_wf ps' → grows ps ps' →
  blocks (set_services ps' s) N n B ps'.
Proof.
  intros Hb Hsv Hsv' Hg. apply (blocks_services base s0 U0 s N n B ps); [done|done|].
  intros a. by apply (grown_mapped ps ps').
Qed.

Lemma load_pdt_ok s N n B ps p m v P ps' :
  blocks s N n (<[p := (sizeof_process, m)]> B) ps → services_wf ps → services_wf ps' → grows ps ps' →
  pdt_create ps = Ok ((v, P), ps') → v ≠ 0 → P ≠ 0 →
  ∃ s', load_pdt p s = Ok (true, s') ∧
    blocks s' N n (<[p := (sizeof_process, writes [(P_PDT, v); (P_PDT_PADDR, P)] m)]> B) ps'.
Proof.
  intros Hb Hsv Hsv' Hg E Hv HP. unfold load_pdt.
  rewrite (bind_ok _ _ _ _ _ (paging_call_ok _ s ps _ _ (bl_pages _ _ _ _ _ _ _ _ Hb) E)).
  destruct (Z.eqb_spec v 0); [done|]. destruct (Z.eqb_spec P 0); [done|]. cbn [orb].
  pose proof (grown_blocks s N n _ ps ps' Hb Hsv Hsv' Hg) as Hb'. do 2 wr_step Hb'.
  eexists. split; [reflexivity|exact Hb'].
Qed.

(** What the lists of frames say of the frame [F], in the element [e]. *)
Definition listed (off e : Z) : list (Z * Z) := [(off + LIST_START, e); (off + LIST_END, e)].

Context (Hbase : base mod 4096 ≠ 0).

Lemma load_code_ok fuel s N r B ps p m v P f t :
  blocks s N (units sizeof_paddr_ele + r) (<[p := (sizeof_process, m)]> B) ps → B !! p = None →
  m !! P_PDT = Some v → private ps v P ∅ → supply ps (S (S (S f))) (S t) →
  (2 <= fuel)%nat → (N < fuel)%nat → 0 <= r →
  ∃ s' e F ps', load_code base fuel p s = Ok (tt, s') ∧ e ≠ p ∧ B !! e = None ∧ U0 !! e = None ∧
    blocks s' N r
      (<[p := (sizeof_process, writes (listed P_CODE_PADDRS e ++ [(P_USER_MODE + REG_EIP, 0); (P_CODE, 0)]) m)]>
        (<[e := (sizeof_paddr_ele, writes [(ELE_PADDR, F); (ELE_COUNT, 1)] ∅)]> B)) ps' ∧
    private ps' v P {[0]} ∧ supply ps' f t ∧ grows ps ps' ∧ taken ps ps' F ∧
    maps_page ps' P 0 F PAGING_READ_WRITE PAGING_PL3.
Proof.
  intros Hb HBp Hm Hpv Hsup Hfuel HN Hr. unfold load_code.
  destruct (code_pages fuel ps v P f t Hfuel Hpv Hsup) as (F & p1 & w & p2 & p3 & p4 & p5 & E1 & E2 & E3 & E4 & E5 &
    Hpv4 & Hg4 & Hpv5 & Hg5 & Hsup5 & HF & Hm5).
  change (div_ceil 42 FOUR_KB) with 1. cbv zeta. unfold pfa_allocate.
  rewrite (bind_ok _ _ _ _ _ (paging_call_ok _ s ps _ _ (bl_pages _ _ _ _ _ _ _ _ Hb) E1)).
  rewrite (bind_ok _ _ _ _ _ (paging_call_ok _ (set_services p1 s) p1 _ _ eq_refl E2)).
  rewrite (bind_ok _ _ _ _ _ (paging_call_ok _ (set_services p2 s) p2 _ _ eq_refl E3)).
  rewrite (bind_ok _ _ _ _ _ (paging_call_ok _ (set_services p3 s) p3 _ _ eq_refl E4)).
  pose proof (grown_blocks s N _ _ ps p4 Hb (pv_services _ _ _ _ Hpv) (pv_services _ _ _ _ Hpv4) Hg4) as Hb4.
  change (set_services p4 _) with (set_services p4 s). set (s4 := set_services p4 s) in *.
  rewrite (bind_ok _ _ _ _ _ (blocks_rd base s0 U0 s4 N _ _ p4 p _ m P_PDT v Hb4 (lookup_insert_eq _ _ _) Hm)).
  rewrite (bind_ok _ _ _ _ _ (paging_call_ok _ s4 p4 _ _ eq_refl E5)).
  pose proof (grown_blocks s4 N _ _ p4 p5 Hb4 (pv_services _ _ _ _ Hpv4) (pv_services _ _ _ _ Hpv5) Hg5) as Hb5.
  change (4096 <? 42) with false. cbv iota. rewrite (bind_ok _ _ _ tt (set_services p5 s4)) by done.
  destruct (blocks_kmalloc base Hbase s0 U0 _ N sizeof_paddr_ele r _ p5 fuel Hb5 ltac:(done) Hr HN)
    as (e & s6 & E6 & He0 & HBe & HU & Hb6).
  rewrite (bind_ok _ _ _ _ _ E6). apply lookup_insert_None in HBe as [HBe Hne].
  do 2 wr_step Hb6. rewrite insert_insert_ne in Hb6 by done. do 4 wr_step Hb6.
  eexists _, e, F, p5. split; [reflexivity|]. split; [done|]. split; [done|]. split; [done|].
  split; [exact Hb6|]. repeat (split; [done|]). split; [by etrans|done].
Qed.

Lemma load_stack_ok fuel s N r B ps p m v P f t :
  blocks s N (units sizeof_paddr_ele + r) (<[p := (sizeof_process, m)]> B) ps → B !! p = None →
  m !! P_PDT = Some v → private ps v P {[0]} → supply ps (S (S f)) t → (N < fuel)%nat → 0 <= r →
  ∃ s' e F ps', load_stack base fuel p s = Ok (true, s') ∧ e ≠ p ∧ B !! e = None ∧ U0 !! e = None ∧
    blocks s' N r
      (<[p := (sizeof_process, writes (listed P_STACK_PADDRS e ++
                 [(P_STACK, PROC_INITIAL_STACK_VADDR); (P_USER_MODE + REG_ESP, PROC_INITIAL_ESP)]) m)]>
        (<[e := (sizeof_paddr_ele, writes [(ELE_PADDR, F); (ELE_COUNT, 1); (ELE_NEXT, 0)] ∅)]> B)) ps' ∧
    private ps' v P {[767; 0]} ∧ supply ps' f t ∧ grows ps ps' ∧ taken ps ps' F ∧
    maps_page ps' P PROC_INITIAL_STACK_VADDR F PAGING_READ_WRITE PAGING_PL3.
Proof.
  intros Hb HBp Hm Hpv Hsup HN Hr. unfold load_stack.
  destruct (stack_pages ps v P f t Hpv Hsup) as (F & p1 & p2 & E1 & E2 & Hpv1 & Hg1 & Hpv2 & Hg2 & Hsup2 & HF & Hm2).
  change (div_ceil PROC_INITIAL_STACK_SIZE FOUR_KB) with 1. cbv zeta. unfold pfa_allocate.
  rewrite (bind_ok _ _ _ _ _ (paging_call_ok _ s ps _ _ (bl_pages _ _ _ _ _ _ _ _ Hb) E1)).
  destruct (Z.eqb_spec F 0); [destruct HF as (_&_&_&?&_); lia|].
  pose proof (grown_blocks s N _ _ ps p1 Hb (pv_services _ _ _ _ Hpv) (pv_services _ _ _ _ Hpv1) Hg1) as Hb1.
  set (s1 := set_services p1 s) in *.
  rewrite (bind_ok _ _ _ _ _ (blocks_rd base s0 U0 s1 N _ _ p1 p _ m P_PDT v Hb1 (lookup_insert_eq _ _ _) Hm)).
  rewrite (bind_ok _ _ _ _ _ (paging_call_ok _ s1 p1 _ _ eq_refl E2)).
  pose proof (grown_blocks s1 N _ _ p1 p2 Hb1 (pv_services _ _ _ _ Hpv1) (pv_services _ _ _ _ Hpv2) Hg2) as Hb2.
  change (4096 <? 1 *ᵤ FOUR_KB) with false. cbv iota.
  destruct (blocks_kmalloc base Hbase s0 U0 _ N sizeof_paddr_ele r _ p2 fuel Hb2 ltac:(done) Hr HN)
    as (e & s3 & E3 & He0 & HBe & HU & Hb3).
  rewrite (bind_ok _ _ _ _ _ E3). apply lookup_insert_None in HBe as [HBe Hne].
  destruct (Z.eqb_spec e 0); [done|].
  do 3 wr_step Hb3. rewrite insert_insert_ne in Hb3 by done. do 4 wr_step Hb3.
  eexists _, e, F, p2. split; [reflexivity|]. split; [done|]. split; [done|]. split; [done|].
  split; [exact Hb3|]. repeat (split; [done|]). split; [by etrans|done].
Qed.

Lemma load_kernel_stack_ok fuel s N r B ps p m v P D f t :
  blocks s N (units sizeof_paddr_ele + r) (<[p := (sizeof_process, m)]> B) ps → B !! p = None →
  private ps v P D → supply ps (S (S f)) (S t) → (N < fuel)%nat → 0 <= r →
  ∃ s' e F w ps', load_kernel_stack base fuel p s = Ok (true, s') ∧ e ≠ p ∧ B !! e = None ∧ U0 !! e = None ∧
    blocks s' N r
      (<[p := (sizeof_process, writes (listed P_KERNEL_STACK_PADDRS e ++ [(P_KERNEL_STACK, w + 4092)]) m)]>
        (<[e := (sizeof_paddr_ele, writes [(ELE_COUNT, 1); (ELE_PADDR, F); (ELE_NEXT, 0)] ∅)]> B)) ps' ∧
    private ps' v P D ∧ grows ps ps' ∧ taken ps ps' F ∧ 0xC0000000 <= w < 4294963200 ∧ w mod 4096 = 0 ∧
    maps_page ps' (kernel_pdt ps) w F PAGING_READ_WRITE PAGING_PL0.
Proof.
  intros Hb HBp Hpv Hsup HN Hr. unfold load_kernel_stack.
  destruct (kernel_stack_pages ps v P D f t Hpv Hsup)
    as (F & p1 & w & p2 & p3 & E1 & E2 & E3 & Hw & Hwa & Hpv3 & Hg3 & _ & HF & Hm3).
  change (div_ceil KERNEL_STACK_SIZE FOUR_KB) with 1. cbv zeta. unfold pfa_allocate.
  rewrite (bind_ok _ _ _ _ _ (paging_call_ok _ s ps _ _ (bl_pages _ _ _ _ _ _ _ _ Hb) E1)).
  destruct (Z.eqb_spec F 0); [destruct HF as (_&_&_&?&_); lia|].
  change (1 *ᵤ FOUR_KB) with 4096.
  rewrite (bind_ok _ _ _ _ _ (paging_call_ok _ (set_services p1 s) p1 _ _ eq_refl E2)).
  destruct (Z.eqb_spec w 0); [lia|].
  rewrite (bind_ok _ _ _ _ _ (paging_call_ok _ (set_services p2 s) p2 _ _ eq_refl E3)).
  change (negb (4096 =? 4096)) with false. cbv iota. change (set_services p3 _) with (set_services p3 s).
  pose proof (grown_blocks s N _ _ ps p3 Hb (pv_services _ _ _ _ Hpv) (pv_services _ _ _ _ Hpv3) Hg3) as Hb3.
  destruct (blocks_kmalloc base Hbase s0 U0 _ N sizeof_paddr_ele r _ p3 fuel Hb3 ltac:(done) Hr HN)
    as (e & s4 & E4 & He0 & HBe & HU & Hb4).
  rewrite (bind_ok _ _ _ _ _ E4). apply lookup_insert_None in HBe as [HBe Hne].
  destruct (Z.eqb_spec e 0); [done|].
  rewrite (u32_small (w + 4096)), (u32_small (w + 4096 - 4)) by lia. replace (w + 4096 - 4) with (w + 4092) by lia.
  do 3 wr_step Hb4. rewrite insert_insert_ne in Hb4 by done. do 3 wr_step Hb4.
  eexists _, e, F, w, p3. split; [reflexivity|]. split; [done|]. split; [done|]. split; [done|].
  split; [exact Hb4|]. by repeat (split; [done|]).
Qed.
End parts.

(** ** A process that was created *)

Definition fld {St} (s : tasks (paging St)) (p off : Z) : Z := ld (mem s) (p + off).

(** Where the address [v] leads under the directory at [P]. *)
Definition leads {St} (s : tasks (paging St)) (P v : Z) : option Z := walk (phys (pages (kheap s))) P v.

(** The registers a process starts with, in the order of [struct _registers]. *)
Definition user_state : list Z :=
  [0; 0; 0; 0; 0; 0; 0; Z.lor SEGSEL_USER_SPACE_DS 0x03; PROC_INITIAL_ESP; REG_EFLAGS_DEFAULT;
   Z.lor SEGSEL_USER_SPACE_CS 0x03; 0].

(** The list at [off] of the process [p] has one element, for the frame [F]. *)
Definition frame_list {St} (s : tasks (paging St)) (p off F : Z) : Prop :=
  let e := fld s p (off + LIST_START) in
  fld s p (off + LIST_END) = e ∧ fld s e ELE_PADDR = F ∧ fld s e ELE_COUNT = 1.

Section created.
Context {St : Type} `{!FrameOps St, !FrameLaws St}.
Context (base : Z) (Hbase : base mod 4096 ≠ 0).
Implicit Types (s : tasks (paging St)) (U : gmap Z Z) (q : list (Z * Z)).

(** The process [p] of [s'], made in the state [s], where the blocks of [U] were
    owned and the queue was [q]: its number and its registers, its directory, and the
    frames of its code, its stack and its kernel stack, which were free. *)
Record created s s' U q (p code stack kstack : Z) : Prop := Created {
  cr_new : U !! p = None;
  cr_id : fld s' p P_ID = u32 (greatest_id (mem s) q 0 + 1);
  cr_loadable : loadable (pages (kheap s')) (fld s' p P_PDT) (fld s' p P_PDT_PADDR);
  cr_registers i w : user_state !! i = Some w →
    fld s' p (P_USER_MODE + 4 * Z.of_nat i) = w ∧ fld s' p (P_CURRENT + 4 * Z.of_nat i) = w;
  cr_lists : frame_list s' p P_CODE_PADDRS code ∧ frame_list s' p P_STACK_PADDRS stack ∧
    frame_list s' p P_KERNEL_STACK_PADDRS kstack;
  cr_places : fld s' p P_CODE = 0 ∧ fld s' p P_STACK = PROC_INITIAL_STACK_VADDR;
  cr_code o : 0 <= o < 4096 → leads s' (fld s' p P_PDT_PADDR) (fld s' p P_CODE + o) = Some (code + o);
  cr_stack o : 0 <= o < 4096 → leads s' (fld s' p P_PDT_PADDR) (fld s' p P_STACK + o) = Some (stack + o);
  cr_kernel_stack o : 0 <= o < 4096 →
    0xC0000000 <= fld s' p P_KERNEL_STACK - 4092 < 4294963200 ∧
    leads s' (kernel_pdt (pages (kheap s'))) (fld s' p P_KERNEL_STACK - 4092 + o) = Some (kstack + o);
  cr_frames : NoDup [fld s' p P_PDT_PADDR; code; stack; kstack];
  cr_taken F : F ∈ [fld s' p P_PDT_PADDR; code; stack; kstack] → taken (pages (kheap s)) (pages (kheap s')) F;
  cr_pages : services_wf (pages (kheap s')) ∧ grows (pages (kheap s)) (pages (kheap s'));
  cr_owned : ∃ U', owns base s' U' ∧ U ⊆ U' ∧ U' !! p = Some sizeof_process ∧ queue s' U' q;
  cr_kept b n w : U !! b = Some n → b <= w < b + n → ld (mem s') w = ld (mem s) w;
  cr_rest : the_tss s' = the_tss s
}.

(** *** The contents of the process at the end *)

Definition last_writes (id v P e1 e2 e3 w : Z) : contents :=
  writes (listed P_KERNEL_STACK_PADDRS e3 ++ [(P_KERNEL_STACK, w + 4092)])
    (writes (listed P_STACK_PADDRS e2 ++ [(P_STACK, PROC_INITIAL_STACK_VADDR); (P_USER_MODE + REG_ESP, PROC_INITIAL_ESP)])
      (writes (listed P_CODE_PADDRS e1 ++ [(P_USER_MODE + REG_EIP, 0); (P_CODE, 0)])
        (writes [(P_PDT, v); (P_PDT_PADDR, P)] (initial id)))).

Definition registers_word (i : Z) : Z := nth (Z.to_nat i) user_state 0.

Definition final (id v P e1 e2 e3 w : Z) : contents :=
  writes ((λ i, (P_CURRENT + 4 * i, registers_word i)) <$> seqZ 0 12) (last_writes id v P e1 e2 e3 w).

Lemma last_registers id v P e1 e2 e3 w i :
  0 <= i < 12 → last_writes id v P e1 e2 e3 w !! (P_USER_MODE + 4 * i) = Some (registers_word i).
Proof.
  intros Hi. assert (H : i ∈ seqZ 0 12) by (apply elem_of_seqZ; lia).
  change (seqZ 0 12) with [0; 1; 2; 3; 4; 5; 6; 7; 8; 9; 10; 11] in H.
  repeat (apply elem_of_cons in H as [->|H]; [vm_compute; reflexivity|]). by apply elem_of_nil in H.
Qed.

(** The elements of the three lists. *)
Definition elements (e1 e2 e3 F1 F2 F3 : Z) : gmap Z (Z * contents) :=
  <[e3 := (sizeof_paddr_ele, writes [(ELE_COUNT, 1); (ELE_PADDR, F3); (ELE_NEXT, 0)] ∅)]>
    (<[e2 := (sizeof_paddr_ele, writes [(ELE_PADDR, F2); (ELE_COUNT, 1); (ELE_NEXT, 0)] ∅)]>
      (<[e1 := (sizeof_paddr_ele, writes [(ELE_PADDR, F1); (ELE_COUNT, 1)] ∅)]> ∅)).

(** The whole of [process_create] as a step. *)
Lemma process_create_blocks s U q N r fuel :
  0 <= r → heap_room base (kheap s) U N (29 + r) → queue s U q → processes U q → services_wf (pages (kheap s)) →
  supply (pages (kheap s)) 9 3 → (2 <= fuel)%nat → (N < fuel)%nat → (length q < fuel)%nat →
  ∃ p s' e1 e2 e3 v P w F1 F2 F3 ps ps1 ps2 ps3,
    process_create base fuel s = Ok (p, s') ∧ U !! p = None ∧ e1 ≠ p ∧ e2 ≠ p ∧ e3 ≠ p ∧
    e2 ≠ e1 ∧ e3 ≠ e1 ∧ e3 ≠ e2 ∧
    blocks base s U s' N r
      (<[p := (sizeof_process, final (u32 (greatest_id (mem s) q 0 + 1)) v P e1 e2 e3 w)]>
        (elements e1 e2 e3 F1 F2 F3)) ps3 ∧
    grows (pages (kheap s)) ps ∧ taken (pages (kheap s)) ps P ∧
    grows ps ps1 ∧ taken ps ps1 F1 ∧ maps_page ps1 P 0 F1 PAGING_READ_WRITE PAGING_PL3 ∧
    grows ps1 ps2 ∧ taken ps1 ps2 F2 ∧ maps_page ps2 P PROC_INITIAL_STACK_VADDR F2 PAGING_READ_WRITE PAGING_PL3 ∧
    grows ps2 ps3 ∧ taken ps2 ps3 F3 ∧ private ps3 v P {[767; 0]} ∧ 0xC0000000 <= w < 4294963200 ∧ w mod 4096 = 0 ∧
    maps_page ps3 (kernel_pdt ps2) w F3 PAGING_READ_WRITE PAGING_PL0.
Proof.
  intros Hr Hroom Hq Hp Hsv Hsup H2 HN Hf. unfold process_create.
  pose proof (blocks_start base s U N (29 + r) _ Hroom eq_refl) as Hb0.
  replace (29 + r) with (units sizeof_process + (9 + r)) in Hb0 by (change (units sizeof_process) with 20; lia).
  destruct (blocks_kmalloc base Hbase s U s N sizeof_process (9 + r) ∅ _ fuel Hb0 ltac:(done) ltac:(lia) HN)
    as (p & s1 & E1 & Hp0 & _ & HU & Hb1).
  rewrite (bind_ok _ _ _ _ _ E1). destruct (Z.eqb_spec p 0); [done|]. rewrite (bind_ok _ _ s1 tt s1) by done.
  destruct (initialize_ok base s U fuel s1 N (9 + r) ∅ _ p q Hb1 Hq Hp Hf) as (s2 & E2 & Hb2).
  rewrite (bind_ok _ _ _ _ _ E2). set (id := u32 _) in *. clearbody id. unfold or_null.
  destruct (create_private (pages (kheap s)) 7 2 Hsv Hsup) as (v & P & ps & E3 & Hpv & Hsup3 & Hg3 & HP).
  destruct (load_pdt_ok base s U s2 N (9 + r) ∅ _ p _ v P ps Hb2 Hsv (pv_services _ _ _ _ Hpv) Hg3 E3) as (s3 & Es3 & Hb3).
  { destruct Hpv. lia. } { destruct Hpv. lia. }
  rewrite (bind_ok _ _ _ _ _ Es3). cbv iota. replace (9 + r) with (units sizeof_paddr_ele + (6 + r)) in Hb3 by (change (units sizeof_paddr_ele) with 3; lia).
  destruct (load_code_ok base s U Hbase fuel s3 N (6 + r) ∅ ps p _ v P 4 1 Hb3 (lookup_empty _) ltac:(reflexivity) Hpv Hsup3 H2 HN
    ltac:(lia)) as (s4 & e1 & F1 & ps1 & Es4 & He1 & _ & HU1 & Hb4 & Hpv1 & Hsup4 & Hg4 & HF1 & Hm1).
  rewrite (bind_ok _ _ _ _ _ Es4). replace (6 + r) with (units sizeof_paddr_ele + (3 + r)) in Hb4 by (change (units sizeof_paddr_ele) with 3; lia).
  destruct (load_stack_ok base s U Hbase fuel s4 N (3 + r) _ ps1 p _ v P 2 1 Hb4
    ltac:(by rewrite lookup_insert_ne) ltac:(reflexivity) Hpv1 Hsup4 HN ltac:(lia))
    as (s5 & e2 & F2 & ps2 & Es5 & He2 & HB2 & HU2 & Hb5 & Hpv2 & Hsup5 & Hg5 & HF2 & Hm2).
  apply lookup_insert_None in HB2 as [_ H12].
  rewrite (bind_ok _ _ _ _ _ Es5). cbv iota. change (3 + r) with (units sizeof_paddr_ele + r) in Hb5.
  destruct (load_kernel_stack_ok base s U Hbase fuel s5 N r _ ps2 p _ v P _ 0 0 Hb5
    ltac:(by rewrite !lookup_insert_ne) Hpv2 Hsup5 HN Hr)
    as (s6 & e3 & F3 & w & ps3 & Es6 & He3 & HB3 & HU3 & Hb6 & Hpv3 & Hg6 & HF3 & Hw & Hwa & Hm3).
  apply lookup_insert_None in HB3 as [[_ H13]%lookup_insert_None H23].
  rewrite (bind_ok _ _ _ _ _ Es6). cbv iota. fold (last_writes id v P e1 e2 e3 w) in Hb6.
  destruct (blocks_copy base s U s6 N r _ ps3 p _ _ P_CURRENT P_USER_MODE (sizeof_registers / 4) registers_word Hb6)
    as (s7 & Es7 & Hb7).
  { intros i Hi. unfold field, P_CURRENT, sizeof_process. change (sizeof_registers / 4) with 12 in Hi.
    Z.to_euclidean_division_equations; lia. }
  { apply last_registers. }
  { by left. }
  rewrite (bind_ok _ _ _ _ _ Es7).
  exists p, s7, e1, e2, e3, v, P, w, F1, F2, F3, ps, ps1, ps2, ps3. by repeat (split; [done|]).
Qed.

(** *** Its words and its translations *)

Lemma final_registers id v P e1 e2 e3 w i r :
  user_state !! i = Some r →
  final id v P e1 e2 e3 w !! (P_USER_MODE + 4 * Z.of_nat i) = Some r ∧
  final id v P e1 e2 e3 w !! (P_CURRENT + 4 * Z.of_nat i) = Some r.
Proof.
  intros Hr. do 12 (destruct i as [|i]; [injection Hr as <-; split; vm_compute; reflexivity|]). done.
Qed.

Lemma final_fields id v P e1 e2 e3 w :
  let m := final id v P e1 e2 e3 w in
  m !! P_ID = Some id ∧ m !! P_PDT = Some v ∧ m !! P_PDT_PADDR = Some P ∧ m !! P_CODE = Some 0 ∧
  m !! P_STACK = Some PROC_INITIAL_STACK_VADDR ∧ m !! P_KERNEL_STACK = Some (w + 4092).
Proof. split_and!; vm_compute; reflexivity. Qed.

(** A page mapped stays so, and translates. *)
Lemma page_leads s ps P va F rw pl o :
  grows ps (pages (kheap s)) → maps_page ps P va F rw pl → is_u32 va → va mod 4096 = 0 →
  F mod 4096 = 0 → 0x100000 <= F → F + 4096 < 4294967296 → 0 <= o < 4096 →
  leads s P (va + o) = Some (F + o).
Proof.
  intros Hg Hm Hv Hva HFa H0 H4 Ho. unfold leads.
  apply (maps_page_walk (pages (kheap s)) P va F rw pl o); try done; [|lia].
  apply (grows_maps_page ps); try done. lia.
Qed.

(** A list whose element is a block of the description. *)
Lemma listed_frame s U s' N n p c B ps k m off e F :
  blocks base s U s' N n (<[p := (sizeof_process, c)]> B) ps →
  c !! (off + LIST_START) = Some e → c !! (off + LIST_END) = Some e → e ≠ p →
  B !! e = Some (k, m) → m !! ELE_PADDR = Some F → m !! ELE_COUNT = Some 1 → frame_list s' p off F.
Proof.
  intros Hb Hs He Hne HB Hpa Hco.
  pose proof (bl_words _ _ _ _ _ _ _ _ Hb p sizeof_process c) as Hp. pose proof (bl_words _ _ _ _ _ _ _ _ Hb e k m) as Hx.
  rewrite lookup_insert_ne in Hx by done.
  destruct (Hp _ _ (lookup_insert_eq _ _ _) Hs) as [_ Es], (Hp _ _ (lookup_insert_eq _ _ _) He) as [_ Ee].
  destruct (Hx _ _ HB Hpa) as [_ Epa], (Hx _ _ HB Hco) as [_ Eco].
  unfold frame_list, fld. by rewrite Es.
Qed.

(** The description of the blocks, as the fields of the process and of its lists. *)
Lemma created_words s U s' N n id v P e1 e2 e3 w F1 F2 F3 ps p :
  e1 ≠ p → e2 ≠ p → e3 ≠ p → e2 ≠ e1 → e3 ≠ e1 → e3 ≠ e2 →
  blocks base s U s' N n (<[p := (sizeof_process, final id v P e1 e2 e3 w)]> (elements e1 e2 e3 F1 F2 F3)) ps →
  (∀ o x, final id v P e1 e2 e3 w !! o = Some x → fld s' p o = x) ∧
  frame_list s' p P_CODE_PADDRS F1 ∧ frame_list s' p P_STACK_PADDRS F2 ∧ frame_list s' p P_KERNEL_STACK_PADDRS F3.
Proof.
  intros H1 H2 H3 H12 H13 H23 Hb. split; [|split; [|split]].
  - intros o x Ho. by destruct (bl_words _ _ _ _ _ _ _ _ Hb p _ _ o x (lookup_insert_eq _ _ _) Ho).
  - eapply (listed_frame s U s' N n p _ _ ps _ _ _ e1 F1 Hb); [vm_compute; reflexivity|vm_compute; reflexivity|done| | |];
      [unfold elements; by rewrite !lookup_insert_ne, lookup_insert_eq by done|vm_compute; reflexivity..].
  - eapply (listed_frame s U s' N n p _ _ ps _ _ _ e2 F2 Hb); [vm_compute; reflexivity|vm_compute; reflexivity|done| | |];
      [unfold elements; by rewrite lookup_insert_ne, lookup_insert_eq by done|vm_compute; reflexivity..].
  - eapply (listed_frame s U s' N n p _ _ ps _ _ _ e3 F3 Hb); [vm_compute; reflexivity|vm_compute; reflexivity|done| | |];
      [unfold elements; by rewrite lookup_insert_eq|vm_compute; reflexivity..].
Qed.

(** The blocks owned after it, with the [r] units left of the block it was made of. *)
Lemma process_create_ok s U q N r fuel :
  0 <= r → heap_room base (kheap s) U N (29 + r) → queue s U q → processes U q → services_wf (pages (kheap s)) →
  supply (pages (kheap s)) 9 3 → (2 <= fuel)%nat → (N < fuel)%nat → (length q < fuel)%nat →
  ∃ p s' code stack kstack, process_create base fuel s = Ok (p, s') ∧ created s s' U q p code stack kstack ∧
    ∃ U', heap_room base (kheap s') U' N r ∧ U ⊆ U' ∧ U' !! p = Some sizeof_process ∧ queue s' U' q.
Proof.
  intros Hr Hroom Hq Hp Hsv Hsup H2 HN Hf.
  destruct (process_create_blocks s U q N r fuel Hr Hroom Hq Hp Hsv Hsup H2 HN Hf)
    as (p & s' & e1 & e2 & e3 & v & P & w & F1 & F2 & F3 & ps & ps1 & ps2 & ps3 & E & HU & H1 & H2' & H3 & H12 & H13 & H23 &
      Hb & Hg0 & HP & Hg1 & HF1 & Hm1 & Hg2 & HF2 & Hm2 & Hg3 & HF3 & Hpv & Hw & Hwa & Hm3).
  destruct (created_words s U s' N r _ v P e1 e2 e3 w F1 F2 F3 ps3 p H1 H2' H3 H12 H13 H23 Hb) as (Hfld & Hl1 & Hl2 & Hl3).
  pose proof (bl_pages _ _ _ _ _ _ _ _ Hb) as Eps. subst ps3. remember (u32 _) as id eqn:Eid.
  destruct (final_fields id v P e1 e2 e3 w) as (Ei & Ev & EP & Ec & Est & Ek).
  apply Hfld in Ei, Ev, EP, Ec, Est, Ek.
  assert (Hown : ∃ U', heap_room base (kheap s') U' N r ∧ U ⊆ U' ∧ U' !! p = Some sizeof_process ∧ queue s' U' q).
  { eexists. split; [exact (bl_room _ _ _ _ _ _ _ _ Hb)|]. split; [|split].
    + apply map_subseteq_spec. intros b n Hn. exact (old_lookup base s U s' N r _ _ b n Hb Hn).
    + by apply (sizes_lookup U _ p _ (final id v P e1 e2 e3 w)), lookup_insert_eq.
    + destruct Hq as [Hnd Ho Hc Hst Hen]. destruct (bl_rest _ _ _ _ _ _ _ _ Hb) as (_ & Es & Ee).
      split; [done| | |by rewrite Es|by rewrite Ee].
      * intros e He. apply (old_lookup base s U s' N r _ _ e 8 Hb). auto.
      * apply (chain_ext (mem s)); [|done]. intros e He. by split; apply (bl_kept _ _ _ _ _ _ _ _ Hb e 8); auto; lia. }
  exists p, s', F1, F2, F3. split; [exact E|]. split; [|exact Hown].
  assert (Hg03 : grows (pages (kheap s)) (pages (kheap s'))) by (do 3 (etrans; [eassumption|]); eassumption).
  pose proof HF1 as (_&_&HF1a&HF10&HF14). pose proof HF2 as (_&_&HF2a&HF20&HF24). pose proof HF3 as (_&_&HF3a&HF30&HF34).
  split; rewrite ?EP, ?Ev, ?Ec, ?Est, ?Ek.
  - exact HU.
  - by rewrite Ei, Eid.
  - by apply private_loadable with {[767; 0]}.
  - intros i x Hx. destruct (final_registers id v P e1 e2 e3 w i x Hx). auto.
  - done.
  - done.
  - intros o Ho. apply (page_leads s' ps1 P 0 F1 1 1); try done. by etrans.
  - intros o Ho. by apply (page_leads s' ps2 P PROC_INITIAL_STACK_VADDR F2 1 1).
  - intros o Ho. replace (w + 4092 - 4092) with w by lia. split.
    + lia.
    + rewrite (gr_pdt _ _ Hg3). apply (page_leads s' (pages (kheap s')) (kernel_pdt ps2) w F3 1 0); try done. lia.
  - repeat apply NoDup_cons_2; [..|apply NoDup_nil_2]; rewrite ?not_elem_of_cons; split_and?; try apply not_elem_of_nil.
    + exact (taken_ne _ ps ps _ _ _ HP ltac:(done) HF1).
    + exact (taken_ne _ ps ps1 _ _ _ HP ltac:(done) HF2).
    + exact (taken_ne _ ps ps2 _ _ _ HP ltac:(by etrans) HF3).
    + exact (taken_ne _ ps1 ps1 _ _ _ HF1 ltac:(done) HF2).
    + exact (taken_ne _ ps1 ps2 _ _ _ HF1 ltac:(done) HF3).
    + exact (taken_ne _ ps2 ps2 _ _ _ HF2 ltac:(done) HF3).
  - intros F. rewrite !elem_of_cons, elem_of_nil. intros [->|[->|[->|[->|[]]]]].
    + apply (taken_grows _ (pages (kheap s)) ps); [done| |done]. etrans; [exact Hg1|]. by etrans.
    + apply (taken_grows _ ps ps1); [done| |done]. by etrans.
    + apply (taken_grows _ ps1 ps2); [|exact Hg3|exact HF2]. etrans; [exact Hg0|exact Hg1].
    + apply (taken_grows _ ps2 (pages (kheap s'))); [|done|exact HF3]. etrans; [exact Hg0|]. by etrans.
  - split; [apply Hpv|done].
  - destruct Hown as (U' & Hro & Hown). exists U'. split; [|done]. by apply (heap_room_inv base _ _ N r).
  - apply Hb.
  - by destruct (bl_rest _ _ _ _ _ _ _ _ Hb) as (? & _ & _).
Qed.
End created.
