(* ===== verification/Messages.v ===== *)
(** * Messages: the log of the kernel is well typed

    The components below the console log their calls of [printk] as a format
    and its arguments. [says P m]: whatever [m] logs satisfies [P]. The rules of
    this predicate follow the structure of a computation; with them every operation
    is shown to pass each message as many integers as its format asks for. *)

From S2P Require Import Prelude CArith Interfaces Frames Mmu Paging PageServices PagingServices Kmalloc FramesInit Tty TtyFacts TtySpec Printk Tasks ProcessServices Scheduler Process.

(** ** Types of messages *)

(** The number of integers a format reads, if it reads nothing else. *)
Fixpoint integers (ds : list directive) : option nat :=
  match ds with
  | [] => Some O
  | (Hex | Dec) :: ds => S <$> integers ds
  | (Plain _ | Ignored) :: ds => integers ds
  | (Str | Cut) :: _ => None
  end.

Definition well_typed (m : kmsg) : Prop :=
  integers (parse_format (bytes_of m.1)) = Some (length m.2).

#[export] Instance well_typed_dec m : Decision (well_typed m).
Proof. unfold well_typed. apply _. Defined.

(** A number ['%u'] can write. *)
Definition small (n : Z) : Prop := 0 <= n < 1000000000.

Lemma typed_rendered ds : ∀ args,
  integers ds = Some (length args) → Forall small args → is_Some (render ds (AInt <$> args)).
Proof.
  induction ds as [|d ds IH]; intros args Hi Hs; [by eexists|]. destruct d; cbn [integers] in Hi; try done.
  - destruct (IH args Hi Hs) as [l El]. cbn [render expand]. simpl. rewrite El. by eexists.
  - destruct (integers ds) as [k|]; [|done]. destruct args as [|n args]; [done|]. injection Hi as ->.
    apply Forall_cons_1 in Hs as [_ Hs]. destruct (IH args eq_refl Hs) as [l El].
    exists ((bytes_of "0x" ++ numeral 16 8 n) ++ l). rewrite fmap_cons. cbn [render expand mbind option_bind].
    by rewrite El.
  - destruct (integers ds) as [k|]; [|done]. destruct args as [|n args]; [done|]. injection Hi as ->.
    apply Forall_cons_1 in Hs as [Hn Hs]. destruct (IH args eq_refl Hs) as [l El]. unfold small in Hn.
    exists (numeral 10 (num_digits 8 n) n ++ l). rewrite fmap_cons. cbn [render expand mbind option_bind]. unfold decimal.
    destruct (Z.ltb_spec n 1000000000); [|lia]. cbn [mbind option_bind]. by rewrite El.
  - destruct (IH args Hi Hs) as [l El]. cbn [render expand]. simpl. rewrite El. by eexists.
Qed.

(** A format that reads more integers than it is given has no rendering. *)
Lemma short_not_rendered ds : ∀ args n,
  integers ds = Some n → (length args < n)%nat → render ds (AInt <$> args) = None.
Proof.
  induction ds as [|d ds IH]; intros args n Hi Hn; [injection Hi as <-; lia|].
  assert (Hplain : ∀ l, integers ds = Some n →
    ('(l, ap) ← Some (l : list Z, AInt <$> args); l' ← render ds ap; Some (l ++ l')) = None).
  { intros l Hi'. cbn [mbind option_bind]. by rewrite (IH args n Hi' Hn). }
  assert (Hint : ∀ k a args', integers ds = Some k → n = S k → args = a :: args' →
    render ds (AInt <$> args') = None).
  { intros k a args' Hk -> ->. apply (IH args' k Hk). simpl in Hn. lia. }
  destruct d; cbn [integers] in Hi; try done; cbn [render expand].
  - by apply Hplain.
  - destruct (integers ds) as [k|] eqn:Ek; [|done]. injection Hi as <-. destruct args as [|a args]; [done|].
    rewrite fmap_cons. cbn [mbind option_bind]. by rewrite (Hint k a args).
  - destruct (integers ds) as [k|] eqn:Ek; [|done]. injection Hi as <-. destruct args as [|a args]; [done|].
    rewrite fmap_cons. cbn [expand]. destruct (decimal a); [|done]. cbn [mbind option_bind]. by rewrite (Hint k a args).
  - by apply Hplain.
Qed.

(** ** What a computation logs *)

Class Logged (St : Type) := log_of : St → list kmsg.

#[export] Instance frames_logged : Logged frames := klog.
#[export] Instance paging_logged {St} `{!Logged St} : Logged (paging St) := λ s, log_of (pfa s).
#[export] Instance heap_logged {St} `{!Logged St} : Logged (heap St) := λ s, log_of (Kmalloc.pages s).
#[export] Instance tasks_logged {St} `{!Logged St} : Logged (tasks St) := λ s, log_of (kheap s).

Section says.
Context (P : kmsg → Prop).

(** [new] is what [m] logged. *)
Definition says {St A} `{!Logged St} (m : M St A) : Prop := ∀ s a s',
  m s = Ok (a, s') → ∃ new, log_of s' = new ++ log_of s ∧ Forall P new.

Section rules.
Context {St : Type} `{!Logged St}.

(** A computation that keeps the log. *)
Lemma says_nothing {A} (m : M St A) : (∀ s a s', m s = Ok (a, s') → log_of s' = log_of s) → says m.
Proof. intros H s a s' E. exists []. split; [by apply (H s a)|done]. Qed.

Lemma says_ret {A} (x : A) : says (mret x : M St A).
Proof. apply says_nothing. intros s a s'. by injection 1 as _ <-. Qed.

Lemma says_fault {A} : says (fault : M St A).
Proof. done. Qed.

Lemma says_out_of_fuel {A} : says (out_of_fuel : M St A).
Proof. done. Qed.

Lemma says_of_option {A} (o : option A) : says (of_option o : M St A).
Proof. destruct o; [apply says_ret|apply says_fault]. Qed.

Lemma says_gets {A} (f : St → A) : says (gets f).
Proof. apply says_nothing. intros s a s'. by injection 1 as _ <-. Qed.

Lemma says_modify (f : St → St) : (∀ s, log_of (f s) = log_of s) → says (modify f).
Proof. intros H. apply says_nothing. intros s a s'. by injection 1 as _ <-. Qed.

Lemma says_bind {A B} (m : M St A) (f : A → M St B) : says m → (∀ x, says (f x)) → says (m ≫= f).
Proof.
  intros Hm Hf s b s' E. apply bind_ok_inv in E as (x&s1&E1&E2).
  destruct (Hm _ _ _ E1) as (n1&L1&F1), (Hf _ _ _ _ E2) as (n2&L2&F2).
  exists (n2 ++ n1). split; [by rewrite L2, L1, app_assoc|by apply Forall_app].
Qed.

Lemma says_for_each {A} (l : list A) (body : A → M St unit) : (∀ x, says (body x)) → says (for_each l body).
Proof. intros H. induction l; [apply says_ret|]. apply says_bind; auto. Qed.
End rules.

Lemma says_zoom {Big St A} `{!Logged St, !Logged Big} (get : Big → St) set (m : M St A) :
  (∀ b, log_of (get b) = log_of b) → (∀ s b, log_of (set s b) = log_of s) → says m → says (zoom get set m).
Proof.
  intros Hg Hs Hm b a b' E. unfold zoom in E. destruct (m (get b)) as [[x s']| |] eqn:Em; [|done..].
  injection E as <- <-. destruct (Hm _ _ _ Em) as (new&L&F). exists new. by rewrite Hs, L, Hg.
Qed.

Lemma says_message fmt args : P (fmt, args) → says (Frames.printk fmt args).
Proof. intros H s a s'. injection 1 as _ <-. exists [(fmt, args)]. split; [done|by constructor]. Qed.
End says.

Create HintDb messages discriminated.
#[export] Hint Constants Opaque : messages.
#[export] Hint Resolve says_ret says_fault says_out_of_fuel says_of_option says_gets : messages.

(** The structure of a computation, down to the calls the database knows. *)
Ltac message_step :=
  match goal with
  | |- says _ (_ ≫= _) => apply says_bind; [|intros ?]
  | |- says _ (for_each _ _) => apply says_for_each; intros ?
  | |- says _ (modify _) => apply says_modify; reflexivity
  | |- says _ (if ?b then _ else _) => destruct b
  | |- says _ (match ?x with _ => _ end) => destruct x
  | |- says _ (let _ := _ in _) => cbv zeta
  | |- says _ _ => solve [eauto with messages]
  end.
Ltac messages := repeat message_step.

(** Every message satisfies what all well typed messages satisfy. *)
Section operations.
Context (P : kmsg → Prop) (HP : ∀ m, well_typed m → P m).

Lemma says_typed fmt args :
  integers (parse_format (bytes_of fmt)) = Some (length args) → says P (Frames.printk fmt args).
Proof using HP. intros H. apply says_message, HP, H. Qed.

(** ** The frame allocator *)

Lemma says_cell_at i : says P (cell_at i).
Proof. unfold cell_at. messages. Qed.
#[local] Hint Resolve says_cell_at : messages.

Lemma says_toggle_bit i : says P (toggle_bit i).
Proof. unfold toggle_bit. messages. Qed.
#[local] Hint Resolve says_toggle_bit : messages.

Lemma says_scan_cells n l : ∀ st, says P (scan_cells n l st).
Proof. induction l as [|i l IH]; intros st; cbn [scan_cells]; messages. Qed.
#[local] Hint Resolve says_scan_cells : messages.

Lemma says_frames_allocate n : says P (Frames.pfa_allocate n).
Proof. unfold Frames.pfa_allocate, toggle_bits. messages. Qed.

Lemma says_frames_free p : says P (Frames.pfa_free p).
Proof using HP. unfold Frames.pfa_free. messages. by apply says_typed. Qed.

(** ** The page tables, over this allocator *)

Lemma says_pfa_allocate n : says P (Paging.pfa_allocate n : M (paging frames) Z).
Proof. refine (says_zoom P _ _ _ _ _ _); [done|done|apply says_frames_allocate]. Qed.

Lemma says_pfa_free p : says P (Paging.pfa_free p : M (paging frames) unit).
Proof using HP. refine (says_zoom P _ _ _ _ _ _); [done|done|apply says_frames_free]. Qed.

Lemma says_printk fmt args : P (fmt, args) → says P (Paging.printk fmt args : M (paging frames) unit).
Proof. intros H. refine (says_zoom P _ _ _ _ _ _); [done|done|by apply says_message]. Qed.

Lemma says_printk_typed fmt args :
  integers (parse_format (bytes_of fmt)) = Some (length args) →
  says P (Paging.printk fmt args : M (paging frames) unit).
Proof using HP. intros H. apply says_printk, HP, H. Qed.
#[local] Hint Resolve says_pfa_allocate says_pfa_free : messages.
#[local] Hint Extern 1 (says _ (Paging.printk _ _)) => apply says_printk_typed; reflexivity : messages.

Lemma says_resolve v : says P (resolve v : M (paging frames) Z).
Proof. unfold resolve. messages. Qed.
#[local] Hint Resolve says_resolve : messages.

Lemma says_load v : says P (Paging.load v : M (paging frames) Z).
Proof. unfold Paging.load. messages. Qed.

Lemma says_update v f : says P (update v f : M (paging frames) unit).
Proof. unfold update. messages. Qed.
#[local] Hint Resolve says_load says_update : messages.

Lemma says_store v w : says P (Paging.store v w : M (paging frames) unit).
Proof. unfold Paging.store. messages. Qed.

Lemma says_invalidate v : says P (invalidate_page_table_entry v : M (paging frames) unit).
Proof. unfold invalidate_page_table_entry. messages. Qed.
#[local] Hint Resolve says_store says_invalidate : messages.

Lemma says_create_pdt_entry a b c d e f : says P (create_pdt_entry a b c d e f : M (paging frames) unit).
Proof. unfold create_pdt_entry. messages. Qed.

Lemma says_create_pt_entry a b c d e : says P (create_pt_entry a b c d e : M (paging frames) unit).
Proof. unfold create_pt_entry. messages. Qed.

Lemma says_get_pt_paddr a b : says P (get_pt_paddr a b : M (paging frames) Z).
Proof. unfold get_pt_paddr. messages. Qed.

Lemma says_is_entry_present a b : says P (is_entry_present a b : M (paging frames) bool).
Proof. unfold is_entry_present. messages. Qed.
#[local] Hint Resolve says_create_pdt_entry says_create_pt_entry says_get_pt_paddr says_is_entry_present : messages.

Lemma says_map_temporary p : says P (kernel_map_temporary_memory p : M (paging frames) Z).
Proof. unfold kernel_map_temporary_memory. messages. Qed.

Lemma says_set_temporary e : says P (kernel_set_temporary_entry e : M (paging frames) unit).
Proof. unfold kernel_set_temporary_entry. messages. Qed.

Lemma says_get_temporary : says P (kernel_get_temporary_entry : M (paging frames) Z).
Proof. unfold kernel_get_temporary_entry. messages. Qed.

Lemma says_clear_entries p n : says P (clear_entries p n : M (paging frames) unit).
Proof. unfold clear_entries. messages. Qed.
#[local] Hint Resolve says_map_temporary says_set_temporary says_get_temporary says_clear_entries : messages.

Lemma says_find_in_pt a b c l : ∀ d e, says P (find_in_pt a b c l d e : M (paging frames) Z).
Proof. induction l as [|i l IH]; intros d e; cbn [find_in_pt]; messages. Qed.
#[local] Hint Resolve says_find_in_pt : messages.

Lemma says_find_in_pdt size l : says P (find_in_pdt size l : M (paging frames) Z).
Proof. induction l as [|i l IH]; cbn [find_in_pdt]; unfold pt_kernel_find_next_vaddr; messages. Qed.

Lemma says_find size : says P (Paging.pdt_kernel_find_next_vaddr size : M (paging frames) Z).
Proof. apply says_find_in_pdt. Qed.

Lemma says_pt_map_loop fuel : ∀ a b c d e f g h, says P (pt_map_loop fuel a b c d e f g h : M (paging frames) Z).
Proof. induction fuel as [|fuel IH]; intros; cbn [pt_map_loop]; messages. Qed.
#[local] Hint Resolve says_find says_pt_map_loop : messages.

Lemma says_pdt_map_table a b c d e f g h i j : says P (pdt_map_table a b c d e f g h i j : M (paging frames) (option Z)).
Proof using HP. unfold pdt_map_table, pt_map_memory. messages. Qed.
#[local] Hint Resolve says_pdt_map_table : messages.

Lemma says_pdt_map_loop fuel : ∀ a b c d e f g, says P (pdt_map_loop fuel a b c d e f g : M (paging frames) Z).
Proof using HP. induction fuel as [|fuel IH]; intros; cbn [pdt_map_loop]; unfold pdt_map_body; messages. Qed.

Lemma says_pdt_map a b c d e f : says P (pdt_map_memory a b c d e f : M (paging frames) Z).
Proof using HP. apply says_pdt_map_loop. Qed.
#[local] Hint Resolve says_pdt_map : messages.

Lemma says_pdt_map_kernel a b c d e : says P (Paging.pdt_map_kernel_memory a b c d e : M (paging frames) Z).
Proof using HP. unfold Paging.pdt_map_kernel_memory. messages. Qed.
#[local] Hint Resolve says_pdt_map_kernel : messages.

Lemma says_pt_unmap_loop fuel : ∀ a b c d e f, says P (pt_unmap_loop fuel a b c d e f : M (paging frames) Z).
Proof. induction fuel as [|fuel IH]; intros; cbn [pt_unmap_loop]; messages. Qed.
#[local] Hint Resolve says_pt_unmap_loop : messages.

Lemma says_pdt_unmap_loop fuel : ∀ a b c d e, says P (pdt_unmap_loop fuel a b c d e : M (paging frames) Z).
Proof using HP. induction fuel as [|fuel IH]; intros; cbn [pdt_unmap_loop]; unfold pt_unmap_memory; messages. Qed.

Lemma says_pdt_unmap fuel a b c : says P (pdt_unmap_memory fuel a b c : M (paging frames) Z).
Proof using HP. apply says_pdt_unmap_loop. Qed.
#[local] Hint Resolve says_pdt_unmap : messages.

Lemma says_pdt_unmap_kernel fuel a b : says P (pdt_unmap_kernel_memory fuel a b : M (paging frames) Z).
Proof using HP. unfold pdt_unmap_kernel_memory. messages. Qed.

Lemma says_pdt_create : says P (pdt_create : M (paging frames) (Z * Z)).
Proof using HP. unfold pdt_create. messages. Qed.

Lemma says_pdt_load a b : says P (pdt_load_process_pdt a b : M (paging frames) unit).
Proof. unfold pdt_load_process_pdt, copy_entry, pdt_set. messages. Qed.

(** ** The memory map and the bitmap *)

(** Three directives, and two arguments: the one message that is not well typed. *)
Definition bitmap_format : string :=
  "Could not find virtual address for bitmap in kernel. paddr: %X, bitmap_size: %u, bitmap_pfs: %u\n".

Lemma says_fill_loop fuel : ∀ a b c d ms, says P (fill_loop fuel a b c d ms).
Proof.
  induction fuel as [|fuel IH]; intros; cbn [fill_loop];
    unfold entry_type, entry_addr, entry_len, entry_size; messages.
Qed.

Lemma says_load_words n : ∀ v, says P (load_words v n).
Proof. induction n as [|n IH]; intros v; cbn [load_words]; messages. Qed.
#[local] Hint Resolve says_fill_loop says_load_words : messages.

Lemma says_fill_memory_map fuel a b c : says P (fill_memory_map fuel a b c).
Proof using HP. unfold fill_memory_map, minfo_flags, minfo_mmap_addr, minfo_mmap_length. messages. Qed.
#[local] Hint Resolve says_fill_memory_map : messages.

Lemma says_construct_bitmap : (∀ a b, P (bitmap_format, [a; b])) → says P construct_bitmap.
Proof using HP. intros Hb. unfold construct_bitmap. messages. by apply says_printk. Qed.

Lemma says_frames_init fuel a b c d e f g : (∀ a b, P (bitmap_format, [a; b])) → says P (frames_init fuel a b c d e f g).
Proof using HP. intros Hb. pose proof (says_construct_bitmap Hb). unfold frames_init. messages. Qed.

(** ** The heap *)

Lemma says_pages {A} (m : M (paging frames) A) : says P m → says P (zoom Kmalloc.pages set_pages m).
Proof. intros H. by refine (says_zoom P _ _ _ _ _ H). Qed.

Lemma says_pg_allocate n : says P (pg_allocate n : M (paging frames) Z).
Proof. apply says_pfa_allocate. Qed.

Lemma says_pg_find n : says P (pg_find n : M (paging frames) Z).
Proof. apply says_find. Qed.

Lemma says_pg_map a b c d e : says P (pg_map a b c d e : M (paging frames) Z).
Proof using HP. apply says_pdt_map_kernel. Qed.

Lemma says_heap_printk fmt args :
  integers (parse_format (bytes_of fmt)) = Some (length args) →
  says P (Kmalloc.printk fmt args : M (heap (paging frames)) unit).
Proof using HP. intros H. apply says_pages, (says_printk_typed _ _ H). Qed.
#[local] Hint Resolve says_pages says_pg_allocate says_pg_find says_pg_map : messages.
#[local] Hint Extern 1 (says _ (Kmalloc.printk _ _)) => apply says_heap_printk; reflexivity : messages.

Lemma says_read a : says P (read a : M (heap (paging frames)) Z).
Proof. unfold read. messages. Qed.

Lemma says_write a w : says P (write a w : M (heap (paging frames)) unit).
Proof. unfold write. messages. Qed.
#[local] Hint Resolve says_read says_write : messages.

Lemma says_find_place fuel bp : ∀ p, says P (find_place fuel bp p : M (heap (paging frames)) Z).
Proof. induction fuel as [|fuel IH]; intros p; cbn [find_place]; unfold get_next; messages. Qed.

Lemma says_link bp p : says P (link bp p : M (heap (paging frames)) unit).
Proof. unfold link, get_next, get_size, set_next, set_size. messages. Qed.
#[local] Hint Resolve says_find_place says_link : messages.

Lemma says_kfree fuel a : says P (kfree fuel a : M (heap (paging frames)) unit).
Proof. unfold kfree. messages. Qed.
#[local] Hint Resolve says_kfree : messages.

Lemma says_acquire fuel n : says P (acquire_more_heap fuel n : M (heap (paging frames)) Z).
Proof using HP.
  unfold acquire_more_heap, set_size, Kmalloc.pfa_allocate, Kmalloc.pdt_kernel_find_next_vaddr,
    Kmalloc.pdt_map_kernel_memory. messages.
Qed.

Lemma says_carve a b c : says P (carve a b c : M (heap (paging frames)) Z).
Proof. unfold carve, get_size, get_next, set_next, set_size. messages. Qed.
#[local] Hint Resolve says_acquire says_carve : messages.

Lemma says_search fuel a b : ∀ p q, says P (search fuel a b p q : M (heap (paging frames)) Z).
Proof using HP. induction fuel as [|fuel IH]; intros p q; cbn [search]; unfold get_size, get_next; messages. Qed.
#[local] Hint Resolve says_search : messages.

Lemma says_kmalloc base fuel n : says P (Kmalloc.kmalloc base fuel n : M (heap (paging frames)) Z).
Proof using HP. unfold Kmalloc.kmalloc, set_next, set_size, get_next. messages. Qed.
#[local] Hint Resolve says_kmalloc : messages.

(** ** Processes and the scheduler *)

Lemma says_kheap {A} (m : M (heap (paging frames)) A) : says P m → says P (zoom kheap set_kheap m).
Proof. intros H. by refine (says_zoom P _ _ _ _ _ H). Qed.

Lemma says_paging_call {A} (m : M (paging frames) A) : says P m → says P (paging_call m).
Proof. intros H. by apply says_kheap, says_pages. Qed.

Lemma says_tasks_printk fmt args :
  integers (parse_format (bytes_of fmt)) = Some (length args) →
  says P (Tasks.printk fmt args : M (tasks (paging frames)) unit).
Proof using HP. intros H. apply says_kheap, (says_heap_printk _ _ H). Qed.

Lemma says_process_kmalloc base fuel n : says P (Process.kmalloc base fuel n : M (tasks (paging frames)) Z).
Proof using HP. apply says_kheap, says_kmalloc. Qed.
#[local] Hint Resolve says_kheap says_paging_call says_process_kmalloc : messages.
#[local] Hint Extern 1 (says _ (Tasks.printk _ _)) => apply says_tasks_printk; reflexivity : messages.

Lemma says_rd a o : says P (rd a o : M (tasks (paging frames)) Z).
Proof. unfold rd. messages. Qed.

Lemma says_wr a o w : says P (wr a o w : M (tasks (paging frames)) unit).
Proof. unfold wr. messages. Qed.
#[local] Hint Resolve says_rd says_wr : messages.

Lemma says_max_pid fuel : ∀ p n, says P (max_pid_loop fuel p n : M (tasks (paging frames)) Z).
Proof. induction fuel as [|fuel IH]; intros p n; cbn [max_pid_loop]; messages. Qed.
#[local] Hint Resolve says_max_pid : messages.

Lemma says_next_pid fuel : says P (scheduler_next_pid fuel : M (tasks (paging frames)) Z).
Proof. unfold scheduler_next_pid. messages. Qed.
#[local] Hint Resolve says_next_pid : messages.

Lemma says_add_process base fuel p : says P (scheduler_add_process base fuel p : M (tasks (paging frames)) Z).
Proof using HP. unfold scheduler_add_process. messages. Qed.

Lemma says_pp_load a b : says P (pp_load a b : M (paging frames) unit).
Proof. apply says_pdt_load. Qed.
#[local] Hint Resolve says_pp_load : messages.

Lemma says_schedule : says P (scheduler_schedule : M (tasks (paging frames)) (control unit)).
Proof using HP. unfold scheduler_schedule, rotate, switch_to, tss_set_kernel_stack. messages. Qed.

Lemma says_pp_create : says P (pp_create : M (paging frames) (Z * Z)).
Proof using HP. apply says_pdt_create. Qed.

Lemma says_pp_map_in a b c d e f : says P (pp_map_in a b c d e f : M (paging frames) Z).
Proof using HP. apply says_pdt_map. Qed.

Lemma says_pp_unmap f a b : says P (pp_unmap f a b : M (paging frames) Z).
Proof using HP. apply says_pdt_unmap_kernel. Qed.
#[local] Hint Resolve says_pp_create says_pp_map_in says_pp_unmap : messages.

Lemma says_initialize fuel p : says P (initialize fuel p : M (tasks (paging frames)) unit).
Proof. unfold initialize, clear_words. messages. Qed.
#[local] Hint Resolve says_initialize : messages.

Lemma says_process_create base fuel : says P (process_create base fuel : M (tasks (paging frames)) Z).
Proof using HP.
  unfold process_create, or_null, load_pdt, load_code, load_stack, load_kernel_stack, Process.pfa_allocate, copy_words.
  messages.
Qed.
End operations.

(** ** The property *)

(** C37: Every message logged by the frame allocator, the page tables, the heap,
    the scheduler and the creation of processes has as many integers as its
    format reads and reads nothing else, so that [printk] can show it whenever its
    numbers have at most nine digits. At boot there is one exception, the message
    that no address was found for the bitmap: it reads an argument too many, and
    [printk] cannot show it. *)
Theorem messages_well_typed :
  ((∀ n, says well_typed (Frames.pfa_allocate n)) ∧ (∀ p, says well_typed (Frames.pfa_free p))) ∧
  ((∀ size, says well_typed (Paging.pdt_kernel_find_next_vaddr size : M (paging frames) Z)) ∧
   (∀ pdt p v size rw pl, says well_typed (pdt_map_memory pdt p v size rw pl : M (paging frames) Z)) ∧
   (∀ fuel pdt v size, says well_typed (pdt_unmap_memory fuel pdt v size : M (paging frames) Z)) ∧
   says well_typed (pdt_create : M (paging frames) (Z * Z)) ∧
   (∀ pdt p, says well_typed (pdt_load_process_pdt pdt p : M (paging frames) unit))) ∧
  ((∀ base fuel n, says well_typed (Kmalloc.kmalloc base fuel n : M (heap (paging frames)) Z)) ∧
   (∀ fuel a, says well_typed (kfree fuel a : M (heap (paging frames)) unit))) ∧
  ((∀ base fuel p, says well_typed (scheduler_add_process base fuel p : M (tasks (paging frames)) Z)) ∧
   says well_typed (scheduler_schedule : M (tasks (paging frames)) (control unit)) ∧
   (∀ base fuel, says well_typed (process_create base fuel : M (tasks (paging frames)) Z))) ∧
  (∀ m, well_typed m → Forall small m.2 → is_Some (render (parse_format (bytes_of m.1)) (AInt <$> m.2))) ∧
  (∀ fuel kps kpe kvs kve pdt pt minfo,
     says (λ m, well_typed m ∨ m.1 = bitmap_format) (frames_init fuel kps kpe kvs kve pdt pt minfo)) ∧
  (∀ a b, render (parse_format (bytes_of bitmap_format)) [AInt a; AInt b] = None).
Proof.
  split_and!; intros.
  - apply says_frames_allocate.
  - by apply says_frames_free.
  - apply says_find.
  - by apply says_pdt_map.
  - by apply says_pdt_unmap.
  - by apply says_pdt_create.
  - apply says_pdt_load.
  - by apply says_kmalloc.
  - apply says_kfree.
  - by apply says_add_process.
  - by apply says_schedule.
  - by apply says_process_create.
  - by apply typed_rendered.
  - apply says_frames_init; [by left|by right].
  - apply (short_not_rendered _ [a; b] 3); [reflexivity|simpl; lia].
Qed.
