(* ===== verification/SchedulerDemo.v ===== *)
(** * SchedulerDemo: a concrete queue for the witnesses of the scheduler

    On the machine of [DemoMachine], the heap has handed out a process and a list
    element, and the process is the only one of the queue. *)

From S2P Require Import Prelude CArith Interfaces Frames Mmu Paging PagingFacts PdtCreate DemoMachine PageServices PagingServices Kmalloc KmallocTrace Tasks ProcessServices Scheduler SchedulerSpec.

Definition after {A} (o : outcome (A * heap (paging frames))) : heap (paging frames) :=
  match o with Ok (_, s) => s | _ => demo_heap end.

Definition heap_148 : heap (paging frames) := Eval vm_compute in after (kmalloc demo_base demo_fuel 148 demo_heap).
Definition heap_8 : heap (paging frames) := Eval vm_compute in after (kmalloc demo_base demo_fuel 8 heap_148).

(** The addresses handed out. *)
Definition proc : Z := 0xC0002F68.
Definition elem : Z := 0xC0002F58.
Definition demo_owned : gmap Z Z := <[elem := 8]> (<[proc := 148]> ∅).

Lemma heap_8_inv : state_inv demo_base (heap_8, demo_owned).
Proof.
  apply reached_inv; [done|]. exists demo_heap. split; [apply demo_heap_start|].
  eapply rtc_l; [|apply rtc_once].
  - apply (step_kmalloc demo_base demo_heap ∅ demo_fuel 148 proc heap_148); [lia| |done].
    vm_compute. reflexivity.
  - apply (step_kmalloc demo_base heap_148 _ demo_fuel 8 elem heap_8); [lia| |done].
    vm_compute. reflexivity.
Qed.

(** The fields of the process and of the element. *)
Definition demo_fields : list (Z * Z * Z) :=
  [(proc, P_ID, 7); (proc, P_PDT, 0x105000); (proc, P_PDT_PADDR, 0x105000);
   (proc, P_KERNEL_STACK, 0xC0005000); (proc, 56, 0x1B); (elem, E_NEXT, 0); (elem, E_PS, proc)].

Definition demo_tasks : tasks (paging frames) :=
  foldl (λ s '(a, off, w), put (a + off) w s) (Tasks _ heap_8 (Tss 0 0) elem elem) demo_fields.

Lemma owns_fields l : ∀ s,
  owns demo_base s demo_owned →
  Forall (λ '(a, off, w), ∃ n, demo_owned !! a = Some n ∧ field off n) l →
  owns demo_base (foldl (λ s '(a, off, w), put (a + off) w s) s l) demo_owned.
Proof.
  induction l as [|[[a off] w] l IH]; intros s Hs Hl; [done|].
  apply Forall_cons in Hl as [(n & Ha & Hf) Hl]. simpl. apply IH; [|done].
  by apply (wr_owned demo_base s demo_owned a n off w).
Qed.

Lemma demo_tasks_owns : owns demo_base demo_tasks demo_owned.
Proof.
  apply owns_fields; [exact heap_8_inv|]. repeat apply Forall_cons_2; try apply Forall_nil_2;
    eexists; (split; [reflexivity|repeat split; done]).
Qed.

Lemma demo_word a off w :
  In (a, off, w) demo_fields → ld (mem demo_tasks) (a + off) = w.
Proof. intros H. simpl in H. repeat destruct H as [H|H]; [injection H as <- <- <-; vm_compute; reflexivity..|done]. Qed.

Lemma demo_queue : queue demo_tasks demo_owned [(elem, proc)].
Proof.
  split.
  - apply NoDup_singleton.
  - intros e He. apply list_elem_of_singleton in He. by subst e.
  - split; [vm_compute; reflexivity|]. split; [vm_compute; reflexivity|done].
  - reflexivity.
  - intros q' x E. apply (app_inj_tail [] q') in E as [_ <-]. reflexivity.
Qed.

Lemma demo_processes : processes demo_owned [(elem, proc)].
Proof. intros x Hx. apply list_elem_of_singleton in Hx. subst x. right. reflexivity. Qed.

(** Its directory, as in [PdtCreate], is a page of the first 4 MB. *)
Lemma demo_ready : ready demo_tasks proc.
Proof.
  unfold ready. rewrite (demo_word proc P_PDT 0x105000), (demo_word proc P_PDT_PADDR 0x105000) by (simpl; tauto).
  change (pages (kheap demo_tasks)) with (pages heap_8). split.
  - split; try (vm_compute; done).
  - done.
  - vm_compute. done.
  - vm_compute. done.
  - vm_compute. done.
  - intros idx Hi. assert (H : forallb (λ i, negb (hw_base (ld (phys (pages heap_8)) (0x101000 + 4 * i)) =? 0x105000)) (seqZ 768 256) = true)
      by (vm_compute; reflexivity).
    rewrite forallb_forall in H. specialize (H idx ltac:(apply list_elem_of_In, elem_of_seqZ; lia)).
    intros e _ E. unfold e in E. change (kernel_pdt (pages heap_8)) with 0x101000 in E. by rewrite E in H.
  - intros idx Hi. assert (H : forallb (λ i, negb (hw_base (ld (phys (pages heap_8)) (0x105000 + 4 * i)) =? 0x105000)) (seqZ 1 767) = true)
      by (vm_compute; reflexivity).
    rewrite forallb_forall in H. specialize (H idx ltac:(apply list_elem_of_In, elem_of_seqZ; lia)).
    intros e _ E. unfold e in E. by rewrite E in H.
Qed.

(** ** Witnesses *)

Lemma scheduler_next_pid_fresh_witness :
  ∃ r, scheduler_next_pid 2 demo_tasks = Ok (r, demo_tasks) ∧ 0 < r < 4294967296 ∧ 7 < r.
Proof.
  assert (E : ∀ x, x ∈ [(elem, proc)] → ld (mem demo_tasks) x.2 = 7).
  { intros x Hx. apply list_elem_of_singleton in Hx. subst x. vm_compute. reflexivity. }
  destruct (scheduler_next_pid_fresh demo_base demo_tasks demo_owned [(elem, proc)] 2 demo_tasks_owns
    demo_queue demo_processes) as (r & Er & [(_ & Hr & Hx)|((x & Hx & _ & E') & _)]).
  - intros x Hx _. rewrite (E x Hx). lia.
  - simpl. lia.
  - exists r. split; [exact Er|]. split; [exact Hr|].
    rewrite <- (E (elem, proc)) at 1; [apply Hx; [by left|done]|by left].
  - rewrite (E x Hx) in E'. discriminate E'.
Defined.

Lemma scheduler_add_process_enqueues_witness :
  ∃ fuel r s', scheduler_add_process demo_base fuel proc demo_tasks = Ok (r, s') ∧
    (r = 0 ∨ r = -1).
Proof.
  destruct (scheduler_add_process_enqueues demo_base demo_tasks demo_owned [(elem, proc)] proc ltac:(done)
    demo_tasks_owns demo_queue) as (fuel & r & s' & E & _ & _ & Hr).
  exists fuel, r, s'. split; [exact (E fuel (le_n fuel))|].
  destruct Hr as [[Hr _]|[Hr _]]; [left|right]; exact Hr.
Defined.

(** The process is alone, so it is run again. *)
Lemma scheduler_schedule_rotates_witness :
  ∃ s', scheduler_schedule demo_tasks = Ok (Away (proc + 16), s') ∧ the_tss s' = Tss (ld (words (kheap demo_tasks)) (proc + P_KERNEL_STACK)) SEGSEL_KERNEL_DS.
Proof.
  destruct (scheduler_schedule_rotates demo_base demo_tasks demo_owned [(elem, proc)] demo_tasks_owns
    demo_queue demo_processes) as (r & s' & E & _ & _ & (Ht & _ & Hrun)).
  - intros x Hx _. apply list_elem_of_singleton in Hx. subst x. apply demo_ready.
  - exists s'. rewrite (demo_word proc 56 0x1B) in Hrun by (simpl; tauto).
    split; [rewrite E, Hrun; reflexivity|exact Ht].
Defined.
