(* ===== verification/ProcessSpec.v ===== *)
(** * ProcessSpec: what [process_create] does

    Over any allocator of frames: its failure when the heap is full, its success
    when there is room, and the first turn of the process it made. *)

From S2P Require Import Prelude CArith Interfaces Frames Mmu Paging PagingFacts PageMap PdtMap PageFind PdtCreate DemoMachine PageServices PagingServices ProcessPages Kmalloc HeapLayout KmallocFacts KmallocSpec KmallocTrace Tasks ProcessServices Scheduler SchedulerSpec Process TaskBlocks ProcessCreate.

Section spec.
Context {St : Type} `{!FrameOps St, !FrameLaws St} (base : Z).
Implicit Types (s : tasks (paging St)) (U : gmap Z Z) (q : list (Z * Z)).

(** Nothing can be written at the address 0. *)
Lemma wr_null s w : wr 0 P_ID w s = Fault.
Proof. reflexivity. Qed.

(** When the heap has no room for [struct process], [process_create]
    says so and goes on with the null pointer: it writes the process's number
    to the address 0, and faults. *)
Lemma process_create_null s U q fuel s1 :
  base mod 4096 ≠ 0 → owns base s U → queue s U q → processes U q → (length q < fuel)%nat →
  Process.kmalloc base fuel sizeof_process s = Ok (0, s1) →
  process_create base fuel s = Fault.
Proof.
  intros Hbase Hs [_ Ho Hc Hst _] Hp Hf E. unfold process_create. rewrite (bind_ok _ _ _ _ _ E). simpl (0 =? 0). cbv iota.
  unfold Process.kmalloc, zoom in E.
  destruct (Kmalloc.kmalloc base fuel sizeof_process (kheap s)) as [[p h]| |] eqn:Ek; [|done..].
  injection E as -> <-. set (s1 := set_kheap h s).
  destruct (kmalloc_any base Hbase (kheap s) U fuel sizeof_process 0 h Hs ltac:(unfold sizeof_process; lia) Ek)
    as [Hk [[_ Hs1]|(? & _)]]; [|done].
  assert (Hc1 : chain (mem s1) q 0).
  { apply (chain_ext (mem s)); [|done]. intros x Hx. split; apply (Hk x 8); auto; lia. }
  destruct (message_ok base s1 U "Failed to kmalloc 'struct process' during process create." [] Hs1) as (ps&Em&Hs2).
  rewrite (bind_ok _ _ _ _ _ Em). set (s2 := set_kheap (set_pages ps (kheap s1)) s1) in *.
  assert (Ei : initialize fuel 0 s2 = Fault); [|unfold mbind, M_bind; by rewrite Ei].
  assert (En : scheduler_next_pid fuel s2 = Ok (u32 (greatest_id (mem s2) q 0 + 1), s2)).
  { unfold scheduler_next_pid.
    rewrite (bind_ok _ _ s2 (first q 0) s2) by (unfold gets; simpl; by rewrite Hst).
    by rewrite (bind_ok _ _ _ _ _ (max_pid_loop_ok base s2 U q fuel 0 Hs2 Ho Hc1 Hp Hf)). }
  unfold initialize. rewrite (bind_ok _ _ _ _ _ En). unfold mbind, M_bind. by rewrite wr_null.
Qed.

(** C33: When the heap has a free block of 29 units, and nine frames and three
    entries of the kernel's directory are free, [process_create] with fuel for the free
    blocks and for the queue succeeds: the process has a fresh number, a directory of
    its own that can be loaded, its code at the address 0 and its stack below 3 GB there,
    its kernel stack in the kernel's addresses, each in a frame that was free and that its
    list records, and the registers of user mode; nothing that existed has changed. *)
Theorem process_create_creates s U q N fuel :
  base mod 4096 ≠ 0 → heap_room base (kheap s) U N 29 → queue s U q → processes U q →
  services_wf (pages (kheap s)) → supply (pages (kheap s)) 9 3 →
  (2 <= fuel)%nat → (N < fuel)%nat → (length q < fuel)%nat →
  ∃ p s' code stack kstack, process_create base fuel s = Ok (p, s') ∧
    created base s s' U q p code stack kstack.
Proof.
  intros Hbase Hr Hq Hp Hsv Hsup H2 HN Hf.
  destruct (process_create_ok base Hbase s U q N 0 fuel ltac:(done) Hr Hq Hp Hsv Hsup H2 HN Hf)
    as (p & s' & code & stack & kstack & E & Hc & _).
  by exists p, s', code, stack, kstack.
Qed.

(** It is not in kernel mode. *)
Lemma created_away s s' s'' U q p code stack kstack r :
  created base s s' U q p code stack kstack → runs s' s'' p r → r = Away (p + P_CURRENT).
Proof.
  intros Hc (_ & _ & ->). destruct (cr_registers _ _ _ _ _ _ _ _ _ Hc 10 _ eq_refl) as [_ E10].
  change (P_CURRENT + 4 * Z.of_nat 10) with 56 in E10. change (ld (mem s') (p + 56)) with (fld s' p 56).
  by rewrite E10.
Qed.

(** C34: But in its first turn the directory loaded has the kernel's entry in place
    of its first one: its stacks are where they were, and the addresses of its code,
    from its first instruction on, lead to the first physical page. *)
Theorem process_code_hidden s s' U q p code stack kstack :
  created base s s' U q p code stack kstack →
  let P := fld s' p P_PDT_PADDR in
  ∃ s'', switch_to p s' = Ok (Away (p + P_CURRENT), s'') ∧ runs s' s'' p (Away (p + P_CURRENT)) ∧ active (pages (kheap s'')) = P ∧
    fld s' p (P_CURRENT + REG_EIP) = fld s' p P_CODE ∧
    ∀ o, 0 <= o < 4096 →
      leads s'' P (fld s' p P_STACK + o) = Some (stack + o) ∧
      leads s'' P (fld s' p P_KERNEL_STACK - 4092 + o) = Some (kstack + o) ∧
      leads s' P (fld s' p P_CODE + o) = Some (code + o) ∧ code ≠ 0 ∧
      leads s'' P (fld s' p P_CODE + o) = Some o.
Proof.
  intros Hc P. destruct (cr_pages _ _ _ _ _ _ _ _ _ Hc) as [(Hwf & Hkt & Ha) _].
  pose proof (cr_loadable _ _ _ _ _ _ _ _ _ Hc) as Hload.
  destruct (cr_owned _ _ _ _ _ _ _ _ _ Hc) as (U' & Hs & _ & Hp & _).
  assert (Hready : ready s' p) by exact Hload.
  destruct (switch_ok base s' U' p Hs Hp Hready) as (r & s'' & E & Hr & _ & _ & _ & _ & El).
  assert (Er : r = Away (p + P_CURRENT)) by exact (created_away s s' s'' U q p code stack kstack r Hc Hr). subst r.
  pose proof (pdt_load_process_pdt_ok _ _ _ Hwf Hkt Hload) as El'. fold P in Hload, El'.
  assert (Eps : pages (kheap s'') = set_cr3 (cr3_of P) (set_phys (loaded (pages (kheap s')) P) (pages (kheap s')))).
  { change (pdt_load_process_pdt (fld s' p P_PDT) P (pages (kheap s')) = Ok (tt, pages (kheap s''))) in El.
    rewrite El' in El. by injection El. }
  exists s''. split; [done|]. split; [done|].
  split; [rewrite Eps; by apply (loaded_active (pages (kheap s')) (fld s' p P_PDT) P)|].
  split.
  { destruct (cr_registers _ _ _ _ _ _ _ _ _ Hc 11 0 eq_refl) as [_ E11], (cr_places _ _ _ _ _ _ _ _ _ Hc) as [-> _].
    exact E11. }
  intros o Ho. destruct (cr_places _ _ _ _ _ _ _ _ _ Hc) as [Ec Est].
  pose proof (cr_code _ _ _ _ _ _ _ _ _ Hc o Ho) as Hcode. pose proof (cr_stack _ _ _ _ _ _ _ _ _ Hc o Ho) as Hst.
  destruct (cr_kernel_stack _ _ _ _ _ _ _ _ _ Hc o Ho) as [Hkr Hk].
  assert (Hkernel : ∀ v r, is_u32 v → v < 0x400000 ∨ 0xC0000000 <= v →
    leads s' (kernel_pdt (pages (kheap s'))) v = Some r → leads s'' P v = Some r).
  { intros v r Hv Hr' Hw. unfold leads. rewrite Eps. by apply (loaded_kernel _ (fld s' p P_PDT) P Hwf Hkt Hload). }
  split; [|split; [|split; [|split]]].
  - rewrite <- Hst. unfold leads. rewrite Eps, Est.
    apply (loaded_user _ (fld s' p P_PDT) P Hwf Hkt Hload). change PROC_INITIAL_STACK_VADDR with 0xBFFFF000. lia.
  - apply Hkernel; [lia|lia|done].
  - done.
  - destruct (cr_taken _ _ _ _ _ _ _ _ _ Hc code) as (_ & _ & _ & ? & _); [set_solver|lia].
  - rewrite Ec. apply Hkernel; [lia|lia|]. unfold leads. rewrite <- Ha. apply walk_low; [done|lia].
Qed.
End spec.

(** ** Witness: a heap that cannot grow *)

Definition empty_frames : frames :=
  Frames (PageFrameBitmap [0] 6) [MemoryMap 0x200000 0x4000; MemoryMap 0x300000 0x2000] [].
Definition empty_machine : paging frames := set_pfa empty_frames demo_machine.
Definition empty_tasks : tasks (paging frames) := Tasks _ (Heap _ ∅ 0 empty_machine) (Tss 0 0) 0 0.

Lemma empty_frames_wf : frames_wf empty_frames.
Proof. split; simpl; try (done || lia). repeat constructor; lia. Qed.

Lemma empty_services : services_wf empty_machine ∧ same_pages demo_machine empty_machine.
Proof.
  assert (Hsub : fr_free_set empty_frames ⊆ fr_free_set (pfa demo_machine)).
  { apply (bool_decide_unpack _). vm_compute. done. }
  apply set_pfa_services; [exact demo_services| |exact Hsub].
  apply (kernel_wf_mem demo_machine); try done; [exact demo_wf|exact empty_frames_wf|apply demo_wf].
Qed.

Lemma empty_owns : owns demo_base empty_tasks ∅.
Proof.
  left. split; [|done]. destruct empty_services as [Hsv _], demo_heap_start as [_ _ Hb].
  split; [exact Hsv|done|]. by destruct Hb.
Qed.

Lemma process_create_null_witness : process_create demo_base 3 empty_tasks = Fault.
Proof.
  apply (process_create_null demo_base empty_tasks ∅ [] 3
    (match Process.kmalloc demo_base 3 sizeof_process empty_tasks with Ok (_, s) => s | _ => empty_tasks end)).
  - done.
  - exact empty_owns.
  - split; try done.
    + apply NoDup_nil_2.
    + intros e He. by apply elem_of_nil in He.
    + intros q' x E. by destruct q'.
  - intros x Hx. by apply elem_of_nil in Hx.
  - simpl. lia.
  - vm_compute. reflexivity.
Defined.
