(* ===== verification/ProcessDemo.v ===== *)
(** * ProcessDemo: a concrete machine on which a process is created

    The machine of [DemoMachine] with sixteen free frames; one block of the heap
    has been handed out, so that the rest of the heap's first arena is free. *)

From S2P Require Import Prelude CArith Interfaces Frames Mmu Paging PagingFacts PageMap PdtMap PageFind PdtCreate DemoMachine PageServices PagingServices ProcessPages Ring Kmalloc HeapLayout KmallocFacts KmallocSpec KmallocTrace Tasks ProcessServices Scheduler SchedulerSpec Process TaskBlocks ProcessCreate ProcessSpec.

Definition wide_frames : frames :=
  Frames (PageFrameBitmap [0xFFFF0000] 16) [MemoryMap 0x200000 0x10000] [].
Definition wide_machine : paging frames := set_pfa wide_frames demo_machine.

Lemma wide_frames_wf : frames_wf wide_frames.
Proof. split; simpl; try (done || lia). repeat constructor; lia. Qed.

Lemma wide_live a : hw_base a < 0x200000 → live wide_machine a.
Proof.
  intros Ha Hin. assert (H : set_Forall (λ f, 0x200000 <= f) (fr_free_set wide_frames))
    by (apply (bool_decide_unpack _); vm_compute; done).
  specialize (H _ Hin). simpl in H. lia.
Qed.

Lemma wide_services : services_wf wide_machine.
Proof.
  pose proof demo_wf as [_ Hw Hd Hp Hl Hwin Hne _ _ _]. split; [|split; [|done]].
  - split; try done; [apply wide_frames_wf|by apply wide_live..].
  - pose proof demo_tables as [Hk Hlow Hf _]. split; try done. intros idx Hi.
    change (kernel_pdt wide_machine) with 0x101000. unfold good_pde.
    change (phys wide_machine) with (phys demo_machine). rewrite demo_pde by lia.
    repeat case_decide; try lia; [|done]. subst. intros _. by split_and!; [..|apply wide_live].
Qed.

Definition empty_heap : heap (paging frames) := Heap _ ∅ 0 wide_machine.

Lemma wide_start : heap_start demo_base empty_heap.
Proof. split; [exact wide_services|done|]. destruct demo_heap_start as [_ _ []]. by split. Qed.

(** One block of 8 bytes handed out. *)
Definition block : Z := 0xC0002FF8.
Definition wide_heap : heap (paging frames) := Eval vm_compute in
  match Kmalloc.kmalloc demo_base 10 8 empty_heap with Ok (_, s) => s | _ => empty_heap end.
Definition wide_tasks : tasks (paging frames) := Tasks _ wide_heap (Tss 0 0) 0 0.

Lemma wide_room : heap_room demo_base wide_heap {[block := 8]} 2 29.
Proof.
  pose proof (started_inv demo_base empty_heap wide_start) as Hi.
  destruct (kmalloc_spec demo_base ltac:(done) 10 (started demo_base empty_heap) {[demo_base := 0]} ∅ 8 Hi ltac:(lia))
    as (r & s' & F & E & Ha & Hn). { rewrite dom_singleton_L, size_singleton. lia. }
  rewrite <- (kmalloc_first demo_base 10 empty_heap 8 wide_start ltac:(done)) in E.
  pose proof (result_ok _ _ _ block E ltac:(vm_compute; reflexivity)) as ->.
  assert (s' = wide_heap) as ->.
  { assert (Ek : Kmalloc.kmalloc demo_base 10 8 empty_heap = Ok (block, wide_heap)) by (vm_compute; reflexivity).
    rewrite Ek in E. by injection E. }
  destruct Ha as [(Hz & _)|(b & Eb & Hi' & Hb & _ & _)]; [discriminate Hz|].
  assert (b = block - 8) as -> by lia.
  exists F, (<[block - 8 := units 8]> ∅). split; [done|]. split; [|split].
  - pose proof (tracked_insert ∅ ∅ (block - 8) 8) as Ht. apply Ht; [|lia|done].
    split; intros ? ? H; by rewrite lookup_empty in H.
  - rewrite dom_singleton_L, size_singleton in Hn. lia.
  - pose proof Hi' as [_ Hl Hr _ _]. destruct (Hr demo_base 0 (ly_base _ _ _ _ Hl)) as (_ & [k Hk] & _).
    exists (ld (words wide_heap) demo_base), k. split; [done|]. destruct (Hr _ k Hk) as (<- & _ & _).
    vm_compute. done.
Qed.

Lemma wide_queue : queue wide_tasks {[block := 8]} [].
Proof.
  split; try done.
  - apply NoDup_nil_2.
  - intros e He. by apply elem_of_nil in He.
  - intros q' x E. by destruct q'.
Qed.

Lemma wide_supply : services_wf (pages (kheap wide_tasks)) ∧ supply (pages (kheap wide_tasks)) 9 3.
Proof.
  split.
  - destruct wide_room as (F & L & Hi & _). exact (hv_pages _ _ _ _ Hi).
  - split; [vm_compute; lia|]. exists {[769; 770; 771]}. split; [vm_compute; lia|].
    intros idx Hi. rewrite !elem_of_union, !elem_of_singleton in Hi.
    destruct Hi as [[->| ->]| ->]; (split; [lia|vm_compute; reflexivity]).
Qed.

(** The process is at the end of the arena's free part. *)
Definition made : Z := 0xC0002F58.

Lemma process_create_creates_witness :
  ∃ s' code stack kstack, process_create demo_base 3 wide_tasks = Ok (made, s') ∧
    fld s' made P_ID = 1 ∧ leads s' (fld s' made P_PDT_PADDR) 0x10 = Some (code + 0x10) ∧
    NoDup [fld s' made P_PDT_PADDR; code; stack; kstack].
Proof.
  destruct wide_supply as [Hsv Hsup].
  destruct (process_create_creates demo_base wide_tasks {[block := 8]} [] 2 3) as (p & s' & code & stack & kstack & E & Hc);
    [done|exact wide_room|exact wide_queue| |exact Hsv|exact Hsup|lia|lia|simpl; lia|].
  { intros x Hx. by apply elem_of_nil in Hx. }
  pose proof (result_ok _ _ _ made E ltac:(vm_compute; reflexivity)) as ->.
  exists s', code, stack, kstack. split; [exact E|]. split; [exact (cr_id _ _ _ _ _ _ _ _ _ Hc)|].
  split; [|exact (cr_frames _ _ _ _ _ _ _ _ _ Hc)].
  pose proof (cr_code _ _ _ _ _ _ _ _ _ Hc 0x10 ltac:(lia)) as H.
  destruct (cr_places _ _ _ _ _ _ _ _ _ Hc) as [Ec _]. by rewrite Ec in H.
Defined.

Lemma process_code_hidden_witness :
  ∃ s' s'' P code, process_create demo_base 3 wide_tasks = Ok (made, s') ∧ switch_to made s' = Ok (Away (made + 16), s'') ∧
    leads s' P 0 = Some code ∧ code ≠ 0 ∧ leads s'' P 0 = Some 0.
Proof.
  destruct wide_supply as [Hsv Hsup].
  destruct (process_create_ok demo_base ltac:(done) wide_tasks {[block := 8]} [] 2 0 3 ltac:(done) wide_room wide_queue)
    as (p & s' & code & stack & kstack & E & Hc & _); [|exact Hsv|exact Hsup|lia|lia|simpl; lia|].
  { intros x Hx. by apply elem_of_nil in Hx. }
  pose proof (result_ok _ _ _ made E ltac:(vm_compute; reflexivity)) as ->.
  destruct (process_code_hidden demo_base wide_tasks s' {[block := 8]} [] made code stack kstack Hc)
    as (s'' & Es & _ & _ & _ & Hl).
  destruct (Hl 0 ltac:(lia)) as (_ & _ & H1 & Hn & H2).
  destruct (cr_places _ _ _ _ _ _ _ _ _ Hc) as [Ec _]. rewrite Ec, !Z.add_0_r in *.
  exists s', s'', (fld s' made P_PDT_PADDR), code. by split_and!.
Defined.
