(* ===== verification/Devices.v ===== *)
(** * Devices: the keyboard and the timer

    kernel/arch/i386/keyboard.c and timer.c: two handlers of interrupts, and the
    functions that put them in the table of [Interrupts]. *)

From S2P Require Import Prelude Tty Printk Interrupts.

Definition IRQ0 : Z := 32.
Definition IRQ1 : Z := 33.

(** ** The keyboard *)

(** The characters of the keys, 0 for a key without one. *)
Definition keyboard_layout : list Z :=
  [0; 27] ++ bytes_of "1234567890-=" ++ [TTY_BACKSPACE_ASCII; TAB]
  ++ bytes_of "qwertyuiop[]" ++ [NEWLINE; 0]
  ++ bytes_of "asdfghjkl;'`" ++ [0] ++ bytes_of "\zxcvbnm,./" ++ [0]
  ++ bytes_of "*" ++ [0] ++ bytes_of " " ++ replicate 16 0 ++ bytes_of "-" ++ replicate 3 0
  ++ bytes_of "+" ++ replicate 49 0.

(** Only the keyboard's data port is read. *)
Definition inb (port : Z) : M cpu Z := if port =? 0x60 then gets kbd else fault.

(** The character is passed where ['%s'] makes [printk] read a pointer. *)
Definition keyboard_callback (regs : registers) : M cpu unit :=
  scancode ← inb 0x60;
  if negb (Z.land scancode 0x80 =? 0) then mret tt
  else
    c ← of_option (keyboard_layout !! Z.to_nat scancode);
    printk (bytes_of "%s") [AInt c].

Definition keyboard_init : M cpu unit := register_irq_handler IRQ1 keyboard_handler.

(** ** The timer *)

Definition timer_callback (regs : registers) : M cpu unit :=
  modify (λ s, set_tick (tick s +ᵤ 1) s) ≫= λ _,
  n ← gets tick;
  printk (line "Tick: %X") [AInt n].

(** The quotient of C rounds towards zero, and there is none by zero. *)
Definition timer_init (frequency : Z) : M cpu unit :=
  register_irq_handler IRQ0 timer_handler ≫= λ _,
  if frequency =? 0 then fault
  else
    let divisor := i16 (Z.quot 1193180 frequency) in
    outb 0x43 0x36 ≫= λ _,
    let l := u8 (Z.land divisor 0xFF) in
    let h := u8 (Z.land (Z.shiftr divisor 8) 0xFF) in
    outb 0x40 l ≫= λ _,
    outb 0x40 h.

(** The code at a handler's address. *)
Definition call (h : irq_t) : registers → M cpu unit :=
  match h with keyboard_handler => keyboard_callback | timer_handler => timer_callback end.
