(* ===== verification/InterruptsSpec.v ===== *)
(** * InterruptsSpec: the correctness of the interrupt tables and the devices *)

From S2P Require Import Prelude Tty TtyFacts TtySpec Printk TtySafe Interrupts Devices.

Implicit Types (s : cpu) (regs : registers).

(** ** Gates *)

(** What the processor reads in an entry. *)
Record gate := Gate { g_offset : Z; g_selector : Z; g_present : bool; g_dpl : Z; g_type : Z }.

Definition decode_gate (e : idt_entry) : gate :=
  Gate (base_lo e + 65536 * base_hi e) (selector e) (Z.testbit (flags e) 7) (flags e / 32 mod 4)
    (flags e mod 16).

(** A 32-bit interrupt gate of the kernel's code segment that PL3 may use. *)
Definition kernel_gate (offset : Z) : gate := Gate offset 8 true 3 14.
Definition no_gate : gate := Gate 0 0 false 0 0.

Definition entry_for (offset : Z) : idt_entry :=
  IdtEntry (Z.land offset 0xFFFF) 0x08 0 (Z.lor 0x8E 0x60) (Z.land (Z.shiftr offset 16) 0xFFFF).

Lemma decode_entry offset : is_u32 offset → decode_gate (entry_for offset) = kernel_gate offset.
Proof.
  intros Ho. unfold decode_gate, kernel_gate. simpl. f_equal.
  rewrite !land_0xFFFF, Z.shiftr_div_pow2 by lia. change (2 ^ 16) with 65536.
  Z.to_euclidean_division_equations; lia.
Qed.

Lemma set_gate_ok s n offset :
  0 <= n < 256 → length (idt_entries s) = 256%nat →
  idt_set_gate n offset 0x08 0x8E s
  = Ok (tt, set_idt (<[Z.to_nat n := entry_for offset]> (idt_entries s)) s).
Proof.
  intros Hn Hl. unfold idt_set_gate. rewrite u8_small by lia.
  destruct (lookup_lt_is_Some_2 (idt_entries s) (Z.to_nat n) ltac:(lia)) as [e He].
  rewrite (bind_ok _ _ s (idt_entries s) s) by done.
  by rewrite (bind_ok _ _ s e s) by (by rewrite He).
Qed.

(** A loop that sets the [n] gates from [off + a] on. *)
Lemma set_gates_ok (off : Z) (h : Z → Z) (n : nat) : ∀ a s,
  0 <= off + a → off + a + Z.of_nat n <= 256 → length (idt_entries s) = 256%nat →
  ∃ l, for_each (seqZ a (Z.of_nat n)) (λ i, idt_set_gate (off + i) (h i) 0x08 0x8E) s
      = Ok (tt, set_idt l s) ∧ length l = 256%nat ∧
    ∀ k, 0 <= k → l !! Z.to_nat k =
      if bool_decide (off + a <= k < off + a + Z.of_nat n) then Some (entry_for (h (k - off)))
      else idt_entries s !! Z.to_nat k.
Proof.
  induction n as [|n IH]; intros a s Ha Hn Hl.
  { exists (idt_entries s). split; [by destruct s|]. split; [done|]. intros k Hk.
    rewrite bool_decide_eq_false_2; [done|lia]. }
  rewrite seqZ_step by lia. replace (Z.of_nat (S n) - 1) with (Z.of_nat n) by lia. cbn [for_each].
  rewrite (bind_ok _ _ _ _ _ (set_gate_ok s (off + a) (h a) ltac:(lia) Hl)).
  set (s1 := set_idt _ s). destruct (IH (a + 1) s1) as (l&E&Hl'&Hk); [lia..|simpl; by rewrite length_insert|].
  exists l. rewrite E. split; [done|]. split; [done|]. intros k Hk0. rewrite Hk by done.
  destruct (decide (k = off + a)) as [->|Hne].
  - rewrite bool_decide_eq_false_2, bool_decide_eq_true_2 by lia. simpl.
    rewrite list_lookup_insert_eq by lia. do 3 f_equal. lia.
  - simpl. rewrite list_lookup_insert_ne by lia. destruct (decide (off + (a + 1) <= k < off + (a + 1) + Z.of_nat n)).
    + by rewrite !bool_decide_eq_true_2 by lia.
    + by rewrite !bool_decide_eq_false_2 by lia.
Qed.

(** Writing to the console leaves the rest of the machine. *)
Lemma printk_plain s fmt args :
  plain fmt → usable (con s) →
  ∃ c, printk fmt args s = Ok (tt, set_con c s) ∧ usable c.
Proof.
  intros Hp Hu. destruct (printk_usable fmt args Hp (con s) Hu) as ([]&c&E&Hc).
  exists c. split; [|done]. unfold printk, zoom. by rewrite E.
Qed.

(** A message that has a rendering is shown. *)
Lemma printk_shown s fmt args l p :
  Forall arg_ok args → render (parse_format fmt) args = Some l → shows p (con s) →
  ∃ c, printk fmt args s = Ok (tt, set_con c s) ∧ shows (put_all l p) c.
Proof.
  intros Ha Hr Hs. pose proof (printk_writes fmt args Ha p (con s) Hs) as H. rewrite Hr in H.
  destruct H as (c&E&Hc). exists c. split; [|done]. unfold printk, zoom. by rewrite E.
Qed.

(** The console with the controllers' bytes sent. *)
Lemma outb_each s l :
  ∃ c, for_each l (λ '(p, v), outb p v) s = Ok (tt, set_con c s) ∧
    fb c = fb (con s) ∧ cursor_pos c = cursor_pos (con s) ∧
    ports c = reverse ((λ '(p, v), (p, u8 v)) <$> l) ++ ports (con s).
Proof.
  revert s. induction l as [|[p v] l IH]; intros s.
  { exists (con s). split; [by destruct s|done]. }
  cbn [for_each]. rewrite (bind_ok _ _ s tt (set_con (Tty (fb (con s)) (cursor_pos (con s))
    ((p, u8 v) :: ports (con s))) s)) by done.
  destruct (IH (set_con (Tty (fb (con s)) (cursor_pos (con s)) ((p, u8 v) :: ports (con s))) s))
    as (c&E&Hf&Hc&Hp).
  exists c. split; [by rewrite E|]. split; [done|]. split; [done|]. rewrite Hp. simpl.
  by rewrite reverse_cons, <- app_assoc.
Qed.

(** The state the two initialisations of kernel.c leave. *)
Lemma interrupts_init_ok s idt_vaddr isr irq :
  (∀ n, is_u32 (isr n)) → (∀ n, is_u32 (irq n)) → usable (con s) →
  ∃ s', (clear_idt idt_vaddr ≫= λ _, interrupts_init isr irq) s = Ok (tt, s') ∧
    (∀ n, 0 <= n < 256 →
      decode_gate <$> idt_entries s' !! Z.to_nat n
      = Some (if n <? 32 then kernel_gate (isr n) else if n <? 48 then kernel_gate (irq (n - 32)) else no_gate)) ∧
    lidt s' = Some (8 * 256 - 1, idt_vaddr) ∧ exception_handlers s' = replicate 32 None ∧
    interrupt_handlers s' = interrupt_handlers s ∧ usable (con s').
Proof.
  intros Hisr Hirq Hu. rewrite (bind_ok _ _ s tt (set_idt (replicate 256 (IdtEntry 0 0 0 0 0))
    (set_idt_ptr (2047, idt_vaddr) s))) by done.
  unfold interrupts_init, init_isr, init_irq. set (s0 := set_idt _ _).
  set (s1 := set_exception_handlers (replicate 32 None) s0).
  destruct (set_gates_ok 0 isr 32 0 s1) as (l1&E1&Hl1&Hk1); [lia..|apply length_replicate|].
  rewrite bind_assoc, (bind_ok _ _ s0 tt s1) by done. simpl (0 + _) in E1.
  rewrite (bind_ok _ _ s1 tt (set_idt l1 s1)) by exact E1.
  destruct (outb_each (set_idt l1 s1) [(0x20, 0x11); (0xA0, 0x11); (0x21, 0x20); (0xA1, 0x28); (0x21, 0x04);
    (0xA1, 0x02); (0x21, 0x01); (0xA1, 0x01); (0x21, 0x0); (0xA1, 0x0)]) as (c&E2&Hfb&Hcur&_).
  rewrite bind_assoc, (bind_ok _ _ _ _ _ E2). set (s2 := set_con c _).
  destruct (set_gates_ok 32 irq 16 0 s2) as (l2&E3&Hl2&Hk2); [lia..|done|].
  change (Z.of_nat 16) with 16 in E3. rewrite (bind_ok _ _ _ _ _ E3).
  rewrite (bind_ok _ _ (set_idt l2 s2) tt (set_lidt (2047, idt_vaddr) (set_idt l2 s2))) by done.
  destruct (printk_plain (set_lidt (2047, idt_vaddr) (set_idt l2 s2)) (line "Interrupts enabled.") [])
    as (c'&E4&Hc').
  { apply (bool_decide_unpack _). vm_compute. done. }
  { unfold usable. simpl. by rewrite Hfb, Hcur. }
  rewrite E4. eexists. split; [reflexivity|]. split_and!; [|done..].
  change (idt_entries (set_con c' _)) with l2. intros n Hn. rewrite Hk2 by lia.
  change (idt_entries s2) with l1. rewrite Hk1 by lia.
  change (idt_entries s1) with (replicate 256 (IdtEntry 0 0 0 0 0)).
  destruct (Z.ltb_spec n 32).
  - rewrite bool_decide_eq_false_2, bool_decide_eq_true_2 by lia. simpl. rewrite decode_entry by done.
    by rewrite Z.sub_0_r.
  - destruct (Z.ltb_spec n 48).
    + rewrite bool_decide_eq_true_2 by lia. simpl. by rewrite decode_entry.
    + rewrite !bool_decide_eq_false_2 by lia. rewrite lookup_replicate_2 by lia. done.
Qed.

(** From any contents of the tables, [clear_idt] and
    [interrupts_init] leave the 32 exceptions and the 16 interrupts with gates to
    their own stubs, every other entry without a gate, no handler of exceptions,
    and the processor's register on all 256 entries. *)
Lemma interrupts_init_gates s idt_vaddr isr irq :
  (∀ n, is_u32 (isr n)) → (∀ n, is_u32 (irq n)) → usable (con s) →
  ∃ s', (clear_idt idt_vaddr ≫= λ _, interrupts_init isr irq) s = Ok (tt, s') ∧
    (∀ n, 0 <= n < 256 →
      decode_gate <$> idt_entries s' !! Z.to_nat n
      = Some (if n <? 32 then kernel_gate (isr n) else if n <? 48 then kernel_gate (irq (n - 32)) else no_gate)) ∧
    lidt s' = Some (8 * 256 - 1, idt_vaddr) ∧ exception_handlers s' = replicate 32 None ∧
    interrupt_handlers s' = interrupt_handlers s ∧ usable (con s').
Proof. apply interrupts_init_ok. Qed.

(** ** Interrupts of the devices *)

(** The machine after the controllers were told that the interrupt [n] is served. *)
Definition eoi (n : Z) s : cpu :=
  set_con (Tty (fb (con s)) (cursor_pos (con s))
    ((0x20, 0x20) :: (if 40 <=? n then [(0xA0, 0x20)] else []) ++ ports (con s))) s.

Lemma irq_handler_ok run regs s h :
  interrupt_handlers s !! Z.to_nat (interrupt_number regs) = Some h →
  irq_handler run regs s
  = match h with Some h => run h regs | None => mret tt end (eoi (interrupt_number regs) s).
Proof.
  intros Hh. unfold irq_handler, eoi. destruct (Z.leb_spec 40 (interrupt_number regs)).
  - rewrite (bind_ok _ _ s tt (set_con (Tty (fb (con s)) (cursor_pos (con s)) ((0xA0, 0x20) :: ports (con s))) s))
      by done. cbv beta. unfold mbind, M_bind, gets, of_option. simpl. rewrite Hh. by destruct h.
  - rewrite (bind_ok _ _ s tt s) by done. unfold mbind, M_bind, gets, of_option. simpl. rewrite Hh. by destruct h.
Qed.

Lemma register_irq_ok s n h :
  0 <= n < 256 → length (interrupt_handlers s) = 256%nat →
  register_irq_handler n h s
  = Ok (tt, set_interrupt_handlers (<[Z.to_nat n := Some h]> (interrupt_handlers s)) s).
Proof.
  intros Hn Hl. unfold register_irq_handler. rewrite u8_small by lia.
  destruct (lookup_lt_is_Some_2 (interrupt_handlers s) (Z.to_nat n) ltac:(lia)) as [x Hx].
  rewrite (bind_ok _ _ s (interrupt_handlers s) s) by done.
  by rewrite (bind_ok _ _ s x s) by (by rewrite Hx).
Qed.

Lemma pressed_bit k : is_u8 k → (Z.land k 0x80 =? 0) = negb (Z.testbit k 7).
Proof.
  intros Hk. apply eqb_prop. apply (forall_u8 (λ k, eqb (Z.land k 128 =? 0) (negb (Z.testbit k 7)))); [|done].
  vm_compute. reflexivity.
Qed.

Lemma keyboard_callback_ok s regs :
  is_u8 (kbd s) → keyboard_callback regs s = if Z.testbit (kbd s) 7 then Ok (tt, s) else Fault.
Proof.
  intros Hk. unfold keyboard_callback. rewrite (bind_ok _ _ s (kbd s) s) by done. rewrite pressed_bit by done.
  destruct (Z.testbit (kbd s) 7) eqn:Hb; [done|].
  assert (Hlt : kbd s < 128).
  { destruct (decide (kbd s < 128)); [done|]. exfalso.
    assert (H : forallb (λ k, (k <? 128) || Z.testbit k 7) (seqZ 0 256) = true) by (vm_compute; reflexivity).
    apply (forall_u8 _ H) in Hk. rewrite Hb, orb_false_r in Hk. lia. }
  destruct (lookup_lt_is_Some_2 keyboard_layout (Z.to_nat (kbd s))) as [c Hc].
  { change (length keyboard_layout) with 128%nat. lia. }
  unfold mbind, M_bind, of_option. by rewrite Hc.
Qed.

(** After [keyboard_init], an interrupt of the keyboard is acknowledged to the
    controller and nothing else when a key was released; when a key was pressed its
    character is read as the address of a string, an access the handler has no
    right to make. *)
Lemma keyboard_interrupt s regs :
  interrupt_number regs = IRQ1 → length (interrupt_handlers s) = 256%nat → is_u8 (kbd s) →
  ∃ s1, keyboard_init s = Ok (tt, s1) ∧
    irq_handler call regs s1 =
      if Z.testbit (kbd s) 7 then Ok (tt, set_con (Tty (fb (con s)) (cursor_pos (con s))
        ((0x20, 0x20) :: ports (con s))) s1)
      else Fault.
Proof.
  intros Hn Hl Hk. eexists. split; [apply register_irq_ok; [done|done]|].
  rewrite (irq_handler_ok call regs _ (Some keyboard_handler)).
  2: { rewrite Hn. simpl. apply list_lookup_insert_eq. unfold IRQ1. lia. }
  rewrite Hn. change (call keyboard_handler regs) with (keyboard_callback regs). rewrite keyboard_callback_ok by done.
  change (kbd _) with (kbd s). by destruct (Z.testbit (kbd s) 7).
Qed.

(** The two halves of a divisor that the timer is sent. *)
Lemma halves d : u8 (Z.land (i16 d) 0xFF) + 256 * u8 (Z.land (Z.shiftr (i16 d) 8) 0xFF) = u16 d.
Proof.
  rewrite !land_0xFF, Z.shiftr_div_pow2 by lia. change (2 ^ 8) with 256. unfold i16, u16, u8.
  Z.to_euclidean_division_equations; lia.
Qed.

(** Bytes for other devices leave the display alone. *)
Lemma shows_ports p c ws :
  shows p c → filter to_display ws = filter to_display (ports c) → shows p (Tty (fb c) (cursor_pos c) ws).
Proof. intros (Ho&Ha&Hs) Hw. split; [done|]. split; [done|]. unfold synced. simpl. by rewrite Hw. Qed.

(** The message of [timer_callback]. *)
Lemma tick_ok p s regs :
  shows p (con s) →
  ∃ s', timer_callback regs s = Ok (tt, s') ∧ tick s' = u32 (tick s + 1) ∧
    shows (put_all (bytes_of "Tick: 0x" ++ numeral 16 8 (u32 (tick s + 1)) ++ [NEWLINE]) p) (con s').
Proof.
  intros Hs. unfold timer_callback. set (n := u32 (tick s + 1)).
  rewrite (bind_ok _ _ s tt (set_tick n s)) by done.
  rewrite (bind_ok _ _ (set_tick n s) n (set_tick n s)) by done.
  destruct (printk_shown (set_tick n s) (line "Tick: %X") [AInt n] _ p
    ltac:(constructor; [apply u32_range|constructor]) eq_refl Hs) as (c&E&Hc).
  by exists (set_con c (set_tick n s)).
Qed.

(** C27: [timer_init] sends, low byte first, the low 16 bits of the
    divisor of the frequency asked for, all of it from 19 Hz on, whether or not it
    fits the [int16_t] that holds it; for the frequency 0 it divides by zero. From
    then on an interrupt of the timer is acknowledged, counted in 32 bits, and
    shows the count. *)
Theorem timer_interrupts s regs frequency p :
  interrupt_number regs = IRQ0 → length (interrupt_handlers s) = 256%nat →
  -32768 <= frequency < 32768 → shows p (con s) →
  (frequency = 0 → timer_init frequency s = Fault) ∧
  (frequency ≠ 0 →
   ∃ s1 l h, timer_init frequency s = Ok (tt, s1) ∧
     ports (con s1) = [(0x40, h); (0x40, l); (0x43, 0x36)] ++ ports (con s) ∧ is_u8 l ∧ is_u8 h ∧
     l + 256 * h = u16 (Z.quot 1193180 frequency) ∧
     (19 <= frequency → l + 256 * h = 1193180 / frequency) ∧
     ∃ s2, irq_handler call regs s1 = Ok (tt, s2) ∧ tick s2 = u32 (tick s + 1) ∧
       shows (put_all (bytes_of "Tick: 0x" ++ numeral 16 8 (u32 (tick s + 1)) ++ [NEWLINE]) p) (con s2)).
Proof.
  intros Hn Hl Hf Hs. unfold timer_init.
  rewrite (bind_ok _ _ _ _ _ (register_irq_ok s IRQ0 timer_handler ltac:(done) Hl)).
  set (s0 := set_interrupt_handlers _ s). destruct (Z.eqb_spec frequency 0) as [->|Hne]; [by split|].
  split; [done|]. intros _. set (d := i16 (Z.quot 1193180 frequency)).
  set (l := u8 (Z.land d 0xFF)). set (h := u8 (Z.land (Z.shiftr d 8) 0xFF)).
  set (ws := [(0x40, h); (0x40, l); (0x43, 0x36)] ++ ports (con s)).
  exists (set_con (Tty (fb (con s)) (cursor_pos (con s)) ws) s0), l, h.
  assert (Hlh : l + 256 * h = u16 (Z.quot 1193180 frequency)) by apply halves.
  split_and!; try apply u8_range; try done.
  - assert (El : u8 l = l) by apply u8_small, u8_range. assert (Eh : u8 h = h) by apply u8_small, u8_range.
    transitivity (Ok (tt, set_con (Tty (fb (con s)) (cursor_pos (con s))
      ([(0x40, u8 h); (0x40, u8 l); (0x43, 0x36)] ++ ports (con s))) s0)); [reflexivity|].
    by rewrite El, Eh.
  - intros Hp. rewrite Hlh, Z.quot_div_nonneg by lia. apply u16_small.
    split; [apply Z.div_pos; lia|apply Z.div_lt_upper_bound; lia].
  - set (s1 := set_con _ s0).
    rewrite (irq_handler_ok call regs s1 (Some timer_handler)).
    2: { rewrite Hn. apply list_lookup_insert_eq. unfold IRQ0. lia. }
    apply (tick_ok p (eoi (interrupt_number regs) s1) regs). apply (shows_ports p (con s)); [done|].
    by rewrite Hn.
Qed.

(** ** Witnesses *)

Definition demo_cpu : cpu :=
  Cpu [] (0, 0) [] (replicate 256 None) None full_console 30 0.

Definition demo_regs (n : Z) : registers := Registers 0 0 0 0 0 0 0 0 0 0 0 0 n 0 0 0 0 0 0.

Lemma interrupts_init_gates_witness :
  ∃ s', (clear_idt 0xC0108000 ≫= λ _, interrupts_init (λ n, u32 (0xC0101000 + 16 * n)) (λ n, u32 (0xC0102000 + 16 * n)))
      demo_cpu = Ok (tt, s') ∧
    decode_gate <$> idt_entries s' !! Z.to_nat 33 = Some (kernel_gate 0xC0102010).
Proof.
  destruct (interrupts_init_gates demo_cpu 0xC0108000 (λ n, u32 (0xC0101000 + 16 * n))
    (λ n, u32 (0xC0102000 + 16 * n))) as (s'&E&Hg&_).
  - intros n. apply u32_range.
  - intros n. apply u32_range.
  - split; [reflexivity|simpl; lia].
  - exists s'. split; [exact E|]. exact (Hg 33 ltac:(lia)).
Defined.

Lemma timer_interrupts_witness :
  ∃ s1 l h, timer_init 100 demo_cpu = Ok (tt, s1) ∧ l + 256 * h = 11931.
Proof.
  destruct (timer_interrupts demo_cpu (demo_regs 32) 100 (replicate 2000 SPACE, 1999)) as [_ H];
    [reflexivity|reflexivity|lia|apply full_console_shows|].
  destruct (H ltac:(lia)) as (s1&l&h&E&_&_&_&_&Hd&_). exists s1, l, h. split; [exact E|]. apply Hd. lia.
Defined.
