(* ===== verification/Stubs.v ===== *)
(** * Stubs: how an interrupt reaches the C code, and returns

    The code of interrupts_assembler.s: a stub for each vector, and the common
    part that saves the registers as a [struct registers], calls the handler in C
    and restores them. Around it, what the processor does when it takes an
    interrupt through a gate of the descriptor table. *)

From stdpp Require Import pretty.
From S2P Require Import Prelude Layout Mmu Gdt Machine StackView Tty Printk Interrupts InterruptsSpec.

(** ** The assembler *)

Definition isr (n : Z) : string := "isr" +:+ pretty n.
Definition irq (n : Z) : string := "irq" +:+ pretty n.

(** The exceptions whose stub leaves the error code to the processor. *)
Definition pushes_no_dummy (n : Z) : bool := (n =? 8) || ((10 <=? n) && (n <=? 14)).

Definition isr_stub (n : Z) : list instr :=
  [Cli] ++ (if pushes_no_dummy n then [] else [PushI 0]) ++ [PushI n; Jmp "isr_common_stub"].

Definition irq_stub (n : Z) : list instr :=
  [Cli; PushI 0; PushI (32 + n); Jmp "irq_common_stub"].

Definition save_state : list instr :=
  [Pusha; PushS DS; PushS ES; PushS FS; PushS GS;
   MovI16 0x10 EAX; MovS EAX DS; MovS EAX ES; MovS EAX FS; MovS EAX GS;
   PushR ESP].

Definition restore_state : list instr :=
  [AddI 4 ESP; PopS GS; PopS FS; PopS ES; PopS DS; Popa; AddI 4 ESP; AddI 4 ESP].

Definition common_stub (handler : string) : list instr :=
  save_state ++ [Call handler] ++ restore_state ++ [Iret].

Definition interrupts_assembler : program :=
  ((λ n, (isr n, isr_stub n)) <$> seqZ 0 32) ++ [("isr_common_stub", common_stub "interrupt_handler")]
  ++ ((λ n, (irq n, irq_stub n)) <$> seqZ 0 16) ++ [("irq_common_stub", common_stub "irq_handler")]
  ++ [("enable_interrupts", [Sti; Ret]); ("disable_interrupts", [Cli; Ret])].

(** ** The processor *)

(** The exceptions that come with an error code. *)
Definition has_error_code (n : Z) : bool := (n =? 8) || ((10 <=? n) && (n <=? 14)) || (n =? 17).

Section processor.
Context {X : Type} (sym : string → Z) (ext : string → M (machine X) unit).

(** Through an interrupt gate, without a change of privilege: the flags, the
    place of the interrupted code and the error code, if there is one, are pushed, and
    further interrupts are off. *)
Definition deliver (g : gate) (err : option Z) (eip : Z) : M (machine X) unit :=
  if g_present g && (g_type g =? 14) then
    f ← gets mflags;
    c ← gets (λ m, sel (sr m CS));
    push f ≫= λ _,
    push c ≫= λ _,
    push eip ≫= λ _,
    match err with Some e => push e | None => mret tt end ≫= λ _,
    load_code (g_selector g) ≫= λ _,
    modify (λ m, set_flags (Z.clearbit (mflags m) IF_BIT) m)
  else fault.

(** The vector [n] is taken while the code at [eip] runs. *)
Definition take_vector (fuel : nat) (idt : list idt_entry) (n : Z) (err : option Z) (eip : Z) : M (machine X) Z :=
  e ← of_option (idt !! Z.to_nat n);
  let g := decode_gate e in
  deliver g err eip ≫= λ _,
  l ← of_option (label_at interrupts_assembler sym (g_offset g));
  run interrupts_assembler sym ext fuel (from l interrupts_assembler).
End processor.

(** ** What the common part does to the stack *)

Definition kernel_data : segment := Segment 0x10 (flat 0 DATA_RW_TYPE).
Definition kernel_code : segment := Segment 0x08 (flat 0 CODE_RX_TYPE).

(** The descriptors [gdt_init] leaves, but for the last. *)
Definition kernel_table (t : list descriptor) : Prop :=
  t !! 1%nat = Some (flat 0 CODE_RX_TYPE) ∧ t !! 2%nat = Some (flat 0 DATA_RW_TYPE).

Lemma load_kernel_data t : kernel_table t → data_segment t 0 0x10 = Some kernel_data.
Proof. intros [_ H]. change 2%nat with (Z.to_nat (0x10 / 8)) in H. unfold data_segment. by rewrite H. Qed.

Lemma load_kernel_code t : kernel_table t → code_segment t 0 0x08 = Some kernel_code.
Proof. intros [H _]. change 1%nat with (Z.to_nat (0x08 / 8)) in H. unfold code_segment. by rewrite H. Qed.

(** The interrupted code can get its segments back. *)
Record reloadable (t : list descriptor) (s : seg → segment) : Prop := Reloadable {
  rl_code : sel (s CS) mod 4 = 0 ∧ code_segment t 0 (u16 (sel (s CS))) = Some (s CS);
  rl_data x : x ≠ CS → x ≠ SS → data_segment t 0 (u16 (sel (s x))) = Some (s x)
}.

Section common.
Context {X : Type} (top : Z) (heap : gmap Z Z) (t : list descriptor).
Context (Ht : kernel_table t).
Implicit Types (g : reg → Z) (s : seg → segment).

Definition all_data (x : segment) s : seg → segment := upd GS x (upd FS x (upd ES x (upd DS x s))).

(** The words [save_state] pushes, the last first. *)
Definition saved g s (esp : Z) : list Z :=
  [sel (s GS); sel (s FS); sel (s ES); sel (s DS);
   g EDI; g ESI; g EBP; esp; g EBX; g EDX; g ECX; g EAX].

Lemma load_segment_ok g s f n l (w : X) x v r :
  x ≠ CS → x ≠ SS → r ≠ ESP → sel (s CS) mod 4 = 0 → data_segment t 0 (u16 (g r)) = Some v →
  vexec top heap t (MovS r x) (View g s f n l w) = Some (View g (upd x v s) f n l w).
Proof.
  intros H1 H2 Hr Hc Hv. cbn [vexec]. unfold v_reg. rewrite decide_False by done. cbn [v_gr].
  destruct x; try done; cbn [vload v_sr]; by rewrite Hc, Hv.
Qed.

Lemma save_ok g s f n l (w : X) :
  sel (s CS) mod 4 = 0 →
  vrun top heap t save_state (View g s f (13 + n) l w)
  = Some (View (upd EAX (g EAX / 65536 * 65536 + 16) g) (all_data kernel_data s) f n
      ((top - 4 * Z.of_nat (12 + length l)) :: saved g s (top - 4 * Z.of_nat (length l)) ++ l) w).
Proof using Ht.
  intros Hc. set (x := g EAX / 65536 * 65536 + 16). set (g' := upd EAX x g).
  set (l' := saved g s (top - 4 * Z.of_nat (length l)) ++ l).
  change save_state with ([Pusha; PushS DS; PushS ES; PushS FS; PushS GS; MovI16 0x10 EAX]
    ++ [MovS EAX DS; MovS EAX ES; MovS EAX FS; MovS EAX GS; PushR ESP]).
  rewrite (vrun_app _ _ _ _ _ _ (View g' s f (1 + n) l' w)) by reflexivity.
  assert (Ed : data_segment t 0 (u16 (g' EAX)) = Some kernel_data).
  { unfold g', upd. cbn [decide decide_rel reg_eq_dec]. rewrite decide_True by done.
    replace (u16 x) with 0x10 by (unfold x; clia). by apply load_kernel_data. }
  do 4 (erewrite vrun_cons; [|by apply load_segment_ok; [done..|exact Hc|exact Ed]]).
  reflexivity.
Qed.

Lemma pop_segment_ok g s f n a l (w : X) x v :
  x ≠ CS → x ≠ SS → sel (s CS) mod 4 = 0 → data_segment t 0 (u16 a) = Some v →
  vexec top heap t (PopS x) (View g s f n (a :: l) w) = Some (View g (upd x v s) f (S n) l w).
Proof. intros H1 H2 Hc Hv. cbn [vexec vpop v_stack].
  destruct x; try done; cbn [mbind option_bind vload with_stack v_sr v_room]; by rewrite Hc, Hv. Qed.

(** A word is dropped from the stack; the flags change. *)
Lemma drop_ok g s f n a l (w : X) :
  ∃ f', vexec top heap t (AddI 4 ESP) (View g s f n (a :: l) w) = Some (View g s f' (S n) l w).
Proof. eexists. cbn [vexec negb Z.eqb Pos.eqb vpop v_stack mbind option_bind]. reflexivity. Qed.

(** The registers as [popa] finds them on the stack. *)
Definition popped g g0 : reg → Z :=
  upd EAX (g EAX) (upd ECX (g ECX) (upd EDX (g EDX) (upd EBX (g EBX) (upd EBP (g EBP) (upd ESI (g ESI) (upd EDI (g EDI) g0)))))).

Lemma popped_eq g g0 r : r ≠ ESP → popped g g0 r = g r.
Proof. intros Hr. by destruct r. Qed.

(** The other half, from the words the first half left. *)
Lemma restore_state_ok g0 g s0 s f n a l (w : X) e1 e2 e3 :
  sel (s0 CS) mod 4 = 0 → (∀ x, x ≠ CS → x ≠ SS → data_segment t 0 (u16 (sel (s x))) = Some (s x)) →
  ∃ s' f', vrun top heap t restore_state (View g0 s0 f n (a :: saved g s e1 ++ e2 :: e3 :: l) w)
    = Some (View (popped g g0) s' f' (15 + n) l w) ∧
    (∀ x, x ≠ CS → x ≠ SS → s' x = s x) ∧ s' CS = s0 CS ∧ s' SS = s0 SS.
Proof.
  intros Hc Hd. unfold restore_state.
  assert (Hd' : ∀ x, x ≠ CS ∧ x ≠ SS → data_segment t 0 (u16 (sel (s x))) = Some (s x)) by (intros x []; auto).
  destruct (drop_ok g0 s0 f n a (saved g s e1 ++ e2 :: e3 :: l) w) as (f1 & E1). rewrite (vrun_cons _ _ _ _ _ _ _ E1).
  cbn [saved app]. do 4 (erewrite vrun_cons; [|apply pop_segment_ok; [done|done|exact Hc|by apply Hd']]).
  set (s' := upd DS (s DS) _).
  rewrite (vrun_cons _ _ _ _ _ _ (View (popped g g0) s' f1 (13 + n) (e2 :: e3 :: l) w)) by reflexivity.
  destruct (drop_ok (popped g g0) s' f1 (13 + n) e2 (e3 :: l) w) as (f2 & E2). rewrite (vrun_cons _ _ _ _ _ _ _ E2).
  destruct (drop_ok (popped g g0) s' f2 (S (13 + n)) e3 l w) as (f3 & E3). rewrite (vrun_cons _ _ _ _ _ _ _ E3).
  exists s', f3. split; [done|]. split_and!; try done. by intros [].
Qed.
End common.

(** ** The handlers in C *)

(** The field of a [struct registers] in the words from its address on. *)
Definition reg_word (l : list Z) (x : string) : Z := nth (Z.to_nat (offsetof struct_registers [x] / 4)) l 0.

Definition registers_at (l : list Z) : registers :=
  Registers (reg_word l "gs") (reg_word l "fs") (reg_word l "es") (reg_word l "ds")
    (reg_word l "edi") (reg_word l "esi") (reg_word l "ebp") (reg_word l "esp")
    (reg_word l "ebx") (reg_word l "edx") (reg_word l "ecx") (reg_word l "eax")
    (reg_word l "interrupt_number") (reg_word l "error_code")
    (reg_word l "eip") (reg_word l "cs") (reg_word l "eflags") (reg_word l "useresp") (reg_word l "ss").

(** What a compiled function with the body [body] promises by the calling
    convention: called with the address of a [struct registers] on the stack, it
    returns with the stack as it was, but for its argument, and nothing else of
    the stack changed; the registers may hold anything. It takes [need] words of stack. *)
Definition compiled {X} (R : region) (f : M (machine X) unit) (need : nat) (body : registers → M X unit) : Prop :=
  ∀ m g s fl n l w ra,
    stands R m (View g s fl (need + n) (ra :: (rg_top R - 4 * Z.of_nat (length l)) :: l) w) →
    (19 <= length l)%nat → flat_data (desc (s DS)) →
    match body (registers_at l) w with
    | Ok (_, w') => ∃ m' g' fl' p, f m = Ok (tt, m') ∧ stands R m' (View g' s fl' (S (need + n)) (p :: l) w')
    | Fault => f m = Fault
    | OutOfFuel => f m = OutOfFuel
    end.

(** ** An interrupt *)

(** The vectors 0 to 31 are exceptions, 32 to 47 interrupts. *)
Definition stub_of (n : Z) : string := if n <? 32 then isr n else irq (n - 32).
Definition handler_of (n : Z) : string := if n <? 32 then "interrupt_handler" else "irq_handler".

(** The [struct registers] of an interrupted state. *)
Definition interrupted {X} (top : Z) (V : @view X) (n err eip : Z) : registers :=
  let g := v_gr V in let s := v_sr V in let l := v_stack V in
  Registers (sel (s GS)) (sel (s FS)) (sel (s ES)) (sel (s DS))
    (g EDI) (g ESI) (g EBP) (top - 4 * Z.of_nat (5 + length l)) (g EBX) (g EDX) (g ECX) (g EAX)
    n err eip (sel (s CS)) (v_flags V) (nth 0 l 0) (nth 1 l 0).

Lemma assembler_labels : NoDup interrupts_assembler.*1.
Proof. apply (bool_decide_unpack _). by vm_compute. Qed.

Lemma stub_found n : 0 <= n < 48 →
  ∃ i c, interrupts_assembler !! i = Some (stub_of n, c) ∧ c = if n <? 32 then isr_stub n else irq_stub (n - 32).
Proof.
  intros Hn. unfold stub_of. destruct (Z.ltb_spec n 32).
  - exists (Z.to_nat n). eexists. split; [|done]. unfold interrupts_assembler.
    rewrite lookup_app_l by (rewrite length_fmap, length_seqZ; lia).
    rewrite list_lookup_fmap, lookup_seqZ_lt by lia. simpl. by rewrite Z2Nat.id by lia.
  - exists (33 + Z.to_nat (n - 32))%nat. eexists. split; [|done]. unfold interrupts_assembler.
    rewrite lookup_app_r by (rewrite length_fmap, length_seqZ; lia).
    rewrite lookup_app_r by (rewrite length_fmap, length_seqZ; simpl; lia).
    rewrite lookup_app_l by (rewrite !length_fmap, !length_seqZ; simpl; lia).
    replace (33 + Z.to_nat (n - 32) - length ((λ n, (isr n, isr_stub n)) <$> seqZ 0 32) - length [("isr_common_stub", common_stub "interrupt_handler")])%nat
      with (Z.to_nat (n - 32)) by (rewrite length_fmap, length_seqZ; simpl; lia).
    rewrite list_lookup_fmap, lookup_seqZ_lt by lia. simpl. by rewrite Z2Nat.id by lia.
Qed.

Lemma common_found : ∀ b : bool, ∃ rest,
  from (if b then "isr_common_stub" else "irq_common_stub") interrupts_assembler
  = common_stub (if b then "interrupt_handler" else "irq_handler") ++ rest.
Proof.
  intros b. apply (from_label interrupts_assembler (if b then 32 else 49)%nat); [exact assembler_labels|].
  by destruct b.
Qed.

Section interrupt.
Context {X : Type} (R : region) (HR : region_ok R) (HT : kernel_table (rg_table R)).
Context (sym : string → Z) (ext : string → M (machine X) unit).
Implicit Types (m : machine X) (V : @view X) (w : X).

(** The processor's part: what is on the stack when the stub starts. *)
Lemma deliver_ok m g s f n l w (err : option Z) eip offset :
  stands R m (View g s f (length (option_list err) + (3 + n)) l w) → sel (s CS) mod 4 = 0 →
  ∃ m', deliver (kernel_gate offset) err eip m = Ok (tt, m') ∧
    stands R m' (View g (upd CS kernel_code s) (Z.clearbit f IF_BIT) n
      (option_list err ++ eip :: sel (s CS) :: f :: l) w).
Proof using HR HT.
  intros Hm Hc.
  assert (Hroom : ∃ k, (length (option_list err) + (3 + n) = S (S (S k)))%nat ∧ k = (length (option_list err) + n)%nat)
    by (exists (length (option_list err) + n)%nat; split; lia).
  destruct Hroom as (k & Ek & Ek'). rewrite Ek in Hm. clear Ek.
  pose proof (re_flags _ _ _ _ _ _ _ _ _ _ Hm) as Ef. pose proof (re_sr _ _ _ _ _ _ _ _ _ _ Hm CS) as Ec. cbn in Ef, Ec.
  unfold deliver. cbn [g_present g_type g_selector kernel_gate andb Z.eqb Pos.eqb].
  rewrite (bind_ok _ _ m f m) by (unfold gets; by rewrite Ef).
  rewrite (bind_ok _ _ m (sel (s CS)) m) by (unfold gets; by rewrite Ec).
  destruct (push_stands R HR _ _ _ _ _ _ _ f Hm) as (m1 & E1 & H1). rewrite (bind_ok _ _ _ _ _ E1).
  destruct (push_stands R HR _ _ _ _ _ _ _ (sel (s CS)) H1) as (m2 & E2 & H2). rewrite (bind_ok _ _ _ _ _ E2).
  destruct (push_stands R HR _ _ _ _ _ _ _ eip H2) as (m3 & E3 & H3). rewrite (bind_ok _ _ _ _ _ E3).
  assert (He : ∃ m4, (match err with Some e => push e | None => mret tt end) m3 = Ok (tt, m4) ∧
    stands R m4 (View g s f n (option_list err ++ eip :: sel (s CS) :: f :: l) w)).
  { subst k. destruct err as [e|]; [by apply (push_stands R HR)|by exists m3]. }
  destruct He as (m4 & E4 & H4). rewrite (bind_ok _ _ _ _ _ E4).
  pose proof (re_table _ _ _ _ _ _ _ _ _ _ H4) as Et. pose proof (re_sr _ _ _ _ _ _ _ _ _ _ H4 CS) as Es. cbn in Es.
  assert (E5 : load_code 8 m4 = Ok (tt, set_sr CS kernel_code m4)).
  { unfold load_code, mbind, M_bind, gets, of_option, cpl. rewrite Et, Es, Hc. by rewrite load_kernel_code. }
  rewrite (bind_ok _ _ _ _ _ E5). eexists. split; [reflexivity|].
  pose proof (re_flags _ _ _ _ _ _ _ _ _ _ H4) as Ef4. cbn in Ef4. cbn [mflags set_sr]. rewrite Ef4.
  apply (set_flags_sim _ _ _ _ _ _ _ _ (set_sr CS kernel_code m4) (View g (upd CS kernel_code s) f n _ w)).
  by apply (set_sr_sim _ _ _ _ _ _ _ _ m4 (View g s f n _ w)).
Qed.

Context (need : nat) (body : registers → M X unit).

(** The common part: the handler is called with the frame, and the interrupted
    code goes on as it was, or the handler does not return. *)
Lemma common_ok (b : bool) m g s f0 f n l w num err eip fuel :
  let regs := registers_at (saved g s (rg_top R - 4 * Z.of_nat (5 + length l)) ++ num :: err :: eip :: sel (s CS) :: f :: l) in
  compiled R (ext (if b then "interrupt_handler" else "irq_handler")) need body →
  reloadable (rg_table R) s → (2 <= length l)%nat → (23 <= fuel)%nat →
  stands R m (View g (upd CS kernel_code s) f0 (14 + (need + n)) (num :: err :: eip :: sel (s CS) :: f :: l) w) →
  let r := run interrupts_assembler sym ext fuel (from (if b then "isr_common_stub" else "irq_common_stub") interrupts_assembler) m in
  match body regs w with
  | Ok (_, w') => ∃ m', r = Ok (eip, m') ∧ stands R m' (View g s f (19 + (need + n)) l w')
  | Fault => r = Fault
  | OutOfFuel => r = OutOfFuel
  end.
Proof using HR HT.
  intros regs Hcall Hrel Hl Hfuel Hm r. destruct (common_found b) as (rest & Ec). unfold r. rewrite Ec. clear Ec r.
  set (frame := num :: err :: eip :: sel (s CS) :: f :: l) in *.
  set (s1 := upd CS kernel_code s) in *. set (e := rg_top R - 4 * Z.of_nat (5 + length l)) in *.
  assert (Hf : ∃ k, fuel = (11 + S (8 + S k))%nat) by (exists (fuel - 21)%nat; lia). destruct Hf as (k & ->).
  unfold common_stub. rewrite <- !app_assoc.
  destruct (code_stands R HR interrupts_assembler sym ext save_state m _ _ Hm (save_ok (rg_top R) (rg_heap R) _ HT g s1 f0
    (1 + (need + n)) frame w eq_refl)) as (m1 & H1 & R1).
  change (11 + S (8 + S k))%nat with (length save_state + S (8 + S k))%nat. rewrite R1. cbn [app].
  destruct (call_stands R HR interrupts_assembler sym ext (if b then "interrupt_handler" else "irq_handler") m1 _ _
    H1 eq_refl) as (m2 & H2 & R2). rewrite R2. clear R1 R2.
  change (saved g s1 (rg_top R - 4 * Z.of_nat (length frame))) with (saved g s e) in H2.
  set (words := saved g s e ++ frame) in *.
  assert (Hw : (19 <= length words)%nat) by (unfold words, frame; rewrite length_app; simpl; lia).
  specialize (Hcall m2 _ _ _ n words w _ H2 Hw). fold words in regs. fold regs in Hcall.
  assert (Hds : flat_data (desc (all_data kernel_data s1 DS))) by (by split).
  specialize (Hcall Hds). destruct (body regs w) as [[[] w']| |]; [|by unfold mbind, M_bind; rewrite Hcall..].
  destruct Hcall as (m3 & g' & fl' & p & E3 & H3). rewrite (bind_ok _ _ _ _ _ E3).
  destruct Hrel as [[Hcpl Hcs] Hd].
  destruct (restore_state_ok (rg_top R) (rg_heap R) (rg_table R) g' g (all_data kernel_data s1) s fl' (S (need + n)) p
    (eip :: sel (s CS) :: f :: l) w' e num err eq_refl Hd) as (s' & f' & E4 & Hs' & Hs'c & Hs's).
  destruct (code_stands R HR interrupts_assembler sym ext restore_state m3 _ _ H3 E4) as (m4 & H4 & R4).
  change (8 + S k)%nat with (length restore_state + S k)%nat. rewrite R4.
  destruct (iret_stands R HR interrupts_assembler sym ext m4 _ _ _ _ _ _ _ _ _ (s CS) k rest H4) as (m5 & R5 & H5).
  { by rewrite Hs'c. }
  exists m5. split; [exact R5|]. apply (stands_ext R m5 _ _ H5); try done; simpl.
  - intros r Hr. by apply popped_eq.
  - intros x. unfold upd. case_decide as Ex; [by rewrite Ex|]. destruct (decide (x = SS)) as [->|]; [|by apply Hs'].
    by rewrite Hs's.
Qed.

(** The processor and the stub of the vector: the frame but for the registers. *)
Lemma stub_ok m g s f l w num err eip fuel idt k :
  let pushed := (if num <? 32 then if pushes_no_dummy num then [] else [0] else [0]) ++ option_list err in
  0 <= num < 48 → NoDup ((λ x, sym x.1) <$> interrupts_assembler) →
  decode_gate <$> idt !! Z.to_nat num = Some (kernel_gate (sym (stub_of num))) → sel (s CS) mod 4 = 0 →
  stands R m (View g s f (4 + length pushed + k) l w) →
  ∃ m' f' fuel', (fuel <= fuel')%nat ∧
    stands R m' (View g (upd CS kernel_code s) f' k (num :: pushed ++ eip :: sel (s CS) :: f :: l) w) ∧
    take_vector sym ext (4 + fuel) idt num err eip m
    = run interrupts_assembler sym ext fuel' (from (if num <? 32 then "isr_common_stub" else "irq_common_stub") interrupts_assembler) m'.
Proof using HR HT.
  intros pushed Hn Hd Hg Hc Hm. destruct (stub_found num Hn) as (i & c & Hi & Ec).
  destruct (idt !! Z.to_nat num) as [en|] eqn:Een; [|done]. apply (inj Some) in Hg.
  set (dummy := if num <? 32 then if pushes_no_dummy num then [] else [0] else [0]) in *.
  assert (Hroom : (4 + length pushed + k = length (option_list err) + (3 + (1 + length dummy + k)))%nat)
    by (unfold pushed; rewrite length_app; lia). rewrite Hroom in Hm.
  destruct (deliver_ok m g s f _ l w err eip (sym (stub_of num)) Hm Hc) as (m1 & E1 & K1).
  destruct (from_label interrupts_assembler i _ _ assembler_labels Hi) as (rest & Efrom).
  unfold take_vector. rewrite Een. rewrite (bind_ok _ _ m en m) by done. cbv zeta. rewrite Hg, (bind_ok _ _ _ _ _ E1).
  rewrite (bind_ok _ _ m1 (stub_of num) m1).
  2: { cbn [g_offset kernel_gate]. unfold of_option. by rewrite (label_at_address interrupts_assembler sym i _ c Hd Hi). }
  rewrite Efrom, Ec. set (s1 := upd CS kernel_code s) in *. set (f1 := Z.clearbit f IF_BIT) in *.
  set (prefix := [Cli] ++ (PushI <$> dummy) ++ [PushI num]).
  set (common := if num <? 32 then "isr_common_stub" else "irq_common_stub").
  assert (Eprefix : (if num <? 32 then isr_stub num else irq_stub (num - 32)) = prefix ++ [Jmp common]).
  { unfold prefix, common, dummy, isr_stub, irq_stub. destruct (num <? 32); [by destruct (pushes_no_dummy num)|].
    simpl. do 4 f_equal. lia. }
  rewrite Eprefix, <- app_assoc.
  assert (Hv : vrun (rg_top R) (rg_heap R) (rg_table R) prefix
    (View g s1 f1 (1 + length dummy + k) (option_list err ++ eip :: sel (s CS) :: f :: l) w)
    = Some (View g s1 (Z.clearbit f1 IF_BIT) k (num :: pushed ++ eip :: sel (s CS) :: f :: l) w)).
  { unfold prefix, pushed. rewrite <- app_assoc. cbn [app].
    erewrite vrun_cons; [|cbn; reflexivity].
    assert (Hdm : dummy = [] ∨ dummy = [0]) by (unfold dummy; destruct (num <? 32), (pushes_no_dummy num); auto).
    destruct Hdm as [-> | ->]; cbn [app fmap list_fmap length]; unfold with_flags; cbn [v_gr v_sr v_room v_stack v_world v_flags].
    - erewrite vrun_cons; [|cbn [vexec]; rewrite u32_small by lia; reflexivity]. reflexivity.
    - erewrite vrun_cons; [|reflexivity]. erewrite vrun_cons; [|cbn [vexec]; rewrite u32_small by lia; reflexivity]. reflexivity. }
  destruct (code_stands R HR interrupts_assembler sym ext prefix m1 _ _ K1 Hv) as (m2 & K2 & R2).
  exists m2. eexists. exists (fuel + (1 - length dummy))%nat. split; [lia|]. split; [exact K2|].
  assert (Hlen : (4 + fuel = length prefix + S (fuel + (1 - length dummy)))%nat).
  { unfold prefix. rewrite !length_app, length_fmap. unfold dummy. destruct (num <? 32), (pushes_no_dummy num); simpl; lia. }
  by rewrite Hlen, R2.
Qed.

(** An interrupt, from the processor's part to the way back. *)
Lemma interrupt_ok m g s f l w num e eip fuel idt k :
  let err := if has_error_code num then Some e else None in
  let V := View g s f (19 + (need + k)) l w in
  0 <= num < 48 → num ≠ 17 → NoDup ((λ x, sym x.1) <$> interrupts_assembler) →
  decode_gate <$> idt !! Z.to_nat num = Some (kernel_gate (sym (stub_of num))) →
  compiled R (ext (handler_of num)) need body →
  reloadable (rg_table R) s → (2 <= length l)%nat → (27 <= fuel)%nat → stands R m V →
  match body (interrupted (rg_top R) V num (default 0 err) eip) w with
  | Ok (_, w') => ∃ m', take_vector sym ext fuel idt num err eip m = Ok (eip, m') ∧
      stands R m' (View g s f (19 + (need + k)) l w')
  | Fault => take_vector sym ext fuel idt num err eip m = Fault
  | OutOfFuel => take_vector sym ext fuel idt num err eip m = OutOfFuel
  end.
Proof using HR HT.
  intros err V Hn H17 Hd Hg Hcall Hrel Hl Hfuel Hm.
  set (pushed := (if num <? 32 then if pushes_no_dummy num then [] else [0] else [0]) ++ option_list err).
  assert (Hp : pushed = [default 0 err]).
  { assert (Ee : has_error_code num = pushes_no_dummy num) by (unfold has_error_code, pushes_no_dummy; lia).
    unfold pushed, err. rewrite Ee. destruct (pushes_no_dummy num) eqn:Ep; [|by destruct (num <? 32)].
    destruct (Z.ltb_spec num 32); [done|]. unfold pushes_no_dummy in Ep. exfalso. lia. }
  destruct (stub_ok m g s f l w num err eip (fuel - 4) idt (14 + (need + k))) as (m' & f' & fuel' & Hf' & K & E); try done.
  { apply Hrel. } { fold pushed. rewrite Hp. exact Hm. }
  fold pushed in K. rewrite Hp in K. replace (4 + (fuel - 4))%nat with fuel in E by lia. rewrite E.
  pose proof (common_ok (num <? 32) m' g s f' f k l w num (default 0 err) eip fuel') as Hcommon. cbv zeta in Hcommon.
  change (registers_at _) with (interrupted (rg_top R) V num (default 0 err) eip) in Hcommon.
  apply Hcommon; [|done|done|lia|exact K]. unfold handler_of in Hcall. by destruct (num <? 32).
Qed.
End interrupt.

(** C25: An interrupt or an exception is invisible to the code it interrupts. In
    any state of the kernel's own privilege, with the table of descriptors of
    [gdt_init] and gates to the stubs, the handler in C is given the interrupted
    registers, flags and place as a [struct registers] laid out as declared, with the
    number of the vector and the error code, if the processor has one; and when
    it returns, every register, segment and flag is what it was, the stack and
    all memory the C code does not own are unchanged, and the interrupted code goes on
    where it was. This holds of every compiled handler, whatever it does to the
    registers, with room for it on the stack. Not of exception 17, whose stub
    pushes a dummy where the processor pushes an error code. *)
Theorem interrupt_transparent {X} (R : region) sym (ext : string → M (machine X) unit) need body
    m g s f l (w : X) num e eip fuel idt k :
  region_ok R → kernel_table (rg_table R) →
  let err := if has_error_code num then Some e else None in
  let V := View g s f (19 + (need + k)) l w in
  0 <= num < 48 → num ≠ 17 → NoDup ((λ x, sym x.1) <$> interrupts_assembler) →
  decode_gate <$> idt !! Z.to_nat num = Some (kernel_gate (sym (stub_of num))) →
  compiled R (ext (handler_of num)) need body →
  reloadable (rg_table R) s → (2 <= length l)%nat → (27 <= fuel)%nat → stands R m V →
  match body (interrupted (rg_top R) V num (default 0 err) eip) w with
  | Ok (_, w') => ∃ m', take_vector sym ext fuel idt num err eip m = Ok (eip, m') ∧
      stands R m' (View g s f (19 + (need + k)) l w')
  | Fault => take_vector sym ext fuel idt num err eip m = Fault
  | OutOfFuel => take_vector sym ext fuel idt num err eip m = OutOfFuel
  end.
Proof. intros HR HT err V. by apply interrupt_ok. Qed.

(** For the alignment check, exception 17, the frame is one word off, and the error code stands where the handler reads [eip]. *)
Lemma alignment_check_frame {X} (R : region) sym (ext : string → M (machine X) unit) m g s f l (w : X) e eip fuel idt k :
  region_ok R → kernel_table (rg_table R) → NoDup ((λ x, sym x.1) <$> interrupts_assembler) →
  decode_gate <$> idt !! 17%nat = Some (kernel_gate (sym "isr17")) → sel (s CS) mod 4 = 0 →
  stands R m (View g s f (6 + k) l w) →
  ∃ m' f' fuel', stands R m' (View g (upd CS kernel_code s) f' k (17 :: 0 :: e :: eip :: sel (s CS) :: f :: l) w) ∧
    take_vector sym ext (4 + fuel) idt 17 (Some e) eip m
    = run interrupts_assembler sym ext fuel' (from "isr_common_stub" interrupts_assembler) m' ∧
    ∀ a, Interrupts.eip (registers_at (saved g (upd CS kernel_code s) a ++ 17 :: 0 :: e :: eip :: sel (s CS) :: f :: l)) = e.
Proof.
  intros HR HT Hd Hg Hc Hm.
  destruct (stub_ok R HR HT sym ext m g s f l w 17 (Some e) eip fuel idt k) as (m' & f' & fuel' & _ & K & E); try done.
  by exists m', f', fuel'.
Qed.

(** ** A compiled handler, and an interrupt *)

Section c_function.
Context {X : Type} (body : registers → M X unit).

Fixpoint read_words (s : seg) (a : Z) (n : nat) : M (machine X) (list Z) :=
  match n with
  | O => mret []
  | S n => x ← read s a; l ← read_words s (a + 4) n; mret (x :: l)
  end.

(** A function that reads its argument and does what its body says. *)
Definition c_function : M (machine X) unit :=
  e ← gets (λ m, gr m ESP);
  p ← read SS (e + 4);
  l ← read_words DS p 19;
  zoom world set_world (body (registers_at l)) ≫= λ _,
  pop ≫= λ _, mret tt.

Lemma read_words_ok (R : region) (HR : region_ok R) (m : machine X) V n : ∀ i,
  stands R m V → flat_data (desc (v_sr V DS)) → (i + n <= length (v_stack V))%nat →
  read_words DS (slot (rg_top R) (length (v_stack V)) i) n m = Ok (take n (drop i (v_stack V)), m).
Proof.
  induction n as [|n IH]; intros i Hm Hds Hi; [done|]. pose proof Hm as [].
  destruct (lookup_lt_is_Some_2 (v_stack V) i ltac:(lia)) as [x Hx]. simpl.
  assert (Hown : rg_own R (slot (rg_top R) (length (v_stack V)) i))
    by (apply (slot_own _ _ (rg_size R) (rg_heap R)); [apply HR|lia|lia]).
  rewrite (bind_ok _ _ _ _ _ (read_owned _ _ m DS _ re_owned Hown
    ltac:(rewrite re_sr; by apply flat_data_read))), (re_stack i x Hx).
  replace (slot (rg_top R) (length (v_stack V)) i + 4) with (slot (rg_top R) (length (v_stack V)) (S i))
    by (unfold slot; lia).
  rewrite (bind_ok _ _ _ _ _ (IH (S i) Hm Hds ltac:(lia))). by rewrite (drop_S _ x _ Hx).
Qed.

Lemma registers_at_take l : registers_at (take 19 l) = registers_at l.
Proof.
  assert (H : ∀ x, (Z.to_nat (offsetof struct_registers [x] / 4) < 19)%nat → reg_word (take 19 l) x = reg_word l x).
  { intros x Hx. unfold reg_word. rewrite !nth_lookup, lookup_take. by rewrite decide_True. }
  unfold registers_at. rewrite !H by (vm_compute; lia). done.
Qed.

Lemma c_function_compiled (R : region) : region_ok R → compiled R c_function 0 body.
Proof.
  intros HR m g s fl n l w ra Hm Hl Hds. set (p := rg_top R - 4 * Z.of_nat (length l)) in *.
  pose proof Hm as []. cbn [v_stack v_gr v_sr v_world length] in *. unfold c_function.
  rewrite (bind_ok _ _ m (gr m ESP) m) by done.
  assert (Ep : read SS (gr m ESP + 4) m = Ok (p, m)).
  { rewrite re_esp. replace (_ + 4) with (slot (rg_top R) (S (S (length l))) 1) by (unfold slot; lia).
    rewrite (read_owned _ _ m SS _ re_owned).
    - by rewrite (re_stack 1%nat p eq_refl).
    - apply (slot_own _ _ (rg_size R) (rg_heap R)); [apply HR|lia|lia].
    - rewrite re_sr. by apply flat_data_read. }
  rewrite (bind_ok _ _ _ _ _ Ep).
  assert (Ew : read_words DS p 19 m = Ok (take 19 l, m)).
  { pose proof (read_words_ok R HR m _ 19 2 Hm Hds ltac:(simpl; lia)) as E. cbn [v_stack length] in E.
    change (drop 2 (ra :: p :: l)) with l in E.
    by replace p with (slot (rg_top R) (S (S (length l))) 2) by (unfold slot, p; lia). }
  rewrite (bind_ok _ _ _ _ _ Ew), registers_at_take.
  assert (Ez : zoom world set_world (body (registers_at l)) m = match body (registers_at l) w with
    | Ok (a, w') => Ok (a, set_world w' m) | Fault => Fault | OutOfFuel => OutOfFuel end)
    by (unfold zoom; by rewrite re_world).
  destruct (body (registers_at l) w) as [[[] w']| |]; [|by unfold mbind, M_bind; rewrite Ez..].
  rewrite (bind_ok _ _ _ _ _ Ez).
  assert (Hm' : stands R (set_world w' m) (View g s fl (0 + n) (ra :: p :: l) w')).
  { split; try done. by apply (owned_same _ _ m). }
  destruct (pop_stands R HR _ _ _ _ _ _ _ _ Hm') as (m' & E & H'). exists m', g, fl, p. split; [|exact H'].
  by rewrite (bind_ok _ _ _ _ _ E).
Qed.
End c_function.

(** ** A machine

    One page of 4 MB mapped on itself, a stack of 64 words in it, and the labels
    16 bytes apart. *)

Definition demo_own (a : Z) : Prop := 0x200F00 <= a < 0x201000 ∧ a mod 4 = 0.

Definition demo_table (tss_vaddr : Z) : list descriptor :=
  match gdt_init 0xC0106000 tss_vaddr gdt_start with Ok (_, s) => decode <$> gdt_entries s | _ => [] end.

Definition demo_control (c : creg) : Z :=
  match c with CR0 => 0x80000001 | CR3 => 0x101008 | CR4 => 0x10 end.

Definition demo_region : region :=
  Region demo_own id 0x201000 64 ∅ demo_control (demo_table 0xC0107040) {[0x101000 := 0x8B]}.

Definition demo_segments (s : seg) : segment := match s with CS => kernel_code | _ => kernel_data end.

Definition demo_registers (r : reg) : Z :=
  match r with EAX => 1 | ECX => 2 | EDX => 3 | EBX => 4 | ESP => 0x200FF8 | EBP => 0x200FFC | ESI => 6 | EDI => 7 end.

Definition demo_machine {X} (w : X) : machine X :=
  Machine X demo_registers demo_segments 0x202 demo_control {[0x101000 := 0x8B]} (demo_table 0xC0107040) w.

Definition demo_sym (l : string) : Z :=
  0xC0101000 + 16 * Z.of_nat (default 0%nat (fst <$> list_find (l =.) interrupts_assembler.*1)).

Definition demo_idt : list idt_entry :=
  (λ n, if n <? 48 then entry_for (demo_sym (stub_of n)) else IdtEntry 0 0 0 0 0) <$> seqZ 0 256.

Lemma demo_region_ok : region_ok demo_region.
Proof.
  split; [done|]. split; [simpl; lia| |done]. intros i Hi. change (Z.of_nat (rg_size demo_region)) with 64 in Hi.
  change (rg_top demo_region) with 0x201000. split; [lia|]. Z.to_euclidean_division_equations; lia.
Qed.

Lemma demo_stands {X} (w : X) : stands demo_region (demo_machine w) (View demo_registers demo_segments 0x202 62 [0; 0] w).
Proof.
  assert (Hp : ∀ a, demo_own a → pde_of {[0x101000 := 0x8B]} 0x101000 a = 0x8B ∧ a / 4194304 = 0).
  { intros a [Ha _]. assert (E : a / 4194304 = 0) by (apply Z.div_small; lia). split; [|done]. unfold pde_of. by rewrite E. }
  split; try done.
  - split.
    + intros a Ha. pose proof Ha as [Hr H4]. split; [lia|]. split; [done|].
      change (walk {[0x101000 := 0x8B]} 0x101000 a = Some a). unfold walk. rewrite (proj1 (Hp a Ha)).
      change (Some (0 + a mod 4194304) = Some a). by rewrite Z.mod_small by lia.
    + intros a b Ha Hb. change (a ∉ [0x101000 + 4 * (b / 4194304); pte_addr (pde_of {[0x101000 := 0x8B]} 0x101000 b) b]).
      destruct (Hp b Hb) as [-> ->]. destruct Ha as [Ha _]. destruct Hb as [Hb _]. unfold pte_addr.
      change (hw_base 139) with 0. rewrite !not_elem_of_cons. split_and!; [lia| |apply not_elem_of_nil].
      Z.to_euclidean_division_equations; lia.
  - intros [|[|i]] w' Hi; simpl in Hi; first [injection Hi as <-; reflexivity|by destruct i].
Qed.

(** A handler that counts, at the vector of the keyboard. *)
Lemma interrupt_transparent_witness :
  let count (r : registers) : M Z unit := modify (λ n, n + interrupt_number r) in
  ∃ m, take_vector demo_sym (λ _, c_function count) 27 demo_idt 33 None 0xC0100abc (demo_machine 9) = Ok (0xC0100abc, m) ∧
    stands demo_region m (View demo_registers demo_segments 0x202 62 [0; 0] 42).
Proof.
  intros count.
  apply (interrupt_transparent demo_region demo_sym (λ _, c_function count) 0 count (demo_machine 9) demo_registers
    demo_segments 0x202 [0; 0] 9 33 0 0xC0100abc 27 demo_idt 43).
  - apply demo_region_ok.
  - by split.
  - lia.
  - lia.
  - apply (bool_decide_unpack _). by vm_compute.
  - by vm_compute.
  - apply c_function_compiled, demo_region_ok.
  - split; [by vm_compute|]. intros [] H1 H2; by vm_compute.
  - simpl. lia.
  - lia.
  - apply demo_stands.
Defined.
