(* ===== verification/InterruptRun.v ===== *)
(** * InterruptRun: any sequence of interrupts while the kernel runs

    The processor, the stubs and the handlers in C together: what the interrupts
    of the devices do to the code they interrupt and to the machine, from
    [keyboard_init] until interrupts are off. *)

From S2P Require Import Prelude Layout Mmu Gdt Machine StackView Tty Printk Interrupts Devices InterruptsSpec Stubs.

(** ** The interrupts of the devices *)

Definition set_kbd (k : Z) (s : cpu) : cpu :=
  Cpu (idt_entries s) (idt_ptr s) (exception_handlers s) (interrupt_handlers s) (lidt s) (con s) k (tick s).

(** A device raises its line; [scan] is what the keyboard's port holds by then. *)
Record event := Event { line : Z; scan : Z }.

Definition event_ok (e : event) : Prop := 0 <= line e < 16 ∧ is_u8 (scan e).

(** A key goes down. *)
Definition press (e : event) : bool := (line e =? 1) && negb (Z.testbit (scan e) 7).

Section serve.
Context (sym : string → Z) (ext : string → M (machine cpu) unit) (fuel : nat).

(** It is taken when interrupts are on, and the code at [eip] goes on after it. *)
Definition serve (eip : Z) (e : event) : M (machine cpu) unit :=
  modify (λ m, set_world (set_kbd (scan e) (world m)) m) ≫= λ _,
  f ← gets mflags;
  if Z.testbit f IF_BIT then
    idt ← gets (λ m, idt_entries (world m));
    a ← take_vector sym ext fuel idt (32 + line e) None eip;
    if a =? eip then mret tt else fault
  else mret tt.

(** ** What they do *)

(** The machine after an interrupt that no handler cares about. *)
Definition served (s : cpu) (e : event) : cpu := eoi (32 + line e) (set_kbd (scan e) s).

(** The bytes the controllers get for it, the last first. *)
Definition acknowledgement (e : event) : list (Z * Z) :=
  (0x20, 0x20) :: (if 8 <=? line e then [(0xA0, 0x20)] else []).

Lemma served_all es s :
  let s' := foldl served s es in
  fb (con s') = fb (con s) ∧ cursor_pos (con s') = cursor_pos (con s) ∧
  ports (con s') = concat (acknowledgement <$> reverse es) ++ ports (con s) ∧
  interrupt_handlers s' = interrupt_handlers s ∧ idt_entries s' = idt_entries s ∧
  exception_handlers s' = exception_handlers s ∧ lidt s' = lidt s ∧ idt_ptr s' = idt_ptr s ∧ tick s' = tick s.
Proof.
  revert s. induction es as [|e es IH]; intros s; [done|]. simpl. destruct (IH (served s e)) as (H1&H2&H3&H4).
  rewrite H1, H2, H3. split; [done|]. split; [done|]. split; [|exact H4].
  rewrite reverse_cons, fmap_app, concat_app, <- app_assoc. f_equal. cbn [fmap list_fmap concat].
  rewrite app_nil_r. unfold acknowledgement, served, eoi. cbn [con set_con set_kbd ports].
  by replace (40 <=? 32 + line e) with (8 <=? line e) by lia.
Qed.

Definition keyboard_only (s : cpu) : Prop :=
  interrupt_handlers s = <[Z.to_nat IRQ1 := Some keyboard_handler]> (replicate 256 None).

(** The handler in C on an event. *)
Lemma irq_event s regs e :
  keyboard_only s → event_ok e → interrupt_number regs = 32 + line e →
  irq_handler call regs (set_kbd (scan e) s) = if press e then Fault else Ok (tt, served s e).
Proof.
  intros Hk [Hl Hs] Hn. unfold press, served.
  assert (Hh : interrupt_handlers s !! Z.to_nat (32 + line e) = Some (if line e =? 1 then Some keyboard_handler else None)).
  { rewrite Hk. destruct (Z.eqb_spec (line e) 1) as [->|Hne]; [reflexivity|].
    rewrite list_lookup_insert_ne by (unfold IRQ1; lia). apply lookup_replicate_2. lia. }
  rewrite (irq_handler_ok call regs (set_kbd (scan e) s) (if line e =? 1 then Some keyboard_handler else None))
    by (by rewrite Hn).
  rewrite Hn. destruct (line e =? 1); [|done].
  change (call keyboard_handler regs) with (keyboard_callback regs).
  rewrite keyboard_callback_ok by done. cbn [kbd eoi set_con set_kbd andb]. by destruct (Z.testbit (scan e) 7).
Qed.

(** The gates of the interrupts lead to their stubs, as [interrupts_init] sets them. *)
Definition irq_gates (idt : list idt_entry) : Prop :=
  ∀ n, 32 <= n < 48 → decode_gate <$> idt !! Z.to_nat n = Some (kernel_gate (sym (irq (n - 32)))).

Section run.
Context (R : region) (HR : region_ok R) (HT : kernel_table (rg_table R)) (need : nat).
Context (Hsym : NoDup ((λ x, sym x.1) <$> interrupts_assembler)) (Hfuel : (27 <= fuel)%nat).
Context (Hcall : compiled R (ext "irq_handler") need (irq_handler call)).
Implicit Types (g : reg → Z) (x : seg → segment) (w : cpu).

Lemma set_world_stands m g x f n l w w' :
  stands R m (View g x f n l w) → stands R (set_world w' m) (View g x f n l w').
Proof. intros []. split; try done. by apply (owned_same _ _ m). Qed.

Lemma serve_ok m g x f k l w e eip :
  reloadable (rg_table R) x → (2 <= length l)%nat → Z.testbit f IF_BIT = true →
  keyboard_only w → irq_gates (idt_entries w) → event_ok e →
  stands R m (View g x f (19 + (need + k)) l w) →
  if press e then serve eip e m = Fault
  else ∃ m', serve eip e m = Ok (tt, m') ∧ stands R m' (View g x f (19 + (need + k)) l (served w e)).
Proof using HR HT Hsym Hfuel Hcall.
  intros Hrel Hl Hf Hk Hg He Hm. pose proof He as [Hline _].
  assert (Ew : world m = w) by apply (re_world _ _ _ _ _ _ _ _ _ _ Hm). subst w.
  pose proof (set_world_stands _ _ _ _ _ _ _ (set_kbd (scan e) (world m)) Hm) as H1.
  unfold serve. rewrite (bind_ok _ _ m tt (set_world (set_kbd (scan e) (world m)) m)) by done.
  set (m1 := set_world _ m) in *.
  assert (Ef : mflags m1 = f) by apply (re_flags _ _ _ _ _ _ _ _ _ _ H1).
  rewrite (bind_ok _ _ m1 f m1) by (unfold gets; by rewrite Ef). rewrite Hf.
  rewrite (bind_ok _ _ m1 (idt_entries (world m)) m1) by done.
  assert (Hn : (32 + line e <? 32) = false) by lia.
  assert (Hb : has_error_code (32 + line e) = false) by (unfold has_error_code; lia).
  pose proof (interrupt_ok R HR HT sym ext need (irq_handler call) m1 g x f l (set_kbd (scan e) (world m)) (32 + line e) 0 eip
    fuel (idt_entries (world m)) k) as H. cbv zeta in H. rewrite Hb in H.
  rewrite (irq_event (world m) _ e Hk He) in H by done.
  destruct (press e).
  - unfold mbind, M_bind. rewrite H; try done; try lia.
    + unfold stub_of. rewrite Hn. apply Hg. lia.
    + unfold handler_of. by rewrite Hn.
  - destruct H as (m' & E & H'); try done; try lia.
    + unfold stub_of. rewrite Hn. apply Hg. lia.
    + unfold handler_of. by rewrite Hn.
    + exists m'. split; [|exact H']. by rewrite (bind_ok _ _ _ _ _ E), Z.eqb_refl.
Qed.

Lemma serve_all_ok es : ∀ m g x f k l w eip,
  reloadable (rg_table R) x → (2 <= length l)%nat → Z.testbit f IF_BIT = true →
  keyboard_only w → irq_gates (idt_entries w) → Forall event_ok es →
  stands R m (View g x f (19 + (need + k)) l w) →
  if existsb press es then for_each es (serve eip) m = Fault
  else ∃ m', for_each es (serve eip) m = Ok (tt, m') ∧
    stands R m' (View g x f (19 + (need + k)) l (foldl served w es)).
Proof using HR HT Hsym Hfuel Hcall.
  induction es as [|e es IH]; intros m g x f k l w eip Hrel Hl Hf Hk Hg Hes Hm; [by exists m|].
  apply Forall_cons in Hes as [He Hes]. pose proof (serve_ok m g x f k l w e eip Hrel Hl Hf Hk Hg He Hm) as H1.
  cbn [existsb for_each foldl]. destruct (press e); cbn [orb].
  - unfold mbind, M_bind. by rewrite H1.
  - destruct H1 as (m1 & E1 & H1). rewrite (bind_ok _ _ _ _ _ E1). by apply IH.
Qed.
End run.
End serve.

(** C26: From [keyboard_init] on, while interrupts are on, any sequence of
    interrupts of the devices leaves the code they interrupt, its registers, flags, stack
    and segments, the screen and the tables as they are, whatever the lines and the
    codes of the keys released: all that happens is that the controllers get their
    acknowledgements, in order, the second one too for the lines from 8 on. The first key
    that is pressed ends it: its handler reads the character as an address, an
    access it has no right to make. *)
Theorem interrupts_served R sym ext need fuel m g x f k l w w1 es eip :
  region_ok R → kernel_table (rg_table R) → NoDup ((λ x, sym x.1) <$> interrupts_assembler) → (27 <= fuel)%nat →
  compiled R (ext "irq_handler") need (irq_handler call) →
  reloadable (rg_table R) x → (2 <= length l)%nat → Z.testbit f IF_BIT = true →
  interrupt_handlers w = replicate 256 None → keyboard_init w = Ok (tt, w1) → irq_gates sym (idt_entries w1) →
  Forall event_ok es → stands R m (View g x f (19 + (need + k)) l w1) →
  if existsb press es then for_each es (serve sym ext fuel eip) m = Fault
  else ∃ m' w2, for_each es (serve sym ext fuel eip) m = Ok (tt, m') ∧
    stands R m' (View g x f (19 + (need + k)) l w2) ∧
    fb (con w2) = fb (con w1) ∧ cursor_pos (con w2) = cursor_pos (con w1) ∧
    ports (con w2) = concat (acknowledgement <$> reverse es) ++ ports (con w1) ∧
    idt_entries w2 = idt_entries w1 ∧ interrupt_handlers w2 = interrupt_handlers w1 ∧ tick w2 = tick w1.
Proof.
  intros HR HT Hsym Hfuel Hcall Hrel Hl Hf Hnone Hinit Hg Hes Hm.
  assert (Hk : keyboard_only w1).
  { unfold keyboard_init in Hinit. rewrite register_irq_ok in Hinit by (done || by rewrite Hnone).
    injection Hinit as <-. unfold keyboard_only. by rewrite <- Hnone. }
  pose proof (serve_all_ok sym ext fuel R HR HT need Hsym Hfuel Hcall es m g x f k l w1 eip Hrel Hl Hf Hk Hg Hes Hm) as H.
  destruct (existsb press es); [exact H|]. destruct H as (m' & E & H'). exists m', (foldl served w1 es).
  destruct (served_all es w1) as (H1 & H2 & H3 & H4 & H5 & _ & _ & _ & H6). by split_and!.
Qed.

(** Two interrupts without a handler and a key that is released; then a key that is pressed. *)
Lemma interrupts_served_witness :
  let w := set_idt demo_idt demo_cpu in
  let w1 := set_interrupt_handlers (<[33%nat := Some keyboard_handler]> (replicate 256 None)) w in
  let run := λ es, for_each es (serve demo_sym (λ _, c_function (irq_handler call)) 27 0xC0100abc) (demo_machine w1) in
  (∃ m' w2, run [Event 0 0; Event 1 0x9E; Event 14 0] = Ok (tt, m') ∧
    stands demo_region m' (View demo_registers demo_segments 0x202 62 [0; 0] w2) ∧
    ports (con w2) = [(0x20, 0x20); (0xA0, 0x20); (0x20, 0x20); (0x20, 0x20)] ++ ports (con w1)) ∧
  run [Event 0 0; Event 1 0x1E] = Fault.
Proof.
  intros w w1 run. pose (T := λ es, interrupts_served demo_region demo_sym (λ _, c_function (irq_handler call)) 0 27
    (demo_machine w1) demo_registers demo_segments 0x202 43 [0; 0] w w1 es 0xC0100abc).
  assert (Hr : reloadable (rg_table demo_region) demo_segments)
    by (split; [by vm_compute|intros [] H1 H2; by vm_compute]).
  assert (Hs : NoDup ((λ x, demo_sym x.1) <$> interrupts_assembler)) by (apply (bool_decide_unpack _); by vm_compute).
  assert (Hg : irq_gates demo_sym (idt_entries w1)).
  { intros n Hn. assert (∃ i : nat, n = 32 + Z.of_nat i ∧ (i < 16)%nat) as (i & -> & Hi)
      by (exists (Z.to_nat (n - 32)); lia). do 16 (destruct i as [|i]; [by vm_compute|]). lia. }
  assert (Hc : compiled demo_region (c_function (irq_handler call)) 0 (irq_handler call))
    by apply c_function_compiled, demo_region_ok.
  assert (Hl : (2 <= length [0; 0])%nat) by (simpl; lia).
  assert (Hi : keyboard_init w = Ok (tt, w1)) by reflexivity.
  assert (Hv : ∀ a b c, Forall event_ok [Event 0 a; Event 1 b; Event 14 c] ↔ is_u8 a ∧ is_u8 b ∧ is_u8 c).
  { intros a b c. rewrite !Forall_cons, Forall_nil. unfold event_ok. simpl. lia. }
  assert (Hk : kernel_table (rg_table demo_region)) by (by split).
  split.
  - pose proof (T [Event 0 0; Event 1 0x9E; Event 14 0] demo_region_ok Hk Hs (le_n 27) Hc Hr Hl eq_refl eq_refl Hi Hg
      (proj2 (Hv 0 0x9E 0) ltac:(lia)) (demo_stands w1)) as H.
    change (existsb press _) with false in H. cbv iota in H. destruct H as (m' & w2 & E & H' & _ & _ & Hp & _).
    exists m', w2. split; [exact E|]. split; [exact H'|exact Hp].
  - assert (He : Forall event_ok [Event 0 0; Event 1 0x1E]) by (repeat constructor; simpl; lia).
    exact (T [Event 0 0; Event 1 0x1E] demo_region_ok Hk Hs (le_n 27) Hc Hr Hl eq_refl eq_refl Hi Hg He (demo_stands w1)).
Defined.
