(* ===== verification/UserMode.v ===== *)
(** * UserMode: what run_process_in_user_mode of scheduler_assembler.s does

    The routine the scheduler ends a turn with. Its [iret] is commented out: it
    takes the words it pushed back and returns. *)

From S2P Require Import Prelude Layout Mmu Gdt Machine StackView Interrupts InterruptsSpec Stubs.

Definition run_process_in_user_mode : list instr :=
  [Cli;
   Load 4 (Some ESP) EAX;
   Load 4 (Some EAX) EBX; Load 8 (Some EAX) ECX; Load 12 (Some EAX) EDX;
   Load 16 (Some EAX) EBP; Load 20 (Some EAX) ESI; Load 24 (Some EAX) EDI;
   PushM 28 (Some EAX); PushM 32 (Some EAX); PushM 36 (Some EAX); PushM 40 (Some EAX); PushM 44 (Some EAX);
   MovI16 0x18 EAX; MovS EAX DS; MovS EAX ES; MovS EAX FS; MovS EAX GS;
   Load 0 (Some EAX) EAX;
   PopR EAX; PopR EAX; PopR EAX; PopR EAX; PopR EAX;
   Ret].

Definition scheduler_assembler : program := [("run_process_in_user_mode", run_process_in_user_mode)].

(** The selector it loads is that of the code of user mode. *)
Definition user_code : segment := Segment 0x18 (flat 3 CODE_RX_TYPE).

Lemma load_user_code t :
  t !! 3%nat = Some (flat 3 CODE_RX_TYPE) → data_segment t 0 0x18 = Some user_code.
Proof. intros H. change 3%nat with (Z.to_nat (0x18 / 8)) in H. unfold data_segment. by rewrite H. Qed.

(** Code may be read, and not written: no word can be stored there any more. *)
Lemma store_faults {X} prog sym ext (m : machine X) r d b :
  segment_of b = DS → sr m DS = user_code → exec prog sym ext (Store r d b) m = Fault.
Proof.
  intros Hb Hs. cbn [exec]. unfold next_instr, mbind, M_bind, gets. rewrite Hb. unfold write, resolve. by rewrite Hs.
Qed.

Section user_mode.
Context {X : Type} (top : Z) (heap : gmap Z Z) (t : list descriptor).
Implicit Types (g : reg → Z) (s : seg → segment) (w : X).

(** A [struct _registers] at [p], with the values [v] of its fields. *)
Definition registers_in (p : Z) (v : string → Z) : Prop :=
  0 <= p ∧ p + 48 <= 4294967296 ∧
  ∀ i x o u, fields struct__registers !! i = Some (x, o, u) → heap !! (p + o) = Some (v x).

Context (p : Z) (v : string → Z) (Hp : registers_in p v) (stray : Z).
Context (Hstray : heap !! (p / 65536 * 65536 + 0x18) = Some stray).
Context (Ht : t !! 3%nat = Some (flat 3 CODE_RX_TYPE)).

Lemma vread_ok g s f n l w d a x :
  flat_read (desc (s DS)) → g EAX = a → 0 <= a + d < 4294967296 → heap !! (a + d) = Some x →
  vread heap d (Some EAX) (View g s f n l w) = Some x.
Proof.
  intros (Hr & Hb & Hl) Ha Hrange Hx. unfold vread. cbn [v_sr v_gr]. rewrite Hr, Hb, Hl, Ha. simpl. by rewrite u32_small.
Qed.

Lemma data_load_ok g s f n l w d a x r :
  r ≠ ESP → flat_read (desc (s DS)) → g EAX = a → 0 <= a + d < 4294967296 → heap !! (a + d) = Some x →
  vexec top heap t (Load d (Some EAX) r) (View g s f n l w) = Some (View (upd r x g) s f n l w).
Proof. intros Hr Hd Ha Hrange Hx. cbn [vexec]. rewrite decide_False by done. by rewrite (vread_ok _ _ _ _ _ _ _ a x). Qed.

Lemma push_ok g s f n l w d a x :
  flat_read (desc (s DS)) → g EAX = a → 0 <= a + d < 4294967296 → heap !! (a + d) = Some x →
  vexec top heap t (PushM d (Some EAX)) (View g s f (S n) l w) = Some (View g s f n (x :: l) w).
Proof. intros Hd Ha Hrange Hx. cbn [vexec]. by rewrite (vread_ok _ _ _ _ _ _ _ a x). Qed.

(** The field at an offset of the code is the one declared there. *)
Lemma field_read i x o u :
  fields struct__registers !! i = Some (x, o, u) → 0 <= o <= 44 → 0 <= p + o < 4294967296 ∧ heap !! (p + o) = Some (v x).
Proof using Hp. intros Hi Ho. destruct Hp as (H0 & H1 & H2). split; [lia|]. by apply (H2 i x o u). Qed.

Lemma load_field i x o g s f n l w r :
  fields struct__registers !! i = Some (x, o, U32) → 0 <= o <= 44 → r ≠ ESP → flat_read (desc (s DS)) → g EAX = p →
  vexec top heap t (Load o (Some EAX) r) (View g s f n l w) = Some (View (upd r (v x) g) s f n l w).
Proof using Hp. intros Hi Ho Hr Hd Ha. destruct (field_read i x o U32 Hi Ho). by apply (data_load_ok _ _ _ _ _ _ o p). Qed.

Lemma push_field i x o g s f n l w :
  fields struct__registers !! i = Some (x, o, U32) → 0 <= o <= 44 → flat_read (desc (s DS)) → g EAX = p →
  vexec top heap t (PushM o (Some EAX)) (View g s f (S n) l w) = Some (View g s f n (v x :: l) w).
Proof using Hp. intros Hi Ho Hd Ha. destruct (field_read i x o U32 Hi Ho). by apply (push_ok _ _ _ _ _ _ o p). Qed.

(** The registers it leaves; the words it pushed end up in [%eax] one after the other. *)
Definition left_with g : reg → Z :=
  upd EAX (v "ss") (upd EDI (v "edi") (upd ESI (v "esi") (upd EBP (v "ebp") (upd EDX (v "edx") (upd ECX (v "ecx")
    (upd EBX (v "ebx") g)))))).

Ltac field_step lem := erewrite vrun_cons; [|apply lem; [reflexivity|lia|done..]].

Lemma run_on_view g s f n l w ra :
  sel (s CS) mod 4 = 0 → flat_read (desc (s DS)) →
  ∃ g', vrun top heap t (removelast run_process_in_user_mode) (View g s f (5 + n) (ra :: p :: l) w)
    = Some (View g' (all_data user_code s) (Z.clearbit f IF_BIT) (5 + n) (ra :: p :: l) w) ∧
    ∀ r, r ≠ ESP → g' r = left_with g r.
Proof using Hp Hstray Ht.
  intros Hc Hd. cbn [removelast run_process_in_user_mode].
  erewrite vrun_cons; [|cbn [vexec v_sr]; rewrite Hc; reflexivity]. unfold with_flags. cbn [v_gr v_sr v_flags v_room v_stack v_world].
  rewrite (vrun_cons _ _ _ _ _ _ (View (upd EAX p g) s (Z.clearbit f IF_BIT) (5 + n) (ra :: p :: l) w)) by reflexivity.
  field_step (load_field 1 "ebx"). field_step (load_field 2 "ecx"). field_step (load_field 3 "edx").
  field_step (load_field 4 "ebp"). field_step (load_field 5 "esi"). field_step (load_field 6 "edi").
  field_step (push_field 7 "ss"). field_step (push_field 8 "esp"). field_step (push_field 9 "eflags").
  field_step (push_field 10 "cs"). field_step (push_field 11 "eip").
  set (g1 := upd EDI _ _). set (a := p / 65536 * 65536 + 0x18) in *.
  rewrite (vrun_cons _ _ _ _ _ _ (View (upd EAX a g1) s (Z.clearbit f IF_BIT) n
    (v "eip" :: v "cs" :: v "eflags" :: v "esp" :: v "ss" :: ra :: p :: l) w)) by reflexivity.
  assert (Ea : data_segment t 0 (u16 (upd EAX a g1 EAX)) = Some user_code).
  { rewrite upd_eq. replace (u16 a) with 0x18 by (unfold a; clia). by apply load_user_code. }
  do 4 (erewrite vrun_cons; [|by apply load_segment_ok; [done..|exact Hc|exact Ea]]).
  assert (Hra : 0 <= a + 0 < 4294967296) by (destruct Hp as (? & ? & _); unfold a; Z.to_euclidean_division_equations; lia).
  erewrite vrun_cons; [|apply (data_load_ok _ _ _ _ _ _ 0 a stray); [done|by split|apply upd_eq|done|by rewrite Z.add_0_r]].
  eexists. split; [reflexivity|]. intros [] Hr; done.
Qed.
End user_mode.

Lemma ret_stands {X} R (HR : region_ok R) prog sym ext (m : machine X) g s f n l w ra fuel rest :
  stands R m (View g s f n (ra :: l) w) →
  ∃ m', run prog sym ext (S fuel) (Ret :: rest) m = Ok (ra, m') ∧ stands R m' (View g s f (S n) l w).
Proof.
  intros Hm. destruct (pop_stands R HR _ _ _ _ _ _ _ _ Hm) as (m' & E & H'). exists m'. split; [|exact H'].
  cbn [run exec]. by rewrite bind_assoc, (bind_ok _ _ _ _ _ E).
Qed.

(** The whole routine, from its call to its [ret]. *)
Lemma user_mode_runs {X} R sym ext (m : machine X) g s f n l w ra p v stray fuel :
  region_ok R → rg_table R !! 3%nat = Some (flat 3 CODE_RX_TYPE) →
  registers_in (rg_heap R) p v → rg_heap R !! (p / 65536 * 65536 + 0x18) = Some stray →
  sel (s CS) mod 4 = 0 → flat_read (desc (s DS)) → (25 <= fuel)%nat →
  stands R m (View g s f (5 + n) (ra :: p :: l) w) →
  ∃ m', run scheduler_assembler sym ext fuel (from "run_process_in_user_mode" scheduler_assembler) m = Ok (ra, m') ∧
    stands R m' (View (left_with v g) (all_data user_code s) (Z.clearbit f IF_BIT) (6 + n) (p :: l) w) ∧
    Z.testbit (mflags m') IF_BIT = false ∧
    ∀ r d b, segment_of b = DS → exec scheduler_assembler sym ext (Store r d b) m' = Fault.
Proof.
  intros HR HT Hp Hstray Hc Hd Hfuel Hm.
  destruct (run_on_view (rg_top R) (rg_heap R) (rg_table R) p v Hp stray Hstray HT g s f n l w ra Hc Hd) as (g' & E & Hg').
  destruct (code_stands R HR scheduler_assembler sym ext (removelast run_process_in_user_mode) m _ _ Hm E) as (m1 & H1 & R1).
  destruct (ret_stands R HR scheduler_assembler sym ext m1 _ _ _ _ _ _ _ (fuel - 25) [] H1) as (m2 & R2 & H2).
  assert (H3 : stands R m2 (View (left_with v g) (all_data user_code s) (Z.clearbit f IF_BIT) (6 + n) (p :: l) w))
    by by apply (stands_ext R m2 _ _ H2).
  exists m2. split; [|split; [exact H3|split]].
  - change (from _ _) with (removelast run_process_in_user_mode ++ [Ret]).
    replace fuel with (length (removelast run_process_in_user_mode) + S (fuel - 25))%nat by (simpl; lia).
    by rewrite R1.
  - rewrite (re_flags _ _ _ _ _ _ _ _ _ _ H3). apply Z.clearbit_eq.
  - intros r d b Hb. apply store_faults; [done|]. by rewrite (re_sr _ _ _ _ _ _ _ _ _ _ H3 DS).
Qed.

(** C32: [run_process_in_user_mode] does not enter user mode, and its caller cannot
    go on. Called with the registers of a process, in the kernel's privilege and with
    the descriptors of [gdt_init], it returns to its caller with interrupts off, the
    registers of the process in place of the caller's, [eax] the one of the stack's segment,
    and in all four registers of data the selector 0x18, the code of user mode:
    from then on every store of a word through them faults. It reads a word that has
    nothing to do with the process on the way, 0x18 bytes into the 64 KB the
    registers are in: their address lost its low half to the selector. *)
Theorem user_mode_not_entered {X} R sym ext (m : machine X) g s f n l w ra p v stray fuel :
  region_ok R → rg_table R !! 3%nat = Some (flat 3 CODE_RX_TYPE) →
  registers_in (rg_heap R) p v → rg_heap R !! (p / 65536 * 65536 + 0x18) = Some stray →
  sel (s CS) mod 4 = 0 → flat_read (desc (s DS)) → (25 <= fuel)%nat →
  stands R m (View g s f (5 + n) (ra :: p :: l) w) →
  ∃ m', run scheduler_assembler sym ext fuel (from "run_process_in_user_mode" scheduler_assembler) m = Ok (ra, m') ∧
    stands R m' (View (left_with v g) (all_data user_code s) (Z.clearbit f IF_BIT) (6 + n) (p :: l) w) ∧
    Z.testbit (mflags m') IF_BIT = false ∧
    ∀ r d b, segment_of b = DS → exec scheduler_assembler sym ext (Store r d b) m' = Fault.
Proof. apply user_mode_runs. Qed.

(** ** A process and its registers

    A page of 4 MB at [V], on the first 4 MB of memory: a stack of 64 words, and at [a]
    the registers, whose fields have the values [v]. *)

Definition turn_heap (a : Z) (v : string → Z) : gmap Z Z :=
  <[a / 65536 * 65536 + 0x18 := 7]> (list_to_map ((λ f, (a + f.1.2, v f.1.1)) <$> fields struct__registers)).

Section turn.
Context (V a : Z) (v : string → Z) (t : list descriptor).

Definition turn_own (x : Z) : Prop :=
  V + 0x200F00 <= x < V + 0x201000 ∧ x mod 4 = 0 ∨ is_Some (turn_heap a v !! x).

Definition turn_ram : gmap Z Z := <[0x101000 + 4 * (V / 4194304) := 0x8B]> (turn_heap (a - V) v).

Definition turn_region : region :=
  Region turn_own (λ x, x - V) (V + 0x201000) 64 (turn_heap a v) demo_control t turn_ram.

Definition turn_registers : reg → Z := upd ESP (V + 0x200FF8) demo_registers.

Definition turn_machine : machine unit :=
  Machine unit turn_registers demo_segments 0x202 demo_control
    (<[0x200FF8 := 0xC0101234]> (<[0x200FFC := a]> turn_ram)) t tt.

(** The words beside the stack are in the page, in memory, and not in its tables. *)
Definition turn_check : bool :=
  forallb (λ x, (V <=? x.1) && (x.1 <? V + 0x200F00) && (x.1 mod 4 =? 0) && (ld (ram turn_machine) (x.1 - V) =? x.2) &&
    negb (x.1 - V =? 0x101000 + 4 * (V / 4194304)) && negb (x.1 - V =? 0x800) &&
    forallb (λ y, negb (x.1 - V =? 4 * (y.1 / 4096 mod 1024))) (map_to_list (turn_heap a v)))
    (map_to_list (turn_heap a v)).

Context (HV : V mod 4194304 = 0) (HV0 : 0 <= V) (HV1 : V + 4194304 <= 4294967296) (Hcheck : turn_check = true).

Lemma turn_heap_at x w : turn_heap a v !! x = Some w →
  V <= x < V + 0x200F00 ∧ x mod 4 = 0 ∧ ld (ram turn_machine) (x - V) = w ∧
  x - V ≠ 0x101000 + 4 * (V / 4194304) ∧ x - V ≠ 0x800 ∧
  ∀ y w', turn_heap a v !! y = Some w' → x - V ≠ 4 * (y / 4096 mod 1024).
Proof using Hcheck.
  intros H. assert (Hin : (x, w) ∈ map_to_list (turn_heap a v)) by by apply elem_of_map_to_list.
  pose proof (proj1 (forallb_forall _ _) Hcheck _ (proj1 (list_elem_of_In _ _) Hin)) as Hb. cbn [fst snd] in Hb.
  rewrite !andb_true_iff, !negb_true_iff, Z.leb_le, Z.ltb_lt, !Z.eqb_eq, !Z.eqb_neq in Hb.
  destruct Hb as [[[[[[? ?] ?] ?] ?] ?] Hy]. split_and!; try done. intros y w' Hyw.
  assert (Hin' : (y, w') ∈ map_to_list (turn_heap a v)) by by apply elem_of_map_to_list.
  pose proof (proj1 (forallb_forall _ _) Hy _ (proj1 (list_elem_of_In _ _) Hin')) as Hb.
  by rewrite negb_true_iff, Z.eqb_neq in Hb.
Qed.

Lemma turn_own_at x : turn_own x →
  V <= x < V + 0x201000 ∧ x mod 4 = 0 ∧ x - V ≠ 0x101000 + 4 * (V / 4194304) ∧
  ∀ y, turn_own y → x - V ≠ 4 * (y / 4096 mod 1024).
Proof using All.
  assert (Hs : ∀ y, V + 0x200F00 <= y < V + 0x201000 → y / 4096 mod 1024 = 0x200)
    by (intros; clear Hcheck; Z.to_euclidean_division_equations; lia).
  intros [[Hx H4]|[w Hx]].
  - split; [lia|]. split; [done|]. split; [clear Hcheck; Z.to_euclidean_division_equations; lia|]. intros y _.
    pose proof (Z.mod_pos_bound (y / 4096) 1024 ltac:(done)). lia.
  - destruct (turn_heap_at x w Hx) as (? & ? & _ & ? & ? & Hy). split; [lia|]. split; [done|]. split; [done|].
    intros y [[Hr _]|[w' Hw]]; [rewrite (Hs y Hr); lia|by apply (Hy y w')].
Qed.

Lemma turn_region_ok : region_ok turn_region.
Proof using All.
  split; [intros x y _ _ E; simpl in E; lia|].
  change (arranged turn_own (V + 0x201000) 64 (turn_heap a v)). split; [lia| |].
  - intros i Hi. change (Z.of_nat 64) with 64 in Hi. left. split; [lia|]. clear Hcheck. Z.to_euclidean_division_equations; lia.
  - intros x w Hx. split; [right; by exists w|]. intros i Hi.
    change (Z.of_nat 64) with 64 in Hi. destruct (turn_heap_at x w Hx). lia.
Qed.

Lemma turn_stands :
  stands turn_region turn_machine (View turn_registers demo_segments 0x202 62 [0xC0101234; a] tt).
Proof using All.
  assert (Hpde : ∀ x, turn_own x → pde_of (ram turn_machine) 0x101000 x = 0x8B ∧ x / 4194304 = V / 4194304).
  { intros x Hx. destruct (turn_own_at x Hx) as (Hr & _).
    assert (E : x / 4194304 = V / 4194304) by (clear Hcheck; Z.to_euclidean_division_equations; lia). split; [|done].
    unfold pde_of. rewrite E. cbn [ram turn_machine]. unfold turn_ram. 
    rewrite !ld_insert_ne, ld_insert_eq by (clear Hcheck; Z.to_euclidean_division_equations; lia). done. }
  split; try done.
  - change (V + 0x200FF8 = V + 0x201000 - 4 * 2). lia.
  - split.
    + intros x Hx. destruct (turn_own_at x Hx) as (Hr & H4 & _ & _). split; [lia|]. split; [done|].
      change (walk (ram turn_machine) 0x101000 x = Some (x - V)). unfold walk. rewrite (proj1 (Hpde x Hx)).
      change (Some (0 + x mod 4194304) = Some (x - V)). f_equal. clear Hcheck Hpde. Z.to_euclidean_division_equations; lia.
    + intros x y Hx Hy.
      change (x - V ∉ [0x101000 + 4 * (y / 4194304); pte_addr (pde_of (ram turn_machine) 0x101000 y) y]).
      destruct (Hpde y Hy) as [-> ->]. destruct (turn_own_at x Hx) as (_ & _ & Hd & Ht). unfold pte_addr.
      change (hw_base 139) with 0. rewrite Z.add_0_l, !not_elem_of_cons.
      split_and!; [done|by apply Ht|apply not_elem_of_nil].
  - intros [|[|i]] w Hi; [injection Hi as <-|injection Hi as <-|by destruct i].
    + change (ld (ram turn_machine) (V + 0x201000 - 4 * 2 - V) = 0xC0101234).
      replace (V + 0x201000 - 4 * 2 - V) with 0x200FF8 by lia. apply ld_insert_eq.
    + change (ld (ram turn_machine) (V + 0x201000 - 4 * 1 - V) = a).
      replace (V + 0x201000 - 4 * 1 - V) with 0x200FFC by lia. cbn [ram turn_machine].
      rewrite ld_insert_ne by done. apply ld_insert_eq.
  - intros x w Hx. by destruct (turn_heap_at x w Hx) as (_ & _ & ? & _).
  - intros q Hq. change (ld (ram turn_machine) q = ld turn_ram q). cbn [ram turn_machine].
    assert (Hown : ∀ o, 0x200F00 <= o < 0x201000 → o mod 4 = 0 → o ≠ q).
    { intros o Ho H4 <-. apply (Hq (V + o)); [|simpl; lia]. left. split; [lia|].
      clear Hcheck Hpde Hq. Z.to_euclidean_division_equations; lia. }
    rewrite !ld_insert_ne; [done|by apply Hown..].
Qed.
End turn.

(** The fields have the values 101, 102, ... *)
Definition demo_values (x : string) : Z :=
  101 + Z.of_nat (default 0%nat (fst <$> list_find (x =.) (fields struct__registers).*1.*1)).

Lemma user_mode_not_entered_witness :
  ∃ m', run scheduler_assembler demo_sym (λ _, fault) 25 (from "run_process_in_user_mode" scheduler_assembler)
      (turn_machine 0 0x200E00 demo_values (demo_table 0xC0107040))
    = Ok (0xC0101234, m') ∧ gr m' EBX = demo_values "ebx" ∧ sel (sr m' DS) = 0x18 ∧
    exec scheduler_assembler demo_sym (λ _, fault) (Store ECX 0 (Some EAX)) m' = Fault.
Proof.
  destruct (user_mode_not_entered (turn_region 0 0x200E00 demo_values (demo_table 0xC0107040)) demo_sym (λ _, fault)
    (turn_machine 0 0x200E00 demo_values (demo_table 0xC0107040)) (turn_registers 0) demo_segments 0x202 57
    [] tt 0xC0101234 0x200E00 demo_values 7 25) as (m' & E & H & _ & Hf).
  - apply turn_region_ok; [done|done|done|by vm_compute].
  - reflexivity.
  - split; [lia|]. split; [lia|]. intros i x o u Hi.
    do 12 (destruct i as [|i]; [injection Hi as <- <- <-; by vm_compute|]). by destruct i.
  - by vm_compute.
  - reflexivity.
  - by split.
  - lia.
  - apply turn_stands; [done|done|done|by vm_compute].
  - exists m'. split; [exact E|]. split; [by rewrite (re_gr _ _ _ _ _ _ _ _ _ _ H EBX)|].
    split; [by rewrite (re_sr _ _ _ _ _ _ _ _ _ _ H DS)|]. by apply Hf.
Defined.
