(* ===== verification/Segments.v ===== *)
(** * Segments: how the table of gdt.c gets into the processor

    The code of gdt_assembler.s: [gdt_flush] loads the table through the [struct
    gdt_ptr] that [gdt_init] has on its stack, and enters the kernel's segments;
    [tss_load_and_set] loads the task register. Both the pointer and the table
    are read from memory as bytes, where the compiler has laid them out. *)

From S2P Require Import Prelude Layout Mmu Gdt Machine StackView Stubs Calls.

Definition gdt_assembler : program :=
  [("gdt_flush", [Load 4 (Some ESP) EAX; Lgdt (Some EAX); JmpFar 0x08 "flush"]);
   ("flush", [MovI16 0x10 EAX; MovS EAX DS; MovS EAX ES; MovS EAX FS; MovS EAX GS; MovS EAX SS; Ret]);
   ("tss_load_and_set", [Load16 4 (Some ESP) EAX; Ltr EAX; Ret])].

(** ** The table as bytes *)

(** The fields of an entry, in the order of the declaration. *)
Definition gdt_fields (e : gdt_entry) : list Z :=
  [limit_low e; base_low e; base_mid e; access e; granularity e; base_high e].

Fixpoint store_table (a : Z) (l : list gdt_entry) (mem : bytes) : bytes :=
  match l with
  | [] => mem
  | e :: l => store_table (a + sizeof_gdt_entry) l (store a (scalars struct_gdt_entry) (gdt_fields e) mem)
  end.

Record entry_ok (e : gdt_entry) : Prop := EntryOk {
  en_limit : is_u16 (limit_low e);
  en_base : is_u16 (base_low e) ∧ is_u8 (base_mid e) ∧ is_u8 (base_high e);
  en_flags : is_u8 (access e) ∧ is_u8 (granularity e)
}.

Lemma store_table_before a l : ∀ mem x, x < a → store_table a l mem x = mem x.
Proof.
  revert a. induction l as [|e l IH]; intros a mem x Hx; [done|]. cbn [store_table].
  rewrite IH by (unfold sizeof_gdt_entry; lia).
  apply (store_outside a _ _ _ 0 8); [apply (scalars_laid struct_gdt_entry)|lia].
Qed.

(** The entry [i] is where it should be. *)
Lemma store_table_entry l : ∀ a mem i e, l !! i = Some e →
  ∃ mem', ∀ x, a + 8 * Z.of_nat i <= x < a + 8 * Z.of_nat i + 8 →
    store_table a l mem x = store (a + 8 * Z.of_nat i) (scalars struct_gdt_entry) (gdt_fields e) mem' x.
Proof.
  induction l as [|e0 l IH]; intros a mem i e Hi; [done|]. destruct i as [|i]; simpl in Hi.
  - injection Hi as ->. exists mem. intros x Hx. rewrite Z.add_0_r in *. cbn [store_table].
    apply store_table_before. unfold sizeof_gdt_entry. lia.
  - destruct (IH (a + sizeof_gdt_entry) (store a (scalars struct_gdt_entry) (gdt_fields e0) mem) i e Hi) as (mem' & H).
    exists mem'. intros x Hx. replace (a + 8 * Z.of_nat (S i)) with (a + sizeof_gdt_entry + 8 * Z.of_nat i)
      by (unfold sizeof_gdt_entry; lia). apply H. unfold sizeof_gdt_entry. lia.
Qed.

Section machine.
Context {X : Type}.
Implicit Types m : machine X.

(** The processor sees the bytes of [mem] from [a] on. *)
Definition sees m (mem : bytes) (a n : Z) : Prop := ∀ x, a <= x < a + n → byte_at m x = Some (mem x).

Lemma number_at_get m mem n : ∀ a, sees m mem a (Z.of_nat n) → number_at m a n = Some (get mem a n).
Proof.
  induction n as [|n IH]; intros a H; [done|]. cbn [number_at get]. rewrite (H a) by lia.
  cbn [mbind option_bind]. rewrite IH; [done|]. intros x Hx. apply H. lia.
Qed.

(** A field of a structure in memory. *)
Lemma field_seen m t vs mem mem' a i o n v :
  sees m mem a (sizeof t) → (∀ x, a <= x < a + sizeof t → mem x = store a (scalars t) vs mem' x) →
  scalars t !! i = Some (o, n) → vs !! i = Some v → 0 <= v < 256 ^ Z.of_nat n →
  number_at m (a + o) n = Some v.
Proof.
  intros Hs Hm Hi Hv Hr. pose proof (scalars_laid t) as Hl.
  destruct (laid_lookup 0 (ranges (scalars t)) (sizeof t) i o (Z.of_nat n) Hl) as (H0 & _ & Hn & _).
  { unfold ranges. by rewrite list_lookup_fmap, Hi. }
  rewrite (number_at_get m mem) by (intros x Hx; apply Hs; lia). f_equal.
  rewrite (get_ext (store a (scalars t) vs mem')) by (intros b Hb; apply Hm; lia).
  rewrite (store_get a (scalars t) vs mem' 0 (sizeof t) i o n v Hl Hi Hv). by apply Z.mod_small.
Qed.

Lemma descriptor_seen m mem a mem' e :
  entry_ok e → sees m mem a 8 →
  (∀ x, a <= x < a + 8 → mem x = store a (scalars struct_gdt_entry) (gdt_fields e) mem' x) →
  descriptor_at m a = Some (decode e).
Proof.
  intros [H1 (H2 & H3 & H4) (H5 & H6)] Hs Hm. unfold descriptor_at.
  pose proof (λ i o n v, field_seen m struct_gdt_entry (gdt_fields e) mem mem' a i o n v Hs Hm) as F.
  pose proof (F 0%nat 0 2%nat _ eq_refl eq_refl H1) as E1. rewrite Z.add_0_r in E1. rewrite E1.
  rewrite (F 1%nat 2 2%nat _ eq_refl eq_refl H2). rewrite (F 2%nat 4 1%nat _ eq_refl eq_refl H3).
  rewrite (F 3%nat 5 1%nat _ eq_refl eq_refl H5). rewrite (F 4%nat 6 1%nat _ eq_refl eq_refl H6).
  rewrite (F 5%nat 7 1%nat _ eq_refl eq_refl H4). by destruct e.
Qed.

Lemma sees_part m mem a n b k : sees m mem a n → a <= b → b + k <= a + n → sees m mem b k.
Proof. intros H H1 H2 x Hx. apply H. lia. Qed.

(** The whole table. *)
Lemma entries_seen m a l mem :
  Forall entry_ok l → sees m (store_table a l mem) a (8 * Z.of_nat (length l)) →
  mapM (λ i, descriptor_at m (a + 8 * i)) (seqZ 0 (Z.of_nat (length l))) = Some (decode <$> l).
Proof.
  intros Hok Hs. apply mapM_Some_2, Forall2_same_length_lookup_2.
  { rewrite length_seqZ, length_fmap. lia. }
  intros i x d Hx Hd. apply lookup_seqZ in Hx as [-> Hi]. rewrite list_lookup_fmap in Hd.
  destruct (l !! i) as [e|] eqn:El; [|done]. injection Hd as <-.
  destruct (store_table_entry l a mem i e El) as (mem' & Hm).
  apply (descriptor_seen m (store_table a l mem) _ mem' e).
  - by apply (Forall_lookup_1 _ _ i e Hok).
  - apply (sees_part _ _ _ _ _ _ Hs); lia.
  - exact Hm.
Qed.

Lemma table_seen m gp limit base l mem mem' :
  Forall entry_ok l → is_u16 limit → is_u32 base → (limit + 1) / 8 = Z.of_nat (length l) →
  sees m (store gp (scalars struct_gdt_ptr) [limit; base] mem) gp 6 →
  sees m (store_table base l mem') base (8 * Z.of_nat (length l)) →
  table_at m gp = Some (decode <$> l).
Proof.
  intros Hok Hl Hb Hlen Hp Ht. unfold table_at.
  pose proof (λ i o n v, field_seen m struct_gdt_ptr [limit; base] _ mem gp i o n v Hp (λ x _, eq_refl)) as F.
  pose proof (F 0%nat 0 2%nat _ eq_refl eq_refl Hl) as E1. rewrite Z.add_0_r in E1. rewrite E1.
  rewrite (F 1%nat 2 4%nat _ eq_refl eq_refl Hb). cbn [mbind option_bind]. rewrite Hlen.
  by apply (entries_seen m base l mem').
Qed.
End machine.

(** ** The routines *)

Section routines.
Context {X : Type} (sym : string → Z) (ext : string → M (machine X) unit).
Implicit Types m : machine X.

(** A register of data, and that of the stack, loaded with the kernel's segment. *)
Lemma load_kernel_ok m (s : seg) :
  kernel_table (table m) → cpl m = 0 → u16 (gr m EAX) = 0x10 → s ≠ CS →
  exec gdt_assembler sym ext (MovS EAX s) m = Ok (Next, set_sr s kernel_data m).
Proof.
  intros Ht Hc Ea Hs. cbn [exec]. unfold next_instr, load_data, mbind, M_bind, gets, of_option. rewrite Ea, Hc.
  case_decide as Hss; [|by rewrite load_kernel_data].
  destruct Ht as [_ Hd]. change 2%nat with (Z.to_nat (0x10 / 8)) in Hd. unfold stack_segment. by rewrite Hd.
Qed.

(** All segments of the kernel. *)
Definition kernel_segments (x : seg) : segment := if decide (x = CS) then kernel_code else kernel_data.

Lemma flush_ok m ra arg :
  called m ra arg → kernel_table (table m) → sr m CS = kernel_code →
  ∃ g s, (∀ n, run gdt_assembler sym ext (7 + n) (from "flush" gdt_assembler) m
      = Ok (ra, Machine X g s (mflags m) (cr m) (ram m) (table m) (world m))) ∧
    (∀ x, s x = kernel_segments x) ∧ g ESP = gr m ESP + 4 ∧ ∀ r, r ≠ EAX → r ≠ ESP → g r = gr m r.
Proof.
  intros Hcl Ht Hcs. set (a := gr m EAX / 65536 * 65536 + u16 0x10). set (m1 := set_gr EAX a m).
  change (from "flush" gdt_assembler) with ([MovI16 0x10 EAX; MovS EAX DS; MovS EAX ES; MovS EAX FS; MovS EAX GS; MovS EAX SS]
    ++ Ret :: from "tss_load_and_set" gdt_assembler).
  assert (Ea : u16 a = 0x10) by (unfold a; clia).
  assert (Hload : ∀ (s' : seg → segment) x code k, s' CS = kernel_code → x ≠ CS →
    let m' s := Machine X (gr m1) s (mflags m) (cr m) (ram m) (table m) (world m) in
    run gdt_assembler sym ext (S k) (MovS EAX x :: code) (m' s') = run gdt_assembler sym ext k code (m' (upd x kernel_data s'))).
  { intros s' x code k Hs' Hx m'. apply (run_step gdt_assembler sym ext (MovS EAX x) code (m' s')).
    apply (load_kernel_ok (m' s')); [exact Ht|unfold cpl; cbn [m' sr]; by rewrite Hs'|by rewrite <- Ea|done]. }
  eexists _, _. split.
  { intros n. cbn [app Nat.add]. rewrite (run_step _ sym ext _ _ m m1) by done.
    change m1 with (Machine X (gr m1) (sr m) (mflags m) (cr m) (ram m) (table m) (world m)).
    do 5 (rewrite Hload; [|by rewrite ?upd_ne by done|done]).
    rewrite (run_ret _ sym ext _ _ ra arg); [reflexivity|].
    apply (called_same m _ ra arg Hcl); [|by cbn [sr]; rewrite upd_eq|done..].
    unfold cpl. cbn [sr]. by rewrite !upd_ne, Hcs by done. }
  split; [|split].
  - intros x. unfold kernel_segments. case_decide as Hx; [subst x; cbn [sr]; by rewrite !upd_ne by done|]. unfold upd. by destruct x.
  - cbn [gr set_gr]. apply upd_eq.
  - intros r Hr1 Hr2. unfold m1. cbn [gr set_gr]. by rewrite !upd_ne.
Qed.

Lemma gdt_flush_ok m ra gp t :
  called m ra gp → flat_read (desc (sr m DS)) → 0 <= gp → gp + 6 <= 4294967296 →
  (∀ g, table_at (Machine X g (sr m) (mflags m) (cr m) (ram m) (table m) (world m)) gp = Some t) → kernel_table t →
  ∃ g s, (∀ n, run gdt_assembler sym ext (10 + n) (from "gdt_flush" gdt_assembler) m
      = Ok (ra, Machine X g s (mflags m) (cr m) (ram m) t (world m))) ∧
    (∀ x, s x = kernel_segments x) ∧ g ESP = gr m ESP + 4 ∧ ∀ r, r ≠ EAX → r ≠ ESP → g r = gr m r.
Proof.
  intros Hcl (Hr & Hb & Hl) H0 H6 Ht Hk. set (m1 := set_gr EAX gp m). set (m2 := set_table t m1).
  set (m3 := set_sr CS kernel_code m2).
  assert (E1 : exec gdt_assembler sym ext (Load 4 (Some ESP) EAX) m = Ok (Next, m1)).
  { cbn [exec]. unfold next_instr, offset_of, segment_of. rewrite bind_assoc.
    rewrite (bind_ok _ _ m (u32 (gr m ESP + 4)) m) by done.
    by rewrite bind_assoc, (bind_ok _ _ _ _ _ (read_argument m ra gp Hcl)). }
  assert (E2 : exec gdt_assembler sym ext (Lgdt (Some EAX)) m1 = Ok (Next, m2)).
  { cbn [exec]. unfold next_instr. rewrite (bind_ok _ _ m1 tt m2); [done|].
    unfold load_table, mbind, M_bind, gets, of_option. cbn [offset_of segment_of].
    change (cpl m1) with (cpl m). rewrite (cl_level _ _ _ Hcl). unfold m1 at 1 2 3 4 5. cbn [set_gr gr sr].
    rewrite upd_eq, Z.add_0_r, (u32_small gp), Hr, Hb, Hl, Z.add_0_l by lia.
    rewrite (proj2 (Z.leb_le _ _)) by lia. cbn [andb Z.eqb]. unfold m1 at 1, set_gr at 1. by rewrite Ht. }
  assert (E3 : exec gdt_assembler sym ext (JmpFar 0x08 "flush") m2 = Ok (Goto "flush", m3)).
  { cbn [exec]. rewrite (bind_ok _ _ m2 tt m3); [done|].
    unfold load_code, mbind, M_bind, gets, of_option. change (cpl m2) with (cpl m). rewrite (cl_level _ _ _ Hcl).
    change (u16 0x08) with 0x08. change (table m2) with t. by rewrite (load_kernel_code t Hk). }
  assert (Hcl3 : called m3 ra gp).
  { apply (called_same m); try done. cbn [m3 sr set_sr]. rewrite upd_ne by done. apply (cl_stack _ _ _ Hcl). }
  destruct (flush_ok m3 ra gp Hcl3 Hk) as (g & s & E & Hs & Hg & Hr'); [by unfold m3; cbn [sr set_sr]; rewrite upd_eq|].
  exists g, s. split; [|split; [exact Hs|split; [exact Hg|]]].
  - change (from "gdt_flush" gdt_assembler) with (Load 4 (Some ESP) EAX :: Lgdt (Some EAX) :: JmpFar 0x08 "flush" :: from "flush" gdt_assembler).
    intros n. cbn [Nat.add]. rewrite (run_step _ sym ext _ _ m m1 _ E1), (run_step _ sym ext _ _ m1 m2 _ E2), (run_goto _ sym ext _ _ "flush" m2 m3 _ E3). apply E.
  - intros r Hr1 Hr2. rewrite Hr' by done. unfold m3, m2, m1. cbn [gr set_sr set_table set_gr]. by rewrite upd_ne.
Qed.

Lemma tss_load_ok m ra d n :
  called m ra TSS_SEGSEL → table m !! 5%nat = Some d → d_present d && negb (d_code_or_data d) && (d_type d =? 9) = true →
  ∃ g, run gdt_assembler sym ext (3 + n) (from "tss_load_and_set" gdt_assembler) m
      = Ok (ra, Machine X g (sr m) (mflags m) (cr m) (ram m) (table m) (world m)) ∧
    g ESP = gr m ESP + 4 ∧ ∀ r, r ≠ EAX → r ≠ ESP → g r = gr m r.
Proof.
  intros Hcl Hd [[Hp Hc]%andb_prop H9]%andb_prop. set (a := gr m EAX / 65536 * 65536 + u16 TSS_SEGSEL).
  set (m1 := set_gr EAX a m).
  assert (E1 : exec gdt_assembler sym ext (Load16 4 (Some ESP) EAX) m = Ok (Next, m1)).
  { cbn [exec]. unfold next_instr, offset_of, segment_of. rewrite bind_assoc.
    rewrite (bind_ok _ _ m (u32 (gr m ESP + 4)) m) by done.
    by rewrite bind_assoc, (bind_ok _ _ _ _ _ (read_argument m ra TSS_SEGSEL Hcl)). }
  assert (E2 : exec gdt_assembler sym ext (Ltr EAX) m1 = Ok (Next, m1)).
  { assert (Ea : u16 (gr m1 EAX) = 0x28) by (unfold m1; cbn [set_gr gr]; rewrite upd_eq; unfold a, TSS_SEGSEL; clia).
    assert (El : load_task 0x28 m1 = Ok (tt, m1)).
    { unfold load_task, mbind, M_bind, gets, of_option. change (cpl m1) with (cpl m). change (table m1) with (table m).
      rewrite (cl_level _ _ _ Hcl). change (Z.to_nat (0x28 / 8)) with 5%nat. by rewrite Hd, Hp, Hc, H9. }
    cbn [exec]. unfold next_instr. rewrite bind_assoc, (bind_ok _ _ m1 (gr m1 EAX) m1) by done.
    by rewrite Ea, (bind_ok _ _ _ _ _ El). }
  assert (Hcl1 : called m1 ra TSS_SEGSEL) by (apply (called_same m _ ra _ Hcl); [apply Hcl|apply Hcl|done..]).
  eexists. split; [|split].
  - change (from "tss_load_and_set" gdt_assembler) with [Load16 4 (Some ESP) EAX; Ltr EAX; Ret]. cbn [Nat.add].
    by rewrite (run_step _ sym ext _ _ m m1 _ E1), (run_step _ sym ext _ _ m1 m1 _ E2), (run_ret _ sym ext _ _ ra _ _ Hcl1).
  - apply upd_eq.
  - intros r Hr1 Hr2. unfold m1. cbn [gr set_gr]. by rewrite !upd_ne.
Qed.
End routines.

(** ** The table of [gdt_init] *)

Lemma gdt_init_entries gdt_vaddr tss_vaddr s :
  is_u32 tss_vaddr → gdt_init gdt_vaddr tss_vaddr gdt_start = Ok (tt, s) →
  Forall entry_ok (gdt_entries s) ∧ length (gdt_entries s) = 6%nat ∧ gdtr s = Some (48, gdt_vaddr) ∧ tr s = Some TSS_SEGSEL ∧
  tail (decode <$> gdt_entries s)
    = [flat 0 CODE_RX_TYPE; flat 0 DATA_RW_TYPE; flat 3 CODE_RX_TYPE; flat 3 DATA_RW_TYPE; task_segment tss_vaddr].
Proof.
  intros Ht E. destruct (gdt_init_ok gdt_vaddr tss_vaddr Ht) as (s' & E' & Hd & _). rewrite E in E'. injection E' as <-.
  injection E as <-. split; [|by split_and!].
  repeat (apply Forall_cons; split); [split; by vm_compute..| |apply Forall_nil; exact I].
  split; cbn [gdt_entries limit_low base_low base_mid base_high access granularity];
    rewrite ?land_0xFFFF, ?land_0xFF; [by vm_compute| |by vm_compute].
  split_and!; try apply Z.mod_pos_bound; lia.
Qed.

(** C24: [gdt_init], with the routines it ends with. It fills the table so that the
    processor finds, past the entry 0 it never uses, code and data segments of the whole
    address space for the kernel and for user mode, and the task state segment with
    exactly the 104 bytes of [struct tss] at the address given; the limit it passes is
    the size of the table, one more than the offset of its last byte. When the
    pointer and the table lie in memory as the structures are declared, [gdt_flush]
    returns to its caller with the table loaded and all six segment registers on the
    kernel's two segments, whatever flat segments were there, and nothing but [eax]
    changed; from there on the table is one under which interrupts are transparent, and
    [tss_load_and_set] gets the selector of the task state segment accepted. *)
Theorem gdt_flush_loads {X} sym (ext : string → M (machine X) unit) m gdt_vaddr tss_vaddr s gp ra mem mem' limit base :
  is_u32 gdt_vaddr → is_u32 tss_vaddr → gdt_init gdt_vaddr tss_vaddr gdt_start = Ok (tt, s) →
  gdtr s = Some (limit, base) → 0 <= gp → gp + sizeof struct_gdt_ptr <= 4294967296 →
  sees m (store gp (scalars struct_gdt_ptr) [limit; base] mem) gp (sizeof struct_gdt_ptr) →
  sees m (store_table gdt_vaddr (gdt_entries s) mem') gdt_vaddr (sizeof_gdt_entry * GDT_NUM_ENTRIES) →
  called m ra gp → flat_read (desc (sr m DS)) →
  ∃ m', (∀ n, run gdt_assembler sym ext (10 + n) (from "gdt_flush" gdt_assembler) m = Ok (ra, m')) ∧
    tail (table m') = [flat 0 CODE_RX_TYPE; flat 0 DATA_RW_TYPE; flat 3 CODE_RX_TYPE; flat 3 DATA_RW_TYPE;
      task_segment tss_vaddr] ∧ limit = 8 * Z.of_nat (length (table m')) ∧
    kernel_table (table m') ∧ (∀ x, sr m' x = kernel_segments x) ∧
    gr m' ESP = gr m ESP + 4 ∧ (∀ r, r ≠ EAX → r ≠ ESP → gr m' r = gr m r) ∧
    mflags m' = mflags m ∧ cr m' = cr m ∧ ram m' = ram m ∧ world m' = world m ∧
    (∀ segsel m2 ra2 n, tr s = Some segsel → table m2 = table m' → called m2 ra2 segsel →
      ∃ g, run gdt_assembler sym ext (3 + n) (from "tss_load_and_set" gdt_assembler) m2
        = Ok (ra2, Machine X g (sr m2) (mflags m2) (cr m2) (ram m2) (table m2) (world m2))).
Proof.
  intros Hg Ht E Hgr Hp0 Hp1 Hs1 Hs2 Hcl Hds.
  destruct (gdt_init_entries gdt_vaddr tss_vaddr s Ht E) as (Hok & Hlen & Eg & Etr & Hd).
  rewrite Eg in Hgr. injection Hgr as <- <-. change (sizeof struct_gdt_ptr) with 6 in *.
  assert (Hsel : Forall2 (λ i d, (decode <$> gdt_entries s) !! i = Some d) [1; 2; 5]%nat
    [flat 0 CODE_RX_TYPE; flat 0 DATA_RW_TYPE; task_segment tss_vaddr]).
  { destruct (decode <$> gdt_entries s) as [|d0 l]; [done|]. cbn [tail] in Hd. subst l. by repeat constructor. }
  inversion_clear Hsel as [|? ? ? ? H1 Hsel']. inversion_clear Hsel' as [|? ? ? ? H2 Hsel]. inversion_clear Hsel as [|? ? ? ? H5 _].
  destruct (gdt_flush_ok sym ext m ra gp (decode <$> gdt_entries s) Hcl Hds Hp0 ltac:(lia)) as (g & x & Hrun & Hx & Hesp & Hr);
    [|by split|].
  { intros g. apply (table_seen _ gp 48 gdt_vaddr (gdt_entries s) mem mem' Hok); rewrite ?Hlen; done. }
  eexists. split; [exact Hrun|]. split; [exact Hd|]. split; [cbn [table]; by rewrite length_fmap, Hlen|].
  split; [by split|]. split; [exact Hx|]. split; [exact Hesp|]. split; [exact Hr|]. do 4 (split; [reflexivity|]).
  intros segsel m2 ra2 n Esel Et Hcl2. rewrite Etr in Esel. injection Esel as <-.
  destruct (tss_load_ok sym ext m2 ra2 (task_segment tss_vaddr) n Hcl2) as (g2 & E2 & _); [by rewrite Et|done|].
  by exists g2.
Qed.

(** ** A machine without paging: the table at 0x106000, the pointer to it on the stack *)

Definition demo_gdt : list gdt_entry :=
  match gdt_init 0x106000 0xC0107040 gdt_start with Ok (_, s) => gdt_entries s | _ => [] end.

Definition pointer_bytes : bytes := store 0x200010 (scalars struct_gdt_ptr) [48; 0x106000] (λ _, 0).
Definition table_bytes : bytes := store_table 0x106000 demo_gdt (λ _, 0).

(** [n] words of memory from [a] on. *)
Definition words_of (mem : bytes) (a n : Z) : list (Z * Z) := (λ i, (a + 4 * i, get mem (a + 4 * i) 4)) <$> seqZ 0 n.

Definition flush_machine : machine unit :=
  Machine unit (upd ESP 0x200000 demo_registers)
    (λ x, Segment 0x18 (flat 0 (if decide (x = CS) then CODE_RX_TYPE else DATA_RW_TYPE))) 2 (λ _, 0)
    (list_to_map (words_of pointer_bytes 0x200010 2 ++ words_of table_bytes 0x106000 12
      ++ [(0x200000, 0xC0100abc); (0x200004, 0x200010)])) [] tt.

Lemma sees_compute {X} (m : machine X) mem a n :
  bool_decide (Forall (λ x, byte_at m x = Some (mem x)) (seqZ a n)) = true → sees m mem a n.
Proof.
  intros H%bool_decide_eq_true x Hx. rewrite Forall_forall in H. apply H, elem_of_seqZ. lia.
Qed.

Lemma gdt_flush_loads_witness :
  ∃ m' : machine unit, run gdt_assembler demo_sym (λ _, fault) 10 (from "gdt_flush" gdt_assembler) flush_machine
      = Ok (0xC0100abc, m') ∧
    kernel_table (table m') ∧ sr m' SS = Segment 0x10 (flat 0 DATA_RW_TYPE) ∧ gr m' EBX = 4.
Proof.
  destruct (gdt_flush_loads demo_sym (λ _, fault) flush_machine 0x106000 0xC0107040 (Gdt demo_gdt (Some (48, 0x106000)) (Some 0x28))
    0x200010 0xC0100abc (λ _, 0) (λ _, 0) 48 0x106000) as (m' & Hrun & _ & _ & Ht & Hx & _ & Hr & _);
    [lia|lia|reflexivity|reflexivity|lia|by vm_compute|by apply sees_compute; vm_compute|by apply sees_compute; vm_compute
    | |by vm_compute|].
  - split; [done|by vm_compute|by vm_compute|exists 0x200000; by split|exists 0x200004; by split].
  - exists m'. split; [exact (Hrun 0%nat)|]. split; [exact Ht|]. split; [exact (Hx SS)|exact (Hr EBX ltac:(done) ltac:(done))].
Defined.
