(* ===== verification/Routines.v ===== *)
(** * Routines: paging_assembler.s, io.s and task.s

    The short routines C calls, run on the machine. Those of paging.c do what Paging
    says they do, and come back when the stack is mapped by the directory they
    load, as it is in [pdt_load_process_pdt]; [outb] and [inb] pass the C code's
    values to the devices ([routines_refine]). Two of task.s do not come back to their
    caller, which Multitask takes over. *)

From S2P Require Import Prelude Interfaces Frames Mmu Paging PagingFacts PageMap PageFind DemoMachine PdtCreate Gdt Machine StackView Calls Stubs.

Definition paging_assembler : program :=
  [("pdt_set", [Load 4 (Some ESP) EAX; AndI 0xFFFFF000 EAX; OrI 0x08 EAX; MovToCr EAX CR3; Ret]);
   ("pagetable_load", [Load 4 (Some ESP) EAX; MovToCr EAX CR3; Ret]);
   ("invalidate_page_table_entry", [Load 4 (Some ESP) EAX; Invlpg (Some EAX); Ret])].

Definition io_assembler : program :=
  [("outb", [Load16 4 (Some ESP) EDX; Load8 8 (Some ESP) EAX; Port "out"; Ret]);
   ("inb", [Load16 4 (Some ESP) EDX; Port "in"; Ret]);
   ("inw", [Load16 4 (Some ESP) EDX; Port "inw"; Ret])].

Definition task_assembler : program :=
  [("get_ebp", [MovR EBP EAX; Ret]);
   ("get_esp", [MovR ESP EAX; Ret]);
   ("get_eip", [PopR EAX; Ret]);
   ("set_ebp", [Load 4 (Some ESP) EAX; MovR EAX EBP; Ret]);
   ("set_esp", [Load 4 (Some ESP) EAX; MovR EAX ESP; Ret])].

Section routines.
Context {X : Type} (sym : string → Z) (ext : string → M (machine X) unit).
Implicit Types m : machine X.

(** The routine at [l] comes back to the address [ra] in [k] steps with [a] in [eax],
    [sp] in [esp] and the control registers [c]; else only flags have changed. *)
Definition returns prog (l : string) (k : nat) m (ra a sp : Z) (c : creg → Z) : Prop :=
  ∃ g f, (∀ n, run prog sym ext (k + n) (from l prog) m = Ok (ra, Machine X g (sr m) f c (ram m) (table m) (world m))) ∧
    g ESP = sp ∧ g EAX = a ∧ ∀ r, r ≠ EAX → r ≠ ESP → g r = gr m r.

Lemma load_argument prog m ra arg code n :
  called m ra arg →
  run prog sym ext (S n) (Load 4 (Some ESP) EAX :: code) m = run prog sym ext n code (set_gr EAX arg m).
Proof.
  intros Hcl. apply run_step. cbn [exec]. unfold next_instr, offset_of, segment_of.
  rewrite bind_assoc, (bind_ok _ _ m (u32 (gr m ESP + 4)) m) by done.
  by rewrite bind_assoc, (bind_ok _ _ _ _ _ (read_argument m ra arg Hcl)).
Qed.

(** ** paging_assembler.s *)

Lemma ret_at prog m ra code n p :
  flat_read (desc (sr m SS)) → 0 <= gr m ESP ∧ gr m ESP + 8 <= 4294967296 ∧ gr m ESP mod 4 = 0 →
  translate m (gr m ESP) = Some p → ld (ram m) p = ra →
  run prog sym ext (S n) (Ret :: code) m = Ok (ra, set_gr ESP (gr m ESP + 4) m).
Proof.
  intros Hs (H0 & H8 & H4) Hp Hra. cbn [run exec]. rewrite bind_assoc.
  assert (E : pop m = Ok (ra, set_gr ESP (gr m ESP + 4) m)).
  { unfold pop. rewrite (bind_ok _ _ m (gr m ESP) m) by done.
    rewrite (bind_ok _ _ _ _ _ (read_flat m SS (gr m ESP) p Hs ltac:(lia) H4 Hp)). by rewrite Hra, u32_small by lia. }
  by rewrite (bind_ok _ _ _ _ _ E).
Qed.

(** ** paging_assembler.s *)

(** [pdt_set] puts in CR3 what Paging's [pdt_set] does, and returns when its stack
    is mapped as before. *)
Lemma pdt_set_ok m ra paddr p :
  called m ra paddr → let c := Z.lor (Z.land paddr 0xFFFFF000) 0x08 in
  translate (set_cr CR3 c m) (gr m ESP) = Some p → ld (ram m) p = ra →
  returns paging_assembler "pdt_set" 5 m ra c (gr m ESP + 4) (upd CR3 c (cr m)).
Proof.
  intros Hcl c Hp Hra. pose proof Hcl as [_ Hs He _ _]. set (m1 := set_gr EAX paddr m).
  set (a2 := Z.land (gr m1 EAX) (u32 0xFFFFF000)). set (m2 := set_flags (with_result (mflags m1) a2 false) (set_gr EAX a2 m1)).
  set (a3 := Z.lor (gr m2 EAX) (u32 0x08)). set (m3 := set_flags (with_result (mflags m2) a3 false) (set_gr EAX a3 m2)).
  set (m4 := set_cr CR3 (gr m3 EAX) m3).
  assert (Ea : gr m3 EAX = c).
  { unfold m3, a3, m2, a2, m1. cbn [gr set_flags set_gr]. by rewrite !upd_eq. }
  assert (Ecr : cr m4 = upd CR3 c (cr m)) by (unfold m4; cbn [cr set_cr]; by rewrite Ea).
  assert (Eg : ∀ r, r ≠ EAX → gr m4 r = gr m r).
  { intros r Hr. unfold m4, m3, m2, m1. cbn [gr set_cr set_flags set_gr]. by rewrite !upd_ne. }
  exists (upd ESP (gr m4 ESP + 4) (gr m4)), (mflags m4). split; [|split; [|split]].
  - intros n. change (from "pdt_set" paging_assembler)
      with (Load 4 (Some ESP) EAX :: AndI 0xFFFFF000 EAX :: OrI 0x08 EAX :: MovToCr EAX CR3 :: Ret :: from "pagetable_load" paging_assembler).
    cbn [Nat.add]. rewrite (load_argument _ _ _ _ _ _ Hcl). fold m1.
    rewrite (run_step _ _ _ _ _ m1 m2), (run_step _ _ _ _ _ m2 m3), (run_step _ _ _ _ _ m3 m4) by reflexivity.
    rewrite (ret_at _ m4 ra _ _ p); [by rewrite <- Ecr|exact Hs|by rewrite Eg| |exact Hra].
    rewrite Eg by done. rewrite <- Hp. unfold translate, paging_on. by rewrite Ecr.
  - rewrite upd_eq. by rewrite Eg.
  - rewrite upd_ne by done. exact Ea.
  - intros r H1 H2. by rewrite upd_ne, Eg.
Qed.

Lemma invalidate_ok m ra v :
  called m ra v → returns paging_assembler "invalidate_page_table_entry" 3 m ra v (gr m ESP + 4) (cr m).
Proof.
  intros Hcl. set (m1 := set_gr EAX v m).
  exists (upd ESP (gr m1 ESP + 4) (gr m1)), (mflags m1). split; [|split; [|split]].
  - intros n. change (from "invalidate_page_table_entry" paging_assembler) with [Load 4 (Some ESP) EAX; Invlpg (Some EAX); Ret].
    cbn [Nat.add]. rewrite (load_argument _ _ _ _ _ _ Hcl). fold m1. rewrite (run_step _ _ _ _ _ m1 m1).
    + rewrite (run_ret _ _ _ _ m1 ra v); [reflexivity|]. apply (called_same m m1 _ _ Hcl); [apply Hcl|apply Hcl|done..].
    + cbn [exec]. unfold mbind, M_bind, gets. change (cpl m1) with (cpl m). by rewrite (cl_level _ _ _ Hcl).
  - by rewrite upd_eq.
  - unfold m1. cbn [gr set_gr]. by rewrite upd_ne, upd_eq.
  - intros r H1 H2. unfold m1. cbn [gr set_gr]. by rewrite !upd_ne.
Qed.

(** ** io.s *)

(** A device on the ports: the C code's functions on its state, given the registers. *)
Definition device_out (out : Z → Z → M X unit) : M (machine X) unit :=
  p ← gets (λ m, u16 (gr m EDX)); v ← gets (λ m, u8 (gr m EAX)); zoom world set_world (out p v).
Definition device_in (inp : Z → M X Z) : M (machine X) unit :=
  p ← gets (λ m, u16 (gr m EDX)); v ← zoom world set_world (inp p);
  modify (λ m, set_gr EAX (gr m EAX / 256 * 256 + u8 v) m).

Lemma load_port m ra port code n :
  called m ra port →
  run io_assembler sym ext (S n) (Load16 4 (Some ESP) EDX :: code) m
  = run io_assembler sym ext n code (set_gr EDX (gr m EDX / 65536 * 65536 + u16 port) m).
Proof.
  intros Hcl. apply run_step. cbn [exec]. unfold next_instr, offset_of, segment_of.
  rewrite bind_assoc, (bind_ok _ _ m (u32 (gr m ESP + 4)) m) by done.
  by rewrite bind_assoc, (bind_ok _ _ _ _ _ (read_argument m ra port Hcl)).
Qed.

(** [outb] gives the device the 16 bits of the port and the 8 of the value. *)
Lemma outb_ok out m ra port value q w' :
  ext "out" = device_out out → called m ra port → gr m ESP + 12 <= 4294967296 →
  translate m (gr m ESP + 8) = Some q → ld (ram m) q = value → out (u16 port) (u8 value) (world m) = Ok (tt, w') →
  ∃ g, (∀ n, run io_assembler sym ext (4 + n) (from "outb" io_assembler) m
      = Ok (ra, Machine X g (sr m) (mflags m) (cr m) (ram m) (table m) w')) ∧
    g ESP = gr m ESP + 4 ∧ ∀ r, r ≠ EAX → r ≠ EDX → r ≠ ESP → g r = gr m r.
Proof.
  intros Hext Hcl H12 Hq Hv Hw. pose proof Hcl as [_ Hs (H0 & H8 & H4) _ _].
  set (d := gr m EDX / 65536 * 65536 + u16 port). set (m1 := set_gr EDX d m).
  set (a := gr m1 EAX / 256 * 256 + u8 value). set (m2 := set_gr EAX a m1). set (m3 := set_world w' m2).
  assert (E2 : exec io_assembler sym ext (Load8 8 (Some ESP) EAX) m1 = Ok (Next, m2)).
  { cbn [exec]. unfold next_instr, offset_of, segment_of. rewrite bind_assoc, (bind_ok _ _ m1 (gr m ESP + 8) m1).
    - assert (Er : read SS (gr m ESP + 8) m1 = Ok (ld (ram m1) q, m1)).
      { apply read_flat; [exact Hs|lia|Z.to_euclidean_division_equations; lia|exact Hq]. }
      rewrite bind_assoc, (bind_ok _ _ _ _ _ Er). change (ram m1) with (ram m). by rewrite Hv.
    - unfold gets. change (gr m1 ESP) with (gr m ESP). by rewrite u32_small by lia. }
  assert (E3 : exec io_assembler sym ext (Port "out") m2 = Ok (Next, m3)).
  { cbn [exec]. unfold next_instr. rewrite (bind_ok _ _ m2 tt m3); [done|]. rewrite Hext. unfold device_out, mbind, M_bind, gets, zoom.
    assert (Ed : gr m2 EDX = d) by (unfold m2, m1; cbn [gr set_gr]; by rewrite upd_ne, upd_eq).
    assert (Ea : gr m2 EAX = a) by (unfold m2; cbn [gr set_gr]; by rewrite upd_eq).
    rewrite Ed, Ea. replace (u16 d) with (u16 port) by (unfold d; clia). replace (u8 a) with (u8 value) by (unfold a; clia).
    change (world m2) with (world m). by rewrite Hw. }
  exists (upd ESP (gr m3 ESP + 4) (gr m3)). split; [|split; [by rewrite upd_eq|]].
  - intros n. change (from "outb" io_assembler)
      with (Load16 4 (Some ESP) EDX :: Load8 8 (Some ESP) EAX :: Port "out" :: Ret :: from "inb" io_assembler).
    cbn [Nat.add]. rewrite (load_port _ _ _ _ _ Hcl). fold d m1. rewrite (run_step _ _ _ _ _ m1 m2 _ E2), (run_step _ _ _ _ _ m2 m3 _ E3).
    rewrite (run_ret _ _ _ _ m3 ra port); [reflexivity|]. apply (called_same m m3 _ _ Hcl); [apply Hcl|apply Hcl|done..].
  - intros r H1 H2 H3. unfold m3, m2, m1. cbn [gr set_world set_gr]. by rewrite !upd_ne.
Qed.

(** [inb] answers the device's byte, in the low byte of [eax]. *)
Lemma inb_ok inp m ra port v w' :
  ext "in" = device_in inp → called m ra port → inp (u16 port) (world m) = Ok (v, w') →
  ∃ g, (∀ n, run io_assembler sym ext (3 + n) (from "inb" io_assembler) m
      = Ok (ra, Machine X g (sr m) (mflags m) (cr m) (ram m) (table m) w')) ∧
    u8 (g EAX) = u8 v ∧ g ESP = gr m ESP + 4 ∧ ∀ r, r ≠ EAX → r ≠ EDX → r ≠ ESP → g r = gr m r.
Proof.
  intros Hext Hcl Hw. set (d := gr m EDX / 65536 * 65536 + u16 port). set (m1 := set_gr EDX d m).
  set (m2 := set_world w' m1). set (a := gr m2 EAX / 256 * 256 + u8 v). set (m3 := set_gr EAX a m2).
  assert (E3 : exec io_assembler sym ext (Port "in") m1 = Ok (Next, m3)).
  { cbn [exec]. unfold next_instr. rewrite (bind_ok _ _ m1 tt m3); [done|]. rewrite Hext. unfold device_in, mbind, M_bind, gets, zoom.
    assert (Ed : gr m1 EDX = d) by (unfold m1; cbn [gr set_gr]; by rewrite upd_eq).
    rewrite Ed. replace (u16 d) with (u16 port) by (unfold d; clia). change (world m1) with (world m). by rewrite Hw. }
  exists (upd ESP (gr m3 ESP + 4) (gr m3)). split; [|split; [|split; [by rewrite upd_eq|]]].
  - intros n. change (from "inb" io_assembler) with (Load16 4 (Some ESP) EDX :: Port "in" :: Ret :: from "inw" io_assembler).
    cbn [Nat.add]. rewrite (load_port _ _ _ _ _ Hcl). fold d m1. rewrite (run_step _ _ _ _ _ m1 m3 _ E3).
    rewrite (run_ret _ _ _ _ m3 ra port); [reflexivity|]. apply (called_same m m3 _ _ Hcl); [apply Hcl|apply Hcl|done..].
  - rewrite upd_ne by done. unfold m3. cbn [gr set_gr]. rewrite upd_eq. unfold a. clia.
  - intros r H1 H2 H3. unfold m3, m2, m1. cbn [gr set_world set_gr]. by rewrite !upd_ne.
Qed.

(** ** task.s *)

(** [get_esp] answers where its return address is, 4 below its caller's [esp]; [get_ebp] its
    caller's [ebp]. *)
Lemma get_registers_ok m ra w :
  called m ra w →
  returns task_assembler "get_esp" 2 m ra (gr m ESP) (gr m ESP + 4) (cr m) ∧
  returns task_assembler "get_ebp" 2 m ra (gr m EBP) (gr m ESP + 4) (cr m).
Proof.
  intros Hcl.
  assert (H : ∀ l (r : reg), (∀ n, run task_assembler sym ext (2 + n) (from l task_assembler) m
      = run task_assembler sym ext (2 + n) (MovR r EAX :: Ret :: tail (tail (from l task_assembler))) m) →
    returns task_assembler l 2 m ra (gr m r) (gr m ESP + 4) (cr m)).
  { intros l r Hl. set (m1 := set_gr EAX (gr m r) m).
    exists (upd ESP (gr m1 ESP + 4) (gr m1)), (mflags m1). split; [|split; [|split]].
    - intros n. rewrite Hl. cbn [Nat.add]. rewrite (run_step _ _ _ _ _ m m1) by reflexivity.
      rewrite (run_ret _ _ _ _ m1 ra w); [reflexivity|]. apply (called_same m m1 _ _ Hcl); [apply Hcl|apply Hcl|done..].
    - by rewrite upd_eq.
    - unfold m1. cbn [gr set_gr]. by rewrite upd_ne, upd_eq.
    - intros r' H1 H2. unfold m1. cbn [gr set_gr]. by rewrite !upd_ne. }
  split; by apply H.
Qed.

Lemma set_ebp_ok m ra v :
  called m ra v →
  ∃ g, (∀ n, run task_assembler sym ext (3 + n) (from "set_ebp" task_assembler) m
      = Ok (ra, Machine X g (sr m) (mflags m) (cr m) (ram m) (table m) (world m))) ∧
    g ESP = gr m ESP + 4 ∧ g EBP = v ∧ ∀ r, r ≠ EAX → r ≠ ESP → r ≠ EBP → g r = gr m r.
Proof.
  intros Hcl. set (m1 := set_gr EAX v m). set (m2 := set_gr EBP v m1).
  exists (upd ESP (gr m2 ESP + 4) (gr m2)). split; [|split; [by rewrite upd_eq|split]].
  - intros n. change (from "set_ebp" task_assembler) with (Load 4 (Some ESP) EAX :: MovR EAX EBP :: Ret :: from "set_esp" task_assembler).
    cbn [Nat.add]. rewrite (load_argument _ _ _ _ _ _ Hcl). fold m1. rewrite (run_step _ _ _ _ _ m1 m2) by reflexivity.
    rewrite (run_ret _ _ _ _ m2 ra v); [reflexivity|]. apply (called_same m m2 _ _ Hcl); [apply Hcl|apply Hcl|done..].
  - rewrite upd_ne by done. apply upd_eq.
  - intros r H1 H2 H3. unfold m2, m1. cbn [gr set_gr]. by rewrite !upd_ne.
Qed.

(** [set_esp] returns through the stack it changes to: to whatever word is at the
    address it is given, and not to its caller. *)
Lemma set_esp_astray m ra v q stray :
  called m ra v → 0 <= v ∧ v + 8 <= 4294967296 ∧ v mod 4 = 0 → translate m v = Some q → ld (ram m) q = stray →
  returns task_assembler "set_esp" 3 m stray v (v + 4) (cr m).
Proof.
  intros Hcl Hv Hq Hw. set (m1 := set_gr EAX v m). set (m2 := set_gr ESP v m1).
  assert (Ev : gr m2 ESP = v) by apply upd_eq.
  exists (upd ESP (gr m2 ESP + 4) (gr m2)), (mflags m2). split; [|split; [|split]].
  - intros n. change (from "set_esp" task_assembler) with [Load 4 (Some ESP) EAX; MovR EAX ESP; Ret].
    cbn [Nat.add]. rewrite (load_argument _ _ _ _ _ _ Hcl). fold m1. rewrite (run_step _ _ _ _ _ m1 m2) by reflexivity.
    by rewrite (ret_at _ m2 stray _ _ q); [reflexivity|apply Hcl|rewrite Ev|rewrite Ev|].
  - by rewrite upd_eq, Ev.
  - unfold m2, m1. cbn [gr set_gr]. by rewrite !upd_ne, upd_eq by done.
  - intros r H1 H2. unfold m2, m1. cbn [gr set_gr]. by rewrite !upd_ne.
Qed.

(** [get_eip] takes its return address off the stack into [eax], and then returns to
    the word under it, which is its caller's. *)
Lemma get_eip_astray m ra w :
  called m ra w → gr m ESP + 12 <= 4294967296 →
  returns task_assembler "get_eip" 2 m w ra (gr m ESP + 8) (cr m).
Proof.
  intros Hcl H12. pose proof (pop_return m ra w Hcl) as Ep. pose proof Hcl as [_ Hs (H0 & H8 & H4) _ (q & Hq & Hw)].
  set (m1 := set_gr ESP (gr m ESP + 4) m) in *. set (m2 := set_gr EAX ra m1).
  assert (Ev : gr m2 ESP = gr m ESP + 4) by (unfold m2, m1; cbn [gr set_gr]; by rewrite upd_ne, upd_eq by done).
  exists (upd ESP (gr m2 ESP + 4) (gr m2)), (mflags m2). split; [|split; [|split]].
  - intros n. change (from "get_eip" task_assembler) with (PopR EAX :: Ret :: from "set_ebp" task_assembler).
    cbn [Nat.add]. rewrite (run_step _ _ _ _ _ m m2).
    + rewrite (ret_at _ m2 w _ _ q); [reflexivity|exact Hs|rewrite Ev|by rewrite Ev|exact Hw].
      split_and!; [lia|lia|Z.to_euclidean_division_equations; lia].
    + cbn [exec]. unfold next_instr. by rewrite bind_assoc, (bind_ok _ _ _ _ _ Ep).
  - rewrite upd_eq, Ev. lia.
  - rewrite upd_ne by done. apply upd_eq.
  - intros r H1 H2. unfold m2, m1. cbn [gr set_gr]. by rewrite !upd_ne.
Qed.
End routines.

(** ** The end of [pdt_load_process_pdt]

    The machine has the memory of Paging's state, with the entries of the kernel
    copied; its stack is the kernel's. *)
Section refine.
Context {X : Type} (sym : string → Z) (ext : string → M (machine X) unit).
Context {St : Type} `{!FrameOps St, !FrameLaws St}.
Implicit Types (m : machine X) (s : paging St).

(** [m] is about to run the last statement of [pdt_load_process_pdt pdt P], which takes
    Paging from [s] to [s']. *)
Record loading s s' (pdt P : Z) m (ra : Z) : Prop := Loading {
  ld_wf : kernel_wf s;
  ld_tables : kernel_tables s;
  ld_loadable : loadable s pdt P;
  ld_run : pdt_load_process_pdt pdt P s = Ok (tt, s');
  ld_ram : ram m = phys s';
  ld_paging : paging_on m = true ∧ Z.testbit (cr m CR4) 4 = true;
  ld_kernel : gr m ESP < 0x400000 ∨ 0xC0000000 <= gr m ESP;
  ld_stack : ∃ p, walk (phys s) (kernel_pdt s) (gr m ESP) = Some p ∧ ld (ram m) p = ra
}.

(** The routine comes back, with the CR3 Paging has, and the machine translates
    every address as Paging does. *)
Lemma load_pdt_returns s s' pdt P m ra :
  loading s s' pdt P m ra → called m ra P →
  returns sym ext paging_assembler "pdt_set" 5 m ra (cr3 s') (gr m ESP + 4) (upd CR3 (cr3 s') (cr m)) ∧
  ∀ a, translate (set_cr CR3 (cr3 s') m) a = walk (phys s') (active s') a.
Proof.
  intros [Hwf Hkt Hload E Hram [Hon Hpse] Hesp (p & Hw & Hra)] Hcl.
  assert (Ht : ∀ a, translate (set_cr CR3 (cr3 s') m) a = walk (phys s') (active s') a).
  { intros a. assert (Eon : paging_on (set_cr CR3 (cr3 s') m) = true)
      by (rewrite <- Hon; unfold paging_on; cbn [set_cr cr]; by rewrite upd_ne).
    unfold translate. rewrite Eon. cbn [set_cr cr ram]. by rewrite upd_ne, Hpse, upd_eq, Hram by done. }
  split; [|exact Ht]. pose proof (loaded_kernel s pdt P Hwf Hkt Hload (gr m ESP) p) as Hk.
  pose proof (pdt_load_process_pdt_ok s pdt P Hwf Hkt Hload) as Eok. rewrite E in Eok. clear E.
  generalize dependent (loaded s P). intros words Hk Eok. injection Eok as ->. cbn [set_cr3 set_phys phys cr3] in *.
  pose proof Hcl as [_ _ (H0 & H8 & _) _ _].
  apply (pdt_set_ok sym ext m ra P p Hcl); [|exact Hra].
  change (Z.lor (Z.land P 0xFFFFF000) 0x08) with (cr3_of P). rewrite Ht. unfold active. cbn [set_cr3 set_phys phys cr3].
  rewrite (cr3_of_base s pdt P Hload). apply Hk; [lia|done|exact Hw].
Qed.

(** C39: The routines in assembler that the C code calls and that come back do to the
    machine what the model of the C code takes them to do. [pdt_set], at the end of
    [pdt_load_process_pdt], returns to its caller although it changes the directory under
    its own stack: CR3 is the one of the C model, and from then on the machine translates
    every address as the model does. [invalidate_page_table_entry] returns with
    nothing else changed. [outb] gives the device exactly the low 16 bits of the port
    and the low 8 of the value, [inb] answers the device's byte, and [get_esp],
    [get_ebp] and [set_ebp] answer or set the registers of their caller. All keep the
    registers C expects to be kept. *)
Theorem routines_refine out inp m ra arg :
  called m ra arg → gr m ESP + 12 <= 4294967296 → ext "out" = device_out out → ext "in" = device_in inp →
  (∀ s s' pdt, loading s s' pdt arg m ra →
    returns sym ext paging_assembler "pdt_set" 5 m ra (cr3 s') (gr m ESP + 4) (upd CR3 (cr3 s') (cr m)) ∧
    ∀ a, translate (set_cr CR3 (cr3 s') m) a = walk (phys s') (active s') a) ∧
  returns sym ext paging_assembler "invalidate_page_table_entry" 3 m ra arg (gr m ESP + 4) (cr m) ∧
  (∀ q value w', translate m (gr m ESP + 8) = Some q → ld (ram m) q = value →
    out (u16 arg) (u8 value) (world m) = Ok (tt, w') →
    ∃ g, (∀ n, run io_assembler sym ext (4 + n) (from "outb" io_assembler) m
        = Ok (ra, Machine X g (sr m) (mflags m) (cr m) (ram m) (table m) w')) ∧
      g ESP = gr m ESP + 4 ∧ ∀ r, r ≠ EAX → r ≠ EDX → r ≠ ESP → g r = gr m r) ∧
  (∀ v w', inp (u16 arg) (world m) = Ok (v, w') →
    ∃ g, (∀ n, run io_assembler sym ext (3 + n) (from "inb" io_assembler) m
        = Ok (ra, Machine X g (sr m) (mflags m) (cr m) (ram m) (table m) w')) ∧
      u8 (g EAX) = u8 v ∧ g ESP = gr m ESP + 4 ∧ ∀ r, r ≠ EAX → r ≠ EDX → r ≠ ESP → g r = gr m r) ∧
  returns sym ext task_assembler "get_esp" 2 m ra (gr m ESP) (gr m ESP + 4) (cr m) ∧
  returns sym ext task_assembler "get_ebp" 2 m ra (gr m EBP) (gr m ESP + 4) (cr m) ∧
  ∃ g, (∀ n, run task_assembler sym ext (3 + n) (from "set_ebp" task_assembler) m
      = Ok (ra, Machine X g (sr m) (mflags m) (cr m) (ram m) (table m) (world m))) ∧
    g ESP = gr m ESP + 4 ∧ g EBP = arg ∧ ∀ r, r ≠ EAX → r ≠ ESP → r ≠ EBP → g r = gr m r.
Proof.
  intros Hcl H12 Hout Hin. destruct (get_registers_ok sym ext m ra arg Hcl) as [Hesp Hebp].
  split; [|split; [|split; [|split; [|split; [|split]]]]].
  - intros s s' pdt Hld. by apply (load_pdt_returns s s' pdt arg m ra).
  - by apply invalidate_ok.
  - intros q value w' Hq Hv Hw. by apply (outb_ok sym ext out m ra arg value q).
  - intros v w' Hv. by apply (inb_ok sym ext inp m ra arg v w' Hin).
  - exact Hesp.
  - exact Hebp.
  - by apply set_ebp_ok.
Qed.
End refine.

(** ** At the concrete machine

    The stack of the call is at [0x3000], and holds the address of a second directory,
    which is also taken as a port, and a value. *)
Definition demo_stacked : paging frames :=
  Paging.set_phys (<[0x3000 := 0xC0101234]> (<[0x3004 := 0x105000]> (<[0x3008 := 0x4120]> (phys DemoMachine.demo_machine))))
    DemoMachine.demo_machine.

Definition demo_loaded : paging frames :=
  match pdt_load_process_pdt 0x105000 0x105000 demo_stacked with Ok (_, s) => s | _ => demo_stacked end.

(** A device that keeps what is written, last first, and answers the last value. *)
Definition demo_out (port value : Z) : M (list (Z * Z)) unit := modify (λ l, (port, value) :: l).
Definition demo_in (port : Z) : M (list (Z * Z)) Z := gets (λ l, default 0 (snd <$> head l)).
Definition demo_ports (x : string) : M (machine (list (Z * Z))) unit :=
  if decide (x = "out") then device_out demo_out else device_in demo_in.

Definition loading_machine : machine (list (Z * Z)) :=
  Machine _ (upd ESP 0x3000 demo_registers) demo_segments 0x202 demo_control (phys demo_loaded) [] [(1, 0x77)].

Lemma demo_stacked_ld a : a ≠ 0x3000 → a ≠ 0x3004 → a ≠ 0x3008 →
  ld (phys demo_stacked) a = ld (phys DemoMachine.demo_machine) a.
Proof. intros H1 H2 H3. unfold demo_stacked. cbn [Paging.set_phys phys]. by rewrite !ld_insert_ne by done. Qed.

Lemma demo_stacked_wf : kernel_wf demo_stacked.
Proof.
  apply (kernel_wf_mem DemoMachine.demo_machine); try done; [exact demo_wf|apply demo_wf|].
  intros a. unfold demo_stacked. cbn [Paging.set_phys phys]. rewrite !ld_insert. pose proof (demo_words a).
  repeat case_decide; done.
Qed.

Lemma demo_stacked_tables : kernel_tables demo_stacked.
Proof.
  destruct demo_tables as [H1 H2 H3 _]. split; [exact H1|exact H2|exact H3|]. intros idx Hi.
  clear H1 H2 H3. change (kernel_pdt _) with 0x101000. unfold good_pde. rewrite demo_stacked_ld, demo_pde by lia.
  repeat case_decide; try lia; [|done]. subst. intros _. by split_and!.
Qed.

Lemma demo_stacked_loadable : loadable demo_stacked 0x105000 0x105000.
Proof.
  destruct demo_loadable as [H1 H2 H3 H4 H5 H6 H7].
  split; [|exact H2|exact H3|exact H4|done|intros idx Hi..].
  - destruct H1. by split.
  - change (kernel_pdt demo_stacked) with 0x101000. rewrite (demo_stacked_ld (0x101000 + 4 * idx)) by (clear -Hi; lia). exact (H6 idx Hi).
  - rewrite (demo_stacked_ld (0x105000 + 4 * idx)) by (clear -Hi; lia). exact (H7 idx Hi).
Qed.

Lemma demo_loading : loading demo_stacked demo_loaded 0x105000 0x105000 loading_machine 0xC0101234.
Proof.
  split; [exact demo_stacked_wf|exact demo_stacked_tables|exact demo_stacked_loadable|by vm_compute|reflexivity|by split| |].
  - left. by vm_compute.
  - exists 0x3000. split; by vm_compute.
Qed.

Lemma demo_called : called loading_machine 0xC0101234 0x105000.
Proof. split; [done|done|by split_and!|exists 0x3000; by split; vm_compute|exists 0x3004; by split; vm_compute]. Qed.

Lemma routines_refine_witness :
  (∃ m', run paging_assembler demo_sym demo_ports 5 (from "pdt_set" paging_assembler) loading_machine = Ok (0xC0101234, m') ∧
    cr m' CR3 = 0x105008) ∧
  ∃ m', run io_assembler demo_sym demo_ports 4 (from "outb" io_assembler) loading_machine = Ok (0xC0101234, m') ∧
    world m' = [(0x5000, 0x20); (1, 0x77)].
Proof.
  destruct (routines_refine demo_sym demo_ports demo_out demo_in loading_machine 0xC0101234 0x105000 demo_called
    ltac:(done) eq_refl eq_refl) as (Hpdt & _ & Hout & _).
  split.
  - destruct (Hpdt demo_stacked demo_loaded 0x105000 demo_loading) as [(g & f & E & _) _].
    eexists. split; [exact (E 0%nat)|]. by vm_compute.
  - destruct (Hout 0x3008 0x4120 [(0x5000, 0x20); (1, 0x77)]) as (g & E & _); [by vm_compute|by vm_compute|done|].
    eexists. split; [exact (E 0%nat)|]. done.
Defined.
