(* ===== verification/Exceptions.v ===== *)
(** * Exceptions: what the kernel does on an exception of the processor *)

From S2P Require Import Prelude Tty TtyFacts TtySpec Printk TtySafe Interrupts Devices InterruptsSpec.

Implicit Types (s : cpu) (regs : registers).

(** ** The report *)

Definition hex (n : Z) : list Z := bytes_of "0x" ++ numeral 16 8 n.
Definition labelled (l : string) (n : Z) : list Z := bytes_of l ++ hex n.

(** The text shown for the registers [regs], [msg] being the name of the exception. *)
Definition exception_report regs (msg : list Z) : list Z :=
  labelled "Unhandled exception - " (interrupt_number regs) ++
  labelled " : [errno - " (error_code regs) ++ bytes_of "]: " ++ msg ++ [NEWLINE] ++
  labelled "Data segments: gs[" (gs regs) ++ labelled "], fs[" (fs regs) ++
  labelled "], es[" (es regs) ++ labelled "], ds[" (ds regs) ++ line "]" ++
  concat ((λ '(l, n), labelled l n ++ [NEWLINE]) <$>
    [("edi: ", edi regs); ("esi: ", esi regs); ("ebp: ", ebp regs); ("esp: ", esp regs);
     ("ebx: ", ebx regs); ("edx: ", edx regs); ("ecx: ", ecx regs); ("eax: ", eax regs);
     ("eip: ", eip regs); ("cs: ", cs regs); ("eflags: ", eflags regs); ("usersp: ", useresp regs);
     ("ss: ", ss regs)]).

Definition numbers regs : list Z :=
  [interrupt_number regs; error_code regs; gs regs; fs regs; es regs; ds regs; edi regs; esi regs;
   ebp regs; esp regs; ebx regs; edx regs; ecx regs; eax regs; eip regs; cs regs; eflags regs;
   useresp regs; ss regs].

Definition report_args regs (msg : list Z) : list arg :=
  [AInt (interrupt_number regs); AInt (error_code regs); AStr msg]
  ++ (AInt <$> [gs regs; fs regs; es regs; ds regs; edi regs; esi regs; ebp regs; esp regs;
       ebx regs; edx regs; ecx regs; eax regs; eip regs; cs regs; eflags regs; useresp regs; ss regs]).

Lemma report_rendered regs msg :
  render (parse_format exception_format) (report_args regs msg) = Some (exception_report regs msg).
Proof. reflexivity. Qed.

(** What [interrupt_handler] does before its endless loop, without a handler. *)
Definition unhandled regs : M cpu unit :=
  report_exception regs ≫= λ _, printk (line "abort()") [].

Lemma message_of n : 0 <= n < 32 → is_Some (exception_messages !! Z.to_nat n).
Proof. intros Hn. apply lookup_lt_is_Some. change (length exception_messages) with 33%nat. lia. Qed.

Lemma unhandled_shown s regs msg p :
  exception_messages !! Z.to_nat (interrupt_number regs) = Some msg → Forall (λ n, is_u32 n) (numbers regs) →
  shows p (con s) →
  ∃ c, unhandled regs s = Ok (tt, set_con c s) ∧
    shows (put_all (exception_report regs msg ++ line "abort()") p) c.
Proof.
  intros Hm Hr Hs. unfold unhandled, report_exception. rewrite Hm, bind_assoc. rewrite (bind_ok _ _ s msg s) by done.
  assert (Ha : Forall arg_ok (report_args regs msg)).
  { unfold numbers in Hr. decompose_Forall_hyps. repeat constructor; simpl; lia. }
  destruct (printk_shown s exception_format (report_args regs msg) _ p Ha (report_rendered regs msg) Hs) as (c&E&Hc).
  rewrite (bind_ok _ _ _ _ _ E).
  destruct (printk_shown (set_con c s) (line "abort()") [] _ _ ltac:(constructor) eq_refl Hc) as (c'&E'&Hc').
  exists c'. split; [exact E'|]. unfold put_all in *. by rewrite foldl_app.
Qed.

(** C28: An exception for which a handler was registered runs that handler on
    the registers saved. Without one its name, its number, the error code and all
    registers are shown, then the message of [abort], and the machine stays
    there; no exception's name is missing. *)
Theorem exceptions_dispatched run s regs p :
  0 <= interrupt_number regs < 32 → length (exception_handlers s) = 32%nat →
  Forall (λ n, is_u32 n) (numbers regs) → shows p (con s) →
  (∀ h, ∃ s1, register_isr_handler (interrupt_number regs) h s = Ok (tt, s1) ∧
     interrupt_handler run regs s1 = run h regs s1) ∧
  (exception_handlers s !! Z.to_nat (interrupt_number regs) = Some None →
   ∃ msg c, exception_messages !! Z.to_nat (interrupt_number regs) = Some msg ∧
     unhandled regs s = Ok (tt, set_con c s) ∧
     shows (put_all (exception_report regs msg ++ line "abort()") p) c ∧
     interrupt_handler run regs s = (unhandled regs ≫= λ _, out_of_fuel) s).
Proof.
  intros Hn Hl Hr Hs. split.
  - intros h. eexists. split.
    + unfold register_isr_handler. rewrite (bind_ok _ _ s (exception_handlers s) s) by done. cbv beta. rewrite Hl.
      destruct (Z.leb_spec 0 (interrupt_number regs)); [|lia].
      destruct (Z.ltb_spec (interrupt_number regs) (Z.of_nat 32)); [|lia]. reflexivity.
    + unfold interrupt_handler. set (s1 := set_exception_handlers _ s).
      rewrite (bind_ok _ _ s1 (exception_handlers s1) s1) by done. cbv beta.
      change (exception_handlers s1) with (<[Z.to_nat (interrupt_number regs) := Some h]> (exception_handlers s)).
      rewrite list_lookup_insert_eq by lia. done.
  - intros Hh. destruct (message_of (interrupt_number regs) Hn) as [msg Hm].
    destruct (unhandled_shown s regs msg p Hm Hr Hs) as (c&E&Hc). exists msg, c. split_and!; [done..|].
    unfold interrupt_handler, unhandled, abort. rewrite (bind_ok _ _ s (exception_handlers s) s) by done. cbv beta.
    rewrite Hh. rewrite bind_assoc. by rewrite (bind_ok _ _ s None s).
Qed.

(** A division by zero right after the tables were set up. *)
Lemma exceptions_dispatched_witness :
  ∃ c, unhandled (demo_regs 0) (set_exception_handlers (replicate 32 None) demo_cpu)
      = Ok (tt, set_con c (set_exception_handlers (replicate 32 None) demo_cpu)) ∧
    shows (put_all (exception_report (demo_regs 0) (bytes_of "Divide Error") ++ line "abort()") (replicate 2000 SPACE, 1999)) c.
Proof.
  destruct (exceptions_dispatched call (set_exception_handlers (replicate 32 None) demo_cpu) (demo_regs 0)
      (replicate 2000 SPACE, 1999))
    as [_ H].
  - simpl. lia.
  - reflexivity.
  - repeat constructor; simpl; lia.
  - apply full_console_shows.
  - destruct (H eq_refl) as (msg&c&Hm&E&Hc&_). injection Hm as <-. exists c. split; [exact E|exact Hc].
Defined.
