(* ===== verification/Kernel.v ===== *)
(** * Kernel: the initialisation in kernel/kernel.c

    [kernel_main] over the state of all components. What it does before its
    endless loop is [kernel_boot]; it answers whether the loop is reached, or that
    [scheduler_schedule] has called [run_process_in_user_mode]. *)

From S2P Require Import Prelude CArith Interfaces Frames Mmu Paging PageServices PagingServices Kmalloc FramesInit Tty Printk Gdt Interrupts Devices Tasks ProcessServices Scheduler Process.

Definition MULTIBOOT_BOOTLOADER_MAGIC : Z := 0x2BADB002.

Definition VIRTUAL_TO_PHYSICAL (a : Z) : Z := a -ᵤ Process.KERNEL_START_VADDR.

(** The addresses the linker gives to the statics [tss], [gdt_entries],
    [idt_entries] and [base], and to the stubs of interrupts. *)
Record image := Image {
  a_tss : Z;
  a_gdt : Z;
  a_idt : Z;
  a_base : Z;
  a_isr : Z → Z;
  a_irq : Z → Z
}.

(** [sti] tells whether [enable_interrupts] of interrupts_assembler.s was called. *)
Record kernel := Kernel {
  kgdt : gdt;
  kcpu : cpu;
  ktasks : tasks (paging frames);
  sti : bool
}.

Definition set_kgdt (g : gdt) (s : kernel) : kernel := Kernel g (kcpu s) (ktasks s) (sti s).
Definition set_kcpu (c : cpu) (s : kernel) : kernel := Kernel (kgdt s) c (ktasks s) (sti s).
Definition set_ktasks (t : tasks (paging frames)) (s : kernel) : kernel := Kernel (kgdt s) (kcpu s) t (sti s).

Definition on_gdt {A} (m : M gdt A) : M kernel A := zoom kgdt set_kgdt m.
Definition on_cpu {A} (m : M cpu A) : M kernel A := zoom kcpu set_kcpu m.
Definition on_tasks {A} (m : M (tasks (paging frames)) A) : M kernel A := zoom ktasks set_ktasks m.

Definition enable_interrupts : M kernel unit :=
  modify (λ s, Kernel (kgdt s) (kcpu s) (ktasks s) true).

Definition tss_init (im : image) : M kernel Z := mret (a_tss im).

(** The messages of kernel.c itself go to the console. *)
Definition say (fmt : list Z) (args : list arg) : M kernel unit := on_cpu (Interrupts.printk fmt args).

Section main.
Context (im : image) (fuel : nat).

Definition kernel_boot (kernel_physical_start kernel_physical_end kernel_virtual_start kernel_virtual_end
    kernel_pdt_vaddr kernel_pt_vaddr minfo magic_number : Z) : M kernel (control bool) :=
  tss_vaddr ← tss_init im;
  on_gdt (gdt_init (a_gdt im) tss_vaddr) ≫= λ _,
  on_cpu (clear_idt (a_idt im)) ≫= λ _,
  on_cpu (interrupts_init (a_isr im) (a_irq im)) ≫= λ _,
  enable_interrupts ≫= λ _,
  on_cpu (zoom con set_con tty_clear) ≫= λ _,
  if negb (magic_number =? MULTIBOOT_BOOTLOADER_MAGIC) then
    say (line "ERROR: magic number '%X' is wrong!") [AInt magic_number] ≫= λ _, mret (Back false)
  else
    say (line "Welcome to newbos...") [] ≫= λ _,
    on_tasks (paging_call (frames_init fuel kernel_physical_start kernel_physical_end
      kernel_virtual_start kernel_virtual_end (VIRTUAL_TO_PHYSICAL kernel_pdt_vaddr)
      (VIRTUAL_TO_PHYSICAL kernel_pt_vaddr) minfo)) ≫= λ _,
    on_cpu keyboard_init ≫= λ _,
    i ← on_tasks (Process.kmalloc (a_base im) fuel 4);
    on_tasks (wr i 0 42) ≫= λ _,
    n ← on_tasks (rd i 0);
    say (line "kmalloc'd '%u' at %X...") [AInt n; AInt i] ≫= λ _,
    p ← on_tasks (process_create (a_base im) fuel);
    on_tasks (scheduler_add_process (a_base im) fuel p) ≫= λ _,
    on_tasks scheduler_schedule ⟫= λ _,
    id ← on_tasks (rd p P_ID);
    say (line "Finished process init %u!!!") [AInt id] ≫= λ _,
    mret (Back true).

Definition kernel_main (kernel_physical_start kernel_physical_end kernel_virtual_start kernel_virtual_end
    kernel_pdt_vaddr kernel_pt_vaddr minfo magic_number : Z) : M kernel (control unit) :=
  kernel_boot kernel_physical_start kernel_physical_end kernel_virtual_start kernel_virtual_end
    kernel_pdt_vaddr kernel_pt_vaddr minfo magic_number ⟫= λ forever,
  if forever : bool then out_of_fuel else mret (Back tt).
End main.
