(* ===== verification/KernelSpec.v ===== *)
(** * KernelSpec: the initialisation from the tables to the console *)

From S2P Require Import Prelude CArith Interfaces Frames Mmu Paging PageServices PagingServices Kmalloc KmallocTrace MemoryMap FramesInit Tty TtyFacts TtySpec Printk TtySafe Gdt Interrupts InterruptsSpec Devices Tasks ProcessServices Scheduler Process ProcessCreate ProcessSpec Kernel.

(** The link addresses are 32-bit. *)
Record image_ok (im : image) : Prop := {
  io_tss : is_u32 (a_tss im);
  io_isr : ∀ n, is_u32 (a_isr im n);
  io_irq : ∀ n, is_u32 (a_irq im n)
}.

(** What the processor finds in the tables once interrupts are enabled. *)
Record tables_ready (im : image) (k : kernel) : Prop := {
  tr_segments : decode <$> tail (gdt_entries (kgdt k))
    = [flat 0 CODE_RX_TYPE; flat 0 DATA_RW_TYPE; flat 3 CODE_RX_TYPE; flat 3 DATA_RW_TYPE;
       task_segment (a_tss im)];
  tr_gdtr : gdtr (kgdt k) = Some (48, a_gdt im);
  tr_tr : tr (kgdt k) = Some TSS_SEGSEL;
  tr_gates : ∀ n, 0 <= n < 256 →
    decode_gate <$> idt_entries (kcpu k) !! Z.to_nat n
    = Some (if n <? 32 then kernel_gate (a_isr im n)
            else if n <? 48 then kernel_gate (a_irq im (n - 32)) else no_gate);
  tr_lidt : lidt (kcpu k) = Some (8 * 256 - 1, a_idt im);
  tr_sti : sti k = true
}.

(** The text of the console after the magic number was refused. *)
Definition refusal (magic : Z) : list Z :=
  bytes_of "ERROR: magic number '0x" ++ numeral 16 8 magic ++ bytes_of "' is wrong!" ++ [NEWLINE].

(** A message of kernel.c shows what the reference of [printk] renders. *)
Lemma say_ok fmt args l p (k : kernel) :
  Forall arg_ok args → render (parse_format fmt) args = Some l → shows p (con (kcpu k)) →
  ∃ c, say fmt args k = Ok (tt, set_kcpu (set_con c (kcpu k)) k) ∧ shows (put_all l p) c.
Proof.
  intros Ha Hr Hs. destruct (printk_shown (kcpu k) fmt args l p Ha Hr Hs) as (c&E&Hc).
  exists c. split; [|done]. unfold say, on_cpu, zoom. by rewrite E.
Qed.

(** A call on one component of the state. *)
Lemma on_cpu_ok {A} (m : M cpu A) (k : kernel) x c :
  m (kcpu k) = Ok (x, c) → on_cpu m k = Ok (x, set_kcpu c k).
Proof. intros E. unfold on_cpu, zoom. by rewrite E. Qed.

Lemma on_cpu_seq {A B} (m : M cpu unit) (n : M cpu A) (f : A → M kernel B) k x c :
  (m ≫= λ _, n) (kcpu k) = Ok (x, c) →
  (on_cpu m ≫= λ _, on_cpu n ≫= f) k = f x (set_kcpu c k).
Proof.
  unfold on_cpu, zoom, mbind, M_bind. destruct (m (kcpu k)) as [[[] c1]| |]; [|done..].
  intros E. change (kcpu (set_kcpu c1 k)) with c1. by rewrite E.
Qed.

Lemma on_gdt_ok {A} (m : M gdt A) (k : kernel) x g :
  m (kgdt k) = Ok (x, g) → on_gdt m k = Ok (x, set_kgdt g k).
Proof. intros E. unfold on_gdt, zoom. by rewrite E. Qed.

Lemma refusal_rendered magic :
  render (parse_format (line "ERROR: magic number '%X' is wrong!")) [AInt magic] = Some (refusal magic).
Proof. reflexivity. Qed.

Definition set_sti (k : kernel) : kernel := Kernel (kgdt k) (kcpu k) (ktasks k) true.

Lemma enable_interrupts_ok k : enable_interrupts k = Ok (tt, set_sti k).
Proof. reflexivity. Qed.

Lemma segments_limit g a ds :
  decode <$> tail (gdt_entries g) = ds → length ds = 5%nat →
  gdtr g = Some (8 * Z.of_nat (length (gdt_entries g)), a) → gdtr g = Some (48, a).
Proof.
  intros Hd Hl ->. do 2 f_equal. apply (f_equal length) in Hd. rewrite length_fmap in Hd.
  destruct (gdt_entries g) as [|e l]; simpl in *; lia.
Qed.

Section kernel_main.
Context (im : image) (fuel : nat).

(** What every boot does before it looks at the magic number. *)
Definition early_init : M kernel unit :=
  tss_vaddr ← tss_init im;
  on_gdt (gdt_init (a_gdt im) tss_vaddr) ≫= λ _,
  on_cpu (clear_idt (a_idt im)) ≫= λ _,
  on_cpu (interrupts_init (a_isr im) (a_irq im)) ≫= λ _,
  enable_interrupts ≫= λ _,
  on_cpu (zoom con set_con tty_clear).

Lemma early_init_ok k :
  image_ok im → kgdt k = gdt_start → usable (con (kcpu k)) →
  ∃ k', early_init k = Ok (tt, k') ∧ tables_ready im k' ∧ ktasks k' = ktasks k ∧ shows blank (con (kcpu k')) ∧
    interrupt_handlers (kcpu k') = interrupt_handlers (kcpu k).
Proof.
  intros [Ht Hisr Hirq] Hg Hu. unfold early_init.
  rewrite (bind_ok _ _ k (a_tss im) k) by done.
  destruct (gdt_init_ok (a_gdt im) (a_tss im) Ht) as (g&Eg&Hseg&Hgr&Htr). rewrite <- Hg in Eg.
  rewrite (bind_ok _ _ _ _ _ (on_gdt_ok _ k _ _ Eg)). set (k1 := set_kgdt g k).
  destruct (interrupts_init_ok (kcpu k) (a_idt im) (a_isr im) (a_irq im) Hisr Hirq Hu)
    as (c&Ec&Hgates&Hlidt&_&Hih&Hu').
  rewrite (on_cpu_seq _ _ _ k1 _ _ Ec). set (k2 := set_kcpu c k1).
  rewrite (bind_ok _ _ _ _ _ (enable_interrupts_ok k2)). set (k3 := set_sti k2).
  destruct Hu' as [Hl _]. destruct (tty_clear_ok (con c) Hl) as (t&Et&Hat&Hsy).
  exists (set_kcpu (set_con t c) k3). split.
  - apply on_cpu_ok. unfold zoom. change (con (kcpu k3)) with (con c). by rewrite Et.
  - split; [|split; [done|]].
    + split; [exact Hseg| |exact Htr|exact Hgates|exact Hlidt|reflexivity].
      apply (segments_limit g (a_gdt im) _ Hseg eq_refl Hgr).
    + split; [|exact Hih]. split; [|by split]. split; [apply length_replicate|]. change (0 <= 0 < 2000). lia.
Qed.

(** What [kernel_boot] does after it. *)
Definition kernel_boot_rest ps pe vs ve pdt pt minfo : M kernel (control bool) :=
  say (line "Welcome to newbos...") [] ≫= λ _,
  on_tasks (paging_call (frames_init fuel ps pe vs ve (VIRTUAL_TO_PHYSICAL pdt) (VIRTUAL_TO_PHYSICAL pt) minfo)) ≫= λ _,
  on_cpu keyboard_init ≫= λ _,
  i ← on_tasks (Process.kmalloc (a_base im) fuel 4);
  on_tasks (wr i 0 42) ≫= λ _,
  n ← on_tasks (rd i 0);
  say (line "kmalloc'd '%u' at %X...") [AInt n; AInt i] ≫= λ _,
  p ← on_tasks (process_create (a_base im) fuel);
  on_tasks (scheduler_add_process (a_base im) fuel p) ≫= λ _,
  on_tasks scheduler_schedule ⟫= λ _,
  id ← on_tasks (rd p P_ID);
  say (line "Finished process init %u!!!") [AInt id] ≫= λ _,
  mret (Back true).

Lemma kernel_boot_early ps pe vs ve pdt pt minfo magic k k1 :
  early_init k = Ok (tt, k1) →
  kernel_boot im fuel ps pe vs ve pdt pt minfo magic k
  = (if bool_decide (magic = MULTIBOOT_BOOTLOADER_MAGIC) then kernel_boot_rest ps pe vs ve pdt pt minfo
     else say (line "ERROR: magic number '%X' is wrong!") [AInt magic] ≫= λ _, mret (Back false)) k1.
Proof.
  unfold kernel_boot, early_init. intros E.
  do 5 (let E1 := fresh in apply bind_ok_inv in E as (?&?&E1&E); rewrite (bind_ok _ _ _ _ _ E1);
        clear E1; cbv beta in * ).
  rewrite (bind_ok _ _ _ _ _ E). unfold kernel_boot_rest.
  destruct (Z.eqb_spec magic MULTIBOOT_BOOTLOADER_MAGIC) as [Hm|Hm];
    [rewrite (bool_decide_eq_true_2 _ Hm)|rewrite (bool_decide_eq_false_2 _ Hm)]; reflexivity.
Qed.

(** C35: Whatever the state of the memory and of the tables of interrupts, a
    kernel that was not loaded by a multiboot loader sets up its segments and its
    gates, enables interrupts, shows the number it was given on a cleared screen,
    and returns without having touched memory, frames or processes. *)
Theorem kernel_main_wrong_magic ps pe vs ve pdt pt minfo magic k :
  image_ok im → kgdt k = gdt_start → usable (con (kcpu k)) →
  is_u32 magic → magic ≠ MULTIBOOT_BOOTLOADER_MAGIC →
  ∃ k', kernel_main im fuel ps pe vs ve pdt pt minfo magic k = Ok (Back tt, k') ∧
    tables_ready im k' ∧ ktasks k' = ktasks k ∧
    shows (put_all (refusal magic) blank) (con (kcpu k')).
Proof.
  intros Him Hg Hu Hm Hne. destruct (early_init_ok k Him Hg Hu) as (k1&E&Hready&Htasks&Hblank&_).
  destruct (say_ok (line "ERROR: magic number '%X' is wrong!") [AInt magic] (refusal magic) blank k1)
    as (c&Es&Hc); [repeat constructor; lia|reflexivity|done|].
  exists (set_kcpu (set_con c (kcpu k1)) k1). split; [|by destruct Hready].
  unfold kernel_main. rewrite (go_on_back _ _ k false (set_kcpu (set_con c (kcpu k1)) k1)); [reflexivity|].
  rewrite (kernel_boot_early _ _ _ _ _ _ _ _ k k1 E), (bool_decide_eq_false_2 _ Hne).
  by rewrite (bind_ok _ _ _ _ _ Es).
Qed.
End kernel_main.

(** ** A boot: the machine of [MemoryMap.boot_machine], with any text on its screen *)

Definition boot_image : image :=
  Image 0xC0104000 0xC0104100 0xC0104200 demo_base
    (λ n, u32 (0xC0101000 + 16 * n)) (λ n, u32 (0xC0102000 + 16 * n)).

Definition boot_cpu : cpu :=
  Cpu (replicate 256 (IdtEntry 0 0 0 0 0)) (0, 0) (replicate 32 None) (replicate 256 None) None
    (Tty (replicate 4000 7) 0 []) 0 0.

Definition boot_kernel : kernel :=
  Kernel gdt_start boot_cpu (Tasks _ (Heap _ ∅ 0 boot_machine) (Tss 0 0) 0 0) false.

Lemma boot_image_ok : image_ok boot_image.
Proof. split; [simpl; lia|intros n; apply u32_range|intros n; apply u32_range]. Qed.

Lemma kernel_main_wrong_magic_witness :
  ∃ k', kernel_main boot_image 10 0x100000 0x110000 0xC0100000 0xC0110000 0xC0101000 0xC0102000 0x10000 0x1BADB002
      boot_kernel = Ok (Back tt, k') ∧ sti k' = true ∧ ktasks k' = ktasks boot_kernel.
Proof.
  destruct (kernel_main_wrong_magic boot_image 10 0x100000 0x110000 0xC0100000 0xC0110000 0xC0101000 0xC0102000
    0x10000 0x1BADB002 boot_kernel) as (k'&E&Hr&Ht&_).
  - exact boot_image_ok.
  - reflexivity.
  - split; [reflexivity|simpl; lia].
  - lia.
  - discriminate.
  - exists k'. split; [exact E|]. split; [exact (tr_sti _ _ Hr)|exact Ht].
Defined.
