(* ===== verification/KernelBoot.v ===== *)
(** * KernelBoot: a boot of the kernel, from the machine GRUB leaves to its first process

    The components one after the other, on any machine that has room: the frames
    and tables [frames_init] sets up are enough for the heap, the heap and they are
    for a process, and the scheduler begins its turn. Then the machine takes over:
    [run_process_in_user_mode] with the registers the process was given. *)

From S2P Require Import Prelude Layout Machine StackView Stubs UserMode CArith Interfaces Frames Mmu Paging PagingFacts PageFind PdtCreate PageServices PagingServices ProcessPages Kmalloc HeapLayout KmallocFacts KmallocSpec KmallocTrace FramesInit BitmapFacts FramesBoot MemoryMap FramesInitSpec Tty TtyFacts TtySpec Printk TtySafe Gdt Interrupts InterruptsSpec Devices Tasks ProcessServices Scheduler SchedulerSpec Process TaskBlocks ProcessCreate Kernel KernelSpec.

Implicit Types (s : paging frames) (t : tasks (paging frames)) (k : kernel).

(** ** Frames and tables *)

(** The machine [frames_init] finds: the tables of boot.s, GRUB's map, read by the
    addresses in its structure, with a region that has room for the bitmap and 64
    frames more, and four entries of the kernel's directory that are free. *)
Record boot_memory (lo kps kpe kpdt kpt minfo flags entry len : Z) (es : list map_entry) s : Prop := BootMemory {
  bm_state : boot_state lo (set_kernel_tables kpdt kpt s);
  bm_low : 0x100000 <= lo;
  bm_flags : minfo_flags minfo s = Ok (flags, s) ∧ Z.testbit flags 6 = true;
  bm_map : minfo_mmap_addr minfo s = Ok (entry, s) ∧ minfo_mmap_length minfo s = Ok (len, s);
  bm_entries : entries_at s entry es (entry +ᵤ len);
  bm_count : Z.of_nat (length es) <= MAX_NUM_MEMORY_MAP;
  bm_regions : regions_ok lo (kept kps kpe es);
  bm_place : let ms := align_region <$> kept kps kpe es in
    ∃ m, m ∈ ms ∧ 4096 * (bitmap_pages (total ms / 4096) + 64) <= Frames.len m;
  bm_tables : ∃ X : gset Z, (4 <= size X)%nat ∧ absent_tables (set_kernel_tables kpdt kpt s) X
}.

Lemma total_le ms lo m : mmap_ok lo ms → m ∈ ms → Frames.len m <= total ms.
Proof.
  revert lo. induction ms as [|m0 ms IH]; intros lo Hok Hm; [by apply not_elem_of_nil in Hm|].
  destruct Hok as (_ & _ & _ & H4 & _ & H6). pose proof (total_nonneg _ _ H6). simpl.
  apply elem_of_cons in Hm as [->|Hm]; [lia|]. specialize (IH _ H6 Hm). lia.
Qed.

(** What is there for the rest of the boot. *)
Record stocked s : Prop := Stocked {
  st_services : services_wf s;
  st_supply : supply s 12 4;
  st_run : ∃ x, free_run (pfa s) x 3
}.

Lemma frames_ready lo kps kpe kvs kve kpdt kpt minfo flags entry len es s fuel :
  boot_memory lo kps kpe kpdt kpt minfo flags entry len es s → (length es < fuel)%nat →
  ∃ s', frames_init fuel kps kpe kvs kve kpdt kpt minfo s = Ok (tt, s') ∧ stocked s' ∧
    ∀ a, kernel_mapped s a = true → kernel_mapped s' a = true.
Proof.
  intros [Hst Hlo [Hf Hb] [Ha Hl] Hes Hc Hreg (m & Hm & Hlen) (X & HX & Habs)] Hfuel.
  pose proof (align_regions_ok lo _ ltac:(lia) Hreg) as Hok. pose proof (total_le _ _ m Hok Hm) as Htot.
  set (ms := align_region <$> kept kps kpe es) in *. pose proof (total_aligned ms lo Hok) as Hta.
  set (B := bitmap_pages (total ms / 4096)) in *.
  assert (HB : B + 64 <= total ms / 4096) by (clear - Htot Hlen; Z.to_euclidean_division_equations; lia).
  assert (HB0 : 0 <= B) by (clear; unfold B, bitmap_pages, div_ceil, u32; Z.to_euclidean_division_equations; lia).
  assert (Hlt : bitmap_pages (total (align_region <$> kept kps kpe es) / 4096)
    < total (align_region <$> kept kps kpe es) / 4096) by (fold ms; fold B; lia).
  assert (Hplace : ∃ m, m ∈ align_region <$> kept kps kpe es ∧
    bitmap_pages (total (align_region <$> kept kps kpe es) / 4096) * 4096 <= Frames.len m).
  { exists m. split; [done|]. fold ms. fold B. lia. }
  destruct (frames_init_ok lo s minfo kps kpe kvs kve kpdt kpt flags entry len es fuel) as (s' & E & Hsv & Hbuilt & Hkeep);
    try done.
  fold ms in Hbuilt. destruct Hkeep as (EK & Hno & Hmap). exists s'. split; [done|]. split; [|exact Hmap].
  pose proof Hbuilt as (Hwf & En & (p & Epl) & _). fold B in En, Epl.
  split; [done| |].
  - split; [apply (built_size ms (pfa s') Hbuilt); rewrite En; lia|].
    exists X. split; [done|]. intros idx Hi. destruct (Habs idx Hi) as [Hr Hp]. split; [done|]. rewrite EK. by apply Hno.
  - destruct (place_bitmap_keeps (B * 4096) _ _ _ m lo Hok ltac:(lia) ltac:(lia) Epl Hm ltac:(lia)) as (m' & Hm' & Hlen').
    apply (built_run ms (pfa s') Hbuilt m'); [done|lia|lia].
Qed.

(** The arena of the first call of [kmalloc]. *)
Lemma first_arena s :
  stocked s → ∃ s', grants s 2 s' ∧ services_wf s' ∧ supply s' 9 3.
Proof.
  intros [Hsv Hsup (x & Hrun)]. pose proof Hsv as (Hwf & _).
  destruct (Frames.pfa_allocate 2 (pfa s)) as [[p p']| |] eqn:E;
    destruct (pfa_allocate_bits (pfa s) (kw_frames _ Hwf) 2 ltac:(lia)) as
      [(j & p2 & E2 & _ & _ & _ & Hj & Hjn & _)|(_ & _ & Hno)]; try (by destruct (Hno ltac:(lia) x)); try congruence.
  rewrite E in E2. injection E2 as -> ->.
  destruct (paddr_for_idx_in (pfa s) (kw_frames _ Hwf) j ltac:(lia)) as (m & o & _ & Ep & H1 & H2 & _).
  set (a := paddr_for_idx (pfa s) j) in *.
  assert (Ea : Paging.pfa_allocate 2 s = Ok (a, set_pfa p2 s)) by (unfold Paging.pfa_allocate, zoom; simpl; by rewrite E).
  destruct (arena_pages s 2 a _ 9 3 Hsv Hsup ltac:(lia) Ea ltac:(lia)) as (v & s2 & s3 & E3 & Hv & E4 & Hsv3 & Hsup3).
  exists s3. split; [|done]. exists a, v, (set_pfa p2 s), s2. split_and!; try done. lia.
Qed.

(** ** The heap, a process, the scheduler *)

(** The block at [i] keeps its 42; the process [p] has the number 1 and the registers of
    user mode, and its directory and its kernel stack are in force. *)
Definition in_force (i p : Z) t : Prop :=
  fld t i 0 = 42 ∧ fld t p P_ID = 1 ∧
  active (pages (kheap t)) = fld t p P_PDT_PADDR ∧ the_tss t = Tss (fld t p P_KERNEL_STACK) SEGSEL_KERNEL_DS ∧
  0 < p ∧ p + sizeof_process <= 4294967296 ∧
  ∀ j w, user_state !! j = Some w → fld t p (P_CURRENT + 4 * Z.of_nat j) = w.

Section tasks_boot.
Context (base : Z) (Hbase : base mod 4096 ≠ 0) (fuel : nat) (Hfuel : (6 <= fuel)%nat).
Implicit Types (U : gmap Z Z).

(** The first block, written. *)
Lemma first_block t :
  heap_start base (kheap t) → stocked (pages (kheap t)) →
  ∃ i t1 t2, Process.kmalloc base fuel 4 t = Ok (i, t1) ∧ wr i 0 42 t1 = Ok (tt, t2) ∧
    rd i 0 t2 = Ok (42, t2) ∧ is_u32 i ∧ fld t2 i 0 = 42 ∧
    heap_room base (kheap t2) {[i := 4]} 2 31 ∧ services_wf (pages (kheap t2)) ∧ supply (pages (kheap t2)) 9 3 ∧
    list_start t2 = list_start t.
Proof using Hbase Hfuel.
  intros Hs Hst. destruct (first_arena _ Hst) as (ps & Hg & Hsv & Hsup).
  destruct (kmalloc_starts base Hbase (kheap t) 4 31 ps fuel Hs ltac:(lia) ltac:(lia)) as (i & h & E & Hi & Epg & Hroom);
    [by vm_compute|exact Hg|done|].
  set (t1 := set_kheap h t). set (U := {[i := 4]} : gmap Z Z).
  assert (Hown : owns base t1 U) by exact (heap_room_inv base h U 2 31 Hroom).
  assert (HU : U !! i = Some 4) by apply lookup_singleton_eq. assert (Hf : field 0 4) by done.
  destruct (owned_block base t1 U i 4 Hown HU) as (Hi0 & _ & Hi4).
  destruct (wr_owned base t1 U i 4 0 42 Hown HU Hf) as [Ew Hown2]. set (t2 := put (i + 0) 42 t1) in *.
  assert (E42 : fld t2 i 0 = 42) by (unfold fld; change (mem t2) with (<[i + 0 := 42]> (mem t1)); apply ld_insert_eq).
  exists i, t1, t2. split; [unfold Process.kmalloc, zoom; by rewrite E|]. split; [exact Ew|].
  split; [rewrite (rd_owned base t2 U i 4 0 Hown2 HU Hf); by rewrite <- E42|].
  split; [lia|]. split; [done|]. split; [|rewrite <- Epg in Hsv, Hsup; done].
  apply (write_room base h U 2 31 i 4 (i + 0) 42 Hroom HU); lia.
Qed.

(** A process just made, the only one, is added and scheduled. *)
Lemma only_process t U t3 p code stack kstack U' :
  created base t t3 U [] p code stack kstack → heap_room base (kheap t3) U' 2 2 →
  U' !! p = Some sizeof_process → queue t3 U' [] →
  ∃ t4 t5, scheduler_add_process base fuel p t3 = Ok (0, t4) ∧ scheduler_schedule t4 = Ok (Away (p + P_CURRENT), t5) ∧
    active (pages (kheap t5)) = fld t5 p P_PDT_PADDR ∧ the_tss t5 = Tss (fld t5 p P_KERNEL_STACK) SEGSEL_KERNEL_DS ∧
    0 < p ∧ p + sizeof_process <= 4294967296 ∧
    ∀ b n o, U' !! b = Some n → field o n → fld t5 b o = fld t3 b o.
Proof using Hbase Hfuel.
  intros Hc Hroom HUp Hq.
  destruct (kmalloc_room base Hbase (kheap t3) U' 2 8 0 fuel Hroom ltac:(lia) ltac:(lia) ltac:(lia))
    as (e & h & Ee & He & HUe & Epg & Hroom4 & Hk4).
  destruct (enqueue_ok base t3 U' [] p e h Hq He HUe (heap_room_inv base _ _ _ _ Hroom4) Hk4)
    as (t4 & E4 & Hown & Hq4 & Hkept4 & Epg4 & _). specialize (E4 fuel Ee). set (U4 := <[e := 8]> U') in *.
  assert (HU4 : ∀ b n, U' !! b = Some n → U4 !! b = Some n ∧ b ≠ e).
  { intros b n Hb. assert (b ≠ e) by congruence. split; [|done]. unfold U4. by rewrite lookup_insert_ne. }
  destruct (HU4 p _ HUp) as [HU4p Hpe].
  assert (Hp0 : p ≠ 0) by (intros ->; by rewrite (owned_not_null base (kheap t4) U4 Hown) in HU4p).
  assert (F4 : ∀ b c o, U' !! b = Some c → field o c → fld t4 b o = fld t3 b o).
  { intros b c o Hb (? & ? & _). apply (Hkept4 b c); [exact Hb|apply not_elem_of_nil|lia]. }
  assert (Hready : ready t4 p).
  { change (loadable (pages (kheap t4)) (fld t4 p P_PDT) (fld t4 p P_PDT_PADDR)).
    rewrite Epg4, Epg, !(F4 p sizeof_process) by done. exact (cr_loadable _ _ _ _ _ _ _ _ _ Hc). }
  destruct (schedule_ok base t4 U4 [(e, p)] Hown Hq4) as (r & t5 & E5 & _ & Hkept5 & _ & Hruns).
  { intros x Hx%list_elem_of_singleton. subst x. by right. }
  { intros x Hx%list_elem_of_singleton _. by subst x. }
  cbn [next_turn rotated app snd fst] in Hruns. rewrite !(proj2 (Z.eqb_neq p 0) Hp0) in Hruns.
  destruct Hruns as (Htss & Hact & Hrun).
  assert (F5 : ∀ b c o, U' !! b = Some c → field o c → fld t5 b o = fld t4 b o).
  { intros b c o Hb (? & ? & _). destruct (HU4 b c Hb) as [HU4b Hne]. apply (Hkept5 b c); [exact HU4b| |lia].
    by intros ->%list_elem_of_singleton. }
  destruct (owned_block base t4 U4 p sizeof_process Hown HU4p) as (Hp0' & _ & Hpe').
  exists t4, t5. split; [exact E4|]. split; [rewrite E5; do 2 f_equal|].
  2: split; [by rewrite (F5 p sizeof_process)|split; [by rewrite (F5 p sizeof_process)|]].
  - rewrite Hrun. change (ld (mem t4) (p + 56)) with (fld t4 p 56).
    destruct (cr_registers _ _ _ _ _ _ _ _ _ Hc 10 _ eq_refl) as [_ E10].
    change (P_CURRENT + 4 * Z.of_nat 10) with 56 in E10. by rewrite (F4 p sizeof_process), E10 by done.
  - split; [done|]. split; [done|]. intros b n o Hb Ho. by rewrite (F5 b n), (F4 b n).
Qed.

(** The process made, added and scheduled. *)
Lemma first_process i t :
  heap_room base (kheap t) {[i := 4]} 2 31 → fld t i 0 = 42 → list_start t = 0 →
  services_wf (pages (kheap t)) → supply (pages (kheap t)) 9 3 →
  ∃ p t3 t4 t5, process_create base fuel t = Ok (p, t3) ∧ scheduler_add_process base fuel p t3 = Ok (0, t4) ∧
    scheduler_schedule t4 = Ok (Away (p + P_CURRENT), t5) ∧ in_force i p t5.
Proof using Hbase Hfuel.
  intros Hroom E42 Hls Hsv Hsup. set (U := {[i := 4]} : gmap Z Z) in *.
  assert (Hq : queue t U []).
  { split; try done; [apply NoDup_nil_2|intros e He; by apply elem_of_nil in He|intros q' x E; by destruct q']. }
  destruct (process_create_ok base Hbase t U [] 2 2 fuel ltac:(lia) Hroom Hq
    ltac:(intros x Hx; by apply elem_of_nil in Hx) Hsv Hsup ltac:(lia) ltac:(lia) ltac:(simpl; lia))
    as (p & t3 & code & stack & kstack & E3 & Hc & U' & Hroom3 & HU & HUp & Hq3).
  assert (HUi : U' !! i = Some 4) by (apply (lookup_weaken U); [apply lookup_singleton_eq|done]).
  destruct (only_process t U t3 p code stack kstack U' Hc Hroom3 HUp Hq3)
    as (t4 & t5 & E4 & E5 & Hact & Htss & Hp0 & Hpe & F).
  assert (Eid : fld t5 p P_ID = 1).
  { rewrite (F p sizeof_process) by done. exact (cr_id _ _ _ _ _ _ _ _ _ Hc). }
  exists p, t3, t4, t5. split; [exact E3|]. split; [exact E4|]. split; [exact E5|].
  split; [|do 5 (split; [done|])].
  - rewrite (F i 4) by done. rewrite <- E42. apply (cr_kept _ _ _ _ _ _ _ _ _ Hc i 4); [apply lookup_singleton_eq|lia].
  - intros j w Hj. destruct (cr_registers _ _ _ _ _ _ _ _ _ Hc j w Hj) as [_ <-].
    apply (F p sizeof_process); [done|]. apply lookup_lt_Some in Hj. change (length user_state) with 12%nat in Hj.
    unfold field. change sizeof_process with 148. change P_CURRENT with 16. split_and!; [lia|lia|].
    clear - Hj. Z.to_euclidean_division_equations; lia.
Qed.
End tasks_boot.

(** ** The whole boot *)

(** The text of its messages on the screen, the tables and the handler of the
    keyboard in place, the heap and the first process in use. *)
Definition greeting (i : Z) : list Z :=
  line "Welcome to newbos..." ++ bytes_of "kmalloc'd '42' at 0x" ++ numeral 16 8 i ++ line "...".

Record booted (im : image) (i p : Z) (k : kernel) : Prop := Booted {
  bo_screen : shows (put_all (greeting i) blank) (con (kcpu k));
  bo_tables : tables_ready im k;
  bo_keyboard : interrupt_handlers (kcpu k) !! Z.to_nat IRQ1 = Some (Some keyboard_handler);
  bo_tasks : in_force i p (ktasks k)
}.

(** The machine GRUB leaves, with any text on its screen and nothing in its heap
    nor in its list of processes. *)
Record bootable (im : image) (lo kps kpe kpdt kpt minfo flags entry len : Z) (es : list map_entry) (k : kernel) : Prop :=
  Bootable {
  bb_image : image_ok im;
  bb_gdt : kgdt k = gdt_start;
  bb_screen : usable (con (kcpu k));
  bb_handlers : length (interrupt_handlers (kcpu k)) = 256%nat;
  bb_base : 0 < a_base im ∧ a_base im mod 4 = 0 ∧ a_base im mod 4096 ≠ 0 ∧ a_base im + 8 <= 4294967296;
  bb_mapped x : a_base im <= x < a_base im + 8 → kernel_mapped (pages (kheap (ktasks k))) x = true;
  bb_heap : freep (kheap (ktasks k)) = 0 ∧ list_start (ktasks k) = 0;
  bb_memory : boot_memory lo kps kpe kpdt kpt minfo flags entry len es (pages (kheap (ktasks k)))
}.

Lemma put_all_app l1 l2 p : put_all (l1 ++ l2) p = put_all l2 (put_all l1 p).
Proof. apply foldl_app. Qed.

Lemma on_tasks_ok {A} (m : M (tasks (paging frames)) A) k x t :
  m (ktasks k) = Ok (x, t) → on_tasks m k = Ok (x, set_ktasks t k).
Proof. intros E. unfold on_tasks, zoom. by rewrite E. Qed.

(** What [kernel_boot] does after the magic number, from a cleared screen. *)
Lemma boot_rest_ok im fuel lo kps kpe kvs kve pdt pt minfo flags entry len es k :
  bootable im lo kps kpe (VIRTUAL_TO_PHYSICAL pdt) (VIRTUAL_TO_PHYSICAL pt) minfo flags entry len es
    (Kernel gdt_start (kcpu k) (ktasks k) (sti k)) →
  shows blank (con (kcpu k)) → tables_ready im k → (length es < fuel)%nat → (6 <= fuel)%nat →
  ∃ i p k', kernel_boot_rest im fuel kps kpe kvs kve pdt pt minfo k = Ok (Away (p + P_CURRENT), k') ∧ booted im i p k'.
Proof.
  intros [_ _ _ Hih (Hb0 & Hb4 & Hba & Hbe) Hbm [Hfp Hls] Hmem] Hblank Hready Hes Hfuel. simpl in *.
  unfold kernel_boot_rest.
  destruct (say_ok (line "Welcome to newbos...") [] (line "Welcome to newbos...") blank k ltac:(done) ltac:(reflexivity)
    Hblank) as (c1 & E1 & Hc1).
  rewrite (bind_ok _ _ _ _ _ E1). set (k1 := set_kcpu (set_con c1 (kcpu k)) k).
  destruct (frames_ready lo kps kpe kvs kve _ _ minfo flags entry len es _ fuel Hmem Hes) as (ps & Ef & Hst & Hmap).
  rewrite (bind_ok _ _ _ _ _ (on_tasks_ok _ k1 _ _ (paging_call_ok _ (ktasks k1) _ _ _ eq_refl Ef))).
  set (t0 := set_services ps (ktasks k1)). set (k2 := set_ktasks t0 k1).
  rewrite (bind_ok _ _ _ _ _ (on_cpu_ok _ k2 _ _ (register_irq_ok (kcpu k2) IRQ1 keyboard_handler ltac:(done) Hih))).
  set (c := set_interrupt_handlers _ (kcpu k2)). set (k3 := set_kcpu c k2).
  destruct (first_block (a_base im) Hba fuel Hfuel t0) as (i & t1 & t2 & Ek & Ew & Er & Hi & E42 & Hroom & Hsv & Hsup & El).
  { split; [exact (st_services _ Hst)|exact Hfp|]. split; try done. intros x Hx. by apply Hmap, Hbm. }
  { exact Hst. }
  rewrite (bind_ok _ _ _ _ _ (on_tasks_ok _ k3 _ _ Ek)). set (k4 := set_ktasks t1 k3).
  rewrite (bind_ok _ _ _ _ _ (on_tasks_ok _ k4 _ _ Ew)). set (k5 := set_ktasks t2 k4).
  rewrite (bind_ok _ _ _ _ _ (on_tasks_ok _ k5 _ _ Er)). change (set_ktasks t2 k5) with k5.
  destruct (say_ok (line "kmalloc'd '%u' at %X...") [AInt 42; AInt i]
    (bytes_of "kmalloc'd '42' at 0x" ++ numeral 16 8 i ++ line "...") (put_all (line "Welcome to newbos...") blank) k5)
    as (c5 & E5 & Hc5); [repeat constructor; simpl; lia|reflexivity|exact Hc1|].
  set (q := put_all _ _) in Hc5. rewrite (bind_ok _ _ _ _ _ E5). set (k6 := set_kcpu (set_con c5 (kcpu k5)) k5).
  destruct (first_process (a_base im) Hba fuel Hfuel i t2 Hroom E42 ltac:(by rewrite El) Hsv Hsup)
    as (p & t3 & t4 & t5 & Ec & Ea & Es & Hin).
  rewrite (bind_ok _ _ _ _ _ (on_tasks_ok _ k6 _ _ Ec)). set (k7 := set_ktasks t3 k6).
  rewrite (bind_ok _ _ _ _ _ (on_tasks_ok _ k7 _ _ Ea)). set (k8 := set_ktasks t4 k7).
  rewrite (go_on_away _ _ _ _ _ (on_tasks_ok _ k8 _ _ Es)). set (k9 := set_ktasks t5 k8).
  exists i, p, k9. split; [done|]. split.
  - unfold q in Hc5. rewrite <- put_all_app in Hc5. exact Hc5.
  - by destruct Hready.
  - apply list_lookup_insert_eq. change (interrupt_handlers (kcpu k2)) with (interrupt_handlers (kcpu k)).
    rewrite Hih. unfold IRQ1. lia.
  - exact Hin.
Qed.

(** ** The turn of the first process, on the machine

    The memory of the machine has the registers of the process [p] of [k] and the word
    [stray], which [run_process_in_user_mode] reads on its way, and its table of
    descriptors is the one [k] has loaded. *)
Record machine_of (R : region) k (p stray : Z) : Prop := MachineOf {
  mo_region : region_ok R;
  mo_table : rg_table R = decode <$> gdt_entries (kgdt k);
  mo_registers o : 0 <= o < sizeof_registers → o mod 4 = 0 →
    rg_heap R !! (p + P_CURRENT + o) = Some (fld (ktasks k) p (P_CURRENT + o));
  mo_stray : rg_heap R !! ((p + P_CURRENT) / 65536 * 65536 + 0x18) = Some stray
}.

Definition process_register t (p : Z) (x : string) : Z := fld t p (P_CURRENT + offsetof struct__registers [x]).

Lemma machine_registers im i p k R stray :
  booted im i p k → machine_of R k p stray →
  registers_in (rg_heap R) (p + P_CURRENT) (process_register (ktasks k) p).
Proof.
  intros Hb [_ _ Hr _]. destruct (bo_tasks _ _ _ _ Hb) as (_ & _ & _ & _ & H0 & H1 & _).
  change sizeof_process with 148 in H1. change P_CURRENT with 16 in *. split; [lia|]. split; [lia|].
  intros j x o u Hj. do 12 (destruct j as [|j]; [injection Hj as <- <- <-; by apply Hr|]). by destruct j.
Qed.

(** The machine cannot go on with the code in C: the registers that a caller finds
    again after a call are zero, interrupts are off, and no word can be stored. *)
Definition stuck {X} sym ext (m : machine X) : Prop :=
  (∀ r, r ∈ [EBX; ESI; EDI; EBP] → gr m r = 0) ∧ Z.testbit (mflags m) IF_BIT = false ∧
  ∀ r d b, segment_of b = DS → exec scheduler_assembler sym ext (Store r d b) m = Fault.

Lemma turn_gets_stuck im i p k {X} R stray sym ext (m : machine X) g (s : seg → segment) f n l w ra fu :
  booted im i p k → machine_of R k p stray →
  sel (s CS) mod 4 = 0 → flat_read (desc (s DS)) → (25 <= fu)%nat →
  stands R m (View g s f (5 + n) (ra :: p + P_CURRENT :: l) w) →
  ∃ m', run scheduler_assembler sym ext fu (from "run_process_in_user_mode" scheduler_assembler) m = Ok (ra, m') ∧
    stuck sym ext m'.
Proof.
  intros Hb Hm Hc Hd Hfu Hst. pose proof Hm as [HR Ht _ Hs].
  assert (H3 : rg_table R !! 3%nat = Some (flat 3 CODE_RX_TYPE)).
  { pose proof (tr_segments _ _ (bo_tables _ _ _ _ Hb)) as Hseg. rewrite Ht.
    destruct (gdt_entries (kgdt k)) as [|e es]; [discriminate Hseg|].
    change ((decode <$> tail (e :: es)) !! 2%nat = Some (flat 3 CODE_RX_TYPE)). by rewrite Hseg. }
  destruct (user_mode_runs R sym ext m g s f n l w ra (p + P_CURRENT) (process_register (ktasks k) p) stray fu)
    as (m' & E & Hv & Hif & Hf); try done; [by apply (machine_registers im i p k R stray)|].
  exists m'. split; [exact E|]. split; [|by split]. intros r Hr.
  assert (Hne : r ≠ ESP) by (intros ->; revert Hr; by apply (bool_decide_unpack _)).
  rewrite (re_gr _ _ _ _ _ _ _ _ _ _ Hv r Hne). destruct (bo_tasks _ _ _ _ Hb) as (_ & _ & _ & _ & _ & _ & Hw).
  rewrite !elem_of_cons in Hr. destruct Hr as [->|[->|[->|[->|[]%elem_of_nil]]]].
  - exact (Hw 1%nat 0 eq_refl).
  - exact (Hw 5%nat 0 eq_refl).
  - exact (Hw 6%nat 0 eq_refl).
  - exact (Hw 4%nat 0 eq_refl).
Qed.

(** C36: From any machine as GRUB leaves it, with any text on its screen, whose
    memory map has a region with room for the bitmap and 64 frames more, all the
    initialisations of [kernel_main] together come without a fault to the call of
    [run_process_in_user_mode], with fuel for the entries of the map: the two messages
    before it are on the screen, the tables and the handler of the keyboard in place
    with interrupts enabled, the block of four bytes keeps the 42 written to it while
    a process is made, and the directory and the kernel stack of that process are in
    force. There the C code ends: from any state of the machine with these registers
    of the process and these descriptors, the routine returns with the registers of
    its callers zero, interrupts off and no segment to store a word through, so that
    the last message and the endless loop of [kernel_main] are out of reach. *)
Theorem kernel_boot_reaches_process im fuel lo kps kpe kvs kve pdt pt minfo flags entry len es k :
  bootable im lo kps kpe (VIRTUAL_TO_PHYSICAL pdt) (VIRTUAL_TO_PHYSICAL pt) minfo flags entry len es k →
  (length es < fuel)%nat → (6 <= fuel)%nat →
  ∃ i p k', kernel_main im fuel kps kpe kvs kve pdt pt minfo MULTIBOOT_BOOTLOADER_MAGIC k
      = Ok (Away (p + P_CURRENT), k') ∧ booted im i p k' ∧
    ∀ X R stray sym ext (m : machine X) g (s : seg → segment) f n l w ra fu,
      machine_of R k' p stray → sel (s CS) mod 4 = 0 → flat_read (desc (s DS)) → (25 <= fu)%nat →
      stands R m (View g s f (5 + n) (ra :: p + P_CURRENT :: l) w) →
      ∃ m', run scheduler_assembler sym ext fu (from "run_process_in_user_mode" scheduler_assembler) m = Ok (ra, m') ∧
        stuck sym ext m'.
Proof.
  intros Hb Hes Hfuel. pose proof Hb as [Him Hg Hu Hih Hbase Hbm Hh Hmem].
  destruct (early_init_ok im k Him Hg Hu) as (k1 & E1 & Hready & Et & Hblank & Eih).
  destruct (boot_rest_ok im fuel lo kps kpe kvs kve pdt pt minfo flags entry len es k1) as (i & p & k' & E & Hbo); try done.
  { split; simpl; rewrite ?Et, ?Eih; try done.
    destruct Hblank as (_ & (Ef & Ec) & _). split; [by rewrite Ef|]. rewrite Ec. simpl. lia. }
  exists i, p, k'. split.
  - unfold kernel_main. apply go_on_away. rewrite (kernel_boot_early im fuel _ _ _ _ _ _ _ _ k k1 E1).
    by rewrite bool_decide_eq_true_2.
  - split; [exact Hbo|]. intros. by apply (turn_gets_stuck im i p k' R stray sym ext m g s f n l w ra fu).
Qed.

(** ** A boot: the machine of [MemoryMap.boot_machine] *)

Lemma boot_machine_memory :
  boot_memory 0x110000 0x100000 0x110000 0x101000 0x102000 0x10000 0x40 0x10100 48 boot_entries boot_machine.
Proof.
  split; try done; try (split; reflexivity).
  - exact boot_machine_state.
  - by apply boot_entries_at.
  - exists (MemoryMap 0x110000 0xDE1000). split; [by left|by vm_compute].
  - exists {[769; 770; 771; 772]}. split; [vm_compute; lia|]. intros idx Hi.
    rewrite !elem_of_union, !elem_of_singleton in Hi.
    assert (Hr : 769 <= idx <= 772) by (destruct Hi as [[[->| ->]| ->]| ->]; lia). split; [lia|].
    change (phys _) with boot_words. change (kernel_pdt _) with 0x101000. rewrite boot_pde by lia.
    by repeat case_decide; [lia..|].
Qed.

Lemma boot_kernel_bootable :
  bootable boot_image 0x110000 0x100000 0x110000 (VIRTUAL_TO_PHYSICAL 0xC0101000) (VIRTUAL_TO_PHYSICAL 0xC0102000)
    0x10000 0x40 0x10100 48 boot_entries boot_kernel.
Proof.
  split; [exact boot_image_ok|done|split; [reflexivity|simpl; lia]|done|done| |done|exact boot_machine_memory].
  intros x Hx. change (a_base boot_image) with 0xC0000100 in Hx.
  replace x with (0xC0000100 + (x - 0xC0000100)) by lia.
  assert (∃ i : nat, x - 0xC0000100 = Z.of_nat i ∧ (i < 8)%nat) as (i & -> & Hi)
    by (exists (Z.to_nat (x - 0xC0000100)); lia).
  do 8 (destruct i as [|i]; [by vm_compute|]). lia.
Qed.

(** The addresses it comes to. *)
Lemma kernel_boot_runs :
  match kernel_main boot_image 6 0x100000 0x110000 0xC0100000 0xC0110000 0xC0101000 0xC0102000
      0x10000 MULTIBOOT_BOOTLOADER_MAGIC boot_kernel with
  | Ok (Away a, k) => (a =? 0xC0003F58 + P_CURRENT) && (fld (ktasks k) 0xC0003FF8 0 =? 42) &&
      bool_decide (fb (con (kcpu k)) = cells (put_all (greeting 0xC0003FF8) blank).1)
  | _ => false end = true.
Proof. vm_compute. reflexivity. Qed.

(** The machine at that call, and the turn it takes. *)
Definition boot_values (x : string) : Z :=
  nth (default 0%nat (fst <$> list_find (x =.) (fields struct__registers).*1.*1)) user_state 0.

Lemma boot_machine_of i p k :
  booted boot_image i p k → p = 0xC0003F58 →
  machine_of (turn_region 0xC0000000 0xC0003F68 boot_values (decode <$> gdt_entries (kgdt k))) k p 7.
Proof.
  intros Hb ->. destruct (bo_tasks _ _ _ _ Hb) as (_ & _ & _ & _ & _ & _ & Hw). split.
  - apply turn_region_ok; [done|done|done|by vm_compute].
  - reflexivity.
  - intros o Ho H4. assert (∃ j : nat, o = 4 * Z.of_nat j ∧ (j < 12)%nat) as (j & -> & Hj).
    { exists (Z.to_nat (o / 4)). change sizeof_registers with 48 in Ho. split; Z.to_euclidean_division_equations; lia. }
    destruct (lookup_lt_is_Some_2 user_state j Hj) as [w Hjw]. rewrite (Hw j w Hjw).
    do 12 (destruct j as [|j]; [injection Hjw as <-; by vm_compute|]). lia.
  - by vm_compute.
Qed.

Lemma turn_machine_stands (ds : list descriptor) :
  stands (turn_region 0xC0000000 0xC0003F68 boot_values ds) (turn_machine 0xC0000000 0xC0003F68 boot_values ds)
    (View (turn_registers 0xC0000000) demo_segments 0x202 62 [0xC0101234; 0xC0003F68] tt).
Proof. apply turn_stands; [done|done|done|by vm_compute]. Qed.

Lemma kernel_boot_reaches_process_witness :
  ∃ i k m, kernel_main boot_image 6 0x100000 0x110000 0xC0100000 0xC0110000 0xC0101000 0xC0102000
      0x10000 MULTIBOOT_BOOTLOADER_MAGIC boot_kernel = Ok (Away 0xC0003F68, k) ∧
    shows (put_all (greeting i) blank) (con (kcpu k)) ∧ fld (ktasks k) i 0 = 42 ∧
    run scheduler_assembler demo_sym (λ _, fault) 25 (from "run_process_in_user_mode" scheduler_assembler)
      (turn_machine 0xC0000000 0xC0003F68 boot_values (decode <$> gdt_entries (kgdt k))) = Ok (0xC0101234, m) ∧
    stuck demo_sym (λ _, fault) m.
Proof.
  destruct (kernel_boot_reaches_process boot_image 6 0x110000 0x100000 0x110000 0xC0100000 0xC0110000 0xC0101000 0xC0102000
    0x10000 0x40 0x10100 48 boot_entries boot_kernel boot_kernel_bootable) as (i & p & k & E & Hb & Hturn);
    [simpl; lia|lia|].
  assert (Hp : p + P_CURRENT = 0xC0003F58 + P_CURRENT).
  { pose proof kernel_boot_runs as H. rewrite E in H. apply andb_prop in H as [[H _]%andb_prop _]. by apply Z.eqb_eq. }
  apply Z.add_cancel_r in Hp. subst p.
  destruct (Hturn unit (turn_region 0xC0000000 0xC0003F68 boot_values (decode <$> gdt_entries (kgdt k))) 7 demo_sym
    (λ _, fault) (turn_machine 0xC0000000 0xC0003F68 boot_values (decode <$> gdt_entries (kgdt k)))
    (turn_registers 0xC0000000) demo_segments 0x202 57%nat [] tt 0xC0101234 25%nat) as (m & Em & Hs).
  - exact (boot_machine_of i _ k Hb eq_refl).
  - exact eq_refl.
  - exact (conj eq_refl (conj eq_refl eq_refl)).
  - exact (le_n 25).
  - exact (turn_machine_stands _).
  - exists i, k, m. split; [exact E|]. split; [exact (bo_screen _ _ _ _ Hb)|].
    split; [exact (proj1 (bo_tasks _ _ _ _ Hb))|exact (conj Em Hs)].
Defined.
