(* ===== verification/BootAsm.v ===== *)
(** * BootAsm: from GRUB to the call of kernel_main (boot.s)

    The code at [_start], without paging: it keeps what GRUB passed, fills the
    kernel's first page table, enters its directory, turns paging on, and calls
    [kernel_main] at its address at 3 GB with the eight arguments. *)

From S2P Require Import Prelude CArith Interfaces Frames Mmu Paging PagingFacts PageMap PageFind PagingServices ProcessPages FramesInit FramesBoot FramesInitSpec Gdt Machine StackView Kernel MemoryMap.

Section boot.
(** The addresses the linker gives to the labels, and to the marks of linker.ld. *)
Context (sym : string → Z).

Definition KERNEL_START_VADDR : Z := 0xC0000000.
Definition KERNEL_PDT_IDX : Z := Z.shiftr KERNEL_START_VADDR 22.

Definition physical (x : string) : Z := sym x - KERNEL_START_VADDR.

Definition start : list instr :=
  [MovI (sym "stack_top") ESP;
   MovI (physical "grub_magic_number") ECX; Store EAX 0 (Some ECX);
   MovI (physical "multiboot_info") ECX; Store EBX 0 (Some ECX)].

Definition setup_kernel_pdt : list instr :=
  [MovI (physical "kernel_pdt" + KERNEL_PDT_IDX * 4) ECX;
   MovI (physical "kernel_pt") EDX;
   OrI 0x0000000B EDX;
   Store EDX 0 (Some ECX)].

Definition setup_kernel_pt : list instr :=
  [MovI (physical "kernel_pt") EAX; MovI 0x0000000B ECX].

Definition loop : list instr :=
  [Store ECX 0 (Some EAX);
   AddI 4 EAX; AddI 0x1000 ECX;
   CmpI (sym "kernel_physical_end") ECX;
   Jle "loop"].

Definition enable_paging : list instr :=
  [MovI (physical "kernel_pdt") ECX;
   AndI 0xFFFFF000 ECX; OrI 0x08 ECX; MovToCr ECX CR3;
   MovFromCr CR4 ECX; OrI 0x00000010 ECX; MovToCr ECX CR4;
   MovFromCr CR0 ECX; OrI 0x80000000 ECX; MovToCr ECX CR0;
   MovI (sym "higher_half") ECX; JmpR ECX].

Definition push_arguments : list instr :=
  [PushM (physical "grub_magic_number") None; PushM (physical "multiboot_info") None;
   PushI (sym "kernel_pt"); PushI (sym "kernel_pdt");
   PushI (sym "kernel_virtual_end"); PushI (sym "kernel_virtual_start");
   PushI (sym "kernel_physical_end"); PushI (sym "kernel_physical_start")].

Definition boot_assembler : program :=
  [("_start", start); ("setup_kernel_pdt", setup_kernel_pdt); ("setup_kernel_pt", setup_kernel_pt);
   ("loop", loop); ("enable_paging", enable_paging);
   ("higher_half", push_arguments ++ [Call "kernel_main"; Cli]); ("hang", [Jmp "hang"])].

(** What linker.ld and the sections of boot.s make of these addresses; the kernel
    ends below 4 MB, which its one page table reaches. *)
Record linked : Prop := Linked {
  lk_start : sym "kernel_virtual_start" = 0xC0100000 ∧ sym "kernel_physical_start" = 0x100000;
  lk_text : 0xC0100000 <= sym "higher_half" < sym "kernel_pt" ∧ 0xC0100000 <= sym "kernel_main" < sym "kernel_pt";
  lk_tables : sym "kernel_pt" mod 4096 = 0 ∧ sym "kernel_pdt" = sym "kernel_pt" + 4096;
  lk_grub : sym "multiboot_info" = sym "kernel_pdt" + 4096 ∧ sym "grub_magic_number" = sym "multiboot_info" + 4;
  lk_stack : sym "stack_top" mod 16 = 0 ∧ sym "grub_magic_number" + 4 <= sym "stack_top" - 16384 ∧
    sym "stack_top" <= sym "kernel_virtual_end";
  lk_end : sym "kernel_physical_end" = sym "kernel_virtual_end" - KERNEL_START_VADDR ∧
    sym "kernel_physical_end" <= 0x400000;
  lk_labels : NoDup ((λ x, sym x.1) <$> boot_assembler)
}.

(** The tables as the image has them: empty, but for the first entry of the directory. *)
Definition image_tables (r : gmap Z Z) : Prop :=
  (∀ i, 0 <= i < 1024 → ld r (physical "kernel_pt" + 4 * i) = 0) ∧
  (∀ i, 0 <= i < 1024 → ld r (physical "kernel_pdt" + 4 * i) = if i =? 0 then 0x8B else 0).

(** The machine GRUB leaves: no paging, flat segments. *)
Record from_grub {X} (m : machine X) : Prop := FromGrub {
  fg_paging : paging_on m = false;
  fg_data : flat_data (desc (sr m DS));
  fg_stack : flat_data (desc (sr m SS));
  fg_tables : image_tables (ram m)
}.

(** How many pages the loop maps: those from 0 on whose entry, flags included,
    is not above the end of the kernel, and the first in any case. *)
Definition mapped_pages : Z := (sym "kernel_physical_end" - 0xB) / 4096 + 1.

(** ** The memory it leaves *)

Definition fill_table (n : nat) (r : gmap Z Z) : gmap Z Z :=
  foldl (λ r i, <[physical "kernel_pt" + 4 * i := 4096 * i + 0xB]> r) r (seqZ 0 (Z.of_nat n)).

Definition boot_ram (magic info : Z) (n : nat) (r : gmap Z Z) : gmap Z Z :=
  fill_table n (<[physical "kernel_pdt" + 3072 := physical "kernel_pt" + 0xB]>
    (<[physical "multiboot_info" := info]> (<[physical "grub_magic_number" := magic]> r))).

Lemma ld_fill_table n r a :
  ld (fill_table n r) a
  = if decide (physical "kernel_pt" <= a < physical "kernel_pt" + 4 * Z.of_nat n ∧ (a - physical "kernel_pt") mod 4 = 0)
    then 4096 * ((a - physical "kernel_pt") / 4) + 0xB else ld r a.
Proof.
  unfold fill_table. induction n as [|n IH].
  { rewrite decide_False by lia. done. }
  rewrite seqZ_S, foldl_snoc, ld_insert, Z.add_0_l, IH. clear IH.
  repeat case_decide; subst; Z.to_euclidean_division_equations; lia.
Qed.

(** The flags of an entry go into the low bits of an aligned address. *)
Lemma or_low a b : a mod 4096 = 0 → 0 <= b < 4096 → Z.lor a b = a + b.
Proof.
  intros Ha Hb. replace a with (Z.shiftl (a / 4096) 12).
  - rewrite lor_shiftl_add by (simpl; lia). rewrite Z.shiftl_mul_pow2 by lia. done.
  - rewrite Z.shiftl_mul_pow2 by lia. change (2 ^ 12) with 4096. Z.to_euclidean_division_equations; lia.
Qed.

(** The mask of a page drops nothing from an address of one. *)
Lemma land_page a : is_u32 a → a mod 4096 = 0 → Z.land a (u32 0xFFFFF000) = a.
Proof.
  intros Ha H4. apply Z.bits_inj'. intros i Hi. rewrite Z.land_spec. change (u32 0xFFFFF000) with (Z.shiftl (Z.ones 20) 12).
  rewrite Z.shiftl_spec by done. destruct (Z.testbit a i) eqn:Ea; [|done]. cbn [andb].
  assert (Hlow : 12 <= i).
  { destruct (decide (12 <= i)); [done|]. exfalso.
    assert (E : a = a / 4096 * 2 ^ 12) by (change (2 ^ 12) with 4096; Z.to_euclidean_division_equations; lia).
    rewrite E, Z.mul_pow2_bits_low in Ea by lia. done. }
  apply Z.ones_spec_low. split; [lia|]. destruct (decide (i < 32)); [lia|]. exfalso.
  assert (Hlt : a < 2 ^ i) by (apply Z.lt_le_trans with (2 ^ 32); [lia|apply Z.pow_le_mono_r; lia]).
  rewrite Z.testbit_eqb in Ea by done. by rewrite Z.div_small in Ea by lia.
Qed.

Context (Hlk : linked).

(** Where things are, in numbers. *)
Lemma addresses :
  0x100000 <= physical "kernel_pt" ∧ physical "kernel_pt" mod 4096 = 0 ∧
  physical "kernel_pdt" = physical "kernel_pt" + 4096 ∧
  physical "multiboot_info" = physical "kernel_pt" + 8192 ∧
  physical "grub_magic_number" = physical "kernel_pt" + 8196 ∧
  physical "kernel_pt" + 8200 + 16384 <= physical "stack_top" ∧ physical "stack_top" mod 16 = 0 ∧
  physical "stack_top" <= sym "kernel_physical_end" <= 0x400000.
Proof using Hlk.
  destruct Hlk as [_ ? [? ?] [? ?] (?&?&?) [? ?] _]. unfold physical, KERNEL_START_VADDR in *.
  split_and!; try lia; Z.to_euclidean_division_equations; lia.
Qed.

Lemma data_address x :
  x ∈ ["kernel_pt"; "kernel_pdt"; "multiboot_info"; "grub_magic_number"] →
  0 <= physical x < 0x400000 ∧ physical x mod 4 = 0 ∧ u32 (physical x) = physical x.
Proof using Hlk.
  intros Hx. destruct addresses as (H1 & H2 & H3 & H4 & H5 & H6 & H7 & H8).
  assert (Hx' : physical x = physical "kernel_pt" ∨ physical x = physical "kernel_pt" + 4096 ∨
      physical x = physical "kernel_pt" + 8192 ∨ physical x = physical "kernel_pt" + 8196).
  { rewrite !elem_of_cons in Hx. destruct Hx as [->|[->|[->|[->|Hx%elem_of_nil]]]]; [auto..|done]. }
  assert (Hr : 0 <= physical x < 0x400000) by lia. split; [done|]. split; [|apply u32_small; lia].
  Z.to_euclidean_division_equations; lia.
Qed.

(** ** Without paging *)

Section run.
Context {X : Type} (ext : string → M (machine X) unit).
Implicit Types m : machine X.

Lemma write_plain m s a v :
  paging_on m = false → flat_data (desc (sr m s)) → 0 <= a < 4294967296 → a mod 4 = 0 →
  write s a v m = Ok (tt, set_ram (<[a := v]> (ram m)) m).
Proof.
  intros Hp (Hw & Hb & Hl) Ha H4. unfold write, Machine.resolve, linear. rewrite Hw, Hb, Hl, Z.add_0_l.
  rewrite (proj2 (Z.leb_le _ _)) by (Z.to_euclidean_division_equations; lia). cbn [andb mbind option_bind].
  rewrite u32_small by lia. rewrite H4. cbn [Z.eqb]. unfold translate. by rewrite Hp.
Qed.

(** A run of a piece of code that leads to the machine [m'], which ends in the
    code [rest] and takes [k] steps. *)
Definition leads (k : nat) (code : list instr) m (rest : list instr) m' : Prop :=
  ∀ fuel, run boot_assembler sym ext (k + fuel) code m = run boot_assembler sym ext fuel rest m'.

Lemma leads_trans k1 k2 c1 c2 c3 m1 m2 m3 :
  leads k1 c1 m1 c2 m2 → leads k2 c2 m2 c3 m3 → leads (k1 + k2) c1 m1 c3 m3.
Proof. intros H1 H2 fuel. by rewrite <- Nat.add_assoc, H1. Qed.

Lemma leads_refl code m : leads 0 code m code m.
Proof. intros fuel. reflexivity. Qed.

Lemma leads_next i code m m' :
  exec boot_assembler sym ext i m = Ok (Next, m') → leads 1 (i :: code) m code m'.
Proof. intros E fuel. cbn [Nat.add run]. by rewrite (bind_ok _ _ _ _ _ E). Qed.

Lemma leads_goto i code l m m' :
  exec boot_assembler sym ext i m = Ok (Goto l, m') → leads 1 (i :: code) m (from l boot_assembler) m'.
Proof. intros E fuel. cbn [Nat.add run]. by rewrite (bind_ok _ _ _ _ _ E). Qed.

(** What the code before the loop, and the loop, do not change. *)
Record plain m : Prop := Plain {
  pl_paging : paging_on m = false;
  pl_data : flat_data (desc (sr m DS))
}.

(** A machine that differs from [m] in its registers, flags, control registers and memory. *)
Definition with_control m (g : reg → Z) (f : Z) (c : creg → Z) (r : gmap Z Z) : machine X :=
  Machine X g (sr m) f c r (table m) (world m).

Abbreviation with_state m g f r := (with_control m g f (cr m) r).

Lemma store_plain m g f r (x b : reg) a code :
  plain m → segment_of (Some b) = DS → g b = a → 0 <= a < 4294967296 → a mod 4 = 0 →
  leads 1 (Store x 0 (Some b) :: code) (with_state m g f r) code (with_state m g f (<[a := g x]> r)).
Proof.
  intros [Hp Hd] Hb Ha Hr H4. apply leads_next. cbn [exec]. unfold next_instr.
  rewrite (bind_ok _ _ (with_state m g f r) tt (with_state m g f (<[a := g x]> r))); [done|].
  unfold offset_of, mbind, M_bind, gets. cbn [with_control gr]. rewrite Ha, Z.add_0_r, u32_small, Hb by done.
  by rewrite (write_plain (with_state m g f r)).
Qed.

Lemma mov_plain m g f c r n a (x : reg) code :
  u32 n = a → leads 1 (MovI n x :: code) (with_control m g f c r) code (with_control m (upd x a g) f c r).
Proof. intros <-. by apply leads_next. Qed.

Lemma or_plain m g f c r n a (x : reg) code :
  Z.lor (g x) (u32 n) = a →
  leads 1 (OrI n x :: code) (with_control m g f c r) code (with_control m (upd x a g) (with_result f a false) c r).
Proof. intros <-. by apply leads_next. Qed.

Lemma and_plain m g f c r n a (x : reg) code :
  Z.land (g x) (u32 n) = a →
  leads 1 (AndI n x :: code) (with_control m g f c r) code (with_control m (upd x a g) (with_result f a false) c r).
Proof. intros <-. by apply leads_next. Qed.

Lemma to_cr_plain m g f c r a (x : reg) (y : creg) code :
  g x = a → leads 1 (MovToCr x y :: code) (with_control m g f c r) code (with_control m g f (upd y a c) r).
Proof. intros <-. by apply leads_next. Qed.

Lemma from_cr_plain m g f c r (x : reg) (y : creg) code :
  leads 1 (MovFromCr y x :: code) (with_control m g f c r) code (with_control m (upd x (c y) g) f c r).
Proof. by apply leads_next. Qed.

(** A word stored at an address given. *)
Lemma put_plain m g f r (x : reg) n a code :
  plain m → x ≠ ECX → u32 n = a → 0 <= a < 4294967296 → a mod 4 = 0 →
  leads 2 (MovI n ECX :: Store x 0 (Some ECX) :: code) (with_state m g f r) code
    (with_state m (upd ECX a g) f (<[a := g x]> r)).
Proof.
  intros Hp Hx <- Hr H4. change 2%nat with (1 + 1)%nat. eapply leads_trans; [by apply leads_next|].
  change (set_gr ECX (u32 n) (with_state m g f r)) with (with_state m (upd ECX (u32 n) g) f r).
  replace (g x) with (upd ECX (u32 n) g x) by by apply upd_ne. by apply (store_plain m _ _ _ _ ECX).
Qed.

(** Up to the loop. *)
Lemma boot_start_ok m g f r :
  plain m →
  ∃ k g' f', leads k (from "_start" boot_assembler) (with_state m g f r) (from "loop" boot_assembler)
      (with_state m g' f' (boot_ram (g EAX) (g EBX) 0 r)) ∧
    g' ESP = sym "stack_top" ∧ g' EAX = physical "kernel_pt" ∧ g' ECX = 0xB.
Proof using Hlk.
  intros Hp. destruct addresses as (H1 & H2 & H3 & H4 & H5 & H6 & H7 & H8).
  destruct (data_address "grub_magic_number") as (Hg & Hg4 & Eg); [by repeat constructor|].
  destruct (data_address "multiboot_info") as (Hi & Hi4 & Ei); [by repeat constructor|].
  destruct (data_address "kernel_pt") as (Ht & Ht4 & Et); [by repeat constructor|].
  assert (Ed : u32 (physical "kernel_pdt" + KERNEL_PDT_IDX * 4) = physical "kernel_pdt" + 3072)
    by (change (KERNEL_PDT_IDX * 4) with 3072; rewrite u32_small; lia).
  assert (Hd4 : (physical "kernel_pdt" + 3072) mod 4 = 0) by (Z.to_euclidean_division_equations; lia).
  assert (Es : u32 (sym "stack_top") = sym "stack_top").
  { apply u32_small. destruct Hlk as [_ _ _ _ (_ & _ & ?) [? ?] _]. unfold physical, KERNEL_START_VADDR in *. lia. }
  eexists _, _, _. split.
  - change (from "_start" boot_assembler) with (start ++ setup_kernel_pdt ++ setup_kernel_pt ++ from "loop" boot_assembler).
    eapply leads_trans; [by apply (mov_plain m g f _ r _ (sym "stack_top"))|]. cbn [tl app].
    eapply leads_trans; [by apply (put_plain m _ _ _ EAX _ (physical "grub_magic_number")); lia || done|].
    eapply leads_trans; [by apply (put_plain m _ _ _ EBX _ (physical "multiboot_info")); lia || done|].
    eapply leads_trans; [by apply (mov_plain m _ _ _ _ _ (physical "kernel_pdt" + 3072))|].
    eapply leads_trans; [by apply (mov_plain m _ _ _ _ _ (physical "kernel_pt"))|].
    eapply leads_trans; [by apply (or_plain m _ _ _ _ _ (physical "kernel_pt" + 0xB)), or_low|].
    eapply leads_trans; [by apply (store_plain m _ _ _ EDX ECX (physical "kernel_pdt" + 3072)); lia || done|].
    eapply leads_trans; [by apply (mov_plain m _ _ _ _ _ (physical "kernel_pt"))|].
    eapply leads_trans; [by apply (mov_plain m _ _ _ _ _ 0xB)|].
    apply leads_refl.
  - done.
Qed.

(** One turn of the loop: the entry of the page [i]. *)
Lemma turn_ok m g f r magic info (i : nat) :
  plain m → g EAX = physical "kernel_pt" + 4 * Z.of_nat i → g ECX = 4096 * Z.of_nat i + 0xB → Z.of_nat i < 1024 →
  ∃ k g' f', leads k (from "loop" boot_assembler) (with_state m g f (boot_ram magic info i r))
      (from (if 4096 * Z.of_nat (S i) + 0xB <=? sym "kernel_physical_end" then "loop" else "enable_paging") boot_assembler)
      (with_state m g' f' (boot_ram magic info (S i) r)) ∧
    g' ESP = g ESP ∧ g' EAX = physical "kernel_pt" + 4 * Z.of_nat (S i) ∧ g' ECX = 4096 * Z.of_nat (S i) + 0xB.
Proof using Hlk.
  intros Hp Ha Hc Hi. destruct addresses as (H1 & H2 & H3 & H4 & H5 & H6 & H7 & H8).
  set (g1 := upd EAX (physical "kernel_pt" + 4 * Z.of_nat (S i)) g).
  set (g2 := upd ECX (4096 * Z.of_nat (S i) + 0xB) g1).
  assert (Hr : boot_ram magic info (S i) r = <[physical "kernel_pt" + 4 * Z.of_nat i := g ECX]> (boot_ram magic info i r)).
  { unfold boot_ram, fill_table. rewrite seqZ_S, foldl_snoc, Z.add_0_l. by rewrite Hc. }
  assert (Ea : u32 (g EAX + 4) = physical "kernel_pt" + 4 * Z.of_nat (S i)) by (rewrite Ha, u32_small; lia).
  assert (Ec : u32 (g ECX + 0x1000) = 4096 * Z.of_nat (S i) + 0xB) by (rewrite Hc, u32_small; lia).
  eexists _, g2, _. split; [|by split_and!].
  change (from "loop" boot_assembler) with (loop ++ from "enable_paging" boot_assembler) at 1.
  eapply leads_trans; [by apply (store_plain m g f _ ECX EAX (physical "kernel_pt" + 4 * Z.of_nat i));
    [..|Z.to_euclidean_division_equations; lia|Z.to_euclidean_division_equations; lia]|].
  rewrite <- Hr. set (r' := boot_ram magic info (S i) r).
  set (f1 := with_result f (u32 (g EAX + 4)) (negb (is_signed (signed (g EAX) + signed 4)))).
  eapply (leads_trans 1 _ _ _ _ _ (with_state m g1 f1 r')); [apply leads_next; unfold g1; by rewrite <- Ea|].
  set (f2 := with_result f1 (u32 (g ECX + 0x1000)) (negb (is_signed (signed (g ECX) + signed 0x1000)))).
  eapply (leads_trans 1 _ _ _ _ _ (with_state m g2 f2 r')); [apply leads_next; unfold g2; by rewrite <- Ec|].
  set (e := sym "kernel_physical_end") in *. set (x := 4096 * Z.of_nat (S i) + 0xB) in *.
  set (f3 := with_result f2 (u32 (x - e)) (negb (is_signed (signed x - signed e)))).
  eapply (leads_trans 1 _ _ _ _ _ (with_state m g2 f3 r')); [by apply leads_next|].
  assert (Ele : le_flags f3 = (x <=? e)) by (apply compared; lia).
  destruct (x <=? e) eqn:Ex.
  - eapply (leads_goto (Jle "loop")). cbn [exec]. unfold mbind, M_bind, gets. cbn [with_control mflags]. by rewrite Ele.
  - eapply (leads_next (Jle "loop")). cbn [exec]. unfold mbind, M_bind, gets. cbn [with_control mflags]. by rewrite Ele.
Qed.

(** The loop, from the page [i] to the last. *)
Lemma loop_ok m r magic info j : plain m → ∀ (i : nat) g f,
  Z.of_nat (S i) + Z.of_nat j = mapped_pages →
  g EAX = physical "kernel_pt" + 4 * Z.of_nat i → g ECX = 4096 * Z.of_nat i + 0xB →
  ∃ k g' f', leads k (from "loop" boot_assembler) (with_state m g f (boot_ram magic info i r))
      (from "enable_paging" boot_assembler) (with_state m g' f' (boot_ram magic info (Z.to_nat mapped_pages) r)) ∧
    g' ESP = g ESP.
Proof using Hlk.
  intros Hp. destruct addresses as (H1 & H2 & H3 & H4 & H5 & H6 & H7 & H8).
  induction j as [|j IH]; intros i g f Hj Ha Hc.
  - destruct (turn_ok m g f r magic info i Hp Ha Hc) as (k & g' & f' & E & Es & _).
    { unfold mapped_pages in Hj. Z.to_euclidean_division_equations; lia. }
    exists k, g', f'. split; [|done]. replace (Z.to_nat mapped_pages) with (S i) by lia.
    rewrite (proj2 (Z.leb_gt _ _)) in E; [done|]. unfold mapped_pages in Hj. Z.to_euclidean_division_equations; lia.
  - destruct (turn_ok m g f r magic info i Hp Ha Hc) as (k & g1 & f1 & E & Es & Ea & Ec).
    { unfold mapped_pages in Hj. Z.to_euclidean_division_equations; lia. }
    rewrite (proj2 (Z.leb_le _ _)) in E; [|unfold mapped_pages in Hj; Z.to_euclidean_division_equations; lia].
    destruct (IH (S i) g1 f1 ltac:(lia) Ea Ec) as (k2 & g2 & f2 & E2 & Es2).
    exists (k + k2)%nat, g2, f2. split; [by eapply leads_trans|congruence].
Qed.

(** ** With paging *)

(** The control registers it sets: the directory, with write-through; pages of 4 MB;
    paging. *)
Definition boot_control (c : creg → Z) : creg → Z :=
  upd CR0 (Z.lor (c CR0) 0x80000000) (upd CR4 (Z.lor (c CR4) 0x10) (upd CR3 (physical "kernel_pdt" + 8) c)).

Lemma boot_control_ok c :
  Z.testbit (boot_control c CR0) 31 = true ∧ Z.testbit (boot_control c CR4) 4 = true ∧
  hw_base (boot_control c CR3) = physical "kernel_pdt".
Proof using Hlk.
  destruct addresses as (H1 & H2 & H3 & _). unfold boot_control.
  split; [rewrite upd_eq, Z.lor_spec; apply orb_true_r|].
  split; [rewrite upd_ne, upd_eq, Z.lor_spec by done; apply orb_true_r|].
  rewrite !upd_ne, upd_eq by done. unfold hw_base. Z.to_euclidean_division_equations; lia.
Qed.

(** A machine with the tables boot.s made. *)
Definition boot_tables (r : gmap Z Z) : Prop :=
  (∀ i, 0 <= i < 1024 → ld r (physical "kernel_pt" + 4 * i) = if i <? mapped_pages then 4096 * i + 0xB else 0) ∧
  (∀ i, 0 <= i < 1024 → ld r (physical "kernel_pdt" + 4 * i)
    = if i =? 0 then 0x8B else if i =? 768 then physical "kernel_pt" + 0xB else 0).

Lemma mapped_range : 256 <= mapped_pages <= 1024 ∧ sym "kernel_physical_end" <= 4096 * mapped_pages + 10.
Proof using Hlk.
  destruct addresses as (H1 & _ & _ & _ & _ & H6 & _ & H8). unfold mapped_pages. Z.to_euclidean_division_equations; lia.
Qed.

Lemma boot_ram_tables magic info r :
  image_tables r →
  let r' := boot_ram magic info (Z.to_nat mapped_pages) r in
  boot_tables r' ∧ ld r' (physical "multiboot_info") = info ∧ ld r' (physical "grub_magic_number") = magic.
Proof using Hlk.
  intros [Ht Hd] r'. destruct addresses as (H1 & H2 & H3 & H4 & H5 & _). destruct mapped_range as [HN _].
  unfold r', boot_ram. split; [split|split].
  - intros i Hi. rewrite ld_fill_table, !ld_insert_ne by lia. rewrite Ht by done. rewrite Z2Nat.id by lia.
    destruct (Z.ltb_spec i mapped_pages).
    + rewrite decide_True by (split; [lia|]; Z.to_euclidean_division_equations; lia).
      do 2 f_equal. Z.to_euclidean_division_equations; lia.
    + rewrite decide_False by lia. done.
  - intros i Hi. rewrite ld_fill_table, decide_False by lia. rewrite ld_insert.
    destruct (Z.eqb_spec i 768) as [->|]; [rewrite decide_True by lia; done|].
    rewrite decide_False, !ld_insert_ne, Hd by lia. done.
  - rewrite ld_fill_table, decide_False by lia. rewrite ld_insert_ne, ld_insert_eq by lia. done.
  - rewrite ld_fill_table, decide_False by lia. rewrite !ld_insert_ne, ld_insert_eq by lia. done.
Qed.

(** The first 4 MB are mapped on themselves, and the pages of the loop at 3 GB. *)
Lemma boot_walk_low r a : boot_tables r → 0 <= a < 4194304 → walk r (physical "kernel_pdt") a = Some a.
Proof.
  intros [_ Hd] Ha. unfold walk, pde_of. rewrite Z.div_small, Hd by lia.
  change (Some (0 + a mod 4194304) = Some a). by rewrite Z.mod_small.
Qed.

Lemma kernel_pde_bits : hw_present (physical "kernel_pt" + 0xB) = true ∧ hw_large (physical "kernel_pt" + 0xB) = false ∧
  hw_base (physical "kernel_pt" + 0xB) = physical "kernel_pt".
Proof using Hlk.
  destruct addresses as (H1 & H2 & _). rewrite <- (or_low _ 0xB) by (done || lia).
  unfold hw_present, hw_large. rewrite !Z.lor_spec. split; [apply orb_true_r|].
  assert (E : physical "kernel_pt" = physical "kernel_pt" / 4096 * 2 ^ 12) by (change (2 ^ 12) with 4096; Z.to_euclidean_division_equations; lia).
  split; [|rewrite or_low by (done || lia); unfold hw_base; Z.to_euclidean_division_equations; lia].
  rewrite E, Z.mul_pow2_bits_low by lia. done.
Qed.

Lemma boot_walk_high r o :
  boot_tables r → 0 <= o < 4096 * mapped_pages → walk r (physical "kernel_pdt") (KERNEL_START_VADDR + o) = Some o.
Proof using Hlk.
  intros [Ht Hd] Ho. destruct mapped_range as [HN _]. destruct kernel_pde_bits as (B1 & B2 & B3).
  unfold walk, pde_of, KERNEL_START_VADDR.
  replace ((0xC0000000 + o) / 4194304) with 768 by (Z.to_euclidean_division_equations; lia).
  rewrite Hd by lia. cbn [Z.eqb Pos.eqb]. rewrite B1, B2. cbn [negb]. unfold pte_addr. rewrite B3.
  replace ((0xC0000000 + o) / 4096 mod 1024) with (o / 4096) by (Z.to_euclidean_division_equations; lia).
  rewrite Ht by (Z.to_euclidean_division_equations; lia).
  rewrite (proj2 (Z.ltb_lt _ _)) by (Z.to_euclidean_division_equations; lia).
  assert (Hp : hw_present (4096 * (o / 4096) + 11) = true).
  { unfold hw_present. rewrite Z.bit0_odd, Z.odd_add, Z.odd_mul. by rewrite andb_false_l. }
  rewrite Hp. cbn [negb]. f_equal. unfold hw_base. Z.to_euclidean_division_equations; lia.
Qed.

(** The machine once paging is on. *)
Abbreviation paged m g f r := (with_control m g f (boot_control (cr m)) r).

Lemma translate_paged m g f r a :
  translate (paged m g f r) a = walk r (physical "kernel_pdt") a.
Proof using Hlk.
  destruct (boot_control_ok (cr m)) as (B1 & B2 & B3). unfold translate, paging_on. cbn [with_control cr ram].
  by rewrite B1, B2, B3.
Qed.

(** The higher half is mapped when the code jumps there. *)
Lemma jump_ok m g f r code :
  boot_tables r → g ECX = sym "higher_half" →
  leads 1 (JmpR ECX :: code) (paged m g f r) (from "higher_half" boot_assembler) (paged m g f r).
Proof using Hlk.
  intros Hr Hg. apply leads_goto. cbn [exec]. rewrite (bind_ok _ _ (paged m g f r) (sym "higher_half") (paged m g f r))
    by (unfold gets; by rewrite <- Hg).
  pose proof Hlk as [_ Ht _ _ (_ & _ & Hs) [He _] Hlabels]. pose proof addresses as (_ & _ & _ & _ & _ & Hst & _).
  destruct mapped_range as [_ HN]. unfold physical, KERNEL_START_VADDR in *.
  assert (Hw : translate (paged m g f r) (sym "higher_half") = Some (sym "higher_half" - 0xC0000000)).
  { rewrite translate_paged, <- (boot_walk_high r) by (done || lia). f_equal. unfold KERNEL_START_VADDR. lia. }
  rewrite (bind_ok _ _ (paged m g f r) (sym "higher_half" - 0xC0000000) (paged m g f r))
    by (unfold mbind, M_bind, gets, of_option; by rewrite Hw).
  assert (El : label_at boot_assembler sym (sym "higher_half") = Some "higher_half")
    by by apply (label_at_address boot_assembler sym 5 "higher_half" (push_arguments ++ [Call "kernel_main"; Cli])).
  rewrite El. done.
Qed.

Lemma paging_ok m g f r :
  boot_tables r →
  ∃ k g' f', leads k (from "enable_paging" boot_assembler) (with_state m g f r)
      (from "higher_half" boot_assembler) (paged m g' f' r) ∧ g' ESP = g ESP.
Proof using Hlk.
  intros Hr. destruct addresses as (H1 & H2 & H3 & _ & _ & H6 & _ & H8).
  destruct (data_address "kernel_pdt") as (Hd & _ & Ed); [by repeat constructor|].
  assert (Ha : physical "kernel_pdt" mod 4096 = 0) by (Z.to_euclidean_division_equations; lia).
  pose proof (land_page (physical "kernel_pdt") ltac:(lia) Ha) as Eand.
  assert (Eh : u32 (sym "higher_half") = sym "higher_half").
  { apply u32_small. destruct Hlk as [_ ? _ _ _ _ _]. unfold physical, KERNEL_START_VADDR in *. lia. }
  eexists _, _, _. split.
  - change (from "enable_paging" boot_assembler) with (enable_paging ++ from "higher_half" boot_assembler).
    eapply leads_trans; [by apply (mov_plain m g f _ r _ (physical "kernel_pdt"))|]. cbn [tl app].
    eapply leads_trans; [by apply (and_plain m _ _ _ _ _ (physical "kernel_pdt"))|].
    eapply leads_trans; [by apply (or_plain m _ _ _ _ _ (physical "kernel_pdt" + 8)), or_low|].
    eapply leads_trans; [by apply (to_cr_plain m _ _ _ _ (physical "kernel_pdt" + 8))|].
    eapply leads_trans; [apply from_cr_plain|].
    eapply leads_trans; [by apply (or_plain m _ _ _ _ _ (Z.lor (cr m CR4) 0x10))|].
    eapply leads_trans; [by apply (to_cr_plain m _ _ _ _ (Z.lor (cr m CR4) 0x10))|].
    eapply leads_trans; [apply from_cr_plain|].
    eapply leads_trans; [by apply (or_plain m _ _ _ _ _ (Z.lor (cr m CR0) 0x80000000))|].
    eapply leads_trans; [by apply (to_cr_plain m _ _ _ _ (Z.lor (cr m CR0) 0x80000000))|].
    eapply leads_trans; [by apply (mov_plain m _ _ _ _ _ (sym "higher_half"))|].
    by apply jump_ok.
  - done.
Qed.

(** ** The call of kernel_main *)

(** The nine words of the stack it takes, and the two words GRUB's values are in. *)
Definition boot_own (a : Z) : Prop :=
  (sym "stack_top" - 36 <= a < sym "stack_top" ∧ a mod 4 = 0) ∨
  a = physical "multiboot_info" ∨ a = physical "grub_magic_number".

Definition boot_at (a : Z) : Z := if KERNEL_START_VADDR <=? a then a - KERNEL_START_VADDR else a.

Definition boot_heap (magic info : Z) : gmap Z Z :=
  {[physical "multiboot_info" := info; physical "grub_magic_number" := magic]}.

Definition boot_region (magic info : Z) (c : creg → Z) (t : list descriptor) (r : gmap Z Z) : region :=
  Region boot_own boot_at (sym "stack_top") 9 (boot_heap magic info) c t r.

(** Where these words are. *)
Lemma boot_own_cases a :
  boot_own a → 0 <= a < 4294967296 ∧ a mod 4 = 0 ∧
  ((boot_at a = a - KERNEL_START_VADDR ∧ 0 <= a - KERNEL_START_VADDR < 4096 * mapped_pages ∧
    sym "stack_top" - 36 <= a < sym "stack_top" ∧ physical "kernel_pt" + 8200 <= boot_at a) ∨
   (boot_at a = a ∧ 0 <= a < 4194304 ∧ (a = physical "multiboot_info" ∨ a = physical "grub_magic_number") ∧
    physical "kernel_pt" + 8192 <= boot_at a < physical "kernel_pt" + 8200)).
Proof using Hlk.
  destruct addresses as (H1 & H2 & H3 & H4 & H5 & H6 & H7 & H8). destruct mapped_range as [_ HN].
  assert (Es : sym "stack_top" = physical "stack_top" + 0xC0000000) by (unfold physical, KERNEL_START_VADDR; lia).
  unfold boot_at, KERNEL_START_VADDR. intros [[Ha H4a]|Ha].
  - split; [lia|]. split; [done|]. left. rewrite (proj2 (Z.leb_le _ _)) by lia.
    assert (physical "stack_top" <= 4096 * mapped_pages) by (Z.to_euclidean_division_equations; lia). lia.
  - assert (Hr : physical "kernel_pt" + 8192 <= a < physical "kernel_pt" + 8200 ∧ a mod 4 = 0)
      by (destruct Ha as [-> | ->]; split; [lia| |lia|]; Z.to_euclidean_division_equations; lia).
    split; [lia|]. split; [apply Hr|]. right. rewrite (proj2 (Z.leb_gt _ _)) by lia. split_and!; lia || done.
Qed.

Lemma boot_region_ok magic info c t r : region_ok (boot_region magic info c t r).
Proof using Hlk.
  destruct addresses as (H1 & H2 & H3 & H4 & H5 & H6 & H7 & H8).
  assert (Es : sym "stack_top" = physical "stack_top" + 0xC0000000) by (unfold physical, KERNEL_START_VADDR; lia).
  split.
  - intros a b Ha Hb E. simpl in *. destruct (boot_own_cases a Ha) as (_ & _ & [(Ea & _ & ? & ?)|(Ea & _ & ? & ?)]),
      (boot_own_cases b Hb) as (_ & _ & [(Eb & _ & ? & ?)|(Eb & _ & ? & ?)]); lia.
  - split; cbn [boot_region rg_own rg_top rg_size rg_heap].
    + change (Z.of_nat 9) with 9. lia.
    + intros i Hi. change (Z.of_nat 9) with 9 in Hi. left. split; [lia|]. Z.to_euclidean_division_equations; lia.
    + intros a w Ha. assert (Hw : a = physical "multiboot_info" ∨ a = physical "grub_magic_number").
      { unfold boot_heap in Ha. apply lookup_insert_Some in Ha as [[<- _]|[_ Ha]]; [by left|].
        apply lookup_singleton_Some in Ha as [<- _]. by right. }
      split; [by right|]. intros i Hi. change (Z.of_nat 9) with 9 in Hi. lia.
Qed.

Lemma boot_stands m g f magic info r :
  boot_tables r → ld r (physical "multiboot_info") = info → ld r (physical "grub_magic_number") = magic →
  flat_data (desc (sr m SS)) → g ESP = sym "stack_top" →
  stands (boot_region magic info (boot_control (cr m)) (table m) r) (paged m g f r) (View g (sr m) f 9 [] (world m)).
Proof using Hlk.
  intros Hr Hi Hg Hs Hesp. destruct addresses as (H1 & H2 & H3 & H4 & H5 & H6 & H7 & H8).
  destruct kernel_pde_bits as (_ & _ & B3). destruct (boot_control_ok (cr m)) as (B1 & _ & B5).
  split; try done; cbn [boot_region rg_own rg_at rg_top rg_heap].
  - rewrite Z.mul_0_r, Z.sub_0_r. exact Hesp.
  - split.
    + intros a Ha. destruct (boot_own_cases a Ha) as (? & ? & [(Ea & Hh & _)|(Ea & Hl & _)]); split_and!; try done; try lia;
        rewrite translate_paged, Ea.
      * rewrite <- (boot_walk_high r) by done. f_equal. lia.
      * by apply boot_walk_low.
    + intros a b Ha Hb. unfold tables, paging_on. cbn [with_control cr ram]. rewrite B1, B5.
      rewrite !not_elem_of_cons. destruct (boot_own_cases a Ha) as (_ & _ & Hca).
      assert (Hat : physical "kernel_pt" + 8192 <= boot_at a) by lia. split_and!; [| |apply not_elem_of_nil].
      * destruct (boot_own_cases b Hb) as (Hb0 & _ & _). Z.to_euclidean_division_equations; lia.
      * assert (Hp : hw_base (pde_of r (physical "kernel_pdt") b) = 0 ∨
          hw_base (pde_of r (physical "kernel_pdt") b) = physical "kernel_pt").
        { destruct Hr as [_ Hd]. unfold pde_of. unfold KERNEL_START_VADDR in *.
          destruct (boot_own_cases b Hb) as (Hb0 & _ & [(_ & Hh & _)|(_ & Hl & _)]).
          - right. unfold KERNEL_START_VADDR in Hh. destruct mapped_range as [HN _].
            replace (b / 4194304) with 768 by (Z.to_euclidean_division_equations; lia). by rewrite Hd by lia.
          - left. rewrite (Z.div_small b) by lia. by rewrite Hd by lia. }
        unfold pte_addr. Z.to_euclidean_division_equations; lia.
  - intros a w Ha. unfold boot_heap in Ha. unfold word.
    assert (Ea : boot_at a = a ∧ ld r a = w).
    { apply lookup_insert_Some in Ha as [[<- <-]|[_ Ha]]; [|apply lookup_singleton_Some in Ha as [<- <-]];
        (split; [|done]); unfold boot_at, KERNEL_START_VADDR; by rewrite (proj2 (Z.leb_gt _ _)) by lia. }
    destruct Ea as [-> Ew]. exact Ew.
Qed.

(** The arguments of [kernel_main], the first on top. *)
Definition arguments (magic info : Z) : list Z :=
  [sym "kernel_physical_start"; sym "kernel_physical_end"; sym "kernel_virtual_start"; sym "kernel_virtual_end";
   sym "kernel_pdt"; sym "kernel_pt"; info; magic].

Lemma sym_u32 x :
  x ∈ ["kernel_physical_start"; "kernel_physical_end"; "kernel_virtual_start"; "kernel_virtual_end"; "kernel_pdt"; "kernel_pt"] →
  is_u32 (sym x).
Proof using Hlk.
  intros Hx. destruct addresses as (H1 & _ & H3 & _ & _ & H6 & _ & H8). destruct Hlk as [[? ?] _ _ _ _ [? ?] _].
  unfold physical, KERNEL_START_VADDR in *. rewrite !elem_of_cons in Hx.
  destruct Hx as [->|[->|[->|[->|[->|[->|Hx%elem_of_nil]]]]]]; [lia..|done].
Qed.

Lemma arguments_pushed g (s : seg → segment) f magic info t (w : X) :
  flat_data (desc (s DS)) →
  vrun (sym "stack_top") (boot_heap magic info) t push_arguments (View g s f 9 [] w)
  = Some (View g s f 1 (arguments magic info) w).
Proof using Hlk.
  intros Hd. destruct addresses as (H1 & H2 & H3 & H4 & H5 & H6 & H7 & H8).
  destruct (data_address "grub_magic_number") as (_ & _ & Eg); [by repeat constructor|].
  destruct (data_address "multiboot_info") as (_ & _ & Ei); [by repeat constructor|].
  assert (Hread : ∀ x y n l, u32 (physical x) = physical x → boot_heap magic info !! physical x = Some y →
    vexec (sym "stack_top") (boot_heap magic info) t (PushM (physical x) None) (View g s f (S n) l w)
    = Some (View g s f n (y :: l) w)).
  { intros x y n l Ex Hy. cbn [vexec]. unfold vread. cbn [v_sr]. pose proof (flat_data_read _ Hd) as (-> & -> & ->).
    cbn [andb Z.eqb Pos.eqb]. by rewrite Ex, Hy. }
  assert (Hpush : ∀ x n l, is_u32 (sym x) →
    vexec (sym "stack_top") (boot_heap magic info) t (PushI (sym x)) (View g s f (S n) l w) = Some (View g s f n (sym x :: l) w))
    by (intros x n l Hx; cbn [vexec]; by rewrite u32_small).
  unfold push_arguments.
  erewrite vrun_cons; [|apply (Hread _ magic); [done|]].
  2: { unfold boot_heap. rewrite lookup_insert_ne by lia. apply lookup_singleton_eq. }
  erewrite vrun_cons; [|apply (Hread _ info); [done|apply lookup_insert_eq]].
  do 6 (erewrite vrun_cons; [|apply Hpush, sym_u32; by repeat constructor]). reflexivity.
Qed.

(** What is left of the tables in a machine that stands on the region. *)
Lemma tables_left m V magic info c t r :
  boot_tables r → stands (boot_region magic info c t r) m V → boot_tables (ram m).
Proof using Hlk.
  intros [Ht Hd] Hm. destruct addresses as (H1 & H2 & H3 & _).
  assert (Hrest : ∀ p, p < physical "kernel_pt" + 8192 → ld (ram m) p = ld r p).
  { intros p Hp. apply (re_rest _ _ _ _ _ _ _ _ _ _ Hm). intros a Ha. simpl in *.
    destruct (boot_own_cases a Ha) as (_ & _ & Hc). lia. }
  split; intros i Hi; rewrite Hrest by lia; auto.
Qed.

(** From [_start] to the call. *)
Lemma boot_ok m magic info :
  from_grub m → gr m EAX = magic → gr m EBX = info →
  let r := boot_ram magic info (Z.to_nat mapped_pages) (ram m) in
  ∃ k m' g f, (∀ fuel, run boot_assembler sym ext (k + S fuel) (from "_start" boot_assembler) m
      = (ext "kernel_main" ≫= λ _, run boot_assembler sym ext fuel (Cli :: from "hang" boot_assembler)) m') ∧
    stands (boot_region magic info (boot_control (cr m)) (table m) r) m'
      (View g (sr m) f 0 (sym "kernel_main" :: arguments magic info) (world m)).
Proof using Hlk.
  intros [Hp Hd Hs Ht] <- <- r. destruct mapped_range as [HN _].
  destruct (boot_ram_tables (gr m EAX) (gr m EBX) (ram m) Ht) as (Htab & Hi & Hg). fold r in Htab, Hi, Hg.
  assert (Hpl : plain m) by (by split).
  destruct (boot_start_ok m (gr m) (mflags m) (ram m) Hpl) as (k1 & g1 & f1 & R1 & E1 & Ea & Ec).
  destruct (loop_ok m (ram m) (gr m EAX) (gr m EBX) (Z.to_nat (mapped_pages - 1)) Hpl 0%nat g1 f1 ltac:(lia) ltac:(lia) ltac:(lia))
    as (k2 & g2 & f2 & R2 & E2). fold r in R2.
  destruct (paging_ok m g2 f2 r Htab) as (k3 & g3 & f3 & R3 & E3).
  pose proof (boot_stands m g3 f3 _ _ r Htab Hi Hg Hs ltac:(congruence)) as Hst.
  pose proof (boot_region_ok (gr m EAX) (gr m EBX) (boot_control (cr m)) (table m) r) as HR.
  destruct (code_stands _ HR boot_assembler sym ext push_arguments _ _ _ Hst
    (arguments_pushed g3 (sr m) f3 _ _ _ _ Hd)) as (m4 & H4 & R4).
  destruct (call_stands _ HR boot_assembler sym ext "kernel_main" m4 _ _ H4 eq_refl)
    as (m5 & H5 & R5).
  pose proof (leads_trans _ _ _ _ _ _ _ _ (leads_trans _ _ _ _ _ _ _ _ R1 R2) R3) as R. clear R1 R2 R3.
  exists (k1 + k2 + k3 + length push_arguments)%nat, m5, g3, f3. split; [|exact H5].
  intros fuel. assert (Em : with_state m (gr m) (mflags m) (ram m) = m) by (by destruct m). rewrite Em in R.
  rewrite <- (Nat.add_assoc (k1 + k2 + k3)), R.
  change (from "higher_half" boot_assembler) with (push_arguments ++ Call "kernel_main" :: Cli :: from "hang" boot_assembler).
  by rewrite R4, R5.
Qed.

(** The arguments, as the function finds them. *)
Lemma arguments_read m magic info c t r g (s : seg → segment) f (w : X) :
  stands (boot_region magic info c t r) m (View g s f 0 (sym "kernel_main" :: arguments magic info) w) →
  ∀ i v, arguments magic info !! i = Some v → read SS (gr m ESP + 4 * (Z.of_nat i + 1)) m = Ok (v, m).
Proof using Hlk.
  intros Hm i v Hv. pose proof (lookup_lt_Some _ _ _ Hv) as Hi. change (length (arguments magic info)) with 8%nat in Hi.
  destruct (boot_region_ok magic info c t r) as [Hinj Harr].
  pose proof (re_stack _ _ _ _ _ _ _ _ _ _ Hm (S i) v Hv) as Ew.
  pose proof (slot_own _ _ _ _ Harr 9 (S i) ltac:(lia) ltac:(reflexivity)) as Ho.
  cbn [v_stack length] in Ew. change (length (arguments magic info)) with 8%nat in Ew. set (a := slot _ _ _) in *. assert (Ea : gr m ESP + 4 * (Z.of_nat i + 1) = a).
  { rewrite (re_esp _ _ _ _ _ _ _ _ _ _ Hm). cbn [v_stack length]. unfold a, slot. change (length (arguments magic info)) with 8%nat. lia. }
  rewrite Ea, (read_owned _ _ m SS a (re_owned _ _ _ _ _ _ _ _ _ _ Hm) Ho); [by rewrite Ew|].
  rewrite (re_sr _ _ _ _ _ _ _ _ _ _ Hm). apply flat_data_read, (re_ss _ _ _ _ _ _ _ _ _ _ Hm).
Qed.

(** Every word is still one of 32 bits. *)
Lemma words_left m V magic info c t r :
  (∀ p, is_u32 (ld r p)) → Forall (λ x, is_u32 x) (v_stack V) → length (v_stack V) = 9%nat → is_u32 magic → is_u32 info →
  stands (boot_region magic info c t r) m V → ∀ p, is_u32 (ld (ram m) p).
Proof using Hlk.
  intros Hr HV Hlen Hmagic Hinfo Hm p.
  assert (Hcase : (∃ a, boot_own a ∧ boot_at a = p) ∨ ∀ a, boot_own a → boot_at a ≠ p).
  { destruct (decide (p + KERNEL_START_VADDR < sym "stack_top" ∧ sym "stack_top" - 36 <= p + KERNEL_START_VADDR ∧
      (p + KERNEL_START_VADDR) mod 4 = 0)) as [Hs|Hs].
    - left. exists (p + KERNEL_START_VADDR). assert (Ho : boot_own (p + KERNEL_START_VADDR)) by (left; lia).
      split; [done|]. destruct (boot_own_cases _ Ho) as (_ & _ & [(E & _)|(_ & ? & _)]); [lia|].
      destruct addresses as (H1 & _ & _ & _ & _ & H6 & _). unfold physical, KERNEL_START_VADDR in *. lia.
    - destruct (decide (p = physical "multiboot_info" ∨ p = physical "grub_magic_number")) as [Hg|Hg].
      + left. exists p. assert (Ho : boot_own p) by (by right). split; [done|].
        destruct (boot_own_cases _ Ho) as (_ & _ & [(_ & ? & _)|(E & _)]); [|done].
        destruct (data_address "multiboot_info") as (? & _); [by repeat constructor|].
        destruct (data_address "grub_magic_number") as (? & _); [by repeat constructor|]. unfold KERNEL_START_VADDR in *. lia.
      + right. intros a Ho E. destruct (boot_own_cases _ Ho) as (_ & H4 & [(Ea & _ & ? & _)|(Ea & _ & ? & _)]);
          [apply Hs|apply Hg; by rewrite <- E, Ea]. replace (p + KERNEL_START_VADDR) with a by lia. lia. }
  destruct Hcase as [(a & Ho & <-)|Hno]; [|rewrite (re_rest _ _ _ _ _ _ _ _ _ _ Hm p Hno); apply Hr].
  change (is_u32 (word boot_at m a)). destruct Ho as [[Ha H4]|Ha].
  - set (i := Z.to_nat ((a - (sym "stack_top" - 36)) / 4)).
    assert (Hi : (i < 9)%nat) by (unfold i; Z.to_euclidean_division_equations; lia).
    destruct (lookup_lt_is_Some_2 (v_stack V) i ltac:(lia)) as [x Hx].
    assert (E : word boot_at m (slot (sym "stack_top") (length (v_stack V)) i) = x)
      by exact (re_stack _ _ _ _ _ _ _ _ _ _ Hm i x Hx).
    replace a with (slot (sym "stack_top") (length (v_stack V)) i).
    + rewrite E. by apply (Forall_lookup_1 _ _ i x) in HV.
    + unfold slot. rewrite Hlen. pose proof Hlk as [_ _ _ _ (Hst & _) _ _]. unfold i. Z.to_euclidean_division_equations; lia.
  - assert (Hw : ∃ w, boot_heap magic info !! a = Some w ∧ is_u32 w).
    { destruct (addresses) as (_ & _ & _ & E1 & E2 & _). unfold boot_heap.
      destruct Ha as [-> | ->]; [exists info; split; [apply lookup_insert_eq|done]|].
      exists magic. split; [|done]. rewrite lookup_insert_ne by lia. apply lookup_singleton_eq. }
    destruct Hw as (w & Hw & Hw32). assert (E : word boot_at m a = w) by exact (re_heap _ _ _ _ _ _ _ _ _ _ Hm a w Hw).
    by rewrite E.
Qed.

Lemma boot_words m m' magic info g f :
  let r := boot_ram magic info (Z.to_nat mapped_pages) (ram m) in
  (∀ p, is_u32 (ld (ram m) p)) → is_u32 magic → is_u32 info →
  stands (boot_region magic info (boot_control (cr m)) (table m) r) m'
    (View g (sr m) f 0 (sym "kernel_main" :: arguments magic info) (world m)) →
  ∀ p, is_u32 (ld (ram m') p).
Proof using Hlk.
  intros r Hw Hmagic Hinfo Hst. destruct addresses as (H1 & H2 & H3 & H4 & H5 & H6 & H7 & H8).
  assert (Hk : is_u32 (sym "kernel_main")) by (destruct (lk_text Hlk) as [_ Hk]; unfold physical, KERNEL_START_VADDR in *; lia).
  destruct mapped_range as [HN _]. eapply (words_left m' _ magic info _ _ r); [| |..|exact Hmagic|exact Hinfo|exact Hst].
  - intros p. unfold r, boot_ram. rewrite ld_fill_table.
    case_decide; [Z.to_euclidean_division_equations; lia|]. rewrite !ld_insert. repeat case_decide; try lia; apply Hw.
  - cbn [v_stack]. unfold arguments. repeat (constructor; [first [done|apply sym_u32; by repeat constructor]|]). constructor.
  - reflexivity.
Qed.
End run.

Lemma virtual_to_physical x : x ∈ ["kernel_pdt"; "kernel_pt"] → VIRTUAL_TO_PHYSICAL (sym x) = physical x.
Proof using Hlk.
  intros Hx. destruct (data_address x) as (? & _ & E).
  { apply elem_of_cons in Hx as [->|Hx%list_elem_of_singleton]; [|subst x]; by repeat constructor. }
  exact E.
Qed.

(** The state [frames_init] needs, from the tables. *)
Lemma boot_state_of_tables (s : paging frames) lo :
  boot_tables (phys s) → hw_base (cr3 s) = physical "kernel_pdt" → (∀ p, is_u32 (ld (phys s) p)) →
  mapped_pages + 32 <= 1023 → physical "kernel_pt" + 8192 <= lo →
  let s' := set_kernel_tables (physical "kernel_pdt") (physical "kernel_pt") s in
  boot_state lo s' ∧ absent_tables s' {[769; 770; 771; 772]}.
Proof using Hlk.
  intros [Ht Hd] Hc Hw HN Hlo s'. destruct addresses as (H1 & H2 & H3 & _ & _ & H6 & _ & H8).
  destruct kernel_pde_bits as (B1 & B2 & B3). destruct mapped_range as [HN' _].
  assert (Ead : physical "kernel_pdt" mod 4096 = 0) by (Z.to_euclidean_division_equations; lia).
  assert (Hpde : ∀ idx, 768 <= idx < 1024 → ld (phys s) (physical "kernel_pdt" + 4 * idx)
    = if idx =? 768 then physical "kernel_pt" + 0xB else 0).
  { intros idx Hi. rewrite Hd by lia. by rewrite (proj2 (Z.eqb_neq idx 0)) by lia. }
  assert (H0 : ld (phys s) (physical "kernel_pdt") = 0x8B) by (rewrite <- (Z.add_0_r (physical _)); exact (Hd 0 ltac:(lia))).
  assert (H768 : ld (phys s) (physical "kernel_pdt" + 3072) = physical "kernel_pt" + 0xB) by exact (Hd 768 ltac:(lia)).
  assert (Hok : entry_ok (physical "kernel_pt" + 0xB) (physical "kernel_pt")).
  { split; try done; [lia|]. apply IS_ENTRY_PRESENT_spec. unfold config. Z.to_euclidean_division_equations; lia. }
  assert (Hact : active s' = physical "kernel_pdt") by exact Hc.
  split; [split|].
  - split_and!; [|split|exact Hc].
    + split; try done; rewrite ?Hact; simpl; try lia; [by rewrite H0|by rewrite H768].
    + simpl. lia.
    + simpl. by rewrite H0.
    + simpl. change (4 * 768) with 3072. by rewrite H768.
    + intros idx Hi. unfold good_pde. simpl. rewrite Hpde by lia. destruct (Z.eqb_spec idx 768) as [->|]; [|done].
      intros _. rewrite B1, B2, B3. split; [reflexivity|]. split; [reflexivity|]. split; [lia|].
      split; [split; [exact H2|lia|rewrite Hact; lia|done]|apply not_elem_of_empty].
  - simpl. lia.
  - intros idx Hi. simpl. rewrite Hpde by lia. destruct (Z.eqb_spec idx 768); [rewrite B3; lia|done].
  - exists mapped_pages. split; [lia|]. split; [lia|]. intros j Hj. split; [|lia]. simpl.
    rewrite Ht by lia. by rewrite (proj2 (Z.ltb_ge _ _)) by lia.
  - intros idx Hi. rewrite !elem_of_union, !elem_of_singleton in Hi. assert (769 <= idx <= 772) by lia. split; [lia|].
    simpl. rewrite Hpde by lia. by rewrite (proj2 (Z.eqb_neq idx 768)) by lia.
Qed.
End boot.

(** C16: From the machine GRUB leaves, boot.s comes to the call of [kernel_main]
    in a number of steps [k] of its own, and [cli] and the endless loop follow it.
    The function finds its eight arguments on the stack, above the return address,
    the magic number and the address GRUB passed among them. Paging is on: the first
    4 MB are mapped on themselves, and at 3 GB are the pages up to the end of the
    kernel; when 32 pages and the last of the window are left in its table, that is
    the state [frames_init] needs, with its directory and its page table where the
    arguments say, and four entries of the directory free. *)
Theorem boot_s_hands_over {X} (sym : string → Z) (ext : string → M (machine X) unit) m magic info :
  linked sym → from_grub sym m → (∀ p, is_u32 (ld (ram m) p)) →
  gr m EAX = magic → gr m EBX = info → is_u32 magic → is_u32 info →
  ∃ k m', (∀ fuel, run (boot_assembler sym) sym ext (k + S fuel) (from "_start" (boot_assembler sym)) m
      = (ext "kernel_main" ≫= λ _, run (boot_assembler sym) sym ext fuel (Cli :: from "hang" (boot_assembler sym))) m') ∧
    (∀ i w, arguments sym magic info !! i = Some w → read SS (gr m' ESP + 4 * (Z.of_nat i + 1)) m' = Ok (w, m')) ∧
    (∀ a, 0 <= a < 0x400000 → translate m' a = Some a) ∧
    (∀ o, 0 <= o < 4096 * mapped_pages sym → translate m' (KERNEL_START_VADDR + o) = Some o) ∧
    ∀ (s : paging frames) lo, phys s = ram m' → cr3 s = cr m' CR3 →
      mapped_pages sym + 32 <= 1023 → physical sym "kernel_pt" + 8192 <= lo →
      let s' := set_kernel_tables (VIRTUAL_TO_PHYSICAL (sym "kernel_pdt")) (VIRTUAL_TO_PHYSICAL (sym "kernel_pt")) s in
      boot_state lo s' ∧ absent_tables s' {[769; 770; 771; 772]}.
Proof.
  intros Hlk Hm Hw Ea Eb Hmagic Hinfo.
  destruct (boot_ok sym Hlk ext m magic info Hm Ea Eb) as (k & m' & g & f & Hrun & Hst).
  destruct (boot_ram_tables sym Hlk magic info (ram m) (fg_tables _ _ Hm)) as (Htab & _).
  set (r := boot_ram _ _ _ _ _) in *. pose proof (tables_left sym Hlk m' _ _ _ _ _ _ Htab Hst) as Htab'.
  destruct (boot_control_ok sym Hlk (cr m)) as (B1 & B2 & B3).
  assert (Htr : ∀ a, translate m' a = walk (ram m') (physical sym "kernel_pdt") a).
  { intros a. unfold translate, paging_on. rewrite !(re_cr _ _ _ _ _ _ _ _ _ _ Hst). cbn [boot_region rg_control].
    by rewrite B1, B2, B3. }
  exists k, m'. split; [exact Hrun|]. split; [|split; [|split]].
  - by apply (arguments_read sym Hlk m' magic info (boot_control sym (cr m)) (table m) r g (sr m) f (world m)).
  - intros a Ha. rewrite Htr. by apply boot_walk_low.
  - intros o Ho. rewrite Htr. by apply boot_walk_high.
  - intros s lo Eph Ecr HN Hlo.
    rewrite !(virtual_to_physical sym Hlk) by (by repeat constructor).
    apply (boot_state_of_tables sym Hlk s lo); [by rewrite Eph| |by rewrite Eph; apply (boot_words sym Hlk m m' magic info g f)|done..].
    rewrite Ecr, (re_cr _ _ _ _ _ _ _ _ _ _ Hst). exact B3.
Qed.

(** ** A boot: a kernel that ends at 0xC010B000 *)

Definition boot_labels : list (string * Z) :=
  [("_start", 0xC0100010); ("setup_kernel_pdt", 0xC0100024); ("setup_kernel_pt", 0xC0100036); ("loop", 0xC0100040);
   ("enable_paging", 0xC0100054); ("higher_half", 0xC0100080); ("kernel_main", 0xC01000A8); ("hang", 0xC01000A9);
   ("kernel_virtual_start", 0xC0100000); ("kernel_physical_start", 0x100000);
   ("kernel_pt", 0xC0103000); ("kernel_pdt", 0xC0104000); ("multiboot_info", 0xC0105000); ("grub_magic_number", 0xC0105004);
   ("stack_top", 0xC010A000); ("kernel_virtual_end", 0xC010B000); ("kernel_physical_end", 0x10B000)].

Definition boot_sym (x : string) : Z := default 0 (snd <$> head (filter (λ p, p.1 = x) boot_labels)).

Definition grub_machine : machine unit :=
  Machine unit (λ r, match r with EAX => 0x2BADB002 | EBX => 0x10000 | _ => 0 end)
    (λ s, match s with CS => Segment 0x08 (flat 0 CODE_RX_TYPE) | _ => Segment 0x10 (flat 0 DATA_RW_TYPE) end) 2 (λ c, match c with CR0 => 1 | _ => 0 end)
    {[0x104000 := 0x8B]} [] tt.

Lemma boot_sym_linked : linked boot_sym.
Proof.
  split; try (vm_compute; intuition congruence). apply (bool_decide_unpack _). by vm_compute.
Qed.

Lemma grub_machine_ok : from_grub boot_sym grub_machine.
Proof.
  split; try done.
  change (physical boot_sym "kernel_pt") with 0x103000.
  split; intros i Hi; change (ram grub_machine) with ({[0x104000 := 0x8B]} : gmap Z Z).
  - change (physical boot_sym "kernel_pt") with 0x103000. unfold ld. by rewrite lookup_singleton_ne by lia.
  - change (physical boot_sym "kernel_pdt") with 0x104000. unfold ld. destruct (Z.eqb_spec i 0) as [->|]; [done|].
    by rewrite lookup_singleton_ne by lia.
Qed.

Lemma boot_s_hands_over_witness :
  ∃ k (m' : machine unit), (∀ fuel, run (boot_assembler boot_sym) boot_sym (λ _, mret tt) (k + S fuel)
      (from "_start" (boot_assembler boot_sym)) grub_machine
      = run (boot_assembler boot_sym) boot_sym (λ _, mret tt) fuel (Cli :: from "hang" (boot_assembler boot_sym)) m') ∧
    read SS (gr m' ESP + 32) m' = Ok (0x2BADB002, m') ∧ translate m' 0xC010A123 = Some 0x10A123 ∧
    boot_state 0x110000 (Paging frames (ram m') (cr m' CR3) 0x104000 0x103000 [] (pfa boot_machine)).
Proof.
  destruct (boot_s_hands_over boot_sym (λ _, mret tt) grub_machine 0x2BADB002 0x10000 boot_sym_linked grub_machine_ok)
    as (k & m' & Hrun & Harg & _ & Hhigh & Hstate); [|done..|lia|lia|].
  { intros p. change (ram grub_machine) with ({[0x104000 := 0x8B]} : gmap Z Z). unfold ld.
    destruct (decide (p = 0x104000)) as [->|]; [by vm_compute|]. rewrite lookup_singleton_ne by done. simpl. lia. }
  exists k, m'. split; [exact Hrun|]. split; [exact (Harg 7%nat _ eq_refl)|].
  split; [exact (Hhigh 0x10A123 ltac:(by vm_compute))|].
  apply (Hstate (Paging frames (ram m') (cr m' CR3) 0 0 [] (pfa boot_machine)) 0x110000); by vm_compute.
Defined.
