(* ===== verification/Multitask.v ===== *)
(** * Multitask: the tasks of kernel/arch/i386/task.c

    An earlier multitasking of the kernel: a list of tasks, a stack that is moved,
    and [fork]. The file is not among the sources of the Makefile any more, and the
    functions on pages it calls have been replaced: they are parameters here,
    with [page_size], as is [kmalloc] of the header it names. The stack and base
    pointers of the processor are part of the state, the stack pointer as it is inside
    of a routine of task.s, its return address at the top; what the C code itself pushes
    is not. [get_eip] and [set_esp] do not come back to their caller (Routines): where
    they are called the run of the C code ends, with the address control goes to and
    the stack pointer it goes there with. *)

From S2P Require Import Prelude Layout.

(** ** State

    [words] is the memory that can be accessed, by aligned words; [mm] the state of
    the functions on pages; [interrupts] whether interrupts are enabled. *)
Record multi {Mm : Type} : Type := Multi {
  words : gmap Z Z;
  current_task : Z;
  ready_queue : Z;
  next_pid : Z;
  current_directory : Z;
  initial_esp : Z;
  esp : Z;
  ebp : Z;
  interrupts : bool;
  mm : Mm
}.
Arguments multi : clear implicits.

(** The offsets of the fields of [task_t]. *)
Definition T_ID : Z := Eval vm_compute in offsetof struct_task ["id"].
Definition T_ESP : Z := Eval vm_compute in offsetof struct_task ["esp"].
Definition T_EBP : Z := Eval vm_compute in offsetof struct_task ["ebp"].
Definition T_EIP : Z := Eval vm_compute in offsetof struct_task ["eip"].
Definition T_DIRECTORY : Z := Eval vm_compute in offsetof struct_task ["page_directory"].
Definition T_NEXT : Z := Eval vm_compute in offsetof struct_task ["next"].
Definition sizeof_task : Z := Eval vm_compute in sizeof struct_task.

Section tasks.
Context {Mm : Type}.
Implicit Types s : multi Mm.

Definition set_words (m : gmap Z Z) s : multi Mm :=
  Multi _ m (current_task s) (ready_queue s) (next_pid s) (current_directory s) (initial_esp s) (esp s) (ebp s)
    (interrupts s) (mm s).
Definition set_current (t : Z) s : multi Mm :=
  Multi _ (words s) t (ready_queue s) (next_pid s) (current_directory s) (initial_esp s) (esp s) (ebp s)
    (interrupts s) (mm s).
Definition set_ready (t : Z) s : multi Mm :=
  Multi _ (words s) (current_task s) t (next_pid s) (current_directory s) (initial_esp s) (esp s) (ebp s)
    (interrupts s) (mm s).
Definition set_next_pid (n : Z) s : multi Mm :=
  Multi _ (words s) (current_task s) (ready_queue s) n (current_directory s) (initial_esp s) (esp s) (ebp s)
    (interrupts s) (mm s).
Definition set_stack (sp bp : Z) s : multi Mm :=
  Multi _ (words s) (current_task s) (ready_queue s) (next_pid s) (current_directory s) (initial_esp s) sp bp
    (interrupts s) (mm s).
Definition set_interrupts (b : bool) s : multi Mm :=
  Multi _ (words s) (current_task s) (ready_queue s) (next_pid s) (current_directory s) (initial_esp s) (esp s)
    (ebp s) b (mm s).

(** Memory, an access outside of which is a fault. *)
Definition load (a : Z) : M (multi Mm) Z := gets (λ s, words s !! a) ≫= of_option.
Definition store (a w : Z) : M (multi Mm) unit :=
  load a ≫= λ _, modify (λ s, set_words (<[a := w]> (words s)) s).

Definition disable_interrupts : M (multi Mm) unit := modify (set_interrupts false).
Definition enable_interrupts : M (multi Mm) unit := modify (set_interrupts true).

(** task.s; [esp] is what [get_esp] answers. [get_eip] takes its return address off
    the stack and returns to the word under it; [set_esp] returns to the word at the
    top of the stack it has changed to. *)
Definition get_esp : M (multi Mm) Z := gets esp.
Definition get_ebp : M (multi Mm) Z := gets ebp.

Definition get_eip : M (multi Mm) (control Z) :=
  sp ← gets esp;
  target ← load (sp +ᵤ 4);
  modify (λ s, set_stack (sp +ᵤ 8) (ebp s) s) ≫= λ _, mret (Away target).

Definition set_esp (v : Z) : M (multi Mm) (control unit) :=
  target ← load v;
  modify (λ s, set_stack (v +ᵤ 4) (ebp s) s) ≫= λ _, mret (Away target).

Definition set_ebp (v : Z) : M (multi Mm) unit := modify (λ s, set_stack (esp s) v s).

(** ** Operations *)

Context (page_size : Z).
Context (get_page : Z → Z → Z → M (multi Mm) Z) (alloc_frame : Z → Z → Z → M (multi Mm) unit).
Context (clone_page_directory : Z → M (multi Mm) Z) (flush_tlb : M (multi Mm) unit).
Context (kmalloc : Z → M (multi Mm) Z).

(** One turn of the first loop of [move_stack]. *)
Definition map_page (i : Z) : M (multi Mm) unit :=
  dir ← gets current_directory;
  page ← get_page i 1 dir;
  alloc_frame page 0 1.

(** [for (i = start; i >= end; i -= PAGE_SIZE)] *)
Fixpoint map_stack (fuel : nat) (i end_ : Z) : M (multi Mm) unit :=
  match fuel with
  | O => out_of_fuel
  | S fuel =>
    if end_ <=? i then map_page i ≫= λ _, map_stack fuel (i -ᵤ page_size) end_
    else mret tt
  end.

(** [memcpy] of [n] bytes, by words. *)
Definition copy_stack (dst src n : Z) : M (multi Mm) unit :=
  for_each (seqZ 0 (n / 4)) (λ k, w ← load (src +ᵤ 4 * k); store (dst +ᵤ 4 * k) w).

(** One turn of the loop that backtraces through the new stack. *)
Definition relocate (old_stack_pointer initial offset i : Z) : M (multi Mm) unit :=
  tmp ← load i;
  if (old_stack_pointer <? tmp) && (tmp <? initial) then store i (tmp +ᵤ offset) else mret tt.

(** [for (i = start; i > start - size; i -= 4)] *)
Fixpoint relocate_loop (fuel : nat) (old_stack_pointer initial offset i limit : Z) : M (multi Mm) unit :=
  match fuel with
  | O => out_of_fuel
  | S fuel =>
    if limit <? i then
      relocate old_stack_pointer initial offset i ≫= λ _,
      relocate_loop fuel old_stack_pointer initial offset (i -ᵤ 4) limit
    else mret tt
  end.

Definition move_stack (fuel : nat) (new_stack_start size : Z) : M (multi Mm) (control unit) :=
  let start := new_stack_start in
  let end_ := new_stack_start -ᵤ size in
  map_stack fuel start end_ ≫= λ _,
  flush_tlb ≫= λ _,
  old_stack_pointer ← get_esp;
  old_base_pointer ← get_ebp;
  initial ← gets initial_esp;
  let offset := new_stack_start -ᵤ initial in
  let new_stack_pointer := old_stack_pointer +ᵤ offset in
  let new_base_pointer := old_base_pointer +ᵤ offset in
  copy_stack new_stack_pointer old_stack_pointer (initial -ᵤ old_stack_pointer) ≫= λ _,
  relocate_loop fuel old_stack_pointer initial offset new_stack_start (new_stack_start -ᵤ size) ≫= λ _,
  set_esp new_stack_pointer ⟫= λ _,
  set_ebp new_base_pointer ≫= λ _, mret (Back tt).

(** [next_pid++] *)
Definition take_pid : M (multi Mm) Z :=
  n ← gets next_pid; modify (set_next_pid (n +ᵤ 1)) ≫= λ _, mret n.

(** The fields of a new task; the pointer may be null. *)
Definition new_task (t directory : Z) : M (multi Mm) unit :=
  id ← take_pid;
  store (t +ᵤ T_ID) id ≫= λ _,
  store (t +ᵤ T_EBP) 0 ≫= λ _,
  store (t +ᵤ T_ESP) 0 ≫= λ _,
  store (t +ᵤ T_EIP) 0 ≫= λ _,
  store (t +ᵤ T_DIRECTORY) directory ≫= λ _,
  store (t +ᵤ T_NEXT) 0.

Definition init_tasks (fuel : nat) : M (multi Mm) (control unit) :=
  disable_interrupts ≫= λ _,
  move_stack fuel 0x80000 0x2000 ⟫= λ _,
  t ← kmalloc sizeof_task;
  modify (set_ready t) ≫= λ _,
  modify (set_current t) ≫= λ _,
  dir ← gets current_directory;
  new_task t dir ≫= λ _,
  enable_interrupts ≫= λ _, mret (Back tt).

(** [while (tmp_task->next)]: the last task. *)
Fixpoint last_task (fuel : nat) (tmp_task : Z) : M (multi Mm) Z :=
  match fuel with
  | O => out_of_fuel
  | S fuel =>
    next ← load (tmp_task +ᵤ T_NEXT);
    if next =? 0 then mret tmp_task else last_task fuel next
  end.

(** A new task, at the end of the queue. *)
Definition append_task (fuel : nat) (t directory : Z) : M (multi Mm) unit :=
  new_task t directory ≫= λ _,
  queue ← gets ready_queue;
  tmp_task ← last_task fuel queue;
  store (tmp_task +ᵤ T_NEXT) t.

Definition fork (fuel : nat) : M (multi Mm) (control Z) :=
  disable_interrupts ≫= λ _,
  parent_task ← gets current_task;
  dir ← gets current_directory;
  directory ← clone_page_directory dir;
  t ← kmalloc sizeof_task;
  append_task fuel t directory ≫= λ _,
  current ← gets current_task;
  if current =? parent_task then
    sp ← get_esp;
    store (t +ᵤ T_ESP) sp ≫= λ _,
    bp ← get_ebp;
    store (t +ᵤ T_ESP) bp ≫= λ _,
    get_eip ⟫= λ ip,
    store (t +ᵤ T_EIP) ip ≫= λ _,
    enable_interrupts ≫= λ _,
    id ← load (t +ᵤ T_ID);
    mret (Back id)
  else mret (Back 0).
End tasks.
