(* ===== verification/MultitaskSpec.v ===== *)
(** * MultitaskSpec: moving the stack, and forking *)

From S2P Require Import Prelude Multitask.

Section spec.
Context {Mm : Type}.
Implicit Types (s : multi Mm) (m : gmap Z Z).

(** [s'] has the memory of [s] and more, and the rest of its state. *)
Record grown s s' : Prop := Grown {
  gn_words : words s ⊆ words s';
  gn_current : current_task s' = current_task s;
  gn_ready : ready_queue s' = ready_queue s;
  gn_pid : next_pid s' = next_pid s;
  gn_directory : current_directory s' = current_directory s;
  gn_initial : initial_esp s' = initial_esp s;
  gn_esp : esp s' = esp s;
  gn_ebp : ebp s' = ebp s;
  gn_interrupts : interrupts s' = interrupts s
}.

#[global] Instance grown_preorder : PreOrder grown.
Proof.
  split; [by split|]. intros s1 s2 s3 [] []. split; try congruence. by etrans.
Qed.

Lemma task_load_ok s a w : words s !! a = Some w → load a s = Ok (w, s).
Proof. intros H. unfold load. rewrite (bind_ok _ _ s (words s !! a) s) by done. by rewrite H. Qed.

Lemma task_store_ok s a w : is_Some (words s !! a) → store a w s = Ok (tt, set_words (<[a := w]> (words s)) s).
Proof. intros [v H]. unfold store. by rewrite (bind_ok _ _ _ _ _ (task_load_ok s a v H)). Qed.

Lemma set_words_id s : set_words (words s) s = s.
Proof. by destruct s. Qed.

Lemma set_words_twice m m' s : set_words m' (set_words m s) = set_words m' s.
Proof. done. Qed.

Lemma task_store_fault s a w : words s !! a = None → store a w s = Fault.
Proof. intros H. unfold store, load, mbind, M_bind, gets. by rewrite H. Qed.

(** ** Copying the stack *)

(** [n] words from [src] on, copied to [dst] on. *)
Definition words_copied m m' (dst src n : Z) : Prop :=
  (∀ k, 0 <= k < n → m' !! (dst + 4 * k) = m !! (src + 4 * k)) ∧
  (∀ a, (∀ k, 0 <= k < n → a ≠ dst + 4 * k) → m' !! a = m !! a).

Lemma copy_words_from (n : nat) : ∀ j s (dst src : Z),
  0 <= j → 0 <= dst → 0 <= src → dst + 4 * (j + Z.of_nat n) <= 4294967296 → src + 4 * (j + Z.of_nat n) <= 4294967296 →
  (∀ k k', j <= k < j + Z.of_nat n → j <= k' < j + Z.of_nat n → dst + 4 * k ≠ src + 4 * k') →
  (∀ k, j <= k < j + Z.of_nat n → is_Some (words s !! (src + 4 * k)) ∧ is_Some (words s !! (dst + 4 * k))) →
  ∃ m', for_each (seqZ j (Z.of_nat n)) (λ k, w ← load (src +ᵤ 4 * k); store (dst +ᵤ 4 * k) w) s
      = Ok (tt, set_words m' s) ∧
    (∀ k, j <= k < j + Z.of_nat n → m' !! (dst + 4 * k) = words s !! (src + 4 * k)) ∧
    (∀ a, (∀ k, j <= k < j + Z.of_nat n → a ≠ dst + 4 * k) → m' !! a = words s !! a).
Proof.
  induction n as [|n IH]; intros j s dst src Hj Hd Hs Hd4 Hs4 Hdis Hacc.
  { exists (words s). split; [by rewrite set_words_id|]. split; [lia|done]. }
  rewrite seqZ_step by lia. replace (Z.of_nat (S n) - 1) with (Z.of_nat n) by lia. cbn [for_each].
  destruct (Hacc j ltac:(lia)) as [[w Hw] Hds].
  rewrite bind_assoc, !u32_small by lia. rewrite (bind_ok _ _ _ _ _ (task_load_ok s _ w Hw)).
  rewrite (bind_ok _ _ _ _ _ (task_store_ok s _ w Hds)). set (s1 := set_words _ s).
  destruct (IH (j + 1) s1 dst src) as (m'&E&Hc&Ho); try lia.
  { intros k k' ? ?. apply Hdis; lia. }
  { intros k Hk. destruct (Hacc k ltac:(lia)) as [H1 H2]. simpl.
    rewrite !lookup_insert_ne by (try lia; apply Hdis; lia). done. }
  exists m'. split; [exact E|]. split.
  - intros k Hk. destruct (decide (k = j)) as [->|Hne].
    + rewrite Ho by lia. simpl. by rewrite lookup_insert_eq, Hw.
    + rewrite Hc by lia. simpl. apply lookup_insert_ne, Hdis; lia.
  - intros a Ha. rewrite Ho by (intros k Hk; apply Ha; lia). simpl. apply lookup_insert_ne.
    specialize (Ha j ltac:(lia)). lia.
Qed.

(** ** Relocating what was copied *)

(** What the backtrace makes of a word. *)
Definition relocated (old_sp initial offset w : Z) : Z :=
  if (old_sp <? w) && (w <? initial) then u32 (w + offset) else w.

Lemma relocate_ok s old_sp initial offset i w :
  words s !! i = Some w →
  relocate old_sp initial offset i s
  = Ok (tt, set_words (<[i := relocated old_sp initial offset w]> (words s)) s).
Proof.
  intros Hw. unfold relocate, relocated. rewrite (bind_ok _ _ _ _ _ (task_load_ok s i w Hw)).
  destruct ((old_sp <? w) && (w <? initial)).
  - by apply task_store_ok; exists w.
  - rewrite insert_id by done. by rewrite set_words_id.
Qed.

Lemma relocate_loop_ok old_sp initial offset (n : nat) : ∀ fuel s i limit,
  0 <= limit → i = limit + 4 * Z.of_nat n → i < 4294967296 → (n < fuel)%nat →
  (∀ k, 0 <= k < Z.of_nat n → is_Some (words s !! (i - 4 * k))) →
  ∃ m', relocate_loop fuel old_sp initial offset i limit s = Ok (tt, set_words m' s) ∧
    (∀ k, 0 <= k < Z.of_nat n →
       m' !! (i - 4 * k) = relocated old_sp initial offset <$> words s !! (i - 4 * k)) ∧
    (∀ a, (∀ k, 0 <= k < Z.of_nat n → a ≠ i - 4 * k) → m' !! a = words s !! a).
Proof.
  induction n as [|n IH]; intros fuel s i limit Hl Hi Hlt Hf Hacc; (destruct fuel as [|fuel]; [lia|]);
    cbn [relocate_loop].
  { destruct (Z.ltb_spec limit i); [lia|]. exists (words s). split; [by rewrite set_words_id|]. split; [lia|done]. }
  destruct (Z.ltb_spec limit i); [|lia]. destruct (Hacc 0 ltac:(lia)) as [w Hw]. rewrite Z.mul_0_r, Z.sub_0_r in Hw.
  rewrite (bind_ok _ _ _ _ _ (relocate_ok s old_sp initial offset i w Hw)). set (s1 := set_words _ s).
  rewrite u32_small by lia.
  destruct (IH fuel s1 (i - 4) limit) as (m'&E&Hc&Ho); try lia.
  { intros k Hk. simpl. rewrite lookup_insert_ne by lia. replace (i - 4 - 4 * k) with (i - 4 * (k + 1)) by lia.
    apply Hacc. lia. }
  exists m'. split; [exact E|]. split.
  - intros k Hk. destruct (decide (k = 0)) as [->|Hne].
    + rewrite Z.mul_0_r, Z.sub_0_r, Ho by lia. simpl. by rewrite lookup_insert_eq, Hw.
    + specialize (Hc (k - 1) ltac:(lia)). replace (i - 4 - 4 * (k - 1)) with (i - 4 * k) in Hc by lia.
      rewrite Hc. simpl. by rewrite lookup_insert_ne by lia.
  - intros a Ha. rewrite Ho.
    + simpl. apply lookup_insert_ne. specialize (Ha 0 ltac:(lia)). lia.
    + intros k Hk. specialize (Ha (k + 1) ltac:(lia)). lia.
Qed.

(** ** The functions on pages

    What task.c relies on: [alloc_frame] on the page [get_page] answers makes
    the memory of the page accessible; neither changes what can be read. *)

Context (page_size : Z).
Context (get_page : Z → Z → Z → M (multi Mm) Z) (alloc_frame : Z → Z → Z → M (multi Mm) unit).
Context (flush_tlb : M (multi Mm) unit).

(** The aligned words of [n] bytes at [a] are in memory. *)
Definition accessible m a n : Prop := ∀ x, a <= x < a + n → x mod 4 = 0 → is_Some (m !! x).

Definition pages_law : Prop := ∀ s i dir,
  ∃ page s1 s2, get_page i 1 dir s = Ok (page, s1) ∧ alloc_frame page 0 1 s1 = Ok (tt, s2) ∧ grown s s2 ∧
    accessible (words s2) (i - i mod page_size) page_size.

Definition flush_law : Prop := ∀ s, ∃ s', flush_tlb s = Ok (tt, s') ∧ grown s s'.

Local Abbreviation map_page := (map_page get_page alloc_frame).
Local Abbreviation map_stack := (map_stack page_size get_page alloc_frame).
Local Abbreviation move_stack := (move_stack page_size get_page alloc_frame flush_tlb).

Lemma accessible_mono m m' a n : m ⊆ m' → accessible m a n → accessible m' a n.
Proof. intros Hs Ha x Hx Hm. destruct (Ha x Hx Hm) as [w Hw]. exists w. by apply (lookup_weaken m m'). Qed.

Lemma map_page_ok s i :
  pages_law → ∃ s', map_page i s = Ok (tt, s') ∧ grown s s' ∧ accessible (words s') (i - i mod page_size) page_size.
Proof.
  intros Hp. destruct (Hp s i (current_directory s)) as (page&s1&s2&E1&E2&Hg&Ha).
  exists s2. split; [|done]. unfold Multitask.map_page. rewrite (bind_ok _ _ s (current_directory s) s) by done.
  by rewrite (bind_ok _ _ _ _ _ E1).
Qed.

Lemma page_span (n : nat) : 0 < page_size → 0 <= page_size * Z.of_nat n.
Proof. intros. apply Z.mul_nonneg_nonneg; lia. Qed.

(** The loop over the pages from [i] down to [end_], [n] pages below it. *)
Lemma map_stack_ok (n : nat) : ∀ fuel s i end_,
  pages_law → 0 < page_size → i mod page_size = 0 → 0 < end_ → i = end_ + page_size * Z.of_nat n →
  i < 4294967296 → (S n < fuel)%nat →
  ∃ s', map_stack fuel i end_ s = Ok (tt, s') ∧ grown s s' ∧ accessible (words s') end_ (page_size * (Z.of_nat n + 1)).
Proof.
  induction n as [|n IH]; intros fuel s i end_ Hp Hps Hi He Hin Hlt Hf;
    assert (Hge : end_ <= i) by (rewrite Hin; first [pose proof (page_span (S n) Hps)|pose proof (page_span 0 Hps)]; lia);
    (destruct fuel as [|fuel]; [lia|]); cbn [Multitask.map_stack]; (destruct (Z.leb_spec end_ i); [|lia]);
    destruct (map_page_ok s i Hp) as (s1&E1&Hg1&Ha1); rewrite (bind_ok _ _ _ _ _ E1); rewrite Hi, Z.sub_0_r in Ha1.
  - change (Z.of_nat 0) with 0 in Hin. rewrite Z.mul_0_r, Z.add_0_r in Hin. subst i.
    exists s1. split; [|split; [done|]].
    + destruct fuel as [|fuel]; [lia|]. cbn [Multitask.map_stack].
      assert (page_size <= end_). { apply Z.mod_divide in Hi as [k Hk]; [|lia]. assert (0 < k) by nia. nia. }
      rewrite u32_small by lia. destruct (Z.leb_spec end_ (end_ - page_size)); [lia|done].
    + by replace (page_size * (Z.of_nat 0 + 1)) with page_size by lia.
  - assert (Hmod : (i - page_size) mod page_size = 0).
    { replace (i - page_size) with (i + (-1) * page_size) by lia. by rewrite Z.mod_add by lia. }
    assert (Hn : page_size * Z.of_nat (S n) = page_size * Z.of_nat n + page_size) by lia.
    pose proof (page_span n Hps). rewrite u32_small by lia.
    destruct (IH fuel s1 (i - page_size) end_) as (s2&E2&Hg2&Ha2); try done; try lia.
    exists s2. split; [done|]. split; [by etrans|]. intros x Hx Hm.
    destruct (decide (x < i)).
    + apply Ha2; [lia|done].
    + apply (accessible_mono (words s1) (words s2) i page_size); [apply Hg2|done|lia|done].
Qed.

(** ** Moving *)

(** A stack of [n] bytes that [move_stack] can move: it fits into [size] bytes
    below [start], whole pages, and lies elsewhere. *)
Record movable s (start size n : Z) : Prop := Movable {
  mv_size : 0 < size ∧ size < start ∧ start + page_size <= 4294967296;
  mv_pages : start mod page_size = 0 ∧ size mod page_size = 0 ∧ page_size mod 4 = 0 ∧ 0 < page_size;
  mv_stack : initial_esp s = esp s + n ∧ 0 < n < size ∧ n mod 4 = 0 ∧ esp s mod 4 = 0;
  mv_range : 0 <= esp s ∧ initial_esp s < 4294967296;
  mv_apart : initial_esp s <= start - size ∨ start + page_size <= esp s;
  mv_words : accessible (words s) (esp s) n
}.

(** What [move_stack] leaves of [s]: the stack copied to below [start], each word that
    points into the old one moved with it, and the memory outside of the new stack as
    it was. Control goes to the word at the top of the copy, [target], with the stack
    pointer above it and the base pointer still that of the old stack. *)
Record moved s s' (start size n target : Z) : Prop := Moved {
  md_target : words s' !! (start - n) = Some target;
  md_esp : esp s' = start - n + 4;
  md_ebp : ebp s' = ebp s;
  md_words a : start - n <= a < start → a mod 4 = 0 →
    words s' !! a = relocated (esp s) (initial_esp s) (u32 (start - initial_esp s))
      <$> words s !! (a - start + initial_esp s);
  md_others a : is_Some (words s !! a) → ¬ start - size < a <= start → words s' !! a = words s !! a;
  md_rest : current_task s' = current_task s ∧ ready_queue s' = ready_queue s ∧ next_pid s' = next_pid s ∧
    current_directory s' = current_directory s ∧ interrupts s' = interrupts s
}.

Lemma set_esp_away s v w :
  words s !! v = Some w → set_esp v s = Ok (Away w, set_stack (v +ᵤ 4) (ebp s) s).
Proof. intros H. unfold set_esp. by rewrite (bind_ok _ _ _ _ _ (task_load_ok s v w H)). Qed.

Lemma aligned_sub a b : a mod 4 = 0 → b mod 4 = 0 → (a - b) mod 4 = 0.
Proof. Z.to_euclidean_division_equations; lia. Qed.

Lemma aligned_offset a k : a mod 4 = 0 → (a + 4 * k) mod 4 = 0.
Proof. Z.to_euclidean_division_equations; lia. Qed.

Lemma multiple_aligned a b : a mod b = 0 → b mod 4 = 0 → 0 < b → a mod 4 = 0.
Proof.
  intros Ha Hb Hp. apply Z.mod_divide in Ha as [k ->]; [|lia]. apply Z.mod_divide in Hb as [j ->]; [|lia].
  rewrite Z.mul_assoc. apply Z.mod_mul. lia.
Qed.

(** The copy and the backtrace, on memory where both stacks can be accessed. *)
Lemma relocation_ok s (start size n : Z) fuel :
  movable s start size n → accessible (words s) (start - size) (size + page_size) → (Z.to_nat (size / 4) < fuel)%nat →
  ∃ m', (copy_stack (start - n) (esp s) n ≫= λ _,
         relocate_loop fuel (esp s) (initial_esp s) (u32 (start - initial_esp s)) start (start - size)) s
      = Ok (tt, set_words m' s) ∧
    (∀ a, start - n <= a < start → a mod 4 = 0 →
       m' !! a = relocated (esp s) (initial_esp s) (u32 (start - initial_esp s)) <$> words s !! (a - start + initial_esp s)) ∧
    (∀ a, ¬ start - size < a <= start → m' !! a = words s !! a).
Proof.
  intros [Hsz (Hp1&Hp2&Hp4&Hp) (Hi&Hn&Hn4&Hsp) Hr Hap Hw] Hacc Hf.
  pose proof (multiple_aligned _ _ Hp1 Hp4 Hp) as Hs4. pose proof (multiple_aligned _ _ Hp2 Hp4 Hp) as Hz4.
  pose proof (aligned_sub _ _ Hs4 Hn4) as Hd4. pose proof (aligned_sub _ _ Hs4 Hz4) as He4.
  assert (En : 4 * (n / 4) = n) by (Z.to_euclidean_division_equations; lia).
  assert (Ez : 4 * (size / 4) = size) by (clear - Hz4; Z.to_euclidean_division_equations; lia).
  set (dst := start - n) in *. set (N := Z.to_nat (n / 4)).
  assert (EN : Z.of_nat N = n / 4) by (clear - Hn; unfold N; rewrite Z2Nat.id; [done|apply Z.div_pos; lia]).
  destruct (copy_words_from N 0 s dst (esp s)) as (m1&E1&Hc1&Ho1); rewrite ?EN; try lia.
  { intros k Hk. split; [apply Hw; [lia|by apply aligned_offset]|apply Hacc; [lia|by apply aligned_offset]]. }
  unfold copy_stack. rewrite EN in E1, Hc1, Ho1. rewrite (bind_ok _ _ _ _ _ E1). set (s1 := set_words m1 s).
  assert (Hsome : ∀ a, is_Some (words s !! a) → is_Some (m1 !! a)).
  { intros a Ha. destruct (decide (dst <= a < dst + n ∧ a mod 4 = 0)) as [[Hin Ha4]|Hno].
    - pose proof (aligned_sub _ _ Ha4 Hd4) as Hda.
      assert (Eb : a = dst + 4 * ((a - dst) / 4)) by (clear - Hda; Z.to_euclidean_division_equations; lia).
      rewrite Eb, Hc1 by lia. apply Hw; [lia|by apply aligned_offset].
    - rewrite Ho1; [done|]. intros k Hk ->. apply Hno. split; [lia|by apply aligned_offset]. }
  set (Zn := Z.to_nat (size / 4)).
  assert (EZ : Z.of_nat Zn = size / 4) by (clear - Hsz; unfold Zn; rewrite Z2Nat.id; [done|apply Z.div_pos; lia]).
  destruct (relocate_loop_ok (esp s) (initial_esp s) (u32 (start - initial_esp s)) Zn fuel s1 start (start - size))
    as (m2&E2&Hc2&Ho2); rewrite ?EZ; try lia.
  { intros k Hk. simpl. apply Hsome, Hacc; [lia|]. replace (start - 4 * k) with (start + 4 * (- k)) by lia.
    by apply aligned_offset. }
  rewrite EZ in Hc2, Ho2. exists m2. split; [exact E2|]. split.
  - intros a Ha Ha4. pose proof (aligned_sub _ _ Hs4 Ha4) as Hsa.
    assert (Ea : a = start - 4 * ((start - a) / 4)) by (clear - Hsa; Z.to_euclidean_division_equations; lia).
    pose proof (aligned_sub _ _ Ha4 Hd4) as Hda.
    assert (Eb : a = dst + 4 * ((a - dst) / 4)) by (clear - Hda; Z.to_euclidean_division_equations; lia).
    rewrite Ea, Hc2 by lia. rewrite <- Ea. f_equal. simpl. rewrite Eb at 1. rewrite Hc1 by lia. f_equal. lia.
  - intros a Ha. rewrite Ho2.
    + simpl. apply Ho1. intros k Hk. lia.
    + intros k Hk. lia.
Qed.

Lemma move_stack_ok s (start size n : Z) fuel :
  pages_law → flush_law → movable s start size n → (Z.to_nat size + 2 < fuel)%nat →
  ∃ target s', move_stack fuel start size s = Ok (Away target, s') ∧ moved s s' start size n target.
Proof.
  intros Hpl Hfl Hm Hf. pose proof Hm as [Hsz (Hp1&Hp2&Hp4&Hp) (Hi&Hn&Hn4&Hsp) Hr Hap Hw].
  assert (Eq : size = page_size * (size / page_size)).
  { apply Z.mod_divide in Hp2 as [k Hk]; [|lia]. rewrite Hk at 2. rewrite Z.div_mul by lia. lia. }
  assert (Hq : 0 <= size / page_size <= size) by (split; [apply Z.div_pos|apply Z.div_le_upper_bound]; nia).
  unfold Multitask.move_stack. rewrite (u32_small (start - size)) by lia.
  destruct (map_stack_ok (Z.to_nat (size / page_size)) fuel s start (start - size)) as (s1&E1&Hg1&Ha1);
    rewrite ?Z2Nat.id by lia; try done; try lia.
  rewrite (bind_ok _ _ _ _ _ E1). destruct (Hfl s1) as (s2&E2&Hg2). rewrite (bind_ok _ _ _ _ _ E2).
  assert (Hg : grown s s2) by (by etrans). pose proof Hg as [Hww Hwc Hwr Hwp Hwd Hwi Hws Hwb Hwn].
  rewrite (bind_ok _ _ s2 (esp s) s2) by (by rewrite <- Hws). rewrite (bind_ok _ _ s2 (ebp s) s2) by (by rewrite <- Hwb).
  rewrite (bind_ok _ _ s2 (initial_esp s) s2) by (by rewrite <- Hwi). cbv zeta beta.
  assert (Hm2 : movable s2 start size n).
  { split; rewrite ?Hws, ?Hwi; try done. apply (accessible_mono (words s)); done. }
  assert (Ea2 : accessible (words s2) (start - size) (size + page_size)).
  { apply (accessible_mono (words s1)); [apply Hg2|]. rewrite Z2Nat.id in Ha1 by lia.
    rewrite Z.mul_add_distr_l, Z.mul_1_r, <- Eq in Ha1. done. }
  destruct (relocation_ok s2 start size n fuel Hm2 Ea2) as (m'&E3&Hin&Hout).
  { apply (Nat.le_lt_trans _ (Z.to_nat size)); [|lia]. apply Z2Nat.inj_le; [apply Z.div_pos; lia|lia|].
    apply Z.div_le_upper_bound; lia. }
  rewrite Hws, Hwi in E3, Hin.
  assert (Esp : esp s +ᵤ (start -ᵤ initial_esp s) = start - n).
  { unfold u32. rewrite Zplus_mod_idemp_r. replace (esp s + (start - initial_esp s)) with (start - n) by lia.
    apply Z.mod_small. lia. }
  rewrite Esp, (u32_small (initial_esp s - esp s)) by lia. replace (initial_esp s - esp s) with n by lia.
  rewrite <- (bind_assoc _ _ _ s2), (bind_ok _ _ _ _ _ E3).
  assert (Hd4 : (start - n) mod 4 = 0) by (apply aligned_sub; [by apply (multiple_aligned _ _ Hp1)|done]).
  destruct (Hw (esp s)) as [old Hold]; [lia|done|]. pose proof (Hin (start - n) ltac:(lia) Hd4) as Htop.
  replace (start - n - start + initial_esp s) with (esp s) in Htop by lia.
  rewrite (lookup_weaken _ _ _ _ Hold Hww) in Htop.
  assert (4 <= n) by (clear - Hn Hn4; Z.to_euclidean_division_equations; lia).
  eexists _, _. split.
  { rewrite (go_on_away _ _ _ _ _ (set_esp_away (set_words m' s2) _ _ Htop)). reflexivity. }
  split; [exact Htop|simpl; by rewrite u32_small by lia|exact Hwb| | |]; cbn [words set_words set_stack].
  - intros a Ha Ha4. rewrite Hin by done. f_equal.
    destruct (Hw (a - start + initial_esp s)) as [w Hw']; [lia| |].
    { replace (a - start + initial_esp s) with (a - (start - initial_esp s)) by lia. apply aligned_sub; [done|].
      rewrite Hi. replace (start - (esp s + n)) with (start - n - esp s) by lia.
      apply aligned_sub; [|done]. apply aligned_sub; [|done]. by apply (multiple_aligned _ _ Hp1). }
    rewrite Hw'. by apply (lookup_weaken (words s)).
  - intros a [w Hw'] Ha. rewrite Hout by done. rewrite Hw'. by apply (lookup_weaken (words s)).
  - done.
Qed.

(** The word control goes to is the one at the top of the old stack. *)
Lemma moved_target s s' (start size n target : Z) :
  movable s start size n → moved s s' start size n target →
  target = relocated (esp s) (initial_esp s) (u32 (start - initial_esp s)) (default 0 (words s !! esp s)).
Proof.
  intros [Hsz (Hp1&_&Hp4&Hp) (Hi&Hn&Hn4&Hsp) Hr _ _] [Ht _ _ Hw _ _].
  assert (Hd4 : (start - n) mod 4 = 0) by (apply aligned_sub; [by apply (multiple_aligned _ _ Hp1)|done]).
  rewrite (Hw (start - n) ltac:(lia) Hd4) in Ht. replace (start - n - start + initial_esp s) with (esp s) in Ht by lia.
  destruct (words s !! esp s); [by injection Ht|discriminate Ht].
Qed.

(** Down to the address 0 the loop over the pages never stops. *)
Lemma map_stack_endless fuel : ∀ s i, pages_law → 0 <= i → map_stack fuel i 0 s = OutOfFuel.
Proof.
  induction fuel as [|fuel IH]; intros s i Hp Hi; [done|]. cbn [Multitask.map_stack].
  destruct (Z.leb_spec 0 i); [|lia]. destruct (map_page_ok s i Hp) as (s1&E1&_). rewrite (bind_ok _ _ _ _ _ E1).
  apply IH; [done|apply u32_range].
Qed.

(** C38: [move_stack] gives the pages below the new start of the stack frames,
    copies the stack there and moves with it every word of it that points into
    the old one, and all other memory is as it was. Then [set_esp] changes to the
    copy and takes the word at its top for its return address: control goes there, the
    base pointer stays that of the old stack, and the task [init_tasks] would make is
    never made: interrupts stay disabled and no memory is asked for. When the stack
    asked for reaches down to the address 0 the first loop never ends: no address is
    below its end. *)
Theorem move_stack_moves s start size n fuel :
  pages_law → flush_law →
  (movable s start size n → (Z.to_nat size + 2 < fuel)%nat →
   ∃ target s', move_stack fuel start size s = Ok (Away target, s') ∧ moved s s' start size n target ∧
     target = relocated (esp s) (initial_esp s) (u32 (start - initial_esp s)) (default 0 (words s !! esp s))) ∧
  (movable s 0x80000 0x2000 n → (Z.to_nat 0x2000 + 2 < fuel)%nat →
   ∀ kmalloc, ∃ target s',
     init_tasks page_size get_page alloc_frame flush_tlb kmalloc fuel s = Ok (Away target, s') ∧
     moved (set_interrupts false s) s' 0x80000 0x2000 n target) ∧
  (0 <= start → move_stack fuel start start s = OutOfFuel).
Proof.
  intros Hp Hf. split; [|split].
  { intros Hm Hfuel. destruct (move_stack_ok s start size n fuel Hp Hf Hm Hfuel) as (target & s' & E & Hmv).
    exists target, s'. split; [done|]. split; [done|]. by apply (moved_target s s' start size n). }
  { intros Hm Hfuel kmalloc. unfold init_tasks. rewrite (bind_ok _ _ s tt (set_interrupts false s)) by done.
    assert (Hm0 : movable (set_interrupts false s) 0x80000 0x2000 n) by (by destruct Hm; split).
    destruct (move_stack_ok _ 0x80000 0x2000 n fuel Hp Hf Hm0 Hfuel) as (target & s' & E & Hmv).
    exists target, s'. by rewrite (go_on_away _ _ _ _ _ E). }
  intros Hs. unfold Multitask.move_stack.
  rewrite Z.sub_diag. change (u32 0) with 0. unfold mbind, M_bind. by rewrite map_stack_endless.
Qed.

(** ** Tasks *)

(** A block for a [task_t] at [t]. *)
Definition block m (t : Z) : Prop := 0 < t ∧ t mod 4 = 0 ∧ t + 24 <= 4294967296 ∧ accessible m t 24.

Definition in_block (t a : Z) : Prop := t <= a < t + 24.

#[global] Instance in_block_dec t a : Decision (in_block t a).
Proof. unfold in_block. apply _. Defined.

(** The fields of the task at [t]. *)
Definition task_at m (t id sp bp ip dir next : Z) : Prop :=
  m !! t = Some id ∧ m !! (t + 4) = Some sp ∧ m !! (t + 8) = Some bp ∧ m !! (t + 12) = Some ip ∧
  m !! (t + 16) = Some dir ∧ m !! (t + 20) = Some next.

Lemma block_field m t off : block m t → 0 <= off < 24 → off mod 4 = 0 → t +ᵤ off = t + off ∧ is_Some (m !! (t + off)).
Proof.
  intros (?&?&?&Ha) Ho H4. split; [apply u32_small; lia|]. apply Ha; [lia|].
  clear - H0 H4. Z.to_euclidean_division_equations; lia.
Qed.

Lemma block_mono m m' t : (∀ a, is_Some (m !! a) → is_Some (m' !! a)) → block m t → block m' t.
Proof. intros H (?&?&?&Ha). split_and!; try done. intros x Hx Hm. by apply H, Ha. Qed.

Lemma insert_some m a w x : is_Some (m !! x) → is_Some (<[a := w]> m !! x).
Proof. intros H. destruct (decide (a = x)) as [->|]; [rewrite lookup_insert_eq|rewrite lookup_insert_ne]; eauto. Qed.

Lemma store_field s t off w :
  block (words s) t → 0 <= off < 24 → off mod 4 = 0 →
  store (t +ᵤ off) w s = Ok (tt, set_words (<[t + off := w]> (words s)) s) ∧ block (<[t + off := w]> (words s)) t.
Proof.
  intros Hb Ho H4. destruct (block_field _ _ _ Hb Ho H4) as [-> Hs]. split; [by apply task_store_ok|].
  apply (block_mono (words s)); [|done]. intros a. apply insert_some.
Qed.

Ltac field_store H E :=
  match goal with
  | |- context [(store (?t +ᵤ ?off) ?w ≫= _) ?s] =>
    let H' := fresh in
    destruct (store_field s t off w H ltac:(done) ltac:(done)) as [E H'];
    rewrite (bind_ok _ _ _ _ _ E); clear E H; rename H' into H
  end.

Lemma new_task_ok s t d :
  block (words s) t →
  ∃ m', new_task t d s = Ok (tt, set_words m' (set_next_pid (next_pid s +ᵤ 1) s)) ∧ block m' t ∧
    task_at m' t (next_pid s) 0 0 0 d 0 ∧ (∀ a, ¬ in_block t a → m' !! a = words s !! a) ∧
    (∀ a, is_Some (words s !! a) → is_Some (m' !! a)).
Proof.
  intros Hb. unfold new_task, take_pid. rewrite bind_assoc.
  rewrite (bind_ok _ _ s (next_pid s) s) by done.
  set (s1 := set_next_pid (next_pid s +ᵤ 1) s). rewrite bind_assoc, (bind_ok _ _ s tt s1) by done.
  rewrite (bind_ok _ _ s1 (next_pid s) s1) by done.
  change (words s) with (words s1) in *.
  field_store Hb E. field_store Hb E. field_store Hb E. field_store Hb E. field_store Hb E.
  match goal with |- context [store (t +ᵤ T_NEXT) 0 ?x] =>
    destruct (store_field x t T_NEXT 0 Hb ltac:(done) ltac:(done)) as [E Hb'] end.
  rewrite E. eexists. split; [reflexivity|]. split; [exact Hb'|].
  cbn [words set_words]. unfold T_ID, T_ESP, T_EBP, T_EIP, T_DIRECTORY, T_NEXT.
  split.
  - unfold task_at. rewrite Z.add_0_r. split_and!; simplify_map_eq by lia; done.
  - split; [intros a Ha; unfold in_block in Ha; by rewrite !lookup_insert_ne by lia|].
    intros a Ha. do 6 apply insert_some. exact Ha.
Qed.

Lemma new_task_null s d : words s !! 0 = None → new_task 0 d s = Fault.
Proof.
  intros H. unfold new_task, take_pid. rewrite bind_assoc, (bind_ok _ _ s (next_pid s) s) by done.
  rewrite bind_assoc, (bind_ok _ _ s tt (set_next_pid (next_pid s +ᵤ 1) s)) by done.
  rewrite (bind_ok _ _ _ (next_pid s) (set_next_pid (next_pid s +ᵤ 1) s)) by done.
  unfold mbind, M_bind. by rewrite task_store_fault.
Qed.

(** The tasks of a list, each the next of the one before. *)
Fixpoint linked m (q : list Z) : Prop :=
  match q with
  | [] => True
  | t :: q => block m t ∧ m !! (t + 20) = Some (hd 0 q) ∧ linked m q
  end.

Lemma linked_app m q1 q2 :
  linked m (q1 ++ q2) → q2 ≠ [] → linked m q2 ∧ ∀ t, t ∈ q1 → block m t.
Proof.
  induction q1 as [|t q1 IH]; intros Hl Hq; [split; [done|by intros t ?%not_elem_of_nil]|].
  destruct Hl as (Hb&_&Hl). destruct (IH Hl Hq) as [H1 H2]. split; [done|].
  intros x [->|Hx]%elem_of_cons; [done|by apply H2].
Qed.

Lemma linked_ext m m' q :
  (∀ t, t ∈ q → m' !! (t + 20) = m !! (t + 20)) → (∀ a, is_Some (m !! a) → is_Some (m' !! a)) →
  linked m q → linked m' q.
Proof.
  intros He Hs. induction q as [|t q IH]; [done|]. intros (Hb&Hn&Hl). split; [by apply (block_mono m)|].
  split; [rewrite He by (by left); done|]. apply IH; [|done]. intros x Hx. apply He. by right.
Qed.

Lemma linked_lookup m q : linked m q → ∀ t, t ∈ q → is_Some (m !! (t + 20)).
Proof.
  induction q as [|x q IH]; intros Hl t Ht; [by apply not_elem_of_nil in Ht|]. destruct Hl as (_&Hx&Hl).
  apply elem_of_cons in Ht as [->|Ht]; [by exists (hd 0 q)|by apply IH].
Qed.

(** The last task gets a next. *)
Lemma linked_snoc m q l t :
  NoDup (q ++ [l]) → linked m (q ++ [l]) → block m t → t ∉ q ++ [l] → m !! (t + 20) = Some 0 →
  linked (<[l + 20 := t]> m) ((q ++ [l]) ++ [t]).
Proof.
  intros Hnd Hl Hb Hn Ht. apply NoDup_app in Hnd as (_&Hlq&_).
  assert (Hs : ∀ a, is_Some (m !! a) → is_Some (<[l + 20 := t]> m !! a)) by (intros; by apply insert_some).
  assert (Hlast : linked (<[l + 20 := t]> m) [l; t]).
  { destruct (linked_app m q [l] Hl ltac:(done)) as [(Hbl&_) _].
    split; [by apply (block_mono m)|]. split; [by rewrite lookup_insert_eq|]. split; [by apply (block_mono m)|].
    split; [|done]. rewrite lookup_insert_ne; [done|]. intros E. apply Hn, elem_of_app. right.
    apply list_elem_of_singleton. lia. }
  rewrite <- app_assoc. simpl (_ ++ [t]).
  induction q as [|x q IH]; [exact Hlast|]. destruct Hl as (Hbx&Hx&Hl). split; [by apply (block_mono m)|]. split.
  - rewrite lookup_insert_ne.
    + rewrite Hx. by destruct q.
    + intros E. apply (Hlq x); [by left|]. apply list_elem_of_singleton. lia.
  - apply IH; [intros y Hy; apply Hlq; by right|done|]. intros Hin. apply Hn. by right.
Qed.

Lemma last_task_ok q l : ∀ fuel s,
  linked (words s) (q ++ [l]) → (length q < fuel)%nat → last_task fuel (hd 0 (q ++ [l])) s = Ok (l, s).
Proof.
  induction q as [|t q IH]; intros fuel s (Hb&Hn&Hl) Hf; (destruct fuel as [|fuel]; [simpl in Hf; lia|]); cbn [last_task hd app];
    destruct (block_field _ _ 20 Hb ltac:(done) ltac:(done)) as [E _]; unfold T_NEXT; rewrite E;
    rewrite (bind_ok _ _ _ _ _ (task_load_ok s _ _ Hn)); [done|].
  destruct (linked_app (words s) q [l] Hl ltac:(done)) as [(Hbl&_) Hq].
  assert (Hne : hd 0 (q ++ [l]) ≠ 0).
  { destruct q as [|x q]; simpl; [by destruct Hbl; lia|]. destruct (Hq x) as (?&_); [by left|lia]. }
  destruct (Z.eqb_spec (hd 0 (q ++ [l])) 0); [done|]. apply IH; [done|simpl in Hf; lia].
Qed.

(** ** Memory for a task *)

Context (kmalloc : Z → M (multi Mm) Z).

(** [kmalloc] answers NULL, where nothing can be accessed, or a block apart from
    those of [q]. *)
Definition kmalloc_law (q : list Z) : Prop := ∀ s, ∃ t s', kmalloc sizeof_task s = Ok (t, s') ∧ grown s s' ∧
  (t = 0 ∧ words s' !! 0 = None ∨ block (words s') t ∧ ∀ x, x ∈ q → ∀ a, in_block x a → ¬ in_block t a).

(** ** Forking *)

Context (clone_page_directory : Z → M (multi Mm) Z).

Definition clone_law : Prop := ∀ s dir, ∃ dir' s', clone_page_directory dir s = Ok (dir', s') ∧ grown s s'.

Local Abbreviation fork := (fork clone_page_directory kmalloc).

(** [s'] is [s] with the task [t] at the end of the list [q] that ends in [l], and
    [target] is the word under the return address of [get_eip]. *)
Record forked s s' (q : list Z) (l t dir' target : Z) : Prop := Forked {
  fk_list : linked (words s') ((q ++ [l]) ++ [t]) ∧ ready_queue s' = ready_queue s;
  fk_task : task_at (words s') t (next_pid s) (ebp s) 0 0 dir' 0;
  fk_target : words s' !! (esp s + 4) = Some target;
  fk_others a : is_Some (words s !! a) → ¬ in_block t a → a ≠ l + 20 → words s' !! a = words s !! a;
  fk_pid : next_pid s' = u32 (next_pid s + 1);
  fk_rest : current_task s' = current_task s ∧ current_directory s' = current_directory s ∧
    esp s' = esp s + 8 ∧ ebp s' = ebp s ∧ interrupts s' = false
}.

(** Writing in the new task keeps the list. *)
Lemma linked_outside m m' q t :
  linked m q → (∀ x, x ∈ q → ∀ a, in_block x a → ¬ in_block t a) →
  (∀ a, ¬ in_block t a → m' !! a = m !! a) → (∀ a, is_Some (m !! a) → is_Some (m' !! a)) → linked m' q.
Proof.
  intros Hl Hd Ho Hs. apply (linked_ext m); [|done|done]. intros x Hx. apply Ho, (Hd x Hx). unfold in_block. lia.
Qed.

(** The end of [fork], on the parent's side. *)
Definition parent_side (t : Z) : M (multi Mm) (control Z) :=
  sp ← get_esp;
  store (t +ᵤ T_ESP) sp ≫= λ _,
  bp ← get_ebp;
  store (t +ᵤ T_ESP) bp ≫= λ _,
  get_eip ⟫= λ ip,
  store (t +ᵤ T_EIP) ip ≫= λ _,
  enable_interrupts ≫= λ _,
  id ← load (t +ᵤ T_ID);
  mret (Back id).

Lemma get_eip_away s w :
  0 <= esp s → esp s + 8 < 4294967296 → words s !! (esp s + 4) = Some w →
  get_eip s = Ok (Away w, set_stack (esp s + 8) (ebp s) s).
Proof.
  intros H0 H8 Hw. unfold get_eip. rewrite (bind_ok _ _ s (esp s) s) by done. rewrite !u32_small by lia.
  by rewrite (bind_ok _ _ _ _ _ (task_load_ok s _ w Hw)).
Qed.

Lemma parent_side_ok s t id dir :
  block (words s) t → task_at (words s) t id 0 0 0 dir 0 →
  0 <= esp s → esp s + 8 < 4294967296 → is_Some (words s !! (esp s + 4)) →
  ∃ target m', parent_side t s = Ok (Away target, set_stack (esp s + 8) (ebp s) (set_words m' s)) ∧
    m' !! (esp s + 4) = Some target ∧ task_at m' t id (ebp s) 0 0 dir 0 ∧
    (∀ a, ¬ in_block t a → m' !! a = words s !! a) ∧ (∀ a, is_Some (words s !! a) → is_Some (m' !! a)).
Proof.
  intros Hb (H0&H4&H8&H12&H16&H20) He0 He8 Hsp. unfold parent_side, get_esp, get_ebp.
  rewrite (bind_ok _ _ s (esp s) s) by done. field_store Hb E.
  match goal with |- context [(gets ebp ≫= _) ?x] => rewrite (bind_ok _ _ x (ebp s) x) by done end.
  field_store Hb E. unfold T_ESP in *. cbn [words set_words] in Hb.
  match type of Hb with block ?m _ => set (m' := m) in * end.
  assert (Hs : ∀ a, is_Some (words s !! a) → is_Some (m' !! a)) by (intros a Ha; do 2 apply insert_some; exact Ha).
  destruct (Hs _ Hsp) as [target Ht]. exists target, m'. split; [|split; [exact Ht|split; [|split; [|exact Hs]]]].
  - apply go_on_away. exact (get_eip_away (set_words m' s) target He0 He8 Ht).
  - unfold task_at, m'. split_and!; by simplify_map_eq by lia.
  - intros a Ha. unfold in_block in Ha. unfold m'. by rewrite !lookup_insert_ne by lia.
Qed.

(** The new task, in the state [s2] memory was asked for in, put at the end. *)
Lemma append_task_ok s2 q l t dir' fuel :
  NoDup (q ++ [l]) → linked (words s2) (q ++ [l]) → ready_queue s2 = hd 0 (q ++ [l]) → (length q < fuel)%nat →
  block (words s2) t → (∀ x, x ∈ q ++ [l] → ∀ a, in_block x a → ¬ in_block t a) →
  ∃ m, append_task fuel t dir' s2 = Ok (tt, set_words m (set_next_pid (next_pid s2 +ᵤ 1) s2)) ∧
    block m t ∧ task_at m t (next_pid s2) 0 0 0 dir' 0 ∧ linked m ((q ++ [l]) ++ [t]) ∧
    (∀ a, ¬ in_block t a → a ≠ l + 20 → m !! a = words s2 !! a) ∧
    (∀ a, is_Some (words s2 !! a) → is_Some (m !! a)).
Proof.
  intros Hnd Hl2 Hrq Hf Hb Hdis. unfold append_task. destruct (new_task_ok s2 t dir' Hb) as (m3&E3&Hb3&Ht3&Ho3&Hs3).
  rewrite (bind_ok _ _ _ _ _ E3). set (s3 := set_words m3 (set_next_pid (next_pid s2 +ᵤ 1) s2)).
  assert (Hl3 : linked m3 (q ++ [l])) by (by apply (linked_outside (words s2) m3 _ t)).
  assert (Hnt : t ∉ q ++ [l]) by (intros Hin; apply (Hdis t Hin t); unfold in_block; lia).
  rewrite (bind_ok _ _ s3 (hd 0 (q ++ [l])) s3) by (unfold gets; simpl; by rewrite <- Hrq).
  rewrite (bind_ok _ _ _ _ _ (last_task_ok q l fuel s3 Hl3 Hf)).
  assert (Hbl : block m3 l) by (destruct (linked_app m3 q [l] Hl3 ltac:(done)) as [(?&_) _]; done).
  destruct (store_field s3 l T_NEXT t Hbl ltac:(done) ltac:(done)) as [E4 _].
  assert (Hlt : ¬ in_block t (l + 20)) by (apply (Hdis l); [by apply elem_of_app; right; left|unfold in_block; lia]).
  exists (<[l + 20 := t]> m3). split; [exact E4|]. split; [|split; [|split; [|split]]].
  - apply (block_mono m3); [intros; by apply insert_some|done].
  - destruct Ht3 as (?&?&?&?&?&?). unfold in_block in Hlt. unfold task_at. rewrite !lookup_insert_ne by lia. done.
  - apply linked_snoc; [done|done|done|done|by destruct Ht3 as (_&_&_&_&_&?)].
  - intros a Ha Hne. rewrite lookup_insert_ne by lia. by apply Ho3.
  - intros a Ha. by apply insert_some, Hs3.
Qed.

Lemma linked_grown s s' q : grown s s' → linked (words s) q → linked (words s') q.
Proof.
  intros [Hw _ _ _ _ _ _ _ _] Hl. apply (linked_ext (words s)); [| |done].
  - intros x Hx. destruct (linked_lookup _ _ Hl x Hx) as [w E]. rewrite E. by apply (lookup_weaken (words s)).
  - intros a [w E]. exists w. by apply (lookup_weaken (words s)).
Qed.

(** C40: [fork] disables interrupts and puts a task with the next number and the
    parent's directory cloned at the end of the queue, and changes nothing else of
    what was in memory. The stack pointer recorded for the task is the base pointer,
    and no base pointer is recorded. At [get_eip] it is over: that routine takes its
    return address off the stack and returns to the word under it, so that no
    instruction pointer is recorded, interrupts stay disabled and the parent has no
    answer. When [kmalloc] has no memory for the task, and only then, it writes through
    the null pointer. *)
Theorem fork_appends s q l fuel dir' s1 t s2 :
  clone_law → kmalloc_law (q ++ [l]) →
  NoDup (q ++ [l]) → linked (words s) (q ++ [l]) → ready_queue s = hd 0 (q ++ [l]) → (length q < fuel)%nat →
  0 <= esp s → esp s + 8 < 4294967296 → is_Some (words s !! (esp s + 4)) →
  clone_page_directory (current_directory s) (set_interrupts false s) = Ok (dir', s1) →
  kmalloc sizeof_task s1 = Ok (t, s2) →
  if t =? 0 then fork fuel s = Fault
  else ∃ target s', fork fuel s = Ok (Away target, s') ∧ forked s s' q l t dir' target.
Proof.
  intros Hcl Hkm Hnd Hl Hrq Hf He0 He8 Hsp E1 E2. unfold Multitask.fork.
  rewrite (bind_ok _ _ s tt (set_interrupts false s)) by done. set (s0 := set_interrupts false s) in *.
  rewrite (bind_ok _ _ s0 (current_task s) s0), (bind_ok _ _ s0 (current_directory s) s0) by done.
  rewrite (bind_ok _ _ _ _ _ E1), (bind_ok _ _ _ _ _ E2).
  destruct (Hcl s0 (current_directory s)) as (?&?&E1'&Hg1). rewrite E1 in E1'. injection E1' as <- <-.
  destruct (Hkm s1) as (?&?&E2'&Hg2&Ht). rewrite E2 in E2'. injection E2' as <- <-.
  assert (Hg : grown s0 s2) by (by etrans). pose proof Hg as [Gw Gc Gr Gp Gd Gi Gs Gb Gn].
  assert (Hmono : ∀ a, is_Some (words s !! a) → is_Some (words s2 !! a)).
  { intros a [w Hw]. exists w. by apply (lookup_weaken (words s)). }
  destruct Ht as [[-> Hnull]|[Hb Hdis]].
  { simpl (0 =? 0). unfold append_task, mbind, M_bind. by rewrite new_task_null. }
  destruct (Z.eqb_spec t 0) as [->|_]; [by destruct Hb; lia|].
  destruct (append_task_ok s2 q l t dir' fuel Hnd (linked_grown s0 s2 _ Hg Hl) ltac:(by rewrite Gr) Hf Hb Hdis)
    as (m & E & Hbm & Htm & Hlm & Hom & Hsm).
  set (s4 := set_words m (set_next_pid (next_pid s2 +ᵤ 1) s2)) in *.
  destruct (parent_side_ok s4 t (next_pid s2) dir' Hbm Htm) as (target & m5 & E5 & Htg & Ht5 & Ho5 & Hs5);
    [simpl; by rewrite Gs|simpl; by rewrite Gs|apply Hsm; change (esp s4) with (esp s2); rewrite Gs; by apply Hmono|].
  change (esp s4) with (esp s2) in *. change (ebp s4) with (ebp s2) in *. rewrite ?Gs, ?Gb, ?Gp in *.
  eexists target, _. split.
  { rewrite (bind_ok _ _ _ _ _ E), (bind_ok _ _ s4 (current_task s) s4) by (unfold gets; simpl; by rewrite Gc).
    rewrite Z.eqb_refl. exact E5. }
  split; simpl; rewrite ?Gp, ?Gs, ?Gb; try done.
  - split; [|by rewrite Gr]. apply (linked_ext m); [|done|done]. intros x Hx.
    apply elem_of_app in Hx as [Hx|Hx%list_elem_of_singleton].
    + apply Ho5, (Hdis x Hx). unfold in_block. lia.
    + subst x. destruct Ht5 as (_&_&_&_&_&->), Htm as (_&_&_&_&_&->). done.
  - intros a [w Hw] Ha Hne. rewrite Ho5 by done. cbn [words s4 set_words]. rewrite Hom by done. rewrite Hw.
    by apply (lookup_weaken (words s)).
Qed.
End spec.

(** ** Witnesses: pages of zeros, and one block for tasks *)

Abbreviation machine := (multi unit).

Definition zeros (a n : Z) : gmap Z Z := list_to_map ((λ k, (a + 4 * k, 0)) <$> seqZ 0 n).

Lemma zeros_lookup a n x : a <= x < a + 4 * n → x mod 4 = a mod 4 → is_Some (zeros a n !! x).
Proof.
  intros Hx Hm. destruct (zeros a n !! x) as [w|] eqn:E; [by exists w|]. exfalso.
  apply not_elem_of_list_to_map_2 in E. apply E, list_elem_of_fmap. exists (x, 0). split; [done|].
  apply list_elem_of_fmap. exists ((x - a) / 4). split; [f_equal|apply elem_of_seqZ];
    Z.to_euclidean_division_equations; lia.
Qed.

Definition more_words (m : gmap Z Z) (s : machine) : machine := set_words (words s ∪ m) s.

Lemma more_words_grown m (s : machine) : grown s (more_words m s).
Proof. split; simpl; try done. apply map_union_subseteq_l. Qed.

Lemma more_words_some m (s : machine) x : is_Some (m !! x) → is_Some (words (more_words m s) !! x).
Proof. intros H. apply lookup_union_is_Some. by right. Qed.

Definition demo_get_page (i make dir : Z) : M machine Z := mret (i - i mod 4096).
Definition demo_alloc_frame (page kernel writable : Z) : M machine unit := modify (more_words (zeros page 1024)).
Definition demo_flush : M machine unit := mret tt.
Definition demo_clone (dir : Z) : M machine Z := mret dir.
Definition demo_kmalloc (n : Z) : M machine Z := modify (more_words (zeros 0x500000 6)) ≫= λ _, mret 0x500000.

Lemma demo_pages_law : pages_law 4096 demo_get_page demo_alloc_frame.
Proof.
  intros s i dir. exists (i - i mod 4096), s, (more_words (zeros (i - i mod 4096) 1024) s).
  split; [done|]. split; [done|]. split; [apply more_words_grown|].
  intros x Hx Hm. apply more_words_some, zeros_lookup; [lia|]. rewrite Hm.
  Z.to_euclidean_division_equations; lia.
Qed.

Lemma demo_flush_law : flush_law demo_flush.
Proof. intros s. by exists s. Qed.

Lemma demo_clone_law : clone_law demo_clone.
Proof. intros s dir. by exists dir, s. Qed.

Lemma demo_kmalloc_law q : (∀ x, x ∈ q → x + 24 <= 0x500000) → kmalloc_law demo_kmalloc q.
Proof.
  intros Hq s. exists 0x500000, (more_words (zeros 0x500000 6) s). split; [done|]. split; [apply more_words_grown|].
  right. split; [split_and!; [done..|]|].
  - intros x Hx Hm. apply more_words_some, zeros_lookup; [lia|]. by rewrite Hm.
  - intros x Hx a Ha. unfold in_block in *. specialize (Hq x Hx). lia.
Qed.

(** Four words of stack, the second a saved base pointer; a task at [0x400000]. *)
Definition demo_words : gmap Z Z :=
  <[0x10FFF0 := 7]> (<[0x10FFF4 := 0x10FFFC]> (<[0x10FFF8 := 1]> (<[0x10FFFC := 0]>
    (<[0x400000 := 1]> (zeros 0x400000 6))))).

Definition demo_machine : machine := Multi _ demo_words 0x400000 0x400000 2 0x101000 0x110000 0x10FFF0 0x10FFF4 true tt.

Lemma demo_movable : movable 4096 demo_machine 0x80000 0x2000 16.
Proof.
  split; simpl; try (split_and!; (lia || reflexivity)); [right; lia|].
  intros x Hx Hm. assert (x = 0x10FFF0 ∨ x = 0x10FFF4 ∨ x = 0x10FFF8 ∨ x = 0x10FFFC) as Hc.
  { Z.to_euclidean_division_equations; lia. }
  destruct Hc as [->|[->|[->| ->]]]; by eexists.
Qed.

Lemma move_stack_moves_witness :
  (∃ s', move_stack 4096 demo_get_page demo_alloc_frame demo_flush (Z.to_nat 0x2003) 0x80000 0x2000 demo_machine
       = Ok (Away 7, s') ∧
     esp s' = 0x7FFF4 ∧ words s' !! 0x7FFF4 = Some 0x7FFFC ∧ words s' !! 0x7FFF8 = Some 1) ∧
  (∃ s', init_tasks 4096 demo_get_page demo_alloc_frame demo_flush demo_kmalloc (Z.to_nat 0x2003) demo_machine
       = Ok (Away 7, s') ∧ interrupts s' = false ∧ next_pid s' = 2) ∧
  move_stack 4096 demo_get_page demo_alloc_frame demo_flush 100 0x2000 0x2000 demo_machine = OutOfFuel.
Proof.
  split; [|split].
  - destruct (move_stack_moves 4096 demo_get_page demo_alloc_frame demo_flush demo_machine 0x80000 0x2000 16
      (Z.to_nat 0x2003) demo_pages_law demo_flush_law) as [H _].
    destruct (H demo_movable ltac:(lia)) as (target&s'&E&[_ Hsp _ Hw _ _]&Et). vm_compute in Et. subst target.
    exists s'. split; [exact E|]. split; [exact Hsp|].
    split; [rewrite (Hw 0x7FFF4 ltac:(lia) eq_refl)|rewrite (Hw 0x7FFF8 ltac:(lia) eq_refl)]; reflexivity.
  - destruct (move_stack_moves 4096 demo_get_page demo_alloc_frame demo_flush demo_machine 0x80000 0x2000 16
      (Z.to_nat 0x2003) demo_pages_law demo_flush_law) as (_&H&_).
    destruct (H demo_movable ltac:(lia) demo_kmalloc) as (target&s'&E&Hm). pose proof Hm as [_ _ _ _ _ (_&_&Hn&_&Hi)].
    pose proof (moved_target 4096 demo_get_page demo_alloc_frame (set_interrupts false demo_machine) s' 0x80000 0x2000 16 target
      ltac:(by destruct demo_movable; split) Hm) as Et. vm_compute in Et. subst target.
    exists s'. split; [exact E|]. split; [exact Hi|exact Hn].
  - apply (move_stack_moves 4096 demo_get_page demo_alloc_frame demo_flush demo_machine 0x2000 0x2000 16 100);
      [exact demo_pages_law|exact demo_flush_law|lia].
Defined.

Lemma fork_appends_witness :
  ∃ s' dir', fork demo_clone demo_kmalloc 1 demo_machine = Ok (Away 0x10FFFC, s') ∧
    forked demo_machine s' [] 0x400000 0x500000 dir' 0x10FFFC ∧ interrupts s' = false.
Proof.
  pose proof (fork_appends demo_kmalloc demo_clone demo_machine [] 0x400000 1 0x101000 (set_interrupts false demo_machine)
    0x500000 (more_words (zeros 0x500000 6) (set_interrupts false demo_machine))) as H.
  destruct H as (target & s' & E & Hf).
  - exact demo_clone_law.
  - apply demo_kmalloc_law. intros x Hx. apply list_elem_of_singleton in Hx. subst x. lia.
  - apply NoDup_singleton.
  - split; [|split; [reflexivity|exact I]]. split; [lia|]. split; [reflexivity|]. split; [lia|].
    intros x Hx Hm. unfold demo_machine, demo_words. simpl.
    do 5 apply insert_some. apply zeros_lookup; [lia|by rewrite Hm].
  - reflexivity.
  - simpl. lia.
  - simpl. lia.
  - simpl. lia.
  - by exists 0x10FFFC.
  - reflexivity.
  - reflexivity.
  - pose proof (result_ok _ _ _ (Away 0x10FFFC) E ltac:(vm_compute; reflexivity)) as Er. injection Er as ->.
    exists s', 0x101000. split; [exact E|]. split; [exact Hf|]. by destruct (fk_rest _ _ _ _ _ _ _ Hf) as (_&_&_&_&?).
Defined.
