(* ===== verification/TaskRoutines.v ===== *)
(** * TaskRoutines: task.s against the C code that calls it

    Multitask says what the routines of task.s do to the stack and base pointers, and
    where those that do not come back go. Here it is what the instructions do, on a
    machine that holds Multitask's state. *)

From S2P Require Import Prelude Mmu Gdt Machine StackView Calls Routines Multitask.

Section routines.
Context {X Mm : Type} (sym : string → Z) (ext : string → M (machine X) unit).
Implicit Types (s : multi Mm) (m : machine X).

(** The machine has the pointers of [s], and reads its memory. *)
Record holds s m : Prop := Holds {
  ho_esp : gr m ESP = esp s;
  ho_ebp : gr m EBP = ebp s;
  ho_words a w : words s !! a = Some w → ∃ p, translate m a = Some p ∧ ld (ram m) p = w
}.

(** The routine [l], run from [m], goes to [target] with the pointers of [s]. *)
Definition goes (l : string) (k : nat) m (target : Z) s : Prop :=
  ∃ m', (∀ n, run task_assembler sym ext (k + n) (from l task_assembler) m = Ok (target, m')) ∧
    gr m' ESP = esp s ∧ gr m' EBP = ebp s ∧ ram m' = ram m.

Lemma returns_goes l k m target a sp c s :
  returns sym ext task_assembler l k m target a sp c → sp = esp s → gr m EBP = ebp s → goes l k m target s.
Proof.
  intros (g & f & E & Hsp & _ & Hr) -> Hbp. eexists. split; [exact E|]. split; [exact Hsp|]. split; [|done].
  cbn [gr]. by rewrite Hr.
Qed.

Lemma load_inv a s w s' : load a s = Ok (w, s') → words s !! a = Some w ∧ s' = s.
Proof.
  unfold load, mbind, M_bind, gets, of_option. destruct (words s !! a); [|done]. intros E. by injection E as -> ->.
Qed.

Lemma get_eip_runs s s' m ra w r :
  called m ra w → holds s m → esp s + 12 <= 4294967296 → get_eip s = Ok (r, s') →
  ∃ target, r = Away target ∧ goes "get_eip" 2 m target s'.
Proof.
  intros Hcl [He Hb Hw] H12 E. pose proof Hcl as [_ _ (H0 & H8 & _) _ (q & Hq & Hqw)]. rewrite He in H0, Hq.
  unfold get_eip, mbind, M_bind, gets, modify, mret, M_ret in E. rewrite !u32_small in E by lia.
  destruct (load (esp s + 4) s) as [[target s1]| |] eqn:El; try done.
  apply load_inv in El as [El ->]. injection E as <- <-. exists target. split; [done|].
  destruct (Hw _ _ El) as (p & Hp & Hpw). assert (target = w) as -> by congruence.
  apply (returns_goes _ _ _ _ _ _ _ _ (get_eip_astray sym ext m ra w Hcl ltac:(lia))); simpl; [by rewrite He|done].
Qed.

Lemma set_esp_runs s s' m ra v r :
  called m ra v → holds s m → 0 <= v ∧ v + 8 <= 4294967296 ∧ v mod 4 = 0 → set_esp v s = Ok (r, s') →
  ∃ target, r = Away target ∧ goes "set_esp" 3 m target s'.
Proof.
  intros Hcl [He Hb Hw] Hv E. unfold set_esp, mbind, M_bind, modify, mret, M_ret in E. rewrite u32_small in E by lia.
  destruct (load v s) as [[target s1]| |] eqn:El; try done.
  apply load_inv in El as [El ->]. injection E as <- <-. exists target. split; [done|].
  destruct (Hw _ _ El) as (p & Hp & Hpw).
  by apply (returns_goes _ _ _ _ _ _ _ _ (set_esp_astray sym ext m ra v p target Hcl Hv Hp Hpw)).
Qed.

(** [get_esp] and [get_ebp] come back with the pointers in [eax], [set_ebp] with the
    base pointer changed. *)
Lemma pointers_run s m ra v :
  called m ra v → holds s m →
  returns sym ext task_assembler "get_esp" 2 m ra (esp s) (esp s + 4) (cr m) ∧
  returns sym ext task_assembler "get_ebp" 2 m ra (ebp s) (esp s + 4) (cr m) ∧
  ∀ s', set_ebp v s = Ok (tt, s') →
    ∃ m', (∀ n, run task_assembler sym ext (3 + n) (from "set_ebp" task_assembler) m = Ok (ra, m')) ∧
      gr m' EBP = ebp s' ∧ gr m' ESP = esp s' + 4.
Proof.
  intros Hcl [He Hb _]. destruct (get_registers_ok sym ext m ra v Hcl) as [H1 H2]. rewrite He, Hb in *.
  split; [exact H1|]. split; [exact H2|]. intros s' E. injection E as <-.
  destruct (set_ebp_ok sym ext m ra v Hcl) as (g & E & Hsp & Hbp & _).
  eexists. split; [exact E|]. split; [exact Hbp|]. cbn [gr set_stack esp]. by rewrite Hsp, He.
Qed.
End routines.
